(* ===== verification/_CoqProject ===== *)
-Q . S2P
Prelude.v
PyStd.v
Files.v
Json.v
Documents.v
Amortization.v
Tenant.v
Ledger.v
Savings.v
Loans.v
MfRbac.v
Queue.v
MfControl.v
MfApi.v
Reports.v
MfReads.v
ControlPlane.v
Placement.v
Platform.v
Orchestrator.v
Access.v
Organizations.v
Databases.v
Failover.v
Backups.v
Billing.v
Payments.v
Worker.v
Accounts.v
Nodes.v
DatabaseOps.v
System.v
RateLimit.v
Agent.v
Contract.v
Reads.v
Api.v
Sdk.v
Cli.v
MfPlatform.v
Security.v
Providers.v
Ca.v
Bootstrap.v
Schema.v
Revisions.v
MfRevisions.v
Migrations.v
