(* ===== verification/Prelude.v ===== *)
(** * eminidatabase: a verification library

    eminidatabase rents PostgreSQL databases. A control plane ([src/backend/app]) keeps
    organizations, projects, databases, nodes, backups, invoices and a queue of jobs in
    its own database; an agent on every node ([src/agent/app]) runs what the control
    plane asks for against the PostgreSQL of that node; a microfinance service
    ([src/microfinance/mf_app]), a customer of the platform, gives each institution a
    database of its own, with a double-entry ledger, savings and loans. The library is a
    shallow embedding of the three in Rocq with the theorems that make them correct.

    ** How the code is written here

    A handler of the code, an [async def] over a SQLAlchemy session, is a function in the
    monad [M S A := S -> S * outcome A]: the state reached, and the value returned or the
    exception raised. The state is a record with one finite map per table, from the primary
    key to the row, and a row is a record with the columns the code reads or writes.
    [select] and [rows] are a query; [scalar_one_or_none] and [scalar_one] raise as
    SQLAlchemy's do. An exception keeps the state reached, as assignments are not undone in
    Python; what undoes them is the session of a request, [atomic] for an institution and
    [transaction] for the control plane, which forgets everything but the calls that the
    agents have received. Primary keys are opaque [positive]s; instants and durations are
    integers of microseconds; money in a [Numeric(18, 2)] column is an integer of cents;
    [Decimal] arithmetic runs with 28 digits and its rounding (PyStd). Requests and passes
    run one after the other: the isolation of concurrent sessions is PostgreSQL's.

    What is not under [src/] is a parameter: a class with, as its laws, the documented
    behaviour the code relies on, and a concrete instance, named [example_...], on which
    the witnesses run. [Platform] is the outside world of the control plane (fresh ids,
    Fernet, the agents, the subscribers of webhooks), [Verifier] and [Accounts] are
    signatures and hashes, [Gateways] the payment providers, [NodeAuthority] the certificate
    authority, [Postgres] the SQL editor's connection, [Server] the PostgreSQL, the client
    programs and the object storage of a node, [Network] what an SDK client talks to
    (Sdk) and what the control plane's own clients talk to (Providers),
    [Primitives] PyJWT, argon2, pyotp and Python's secrets, [X509] the package cryptography.
    [Verifier] and [Accounts] are then proved from [Primitives] (Security), [NodeAuthority]
    from [Primitives] and [X509] (Bootstrap). Inside, [JobRow] and [JobStore] are the
    interface between the job queue and the two services that have one.

    ** The files

    - Prelude: the monad, exceptions, tables, sums, the rules [pres] (an invariant kept),
      [keeps] (a relation kept) and [hoare] (a postcondition), and the tactics that walk a
      handler ([minv], [pres_go], [keeps_go]).
    - PyStd: [Decimal], [date], dictionaries and strings of Python. Files: a disk as the
      sequence of its writes, so that a process can be killed between two. Json: a flat
      object of texts, printed and read back. Documents: [json.loads] and [json.dumps] on any
      document, with Python's texts, integers and floats. What is printed, with sorted keys
      or not, is read back as what it was, and two documents with the same sorted text are
      the same.

    The microfinance service.
    - Amortization: [services/amortization.py]. The principals of a schedule sum to the
      loan, to the cent.
    - Tenant, Ledger: [models/tenant/], [services/ledger.py]. A posting books exactly its
      lines, once per idempotency key, keeps [ledger_ok] (every cached balance is the sum of
      its entries, debits equal credits), and [reconcile_balance] agrees with it.
    - Savings, Loans: [services/savings.py], [services/loans.py]. What each operation does on
      each branch, and the invariants [sound] (the books) and [loan_books] (the loans).
    - MfRbac, MfControl, MfApi: [services/rbac.py]; institutions, staff, the queue and the
      onboarding of an institution; the endpoints of a tenant, each with its schema, its
      permission and its errors. A request acts for a member of the staff of the institution
      named in its path, on the database of that institution only.
    - Reports: [services/reports.py], and every state that requests can reach: the trial
      balance balances, the loans agree with their schedules, a loan moves along its state
      machine.
    - MfReads: the [GET] endpoints of a tenant. In a reachable state the history of a savings
      account adds up to its balance and the schedule of a loan accounts for all of it.

    The control plane.
    - Queue: [services/jobs.py], once for both services: what a claim, a success and a
      failure do, the bounds of the back-off.
    - ControlPlane: [models/], the state [Cp]. [agent_log] is not a table: it is the
      sequence of the calls made to the agents.
    - Placement: [services/node_health.py], [placement.py], [quotas.py],
      [database_lookup.py]; scores are IEEE doubles.
    - Platform: enqueueing, the agents' client, webhook deliveries.
    - Orchestrator, Failover, Backups: the handlers of the jobs on databases and backups,
      replicas and failovers, the endpoints and the passes of the scheduler over them, with
      [fleet_ok]: a database in service has a cluster, and a cluster exactly one primary, on
      a known node.
    - Access, Accounts, Organizations, Databases, DatabaseOps, Nodes: authentication,
      permissions, and the endpoints, each with its guards in the order of the code.
    - Billing, Payments: metering, invoices, notifications, payments and the webhooks of the
      providers, with [billing_ok]: the periods of a subscription's invoices are disjoint
      and before its current period.
    - Providers: [services/payment_providers/], [services/oauth_providers/] and [email.py], the
      requests sent and the answers read. These clients, over any network, are the
      [Gateways] of Payments and the [oauth_user_info] of Accounts. A notification of
      NOWPayments that is believed has the content that was signed; who signs in with a
      provider owns an address that it vouched for; a payment that was started is on record
      whatever the provider answers.
    - Worker: a turn of the worker. It settles exactly one job and never raises; a job is
      claimed at most five times.
    - RateLimit: the sliding window of [core/rate_limit.py] refines a limiter that remembers
      every request.
    - System: one step relation for the whole control plane, and what every reachable state
      keeps, whatever the order of workers, ticks and requests. Nobody becomes an
      administrator but by the script that an operator runs ([promote_admin]).
    - Reads: the [GET] endpoints that answer from the database. Two states that hold the same
      rows for an organization are read alike by its members: nothing of the others leaks.
      The endpoints that pass on the answer of an agent are in DatabaseOps.

    - Security, Ca: [core/security.py] of both services and [services/ca.py]. A token is
      read back as what it was issued for until it expires; a certificate of a node is never
      good for a client; a kill at any write leaves an authority that matches its key.

    The SDK ([src/sdk/eminidatabase_sdk]).
    - Api: the table of the routes, with the bodies the SDK sends. No route shadows another.
    - Sdk: the client against any network. Each method is served by the endpoint it is meant
      for; the wait for a job ends.
    - Cli: the commands. Whatever the servers answer, a command sends at most one request that
      is not a read, the one it names, on what it resolved.

    - MfPlatform: the microfinance service as a customer, over this SDK and any network: the
      client it logs in, the onboarding of an institution, the script that makes its account,
      the engines of the institutions. An onboarding that returns is one of MfControl, for a
      platform that answered the same; one that raises activates nothing.

    The agent.
    - Bootstrap: the registration and the heartbeats of a node, the process of the agent at
      one end ([bootstrap.py], [control_plane_client.py], [state.py], [crypto.py],
      [resources.py]), the control plane at the other.
    - Agent: [postgres_admin.py], [backup.py], [replication.py] and the endpoints of
      [main.py]. A small reader of SQL text, in which a quoted string or a quoted name is one
      token, tells what PostgreSQL would read: every statement sent has one of a fixed list
      of shapes, whatever strings the call carries.
    - Contract: the routes of [main.py] against the paths, bodies and names that the control
      plane sends. In every reachable state each call in [agent_log] is one the agents
      understand (but for the removal of an extension whose name is not a path segment).

    The databases.
    - Schema: schemas, the operations of Alembic on them, and what a schema must be to serve
      models. Revisions, MfRevisions: [alembic/versions/] of the two services and the tables
      that their models declare. Migrations: from nothing, the revisions of the three
      databases make what the models declare, and downgrades undo them.

    ** Bounds and fuel

    No handler needs fuel: the loops of the code run over lists (rows of a query, lines of a
    schedule, the entries of a deque) or a constant number of times (thirty polls of a
    promotion, [poll_promotion 30]). [wait_for_job] of the SDK polls until a deadline: its fuel
    is one poll per interval of the timeout, and [wait_for_job_answers] shows that [OutOfFuel]
    is never reached. [load_items] reads an object with the length of the text as fuel, which
    [loads_dumps] shows to be enough for what is written. [json_loads] of Documents reads a text
    with twice its length as fuel, and [json_loads_total] shows that [OutOfFuel] is never
    reached, on any text; the shortest text of a float has at most seventeen digits. The endless loops around [run_once] and [tick] are the
    step relation of System. [ndigits] counts the digits of a decimal with the bit length of
    the number as fuel, and [ndigits_spec] shows that it is enough.

    ** Not modelled

    - Text for people: messages of exceptions, bodies of e-mails and notifications, log lines,
      what the command line prints on the standard error.
    - HTTP and the parsing of requests, but for the routes, the constraints of the request
      schemas that guard an operation and the bodies of the SDK, of the agent and of the
      providers; hashes and signatures themselves; a body in UTF-16 or UTF-32.
    - Amounts that are not a number or infinite, which [decimal_of_text] refuses; the text of a
      list or of an object that a provider sends in the place of an identifier, a parameter.
    - What a revision does to the values in rows: an operation is refused for a missing default,
      not for a duplicate.
    - Writes that a kill tears in the middle: a file is written whole or not at all.
    - The lists of extensions and of tables that an agent answers are passed on unread: the
      endpoint is modelled up to the body.
    - Amounts finer than a cent: a request carries cents, as the columns do.
    - The front end and the TypeScript SDK, in another language; the settings that no
      operation above reads; Fernet, a parameter, and the templates of the e-mails. An e-mail
      is the request of Providers; the handlers swallow its failure, which changes no state.
    - Interleavings inside a session: the row locks ([FOR UPDATE SKIP LOCKED]) and the asyncio
      lock of an organization only order steps that are whole here. *)

From stdpp Require Export base gmap strings list fin_maps sorting.
From Stdlib Require Export ZArith Lia.

Declare Scope py_scope.
Delimit Scope py_scope with py.
#[global] Open Scope Z_scope.

(** ** Identifiers, money and time *)

(** A UUID is opaque; fresh ones ([uuid.uuid4]) are arguments of the operations. *)
Abbreviation uuid := positive (only parsing).
(** An amount held in a [Numeric(18, 2)] column, in hundredths. *)
Abbreviation money := Z (only parsing).
(** A UTC instant or a duration, in microseconds. *)
Abbreviation timestamp := Z (only parsing).

Definition seconds (n : Z) : Z := n * 1000000.
Definition hours (n : Z) : Z := seconds (3600 * n).
Definition days (n : Z) : Z := hours (24 * n).
(** The claim [exp] of a JWT and the times of a certificate are in whole seconds. *)
Definition whole_seconds (t : timestamp) : timestamp := t / seconds 1 * seconds 1.

(** ** Exceptions *)

Inductive exn : Set :=
| HTTPException (status : Z)
| ValueError | ZeroDivisionError | RuntimeError | AssertionError | AttributeError | TypeError | KeyError
| NoResultFound | MultipleResultsFound | IntegrityError
| InvalidLoanStateError | CustomerNotVerifiedError | InvalidLoanAmountError
| InvalidLoanTermError | OverpaymentError | InsufficientFundsError
| AccountNotActiveError | BelowMinimumOpeningBalanceError
| MissingIdempotencyKeyError | QuotaExceededError | NoCapacityError
| NoHealthyReplicaError | AgentUnreachableError | AgentRequestError (status : Z)
| PaymentWebhookError | ProviderError | OperationalError | TimeoutError
| IndexError | InvalidIdentifierError | DuplicateDatabaseError | DuplicateObjectError | InvalidToken
| ApiError (status : Z) | TransportError | Exit (code : Z) | OutOfFuel
| FileNotFoundError | HTTPStatusError (status : Z) | JSONDecodeError | InvalidOperation.

#[export] Instance exn_eq_dec : EqDecision exn.
Proof. solve_decision. Defined.

(** ** The state-and-exception monad of the handlers

    The state reached when an exception is raised is kept: a Python exception
    does not undo the assignments made before it.  What undoes them is a
    transaction, see [atomic]. *)

Inductive outcome (A : Type) : Type :=
| Ret (a : A)
| Exc (e : exn).
Arguments Ret {_} _.
Arguments Exc {_} _.

#[export] Instance outcome_ret : MRet outcome := fun A a => Ret a.
#[export] Instance outcome_bind : MBind outcome := fun A B f o =>
  match o with Ret a => f a | Exc e => Exc e end.

Lemma obind_Ret {A B} (o : outcome A) (f : A -> outcome B) b :
  o ≫= f = Ret b <-> exists a, o = Ret a /\ f a = Ret b.
Proof. destruct o; unfold mbind; simpl; naive_solver. Qed.

Definition M (S A : Type) : Type := S -> S * outcome A.

#[export] Instance M_ret {S} : MRet (M S) := fun A a s => (s, Ret a).
#[export] Instance M_bind {S} : MBind (M S) := fun A B f m s =>
  match m s with
  | (s', Ret a) => f a s'
  | (s', Exc e) => (s', Exc e)
  end.

Definition raise {S A} (e : exn) : M S A := fun s => (s, Exc e).
Definition gets {S A} (f : S -> A) : M S A := fun s => (s, Ret (f s)).
Definition modify {S} (f : S -> S) : M S unit := fun s => (f s, Ret tt).
(** [if not b: raise e] *)
Definition require {S} (b : bool) (e : exn) : M S unit :=
  if b then mret tt else raise e.
(** [if o is None: raise e] *)
Definition some_or {S A} (o : option A) (e : exn) : M S A :=
  match o with Some a => mret a | None => raise e end.

(** An expression that may raise. *)
Definition lift_outcome {S A} (o : outcome A) : M S A := fun s => (s, o).

(** [try: m except (the classes h accepts): h] *)
Definition try_except {S A} (m : M S A) (h : exn -> option (M S A)) : M S A := fun s =>
  match m s with
  | (s', Exc e) => match h e with Some k => k s' | None => (s', Exc e) end
  | r => r
  end.

(** [for x in l: body x] *)
Fixpoint for_each {S A} (l : list A) (body : A -> M S unit) : M S unit :=
  match l with
  | [] => mret tt
  | x :: l => body x;; for_each l body
  end.

(** A loop that counts the elements for which the body returns [True]. *)
Fixpoint count_each {S A} (l : list A) (body : A -> M S bool) : M S Z :=
  match l with
  | [] => mret 0
  | x :: l => b ← body x; n ← count_each l body; mret (if b : bool then n + 1 else n)
  end.

(** A request handler's session: committed when the handler returns, rolled
    back when it raises. *)
Definition atomic {S A} (m : M S A) : M S A := fun s =>
  match m s with
  | (s', Ret a) => (s', Ret a)
  | (_, Exc e) => (s, Exc e)
  end.

(** SQLAlchemy's [scalar_one_or_none] and [scalar_one] on a result list. *)
Definition scalar_one_or_none {S A} (rows : list A) : M S (option A) :=
  match rows with
  | [] => mret None
  | [x] => mret (Some x)
  | _ => raise MultipleResultsFound
  end.

Definition scalar_one {S A} (rows : list A) : M S A :=
  match rows with
  | [] => raise NoResultFound
  | [x] => mret x
  | _ => raise MultipleResultsFound
  end.

(** ** Record update: [r <| field := v |>] and [r <| field ::= f |>]

    A record type registers its eta expansion once; the setter of a field is
    then computed by abstracting the field out of the expansion. *)

Class Fields (R : Type) := eta_fields : R -> R.
Class Setter {R T : Type} (field : R -> T) := upd_field : (T -> T) -> R -> R.
Arguments upd_field {R T} field {_} f r / : assert.

Ltac find_setter :=
  match goal with
  | |- @Setter ?R ?T ?field =>
      let inst := constr:(_ : Fields R) in
      let body := eval red in inst in
      match eval pattern field in body with
      | ?k _ => exact (fun (f : T -> T) => k (fun r => f (field r)))
      end
  end.
#[export] Hint Extern 0 (Setter _) => find_setter : typeclass_instances.

#[warnings="-postfix-notation-not-level-1"]
Notation "r <| field ::= f |>" := (upd_field field f r)
  (at level 12, left associativity, field at next level,
   format "r  <| field  ::=  f |>") : py_scope.
#[warnings="-postfix-notation-not-level-1"]
Notation "r <| field := v |>" := (upd_field field (fun _ => v) r)
  (at level 12, left associativity, field at next level,
   format "r  <| field  :=  v |>") : py_scope.
#[global] Open Scope py_scope.

(** ** Tables

    A table is a finite map from the primary key to the row. *)

Section tables.
Context {V : Type}.
Implicit Types (m : gmap positive V) (P : V -> bool).

(** [select(T).where(P)], with the keys. *)
Definition select P m : list (positive * V) :=
  filter (fun kv => P kv.2 = true) (map_to_list m).
(** ... and the rows only. *)
Definition rows P m : list V := (select P m).*2.

Lemma elem_of_select P m k v :
  (k, v) ∈ select P m <-> m !! k = Some v /\ P v = true.
Proof.
  unfold select. rewrite list_elem_of_filter. simpl.
  pose proof (elem_of_map_to_list m k v). tauto.
Qed.

Lemma elem_of_rows P m v :
  v ∈ rows P m <-> exists k, m !! k = Some v /\ P v = true.
Proof.
  unfold rows. rewrite list_elem_of_fmap. split.
  - intros ([k w] & -> & H). apply elem_of_select in H. eauto.
  - intros (k & H). exists (k, v). by rewrite elem_of_select.
Qed.

Lemma NoDup_select P m : NoDup (select P m).*1.
Proof.
  unfold select. assert (NoDup (map_to_list m).*1) as H by apply NoDup_fst_map_to_list.
  induction (map_to_list m) as [|[k v] l IH]; [constructor|].
  inversion_clear H as [|? ? Hk Hl]. rewrite filter_cons. simpl.
  case_decide; [|by apply IH].
  constructor; [|by apply IH].
  intros ([k' v'] & Heq & Hf)%list_elem_of_fmap. simpl in Heq. subst k'.
  apply list_elem_of_filter in Hf as [_ Hf].
  apply Hk. apply list_elem_of_fmap. by exists (k, v').
Qed.

Lemma select_nil_iff P m :
  select P m = [] <-> forall k v, m !! k = Some v -> P v = false.
Proof.
  split.
  - intros H k v Hk. destruct (P v) eqn:E; [|done].
    assert ((k, v) ∈ select P m) as Hin by (by rewrite elem_of_select).
    rewrite H in Hin. by apply elem_of_nil in Hin.
  - intros H. destruct (select P m) as [|[k v] l] eqn:E; [done|].
    assert ((k, v) ∈ select P m) as [Hk Hp]%elem_of_select by (rewrite E; left).
    by rewrite (H _ _ Hk) in Hp.
Qed.

Lemma select_singleton P m k v :
  m !! k = Some v -> P v = true ->
  (forall k' v', m !! k' = Some v' -> P v' = true -> k' = k) ->
  select P m = [(k, v)].
Proof.
  intros Hk Hp Huniq.
  assert ((k, v) ∈ select P m) as Hin by (by rewrite elem_of_select).
  pose proof (NoDup_select P m) as Hnd.
  assert (forall kv, kv ∈ select P m -> kv = (k, v)) as Hall.
  { intros [k' v'] [Hk' Hp']%elem_of_select.
    assert (k' = k) as -> by eauto. by simplify_eq. }
  destruct (select P m) as [|a [|b l]].
  - by apply elem_of_nil in Hin.
  - by rewrite (Hall a) by left.
  - rewrite (Hall a) in Hnd by left. rewrite (Hall b) in Hnd by (right; left).
    inversion_clear Hnd as [|? ? Hn _]. destruct Hn. by left.
Qed.
Lemma select_insert_fresh P m k v :
  m !! k = None -> P v = false -> (forall kv, select P m = [kv] -> select P (<[k := v]> m) = [kv]).
Proof.
  intros Hk Hp [k' v'] Hm.
  assert ((k', v') ∈ select P m) as [Hk' Hp']%elem_of_select by (rewrite Hm; left).
  apply select_singleton; [|done|].
  - rewrite lookup_insert_ne; [done|]. congruence.
  - intros k2 v2 [[-> ->]|[? H2]]%lookup_insert_Some Hv2; [congruence|].
    assert ((k2, v2) ∈ select P m) as Hin by (by apply elem_of_select).
    rewrite Hm in Hin. apply list_elem_of_singleton in Hin. by simplify_eq.
Qed.

Lemma rows_insert_fresh P m k v :
  m !! k = None -> rows P (<[k := v]> m) ≡ₚ if P v then v :: rows P m else rows P m.
Proof.
  intros Hk. unfold rows, select. rewrite map_to_list_insert by done.
  rewrite filter_cons. simpl. case_decide as E; [by rewrite E|].
  apply not_true_is_false in E. by rewrite E.
Qed.

Lemma elem_of_singleton_select P m kv : select P m = [kv] -> m !! kv.1 = Some kv.2 /\ P kv.2 = true.
Proof. intros H. apply elem_of_select. rewrite H, <- surjective_pairing. left. Qed.

Lemma select_alter_one P m k v f :
  select P m = [(k, v)] -> P (f v) = true -> select P (alter f k m) = [(k, f v)].
Proof.
  intros Hm Hf. pose proof (elem_of_singleton_select _ _ _ Hm) as [Hk Hp]. cbn [fst snd] in Hk, Hp.
  apply select_singleton; [by rewrite lookup_alter_eq, Hk|done|].
  intros k' v' Hk' Hp'. destruct (decide (k = k')) as [->|]; [done|].
  rewrite lookup_alter_ne in Hk' by done.
  assert ((k', v') ∈ select P m) as Hin by (by apply elem_of_select).
  rewrite Hm in Hin. apply list_elem_of_singleton in Hin. by simplify_eq.
Qed.
End tables.

(** [order_by(key).limit(1)]: the first element of least key. *)
Fixpoint min_by {A} (key : A -> Z) (l : list A) : option A :=
  match l with
  | [] => None
  | x :: l =>
      match min_by key l with
      | Some y => if key x <=? key y then Some x else Some y
      | None => Some x
      end
  end.

Lemma min_by_None {A} (key : A -> Z) l : min_by key l = None <-> l = [].
Proof.
  destruct l as [|x l]; simpl; [done|].
  destruct (min_by key l); [case_match|]; split; done.
Qed.

Lemma min_by_Some {A} (key : A -> Z) l x :
  min_by key l = Some x -> x ∈ l /\ forall y, y ∈ l -> key x <= key y.
Proof.
  revert x. induction l as [|a l IH]; intros x; simpl; [done|].
  destruct (min_by key l) as [y|] eqn:E.
  - destruct (IH y eq_refl) as [Hy Hmin]. destruct (key a <=? key y) eqn:L.
    + intros [= <-]. apply Z.leb_le in L. split; [left|].
      intros z [->|Hz]%elem_of_cons; [lia|]. specialize (Hmin z Hz). lia.
    + intros [= <-]. apply Z.leb_gt in L. split; [by right|].
      intros z [->|Hz]%elem_of_cons; [lia|]. by apply Hmin.
  - apply min_by_None in E as ->. intros [= <-]. split; [left|].
    intros z [->|Hz]%elem_of_cons; [lia|]. by apply elem_of_nil in Hz.
Qed.

(** ** Filters *)

Lemma filter_all {A} (P : A -> Prop) `{forall x, Decision (P x)} l : Forall P l -> filter P l = l.
Proof. induction 1 as [|x l Hx _ IH]; [done|]. by rewrite filter_cons, decide_True, IH. Qed.

(** ** Sums *)

Definition sumZ (l : list Z) : Z := foldr Z.add 0 l.

Lemma sumZ_app l1 l2 : sumZ (l1 ++ l2) = sumZ l1 + sumZ l2.
Proof. induction l1 as [|x l1 IH]; simpl; [done|]. unfold sumZ in *. simpl. lia. Qed.

Lemma sumZ_cons x l : sumZ (x :: l) = x + sumZ l.
Proof. done. Qed.

Lemma sumZ_perm l1 l2 : l1 ≡ₚ l2 -> sumZ l1 = sumZ l2.
Proof. induction 1; rewrite ?sumZ_cons in *; try lia. Qed.

#[export] Instance sumZ_Proper : Proper ((≡ₚ) ==> eq) sumZ.
Proof. intros l1 l2. apply sumZ_perm. Qed.

Lemma sumZ_nonneg l : Forall (fun x => 0 <= x) l -> 0 <= sumZ l.
Proof. induction 1; rewrite ?sumZ_cons; simpl; lia. Qed.

(** The sum of [f] over the rows of a table. *)
Definition map_sum {V} (f : V -> Z) (m : gmap positive V) : Z :=
  sumZ (f <$> (map_to_list m).*2).

Section map_sum.
Context {V : Type} (f : V -> Z).
Implicit Types m : gmap positive V.

Lemma map_sum_empty : map_sum f ∅ = 0.
Proof. unfold map_sum. by rewrite map_to_list_empty. Qed.

Lemma map_sum_insert_new m k v :
  m !! k = None -> map_sum f (<[k:=v]> m) = f v + map_sum f m.
Proof. intros H. unfold map_sum. by rewrite map_to_list_insert. Qed.

Lemma map_sum_delete m k v :
  m !! k = Some v -> map_sum f m = f v + map_sum f (delete k m).
Proof.
  intros H. rewrite <- (map_sum_insert_new _ k v) by apply lookup_delete_eq.
  by rewrite insert_delete_id.
Qed.

Lemma map_sum_insert m k v w :
  m !! k = Some v -> map_sum f (<[k:=w]> m) = map_sum f m - f v + f w.
Proof.
  intros H. rewrite (map_sum_delete m k v H).
  rewrite <- insert_delete_eq. rewrite map_sum_insert_new by apply lookup_delete_eq.
  lia.
Qed.
End map_sum.

(** ** Reasoning about runs *)

Section runs.
Context {S : Type}.
Implicit Types s t : S.

Lemma bind_Ret {A B} (m : M S A) (f : A -> M S B) s t b :
  (m ≫= f) s = (t, Ret b) <-> exists u a, m s = (u, Ret a) /\ f a u = (t, Ret b).
Proof.
  unfold mbind, M_bind. split.
  - destruct (m s) as [u [a|e]]; [eauto|done].
  - intros (u & a & -> & H). done.
Qed.

Lemma bind_Exc {A B} (m : M S A) (f : A -> M S B) s t e :
  (m ≫= f) s = (t, Exc e) <->
  m s = (t, Exc e) \/ exists u a, m s = (u, Ret a) /\ f a u = (t, Exc e).
Proof.
  unfold mbind, M_bind. split.
  - destruct (m s) as [u [a|e']]; [eauto|]. intros [= -> ->]. by left.
  - intros [-> | (u & a & -> & H)]; done.
Qed.

Lemma mret_Ret {A} (a b : A) s t : (mret a : M S A) s = (t, Ret b) <-> t = s /\ b = a.
Proof. unfold mret, M_ret. split; [by intros [= -> ->]|by intros [-> ->]]. Qed.

Lemma gets_Ret {A} (f : S -> A) s t b : gets f s = (t, Ret b) <-> t = s /\ b = f s.
Proof. unfold gets. split; [by intros [= -> ->]|by intros [-> ->]]. Qed.

Lemma modify_Ret (f : S -> S) s t u : modify f s = (t, Ret u) <-> t = f s.
Proof. unfold modify. destruct u. split; [by intros [= ->]|by intros ->]. Qed.

Lemma require_Ret b e s t u : require b e s = (t, Ret u) <-> b = true /\ t = s.
Proof.
  unfold require. destruct u, b; [rewrite mret_Ret; naive_solver|].
  unfold raise. naive_solver.
Qed.

Lemma require_Exc b e s t e' : require b e s = (t, Exc e') <-> b = false /\ t = s /\ e' = e.
Proof. unfold require, raise, mret, M_ret. destruct b; naive_solver. Qed.

Lemma some_or_Ret {A} (o : option A) e s t a :
  some_or o e s = (t, Ret a) <-> o = Some a /\ t = s.
Proof.
  unfold some_or. destruct o; [rewrite mret_Ret; naive_solver|].
  unfold raise. naive_solver.
Qed.

Lemma scalar_one_or_none_Ret {A} (l : list A) s t o :
  scalar_one_or_none l s = (t, Ret o) <->
  t = s /\ match o with Some x => l = [x] | None => l = [] end.
Proof.
  unfold scalar_one_or_none, raise, mret, M_ret.
  destruct l as [|x [|y l]], o; naive_solver.
Qed.

Lemma scalar_one_Ret {A} (l : list A) s t x :
  scalar_one l s = (t, Ret x) <-> t = s /\ l = [x].
Proof.
  unfold scalar_one, raise, mret, M_ret. destruct l as [|y [|z l]]; naive_solver.
Qed.

Lemma bind_gets {A B} (f : S -> A) (k : A -> M S B) s : (a ← gets f; k a) s = k (f s) s.
Proof. done. Qed.
Lemma bind_lift {A B} (a : A) (k : A -> M S B) s : (x ← lift_outcome (Ret a); k x) s = k a s.
Proof. done. Qed.

Lemma lift_outcome_Ret {A} (o : outcome A) s t a : lift_outcome o s = (t, Ret a) <-> t = s /\ o = Ret a.
Proof. unfold lift_outcome. naive_solver. Qed.

Lemma atomic_Ret {A} (m : M S A) s t a : atomic m s = (t, Ret a) <-> m s = (t, Ret a).
Proof. unfold atomic. destruct (m s) as [u [b|e]]; naive_solver. Qed.

Lemma atomic_Exc {A} (m : M S A) s t e :
  atomic m s = (t, Exc e) <-> t = s /\ exists u, m s = (u, Exc e).
Proof. unfold atomic. destruct (m s) as [u [b|e']]; naive_solver. Qed.
End runs.

(** Inverts every completed step of a successful run. *)
Ltac minv_step :=
  match goal with
  | H : (_ ≫= _) _ = (_, Ret _) |- _ => apply bind_Ret in H as (? & ? & ? & ?)
  | H : mret _ _ = (_, Ret _) |- _ => apply mret_Ret in H as [? ?]
  | H : gets _ _ = (_, Ret _) |- _ => apply gets_Ret in H as [? ?]
  | H : modify _ _ = (_, Ret _) |- _ => apply modify_Ret in H
  | H : require _ _ _ = (_, Ret _) |- _ => apply require_Ret in H as [? ?]
  | H : some_or _ _ _ = (_, Ret _) |- _ => apply some_or_Ret in H as [? ?]
  | H : scalar_one_or_none _ _ = (_, Ret _) |- _ =>
      apply scalar_one_or_none_Ret in H as [? ?]
  | H : scalar_one _ _ = (_, Ret _) |- _ => apply scalar_one_Ret in H as [? ?]
  | H : atomic _ _ = (_, Ret _) |- _ => apply (proj1 (atomic_Ret _ _ _ _)) in H
  | H : raise _ _ = (_, Ret _) |- _ => discriminate H
  end.
Ltac minv := repeat (minv_step; subst); simplify_eq.

(** ** Invariants of handlers

    [pres I m]: [m] keeps [I], whether it returns or raises. *)

Definition pres {S A} (I : S -> Prop) (m : M S A) : Prop := forall s, I s -> I (m s).1.

Create HintDb pres discriminated.

Section pres.
Context {S : Type} (I : S -> Prop).

Lemma pres_ret {A} (a : A) : pres I (mret a).
Proof. by intros s. Qed.
Lemma pres_raise {A} e : pres I (raise (A := A) e).
Proof. by intros s. Qed.
Lemma pres_gets {A} (f : S -> A) : pres I (gets f).
Proof. by intros s. Qed.
Lemma pres_require b e : pres I (require b e).
Proof. destruct b; by intros s. Qed.
Lemma pres_lift_outcome {A} (o : outcome A) : pres I (lift_outcome o).
Proof. by intros s. Qed.
Lemma pres_some_or {A} (o : option A) e : pres I (some_or o e).
Proof. destruct o; by intros s. Qed.
Lemma pres_scalar_one_or_none {A} (l : list A) : pres I (scalar_one_or_none l).
Proof. destruct l as [|x [|y l]]; by intros s. Qed.
Lemma pres_scalar_one {A} (l : list A) : pres I (scalar_one l).
Proof. destruct l as [|x [|y l]]; by intros s. Qed.
Lemma pres_modify f : (forall s, I s -> I (f s)) -> pres I (modify f).
Proof. intros H s. apply H. Qed.

Lemma pres_bind {A B} (m : M S A) (f : A -> M S B) :
  pres I m -> (forall a, pres I (f a)) -> pres I (m ≫= f).
Proof.
  intros Hm Hf s Hs. unfold mbind, M_bind. specialize (Hm s Hs).
  destruct (m s) as [u [a|e]]; [by apply Hf|done].
Qed.

(** The rule for a continuation that needs what the first step returned. *)
Lemma pres_bind_run {A B} (m : M S A) (f : A -> M S B) :
  pres I m ->
  (forall s u a, I s -> m s = (u, Ret a) -> I (f a u).1) -> pres I (m ≫= f).
Proof.
  intros Hm Hf s Hs. unfold mbind, M_bind. specialize (Hm s Hs).
  destruct (m s) as [u [a|e]] eqn:E; [by eapply Hf|done].
Qed.

Lemma pres_try {A} (m : M S A) h :
  pres I m -> (forall e k, h e = Some k -> pres I k) -> pres I (try_except m h).
Proof.
  intros Hm Hh s Hs. unfold try_except. specialize (Hm s Hs).
  destruct (m s) as [u [a|e]]; [done|].
  destruct (h e) eqn:E; [by eapply Hh|done].
Qed.

Lemma pres_for {A} (l : list A) body :
  (forall x, x ∈ l -> pres I (body x)) -> pres I (for_each l body).
Proof.
  induction l as [|x l IH]; intros H; simpl; [apply pres_ret|].
  apply pres_bind; [apply H; left|]. intros _. apply IH. intros y Hy. apply H. by right.
Qed.

Lemma pres_count_each {A} (l : list A) body :
  (forall x, x ∈ l -> pres I (body x)) -> pres I (count_each l body).
Proof.
  induction l as [|x l IH]; intros H; simpl; [apply pres_ret|].
  apply pres_bind; [apply H; left|]. intros b. apply pres_bind; [|intros n; apply pres_ret].
  apply IH. intros y Hy. apply H. by right.
Qed.

Lemma pres_atomic {A} (m : M S A) : pres I m -> pres I (atomic m).
Proof.
  intros Hm s Hs. unfold atomic. specialize (Hm s Hs).
  by destruct (m s) as [u [a|e]].
Qed.

Lemma pres_run {A} (m : M S A) s t a : pres I m -> m s = (t, Ret a) -> I s -> I t.
Proof. intros H E Hs. specialize (H s Hs). by rewrite E in H. Qed.
End pres.

#[export] Hint Resolve pres_ret pres_raise pres_gets pres_require pres_lift_outcome pres_some_or
  pres_scalar_one_or_none pres_scalar_one pres_atomic : pres.

(** [keeps I m]: the runs of [m] that return keep [I]; enough for a handler whose
    transaction rolls back when it raises. *)

Definition keeps {S A} (I : S -> Prop) (m : M S A) : Prop :=
  forall s t a, m s = (t, Ret a) -> I s -> I t.

Section keeps.
Context {S : Type} (I : S -> Prop).

Lemma pres_keeps {A} (m : M S A) : pres I m -> keeps I m.
Proof. intros H s t a E Hs. by eapply pres_run. Qed.

Lemma keeps_raise {A} e : keeps I (raise (A := A) e).
Proof. intros s t a E. discriminate E. Qed.

Lemma keeps_atomic {A} (m : M S A) : keeps I m -> pres I (atomic m).
Proof.
  intros Hm s Hs. unfold atomic. destruct (m s) as [u [a|e]] eqn:E; [by eapply Hm|done].
Qed.

Lemma keeps_bind {A B} (m : M S A) (f : A -> M S B) :
  keeps I m -> (forall a, keeps I (f a)) -> keeps I (m ≫= f).
Proof.
  intros Hm Hf s t b (u & a & H1 & H2)%bind_Ret Hs.
  eapply Hf; [exact H2|]. by eapply Hm.
Qed.

Lemma keeps_modify f : (forall s, I s -> I (f s)) -> keeps I (modify f).
Proof. intros H s t a ->%modify_Ret. apply H. Qed.

Lemma keeps_count_each {A} (l : list A) body :
  (forall x, x ∈ l -> keeps I (body x)) -> keeps I (count_each l body).
Proof.
  induction l as [|x l IH]; intros H; simpl; [apply pres_keeps, pres_ret|].
  apply keeps_bind; [apply H; left|]. intros b. apply keeps_bind; [|intros n; apply pres_keeps, pres_ret].
  apply IH. intros y Hy. apply H. by right.
Qed.

Lemma keeps_for {A} (l : list A) body :
  (forall x, keeps I (body x)) -> keeps I (for_each l body).
Proof.
  intros H. induction l as [|x l IH]; simpl; [apply pres_keeps, pres_ret|].
  by apply keeps_bind.
Qed.
End keeps.

#[export] Hint Resolve keeps_raise pres_keeps : pres.

(** [hoare P m Q I]: from [P], [m] returns in [Q] or raises in [I]. *)

Definition hoare {S A} (P : S -> Prop) (m : M S A) (Q : A -> S -> Prop) (I : S -> Prop) : Prop :=
  forall s, P s -> match m s with (t, Ret a) => Q a t | (t, Exc _) => I t end.

Section hoare.
Context {S : Type}.
Implicit Types P I : S -> Prop.

Lemma hoare_bind {A B} P (m : M S A) R (f : A -> M S B) Q I :
  hoare P m R I -> (forall a, hoare (R a) (f a) Q I) -> hoare P (m ≫= f) Q I.
Proof.
  intros Hm Hf s Hs. unfold mbind, M_bind. specialize (Hm s Hs).
  destruct (m s) as [u [a|e]]; [by apply Hf|done].
Qed.

Lemma hoare_weaken {A} P P' (m : M S A) Q Q' I :
  hoare P m Q I -> (forall s, P' s -> P s) -> (forall a s, Q a s -> Q' a s) -> hoare P' m Q' I.
Proof.
  intros Hm HP HQ s Hs. specialize (Hm s (HP s Hs)). destruct (m s) as [t [a|e]]; [by apply HQ|done].
Qed.

Lemma hoare_exc {A} P (m : M S A) Q I I' :
  hoare P m Q I -> (forall s, I s -> I' s) -> hoare P m Q I'.
Proof. intros Hm HI s Hs. specialize (Hm s Hs). destruct (m s) as [t [a|e]]; [done|by apply HI]. Qed.

(** What the precondition says whatever the state. *)
Lemma hoare_pure {A} (phi : Prop) P (m : M S A) Q I :
  (forall s, P s -> phi) -> (phi -> hoare P m Q I) -> hoare P m Q I.
Proof. intros HP Hm s Hs. by apply Hm; [eapply HP|]. Qed.

Lemma hoare_of_pres {A} P I (m : M S A) :
  pres P m -> (forall s, P s -> I s) -> hoare P m (fun _ => P) I.
Proof. intros Hm HI s Hs. specialize (Hm s Hs). destruct (m s) as [t [a|e]]; [done|by apply HI]. Qed.

(** A step known by its runs, that keeps the invariant. *)
Lemma hoare_run {A} P (m : M S A) Q I :
  (forall s t a, P s -> m s = (t, Ret a) -> Q a t) -> pres I m -> (forall s, P s -> I s) -> hoare P m Q I.
Proof.
  intros HQ Hm HI s Hs. specialize (Hm s (HI s Hs)). destruct (m s) as [t [a|e]] eqn:E; [by eapply HQ|done].
Qed.

Lemma pres_of_hoare {A} P I (m : M S A) Q :
  hoare P m Q I -> (forall s, I s -> P s) -> (forall a s, Q a s -> I s) -> pres I m.
Proof. intros Hm HP HQ s Hs. specialize (Hm s (HP s Hs)). destruct (m s) as [t [a|e]]; [by eapply HQ|done]. Qed.
End hoare.

(** Splits a handler along its binds and branches, closing the steps that only
    read; what is left are the steps that write. *)
Ltac pres_go :=
  repeat first
    [ progress intros
    | solve [eauto with pres nocore]
    | match goal with
      | |- pres _ (_ ≫= _) => apply pres_bind
      | |- pres _ (for_each _ _) => apply pres_for
      | |- pres _ (atomic _) => apply pres_atomic
      | |- pres _ (match ?x with _ => _ end) => destruct x eqn:?
      | |- pres _ (let _ := _ in _) => cbv zeta
      end ].

Ltac keeps_go :=
  repeat first
    [ progress intros
    | solve [eauto with pres nocore]
    | match goal with
      | |- keeps _ (_ ≫= _) => apply keeps_bind
      | |- keeps _ (for_each _ _) => apply keeps_for
      | |- keeps _ (match ?x with _ => _ end) => destruct x eqn:?
      | |- keeps _ (let _ := _ in _) => cbv zeta
      end ].
