(* ===== verification/PyStd.v ===== *)
(** * Python's [decimal.Decimal] and [datetime.date], as far as the program uses them

    [Decimal] arithmetic runs in the default context: 28 significant digits,
    ROUND_HALF_EVEN.  [quantize] to hundredths uses the rounding the caller
    names, which is ROUND_HALF_UP everywhere in this program. *)

From Stdlib Require Import Ascii.
From S2P Require Import Prelude.

(** A finite decimal: [coeff * 10 ^ expo]. *)
Record decimal := Dec { coeff : Z; expo : Z }.

#[export] Instance decimal_eq_dec : EqDecision decimal.
Proof. solve_decision. Defined.

Definition context_prec : Z := 28.

(** The number of decimal digits of a nonnegative integer (of ["0"]: one);
    an integer has at most [log2 + 1] of them, which bounds the recursion. *)
Fixpoint ndigits_upto (fuel : nat) (n : Z) : Z :=
  match fuel with
  | O => 1
  | S fuel => if n <? 10 then 1 else 1 + ndigits_upto fuel (n / 10)
  end.
Definition ndigits (n : Z) : Z := ndigits_upto (Z.to_nat (Z.log2 (Z.abs n))) (Z.abs n).

(** Division of [n] by [d > 0] to the nearest integer: ties to even, ties away from zero. *)
Definition div_half_even (n d : Z) : Z :=
  let q := n / d in
  let r := n mod d in
  if 2 * r <? d then q
  else if d <? 2 * r then q + 1
  else if Z.even q then q else q + 1.
Definition div_half_up (n d : Z) : Z := Z.sgn n * ((2 * Z.abs n + d) / (2 * d)).

(** Rounding to [p] significant digits. *)
Definition fix_prec (p : Z) (x : decimal) : decimal :=
  let extra := ndigits (coeff x) - p in
  if extra <=? 0 then x
  else
    let c := div_half_even (coeff x) (10 ^ extra) in
    if ndigits c <=? p then Dec c (expo x + extra)
    else Dec (c / 10) (expo x + extra + 1).

Definition dec_mul (p : Z) (x y : decimal) : decimal :=
  fix_prec p (Dec (coeff x * coeff y) (expo x + expo y)).

Definition dec_add (p : Z) (x y : decimal) : decimal :=
  let e := Z.min (expo x) (expo y) in
  fix_prec p (Dec (coeff x * 10 ^ (expo x - e) + coeff y * 10 ^ (expo y - e)) e).
Definition dec_opp (x : decimal) : decimal := Dec (- coeff x) (expo x).
Definition dec_sub (p : Z) (x y : decimal) : decimal := dec_add p x (dec_opp y).

(** [x / y] for [y <> 0]: one digit more than the context holds, with a sticky
    last digit when the quotient is not exact, then one rounding. *)
Definition dec_div (p : Z) (x y : decimal) : decimal :=
  let shift := ndigits (coeff y) - ndigits (coeff x) + p + 1 in
  let num := Z.abs (coeff x) * 10 ^ Z.max 0 shift in
  let den := Z.abs (coeff y) * 10 ^ Z.max 0 (- shift) in
  let q := num / den in
  let sticky := if (num mod den =? 0) || negb (q mod 5 =? 0) then q else q + 1 in
  fix_prec p (Dec (Z.sgn (coeff x) * Z.sgn (coeff y) * sticky) (expo x - expo y - shift)).

(** [x ** n] for an integer [n] and [x <> 0]: binary powering, most significant
    bit first, with a few guard digits, then one rounding to the context. *)
Fixpoint pow_upto (p : Z) (x : decimal) (n : positive) : decimal :=
  match n with
  | xH => x
  | xO n => let r := pow_upto p x n in dec_mul p r r
  | xI n => let r := pow_upto p x n in dec_mul p (dec_mul p r r) x
  end.
Definition dec_pow (p : Z) (x : decimal) (n : Z) : decimal :=
  match n with
  | Z0 => Dec 1 0
  | Zpos k => fix_prec p (pow_upto (p + ndigits n + 2) x k)
  | Zneg k =>
      let w := p + ndigits n + 3 in
      fix_prec p (pow_upto w (dec_div w (Dec 1 0) x) k)
  end.

(** [x <= y] *)
Definition dec_leb (x y : decimal) : bool :=
  let e := Z.min (expo x) (expo y) in
  coeff x * 10 ^ (expo x - e) <=? coeff y * 10 ^ (expo y - e).

Definition dec_of_Z (n : Z) : decimal := Dec n 0.
(** A [Numeric(18, 2)] amount as a decimal. *)
Definition dec_of_money (m : money) : decimal := Dec m (-2).

(** [x.quantize(Decimal("0.01"), rounding=ROUND_HALF_UP)], in hundredths. *)
Definition quantize_cents (x : decimal) : money :=
  if -2 <=? expo x then coeff x * 10 ^ (expo x + 2)
  else div_half_up (coeff x) (10 ^ (- 2 - expo x)).

(** ** Dates *)

Record date := Date { year : Z; month : Z; day : Z }.

#[export] Instance date_eq_dec : EqDecision date.
Proof. solve_decision. Defined.

Definition is_leap (y : Z) : bool :=
  (y mod 4 =? 0) && (negb (y mod 100 =? 0) || (y mod 400 =? 0)).

(** [calendar.monthrange(y, m)[1]] *)
Definition monthrange (y m : Z) : Z :=
  if m =? 2 then (if is_leap y then 29 else 28)
  else if (m =? 4) || (m =? 6) || (m =? 9) || (m =? 11) then 30 else 31.

Definition valid_dateb (d : date) : bool :=
  (1 <=? year d) && (year d <=? 9999) && (1 <=? month d) && (month d <=? 12)
  && (1 <=? day d) && (day d <=? monthrange (year d) (month d)).

(** [dt.date(y, m, d)] raises [ValueError] out of range. *)
Definition mk_date (y m d : Z) : outcome date :=
  if valid_dateb (Date y m d) then Ret (Date y m d) else Exc ValueError.

Lemma monthrange_bounds y m : 28 <= monthrange y m <= 31.
Proof. unfold monthrange. repeat case_match; lia. Qed.

(** ** Text and dictionaries *)

(** [d.get(k)] on a literal. *)
Fixpoint dict_get {V} (d : list (string * V)) (k : string) : option V :=
  match d with
  | [] => None
  | (a, v) :: d => if decide (a = k) then Some v else dict_get d k
  end.

Lemma dict_get_In {V} (d : list (string * V)) k v : dict_get d k = Some v -> (k, v) ∈ d.
Proof.
  induction d as [|[a w] d IH]; simpl; [done|].
  case_decide as E; [intros [= ->]; subst; left|right; by apply IH].
Qed.

(** [s.lower()], on ASCII letters. *)
Definition lower_ascii (c : Ascii.ascii) : Ascii.ascii :=
  let n := Ascii.nat_of_ascii c in
  if bool_decide (65 <= n <= 90)%nat then Ascii.ascii_of_nat (n + 32) else c.
Fixpoint lower (s : string) : string :=
  match s with EmptyString => EmptyString | String c s => String (lower_ascii c) (lower s) end.

(** [s.partition(sep)] for a one-character [sep]: [None] when it does not occur. *)
Definition partition_at (sep s : string) : option (string * string) :=
  match String.index 0 sep s with
  | Some n => Some (String.substring 0 n s, String.substring (S n) (String.length s - S n) s)
  | None => None
  end.

(** [s.removeprefix(p)] *)
Definition removeprefix (p s : string) : string :=
  if String.prefix p s then String.substring (String.length p) (String.length s - String.length p) s else s.

(** [s.split(c)] for a one-character separator. *)
Fixpoint split_char (c : Ascii.ascii) (s : string) : list string :=
  match s with
  | EmptyString => [""]
  | String a s =>
      if Ascii.eqb a c then "" :: split_char c s
      else match split_char c s with
           | [] => [String a ""]
           | w :: ws => String a w :: ws
           end
  end.

(** [s.strip()], on ASCII: [str.isspace] holds of 9 to 13 and 28 to 32. *)
Definition is_space (c : Ascii.ascii) : bool :=
  let n := Ascii.nat_of_ascii c in
  bool_decide ((9 <= n <= 13) \/ (28 <= n <= 32))%nat.
Fixpoint lstrip (s : string) : string :=
  match s with String c r => if is_space c then lstrip r else s | EmptyString => EmptyString end.
Fixpoint rstrip (s : string) : string :=
  match s with
  | EmptyString => EmptyString
  | String c r =>
      match rstrip r with
      | EmptyString => if is_space c then EmptyString else String c EmptyString
      | r => String c r
      end
  end.
Definition strip (s : string) : string := rstrip (lstrip s).

(** [int(s)]: an optional sign, then digits, single underscores between them. *)
Definition is_digit (c : Ascii.ascii) : bool := bool_decide (48 <= Ascii.nat_of_ascii c <= 57)%nat.
Fixpoint int_digits (after_digit : bool) (acc : Z) (s : string) : option Z :=
  match s with
  | EmptyString => if after_digit then Some acc else None
  | String c s =>
      if is_digit c then int_digits true (10 * acc + (Z.of_nat (Ascii.nat_of_ascii c) - 48)) s
      else if Ascii.eqb c "_"%char && after_digit then int_digits false acc s
      else None
  end.
Definition py_int (s : string) : outcome Z :=
  let r := match strip s with
           | String "-"%char d => Z.opp <$> int_digits false 0 d
           | String "+"%char d => int_digits false 0 d
           | d => int_digits false 0 d
           end in
  match r with Some n => Ret n | None => Exc ValueError end.

Definition is_hex (c : ascii) : bool := existsb (Ascii.eqb c) (String.list_ascii_of_string "0123456789abcdefABCDEF").
Fixpoint all_chars (p : ascii -> bool) (s : string) : bool :=
  match s with EmptyString => true | String c s => p c && all_chars p s end.

(** [s.replace(sub, "")]: [skip] characters of an occurrence are still to be dropped. *)
Fixpoint remove_from (sub : string) (skip : nat) (s : string) : string :=
  match s with
  | EmptyString => ""
  | String c r =>
      match skip with
      | S skip => remove_from sub skip r
      | O => if String.prefix sub s then remove_from sub (String.length sub - 1) r else String c (remove_from sub 0 r)
      end
  end.
Definition remove_all (sub s : string) : string := if bool_decide (sub = "") then s else remove_from sub 0 s.

(** [s.strip(chars)] *)
Fixpoint lstrip_of (p : ascii -> bool) (s : string) : string :=
  match s with String c r => if p c then lstrip_of p r else s | EmptyString => "" end.
Fixpoint rstrip_of (p : ascii -> bool) (s : string) : string :=
  match s with
  | EmptyString => ""
  | String c r => match rstrip_of p r with "" => if p c then "" else String c "" | r => String c r end
  end.

(** [int(s, 16)] raises or not: a sign, the prefix [0x], then digits with single underscores between them. *)
Fixpoint hex_digits (after_digit : bool) (s : string) : bool :=
  match s with
  | EmptyString => after_digit
  | String c s => if is_hex c then hex_digits true s else Ascii.eqb c "_"%char && after_digit && hex_digits false s
  end.
Definition is_int16 (s : string) : bool :=
  let unsigned := match strip s with String "+"%char d | String "-"%char d => d | d => d end in
  match unsigned with
  | String "0"%char (String c d) =>
      if Ascii.eqb (lower_ascii c) "x"%char
      then hex_digits false (match d with String "_"%char d => d | d => d end)
      else hex_digits false unsigned
  | d => hex_digits false d
  end.
(** [uuid.UUID(s)] raises or not. *)
Definition is_uuid (s : string) : bool :=
  let bare := remove_all "uuid:" (remove_all "urn:" s) in
  let brace c := Ascii.eqb c "{"%char || Ascii.eqb c "}"%char in
  let h := remove_all "-" (rstrip_of brace (lstrip_of brace bare)) in
  bool_decide (String.length h = 32%nat) && is_int16 h.

Example is_uuid_1 : is_uuid "{3F2504E0-4F89-41D3-9A0C-0305E82C3301}" = true /\ is_uuid "shop" = false.
Proof. split; vm_compute; reflexivity. Qed.

Definition hex_char (n : Z) : Ascii.ascii :=
  match String.get (Z.to_nat n) "0123456789abcdef" with Some c => c | None => Ascii.zero end.
Fixpoint hex_of (digits : nat) (n : Z) : string :=
  match digits with
  | O => ""
  | S digits => hex_of digits (n / 16) +:+ String (hex_char (n mod 16)) ""
  end.
(** [u.hex] and [str(u)] of a UUID. *)
Definition uuid_hex (u : uuid) : string := hex_of 32 (Zpos u).
Definition str_uuid (u : uuid) : string :=
  let h := uuid_hex u in
  String.substring 0 8 h +:+ "-" +:+ String.substring 8 4 h +:+ "-" +:+ String.substring 12 4 h +:+ "-"
  +:+ String.substring 16 4 h +:+ "-" +:+ String.substring 20 12 h.

Example str_uuid_1 : str_uuid 255 = "00000000-0000-0000-0000-0000000000ff".
Proof. reflexivity. Qed.

(** ** String lemmas *)

Lemma str_app_assoc a b c : (a +:+ b) +:+ c = a +:+ (b +:+ c).
Proof.
  induction a as [|d a IH]; [done|].
  change (String d ((a +:+ b) +:+ c) = String d (a +:+ (b +:+ c))). by rewrite IH.
Qed.
Lemma str_app_nil_r a : a +:+ "" = a.
Proof. induction a as [|c a IH]; [done|]. change (String c a +:+ "") with (String c (a +:+ "")). by rewrite IH. Qed.

Lemma length_str_app p x : String.length (p +:+ x) = (String.length p + String.length x)%nat.
Proof. induction p as [|c p IH]; simpl; [done|by rewrite IH]. Qed.

(** A path and its segments. *)
Definition segments (path : string) : list string := split_char "/" path.
Fixpoint no_slash (s : string) : bool :=
  match s with EmptyString => true | String c s => negb (Ascii.eqb c "/"%char) && no_slash s end.

Lemma segments_cons n s : no_slash n = true -> segments (n +:+ String "/" s) = n :: segments s.
Proof.
  induction n as [|c n IH]; [done|]. cbn [no_slash]. intros [Hc%negb_true_iff Hn]%andb_prop.
  change (String c n +:+ String "/" s) with (String c (n +:+ String "/" s)). unfold segments in *. cbn [split_char]. by rewrite Hc, IH.
Qed.
Lemma segments_last n : no_slash n = true -> segments n = [n].
Proof.
  induction n as [|c n IH]; [done|]. cbn [no_slash]. intros [Hc%negb_true_iff Hn]%andb_prop. unfold segments in *. cbn [split_char]. by rewrite Hc, IH.
Qed.

(** ** Rounding lemmas *)

Lemma ndigits_upto_pos fuel n : 1 <= ndigits_upto fuel n.
Proof.
  revert n. induction fuel as [|fuel IH]; intros n; simpl; [lia|].
  case_match; [lia|]. specialize (IH (n / 10)). lia.
Qed.

Lemma ndigits_upto_spec fuel n :
  0 <= n -> n < 2 ^ (Z.of_nat fuel + 1) -> 
  n < 10 ^ ndigits_upto fuel n /\ (10 <= n -> 10 ^ (ndigits_upto fuel n - 1) <= n).
Proof.
  revert n. induction fuel as [|fuel IH]; intros n Hn Hb; simpl.
  { change (Z.of_nat 0 + 1) with 1 in Hb. lia. }
  destruct (n <? 10) eqn:E; [apply Z.ltb_lt in E; lia|]. apply Z.ltb_ge in E.
  assert (0 <= n / 10) by (apply Z.div_pos; lia).
  assert (n / 10 < 2 ^ (Z.of_nat fuel + 1)).
  { apply Z.div_lt_upper_bound; [lia|].
    replace (Z.of_nat (S fuel) + 1) with (Z.succ (Z.of_nat fuel + 1)) in Hb by lia.
    rewrite Z.pow_succ_r in Hb by lia. lia. }
  destruct (IH (n / 10)) as [Hlt Hge]; [done..|].
  set (k := ndigits_upto fuel (n / 10)) in *.
  assert (1 <= k) by apply ndigits_upto_pos.
  pose proof (Z.div_mod n 10 ltac:(lia)). pose proof (Z.mod_pos_bound n 10 ltac:(lia)).
  split.
  - replace (1 + k) with (Z.succ k) by lia. rewrite Z.pow_succ_r by lia. lia.
  - intros _. replace (1 + k - 1) with k by lia.
    destruct (decide (10 <= n / 10)) as [H10|H10].
    + specialize (Hge H10). replace k with (Z.succ (k - 1)) by lia.
      rewrite Z.pow_succ_r by lia. lia.
    + assert (k = 1) as ->; [|lia].
      unfold k. destruct fuel; simpl; [done|]. destruct (n / 10 <? 10) eqn:E'; [done|].
      apply Z.ltb_ge in E'. lia.
Qed.

Lemma ndigits_pos n : 1 <= ndigits n.
Proof. apply ndigits_upto_pos. Qed.

Lemma ndigits_spec n :
  Z.abs n < 10 ^ ndigits n /\ (10 <= Z.abs n -> 10 ^ (ndigits n - 1) <= Z.abs n).
Proof.
  unfold ndigits. apply ndigits_upto_spec; [lia|].
  rewrite Z2Nat.id by apply Z.log2_nonneg.
  destruct (decide (Z.abs n = 0)) as [->|]; [simpl; lia|].
  apply Z.log2_spec. lia.
Qed.

Lemma ndigits_le n k : 1 <= k -> Z.abs n < 10 ^ k -> ndigits n <= k.
Proof.
  intros Hk Hn. destruct (decide (10 <= Z.abs n)) as [H|H].
  - destruct (ndigits_spec n) as [_ Hge]. specialize (Hge H).
    assert (10 ^ (ndigits n - 1) < 10 ^ k) as Hlt by lia.
    apply Z.pow_lt_mono_r_iff in Hlt; lia.
  - unfold ndigits. destruct (Z.to_nat _); simpl; [lia|].
    destruct (Z.abs n <? 10) eqn:E; [lia|]. apply Z.ltb_ge in E. lia.
Qed.

(** The nearest integer is within half a unit. *)
Lemma div_half_even_spec n d : 0 < d -> 2 * Z.abs (n - d * div_half_even n d) <= d.
Proof.
  intros Hd. unfold div_half_even.
  pose proof (Z.div_mod n d ltac:(lia)). pose proof (Z.mod_pos_bound n d ltac:(lia)).
  destruct (2 * (n mod d) <? d) eqn:E1; [apply Z.ltb_lt in E1; lia|].
  apply Z.ltb_ge in E1.
  destruct (d <? 2 * (n mod d)) eqn:E2; [apply Z.ltb_lt in E2; lia|].
  destruct (Z.even _); lia.
Qed.

Lemma div_half_up_spec n d : 0 < d -> 2 * Z.abs (n - d * div_half_up n d) <= d.
Proof.
  intros Hd. unfold div_half_up.
  set (q := (2 * Z.abs n + d) / (2 * d)).
  pose proof (Z.div_mod (2 * Z.abs n + d) (2 * d) ltac:(lia)) as E.
  pose proof (Z.mod_pos_bound (2 * Z.abs n + d) (2 * d) ltac:(lia)).
  fold q in E.
  assert (- d <= 2 * (Z.abs n - d * q) <= d) by lia.
  destruct (Z.sgn_spec n) as [[? ->]|[[? ->]|[? ->]]]; lia.
Qed.

Lemma div_half_up_nonneg n d : 0 < d -> 0 <= n -> 0 <= div_half_up n d.
Proof.
  intros Hd Hn. unfold div_half_up. apply Z.mul_nonneg_nonneg; [lia|].
  apply Z.div_pos; lia.
Qed.

Lemma quantize_cents_nonneg x : 0 <= coeff x -> 0 <= quantize_cents x.
Proof.
  intros H. unfold quantize_cents. case_match; [lia|].
  apply div_half_up_nonneg; [|done]. apply Z.pow_pos_nonneg; lia.
Qed.

Lemma fix_prec_id p x : 1 <= p -> Z.abs (coeff x) < 10 ^ p -> fix_prec p x = x.
Proof.
  intros Hp H. unfold fix_prec. pose proof (ndigits_le _ p Hp H).
  destruct (Z.leb_spec (ndigits (coeff x) - p) 0); [done|lia].
Qed.

Lemma div_half_even_nonneg n d : 0 < d -> 0 <= n -> 0 <= div_half_even n d.
Proof.
  intros Hd Hn. unfold div_half_even. pose proof (Z.div_pos n d Hn Hd).
  repeat case_match; lia.
Qed.

Lemma fix_prec_nonneg p x : 0 <= coeff x -> 0 <= coeff (fix_prec p x).
Proof.
  intros H. unfold fix_prec. destruct (Z.leb_spec (ndigits (coeff x) - p) 0); [done|].
  pose proof (Z.pow_pos_nonneg 10 (ndigits (coeff x) - p) ltac:(lia) ltac:(lia)) as Hp.
  pose proof (div_half_even_nonneg (coeff x) _ Hp H).
  case_match; simpl; [done|]. apply Z.div_pos; lia.
Qed.

Lemma dec_mul_nonneg p x y : 0 <= coeff x -> 0 <= coeff y -> 0 <= coeff (dec_mul p x y).
Proof. intros. apply fix_prec_nonneg. simpl. lia. Qed.

(** Rounding to [p] digits drops [k] digits and errs by half a unit of the last
    digit kept. *)
Lemma fix_prec_spec p x :
  1 <= p ->
  exists k, expo (fix_prec p x) = expo x + k /\ 0 <= k <= Z.max 0 (ndigits (coeff x) - p + 1) /\
    2 * Z.abs (coeff x - 10 ^ k * coeff (fix_prec p x)) <= 10 ^ k.
Proof.
  intros Hp. unfold fix_prec.
  destruct (Z.leb_spec (ndigits (coeff x) - p) 0) as [Hle|Hgt].
  { exists 0. rewrite Z.pow_0_r. repeat split; lia. }
  set (extra := ndigits (coeff x) - p) in *.
  assert (0 < 10 ^ extra) as Hpos by (apply Z.pow_pos_nonneg; lia).
  pose proof (div_half_even_spec (coeff x) (10 ^ extra) Hpos) as Herr.
  set (c := div_half_even (coeff x) (10 ^ extra)) in *.
  destruct (Z.leb_spec (ndigits c) p) as [Hc|Hc].
  { exists extra. simpl. repeat split; lia. }
  exists (extra + 1). simpl. split; [lia|]. split; [lia|].
  destruct (ndigits_spec (coeff x)) as [Hx _].
  assert (10 ^ ndigits (coeff x) = 10 ^ p * 10 ^ extra) as Ex.
  { rewrite <- Z.pow_add_r by lia. f_equal. lia. }
  assert (10 ^ p <= Z.abs c).
  { destruct (Z.le_gt_cases (10 ^ p) (Z.abs c)) as [|Hlt]; [done|].
    pose proof (ndigits_le c p Hp Hlt). lia. }
  assert (Z.abs c <= 10 ^ p) by nia.
  assert (10 ^ p = 10 * 10 ^ (p - 1)) as Ep.
  { rewrite <- Z.pow_succ_r by lia. f_equal. lia. }
  assert (10 * (c / 10) = c) as Ec.
  { symmetry. apply Z_div_exact_2; [lia|]. apply Z.mod_divide; [lia|].
    exists (Z.sgn c * 10 ^ (p - 1)). nia. }
  rewrite Z.pow_add_r, Z.pow_1_r by lia.
  replace (10 ^ extra * 10 * (c / 10)) with (10 ^ extra * c) by lia. lia.
Qed.

(** Composing the three roundings of a division: the sticky quotient, the
    rounding to the context and the rounding to the cent. *)
Lemma three_roundings m n q c r a b :
  0 < a -> 0 < b -> 1 <= n ->
  Z.abs (m * (a * b) - n * q) <= n ->
  2 * Z.abs (q - b * c) <= b ->
  2 * Z.abs (c - a * r) <= a ->
  n * (b + 2) < a * b ->
  2 * Z.abs (m - n * r) <= n.
Proof.
  intros Ha Hb Hn Hq Hc Hr Hsmall.
  assert (2 * Z.abs (n * (q - b * c)) <= n * b) by (rewrite Z.abs_mul, (Z.abs_eq n); nia).
  assert (2 * Z.abs (n * b * (c - a * r)) <= n * b * a)
    by (rewrite Z.abs_mul, (Z.abs_eq (n * b)); nia).
  assert (2 * Z.abs (a * b * (m - n * r)) <= n * (a * b) + n * (b + 2)) as Htot.
  { replace (a * b * (m - n * r))
      with ((m * (a * b) - n * q) + n * (q - b * c) + n * b * (c - a * r)) by ring. lia. }
  rewrite Z.abs_mul, (Z.abs_eq (a * b)) in Htot by nia. nia.
Qed.

(** The digits a division keeps before its last rounding. *)
Lemma quot_digits m n :
  0 <= m < 10 ^ 18 -> 1 <= n <= 10 ^ 6 ->
  let shift := ndigits n - ndigits m + 28 + 1 in
  12 <= shift /\ m * 10 ^ shift < 10 ^ 30 * n.
Proof.
  intros Hm Hn shift.
  pose proof (ndigits_pos n). pose proof (ndigits_pos m).
  assert (ndigits m <= 18) by (apply ndigits_le; lia).
  assert (12 <= shift) by lia. split; [done|].
  destruct (ndigits_spec m) as [Hmlt _]. destruct (ndigits_spec n) as [_ Hnge].
  assert (10 ^ (ndigits n - 1) <= n).
  { destruct (decide (10 <= n)); [specialize (Hnge ltac:(lia)); lia|].
    assert (ndigits n <= 1) by (apply ndigits_le; simpl; lia).
    replace (ndigits n) with 1 by lia. simpl. lia. }
  assert (10 ^ ndigits m * 10 ^ shift = 10 ^ 30 * 10 ^ (ndigits n - 1)).
  { rewrite <- !Z.pow_add_r by lia. f_equal. lia. }
  assert (0 < 10 ^ shift) by (apply Z.pow_pos_nonneg; lia). nia.
Qed.

(** Hundredths divided by a small integer, through 28 digits and then to the
    cent, is the true quotient rounded to the nearest cent: the double rounding
    is harmless at these magnitudes. *)
Lemma quantize_div_spec (m : money) n :
  0 <= m < 10 ^ 18 -> 1 <= n <= 10 ^ 6 ->
  2 * Z.abs (m - n * quantize_cents (dec_div context_prec (dec_of_money m) (dec_of_Z n))) <= n.
Proof.
  intros Hm Hn. unfold dec_div, dec_of_money, dec_of_Z, context_prec. cbn [coeff expo].
  destruct (quot_digits m n Hm Hn) as [Hs Hlt].
  set (shift := ndigits n - ndigits m + 28 + 1) in *.
  rewrite (Z.max_r 0 shift), (Z.max_l 0 (- shift)), Z.pow_0_r, Z.mul_1_r by lia.
  rewrite (Z.abs_eq m), (Z.abs_eq n) by lia.
  set (q := m * 10 ^ shift / n).
  set (q' := if _ : bool then q else q + 1).
  assert (0 < 10 ^ shift) as Hsp by (apply Z.pow_pos_nonneg; lia).
  assert (0 <= q) by (apply Z.div_pos; nia).
  pose proof (Z.div_mod (m * 10 ^ shift) n ltac:(lia)) as Eq. fold q in Eq.
  pose proof (Z.mod_pos_bound (m * 10 ^ shift) n ltac:(lia)).
  assert (q <= q' <= q + 1) by (unfold q'; destruct (_ || _); lia).
  assert (Z.sgn m * Z.sgn n * q' = q') as ->.
  { destruct (decide (m = 0)) as [E0|].
    - unfold q', q. rewrite E0, Z.mul_0_l, Z.div_0_l, Z.mod_0_l by lia. done.
    - rewrite (Z.sgn_pos m), (Z.sgn_pos n) by lia. lia. }
  destruct (fix_prec_spec 28 (Dec q' (-2 - 0 - shift)) ltac:(lia)) as (k & Ek & Hk & Herr).
  cbn [coeff expo] in *. set (y := fix_prec 28 _) in *.
  assert (ndigits q' <= 31) by (apply ndigits_le; nia).
  unfold quantize_cents. destruct (Z.leb_spec (-2) (expo y)); [lia|].
  replace (-2 - expo y) with (shift - k) by lia.
  assert (0 < 10 ^ (shift - k)) as Hpk by (apply Z.pow_pos_nonneg; lia).
  assert (10 ^ shift = 10 ^ (shift - k) * 10 ^ k) as Es.
  { rewrite <- Z.pow_add_r by lia. f_equal. lia. }
  assert (10 ^ k <= 10 ^ 4) by (apply Z.pow_le_mono_r; lia).
  assert (10 ^ 12 <= 10 ^ shift) by (apply Z.pow_le_mono_r; lia).
  assert (0 < 10 ^ k) by (apply Z.pow_pos_nonneg; lia).
  apply (three_roundings m n q' (coeff y) _ (10 ^ (shift - k)) (10 ^ k)); [lia..| | | |].
  - rewrite <- Es. nia.
  - done.
  - by apply div_half_up_spec.
  - rewrite <- Es. assert (n * (10 ^ k + 2) <= 10 ^ 6 * (10 ^ 4 + 2)) by nia. lia.
Qed.

(** *** Texts of hexadecimal digits *)

Lemma all_chars_app p a b : all_chars p (a +:+ b) = all_chars p a && all_chars p b.
Proof.
  induction a as [|c a IH]; [done|]. change (String c a +:+ b) with (String c (a +:+ b)). cbn [all_chars]. by rewrite IH, andb_assoc.
Qed.
Lemma all_chars_substring p s i n : all_chars p s = true -> all_chars p (String.substring i n s) = true.
Proof.
  revert i n. induction s as [|c s IH]; intros i n Hs; [by destruct i, n|]. cbn in Hs. apply andb_prop in Hs as [Hc Hs].
  destruct i as [|i], n as [|n]; cbn; try apply IH; try done. by rewrite Hc, IH.
Qed.
Lemma no_slash_all_chars s : no_slash s = all_chars (fun c => negb (Ascii.eqb c "/"%char)) s.
Proof. induction s as [|c s IH]; [done|]. cbn. by rewrite IH. Qed.

Section hex.
Context (p : ascii -> bool) (Hp : forallb p (String.list_ascii_of_string "0123456789abcdef") = true).
Lemma hex_char_all n : 0 <= n < 16 -> p (hex_char n) = true.
Proof.
  intros Hn. rewrite forallb_forall in Hp. apply Hp.
  assert (exists k, (k < 16)%nat /\ n = Z.of_nat k) as (k & Hk & ->) by (exists (Z.to_nat n); lia).
  do 16 (destruct k as [|k]; [cbn; tauto|]). lia.
Qed.
Lemma hex_of_all d n : all_chars p (hex_of d n) = true.
Proof.
  revert n. induction d as [|d IH]; intros n; [done|]. cbn [hex_of]. rewrite all_chars_app, IH. cbn [all_chars].
  rewrite hex_char_all; [done|]. apply Z.mod_pos_bound. lia.
Qed.
Lemma str_uuid_all u : p "-"%char = true -> all_chars p (str_uuid u) = true.
Proof.
  intros Hd. unfold str_uuid, uuid_hex. cbv zeta. rewrite !all_chars_app. cbn [all_chars]. rewrite Hd.
  rewrite !all_chars_substring by apply hex_of_all. done.
Qed.
End hex.
Lemma length_hex_of d n : String.length (hex_of d n) = d.
Proof. revert n. induction d as [|d IH]; intros n; [done|]. cbn [hex_of]. rewrite length_str_app, IH. cbn. lia. Qed.
Lemma no_slash_str_uuid u : no_slash (str_uuid u) = true.
Proof. rewrite no_slash_all_chars. by apply str_uuid_all. Qed.

(** ** Data as text

    For the concrete instances of the classes: a positive in binary, the code of any countable
    value, written and read back. *)

Fixpoint bits (p : positive) : string :=
  match p with
  | xH => "1"
  | xO p => String "0"%char (bits p)
  | xI p => String "1"%char (bits p)
  end.
Fixpoint of_bits (s : string) : option positive :=
  match s with
  | EmptyString => None
  | String _ EmptyString => Some xH
  | String "0"%char s => xO <$> of_bits s
  | String _ s => xI <$> of_bits s
  end.
Lemma of_bits_bits p : of_bits (bits p) = Some p.
Proof.
  induction p as [p IH|p IH|]; simpl; [| |done].
  - destruct (bits p) as [|c r] eqn:E; [by destruct p|]. simpl in *. by rewrite IH.
  - destruct (bits p) as [|c r] eqn:E; [by destruct p|]. simpl in *. by rewrite IH.
Qed.

Definition text_of `{Countable A} (x : A) : string := bits (encode x).
Definition of_text `{Countable A} (s : string) : option A := of_bits s ≫= decode.
Lemma of_text_of `{Countable A} (x : A) : of_text (text_of x) = Some x.
Proof. unfold of_text, text_of. rewrite of_bits_bits. cbn. apply decode_encode. Qed.
