(* ===== verification/Files.v ===== *)
(** * The files of a process: [pathlib] and [os.chmod], as the certificate authority and the
    agent use them

    A disk is the sequence of the writes made to it, the last one first. A process that is
    killed leaves a disk it had while it ran: a suffix of the one it would have left. *)

From S2P Require Import Prelude PyStd.

(** ** Model *)

Record File := mkFile { content : string; mode : Z }.
Definition Disk := list (string * File).

Section files.
(** The permissions of a file that [open] creates: [0o666] less the umask. *)
Context (default_mode : Z).

Definition exists_file (path : string) (d : Disk) : bool := match dict_get d path with Some _ => true | None => false end.
(** [path.read_bytes()] *)
Definition read_file (path : string) : M Disk string :=
  found ← gets (fun d => dict_get d path);
  f ← some_or found FileNotFoundError;
  mret (content f).
(** [path.write_bytes(data)] keeps the permissions of a file that is there. *)
Definition write_file (path data : string) : M Disk unit :=
  modify (fun d => (path, mkFile data (match dict_get d path with Some f => mode f | None => default_mode end)) :: d).
(** [os.chmod(path, mode)] *)
Definition chmod (path : string) (m : Z) : M Disk unit :=
  found ← gets (fun d => dict_get d path);
  f ← some_or found FileNotFoundError;
  modify (fun d => (path, mkFile (content f) m) :: d).
End files.

(** [d'] is a disk that a process had between [d] and the one it would have left. *)
Definition killed (d final d' : Disk) : Prop := d `suffix_of` d' /\ d' `suffix_of` final.

(** ** Lemmas *)

Lemma dict_get_eq {V} (d : list (string * V)) k v : dict_get ((k, v) :: d) k = Some v.
Proof. cbn. by rewrite decide_True. Qed.
Lemma dict_get_ne {V} (d : list (string * V)) k k' v : k <> k' -> dict_get ((k, v) :: d) k' = dict_get d k'.
Proof. intros H. cbn. by rewrite decide_False. Qed.

(** A process that writes nothing leaves the disk as it was. *)
Lemma killed_same d d' : killed d d d' -> d' = d.
Proof. intros [H1 H2]. by apply (anti_symm suffix). Qed.
(** Two processes, one after the other. *)
Lemma killed_split d d1 final d' :
  d `suffix_of` d1 -> d1 `suffix_of` final -> killed d final d' -> killed d d1 d' \/ killed d1 final d'.
Proof. intros H1 H2 [H3 H4]. destruct (suffix_weak_total d' d1 final H4 H2); [by left|by right]. Qed.
(** One more write: the process was killed before it or after. *)
Lemma killed_cons d e final d' :
  d `suffix_of` final -> killed d (e :: final) d' -> d' = e :: final \/ killed d final d'.
Proof.
  intros Hd [H1 [k Hk]]. destruct k as [|x k]; [left; by rewrite Hk|right].
  injection Hk as <- ->. split; [done|]. by exists k.
Qed.
Lemma exists_file_true path d : exists_file path d = true -> is_Some (dict_get d path).
Proof. unfold exists_file. destruct (dict_get d path); [by eexists|done]. Qed.
Lemma exists_file_false path d : exists_file path d = false -> dict_get d path = None.
Proof. unfold exists_file. by destruct (dict_get d path). Qed.
Lemma read_file_run path d f : dict_get d path = Some f -> read_file path d = (d, Ret (content f)).
Proof. intros H. unfold read_file, mbind, M_bind, gets. by rewrite H. Qed.
