(* ===== verification/Json.v ===== *)
(** * A flat object of texts as a file: [json.dumps(d, indent=2)] and [json.loads]

    The identity of an agent and the credentials of the command line are objects whose values
    are texts; [loads] reads such objects, however they are laid out, and [None] is anything
    else. Characters are those of Latin-1. *)

From Stdlib Require Import Ascii.
From S2P Require Import Prelude PyStd.

(** ** Model *)

Definition quote : ascii := "034"%char.
Definition backslash : ascii := "092"%char.

(** [ESCAPE_DCT] and the escape of what is not printable ASCII. *)
Definition escape_char (c : ascii) : string :=
  let n := nat_of_ascii c in
  if bool_decide (c = quote) || bool_decide (c = backslash) then String backslash (String c "")
  else if bool_decide (n = 10)%nat then String backslash "n"
  else if bool_decide (n = 13)%nat then String backslash "r"
  else if bool_decide (n = 9)%nat then String backslash "t"
  else if bool_decide (n = 12)%nat then String backslash "f"
  else if bool_decide (n = 8)%nat then String backslash "b"
  else if bool_decide (32 <= n <= 126)%nat then String c ""
  else String backslash (String "u" (hex_of 4 (Z.of_nat n))).
Fixpoint escape (s : string) : string :=
  match s with EmptyString => "" | String c s => escape_char c +:+ escape s end.
Definition quoted (s : string) : string := String quote (escape s) +:+ String quote "".

Definition newline : string := String "010"%char "".
Definition dump_item (kv : string * string) : string := quoted kv.1 +:+ ": " +:+ quoted kv.2.
Fixpoint dump_items (d : list (string * string)) : string :=
  match d with
  | [] => ""
  | [kv] => dump_item kv
  | kv :: d => dump_item kv +:+ "," +:+ newline +:+ "  " +:+ dump_items d
  end.
Definition dumps (d : list (string * string)) : string :=
  match d with [] => "{}" | _ => "{" +:+ newline +:+ "  " +:+ dump_items d +:+ newline +:+ "}" end.

(** [py_scanstring], past the opening quote: the text and what follows the closing quote. *)
Definition hex_digit (c : ascii) : option Z :=
  if is_hex c then
    let n := Z.of_nat (nat_of_ascii c) in Some (if n <=? 57 then n - 48 else if n <=? 70 then n - 55 else n - 87)
  else None.
Definition unescape_char (c : ascii) : option ascii :=
  if bool_decide (c = quote) || bool_decide (c = backslash) || bool_decide (c = "/"%char) then Some c
  else if bool_decide (c = "n"%char) then Some "010"%char
  else if bool_decide (c = "r"%char) then Some "013"%char
  else if bool_decide (c = "t"%char) then Some "009"%char
  else if bool_decide (c = "f"%char) then Some "012"%char
  else if bool_decide (c = "b"%char) then Some "008"%char
  else None.
Definition unescape_u (a b c d : ascii) : option ascii :=
  a ← hex_digit a; b ← hex_digit b; c ← hex_digit c; d ← hex_digit d;
  if (a =? 0) && (b =? 0) then Some (ascii_of_nat (Z.to_nat (16 * c + d))) else None.
Definition cons_text (c : option ascii) (r : option (string * string)) : option (string * string) :=
  match c, r with Some c, Some (t, s) => Some (String c t, s) | _, _ => None end.
Fixpoint scan (s : string) : option (string * string) :=
  match s with
  | EmptyString => None
  | String c r =>
      if bool_decide (c = quote) then Some ("", r)
      else if bool_decide (c = backslash) then
        match r with
        | String e r' =>
            if bool_decide (e = "u"%char) then
              match r' with
              | String a (String b (String c (String d r))) => cons_text (unescape_u a b c d) (scan r)
              | _ => None
              end
            else cons_text (unescape_char e) (scan r')
        | EmptyString => None
        end
      else if bool_decide (nat_of_ascii c < 32)%nat then None
      else cons_text (Some c) (scan r)
  end.

(** The white space of JSON. *)
Definition is_white (c : ascii) : bool := existsb (Ascii.eqb c) [" "; "009"; "010"; "013"]%char.
Definition skip (s : string) : string := lstrip_of is_white s.
(** One character, after white space. *)
Definition expect (c : ascii) (s : string) : option string :=
  match skip s with String a r => if Ascii.eqb a c then Some r else None | EmptyString => None end.
Fixpoint load_items (fuel : nat) (s : string) : option (list (string * string)) :=
  match fuel with
  | O => None
  | S fuel =>
      s ← expect quote s; k ← scan s; s ← expect ":" k.2; s ← expect quote s; v ← scan s;
      match expect "," v.2 with
      | Some s => d ← load_items fuel s; Some ((k.1, v.1) :: d)
      | None => s ← expect "}" v.2; if bool_decide (skip s = "") then Some [(k.1, v.1)] else None
      end
  end.
(** Every item takes a character: the length of the text is fuel enough. *)
Definition loads (s : string) : option (list (string * string)) :=
  r ← expect "{" s;
  match expect "}" r with
  | Some r => if bool_decide (skip r = "") then Some [] else None
  | None => load_items (String.length s) r
  end.

(** ** Lemmas *)

Lemma scan_plain c r :
  c <> quote -> c <> backslash -> (32 <= nat_of_ascii c)%nat -> scan (String c r) = cons_text (Some c) (scan r).
Proof. intros H1 H2 H3. cbn [scan]. rewrite !bool_decide_eq_false_2 by (done || lia). done. Qed.
Lemma scan_named e r : e <> "u"%char -> scan (String backslash (String e r)) = cons_text (unescape_char e) (scan r).
Proof. intros H. cbn [scan]. rewrite (bool_decide_eq_false_2 (e = _)) by done. done. Qed.
Lemma scan_u a b c d r :
  scan (String backslash (String "u" (String a (String b (String c (String d r)))))) = cons_text (unescape_u a b c d) (scan r).
Proof. done. Qed.
(** The escape of a character that is not printed as it is. *)
Definition reads_u (c : ascii) : bool :=
  match hex_of 4 (Z.of_nat (nat_of_ascii c)) with
  | String w (String x (String y (String z ""))) => bool_decide (unescape_u w x y z = Some c)
  | _ => false
  end.
Lemma reads_u_true c : reads_u c = true.
Proof. destruct c as [[] [] [] [] [] [] [] []]; vm_compute; reflexivity. Qed.

Lemma scan_escape_char c r : scan (escape_char c +:+ r) = cons_text (Some c) (scan r).
Proof.
  assert (Hc : forall n, nat_of_ascii c = n -> c = ascii_of_nat n) by (intros n <-; symmetry; apply ascii_nat_embedding).
  unfold escape_char. cbv zeta. destruct (bool_decide (c = quote) || bool_decide (c = backslash)) eqn:E.
  { transitivity (scan (String backslash (String c r))); [done|].
    rewrite scan_named; [unfold unescape_char; by rewrite E|].
    apply orb_true_iff in E as [->%bool_decide_eq_true | ->%bool_decide_eq_true]; done. }
  apply orb_false_iff in E as [E1%bool_decide_eq_false E2%bool_decide_eq_false]. repeat case_bool_decide.
  - rewrite (Hc 10%nat) by done. done.
  - rewrite (Hc 13%nat) by done. done.
  - rewrite (Hc 9%nat) by done. done.
  - rewrite (Hc 12%nat) by done. done.
  - rewrite (Hc 8%nat) by done. done.
  - transitivity (scan (String c r)); [done|]. apply scan_plain; [done|done|lia].
  - pose proof (reads_u_true c) as Hu. unfold reads_u in Hu.
    destruct (hex_of 4 _) as [|w [|x [|y [|z [|]]]]]; try discriminate Hu. apply bool_decide_eq_true in Hu.
    transitivity (scan (String backslash (String "u" (String w (String x (String y (String z r))))))); [done|]. by rewrite scan_u, Hu.
Qed.
Lemma scan_quoted s r : scan (escape s +:+ String quote r) = Some (s, r).
Proof.
  induction s as [|c s IH]; [done|]. cbn [escape]. rewrite str_app_assoc, scan_escape_char, IH. done.
Qed.

Lemma dump_item_app k v s :
  dump_item (k, v) +:+ s = String quote (escape k +:+ String quote (": " +:+ String quote (escape v +:+ String quote s))).
Proof. unfold dump_item, quoted. cbn [fst snd]. rewrite !str_app_assoc. done. Qed.

Lemma load_items_dump fuel d :
  d <> [] -> (length d <= fuel)%nat ->
  load_items fuel (newline +:+ "  " +:+ dump_items d +:+ newline +:+ "}") = Some d.
Proof.
  revert d. induction fuel as [|fuel IH]; intros [|[k v] d] Hne Hlen; [done|cbn in Hlen; lia|done|].
  assert (exists s, dump_items ((k, v) :: d) +:+ newline +:+ "}" = dump_item (k, v) +:+ s /\
    match d with [] => s = newline +:+ "}" | _ => s = "," +:+ newline +:+ "  " +:+ dump_items d +:+ newline +:+ "}" end) as (s & -> & Hs).
  { destruct d as [|kv d]; [by eexists|]. cbn [dump_items]. rewrite !str_app_assoc. by eexists. }
  rewrite dump_item_app. cbn [load_items].
  change (expect quote (newline +:+ "  " +:+ String quote ?x)) with (Some x). cbn [mbind option_bind].
  rewrite scan_quoted. cbn [mbind option_bind fst snd].
  change (expect ":" (": " +:+ ?x)) with (Some (" " +:+ x)). cbn [mbind option_bind].
  change (expect quote (" " +:+ String quote ?x)) with (Some x). cbn [mbind option_bind].
  rewrite scan_quoted. cbn [mbind option_bind fst snd].
  destruct d as [|kv d]; subst s; [done|].
  change (expect "," ("," +:+ ?x)) with (Some x). cbv iota. rewrite IH; [done|done|]. cbn in Hlen |- *. lia.
Qed.

Lemma dump_items_length d : (length d <= String.length (dump_items d))%nat.
Proof.
  assert (H : forall kv, (1 <= String.length (dump_item kv))%nat).
  { intros kv. unfold dump_item, quoted. rewrite !length_str_app. cbn. lia. }
  induction d as [|kv [|kv' d] IH]; [done|apply H|]. change (dump_items (kv :: kv' :: d)) with
    (dump_item kv +:+ "," +:+ newline +:+ "  " +:+ dump_items (kv' :: d)).
  rewrite !length_str_app. specialize (H kv). cbn [length] in *. lia.
Qed.

(** What [dumps] writes, [loads] reads back. *)
Lemma loads_dumps d : loads (dumps d) = Some d.
Proof.
  destruct d as [|kv d]; [done|]. unfold loads.
  change (dumps (kv :: d)) with (String "{" (newline +:+ "  " +:+ dump_items (kv :: d) +:+ newline +:+ "}")).
  change (expect "{" (String "{" ?x)) with (Some x). cbn [mbind option_bind].
  assert (E : expect "}" (newline +:+ "  " +:+ dump_items (kv :: d) +:+ newline +:+ "}") = None).
  { destruct kv as [k v], d; cbn [dump_items]; rewrite ?str_app_assoc, dump_item_app; done. }
  rewrite E. apply load_items_dump; [done|]. cbn [String.length]. rewrite !length_str_app.
  pose proof (dump_items_length (kv :: d)). lia.
Qed.

Example loads_laid_out_otherwise :
  loads (String.concat (String quote "") ["{"; "a"; ":"; "b\u0041\n"; " , "; "c"; " : "; "\/"; " }"]) =
    Some [("a", "bA" +:+ newline); ("c", "/")].
Proof. vm_compute. reflexivity. Qed.
