(* ===== verification/Documents.v ===== *)
(** * JSON documents: [json.loads], [json.dumps], [repr] of a float, [Decimal(str(x))]

    What the gateways of payment, the OAuth providers and the mail service write and read. A
    text is the UTF-8 of its characters, a lone surrogate being its three bytes. Bodies in
    UTF-16 or UTF-32 are taken for malformed, and nesting has no limit. *)

From Stdlib Require Import Ascii SpecFloat.
From stdpp Require Import sorting pretty.
From S2P Require Import Prelude PyStd.
From S2P Require Import Json.

(** ** Model *)

Inductive doc :=
| DNull
| DBool (b : bool)
| DInt (n : Z)
| DFloat (x : spec_float)
| DText (s : string)
| DArray (l : list doc)
| DObject (d : list (string * doc)).

(** *** Text *)

Definition byte_of (n : Z) : ascii := ascii_of_nat (Z.to_nat n).
Definition code (c : ascii) : Z := Z.of_nat (nat_of_ascii c).
Definition utf8_of (n : Z) : string :=
  if n <? 128 then String (byte_of n) ""
  else if n <? 2048 then String (byte_of (192 + n / 64)) (String (byte_of (128 + n mod 64)) "")
  else if n <? 65536 then
    String (byte_of (224 + n / 4096)) (String (byte_of (128 + n / 64 mod 64)) (String (byte_of (128 + n mod 64)) ""))
  else
    String (byte_of (240 + n / 262144)) (String (byte_of (128 + n / 4096 mod 64))
      (String (byte_of (128 + n / 64 mod 64)) (String (byte_of (128 + n mod 64)) ""))).

Definition within (lo hi : Z) (c : ascii) : bool := (lo <=? code c) && (code c <=? hi).
(** UTF-8, with the surrogates that ["surrogatepass"] lets through. *)
Fixpoint is_text8 (s : string) : bool :=
  match s with
  | EmptyString => true
  | String a r =>
      if within 0 127 a then is_text8 r
      else match r with
      | EmptyString => false
      | String b r =>
          if within 194 223 a then within 128 191 b && is_text8 r
          else match r with
          | EmptyString => false
          | String c r =>
              if within 224 239 a then
                within (if code a =? 224 then 160 else 128) 191 b && within 128 191 c && is_text8 r
              else match r with
              | EmptyString => false
              | String d r =>
                  within 240 244 a && within (if code a =? 240 then 144 else 128) (if code a =? 244 then 143 else 191) b
                  && within 128 191 c && within 128 191 d && is_text8 r
              end
          end
      end
  end.
Fixpoint has_surrogate (s : string) : bool :=
  match s with
  | String a (String b _ as r) => ((code a =? 237) && within 160 191 b) || has_surrogate r
  | _ => false
  end.
(** [s.encode()]; [b.decode()] *)
Definition encode_text (s : string) : outcome string := if has_surrogate s then Exc ValueError else Ret s.
Definition decode_text (b : string) : outcome string :=
  if is_text8 b && negb (has_surrogate b) then Ret b else Exc ValueError.

Definition hex4 (a b c d : ascii) : option Z :=
  a ← hex_digit a; b ← hex_digit b; c ← hex_digit c; d ← hex_digit d; Some (4096 * a + 256 * b + 16 * c + d).
Definition cons_string (c : option string) (r : option (string * string)) : option (string * string) :=
  match c, r with Some c, Some (t, s) => Some (c +:+ t, s) | _, _ => None end.
Definition is_low (n : Z) : bool := (56320 <=? n) && (n <=? 57343).
Definition is_high (n : Z) : bool := (55296 <=? n) && (n <=? 56319).
(** [scanstring], past the opening quote: a pair of surrogates is one character. *)
Fixpoint scan_text (s : string) : option (string * string) :=
  match s with
  | EmptyString => None
  | String c r =>
      if bool_decide (c = quote) then Some ("", r)
      else if bool_decide (c = backslash) then
        match r with
        | EmptyString => None
        | String e r' =>
            if bool_decide (e = "u"%char) then
              match r' with
              | String a (String b (String c (String d r))) =>
                  match hex4 a b c d with
                  | None => None
                  | Some n =>
                      match r with
                      | String x (String y (String a (String b (String c (String d r'))))) =>
                          if is_high n && Ascii.eqb x backslash && Ascii.eqb y "u" then
                            match hex4 a b c d with
                            | Some m =>
                                if is_low m then
                                  cons_string (Some (utf8_of (65536 + 1024 * (n - 55296) + (m - 56320)))) (scan_text r')
                                else cons_string (Some (utf8_of n)) (scan_text r)
                            | None => None
                            end
                          else cons_string (Some (utf8_of n)) (scan_text r)
                      | _ => cons_string (Some (utf8_of n)) (scan_text r)
                      end
                  end
              | _ => None
              end
            else cons_string ((fun c => String c "") <$> unescape_char e) (scan_text r')
        end
      else if bool_decide (nat_of_ascii c < 32)%nat then None
      else cons_string (Some (String c "")) (scan_text r)
  end.

(** [py_encode_basestring]: [ensure_ascii=False]. *)
Definition escape_raw (c : ascii) : string :=
  let n := nat_of_ascii c in
  if bool_decide (c = quote) || bool_decide (c = backslash) then String backslash (String c "")
  else if bool_decide (n = 10)%nat then String backslash "n"
  else if bool_decide (n = 13)%nat then String backslash "r"
  else if bool_decide (n = 9)%nat then String backslash "t"
  else if bool_decide (n = 12)%nat then String backslash "f"
  else if bool_decide (n = 8)%nat then String backslash "b"
  else if bool_decide (n < 32)%nat then String backslash (String "u" (hex_of 4 (Z.of_nat n)))
  else String c "".
Fixpoint escape_text (s : string) : string :=
  match s with EmptyString => "" | String c s => escape_raw c +:+ escape_text s end.
Definition print_text (s : string) : string := String quote (escape_text s) +:+ String quote "".

(** *** Numbers *)

Fixpoint take_digits (s : string) : string * string :=
  match s with
  | EmptyString => ("", "")
  | String c r => if is_digit c then let '(d, t) := take_digits r in (String c d, t) else ("", s)
  end.
Fixpoint digits_value (acc : Z) (s : string) : Z :=
  match s with EmptyString => acc | String c s => digits_value (10 * acc + (code c - 48)) s end.

(** [m * 10^e], rounded once: [float] of a literal. *)
Definition float_of_decimal (neg : bool) (m e : Z) : spec_float :=
  match m with
  | Zpos p =>
      if 0 <=? e then binary_normalize 53 1024 (if neg then - (m * 10 ^ e) else m * 10 ^ e) 0 neg
      else SFdiv 53 1024 (S754_finite neg p 0) (S754_finite false (Z.to_pos (10 ^ (- e))) 0)
  | _ => S754_zero neg
  end.

(** [repr] of a float: the fewest digits that read back, the nearest of them first. *)
Definition candidates (n d k digits : Z) : list Z :=
  let near := if 0 <=? digits - k then div_half_even (n * 10 ^ (digits - k)) d else div_half_even n (d * 10 ^ (k - digits)) in
  [near; near + 1; near - 1].
Fixpoint shortest (fuel : nat) (x : spec_float) (n d k digits : Z) : Z * Z :=
  match fuel with
  | O => (div_half_even (n * 10 ^ (17 - k)) d, k - 17)
  | S fuel =>
      match filter (fun c => SFeqb (float_of_decimal false c (k - digits)) x = true) (candidates n d k digits) with
      | c :: _ => (c, k - digits)
      | [] => shortest fuel x n d k (digits + 1)
      end
  end.
Definition magnitude (n d : Z) : Z :=
  if d <=? n then ndigits (n / d) else 1 - ndigits ((d + n - 1) / n - 1).
Fixpoint rstrip_zeros (s : string) : string :=
  match s with
  | EmptyString => ""
  | String c r => match rstrip_zeros r with EmptyString => if Ascii.eqb c "0" then "" else String c "" | r => String c r end
  end.
Fixpoint zeros (n : nat) : string := match n with O => "" | S n => String "0" (zeros n) end.
Definition nat_text (n : Z) : string := pretty (Z.to_N n).
(** The digits, and the place of the point among them. *)
Definition place_point (s : string) (point : Z) : string :=
  let len := Z.of_nat (String.length s) in
  if (-4 <? point) && (point <=? 16) then
    if point <=? 0 then "0." +:+ zeros (Z.to_nat (- point)) +:+ s
    else if len <=? point then s +:+ zeros (Z.to_nat (point - len)) +:+ ".0"
    else String.substring 0 (Z.to_nat point) s +:+ "." +:+ String.substring (Z.to_nat point) (Z.to_nat (len - point)) s
  else
    let e := point - 1 in
    String.substring 0 1 s +:+ (if len =? 1 then "" else "." +:+ String.substring 1 (Z.to_nat (len - 1)) s) +:+ "e"
    +:+ (if e <? 0 then "-" else "+") +:+ (if Z.abs e <? 10 then "0" else "") +:+ nat_text (Z.abs e).
Definition float_repr (x : spec_float) : string :=
  match x with
  | S754_zero neg => if neg then "-0.0" else "0.0"
  | S754_infinity neg => if neg then "-inf" else "inf"
  | S754_nan => "nan"
  | S754_finite neg m e =>
      let n := if 0 <=? e then Zpos m * 2 ^ e else Zpos m in
      let d := if 0 <=? e then 1 else 2 ^ (- e) in
      let '(c, p) := shortest 17 (S754_finite false m e) n d (magnitude n d) 1 in
      let s := nat_text c in
      (if neg then "-" else "") +:+ place_point (rstrip_zeros s) (p + Z.of_nat (String.length s))
  end.

(** [_match_number]: an integer, or a float when there is a point or an exponent. *)
Definition sign_of (s : string) : bool * string :=
  match s with String c r => if Ascii.eqb c "-" then (true, r) else (false, s) | EmptyString => (false, s) end.
Definition int_part (s : string) : string * string :=
  match s with String c r => if Ascii.eqb c "0" then ("0", r) else take_digits s | EmptyString => ("", s) end.
Definition frac_part (s : string) : string * string :=
  match s with
  | String c r => if Ascii.eqb c "." then let '(d, t) := take_digits r in if bool_decide (d = "") then ("", s) else (d, t)
                  else ("", s)
  | EmptyString => ("", s)
  end.
Definition exp_part (s : string) : option Z * string :=
  match s with
  | String c r =>
      if Ascii.eqb c "e" || Ascii.eqb c "E" then
        let '(neg, r) := match r with
                         | String c t => if Ascii.eqb c "-" then (true, t) else if Ascii.eqb c "+" then (false, t) else (false, r)
                         | EmptyString => (false, r)
                         end in
        let '(d, t) := take_digits r in
        if bool_decide (d = "") then (None, s)
        else (Some (if neg : bool then - digits_value 0 d else digits_value 0 d), t)
      else (None, s)
  | EmptyString => (None, s)
  end.
Definition MAX_STR_DIGITS : nat := 4300.
Definition scan_unsigned (neg : bool) (s : string) : outcome (doc * string) :=
  let '(i, s) := int_part s in
  let '(f, s) := frac_part s in
  let '(e, s) := exp_part s in
  if bool_decide (i = "") then Exc JSONDecodeError
  else if bool_decide (f = "") && bool_decide (e = None) then
    if bool_decide (String.length i <= MAX_STR_DIGITS)%nat
    then Ret (DInt (if neg then - digits_value 0 i else digits_value 0 i), s)
    else Exc ValueError
  else Ret (DFloat (float_of_decimal neg (digits_value 0 (i +:+ f)) (default 0 e - Z.of_nat (String.length f))), s).
Definition scan_number (s : string) : outcome (doc * string) := let '(neg, s) := sign_of s in scan_unsigned neg s.

(** *** [json.loads] *)

Fixpoint after (p s : string) : option string :=
  match p, s with
  | EmptyString, s => Some s
  | String a p, String b s => if Ascii.eqb a b then after p s else None
  | _, _ => None
  end.
Definition LITERALS : list (string * doc) :=
  [("null", DNull); ("true", DBool true); ("false", DBool false); ("NaN", DFloat S754_nan);
   ("Infinity", DFloat (S754_infinity false)); ("-Infinity", DFloat (S754_infinity true))].
Fixpoint scan_literal (l : list (string * doc)) (s : string) : outcome (doc * string) :=
  match l with
  | [] => scan_number s
  | (p, v) :: l => match after p s with Some r => Ret (v, r) | None => scan_literal l s end
  end.
Definition scan_quoted_text (s : string) : outcome (string * string) :=
  match scan_text s with Some x => Ret x | None => Exc JSONDecodeError end.

(** [d[k] = v]: a key keeps its place. *)
Fixpoint put (k : string) (v : doc) (d : list (string * doc)) : list (string * doc) :=
  match d with
  | [] => [(k, v)]
  | (a, w) :: d => if decide (a = k) then (a, v) :: d else (a, w) :: put k v d
  end.

Fixpoint scan_value (fuel : nat) (s : string) : outcome (doc * string) :=
  match fuel with
  | O => Exc OutOfFuel
  | S fuel =>
      match s with
      | EmptyString => Exc JSONDecodeError
      | String c r =>
          if Ascii.eqb c quote then x ← scan_quoted_text r; Ret (DText x.1, x.2)
          else if Ascii.eqb c "{" then
            match expect "}" r with
            | Some t => Ret (DObject [], t)
            | None => x ← scan_members fuel [] (skip r); Ret (DObject x.1, x.2)
            end
          else if Ascii.eqb c "[" then
            match expect "]" r with
            | Some t => Ret (DArray [], t)
            | None => x ← scan_elements fuel (skip r); Ret (DArray x.1, x.2)
            end
          else scan_literal LITERALS s
      end
  end
with scan_members (fuel : nat) (d : list (string * doc)) (s : string) : outcome (list (string * doc) * string) :=
  match fuel with
  | O => Exc OutOfFuel
  | S fuel =>
      match s with
      | EmptyString => Exc JSONDecodeError
      | String c r =>
          if Ascii.eqb c quote then
            k ← scan_quoted_text r;
            match expect ":" k.2 with
            | None => Exc JSONDecodeError
            | Some t =>
                x ← scan_value fuel (skip t);
                let d := put k.1 x.1 d in
                match expect "}" x.2, expect "," x.2 with
                | Some t, _ => Ret (d, t)
                | None, Some t => scan_members fuel d (skip t)
                | None, None => Exc JSONDecodeError
                end
            end
          else Exc JSONDecodeError
      end
  end
with scan_elements (fuel : nat) (s : string) : outcome (list doc * string) :=
  match fuel with
  | O => Exc OutOfFuel
  | S fuel =>
      x ← scan_value fuel s;
      match expect "]" x.2, expect "," x.2 with
      | Some t, _ => Ret ([x.1], t)
      | None, Some t => y ← scan_elements fuel (skip t); Ret (x.1 :: y.1, y.2)
      | None, None => Exc JSONDecodeError
      end
  end.

Definition loads_text (s : string) : outcome doc :=
  x ← scan_value (2 * String.length s + 2) (skip s);
  if bool_decide (skip x.2 = "") then Ret x.1 else Exc JSONDecodeError.
(** The bytes of a body, whose byte order mark is dropped. *)
Definition json_loads (b : string) : outcome doc :=
  let b := default b (after (String "239" (String "187" (String "191" ""))) b) in
  if is_text8 b then loads_text b else Exc ValueError.

(** *** [json.dumps(d, sort_keys=True, separators=(",", ":"), ensure_ascii=False)] *)

Definition key_le (x y : string * doc) : Prop := String.le x.1 y.1.
#[export] Instance key_le_dec : RelDecision key_le.
Proof. intros x y. unfold key_le. apply _. Defined.
Fixpoint sorted (d : doc) : doc :=
  match d with
  | DArray l => DArray (map sorted l)
  | DObject d => DObject (merge_sort key_le (map (fun kv => (kv.1, sorted kv.2)) d))
  | d => d
  end.
Definition int_text (n : Z) : string := (if n <? 0 then "-" else "") +:+ nat_text (Z.abs n).
Definition json_float (x : spec_float) : string :=
  match x with
  | S754_nan => "NaN"
  | S754_infinity neg => if neg then "-Infinity" else "Infinity"
  | x => float_repr x
  end.
Fixpoint join_comma (l : list string) : string :=
  match l with [] => "" | [x] => x | x :: l => x +:+ "," +:+ join_comma l end.
Fixpoint print (d : doc) : string :=
  match d with
  | DNull => "null"
  | DBool b => if b then "true" else "false"
  | DInt n => int_text n
  | DFloat x => json_float x
  | DText s => print_text s
  | DArray l => "[" +:+ join_comma (map print l) +:+ "]"
  | DObject d => "{" +:+ join_comma (map (fun kv => print_text kv.1 +:+ ":" +:+ print kv.2) d) +:+ "}"
  end.
Definition dumps_sorted (d : doc) : string := print (sorted d).

(** *** What the code does with a document *)

(** [bool(x)] *)
Definition truthy (d : doc) : bool :=
  match d with
  | DNull => false
  | DBool b => b
  | DInt n => negb (n =? 0)
  | DFloat x => match x with S754_zero _ => false | _ => true end
  | DText s => negb (String.eqb s "")
  | DArray l => match l with [] => false | _ => true end
  | DObject d => match d with [] => false | _ => true end
  end.
(** [d.get(k)], and [None] of a key that is missing. *)
Definition doc_get (k : string) (d : doc) : outcome doc :=
  match d with DObject d => Ret (default DNull (dict_get d k)) | _ => Exc AttributeError end.
(** [d[k]] *)
Definition doc_item (k : string) (d : doc) : outcome doc :=
  match d with
  | DObject d => match dict_get d k with Some v => Ret v | None => Exc KeyError end
  | _ => Exc TypeError
  end.

(** [Decimal(s)], where a NaN or an infinity, which no JSON has, is refused. *)
Definition decimal_of_text (s : string) : outcome decimal :=
  let s := remove_all "_" (strip s) in
  let '(neg, s) := match s with
                   | String c r => if Ascii.eqb c "-" then (true, r) else if Ascii.eqb c "+" then (false, r) else (false, s)
                   | EmptyString => (false, s)
                   end in
  let '(i, s) := take_digits s in
  let '(f, s) := match s with
                 | String c r => if Ascii.eqb c "." then take_digits r else ("", s)
                 | EmptyString => ("", s)
                 end in
  let '(e, s) := exp_part s in
  if bool_decide (i +:+ f = "") || negb (bool_decide (s = "")) then Exc InvalidOperation
  else
    let m := digits_value 0 (i +:+ f) in
    Ret (Dec (if neg : bool then - m else m) (default 0 e - Z.of_nat (String.length f))).

Definition text_of_codes (l : list Z) : string := String.string_of_list_ascii (map byte_of l).
Definition quoted_by_bar (s : string) : string :=
  String.string_of_list_ascii (map (fun c => if Ascii.eqb c "|" then quote else c) (String.list_ascii_of_string s)).

Example loads_then_dumps :
  (d ← json_loads (quoted_by_bar " { |b| : [1, -0, 2.50, 1e2, true , null], |a|:{|z|:|\u00e9\ud83d\ude00\/|, |y|:{}}, |b2|:[], |a|:7 }"); Ret (dumps_sorted d)) =
  Ret (quoted_by_bar "{|a|:7,|b|:[1,0,2.5,100.0,true,null],|b2|:[]}").
Proof. vm_compute. reflexivity. Qed.
Example loads_refuses : map (fun s => json_loads (quoted_by_bar s)) ["[1,]"; "01"; "{|a| 1}"; "|\x|"; "1 2"; ""; "nul"] = replicate 7 (Exc JSONDecodeError).
Proof. vm_compute. reflexivity. Qed.
Example loads_texts :
  json_loads (quoted_by_bar "|\u00e9\ud83d\ude00\ud83d|") = Ret (DText (text_of_codes [195; 169; 240; 159; 152; 128; 237; 160; 189])).
Proof. vm_compute. reflexivity. Qed.
Example decimals : map decimal_of_text ["10.50"; " -1e2 "; ".5"; "1_000"; "abc"; "."; "1e"; "5."] =
  [Ret (Dec 1050 (-2)); Ret (Dec (-1) 2); Ret (Dec 5 (-1)); Ret (Dec 1000 0); Exc InvalidOperation; Exc InvalidOperation; Exc InvalidOperation; Ret (Dec 5 0)].
Proof. vm_compute. reflexivity. Qed.

(** ** Lemmas *)

(** *** Scanning what was printed *)

(** What follows a value inside a document. *)
Definition ends (r : string) : Prop :=
  match r with EmptyString => True | String c _ => c = ","%char \/ c = "]"%char \/ c = "}"%char end.

Lemma take_digits_app s r d t : ends r -> take_digits s = (d, t) -> take_digits (s +:+ r) = (d, t +:+ r).
Proof.
  intros Hr. revert d t. induction s as [|c s IH]; intros d t.
  - intros [= <- <-]. destruct r as [|c r]; [done|]. cbn. by destruct Hr as [->|[->| ->]].
  - change (String c s +:+ r) with (String c (s +:+ r)). cbn [take_digits]. destruct (is_digit c); [|by intros [= <- <-]].
    destruct (take_digits s) as [d' t'] eqn:E. intros [= <- <-]. by rewrite (IH d' t').
Qed.
Lemma sign_of_app s r n t : ends r -> sign_of s = (n, t) -> sign_of (s +:+ r) = (n, t +:+ r).
Proof.
  intros Hr. destruct s as [|c s].
  - intros [= <- <-]. destruct r as [|c r]; [done|]. cbn. by destruct Hr as [->|[->| ->]].
  - change (String c s +:+ r) with (String c (s +:+ r)). cbn [sign_of]. by destruct (Ascii.eqb c "-"); intros [= <- <-].
Qed.
Lemma int_part_app s r d t : ends r -> int_part s = (d, t) -> int_part (s +:+ r) = (d, t +:+ r).
Proof.
  intros Hr. destruct s as [|c s].
  - intros [= <- <-]. destruct r as [|c r]; [done|]. cbn. by destruct Hr as [->|[->| ->]].
  - change (String c s +:+ r) with (String c (s +:+ r)). cbn [int_part]. destruct (Ascii.eqb c "0"); [by intros [= <- <-]|].
    apply (take_digits_app (String c s) r d t Hr).
Qed.
Lemma frac_part_app s r d t : ends r -> frac_part s = (d, t) -> frac_part (s +:+ r) = (d, t +:+ r).
Proof.
  intros Hr. destruct s as [|c s].
  - intros [= <- <-]. destruct r as [|c r]; [done|]. cbn. by destruct Hr as [->|[->| ->]].
  - change (String c s +:+ r) with (String c (s +:+ r)). cbn [frac_part]. destruct (Ascii.eqb c "."); [|by intros [= <- <-]].
    destruct (take_digits s) as [d' t'] eqn:E. rewrite (take_digits_app _ _ _ _ Hr E). by case_bool_decide; intros [= <- <-].
Qed.
Lemma exp_part_app s r e t : ends r -> exp_part s = (e, t) -> exp_part (s +:+ r) = (e, t +:+ r).
Proof.
  intros Hr. destruct s as [|c s].
  - intros [= <- <-]. destruct r as [|c r]; [done|]. cbn. by destruct Hr as [->|[->| ->]].
  - change (String c s +:+ r) with (String c (s +:+ r)). cbn [exp_part].
    destruct (Ascii.eqb c "e" || Ascii.eqb c "E"); [|by intros [= <- <-]].
    assert (Hs : forall n u, (match s with
        | String c t => if Ascii.eqb c "-" then (true, t) else if Ascii.eqb c "+" then (false, t) else (false, s)
        | EmptyString => (false, s) end) = (n, u) ->
      (match s +:+ r with
        | String c t => if Ascii.eqb c "-" then (true, t) else if Ascii.eqb c "+" then (false, t) else (false, s +:+ r)
        | EmptyString => (false, s +:+ r) end) = (n, u +:+ r)).
    { intros n u. destruct s as [|b s].
      - intros [= <- <-]. destruct r as [|b r]; [done|]. cbn. by destruct Hr as [->|[->| ->]].
      - change (String b s +:+ r) with (String b (s +:+ r)). cbn iota beta.
        destruct (Ascii.eqb b "-"); [by intros [= <- <-]|]. by destruct (Ascii.eqb b "+"); intros [= <- <-]. }
    destruct (match s with EmptyString => _ | String _ _ => _ end) as [n u]. rewrite (Hs _ _ eq_refl).
    destruct (take_digits u) as [d' t'] eqn:E. rewrite (take_digits_app _ _ _ _ Hr E). by case_bool_decide; intros [= <- <-].
Qed.
Lemma scan_number_app s r v t : ends r -> scan_number s = Ret (v, t) -> scan_number (s +:+ r) = Ret (v, t +:+ r).
Proof.
  intros Hr. unfold scan_number, scan_unsigned.
  destruct (sign_of s) as [n s1] eqn:E1. rewrite (sign_of_app _ _ _ _ Hr E1).
  destruct (int_part s1) as [i s2] eqn:E2. rewrite (int_part_app _ _ _ _ Hr E2).
  destruct (frac_part s2) as [f s3] eqn:E3. rewrite (frac_part_app _ _ _ _ Hr E3).
  destruct (exp_part s3) as [e s4] eqn:E4. rewrite (exp_part_app _ _ _ _ Hr E4).
  repeat case_match; congruence.
Qed.

Definition starts_scalar (c : ascii) : bool := is_digit c || existsb (Ascii.eqb c) ["-"; "n"; "t"; "f"; "N"; "I"]%char.
Lemma starts_scalar_spec c :
  starts_scalar c = true ->
  is_white c = false /\ Ascii.eqb c quote = false /\ Ascii.eqb c "{" = false /\ Ascii.eqb c "[" = false /\
  Ascii.eqb c "]" = false /\ Ascii.eqb c "}" = false.
Proof. destruct c as [[] [] [] [] [] [] [] []]; vm_compute; intros H; (discriminate H || done). Qed.
Lemma scan_number_head c r v : scan_number (String c r) = Ret v -> is_digit c = true \/ c = "-"%char.
Proof.
  unfold scan_number, scan_unsigned. cbn [sign_of]. destruct (Ascii.eqb_spec c "-"); [by right|]. left.
  destruct (is_digit c) eqn:Hd; [done|]. cbn [int_part] in H. exfalso. revert H.
  destruct (Ascii.eqb_spec c "0") as [->|]; [done|]. cbn [take_digits]. rewrite Hd.
  destruct (frac_part _), (exp_part _). done.
Qed.

Lemma after_app p s r t : after p s = Some t -> after p (s +:+ r) = Some (t +:+ r).
Proof.
  revert s. induction p as [|a p IH]; intros s; [by intros [= <-]|].
  destruct s as [|b s]; [done|]. change (String b s +:+ r) with (String b (s +:+ r)). cbn [after].
  destruct (Ascii.eqb a b); [apply IH|done].
Qed.
Definition no_ender (p : string) : bool := all_chars (fun c => negb (existsb (Ascii.eqb c) [","; "]"; "}"]%char)) p.
Lemma after_app_None p s r : no_ender p = true -> ends r -> after p s = None -> after p (s +:+ r) = None.
Proof.
  intros Hp Hr. revert s. induction p as [|a p IH]; intros s; [done|].
  apply andb_true_iff in Hp as [Ha Hp]. destruct s as [|b s].
  - intros _. change ("" +:+ r) with r. destruct r as [|c r]; [done|]. cbn [after]. destruct (Ascii.eqb_spec a c) as [E|]; [subst a|done].
    cbn [ends] in Hr. by destruct Hr as [->|[->| ->]].
  - change (String b s +:+ r) with (String b (s +:+ r)). cbn [after]. destruct (Ascii.eqb a b); [by apply IH|done].
Qed.
Lemma scan_literal_app l s r v t :
  forallb (fun kv => no_ender kv.1) l = true -> ends r -> scan_literal l s = Ret (v, t) -> scan_literal l (s +:+ r) = Ret (v, t +:+ r).
Proof.
  intros Hl Hr. induction l as [|[p w] l IH]; [by apply scan_number_app|].
  apply andb_true_iff in Hl as [Hp Hl]. cbn [scan_literal fst] in *. destruct (after p s) as [u|] eqn:E.
  - rewrite (after_app _ _ r _ E). by intros [= <- <-].
  - rewrite (after_app_None _ _ _ Hp Hr E). by apply IH.
Qed.
Lemma scan_literal_head c r v : scan_literal LITERALS (String c r) = Ret v -> starts_scalar c = true.
Proof.
  unfold LITERALS. cbn [scan_literal after].
  repeat (match goal with |- context [Ascii.eqb ?a c] => destruct (Ascii.eqb_spec a c) as [<-|]; [by intros _|] end).
  intros [Hd| ->]%scan_number_head; [|done]. unfold starts_scalar. by rewrite Hd.
Qed.

(** *** Integers *)

Lemma digit_char x : (x < 10)%N -> is_digit (pretty_N_char x) = true /\ code (pretty_N_char x) = 48 + Z.of_N x.
Proof.
  intros H. assert (x = 0 \/ x = 1 \/ x = 2 \/ x = 3 \/ x = 4 \/ x = 5 \/ x = 6 \/ x = 7 \/ x = 8 \/ x = 9)%N as Hx by lia.
  repeat (destruct Hx as [->|Hx]; [done|]). by subst.
Qed.
(** The digits of [x] in front of [s]. *)
Lemma digits_of x s :
  all_chars is_digit s = true ->
  all_chars is_digit (pretty_N_go x s) = true /\ digits_value 0 (pretty_N_go x s) = digits_value (Z.of_N x) s.
Proof.
  revert s. induction (N.lt_wf_0 x) as [x _ IH]; intros s Hs. destruct (decide (x = 0)%N) as [->|Hx]; [done|].
  rewrite pretty_N_go_step by lia. assert (x mod 10 < 10)%N as Hm by (by apply N.mod_lt).
  destruct (digit_char _ Hm) as [Hd Hv]. destruct (IH (x `div` 10)%N) with (s := String (pretty_N_char (x mod 10)) s) as [H1 H2].
  { apply N.div_lt; lia. }
  { cbn [all_chars]. by rewrite Hd, Hs. }
  split; [done|]. rewrite H2. cbn [digits_value]. rewrite Hv. f_equal. pose proof (N.div_mod x 10). lia.
Qed.
Lemma digits_head x s : (0 < x)%N -> exists c r, pretty_N_go x s = String c r /\ Ascii.eqb c "0" = false.
Proof.
  revert s. induction (N.lt_wf_0 x) as [x _ IH]; intros s Hx. rewrite pretty_N_go_step by done.
  destruct (decide (x < 10)%N) as [Hlt|].
  - rewrite N.div_small, N.mod_small by done. rewrite pretty_N_go_0. eexists _, _. split; [done|].
    destruct (digit_char x Hlt) as [_ Hv]. apply Ascii.eqb_neq. intros E. rewrite E in Hv. change (code "0") with 48 in Hv. lia.
  - apply IH; [apply N.div_lt; lia|]. apply N.div_str_pos. lia.
Qed.
Lemma digits_length x s k : (x < 10 ^ N.of_nat k)%N -> (String.length (pretty_N_go x s) <= k + String.length s)%nat.
Proof.
  revert x s. induction k as [|k IH]; intros x s Hx.
  - assert (x = 0)%N as -> by (cbn in Hx; lia). done.
  - destruct (decide (x = 0)%N) as [->|]; [rewrite pretty_N_go_0; lia|]. rewrite pretty_N_go_step by lia.
    etransitivity; [apply IH|cbn [String.length]; lia]. apply N.Div0.div_lt_upper_bound.
    rewrite Nat2N.inj_succ, N.pow_succ_r' in Hx. lia.
Qed.
Lemma take_digits_all s : all_chars is_digit s = true -> take_digits s = (s, "").
Proof. induction s as [|c s IH]; [done|]. cbn [all_chars take_digits]. intros [-> Hs]%andb_true_iff. by rewrite IH. Qed.

Lemma scan_int_text n : Z.abs n < 10 ^ Z.of_nat MAX_STR_DIGITS -> scan_number (int_text n) = Ret (DInt n, "").
Proof.
  intros Hn. assert (exists x, Z.to_N (Z.abs n) = x /\ Z.of_N x = Z.abs n) as (x & Ex & Hx) by (eexists; split; [done|lia]).
  assert (H : forall neg : bool, (if neg then - Z.of_N x else Z.of_N x) = n ->
    scan_unsigned neg (nat_text (Z.abs n)) = Ret (DInt n, "")).
  { intros neg Hneg. unfold scan_unsigned, nat_text. rewrite Ex. destruct (decide (x = 0)%N) as [E|E].
    { rewrite E in *. assert (n = 0) as -> by lia. by destruct neg. }
    unfold pretty, pretty_N. rewrite decide_False by done.
    destruct (digits_of x "" eq_refl) as [Hd Hv]. pose proof (digits_length x "" MAX_STR_DIGITS) as Hl.
    destruct (digits_head x "") as (c & r & Hc & H0); [lia|].
    assert (int_part (pretty_N_go x "") = (pretty_N_go x "", "")) as ->.
    { rewrite Hc. cbn [int_part]. rewrite H0, <- Hc. by apply take_digits_all. }
    cbn [frac_part exp_part]. rewrite bool_decide_eq_false_2 by (by rewrite Hc).
    rewrite (bool_decide_eq_true_2 (_ <= _)%nat); [rewrite Hv; cbn; by rewrite Hneg|].
    etransitivity; [apply Hl|cbn [String.length]; lia]. apply N2Z.inj_lt. rewrite Hx, N2Z.inj_pow, nat_N_Z. done. }
  unfold scan_number, int_text. destruct (Z.ltb_spec n 0) as [Hs|Hs].
  - change (sign_of ("-" +:+ nat_text (Z.abs n))) with (true, nat_text (Z.abs n)). apply (H true). lia.
  - change ("" +:+ nat_text (Z.abs n)) with (nat_text (Z.abs n)). assert (sign_of (nat_text (Z.abs n)) = (false, nat_text (Z.abs n))) as ->; [|apply (H false); lia].
    unfold nat_text. rewrite Ex. destruct (decide (x = 0)%N) as [->|]; [done|]. unfold pretty, pretty_N. rewrite decide_False by done.
    destruct (digits_of x "" eq_refl) as [Hd _]. destruct (pretty_N_go x "") as [|c r]; [done|].
    cbn [all_chars sign_of] in *. destruct (Ascii.eqb_spec c "-") as [->|]; done.
Qed.

(** *** Texts *)

Lemma scan_plain_text c r :
  c <> quote -> c <> backslash -> (32 <= nat_of_ascii c)%nat -> scan_text (String c r) = cons_string (Some (String c "")) (scan_text r).
Proof. intros H1 H2 H3. cbn [scan_text]. rewrite !bool_decide_eq_false_2 by (done || lia). done. Qed.
Lemma scan_named_text e r :
  e <> "u"%char -> scan_text (String backslash (String e r)) = cons_string ((fun c => String c "") <$> unescape_char e) (scan_text r).
Proof. intros H. cbn [scan_text]. rewrite (bool_decide_eq_false_2 (e = _)) by done. done. Qed.
Lemma scan_u_text a b c d n r :
  hex4 a b c d = Some n -> is_high n = false ->
  scan_text (String backslash (String "u" (String a (String b (String c (String d r)))))) = cons_string (Some (utf8_of n)) (scan_text r).
Proof.
  intros Hn Hh. transitivity (match hex4 a b c d with
    | None => None
    | Some n => match r with
      | String x (String y (String a (String b (String c (String d r'))))) =>
          if is_high n && Ascii.eqb x backslash && Ascii.eqb y "u" then
            match hex4 a b c d with
            | Some m => if is_low m then cons_string (Some (utf8_of (65536 + 1024 * (n - 55296) + (m - 56320)))) (scan_text r')
                        else cons_string (Some (utf8_of n)) (scan_text r)
            | None => None
            end
          else cons_string (Some (utf8_of n)) (scan_text r)
      | _ => cons_string (Some (utf8_of n)) (scan_text r)
      end end); [done|].
  rewrite Hn, Hh. by repeat case_match.
Qed.
(** The escape of a control character. *)
Definition reads_control (c : ascii) : bool :=
  match hex_of 4 (Z.of_nat (nat_of_ascii c)) with
  | String w (String x (String y (String z ""))) =>
      bool_decide (hex4 w x y z = Some (code c)) && negb (is_high (code c)) && implb (nat_of_ascii c <? 32)%nat (String.eqb (utf8_of (code c)) (String c ""))
  | _ => false
  end.
Lemma reads_control_true c : reads_control c = true.
Proof. destruct c as [[] [] [] [] [] [] [] []]; vm_compute; reflexivity. Qed.

Lemma scan_escape_raw c r : scan_text (escape_raw c +:+ r) = cons_string (Some (String c "")) (scan_text r).
Proof.
  assert (Hc : forall n, nat_of_ascii c = n -> c = ascii_of_nat n) by (intros n <-; symmetry; apply ascii_nat_embedding).
  unfold escape_raw. cbv zeta. destruct (bool_decide (c = quote) || bool_decide (c = backslash)) eqn:E.
  { transitivity (scan_text (String backslash (String c r))); [done|].
    rewrite scan_named_text; [unfold unescape_char; by rewrite E|].
    apply orb_true_iff in E as [->%bool_decide_eq_true | ->%bool_decide_eq_true]; done. }
  apply orb_false_iff in E as [E1%bool_decide_eq_false E2%bool_decide_eq_false]. repeat case_bool_decide.
  - rewrite (Hc 10%nat) by done. done.
  - rewrite (Hc 13%nat) by done. done.
  - rewrite (Hc 9%nat) by done. done.
  - rewrite (Hc 12%nat) by done. done.
  - rewrite (Hc 8%nat) by done. done.
  - pose proof (reads_control_true c) as Hu. unfold reads_control in Hu.
    destruct (hex_of 4 _) as [|w [|x [|y [|z [|]]]]]; try discriminate Hu.
    apply andb_true_iff in Hu as [[Hh%bool_decide_eq_true Hi%negb_true_iff]%andb_true_iff Hu].
    rewrite (proj2 (Nat.ltb_lt _ _)) in Hu by done. apply String.eqb_eq in Hu.
    transitivity (scan_text (String backslash (String "u" (String w (String x (String y (String z r))))))); [done|].
    by rewrite (scan_u_text _ _ _ _ (code c)), Hu.
  - transitivity (scan_text (String c r)); [done|]. apply scan_plain_text; [done|done|lia].
Qed.
Lemma scan_escape_text s r : scan_text (escape_text s +:+ String quote r) = Some (s, r).
Proof. induction s as [|c s IH]; [done|]. cbn [escape_text]. by rewrite str_app_assoc, scan_escape_raw, IH. Qed.
Lemma print_text_app s r : print_text s +:+ r = String quote (escape_text s +:+ String quote r).
Proof. unfold print_text. rewrite !str_app_assoc. done. Qed.

(** *** Documents *)

Section doc_induction.
Context (P : doc -> Prop).
Context (P_null : P DNull) (P_bool : forall b, P (DBool b)) (P_int : forall n, P (DInt n)) (P_float : forall x, P (DFloat x))
  (P_text : forall s, P (DText s)) (P_array : forall l, Forall P l -> P (DArray l))
  (P_object : forall d, Forall (fun kv => P kv.2) d -> P (DObject d)).
Fixpoint doc_induction (d : doc) : P d :=
  match d with
  | DNull => P_null
  | DBool b => P_bool b
  | DInt n => P_int n
  | DFloat x => P_float x
  | DText s => P_text s
  | DArray l =>
      P_array l ((fix all (l : list doc) : Forall P l :=
        match l with [] => Forall_nil_2 P | d :: l => Forall_cons_2 P d l (doc_induction d) (all l) end) l)
  | DObject d =>
      P_object d ((fix all (d : list (string * doc)) : Forall (fun kv => P kv.2) d :=
        match d with
        | [] => Forall_nil_2 _
        | kv :: d => Forall_cons_2 (fun kv => P kv.2) kv d (doc_induction kv.2) (all d)
        end) d)
  end.
End doc_induction.

(** The integers are within the limit of [int], and the keys of an object are distinct: every
    document that was read. *)
Fixpoint shaped (d : doc) : bool :=
  match d with
  | DInt n => Z.abs n <? 10 ^ Z.of_nat MAX_STR_DIGITS
  | DArray l => forallb shaped l
  | DObject d => bool_decide (NoDup d.*1) && forallb (fun kv => shaped kv.2) d
  | _ => true
  end.
(** Every float reads back from its [repr]. *)
Fixpoint floats_read (d : doc) : Prop :=
  match d with
  | DFloat x => scan_literal LITERALS (json_float x) = Ret (DFloat x, "")
  | DArray l => foldr (fun x P => floats_read x /\ P) True l
  | DObject d => foldr (fun kv P => floats_read kv.2 /\ P) True d
  | _ => True
  end.

Lemma literals_no_ender : forallb (fun kv => no_ender kv.1) LITERALS = true.
Proof. reflexivity. Qed.
Lemma scan_scalar fuel s r d :
  ends r -> scan_literal LITERALS s = Ret (d, "") -> scan_value (S fuel) (s +:+ r) = Ret (d, r).
Proof.
  intros Hr Hs. pose proof (scan_literal_app _ _ _ _ _ literals_no_ender Hr Hs) as H. destruct s as [|c s]; [discriminate Hs|].
  apply scan_literal_head, starts_scalar_spec in Hs as (_ & Hq & Ho & Ha & _).
  change (String c s +:+ r) with (String c (s +:+ r)) in *. cbn [scan_value]. by rewrite Hq, Ho, Ha.
Qed.

Lemma print_int_scalar n : shaped (DInt n) = true -> scan_literal LITERALS (int_text n) = Ret (DInt n, "").
Proof.
  intros Hn%Z.ltb_lt. pose proof (scan_int_text n Hn) as H. rewrite <- H.
  assert (exists c r, int_text n = String c r /\ (is_digit c = true \/ c = "-"%char /\ forall t, r <> String "I" t)) as (c & r & -> & Hc).
  { destruct (int_text n) as [|c r] eqn:E; [discriminate H|]. exists c, r. split; [done|]. unfold int_text in E.
    assert (Hd : all_chars is_digit (nat_text (Z.abs n)) = true).
    { unfold nat_text, pretty, pretty_N. case_decide; [done|]. by apply digits_of. }
    destruct (n <? 0).
    - injection E as <- <-. right. split; [done|]. intros t Ht. change (nat_text (Z.abs n) = String "I" t) in Ht. by rewrite Ht in Hd.
    - left. change (nat_text (Z.abs n) = String c r) in E. rewrite E in Hd. by apply andb_true_iff in Hd as [? _]. }
  unfold LITERALS. cbn [scan_literal after].
  repeat (match goal with |- context [Ascii.eqb ?a c] => destruct (Ascii.eqb_spec a c) as [<-|]; [by destruct Hc as [Hc|[Hc _]]|] end).
  destruct (Ascii.eqb_spec "-" c) as [<-|]; [|done]. destruct Hc as [Hc|[_ Hr]]; [done|]. destruct r as [|b r]; [done|].
  cbn [after]. destruct (Ascii.eqb_spec "I" b) as [<-|]; [by destruct (Hr r)|done].
Qed.

Definition closes (c : ascii) : bool := is_white c || existsb (Ascii.eqb c) ["]"; "}"]%char.
Lemma scalar_open c : starts_scalar c = true -> closes c = false.
Proof. destruct c as [[] [] [] [] [] [] [] []]; vm_compute; intros H; (discriminate H || done). Qed.
(** The first character of a document. *)
Lemma print_head d r :
  shaped d = true -> floats_read d -> exists c t, print d +:+ r = String c t /\ closes c = false.
Proof.
  assert (Hs : forall s, scan_literal LITERALS s = Ret (d, "") -> exists c t, s +:+ r = String c t /\ closes c = false).
  { intros [|c s] H; [discriminate H|]. eexists _, _. split; [done|]. eapply scalar_open, scan_literal_head, H. }
  destruct d as [|b|n|x|s|l|d]; cbn [print shaped floats_read]; intros H1 H2; try (by eexists _, _).
  - by destruct b; eexists _, _.
  - apply Hs, print_int_scalar, H1.
  - by apply Hs.
Qed.
Lemma skip_open c t : closes c = false -> skip (String c t) = String c t.
Proof. intros [Hw _]%orb_false_iff. unfold skip. cbn [lstrip_of]. by rewrite Hw. Qed.
Lemma expect_open a c t : closes c = false -> a = "]"%char \/ a = "}"%char -> expect a (String c t) = None.
Proof.
  intros Hc Ha. unfold expect. rewrite skip_open by done. apply orb_false_iff in Hc as [_ Hc].
  destruct (Ascii.eqb_spec c a) as [->|]; [|done]. by destruct Ha as [-> | ->].
Qed.

Definition prints_back (d : doc) : Prop :=
  forall fuel r, (2 * String.length (print d) < fuel)%nat -> ends r -> scan_value fuel (print d +:+ r) = Ret (d, r).
Definition opens (d : doc) : Prop := forall r, exists c t, print d +:+ r = String c t /\ closes c = false.

Lemma join_cons x l : l <> [] -> join_comma (x :: l) = x +:+ String "," (join_comma l).
Proof. by destruct l. Qed.
Lemma join_head {A} (f : A -> string) x l r :
  (forall t, exists c u, f x +:+ t = String c u /\ closes c = false) ->
  exists c u, join_comma (map f (x :: l)) +:+ r = String c u /\ closes c = false.
Proof.
  intros Hx. cbn [map]. assert (exists t, join_comma (f x :: map f l) +:+ r = f x +:+ t) as [t ->]; [|apply Hx].
  destruct l; [by eexists|]. cbn [map]. rewrite join_cons, str_app_assoc by done. by eexists.
Qed.
Lemma skip_join {A} (f : A -> string) x l r :
  (forall t, exists c u, f x +:+ t = String c u /\ closes c = false) ->
  skip (join_comma (map f (x :: l)) +:+ r) = join_comma (map f (x :: l)) +:+ r.
Proof. intros Hx. destruct (join_head f x l r Hx) as (c & u & -> & Hc). by apply skip_open. Qed.
Lemma expect_join {A} (f : A -> string) a x l r :
  (forall t, exists c u, f x +:+ t = String c u /\ closes c = false) -> a = "]"%char \/ a = "}"%char ->
  expect a (join_comma (map f (x :: l)) +:+ r) = None.
Proof. intros Hx Ha. destruct (join_head f x l r Hx) as (c & u & -> & Hc). by apply expect_open. Qed.

Lemma scan_elements_last x fuel r :
  prints_back x -> (2 * String.length (print x) < fuel)%nat -> scan_elements (S fuel) (print x +:+ String "]" r) = Ret ([x], r).
Proof. intros Hx Hf. cbn [scan_elements]. rewrite Hx; [done|done|]. right. by left. Qed.
Lemma scan_elements_step x fuel t :
  prints_back x -> (2 * String.length (print x) < fuel)%nat ->
  scan_elements (S fuel) (print x +:+ String "," t) = (y ← scan_elements fuel (skip t); Ret (x :: y.1, y.2)).
Proof. intros Hx Hf. cbn [scan_elements]. rewrite Hx; [done|done|]. by left. Qed.
Lemma scan_elements_print l :
  l <> [] -> Forall (fun d => prints_back d /\ opens d) l ->
  forall fuel r, (2 * String.length (join_comma (map print l)) + 1 < fuel)%nat ->
  scan_elements fuel (join_comma (map print l) +:+ String "]" r) = Ret (l, r).
Proof.
  intros Hl Hp. induction Hp as [|x l [Hx _] Hp IH]; [done|]. intros [|fuel] r Hf; [lia|]. destruct l as [|y l].
  - change (join_comma (map print [x])) with (print x) in *. apply scan_elements_last; [done|lia].
  - change (map print (x :: y :: l)) with (print x :: map print (y :: l)) in *.
    rewrite join_cons in Hf |- * by done. rewrite length_str_app in Hf. cbn [String.length] in Hf.
    rewrite str_app_assoc. change (String "," ?z +:+ ?w) with (String "," (z +:+ w)). rewrite scan_elements_step by (done || lia).
    apply Forall_cons in Hp as [[_ Hy] _]. rewrite skip_join by done. rewrite IH; [done|done|lia].
Qed.

Definition print_item (kv : string * doc) : string := print_text kv.1 +:+ ":" +:+ print kv.2.
Lemma item_text_length kv : (String.length (print kv.2) + 2 < String.length (print_item kv))%nat.
Proof.
  unfold print_item, print_text. rewrite length_str_app. change (String.length (String quote ?a +:+ ?b)) with (S (String.length (a +:+ b))).
  rewrite !length_str_app. cbn [String.length]. lia.
Qed.
Lemma item_open kv t : exists c u, print_item kv +:+ t = String c u /\ closes c = false.
Proof. by eexists _, _. Qed.
Lemma scan_members_head kv fuel acc t :
  prints_back kv.2 -> opens kv.2 -> (2 * String.length (print kv.2) < fuel)%nat -> ends t ->
  scan_members (S fuel) acc (print_item kv +:+ t) =
    match expect "}" t, expect "," t with
    | Some t, _ => Ret (put kv.1 kv.2 acc, t)
    | None, Some t => scan_members fuel (put kv.1 kv.2 acc) (skip t)
    | None, None => Exc JSONDecodeError
    end.
Proof.
  intros Hp Ho Hf Ht. unfold print_item. rewrite !str_app_assoc, print_text_app.
  change (":" +:+ print kv.2 +:+ t) with (String ":" (print kv.2 +:+ t)). cbn [scan_members]. rewrite Ascii.eqb_refl.
  unfold scan_quoted_text. rewrite scan_escape_text. cbn [mbind outcome_bind fst snd].
  change (expect ":" (String ":" ?w)) with (Some w). cbv iota.
  destruct (Ho t) as (c & u & E & Hc). rewrite E, skip_open, <- E by done. by rewrite Hp.
Qed.
Lemma put_new k v d : k ∉ d.*1 -> put k v d = d ++ [(k, v)].
Proof.
  induction d as [|[a w] d IH]; [done|]. cbn. intros [Hn Hk]%not_elem_of_cons. by rewrite decide_False, IH by congruence.
Qed.
Lemma scan_members_print d :
  d <> [] -> Forall (fun kv => prints_back kv.2 /\ opens kv.2) d ->
  forall fuel acc r, NoDup (acc ++ d).*1 -> (2 * String.length (join_comma (map print_item d)) + 1 < fuel)%nat ->
  scan_members fuel acc (join_comma (map print_item d) +:+ String "}" r) = Ret (acc ++ d, r).
Proof.
  intros Hd Hp. induction Hp as [|[k v] d [Hx Ho] Hp IH]; [done|]. intros [|fuel] acc r Hn Hf; [lia|].
  pose proof (item_text_length (k, v)) as Hi. cbn [snd] in Hi.
  assert (put k v acc = acc ++ [(k, v)]) as Hput.
  { apply put_new. rewrite fmap_app, NoDup_app in Hn. destruct Hn as (_ & Hn & _). intros Hk. apply (Hn _ Hk). cbn. left. }
  destruct d as [|y d].
  - change (join_comma (map print_item [(k, v)])) with (print_item (k, v)) in *.
    rewrite scan_members_head; [|done|done|cbn [snd]; lia|right; by right].
    change (expect "}" (String "}" r)) with (Some r). cbn [fst snd]. by rewrite Hput.
  - change (map print_item ((k, v) :: y :: d)) with (print_item (k, v) :: map print_item (y :: d)) in *.
    rewrite join_cons in Hf |- * by done. rewrite length_str_app in Hf. cbn [String.length] in Hf.
    rewrite str_app_assoc. change (String "," ?z +:+ ?w) with (String "," (z +:+ w)).
    rewrite scan_members_head; [|done|done|cbn [snd]; lia|by left].
    change (expect "}" (String "," ?w)) with (@None string). change (expect "," (String "," ?w)) with (Some w). cbv iota.
    rewrite skip_join by apply item_open. cbn [fst snd]. rewrite Hput, IH; [by rewrite <- app_assoc|done|by rewrite <- app_assoc|lia].
Qed.

Lemma forallb_Forall {A} (f : A -> bool) l : forallb f l = true <-> Forall (fun x => f x = true) l.
Proof. induction l as [|x l IH]; cbn; [done|]. by rewrite andb_true_iff, Forall_cons, IH. Qed.
Lemma Forall_floats l : foldr (fun x P => floats_read x /\ P) True l <-> Forall floats_read l.
Proof. induction l as [|x l IH]; cbn; [done|]. by rewrite Forall_cons, IH. Qed.
Lemma Forall_floats_items d : foldr (fun (kv : string * doc) P => floats_read kv.2 /\ P) True d <-> Forall (fun kv => floats_read kv.2) d.
Proof. induction d as [|x l IH]; cbn; [done|]. by rewrite Forall_cons, IH. Qed.

(** A document is read back from its text, wherever it stands. *)
Lemma scan_print d : shaped d = true -> floats_read d -> prints_back d.
Proof.
  induction d as [|b|n|x|s|l IH|d IH] using doc_induction; intros H1 H2 [|fuel] r Hf Hr; try lia.
  - by apply (scan_scalar fuel "null").
  - destruct b; [by apply (scan_scalar fuel "true")|by apply (scan_scalar fuel "false")].
  - by apply scan_scalar; [|apply print_int_scalar].
  - by apply scan_scalar.
  - cbn [print]. rewrite print_text_app. cbn [scan_value]. rewrite Ascii.eqb_refl. unfold scan_quoted_text. by rewrite scan_escape_text.
  - cbn [shaped floats_read] in H1, H2. apply forallb_Forall in H1. apply Forall_floats in H2.
    assert (Hl : Forall (fun d => prints_back d /\ opens d) l).
    { rewrite !Forall_forall in *. intros x Hx. split; [apply IH; auto|]. intros t. apply print_head; auto. }
    destruct l as [|x l]; [done|]. cbn [print] in Hf |- *. rewrite !length_str_app in Hf. cbn [String.length] in Hf.
    rewrite !str_app_assoc. change ("]" +:+ r) with (String "]" r).
    transitivity (let w := join_comma (map print (x :: l)) +:+ String "]" r in
      match expect "]" w with Some t => Ret (DArray [], t) | None => y ← scan_elements fuel (skip w); Ret (DArray y.1, y.2) end); [done|].
    cbv zeta.
    apply Forall_cons in Hl as Ho. destruct Ho as [[_ Ho] _].
    rewrite expect_join, skip_join by auto. rewrite scan_elements_print; [done|done|done|lia].
  - cbn [shaped floats_read] in H1, H2. apply andb_true_iff in H1 as [Hk%bool_decide_eq_true H1].
    apply forallb_Forall in H1. apply Forall_floats_items in H2.
    assert (Hl : Forall (fun kv => prints_back kv.2 /\ opens kv.2) d).
    { rewrite !Forall_forall in *. intros x Hx. split; [apply IH; auto|]. intros t. apply print_head; auto. }
    destruct d as [|x d]; [done|]. cbn [print] in Hf |- *. rewrite !length_str_app in Hf. cbn [String.length] in Hf.
    rewrite !str_app_assoc. change ("}" +:+ r) with (String "}" r).
    change (map (fun kv => print_text kv.1 +:+ ":" +:+ print kv.2) (x :: d)) with (map print_item (x :: d)) in *.
    transitivity (let w := join_comma (map print_item (x :: d)) +:+ String "}" r in
      match expect "}" w with Some t => Ret (DObject [], t) | None => y ← scan_members fuel [] (skip w); Ret (DObject y.1, y.2) end); [done|].
    cbv zeta.
    rewrite expect_join, skip_join by (try apply item_open; auto). rewrite scan_members_print; [done|done|done|done|lia].
Qed.

Lemma loads_print d : shaped d = true -> floats_read d -> loads_text (print d) = Ret d.
Proof.
  intros H1 H2. unfold loads_text. destruct (print_head d "" H1 H2) as (c & t & E & Hc). rewrite str_app_nil_r in E.
  assert (skip (print d) = print d +:+ "") as -> by (rewrite str_app_nil_r, E; by apply skip_open).
  rewrite scan_print; [done|done|done|lia|done].
Qed.

(** *** What is read *)

Lemma take_digits_spec s d t :
  take_digits s = (d, t) -> all_chars is_digit d = true /\ String.length s = (String.length d + String.length t)%nat.
Proof.
  revert d t. induction s as [|c s IH]; intros d t; [by intros [= <- <-]|]. cbn [take_digits]. destruct (is_digit c) eqn:Hc.
  - destruct (take_digits s) as [d' t'] eqn:E. intros [= <- <-]. destruct (IH _ _ eq_refl) as [Hd Hl]. cbn. rewrite Hc, Hd, Hl. done.
  - by intros [= <- <-].
Qed.
Lemma int_part_spec s d t :
  int_part s = (d, t) -> all_chars is_digit d = true /\ String.length s = (String.length d + String.length t)%nat.
Proof.
  destruct s as [|c s]; [by intros [= <- <-]|]. cbn [int_part]. destruct (Ascii.eqb c "0"); [by intros [= <- <-]|apply take_digits_spec].
Qed.
Lemma digits_bound acc s :
  0 <= acc -> all_chars is_digit s = true -> 0 <= digits_value acc s < (acc + 1) * 10 ^ Z.of_nat (String.length s).
Proof.
  revert acc. induction s as [|c s IH]; intros acc Ha; [cbn; lia|]. cbn [all_chars]. intros [Hc Hs]%andb_true_iff.
  unfold is_digit in Hc. apply bool_decide_eq_true in Hc. unfold code. cbn [digits_value String.length].
  assert (0 <= code c - 48 <= 9) as Hv by (unfold code; lia). specialize (IH (10 * acc + (code c - 48)) ltac:(lia) Hs).
  split; [apply IH|]. eapply Z.lt_le_trans; [apply IH|]. rewrite Nat2Z.inj_succ, Z.pow_succ_r by lia.
  assert (0 <= 10 ^ Z.of_nat (String.length s)) by (apply Z.pow_nonneg; lia). nia.
Qed.
Lemma frac_part_length s d t : frac_part s = (d, t) -> (String.length t <= String.length s)%nat.
Proof.
  destruct s as [|c s]; [by intros [= <- <-]|]. cbn [frac_part]. destruct (Ascii.eqb c "."); [|by intros [= <- <-]].
  destruct (take_digits s) as [d' t'] eqn:E. apply take_digits_spec in E as [_ E]. case_bool_decide; intros [= <- <-]; cbn; lia.
Qed.
Lemma exp_part_length s e t : exp_part s = (e, t) -> (String.length t <= String.length s)%nat.
Proof.
  destruct s as [|c s]; [by intros [= <- <-]|]. cbn [exp_part]. destruct (_ || _); [|by intros [= <- <-]].
  destruct (match s with EmptyString => _ | String _ _ => _ end) as [n u] eqn:Hu.
  assert (String.length u <= String.length s)%nat by (destruct s; [by injection Hu as <- <-|]; repeat case_match; injection Hu as <- <-; cbn; lia).
  destruct (take_digits u) as [d' t'] eqn:E. apply take_digits_spec in E as [_ E]. case_bool_decide; intros [= <- <-]; cbn; lia.
Qed.

(** The outcome of a scan of [s]: a document of the right shape and a shorter text, or an
    error that is not a lack of fuel. *)
Definition scans {A} (good : A -> Prop) (s : string) (o : outcome (A * string)) : Prop :=
  match o with
  | Ret (a, t) => good a /\ (String.length t < String.length s)%nat
  | Exc e => e <> OutOfFuel
  end.
Lemma scan_number_scans s : scans (fun d => shaped d = true) s (scan_number s).
Proof.
  unfold scan_number, scan_unsigned.
  destruct (sign_of s) as [n s1] eqn:E1. destruct (int_part s1) as [i s2] eqn:E2. destruct (frac_part s2) as [f s3] eqn:E3.
  destruct (exp_part s3) as [e s4] eqn:E4.
  assert (String.length s1 <= String.length s)%nat by (destruct s; cbn in E1; repeat case_match; injection E1 as <- <-; cbn; lia).
  apply int_part_spec in E2 as [Hi E2]. apply frac_part_length in E3. apply exp_part_length in E4.
  case_bool_decide as Hn; [done|]. assert (String.length i <> 0)%nat by (by destruct i). destruct (_ && _).
  - case_bool_decide; [|done]. split; [|lia]. cbn [shaped]. apply Z.ltb_lt.
    destruct (digits_bound 0 i ltac:(lia) Hi) as [Hge Hlt].
    assert (10 ^ Z.of_nat (String.length i) <= 10 ^ Z.of_nat MAX_STR_DIGITS) by (apply Z.pow_le_mono_r; lia).
    destruct n; rewrite ?Z.abs_opp, Z.abs_eq by lia; lia.
  - by split; [|lia].
Qed.
Lemma after_length p s t : after p s = Some t -> String.length s = (String.length p + String.length t)%nat.
Proof.
  revert s. induction p as [|a p IH]; intros s; [by intros [= ->]|]. destruct s as [|b s]; [done|]. cbn [after].
  destruct (Ascii.eqb a b); [|done]. intros H%IH. cbn. by rewrite H.
Qed.
Lemma scan_literal_scans s : scans (fun d => shaped d = true) s (scan_literal LITERALS s).
Proof.
  unfold LITERALS. cbn [scan_literal].
  repeat (match goal with |- context [after ?p s] =>
    let E := fresh in destruct (after p s) eqn:E; [apply after_length in E; split; [done|cbn in E; lia]|clear E] end).
  apply scan_number_scans.
Qed.
Lemma scan_text_length s x : scan_text s = Some x -> (String.length x.2 < String.length s)%nat.
Proof.
  assert (H : forall n s x, (String.length s <= n)%nat -> scan_text s = Some x -> (String.length x.2 < String.length s)%nat); [|by eapply H].
  intros n. clear. induction n as [|n IH]; intros [|c s] x Hs; try done; [cbn in Hs; lia|].
  assert (Hc : forall p u, (String.length u < String.length (String c s))%nat -> cons_string p (scan_text u) = Some x ->
    (String.length x.2 < String.length (String c s))%nat).
  { intros p u Hu. destruct p as [p|], (scan_text u) as [[a b]|] eqn:E; try done. intros [= <-].
    apply IH in E; cbn [String.length fst snd] in *; lia. }
  cbn [scan_text].
  repeat first
    [ match goal with |- cons_string _ (scan_text ?u) = _ -> _ => apply (Hc _ u); cbn [String.length]; lia end
    | match goal with |- Some _ = Some _ -> _ => intros [= <-]; cbn; lia end
    | match goal with |- None = Some _ -> _ => discriminate end
    | case_match ].
Qed.
Lemma skip_length s : (String.length (skip s) <= String.length s)%nat.
Proof. unfold skip. induction s as [|c s IH]; [done|]. cbn [lstrip_of]. case_match; cbn; lia. Qed.
Lemma expect_length a s t : expect a s = Some t -> (String.length t < String.length s)%nat.
Proof.
  unfold expect. pose proof (skip_length s). destruct (skip s) as [|c r]; [done|]. case_match; [|done]. intros [= <-]. cbn in *. lia.
Qed.
Lemma put_keys k v d : (put k v d).*1 = (if decide (k ∈ d.*1) then d.*1 else d.*1 ++ [k]).
Proof.
  induction d as [|[a w] d IH]; [done|]. cbn [put fmap list_fmap fst]. destruct (decide (a = k)) as [->|Hn].
  - rewrite decide_True by left. done.
  - cbn [fmap list_fmap fst]. rewrite IH. destruct (decide (k ∈ d.*1)) as [Hk|Hk].
    + rewrite decide_True by (by right). done.
    + rewrite decide_False; [done|]. by intros [?|?]%elem_of_cons.
Qed.
Lemma put_shaped k v d : shaped (DObject d) = true -> shaped v = true -> shaped (DObject (put k v d)) = true.
Proof.
  cbn [shaped]. rewrite !andb_true_iff, !bool_decide_eq_true, !forallb_Forall. intros [Hn Hd] Hv. split.
  - rewrite put_keys. case_decide as Hk; [done|]. apply NoDup_app. split_and!; [done| |by apply NoDup_singleton].
    intros x Hx ->%list_elem_of_singleton. done.
  - clear Hn. induction d as [|[a w] d IH]; [by apply Forall_cons|]. apply Forall_cons in Hd as [Hw Hd]. cbn [put].
    case_decide; apply Forall_cons; auto.
Qed.

Lemma scans_bind {A B} (P : A -> Prop) (Q : B -> Prop) s s' (o : outcome (A * string)) (f : A * string -> outcome (B * string)) :
  scans P s' o -> (String.length s' <= String.length s)%nat ->
  (forall a t, P a -> (String.length t < String.length s')%nat -> scans Q s (f (a, t))) -> scans Q s (o ≫= f).
Proof. destruct o as [[a t]|e]; cbn; [|done]. intros [Ha Ht] Hs Hf. by apply Hf. Qed.
Lemma scan_quoted_scans s : scans (fun _ => True) s (scan_quoted_text s).
Proof. unfold scan_quoted_text. destruct (scan_text s) as [[a t]|] eqn:E; [|done]. apply scan_text_length in E. done. Qed.

Definition good_doc (d : doc) : Prop := shaped d = true.
Definition good_members (d : list (string * doc)) : Prop := shaped (DObject d) = true.
Definition good_elements (l : list doc) : Prop := shaped (DArray l) = true.
Lemma scan_scans fuel :
  (forall s, (2 * String.length s < fuel)%nat -> scans good_doc s (scan_value fuel s)) /\
  (forall s d, (2 * String.length s < fuel)%nat -> good_members d -> scans good_members s (scan_members fuel d s)) /\
  (forall s, (2 * String.length s + 1 < fuel)%nat -> scans good_elements s (scan_elements fuel s)).
Proof.
  induction fuel as [|fuel (IHv & IHm & IHe)]; [split_and!; intros; lia|].
  assert (Hskip : forall t, (String.length (skip t) <= String.length t)%nat) by apply skip_length. split_and!.
  - intros [|c s] Hs; [done|]. cbn [String.length] in Hs. cbn [scan_value].
    destruct (Ascii.eqb c quote); [|destruct (Ascii.eqb c "{"); [|destruct (Ascii.eqb c "["); [|apply scan_literal_scans]]].
    + eapply scans_bind; [apply scan_quoted_scans|cbn; lia|]. intros a t _ Ht. split; [done|cbn; lia].
    + destruct (expect "}" s) as [t|] eqn:E; [apply expect_length in E; split; [done|cbn; lia]|].
      specialize (Hskip s). eapply scans_bind; [apply IHm; [lia|done]|cbn; lia|]. intros a t Ha Ht. split; [done|cbn; lia].
    + destruct (expect "]" s) as [t|] eqn:E; [apply expect_length in E; split; [done|cbn; lia]|].
      specialize (Hskip s). eapply scans_bind; [apply IHe; lia|cbn; lia|]. intros a t Ha Ht. split; [done|cbn; lia].
  - intros [|c s] d Hs Hd; [done|]. cbn [String.length] in Hs. cbn [scan_members]. destruct (Ascii.eqb c quote); [|done].
    eapply scans_bind; [apply scan_quoted_scans|cbn; lia|]. intros k t _ Ht. cbn [fst snd].
    destruct (expect ":" t) as [u|] eqn:E; [|done]. apply expect_length in E. pose proof (Hskip u).
    eapply scans_bind; [apply IHv; lia|cbn; lia|]. intros v w Hv Hw. cbn [fst snd].
    pose proof (put_shaped k v d Hd Hv) as Hp.
    destruct (expect "}" w) as [x|] eqn:E1; [apply expect_length in E1; split; [done|cbn; lia]|].
    destruct (expect "," w) as [x|] eqn:E2; [|done]. apply expect_length in E2. pose proof (Hskip x).
    assert (scans good_members (skip x) (scan_members fuel (put k v d) (skip x))) as Hm by (apply IHm; [lia|done]).
    destruct (scan_members _ _ _) as [[a b]|]; [|done]. destruct Hm. split; [done|cbn; lia].
  - intros s Hs. cbn [scan_elements]. eapply scans_bind; [apply IHv; lia|lia|]. intros v w Hv Hw. cbn [fst snd].
    destruct (expect "]" w) as [x|] eqn:E1; [apply expect_length in E1; split; [by unfold good_elements; cbn; rewrite Hv|lia]|].
    destruct (expect "," w) as [x|] eqn:E2; [|done]. apply expect_length in E2. pose proof (Hskip x).
    eapply scans_bind; [apply IHe; lia|lia|]. intros l t Hl Ht. split; [|cbn; lia].
    unfold good_elements in *. cbn [fst shaped forallb] in *. by rewrite Hv, Hl.
Qed.
(** Reading ends, with a document whose keys are distinct, or with an error of the text. *)
Lemma json_loads_total b :
  match json_loads b with Ret d => shaped d = true | Exc e => e <> OutOfFuel end.
Proof.
  unfold json_loads. generalize (default b (after (String "239" (String "187" (String "191" ""))) b)). clear b. intros b.
  destruct (is_text8 b); [|done]. unfold loads_text. pose proof (skip_length b).
  destruct (scan_scans (2 * String.length b + 2)) as [H1 _]. specialize (H1 (skip b) ltac:(lia)).
  destruct (scan_value _ _) as [[d t]|e]; cbn [mbind outcome_bind fst snd]; [|done]. destruct H1 as [Hd _]. by case_bool_decide.
Qed.

(** *** The order of the keys *)

#[export] Instance key_le_trans : Transitive key_le.
Proof. intros x y z. apply (transitivity (R := String.le)). Qed.
#[export] Instance key_le_total : Total key_le.
Proof. intros x y. apply (total String.le). Qed.

Lemma dict_get_elem (d : list (string * doc)) k v : NoDup d.*1 -> dict_get d k = Some v <-> (k, v) ∈ d.
Proof.
  induction d as [|[a w] d IH]; cbn [fmap list_fmap fst dict_get].
  - intros _. split; [done|by intros ?%elem_of_nil].
  - intros [Ha Hd]%NoDup_cons. rewrite elem_of_cons. case_decide as E.
    + subst a. split; [intros [= ->]; by left|]. intros [[= ->]|Hin]; [done|].
      destruct Ha. apply list_elem_of_fmap. by exists (k, v).
    + rewrite IH by done. split; [by right|]. by intros [[= ? ?]|?].
Qed.
Lemma dict_get_permuted (d d' : list (string * doc)) k : NoDup d.*1 -> d ≡ₚ d' -> dict_get d k = dict_get d' k.
Proof.
  intros Hn Hp. assert (NoDup d'.*1) as Hn' by (by rewrite <- Hp). apply option_eq. intros v.
  rewrite !dict_get_elem by done. by rewrite Hp.
Qed.
Lemma dict_get_map (f : doc -> doc) d k : dict_get (map (fun kv => (kv.1, f kv.2)) d) k = f <$> dict_get d k.
Proof. induction d as [|[a v] d IH]; [done|]. cbn [map dict_get fst snd]. by case_decide. Qed.
Lemma map_keys (f : doc -> doc) (d : list (string * doc)) : (map (fun kv => (kv.1, f kv.2)) d).*1 = d.*1.
Proof. induction d as [|kv d IH]; [done|]. cbn. by f_equal. Qed.

(** The order in which an object lists its keys does not matter. *)
Lemma sorted_permuted d d' : NoDup d.*1 -> d ≡ₚ d' -> sorted (DObject d) = sorted (DObject d').
Proof.
  intros Hn Hp. cbn [sorted]. f_equal. set (f := fun kv : string * doc => (kv.1, sorted kv.2)).
  assert (Hf : map f d ≡ₚ map f d') by (by apply Permutation_map).
  apply (StronglySorted_unique_strong key_le).
  - intros x y Hx Hy Hle Hge. apply (anti_symm String.le _ _ Hle) in Hge.
    rewrite merge_sort_Permutation in Hx. rewrite merge_sort_Permutation, <- Hf in Hy. destruct x as [k v], y as [k' v']. cbn in Hge. subst k'.
    f_equal. apply (dict_get_elem _ k) in Hx; [|subst f; by rewrite map_keys].
    apply (dict_get_elem _ k) in Hy; [congruence|subst f; by rewrite map_keys].
  - apply StronglySorted_merge_sort; apply _.
  - apply StronglySorted_merge_sort; apply _.
  - by rewrite !merge_sort_Permutation.
Qed.

Lemma sorted_shaped d : shaped d = true -> shaped (sorted d) = true.
Proof.
  induction d as [|b|n|x|s|l IH|d IH] using doc_induction; cbn [sorted shaped]; try done.
  - rewrite !forallb_Forall. intros H. apply Forall_map. rewrite Forall_forall in *. intros x Hx. apply (IH x Hx), (H x Hx).
  - rewrite !andb_true_iff, !bool_decide_eq_true, !forallb_Forall. intros [Hn H].
    rewrite (merge_sort_Permutation key_le). split; [by rewrite map_keys|].
    apply Forall_map. rewrite Forall_forall in *. intros x Hx. apply (IH x Hx), (H x Hx).
Qed.
Lemma sorted_floats d : floats_read d -> floats_read (sorted d).
Proof.
  induction d as [|b|n|x|s|l IH|d IH] using doc_induction; cbn [sorted floats_read]; try done.
  - rewrite !Forall_floats. intros H. apply Forall_map. rewrite Forall_forall in *. intros x Hx. apply (IH x Hx), (H x Hx).
  - rewrite !Forall_floats_items. intros H. rewrite merge_sort_Permutation. apply Forall_map. rewrite Forall_forall in *. intros x Hx. apply (IH x Hx), (H x Hx).
Qed.
(** Two documents have one text, written with sorted keys, when they differ by the order of
    the keys only. *)
Lemma dumps_sorted_inj d d' :
  shaped d = true -> floats_read d -> shaped d' = true -> floats_read d' ->
  dumps_sorted d = dumps_sorted d' -> sorted d = sorted d'.
Proof.
  intros H1 H2 H3 H4 E. unfold dumps_sorted in E.
  pose proof (loads_print (sorted d) (sorted_shaped _ H1) (sorted_floats _ H2)) as Hd.
  pose proof (loads_print (sorted d') (sorted_shaped _ H3) (sorted_floats _ H4)) as Hd'.
  rewrite E, Hd' in Hd. congruence.
Qed.

Definition sorted_item (o : outcome doc) : outcome doc := match o with Ret d => Ret (sorted d) | Exc e => Exc e end.
Lemma doc_get_sorted k d : shaped d = true -> doc_get k (sorted d) = sorted_item (doc_get k d).
Proof.
  destruct d as [| | | | | |d]; try done. cbn [shaped]. intros [Hn%bool_decide_eq_true _]%andb_true_iff.
  cbn [sorted doc_get]. rewrite (dict_get_permuted _ (map (fun kv => (kv.1, sorted kv.2)) d)).
  - rewrite dict_get_map. cbn. by destruct (dict_get d k).
  - rewrite merge_sort_Permutation. by rewrite map_keys.
  - apply merge_sort_Permutation.
Qed.
Lemma sorted_truthy d : truthy (sorted d) = truthy d.
Proof.
  destruct d as [| | | | |[|]|d]; try done. cbn [sorted truthy]. destruct d as [|x d]; [done|].
  pose proof (merge_sort_Permutation key_le (map (fun kv => (kv.1, sorted kv.2)) (x :: d))) as Hp.
  destruct (merge_sort _ _); [by apply Permutation_nil_l in Hp|done].
Qed.
