(* ===== verification/Amortization.v ===== *)
(** * Repayment schedules: [microfinance/mf_app/services/amortization.py]

    The two schedule generators over cents, with every intermediate product,
    quotient and power computed as a 28-digit decimal before it is rounded to
    the cent. *)

From stdpp Require Import list_numbers.
From S2P Require Import Prelude PyStd.

(** ** Model *)

(** A [Numeric(8, 6)] rate, in millionths. *)
Abbreviation rate := Z (only parsing).
Definition dec_of_rate (r : rate) : decimal := Dec r (-6).

Inductive AmortizationMethod := DECLINING_BALANCE | FLAT.

#[export] Instance AmortizationMethod_eq_dec : EqDecision AmortizationMethod.
Proof. solve_decision. Defined.

Record ScheduleLine := mkScheduleLine {
  installment_number : Z;
  due_date : date;
  principal_due : money;
  interest_due : money;
}.

Definition round_ (value : decimal) : money := quantize_cents value.

(** [x / y] on decimals, which raises on a zero divisor. *)
Definition truediv (x y : decimal) : outcome decimal :=
  if coeff y =? 0 then Exc ZeroDivisionError else Ret (dec_div context_prec x y).

Definition add_months (base : date) (months : Z) : outcome date :=
  let month_index := month base - 1 + months in
  let year := year base + month_index / 12 in
  let month := month_index mod 12 + 1 in
  let day := Z.min (day base) (monthrange year month) in
  mk_date year month day.

Section schedules.
Context (principal : money) (periodic_rate : rate) (term_months : Z) (start_date : date).

(** The loop of [_flat_schedule] over the remaining indices [idx]. *)
Fixpoint flat_lines (principal_per_period interest_per_period : money)
    (idx : list Z) (allocated : money) : outcome (list ScheduleLine) :=
  match idx with
  | [] => mret []
  | i :: idx =>
      let principal_due :=
        if i =? term_months then principal - allocated else principal_per_period in
      let allocated :=
        if i =? term_months then allocated else allocated + principal_due in
      due ← add_months start_date i;
      lines ← flat_lines principal_per_period interest_per_period idx allocated;
      mret (mkScheduleLine i due principal_due interest_per_period :: lines)
  end.

Definition flat_schedule : outcome (list ScheduleLine) :=
  per_period ← truediv (dec_of_money principal) (dec_of_Z term_months);
  let principal_per_period := round_ per_period in
  let interest_per_period :=
    round_ (dec_mul context_prec (dec_of_money principal) (dec_of_rate periodic_rate)) in
  flat_lines principal_per_period interest_per_period (seqZ 1 term_months) 0.

Definition declining_installment : outcome money :=
  if periodic_rate =? 0 then
    q ← truediv (dec_of_money principal) (dec_of_Z term_months);
    mret (round_ q)
  else
    let base := dec_add context_prec (dec_of_Z 1) (dec_of_rate periodic_rate) in
    let factor := dec_sub context_prec (dec_of_Z 1) (dec_pow context_prec base (- term_months)) in
    q ← truediv
          (dec_mul context_prec (dec_of_money principal) (dec_of_rate periodic_rate)) factor;
    mret (round_ q).

(** The loop of [_declining_balance_schedule]. *)
Fixpoint declining_lines (installment : money) (idx : list Z) (remaining : money)
    : outcome (list ScheduleLine) :=
  match idx with
  | [] => mret []
  | i :: idx =>
      let interest_due :=
        round_ (dec_mul context_prec (dec_of_money remaining) (dec_of_rate periodic_rate)) in
      let principal_due :=
        if i =? term_months then remaining
        else round_ (dec_of_money (installment - interest_due)) in
      due ← add_months start_date i;
      lines ← declining_lines installment idx (remaining - principal_due);
      mret (mkScheduleLine i due principal_due interest_due :: lines)
  end.

Definition declining_balance_schedule : outcome (list ScheduleLine) :=
  installment ← declining_installment;
  declining_lines installment (seqZ 1 term_months) principal.

Definition generate_repayment_schedule (method : AmortizationMethod)
    : outcome (list ScheduleLine) :=
  if decide (method = FLAT) then flat_schedule else declining_balance_schedule.
End schedules.

Definition total_principal (lines : list ScheduleLine) : money :=
  sumZ (principal_due <$> lines).
Definition total_interest (lines : list ScheduleLine) : money :=
  sumZ (interest_due <$> lines).

Example schedule_flat_ex :
  generate_repayment_schedule 10000 20000 3 (Date 2026 1 31) FLAT
  = Ret [mkScheduleLine 1 (Date 2026 2 28) 3333 200;
         mkScheduleLine 2 (Date 2026 3 31) 3333 200;
         mkScheduleLine 3 (Date 2026 4 30) 3334 200].
Proof. vm_compute. reflexivity. Qed.

Example schedule_declining_ex :
  generate_repayment_schedule 100000 20000 3 (Date 2026 1 31) DECLINING_BALANCE
  = Ret [mkScheduleLine 1 (Date 2026 2 28) 32675 2000;
         mkScheduleLine 2 (Date 2026 3 31) 33328 1347;
         mkScheduleLine 3 (Date 2026 4 30) 33997 680].
Proof. vm_compute. reflexivity. Qed.

(** ** Dates *)

Lemma add_months_ok base n d :
  add_months base n = Ret d ->
  valid_dateb d = true /\
  12 * year d + month d = 12 * year base + month base + n /\
  day d = Z.min (day base) (monthrange (year d) (month d)).
Proof.
  unfold add_months, mk_date. case_match eqn:V; [|done]. intros [= <-]. simpl.
  split; [done|]. split; [|done].
  pose proof (Z.div_mod (month base - 1 + n) 12 ltac:(lia)). lia.
Qed.

Lemma add_months_total base n :
  valid_dateb base = true -> 0 <= n -> 12 * year base + month base + n <= 12 * 9999 + 12 ->
  exists d, add_months base n = Ret d.
Proof.
  unfold valid_dateb at 1. rewrite !andb_true_iff, !Z.leb_le. intros Hb Hn Hy.
  unfold add_months, mk_date.
  pose proof (Z.div_mod (month base - 1 + n) 12 ltac:(lia)).
  pose proof (Z.mod_pos_bound (month base - 1 + n) 12 ltac:(lia)).
  set (y := (month base - 1 + n) / 12) in *. set (m := _ mod 12) in *.
  pose proof (monthrange_bounds (year base + y) (m + 1)).
  assert (valid_dateb (Date (year base + y) (m + 1)
    (Z.min (day base) (monthrange (year base + y) (m + 1)))) = true) as ->; [|by eauto].
  unfold valid_dateb. cbn [year month day]. rewrite !andb_true_iff, !Z.leb_le. lia.
Qed.

(** ** The shape of a schedule *)

(** Line [k] of a schedule carries index [k] and falls [k] months after the start. *)
Definition lines_at (start : date) (idx : list Z) (lines : list ScheduleLine) : Prop :=
  Forall2 (fun i l => installment_number l = i /\ add_months start i = Ret (due_date l)) idx lines.

Lemma flat_lines_at term p start ppp ipp idx allocated lines :
  flat_lines p term start ppp ipp idx allocated = Ret lines -> lines_at start idx lines.
Proof.
  revert allocated lines. induction idx as [|i idx IH]; intros allocated lines; simpl.
  { intros [= <-]. constructor. }
  intros (d & Hd & (ls & Hls & [= <-])%obind_Ret)%obind_Ret.
  constructor; [done|]. by eapply IH.
Qed.

Lemma declining_lines_at rate term start inst idx remaining lines :
  declining_lines rate term start inst idx remaining = Ret lines -> lines_at start idx lines.
Proof.
  revert remaining lines. induction idx as [|i idx IH]; intros remaining lines; simpl.
  { intros [= <-]. constructor. }
  intros (d & Hd & (ls & Hls & [= <-])%obind_Ret)%obind_Ret.
  constructor; [done|]. by eapply IH.
Qed.

Lemma schedule_lines_at p rate term start meth lines :
  generate_repayment_schedule p rate term start meth = Ret lines ->
  lines_at start (seqZ 1 term) lines.
Proof.
  unfold generate_repayment_schedule. case_decide; intros (q & _ & Hl)%obind_Ret.
  - by eapply flat_lines_at.
  - by eapply declining_lines_at.
Qed.

(** ** The total *)

(** While the last index has not been met, the loops only bookkeep; meeting it
    makes the allocated amounts sum to the principal. *)
Lemma flat_lines_total p term start ppp ipp n allocated lines :
  (1 <= n)%nat ->
  flat_lines p term start ppp ipp (seqZ (term - Z.of_nat n + 1) (Z.of_nat n)) allocated
    = Ret lines ->
  total_principal lines = p - allocated.
Proof.
  intros Hn. revert allocated lines. induction n as [|n IH]; intros allocated lines; [lia|].
  rewrite seqZ_cons by lia. cbn [flat_lines].
  replace (Z.succ (term - Z.of_nat (S n) + 1)) with (term - Z.of_nat n + 1) by lia.
  replace (Z.pred (Z.of_nat (S n))) with (Z.of_nat n) by lia.
  intros (d & Hd & (ls & Hls & [= <-])%obind_Ret)%obind_Ret.
  unfold total_principal. cbn [fmap list_fmap principal_due]. rewrite sumZ_cons.
  fold (total_principal ls). destruct n as [|n].
  - rewrite seqZ_nil in Hls by lia. injection Hls as <-.
    destruct (Z.eqb_spec (term - Z.of_nat 1 + 1) term); [simpl; unfold total_principal; simpl; lia|lia].
  - apply IH in Hls; [|lia]. rewrite Hls.
    destruct (Z.eqb_spec (term - Z.of_nat (S (S n)) + 1) term); lia.
Qed.

Lemma declining_lines_total rate term start inst n remaining lines :
  (1 <= n)%nat ->
  declining_lines rate term start inst (seqZ (term - Z.of_nat n + 1) (Z.of_nat n)) remaining
    = Ret lines ->
  total_principal lines = remaining.
Proof.
  intros Hn. revert remaining lines. induction n as [|n IH]; intros remaining lines; [lia|].
  rewrite seqZ_cons by lia. cbn [declining_lines].
  replace (Z.succ (term - Z.of_nat (S n) + 1)) with (term - Z.of_nat n + 1) by lia.
  replace (Z.pred (Z.of_nat (S n))) with (Z.of_nat n) by lia.
  intros (d & Hd & (ls & Hls & [= <-])%obind_Ret)%obind_Ret.
  unfold total_principal. cbn [fmap list_fmap principal_due]. rewrite sumZ_cons.
  fold (total_principal ls). destruct n as [|n].
  - rewrite seqZ_nil in Hls by lia. injection Hls as <-.
    destruct (Z.eqb_spec (term - Z.of_nat 1 + 1) term); [simpl; unfold total_principal; simpl; lia|lia].
  - apply IH in Hls; [|lia]. rewrite Hls. lia.
Qed.

Lemma schedule_total p rate term start meth lines :
  1 <= term ->
  generate_repayment_schedule p rate term start meth = Ret lines ->
  total_principal lines = p.
Proof.
  intros Ht. unfold generate_repayment_schedule.
  unfold flat_schedule, declining_balance_schedule.
  replace (seqZ 1 term) with (seqZ (term - Z.of_nat (Z.to_nat term) + 1) (Z.of_nat (Z.to_nat term)))
    by (f_equal; lia).
  case_decide; intros (q & _ & Hl)%obind_Ret.
  - apply flat_lines_total in Hl; lia.
  - apply declining_lines_total in Hl; lia.
Qed.

(** ** The flat method in closed form *)

Lemma flat_lines_principal term p start ppp ipp n allocated lines :
  flat_lines p term start ppp ipp (seqZ (term - Z.of_nat n) (Z.of_nat (S n))) allocated
    = Ret lines ->
  principal_due <$> lines = replicate n ppp ++ [p - allocated - Z.of_nat n * ppp] /\
  interest_due <$> lines = replicate (S n) ipp.
Proof.
  revert allocated lines. induction n as [|n IH]; intros allocated lines;
    rewrite seqZ_cons by lia; cbn [flat_lines];
    intros (d & Hd & (ls & Hls & [= <-])%obind_Ret)%obind_Ret.
  - rewrite seqZ_nil in Hls by lia. injection Hls as <-.
    destruct (Z.eqb_spec (term - Z.of_nat 0) term); [|lia].
    cbn -[Z.of_nat]. split; [|done]. f_equal; lia.
  - replace (Z.succ (term - Z.of_nat (S n))) with (term - Z.of_nat n) in Hls by lia.
    replace (Z.pred (Z.of_nat (S (S n)))) with (Z.of_nat (S n)) in Hls by lia.
    destruct (Z.eqb_spec (term - Z.of_nat (S n)) term); [lia|].
    apply IH in Hls as [Hp Hi]. rewrite !fmap_cons, Hp, Hi. cbn [principal_due interest_due].
    split; [|done]. simpl. do 3 f_equal; lia.
Qed.

Lemma flat_schedule_closed p r n start lines :
  1 <= n ->
  flat_schedule p r n start = Ret lines ->
  exists ppp,
    ppp = round_ (dec_div context_prec (dec_of_money p) (dec_of_Z n)) /\
    principal_due <$> lines
      = replicate (Z.to_nat (n - 1)) ppp ++ [p - (n - 1) * ppp].
Proof.
  intros Hn (q & Hq & Hl)%obind_Ret. unfold truediv in Hq.
  case_match; [done|]. injection Hq as <-.
  eexists. split; [reflexivity|].
  replace (seqZ 1 n) with (seqZ (n - Z.of_nat (Z.to_nat (n - 1))) (Z.of_nat (S (Z.to_nat (n - 1)))))
    in Hl by (f_equal; lia).
  apply flat_lines_principal in Hl as [Hp _]. rewrite Hp, Z2Nat.id by lia.
  do 2 f_equal; lia.
Qed.

Lemma flat_lines_total_run p term start ppp ipp idx allocated :
  valid_dateb start = true ->
  Forall (fun i => 0 <= i /\ 12 * year start + month start + i <= 12 * 9999 + 12) idx ->
  exists lines, flat_lines p term start ppp ipp idx allocated = Ret lines.
Proof.
  intros Hv H. revert allocated.
  induction H as [|i idx [Hi Hy] _ IH]; intros allocated; simpl; [by eexists|].
  destruct (add_months_total start i Hv Hi Hy) as [d ->]. cbn.
  edestruct IH as [ls Hls]. rewrite Hls. by eexists.
Qed.

(** ** Properties *)

(** C14. The scheduled principal sums to the amount lent, exactly to the cent, for
    both methods, every rate and every term of at least one month: the last
    installment absorbs all rounding. *)
Theorem schedule_sums_to_principal p r n start meth lines :
  1 <= n ->
  generate_repayment_schedule p r n start meth = Ret lines ->
  total_principal lines = p.
Proof. apply schedule_total. Qed.

Lemma schedule_sums_to_principal_witness :
  exists lines,
    generate_repayment_schedule 100000 20000 3 (Date 2026 1 31) DECLINING_BALANCE = Ret lines /\
    total_principal lines = 100000.
Proof.
  eexists. split; [vm_compute; reflexivity|].
  eapply (schedule_sums_to_principal 100000 20000 3 (Date 2026 1 31) DECLINING_BALANCE);
    [lia|vm_compute; reflexivity].
Defined.

(** Line number [k] of a schedule is installment [k + 1]; it falls due on a
    real calendar day, exactly [k + 1] months after the start, on the start's
    day of the month clamped to the month's length. *)
Theorem schedule_due_dates p r n start meth lines k line :
  generate_repayment_schedule p r n start meth = Ret lines ->
  lines !! k = Some line ->
  installment_number line = Z.of_nat k + 1 /\
  valid_dateb (due_date line) = true /\
  12 * year (due_date line) + month (due_date line)
    = 12 * year start + month start + Z.of_nat k + 1 /\
  day (due_date line) = Z.min (day start) (monthrange (year (due_date line)) (month (due_date line))).
Proof.
  intros H%schedule_lines_at Hk.
  destruct (Forall2_lookup_r _ _ _ _ _ H Hk) as (i & Hi & Hnum & Hdue).
  apply lookup_seqZ in Hi as [-> _]. apply add_months_ok in Hdue as (? & ? & ?).
  repeat split; [lia|done|lia|done].
Qed.

Lemma schedule_due_dates_witness :
  exists lines line,
    generate_repayment_schedule 10000 20000 3 (Date 2026 1 31) FLAT = Ret lines /\
    lines !! 0%nat = Some line /\ due_date line = Date 2026 2 28 /\
    installment_number line = Z.of_nat 0 + 1.
Proof.
  eexists _, _. split; [vm_compute; reflexivity|]. split; [reflexivity|]. split; [reflexivity|].
  eapply (schedule_due_dates 10000 20000 3 (Date 2026 1 31) FLAT _ 0%nat);
    [vm_compute; reflexivity|reflexivity].
Defined.

(** The flat method never fails for a term that ends before the year 10000;
    every installment but the last is the equal share of the principal rounded
    to the nearest cent, so the last one is within [(n - 1) / 2] cents of it, and
    it is nonnegative when [n * (n - 1) <= 2 * p] in cents. *)
Theorem flat_schedule_fair p r n start :
  0 <= p < 10 ^ 18 -> 1 <= n <= 10 ^ 6 -> valid_dateb start = true ->
  12 * year start + month start + n <= 12 * 9999 + 12 ->
  exists share last lines,
    generate_repayment_schedule p r n start FLAT = Ret lines /\
    principal_due <$> lines = replicate (Z.to_nat (n - 1)) share ++ [last] /\
    2 * Z.abs (p - n * share) <= n /\
    2 * Z.abs (n * last - p) <= n * (n - 1) /\
    (n * (n - 1) <= 2 * p -> 0 <= last).
Proof.
  intros Hp Hn Hv Hy.
  set (share := round_ (dec_div context_prec (dec_of_money p) (dec_of_Z n))).
  assert (exists lines, flat_schedule p r n start = Ret lines) as [lines Hl].
  { unfold flat_schedule, truediv. cbn [coeff dec_of_Z].
    destruct (Z.eqb_spec n 0); [lia|]. cbn. apply flat_lines_total_run; [done|].
    apply Forall_forall. intros i Hi%elem_of_seqZ. lia. }
  pose proof (quantize_div_spec p n Hp Hn) as Hshare.
  change (2 * Z.abs (p - n * share) <= n) in Hshare.
  destruct (flat_schedule_closed p r n start lines ltac:(lia) Hl) as (s & -> & Hdue).
  fold share in Hdue.
  exists share, (p - (n - 1) * share), lines.
  split; [done|]. split; [done|]. split; [done|]. clearbody share.
  assert (2 * Z.abs (n * (p - (n - 1) * share) - p) <= n * (n - 1)).
  { replace (n * (p - (n - 1) * share) - p) with ((n - 1) * (p - n * share)) by ring.
    rewrite Z.abs_mul, (Z.abs_eq (n - 1)) by lia.
    generalize dependent (Z.abs (p - n * share)). intros. nia. }
  split; [done|]. intros Hbig.
  assert (0 <= n * (p - (n - 1) * share)) by lia. nia.
Qed.

Lemma flat_schedule_fair_witness :
  exists share last lines,
    generate_repayment_schedule 10000 20000 3 (Date 2026 1 31) FLAT = Ret lines /\
    principal_due <$> lines = replicate (Z.to_nat (3 - 1)) share ++ [last] /\
    2 * Z.abs (10000 - 3 * share) <= 3 /\
    2 * Z.abs (3 * last - 10000) <= 3 * (3 - 1) /\
    (3 * (3 - 1) <= 2 * 10000 -> 0 <= last).
Proof. apply (flat_schedule_fair 10000 20000 3 (Date 2026 1 31)); [lia|lia|reflexivity|simpl; lia]. Defined.

(** Below that size the last installment can be negative: 45.00 over 120 months
    at rate zero is 119 installments of 0.38 and a last one of -0.22. *)
Theorem flat_last_installment_negative :
  exists lines, generate_repayment_schedule 4500 0 120 (Date 2026 1 1) FLAT = Ret lines /\
    last (principal_due <$> lines) = Some (-22).
Proof. eexists. split; [vm_compute; reflexivity|reflexivity]. Qed.
