(* ===== verification/Tenant.v ===== *)
(** * The institution's own database: [microfinance/mf_app/models/tenant/]

    One record per table row, with the columns the services read or write, and
    one record for the database.  Timestamps set by the server on insertion and
    free-text columns nothing reads are left out. *)

From S2P Require Import Prelude PyStd Amortization.

Inductive KYCStatus := PENDING | VERIFIED | REJECTED.
Inductive LedgerDirection := DEBIT | CREDIT.
Inductive SavingsAccountStatus := SA_ACTIVE | SA_CLOSED.
Inductive LoanStatus :=
| DRAFT | PENDING_APPROVAL | APPROVED | LOAN_REJECTED | ACTIVE | CLOSED | DEFAULTED.
Inductive RepaymentLineStatus := LINE_PENDING | LINE_PAID.
Inductive MFStaffRole := INSTITUTION_ADMIN | BRANCH_MANAGER | LOAN_OFFICER | TELLER.

#[export] Instance KYCStatus_eq_dec : EqDecision KYCStatus.
Proof. solve_decision. Defined.
#[export] Instance LedgerDirection_eq_dec : EqDecision LedgerDirection.
Proof. solve_decision. Defined.
#[export] Instance SavingsAccountStatus_eq_dec : EqDecision SavingsAccountStatus.
Proof. solve_decision. Defined.
#[export] Instance LoanStatus_eq_dec : EqDecision LoanStatus.
Proof. solve_decision. Defined.
#[export] Instance RepaymentLineStatus_eq_dec : EqDecision RepaymentLineStatus.
Proof. solve_decision. Defined.
#[export] Instance MFStaffRole_eq_dec : EqDecision MFStaffRole.
Proof. solve_decision. Defined.

Record InstitutionProfile := mkInstitutionProfile { ip_name : string; ip_currency : string }.

Record Branch := mkBranch { br_name : string; br_code : string }.

Record Agent := mkAgent {
  ag_branch_id : option uuid;
  ag_full_name : string;
  ag_role : MFStaffRole;
}.

Record Customer := mkCustomer {
  cu_branch_id : uuid;
  cu_full_name : string;
  cu_phone : option string;
  kyc_status : KYCStatus;
}.

Record InternalAccount := mkInternalAccount {
  ia_name : string;
  (** ["debit"] or ["credit"]; the column is a plain string. *)
  normal_balance_side : string;
  ia_balance_cached : money;
}.

Record SavingsProduct := mkSavingsProduct {
  sp_name : string;
  sp_code : string;
  annual_interest_rate : Z;
  min_opening_balance : money;
}.

Record SavingsAccount := mkSavingsAccount {
  sa_customer_id : uuid;
  sa_product_id : uuid;
  account_number : string;
  sa_status : SavingsAccountStatus;
  sa_balance_cached : money;
}.

Record Transaction := mkTransaction {
  tx_type : string;
  tx_amount : money;
  tx_description : option string;
  idempotency_key : string;
}.

Record LedgerEntry := mkLedgerEntry {
  transaction_id : uuid;
  le_account_type : string;
  le_account_id : uuid;
  le_direction : LedgerDirection;
  le_amount : money;
}.

Record LoanProduct := mkLoanProduct {
  lp_name : string;
  lp_code : string;
  amortization_method : AmortizationMethod;
  periodic_interest_rate : rate;
  min_principal : money;
  max_principal : money;
  min_term_months : Z;
  max_term_months : Z;
}.

Record Loan := mkLoan {
  lo_customer_id : uuid;
  lo_product_id : uuid;
  lo_principal : money;
  lo_term_months : Z;
  lo_status : LoanStatus;
  approved_by_staff_id : option uuid;
  approved_at : option timestamp;
  disbursed_at : option timestamp;
  closed_at : option timestamp;
  rejection_reason : option string;
  outstanding_principal : money;
}.

Record RepaymentSchedule := mkRepaymentSchedule {
  rs_loan_id : uuid;
  rs_version : Z;
  rs_is_active : bool;
}.

Record RepaymentScheduleLine := mkRepaymentScheduleLine {
  schedule_id : uuid;
  rl_installment_number : Z;
  rl_due_date : date;
  rl_principal_due : money;
  rl_interest_due : money;
  rl_principal_paid : money;
  rl_interest_paid : money;
  rl_status : RepaymentLineStatus;
}.

#[export] Instance InternalAccount_fields : Fields InternalAccount := fun a =>
  mkInternalAccount (ia_name a) (normal_balance_side a) (ia_balance_cached a).
#[export] Instance SavingsAccount_fields : Fields SavingsAccount := fun a =>
  mkSavingsAccount (sa_customer_id a) (sa_product_id a) (account_number a) (sa_status a)
    (sa_balance_cached a).
#[export] Instance Customer_fields : Fields Customer := fun c =>
  mkCustomer (cu_branch_id c) (cu_full_name c) (cu_phone c) (kyc_status c).
#[export] Instance Loan_fields : Fields Loan := fun l =>
  mkLoan (lo_customer_id l) (lo_product_id l) (lo_principal l) (lo_term_months l)
    (lo_status l) (approved_by_staff_id l) (approved_at l) (disbursed_at l) (closed_at l)
    (rejection_reason l) (outstanding_principal l).
#[export] Instance RepaymentScheduleLine_fields : Fields RepaymentScheduleLine := fun l =>
  mkRepaymentScheduleLine (schedule_id l) (rl_installment_number l) (rl_due_date l)
    (rl_principal_due l) (rl_interest_due l) (rl_principal_paid l) (rl_interest_paid l)
    (rl_status l).

(** The database seen through one session.

    The sessions run with [autoflush=False]: a [SELECT] does not see an attribute
    assigned since the last [flush].  Schedule lines are the only rows the
    services select after such an assignment, so that table alone has two views:
    [schedule_lines], the objects of the session, and [schedule_lines_flushed],
    what a [SELECT] reads. *)
Record TenantDb := mkTenantDb {
  institution_profiles : gmap uuid InstitutionProfile;
  branches : gmap uuid Branch;
  agents : gmap uuid Agent;
  customers : gmap uuid Customer;
  internal_accounts : gmap uuid InternalAccount;
  savings_products : gmap uuid SavingsProduct;
  savings_accounts : gmap uuid SavingsAccount;
  transactions : gmap uuid Transaction;
  ledger_entries : list LedgerEntry;
  loan_products : gmap uuid LoanProduct;
  loans : gmap uuid Loan;
  schedules : gmap uuid RepaymentSchedule;
  schedule_lines : gmap uuid RepaymentScheduleLine;
  schedule_lines_flushed : gmap uuid RepaymentScheduleLine;
}.

#[export] Instance TenantDb_fields : Fields TenantDb := fun d =>
  mkTenantDb (institution_profiles d) (branches d) (agents d) (customers d) (internal_accounts d)
    (savings_products d) (savings_accounts d) (transactions d) (ledger_entries d)
    (loan_products d) (loans d) (schedules d) (schedule_lines d)
    (schedule_lines_flushed d).

Definition empty_tenant : TenantDb :=
  mkTenantDb ∅ ∅ ∅ ∅ ∅ ∅ ∅ ∅ [] ∅ ∅ ∅ ∅ ∅.

(** [await db.flush()] *)
Definition flush : M TenantDb unit :=
  modify (fun d => d <| schedule_lines_flushed := schedule_lines d |>).

(** [await db.get(T, id)]: the session's object, or [None]. *)
Definition db_get {V} (table : TenantDb -> gmap uuid V) (id : uuid) : M TenantDb (option V) :=
  gets (fun d => table d !! id).
