(* ===== verification/Ledger.v ===== *)
(** * The double-entry ledger engine: [microfinance/mf_app/services/ledger.py] *)

From S2P Require Import Prelude PyStd Amortization Tenant.

(** ** Model *)

Record LedgerLine := mkLedgerLine {
  account_type : string;
  account_id : uuid;
  direction : LedgerDirection;
  amount : money;
}.

Definition direction_value (dir : LedgerDirection) : string :=
  match dir with DEBIT => "debit" | CREDIT => "credit" end.

(** An ORM object of one of the three account tables. *)
Inductive account :=
| InternalAcc (a : InternalAccount)
| SavingsAcc (a : SavingsAccount)
| LoanAcc (l : Loan).

Definition FIXED_NORMAL_SIDE (account_type : string) : option string :=
  if decide (account_type = "savings_account") then Some "credit"
  else if decide (account_type = "loan") then Some "debit"
  else None.

(** [_BALANCE_FIELD]: the balance column of an account. *)
Definition balance_field (acc : account) : money :=
  match acc with
  | InternalAcc a => ia_balance_cached a
  | SavingsAcc a => sa_balance_cached a
  | LoanAcc l => outstanding_principal l
  end.

Definition get_account (ty : string) (id : uuid) : M TenantDb account :=
  if decide (ty = "internal_account") then
    a ← db_get internal_accounts id; a ← some_or a ValueError; mret (InternalAcc a)
  else if decide (ty = "savings_account") then
    a ← db_get savings_accounts id; a ← some_or a ValueError; mret (SavingsAcc a)
  else if decide (ty = "loan") then
    l ← db_get loans id; l ← some_or l ValueError; mret (LoanAcc l)
  else raise ValueError.

(** [_FIXED_NORMAL_SIDE.get(account_type) or account.normal_balance_side] *)
Definition normal_side (ty : string) (acc : account) : M TenantDb string :=
  match FIXED_NORMAL_SIDE ty, acc with
  | Some side, _ => mret side
  | None, InternalAcc a => mret (normal_balance_side a)
  | None, _ => raise AttributeError
  end.

(** [setattr(account, field, balance)] *)
Definition set_balance (id : uuid) (acc : account) (balance : money) : M TenantDb unit :=
  modify (fun d =>
    match acc with
    | InternalAcc a =>
        d <| internal_accounts ::= <[id := a <| ia_balance_cached := balance |>]> |>
    | SavingsAcc a =>
        d <| savings_accounts ::= <[id := a <| sa_balance_cached := balance |>]> |>
    | LoanAcc l => d <| loans ::= <[id := l <| outstanding_principal := balance |>]> |>
    end).

Definition sign_of (dir : LedgerDirection) (side : string) : Z :=
  if decide (direction_value dir = side) then 1 else -1.

Definition total_in (dir : LedgerDirection) (lines : list LedgerLine) : money :=
  sumZ (amount <$> filter (fun l => direction l = dir) lines).

(** The body of the loop over [lines]. *)
Definition post_line (tx : uuid) (line : LedgerLine) : M TenantDb unit :=
  account ← get_account (account_type line) (account_id line);
  modify (fun d => d <| ledger_entries ::= fun es =>
    es ++ [mkLedgerEntry tx (account_type line) (account_id line) (direction line) (amount line)] |>);;
  side ← normal_side (account_type line) account;
  set_balance (account_id line) account
    (balance_field account + sign_of (direction line) side * amount line).

(** [id] is the [uuid4] drawn for the transaction if one is inserted. *)
Definition post_transaction (id : uuid) (type key : string) (lines : list LedgerLine)
    (description : option string) : M TenantDb uuid :=
  txs ← gets transactions;
  existing ← scalar_one_or_none (select (fun t => bool_decide (idempotency_key t = key)) txs);
  match existing with
  | Some (tx, _) => mret tx
  | None =>
      let total_debits := total_in DEBIT lines in
      let total_credits := total_in CREDIT lines in
      require (total_debits =? total_credits) AssertionError;;
      require (bool_decide (txs !! id = None)) IntegrityError;;
      modify (fun d => d <| transactions ::= <[id := mkTransaction type total_debits description key]> |>);;
      flush;;
      for_each lines (post_line id);;
      flush;;
      mret id
  end.

Definition entries_of (ty : string) (id : uuid) (es : list LedgerEntry) : list LedgerEntry :=
  filter (fun e => le_account_type e = ty /\ le_account_id e = id) es.

Definition signed_total (side : string) (es : list LedgerEntry) : money :=
  sumZ ((fun e => sign_of (le_direction e) side * le_amount e) <$> es).

Definition reconcile_balance (ty : string) (id : uuid) : M TenantDb money :=
  account ← get_account ty id;
  side ← normal_side ty account;
  es ← gets ledger_entries;
  mret (signed_total side (entries_of ty id es)).

(** ** Accounts as one family *)

(** [account_at d ty id acc side]: account [id] of type [ty] is [acc], with
    normal side [side]. *)
Inductive account_at (d : TenantDb) : string -> uuid -> account -> string -> Prop :=
| at_internal id a :
    internal_accounts d !! id = Some a ->
    account_at d "internal_account" id (InternalAcc a) (normal_balance_side a)
| at_savings id a :
    savings_accounts d !! id = Some a ->
    account_at d "savings_account" id (SavingsAcc a) "credit"
| at_loan id l :
    loans d !! id = Some l -> account_at d "loan" id (LoanAcc l) "debit".

Lemma get_account_at d t ty id acc :
  get_account ty id d = (t, Ret acc) ->
  t = d /\ exists side, account_at d ty id acc side /\
    forall s, normal_side ty acc s = (s, Ret side).
Proof.
  unfold get_account, db_get, normal_side, FIXED_NORMAL_SIDE.
  repeat case_decide; intros H'; minv; (split; [done|]); eexists; (split; [by constructor|]);
    intros s; simpl; done.
Qed.

Lemma account_at_get d ty id acc side :
  account_at d ty id acc side ->
  get_account ty id d = (d, Ret acc) /\ forall s, normal_side ty acc s = (s, Ret side).
Proof.
  destruct 1 as [id a H|id a H|id l H]; unfold get_account, db_get; simpl;
    (split; [|done]); unfold mbind, M_bind, gets; rewrite H; done.
Qed.

Lemma at_internal_side d id a side :
  internal_accounts d !! id = Some a -> normal_balance_side a = side ->
  account_at d "internal_account" id (InternalAcc a) side.
Proof. intros H <-. by constructor. Qed.

Lemma account_at_fun d ty id acc side acc' side' :
  account_at d ty id acc side -> account_at d ty id acc' side' -> acc = acc' /\ side = side'.
Proof. destruct 1; inversion 1; simplify_eq; done. Qed.

(** What one line does, as a function on databases. *)
Definition with_balance (d : TenantDb) (id : uuid) (acc : account) (b : money) : TenantDb :=
  (set_balance id acc b d).1.

Lemma post_line_run d tx line t u :
  post_line tx line d = (t, Ret u) ->
  exists acc side, account_at d (account_type line) (account_id line) acc side /\
    t = with_balance (d <| ledger_entries ::= fun es => es ++
          [mkLedgerEntry tx (account_type line) (account_id line) (direction line) (amount line)] |>)
          (account_id line) acc
          (balance_field acc + sign_of (direction line) side * amount line).
Proof.
  unfold post_line. intros H. minv.
  match goal with H : get_account _ _ _ = _ |- _ => apply get_account_at in H as (-> & side & Hat & Hs) end.
  match goal with H : normal_side _ _ _ = _ |- _ => rewrite Hs in H; simplify_eq end.
  match goal with H : set_balance _ _ _ _ = _ |- _ => apply modify_Ret in H as -> end.
  eauto.
Qed.

Definition update_balance (acc : account) (b : money) : account :=
  match acc with
  | InternalAcc a => InternalAcc (a <| ia_balance_cached := b |>)
  | SavingsAcc a => SavingsAcc (a <| sa_balance_cached := b |>)
  | LoanAcc l => LoanAcc (l <| outstanding_principal := b |>)
  end.

Lemma balance_update acc b : balance_field (update_balance acc b) = b.
Proof. by destruct acc. Qed.

(** Writing one balance changes that account and no other. *)
Lemma account_at_with_balance d ty id acc side b ty' id' acc' side' :
  account_at d ty id acc side ->
  account_at (with_balance d id acc b) ty' id' acc' side' <->
  (ty' = ty /\ id' = id /\ acc' = update_balance acc b /\ side' = side) \/
  ((ty', id') <> (ty, id) /\ account_at d ty' id' acc' side').
Proof.
  intros Hat. unfold with_balance, set_balance, modify. split.
  - destruct Hat; inversion 1 as [j ? Hj|j ? Hj|j ? Hj]; subst; cbn in Hj;
      try (right; split; [by intros [=]|by constructor]);
      (destruct (decide (id' = id)) as [->|];
        [rewrite lookup_insert_eq in Hj; left; by simplify_eq/=
        |rewrite lookup_insert_ne in Hj by done; right; split; [by intros [=]|by constructor]]).
  - intros [(-> & -> & -> & ->)|[Hne Hat']].
    + destruct Hat; [apply at_internal_side|apply at_savings|apply at_loan]; simpl;
        by rewrite ?lookup_insert_eq.
    + destruct Hat, Hat'; constructor; cbn; try done;
        (rewrite lookup_insert_ne; [done|congruence]).
Qed.

(** ** The books *)

(** The two sides of the trial balance. *)
Definition on_side (side : string -> bool) (a : InternalAccount) : money :=
  if side (normal_balance_side a) then ia_balance_cached a else 0.
Definition internal_total (side : string -> bool) (d : TenantDb) : money :=
  map_sum (on_side side) (internal_accounts d).
Definition is_debit (s : string) : bool := bool_decide (s = "debit").
Definition debit_side (d : TenantDb) : money :=
  internal_total is_debit d + map_sum outstanding_principal (loans d).
Definition credit_side (d : TenantDb) : money :=
  internal_total (negb ∘ is_debit) d + map_sum sa_balance_cached (savings_accounts d).

Definition sides_ok (d : TenantDb) : Prop :=
  forall id a, internal_accounts d !! id = Some a ->
    normal_balance_side a = "debit" \/ normal_balance_side a = "credit".

Definition entry_amounts (dir : LedgerDirection) (tx : uuid) (es : list LedgerEntry) : money :=
  sumZ (le_amount <$> filter (fun e => le_direction e = dir /\ transaction_id e = tx) es).

(** The ledger's invariant: account sides are known; cached balances are what the
    entries say; every entry names an existing account and transaction; the
    entries of a transaction balance, at its amount; keys identify
    transactions; the two sides of the books are equal. *)
Record ledger_ok (d : TenantDb) : Prop := {
  ok_sides : sides_ok d;
  ok_cached : forall ty id acc side, account_at d ty id acc side ->
    balance_field acc = signed_total side (entries_of ty id (ledger_entries d));
  ok_accounts : forall e, e ∈ ledger_entries d ->
    exists acc side, account_at d (le_account_type e) (le_account_id e) acc side;
  ok_transactions : forall e, e ∈ ledger_entries d -> is_Some (transactions d !! transaction_id e);
  ok_balanced : forall tx t, transactions d !! tx = Some t ->
    entry_amounts DEBIT tx (ledger_entries d) = tx_amount t /\
    entry_amounts CREDIT tx (ledger_entries d) = tx_amount t;
  ok_keys : forall tx tx' t t', transactions d !! tx = Some t -> transactions d !! tx' = Some t' ->
    idempotency_key t = idempotency_key t' -> tx = tx';
  ok_books : debit_side d = credit_side d;
}.

(** ** Lines *)

Definition line_entry (tx : uuid) (l : LedgerLine) : LedgerEntry :=
  mkLedgerEntry tx (account_type l) (account_id l) (direction l) (amount l).

Definition signed_amount (l : LedgerLine) : money :=
  match direction l with DEBIT => amount l | CREDIT => - amount l end.

Lemma entries_of_app ty id es es' :
  entries_of ty id (es ++ es') = entries_of ty id es ++ entries_of ty id es'.
Proof. apply filter_app. Qed.

Lemma signed_total_app side es es' :
  signed_total side (es ++ es') = signed_total side es + signed_total side es'.
Proof. unfold signed_total. by rewrite fmap_app, sumZ_app. Qed.

Lemma signed_total_one ty id tx l side :
  signed_total side (entries_of ty id [line_entry tx l]) =
  if decide ((ty, id) = (account_type l, account_id l))
  then sign_of (direction l) side * amount l else 0.
Proof.
  unfold entries_of, signed_total. rewrite filter_cons. simpl.
  destruct (decide (_ /\ _)) as [[<- <-]|Hn]; case_decide as Hd;
    try (simplify_eq; naive_solver); simpl; lia.
Qed.

(** The effect of a balance write on the difference of the books. *)
Lemma books_with_balance d ty id acc side b :
  sides_ok d -> account_at d ty id acc side ->
  debit_side (with_balance d id acc b) - credit_side (with_balance d id acc b)
  = debit_side d - credit_side d
    + (if is_debit side then 1 else -1) * (b - balance_field acc).
Proof.
  intros Hs Hat. unfold debit_side, credit_side, internal_total, on_side, with_balance, set_balance, modify.
  destruct Hat as [id a H|id a H|id l H]; simpl; erewrite ?map_sum_insert by done; simpl; [|lia..].
  unfold is_debit. destruct (Hs _ _ H) as [->| ->]; simpl; lia.
Qed.

Lemma sign_of_side dir side :
  side = "debit" \/ side = "credit" ->
  (if is_debit side then 1 else -1) * sign_of dir side = match dir with DEBIT => 1 | CREDIT => -1 end.
Proof. intros [->| ->]; destruct dir; reflexivity. Qed.

Lemma account_side_ok d ty id acc side :
  sides_ok d -> account_at d ty id acc side -> side = "debit" \/ side = "credit".
Proof. intros Hs. destruct 1; eauto. Qed.

(** Everything but balances, transactions and entries: what the ledger engine
    never touches. *)
Definition forget_books (d : TenantDb) : TenantDb :=
  d <| internal_accounts ::= fmap (fun a => a <| ia_balance_cached := 0 |>) |>
    <| savings_accounts ::= fmap (fun a => a <| sa_balance_cached := 0 |>) |>
    <| loans ::= fmap (fun l => l <| outstanding_principal := 0 |>) |>
    <| transactions := ∅ |> <| ledger_entries := [] |> <| schedule_lines_flushed := ∅ |>.

Lemma forget_with_balance d ty id acc side b :
  account_at d ty id acc side -> forget_books (with_balance d id acc b) = forget_books d.
Proof.
  destruct 1 as [id a H|id a H|id l H]; unfold with_balance, set_balance, modify, forget_books;
    simpl; rewrite fmap_insert, insert_id by (rewrite lookup_fmap, H; done); done.
Qed.

Lemma forget_loan d t id l :
  forget_books t = forget_books d -> loans d !! id = Some l ->
  exists l', loans t !! id = Some l' /\
    l' <| outstanding_principal := 0 |> = l <| outstanding_principal := 0 |>.
Proof.
  intros E H. assert (loans (forget_books t) !! id = loans (forget_books d) !! id) as Hl
    by (by rewrite E).
  simpl in Hl. rewrite !lookup_fmap, H in Hl.
  destruct (loans t !! id) as [l'|] eqn:E'; simplify_eq/=. exists l'. split; [done|].
  destruct l', l; simplify_eq/=; done.
Qed.

Lemma forget_savings d t id a :
  forget_books t = forget_books d -> savings_accounts d !! id = Some a ->
  exists a', savings_accounts t !! id = Some a' /\
    a' <| sa_balance_cached := 0 |> = a <| sa_balance_cached := 0 |>.
Proof.
  intros E H. assert (savings_accounts (forget_books t) !! id = savings_accounts (forget_books d) !! id)
    as Hl by (by rewrite E).
  simpl in Hl. rewrite !lookup_fmap, H in Hl.
  destruct (savings_accounts t !! id) as [a'|] eqn:E'; simplify_eq/=. exists a'. split; [done|].
  destruct a', a; simplify_eq/=; done.
Qed.

(** The part of the invariant that holds in the middle of a transaction. *)
Record lines_ok (d : TenantDb) : Prop := {
  lo_sides : sides_ok d;
  lo_cached : forall ty id acc side, account_at d ty id acc side ->
    balance_field acc = signed_total side (entries_of ty id (ledger_entries d));
  lo_accounts : forall e, e ∈ ledger_entries d ->
    exists acc side, account_at d (le_account_type e) (le_account_id e) acc side;
}.

(** The state after [lines] of transaction [tx] were posted to [d]. *)
Record posted (tx : uuid) (lines : list LedgerLine) (d t : TenantDb) : Prop := {
  posted_ok : lines_ok d -> lines_ok t;
  posted_entries : ledger_entries t = ledger_entries d ++ (line_entry tx <$> lines);
  posted_transactions : transactions t = transactions d;
  posted_flushed : schedule_lines_flushed t = schedule_lines_flushed d;
  posted_forget : forget_books t = forget_books d;
  posted_books : lines_ok d ->
    debit_side t - credit_side t = debit_side d - credit_side d + sumZ (signed_amount <$> lines);
}.

Lemma account_at_entries d es ty id acc side :
  account_at (d <| ledger_entries := es |>) ty id acc side <-> account_at d ty id acc side.
Proof. split; destruct 1; by constructor. Qed.

Lemma sides_with_balance d ty id acc side b :
  account_at d ty id acc side -> sides_ok d -> sides_ok (with_balance d id acc b).
Proof.
  intros Hat Hs j a Hj.
  assert (account_at (with_balance d id acc b) "internal_account" j (InternalAcc a) (normal_balance_side a))
    as H by (by constructor).
  apply (account_at_with_balance _ _ _ _ _ b _ _ _ _ Hat) in H.
  destruct H as [(_ & _ & _ & E)|[_ H]].
  - rewrite E. by eapply account_side_ok.
  - by eapply account_side_ok.
Qed.

Lemma post_line_posted tx line d t u :
  post_line tx line d = (t, Ret u) -> posted tx [line] d t.
Proof.
  intros (acc & side & Hat & ->)%post_line_run. fold (line_entry tx line).
  set (d1 := d <| ledger_entries ::= _ |>).
  assert (account_at d1 (account_type line) (account_id line) acc side) as Hat1
    by (by apply account_at_entries).
  set (b := balance_field acc + _).
  split; [|by destruct Hat1..|by rewrite (forget_with_balance _ _ _ _ _ _ Hat1)|].
  - intros [Hs Hc Ha]. split.
    + by eapply sides_with_balance.
    + intros ty id acc' side' H.
      assert (ledger_entries (with_balance d1 (account_id line) acc b)
              = ledger_entries d ++ [line_entry tx line]) as -> by (by destruct Hat1).
      rewrite entries_of_app, signed_total_app, signed_total_one.
      apply (account_at_with_balance _ _ _ _ _ _ _ _ _ _ Hat1) in H
        as [(-> & -> & -> & ->)|[Hne H]].
      * rewrite decide_True, balance_update by done. unfold b. by erewrite Hc.
      * rewrite decide_False by done. apply account_at_entries in H. rewrite (Hc _ _ _ _ H). lia.
    + intros e He.
      assert (exists acc side, account_at d1 (le_account_type e) (le_account_id e) acc side)
        as (acc' & side' & He').
      { assert (e ∈ ledger_entries d ++ [line_entry tx line])
          as [(a' & s' & ?)%Ha|E%list_elem_of_singleton]%elem_of_app by (by destruct Hat1).
        - exists a', s'. by apply account_at_entries.
        - subst e. by exists acc, side. }
      destruct (decide ((le_account_type e, le_account_id e) = (account_type line, account_id line)))
        as [[= -> ->]|Hne];
        eexists _, _; apply (account_at_with_balance _ _ _ _ _ _ _ _ _ _ Hat1); [left|right]; done.
  - intros [Hs _ _]. rewrite (books_with_balance d1 _ _ _ _ _ Hs Hat1).
    change (debit_side d1) with (debit_side d). change (credit_side d1) with (credit_side d).
    unfold b. pose proof (sign_of_side (direction line) side (account_side_ok _ _ _ _ _ Hs Hat)).
    simpl. unfold signed_amount. destruct (direction line), (is_debit side); lia.
Qed.

Lemma posted_nil tx d : posted tx [] d d.
Proof. split; try done; [by rewrite app_nil_r|]. intros _. rewrite fmap_nil. cbn [sumZ foldr]. lia. Qed.

Lemma posted_cons tx l ls d u t :
  posted tx [l] d u -> posted tx ls u t -> posted tx (l :: ls) d t.
Proof.
  intros [A1 A2 A3 A4 A5 A6] [B1 B2 B3 B4 B5 B6]. split; try congruence; [tauto| |].
  - rewrite B2, A2. simpl. by rewrite <- app_assoc.
  - intros H. rewrite B6, A6 by tauto. rewrite !fmap_cons, !sumZ_cons. cbn [sumZ foldr fmap list_fmap]. lia.
Qed.

Lemma for_each_posted tx lines d t u :
  for_each lines (post_line tx) d = (t, Ret u) -> posted tx lines d t.
Proof.
  revert d. induction lines as [|l lines IH]; intros d H; simpl in H; minv.
  - apply posted_nil.
  - eapply posted_cons; [by eapply post_line_posted|by eapply IH].
Qed.

(** ** Posting a transaction *)

Lemma totals_signed lines :
  total_in DEBIT lines - total_in CREDIT lines = sumZ (signed_amount <$> lines).
Proof.
  unfold total_in, signed_amount. induction lines as [|l lines IH]; [done|].
  rewrite !filter_cons, fmap_cons, sumZ_cons, <- IH.
  destruct (direction l); repeat case_decide; try done; rewrite fmap_cons, sumZ_cons; lia.
Qed.

Lemma entry_amounts_app dir tx es es' :
  entry_amounts dir tx (es ++ es') = entry_amounts dir tx es + entry_amounts dir tx es'.
Proof. unfold entry_amounts. by rewrite filter_app, fmap_app, sumZ_app. Qed.

Lemma entry_amounts_none dir tx es :
  (forall e, e ∈ es -> transaction_id e <> tx) -> entry_amounts dir tx es = 0.
Proof.
  unfold entry_amounts. intros H. induction es as [|e es IH]; [done|].
  rewrite filter_cons. case_decide as Hd.
  - exfalso. apply (H e); [left|apply Hd].
  - apply IH. intros e' He'. apply H. by right.
Qed.

Lemma entry_amounts_lines dir tx lines :
  entry_amounts dir tx (line_entry tx <$> lines) = total_in dir lines.
Proof.
  unfold entry_amounts, total_in. induction lines as [|l lines IH]; [done|].
  rewrite fmap_cons, !filter_cons. simpl.
  destruct (decide (direction l = dir)) as [E|E].
  - rewrite decide_True by done. rewrite !fmap_cons, !sumZ_cons. simpl. by rewrite IH.
  - by rewrite decide_False by tauto.
Qed.

Definition key_rows (key : string) (d : TenantDb) : list (uuid * Transaction) :=
  select (fun t => bool_decide (idempotency_key t = key)) (transactions d).

Definition key_fresh (key : string) (d : TenantDb) : Prop := key_rows key d = [].

Lemma key_fresh_iff key d :
  key_fresh key d <-> forall tx t, transactions d !! tx = Some t -> idempotency_key t <> key.
Proof.
  unfold key_fresh, key_rows. rewrite select_nil_iff. split; intros H tx t Ht; specialize (H tx t Ht).
  - by apply bool_decide_eq_false in H.
  - by apply bool_decide_eq_false.
Qed.

(** What a first posting leaves behind. *)
Record fresh_posting (id : uuid) (type key : string) (lines : list LedgerLine)
    (desc : option string) (d t : TenantDb) : Prop := {
  fp_balanced : total_in DEBIT lines = total_in CREDIT lines;
  fp_key : key_fresh key d;
  fp_id : transactions d !! id = None;
  fp_transactions :
    transactions t = <[id := mkTransaction type (total_in DEBIT lines) desc key]> (transactions d);
  fp_entries : ledger_entries t = ledger_entries d ++ (line_entry id <$> lines);
  fp_forget : forget_books t = forget_books d;
  fp_lines : lines_ok d -> lines_ok t;
  fp_books : lines_ok d -> debit_side t - credit_side t = debit_side d - credit_side d;
  fp_flushed : schedule_lines_flushed t = schedule_lines t;
}.

Lemma flush_run d : flush d = (d <| schedule_lines_flushed := schedule_lines d |>, Ret tt).
Proof. done. Qed.

Lemma lines_ok_same d d' :
  ledger_entries d' = ledger_entries d -> internal_accounts d' = internal_accounts d ->
  savings_accounts d' = savings_accounts d -> loans d' = loans d ->
  (lines_ok d -> lines_ok d') /\
  debit_side d' = debit_side d /\ credit_side d' = credit_side d.
Proof.
  intros He Hi Hs Hl. split; [|by unfold debit_side, credit_side, internal_total; rewrite Hi, Hs, Hl].
  assert (forall ty id acc side, account_at d' ty id acc side <-> account_at d ty id acc side) as Hat.
  { intros. split; destruct 1; constructor; congruence. }
  intros [A B C]. split.
  - intros id a. rewrite Hi. apply A.
  - intros ty id acc side H. rewrite He. apply B. by apply Hat.
  - intros e. rewrite He. intros (acc & side & H)%C. exists acc, side. by apply Hat.
Qed.

Lemma post_transaction_run id type key lines desc d t tx :
  post_transaction id type key lines desc d = (t, Ret tx) ->
  (t = d /\ exists row, key_rows key d = [(tx, row)]) \/
  (tx = id /\ fresh_posting id type key lines desc d t).
Proof.
  unfold post_transaction. intros (? & ? & [-> ->]%gets_Ret & H)%bind_Ret.
  apply bind_Ret in H as (? & o & [-> Hrows]%scalar_one_or_none_Ret & H).
  destruct o as [[tx' row]|].
  - minv. left. eauto.
  - right. minv.
    repeat match goal with H : flush _ = _ |- _ => rewrite flush_run in H end. simplify_eq.
    match goal with H : for_each _ _ _ = _ |- _ => apply for_each_posted in H as HP end.
    match type of HP with posted _ _ ?v ?u => set (d1 := v) in *; set (d2 := u) in * end.
    destruct HP as [P1 P2 P3 P4 P5 P6].
    destruct (lines_ok_same d d1) as (L1 & L2 & L3); [done..|].
    destruct (lines_ok_same d2 (d2 <| schedule_lines_flushed := schedule_lines d2 |>))
      as (L4 & L5 & L6); [done..|].
    match goal with H : (_ =? _) = true |- _ => apply Z.eqb_eq in H as Hb end.
    match goal with H : bool_decide _ = true |- _ => apply bool_decide_eq_true in H as Hid end.
    split; [done|]. split; try done; try tauto.
    intros Hd. pose proof (totals_signed lines). rewrite L5, L6, P6 by tauto. lia.
Qed.

Lemma fresh_posting_ok id type key lines desc d t :
  fresh_posting id type key lines desc d t -> ledger_ok d -> ledger_ok t.
Proof.
  intros [Hb Hk Hid Htx Hes Hf Hl Hbooks _] [S1 S2 S3 S4 S5 S6 S7].
  assert (lines_ok d) as Hd by (by split).
  destruct (Hl Hd) as [L1 L2 L3].
  assert (forall e, e ∈ ledger_entries d -> transaction_id e <> id) as Hold.
  { intros e [x Hx]%S4 E. congruence. }
  split; try done.
  - intros e. rewrite Hes, Htx, elem_of_app. intros [H|H].
    + destruct (decide (transaction_id e = id)) as [->|]; [by rewrite lookup_insert_eq|].
      rewrite lookup_insert_ne by done. by apply S4.
    + apply list_elem_of_fmap in H as (l & -> & _). simpl. by rewrite lookup_insert_eq.
  - intros tx x. rewrite Htx, Hes, !entry_amounts_app.
    intros [[E <-]|[Hne H]]%lookup_insert_Some.
    + subst tx. rewrite !(entry_amounts_none _ _ _ Hold), !entry_amounts_lines. simpl. lia.
    + destruct (S5 _ _ H) as [-> ->].
      rewrite !entry_amounts_none; [lia|..];
        intros e (l & -> & _)%list_elem_of_fmap; simpl; congruence.
  - rewrite key_fresh_iff in Hk. intros tx tx' x x'. rewrite Htx.
    intros [[<- <-]|[Hne H]]%lookup_insert_Some [[<- <-]|[Hne' H']]%lookup_insert_Some; simpl.
    + done.
    + intros E. by destruct (Hk _ _ H').
    + intros E. by destruct (Hk _ _ H).
    + by apply S6.
  - specialize (Hbooks Hd). lia.
Qed.

(** A run that returns keeps the invariant. *)
Lemma post_transaction_keeps id type key lines desc d t tx :
  post_transaction id type key lines desc d = (t, Ret tx) -> ledger_ok d -> ledger_ok t.
Proof.
  intros [[-> _]|[_ H]]%post_transaction_run; [done|]. by eapply fresh_posting_ok.
Qed.

(** ** When a posting goes through *)

Definition account_exists (d : TenantDb) (line : LedgerLine) : Prop :=
  exists acc side, account_at d (account_type line) (account_id line) acc side.

Lemma account_exists_with_balance d ty id acc side b line :
  account_at d ty id acc side -> account_exists d line -> account_exists (with_balance d id acc b) line.
Proof.
  intros Hat (acc' & side' & H).
  destruct (decide ((account_type line, account_id line) = (ty, id))) as [[= E1 E2]|Hne].
  - exists (update_balance acc b), side. apply (account_at_with_balance _ _ _ _ _ _ _ _ _ _ Hat). by left.
  - exists acc', side'. apply (account_at_with_balance _ _ _ _ _ _ _ _ _ _ Hat). by right.
Qed.

Lemma post_line_succeeds tx line d :
  account_exists d line ->
  exists t, post_line tx line d = (t, Ret tt) /\ forall l, account_exists d l -> account_exists t l.
Proof.
  intros (acc & side & Hat). destruct (account_at_get _ _ _ _ _ Hat) as [Hg Hn].
  set (d1 := d <| ledger_entries ::= fun es => es ++ [line_entry tx line] |>).
  exists (with_balance d1 (account_id line) acc
            (balance_field acc + sign_of (direction line) side * amount line)).
  split.
  - unfold post_line. rewrite bind_Ret. exists d, acc. split; [done|].
    rewrite bind_Ret. exists d1, tt. split; [done|].
    rewrite bind_Ret. exists d1, side. split; [apply Hn|done].
  - intros l (acc' & side' & Hl).
    assert (account_at d1 (account_type line) (account_id line) acc side) as H1
      by (by apply account_at_entries).
    eapply account_exists_with_balance; [exact H1|].
    exists acc', side'. by apply account_at_entries.
Qed.

Lemma for_each_succeeds tx lines d :
  Forall (account_exists d) lines -> exists t, for_each lines (post_line tx) d = (t, Ret tt).
Proof.
  revert d. induction lines as [|l lines IH]; intros d H; simpl; [by exists d|].
  apply Forall_cons in H as [Hl Hls].
  destruct (post_line_succeeds tx l d Hl) as (u & Hu & Hk).
  destruct (IH u) as [t Ht]; [by eapply Forall_impl|].
  exists t. rewrite bind_Ret. by exists u, tt.
Qed.

Lemma post_transaction_returns id type key lines desc d :
  key_fresh key d -> transactions d !! id = None ->
  total_in DEBIT lines = total_in CREDIT lines -> Forall (account_exists d) lines ->
  exists t, post_transaction id type key lines desc d = (t, Ret id).
Proof.
  intros Hk Hid Hb Ha.
  set (d1 := d <| transactions ::= <[id := mkTransaction type (total_in DEBIT lines) desc key]> |>
               <| schedule_lines_flushed := schedule_lines d |>).
  destruct (for_each_succeeds id lines d1) as [t Ht].
  { eapply Forall_impl; [exact Ha|]. intros l (acc & side & H). exists acc, side.
    destruct H; by constructor. }
  eexists. unfold post_transaction.
  rewrite bind_Ret. exists d, (transactions d). split; [done|].
  rewrite bind_Ret. exists d, None. split.
  { apply scalar_one_or_none_Ret. split; [done|apply Hk]. }
  rewrite bind_Ret. exists d, tt. split; [apply require_Ret; by rewrite Z.eqb_eq|].
  rewrite bind_Ret. exists d, tt. split; [apply require_Ret; by rewrite bool_decide_eq_true|].
  rewrite bind_Ret. eexists _, tt. split; [done|].
  rewrite bind_Ret. exists d1, tt. split; [done|].
  rewrite bind_Ret. exists t, tt. split; [done|].
  rewrite bind_Ret. eexists _, tt. split; [done|]. done.
Qed.

(** ** The cache against the entries *)

Lemma reconcile_balance_run ty id d acc side :
  account_at d ty id acc side ->
  reconcile_balance ty id d = (d, Ret (signed_total side (entries_of ty id (ledger_entries d)))).
Proof.
  intros [Hg Hn]%account_at_get. unfold reconcile_balance.
  rewrite bind_Ret. exists d, acc. split; [done|].
  rewrite bind_Ret. exists d, side. split; [apply Hn|done].
Qed.

(** ** Steps outside the ledger *)

(** The columns the books are computed from. *)
Definition side_balance (a : InternalAccount) : string * money :=
  (normal_balance_side a, ia_balance_cached a).

Record same_books (d t : TenantDb) : Prop := {
  sb_internal : side_balance <$> internal_accounts t = side_balance <$> internal_accounts d;
  sb_savings : sa_balance_cached <$> savings_accounts t = sa_balance_cached <$> savings_accounts d;
  sb_loans : outstanding_principal <$> loans t = outstanding_principal <$> loans d;
  sb_transactions : transactions t = transactions d;
  sb_entries : ledger_entries t = ledger_entries d;
}.

Lemma map_sum_fmap {V} (f : V -> Z) (m : gmap positive V) : map_sum f m = map_sum id (f <$> m).
Proof.
  unfold map_sum. rewrite map_to_list_fmap, <- list_fmap_compose.
  rewrite <- !list_fmap_compose. done.
Qed.

Lemma lookup_fmap_eq {V W} (f : V -> W) (m m' : gmap positive V) k v :
  f <$> m' = f <$> m -> m !! k = Some v -> exists w, m' !! k = Some w /\ f w = f v.
Proof.
  intros E H. assert ((f <$> m') !! k = (f <$> m) !! k) as Hk by (by rewrite E).
  rewrite !lookup_fmap, H in Hk. destruct (m' !! k) as [w|]; naive_solver.
Qed.

Lemma same_books_sym d t : same_books d t -> same_books t d.
Proof. by intros []. Qed.

Lemma same_books_at d t ty id acc side :
  same_books d t -> account_at d ty id acc side ->
  exists acc', account_at t ty id acc' side /\ balance_field acc' = balance_field acc.
Proof.
  intros [Hi Hs Hl _ _] [j a H|j a H|j l H].
  - destruct (lookup_fmap_eq _ _ _ _ _ Hi H) as (w & Hw & [= E1 E2]).
    exists (InternalAcc w). rewrite <- E1. split; [by constructor|done].
  - destruct (lookup_fmap_eq _ _ _ _ _ Hs H) as (w & Hw & E).
    exists (SavingsAcc w). split; [by constructor|done].
  - destruct (lookup_fmap_eq _ _ _ _ _ Hl H) as (w & Hw & E).
    exists (LoanAcc w). split; [by constructor|done].
Qed.

Lemma same_books_sides d t :
  same_books d t -> debit_side t = debit_side d /\ credit_side t = credit_side d.
Proof.
  intros [Hi Hs Hl _ _]. unfold debit_side, credit_side, internal_total.
  rewrite (map_sum_fmap outstanding_principal), (map_sum_fmap sa_balance_cached), Hs, Hl,
    <- !map_sum_fmap.
  enough (forall side, map_sum (on_side side) (internal_accounts t)
      = map_sum (on_side side) (internal_accounts d)) as H by (by rewrite !H).
  intros side. set (g := fun sb : string * money => if side sb.1 then sb.2 else 0).
  assert (forall m : gmap uuid InternalAccount, on_side side <$> m = g <$> (side_balance <$> m)) as E
    by (intros m; by rewrite <- map_fmap_compose).
  by rewrite (map_sum_fmap (on_side side)), E, Hi, <- E, <- map_sum_fmap.
Qed.

Lemma same_books_ok d t : same_books d t -> ledger_ok d -> ledger_ok t.
Proof.
  intros Hsb [S1 S2 S3 S4 S5 S6 S7]. pose proof (same_books_sym _ _ Hsb) as Hbs.
  pose proof (same_books_sides _ _ Hsb) as [Hd Hc].
  pose proof (sb_entries _ _ Hsb) as He. pose proof (sb_transactions _ _ Hsb) as Ht.
  split; rewrite ?He, ?Ht; try done.
  - intros id a Ha. destruct (lookup_fmap_eq _ _ _ _ _ (sb_internal _ _ Hbs) Ha) as (w & Hw & [= E _]).
    rewrite <- E. by eapply S1.
  - intros ty id acc side H. destruct (same_books_at _ _ _ _ _ _ Hbs H) as (acc' & H' & <-).
    by apply S2.
  - intros e (acc & side & H)%S3. destruct (same_books_at _ _ _ _ _ _ Hsb H) as (acc' & H' & _). eauto.
  - lia.
Qed.

(** Opening an account with an empty balance under a new id. *)
Lemma signed_total_none d ty id side :
  ledger_ok d -> (forall acc s, ~ account_at d ty id acc s) ->
  signed_total side (entries_of ty id (ledger_entries d)) = 0.
Proof.
  intros Hd Hn. unfold entries_of.
  enough (filter (fun e => le_account_type e = ty /\ le_account_id e = id) (ledger_entries d) = [])
    as -> by done.
  destruct (filter _ _) as [|e es] eqn:E; [done|].
  assert (e ∈ filter (fun e => le_account_type e = ty /\ le_account_id e = id) (ledger_entries d)) as He
    by (rewrite E; left).
  apply list_elem_of_filter in He as [[<- <-] He].
  destruct (ok_accounts _ Hd _ He) as (acc & s & H). by destruct (Hn acc s).
Qed.

Lemma ledger_ok_new d t ty0 id0 acc0 side0 :
  ledger_ok d ->
  (forall acc s, ~ account_at d ty0 id0 acc s) ->
  balance_field acc0 = 0 -> (side0 = "debit" \/ side0 = "credit") ->
  (forall ty id acc side, account_at t ty id acc side <->
     account_at d ty id acc side \/ (ty = ty0 /\ id = id0 /\ acc = acc0 /\ side = side0)) ->
  ledger_entries t = ledger_entries d -> transactions t = transactions d ->
  debit_side t = debit_side d -> credit_side t = credit_side d ->
  ledger_ok t.
Proof.
  intros Hd Hn Hz Hside Hat He Ht Hds Hcs. pose proof Hd as [S1 S2 S3 S4 S5 S6 S7].
  split; rewrite ?He, ?Ht; try done; [| | |lia].
  - intros id a Ha. assert (account_at t "internal_account" id (InternalAcc a) (normal_balance_side a))
      as [H|(_ & _ & _ & ->)]%Hat by (by constructor); [|done].
    by eapply account_side_ok.
  - intros ty id acc side [H|(-> & -> & -> & ->)]%Hat; [by apply S2|].
    rewrite Hz. symmetry. by apply signed_total_none.
  - intros e (acc & side & H)%S3. exists acc, side. apply Hat. by left.
Qed.

Lemma ledger_ok_new_savings d id a :
  ledger_ok d -> savings_accounts d !! id = None -> sa_balance_cached a = 0 ->
  ledger_ok (d <| savings_accounts ::= <[id := a]> |>).
Proof.
  intros Hd Hid Hz. apply (ledger_ok_new d _ "savings_account" id (SavingsAcc a) "credit"); try done.
  - intros acc s. inversion 1; simplify_eq.
  - by right.
  - intros ty j acc side. split.
    + destruct 1 as [j b H|j b H|j b H]; simpl in H; [left; by constructor| |left; by constructor].
      apply lookup_insert_Some in H as [[-> ->]|[_ H]]; [by right|left; by constructor].
    + intros [H|(-> & -> & -> & ->)]; [|apply at_savings; simpl; apply lookup_insert_eq].
      destruct H; constructor; simpl; try done. rewrite lookup_insert_ne; [done|congruence].
  - unfold credit_side, internal_total. simpl. rewrite map_sum_insert_new by done. lia.
Qed.

Lemma ledger_ok_new_loan d id l :
  ledger_ok d -> loans d !! id = None -> outstanding_principal l = 0 ->
  ledger_ok (d <| loans ::= <[id := l]> |>).
Proof.
  intros Hd Hid Hz. apply (ledger_ok_new d _ "loan" id (LoanAcc l) "debit"); try done.
  - intros acc s. inversion 1; simplify_eq.
  - by left.
  - intros ty j acc side. split.
    + destruct 1 as [j b H|j b H|j b H]; simpl in H; [left; by constructor|left; by constructor|].
      apply lookup_insert_Some in H as [[-> ->]|[_ H]]; [by right|left; by constructor].
    + intros [H|(-> & -> & -> & ->)]; [|apply at_loan; simpl; apply lookup_insert_eq].
      destruct H; constructor; simpl; try done. rewrite lookup_insert_ne; [done|congruence].
  - unfold debit_side, internal_total. simpl. rewrite map_sum_insert_new by done. lia.
Qed.

Lemma ledger_ok_new_internal d id a :
  ledger_ok d -> internal_accounts d !! id = None -> ia_balance_cached a = 0 ->
  (normal_balance_side a = "debit" \/ normal_balance_side a = "credit") ->
  ledger_ok (d <| internal_accounts ::= <[id := a]> |>).
Proof.
  intros Hd Hid Hz Hs.
  apply (ledger_ok_new d _ "internal_account" id (InternalAcc a) (normal_balance_side a)); try done.
  - intros acc s. inversion 1; simplify_eq.
  - intros ty j acc side. split.
    + destruct 1 as [j b H|j b H|j b H]; simpl in H; [|left; by constructor|left; by constructor].
      apply lookup_insert_Some in H as [[-> ->]|[_ H]]; [by right|left; by constructor].
    + intros [H|(-> & -> & -> & ->)]; [|apply at_internal; simpl; apply lookup_insert_eq].
      destruct H; constructor; simpl; try done. rewrite lookup_insert_ne; [done|congruence].
  - unfold debit_side, internal_total. simpl. rewrite map_sum_insert_new by done.
    unfold on_side. case_match; lia.
  - unfold credit_side, internal_total. simpl. rewrite map_sum_insert_new by done.
    unfold on_side. case_match; lia.
Qed.

Lemma ledger_ok_empty : ledger_ok empty_tenant.
Proof.
  assert (forall ty id acc side, ~ account_at empty_tenant ty id acc side) as Hn.
  { intros ty id acc side. destruct 1 as [j b H|j b H|j b H]; done. }
  split; try done.
  - intros ty id acc side H. by destruct (Hn _ _ _ _ H).
  - intros e H. by apply elem_of_nil in H.
  - intros e H. by apply elem_of_nil in H.
Qed.

(** An institution with its cash account, one customer account and one loan. *)
Definition example_books : TenantDb :=
  empty_tenant
    <| internal_accounts ::= <[1%positive := mkInternalAccount "Cash Vault" "debit" 0]> |>
    <| savings_accounts ::= <[7%positive := mkSavingsAccount 3 4 "SAV-1" SA_ACTIVE 0]> |>
    <| loans ::= <[9%positive := mkLoan 3 5 100000 12 APPROVED None None None None None 0]> |>.

Lemma example_books_ok : ledger_ok example_books.
Proof.
  unfold example_books.
  apply ledger_ok_new_loan; [|done..].
  apply ledger_ok_new_savings; [|done..].
  apply ledger_ok_new_internal; [apply ledger_ok_empty|done|done|by left].
Qed.

Definition example_deposit : list LedgerLine :=
  [mkLedgerLine "internal_account" 1 DEBIT 500; mkLedgerLine "savings_account" 7 CREDIT 500].

(** The accounts after a posting are the accounts before it. *)
Lemma forget_account_at d t ty id acc side :
  forget_books t = forget_books d -> account_at d ty id acc side ->
  exists acc', account_at t ty id acc' side.
Proof.
  intros E [j a H|j a H|j l H].
  - apply (f_equal internal_accounts) in E.
    destruct (lookup_fmap_eq _ _ _ _ _ E H) as (w & Hw & Eq). exists (InternalAcc w).
    apply at_internal_side; [done|]. by apply (f_equal normal_balance_side) in Eq.
  - apply (f_equal savings_accounts) in E.
    destruct (lookup_fmap_eq _ _ _ _ _ E H) as (w & Hw & Eq). exists (SavingsAcc w). by constructor.
  - apply (f_equal loans) in E.
    destruct (lookup_fmap_eq _ _ _ _ _ E H) as (w & Hw & Eq). exists (LoanAcc w). by constructor.
Qed.

Lemma fresh_posting_effect id type key lines desc d t ty aid acc side :
  fresh_posting id type key lines desc d t -> ledger_ok d -> account_at d ty aid acc side ->
  exists acc', account_at t ty aid acc' side /\
    balance_field acc' = balance_field acc
      + signed_total side (entries_of ty aid (line_entry id <$> lines)).
Proof.
  intros Hp Hd Hat. pose proof (fresh_posting_ok _ _ _ _ _ _ _ Hp Hd) as Ht.
  destruct (forget_account_at _ _ _ _ _ _ (fp_forget _ _ _ _ _ _ _ Hp) Hat) as [acc' H'].
  exists acc'. split; [done|].
  rewrite (ok_cached _ Ht _ _ _ _ H'), (ok_cached _ Hd _ _ _ _ Hat).
  by rewrite (fp_entries _ _ _ _ _ _ _ Hp), entries_of_app, signed_total_app.
Qed.

Lemma fresh_posting_savings tx type key lines desc d t id a' :
  fresh_posting tx type key lines desc d t -> ledger_ok d -> savings_accounts t !! id = Some a' ->
  exists a, savings_accounts d !! id = Some a /\
    a' = a <| sa_balance_cached ::= fun b => b +
      signed_total "credit" (entries_of "savings_account" id (line_entry tx <$> lines)) |>.
Proof.
  intros Hp Hd Ha'.
  destruct (forget_savings t d id a' (eq_sym (fp_forget _ _ _ _ _ _ _ Hp)) Ha') as (a & Ha & E).
  exists a. split; [done|].
  destruct (fresh_posting_effect _ _ _ _ _ _ _ _ _ _ _ Hp Hd (at_savings d id a Ha))
    as (acc' & H' & Hb).
  destruct (account_at_fun _ _ _ _ _ _ _ H' (at_savings t id a' Ha')) as [-> _].
  destruct a, a'; simplify_eq/=. done.
Qed.

Lemma fresh_posting_loan tx type key lines desc d t id l' :
  fresh_posting tx type key lines desc d t -> ledger_ok d -> loans t !! id = Some l' ->
  exists l, loans d !! id = Some l /\
    l' = l <| outstanding_principal ::= fun b => b +
      signed_total "debit" (entries_of "loan" id (line_entry tx <$> lines)) |>.
Proof.
  intros Hp Hd Hl'.
  destruct (forget_loan t d id l' (eq_sym (fp_forget _ _ _ _ _ _ _ Hp)) Hl') as (l & Hl & E).
  exists l. split; [done|].
  destruct (fresh_posting_effect _ _ _ _ _ _ _ _ _ _ _ Hp Hd (at_loan d id l Hl))
    as (acc' & H' & Hb).
  destruct (account_at_fun _ _ _ _ _ _ _ H' (at_loan t id l' Hl')) as [-> _].
  destruct l, l'. simpl in *. inversion E; subst. done.
Qed.

Lemma fresh_posting_internal tx type key lines desc d t id a :
  fresh_posting tx type key lines desc d t -> ledger_ok d -> internal_accounts d !! id = Some a ->
  internal_accounts t !! id = Some (a <| ia_balance_cached ::= fun b => b +
    signed_total (normal_balance_side a)
       (entries_of "internal_account" id (line_entry tx <$> lines)) |>).
Proof.
  intros Hp Hd Ha.
  pose proof (f_equal internal_accounts (fp_forget _ _ _ _ _ _ _ Hp)) as E.
  destruct (lookup_fmap_eq _ _ _ _ _ E Ha) as (a' & Ha' & Ea).
  destruct (fresh_posting_effect _ _ _ _ _ _ _ _ _ _ _ Hp Hd (at_internal d id a Ha))
    as (acc' & H' & Hb).
  destruct (account_at_fun _ _ _ _ _ _ _ H' (at_internal t id a' Ha')) as [-> _].
  rewrite Ha'. destruct a, a'; simplify_eq/=. done.
Qed.

(** The effect of a list of lines on one account, line by line. *)
Lemma effect_nil side ty id tx : signed_total side (entries_of ty id (line_entry tx <$> [])) = 0.
Proof. done. Qed.

Lemma effect_cons side ty id tx l ls :
  signed_total side (entries_of ty id (line_entry tx <$> (l :: ls))) =
  (if decide ((ty, id) = (account_type l, account_id l)) then sign_of (direction l) side * amount l else 0)
  + signed_total side (entries_of ty id (line_entry tx <$> ls)).
Proof.
  change (line_entry tx <$> l :: ls) with ([line_entry tx l] ++ (line_entry tx <$> ls)).
  by rewrite entries_of_app, signed_total_app, signed_total_one.
Qed.

Lemma post_transaction_repeat id type key lines desc d t tx :
  post_transaction id type key lines desc d = (t, Ret tx) ->
  forall id' type' lines' desc', post_transaction id' type' key lines' desc' t = (t, Ret tx).
Proof.
  intros H id' type' lines' desc'. assert (exists row, key_rows key t = [(tx, row)]) as [row Hr].
  { apply post_transaction_run in H as [(-> & ?)|[-> [Hb Hk Hid Ht _ _ _ _ _]]]; [done|].
    eexists. apply select_singleton.
    - rewrite Ht. apply lookup_insert_eq.
    - simpl. by rewrite bool_decide_eq_true.
    - rewrite Ht. intros k' v' [[<- _]|[_ Hl]]%lookup_insert_Some; [done|].
      rewrite bool_decide_eq_true. intros E. rewrite key_fresh_iff in Hk. by destruct (Hk _ _ Hl). }
  unfold post_transaction. rewrite bind_Ret. exists t, (transactions t). split; [done|].
  rewrite bind_Ret. exists t, (Some (tx, row)). split; [|done].
  apply scalar_one_or_none_Ret. split; [done|exact Hr].
Qed.

(** ** Properties *)

(** Posting a transaction, as a request does it (rolled back if it raises),
    keeps the whole ledger invariant: every cached balance is the signed sum of
    the account's entries, every transaction's entries balance at its amount,
    idempotency keys are unique, and the debit side of the books equals the
    credit side. *)
Theorem post_transaction_keeps_books (id : uuid) (type key : string) (lines : list LedgerLine)
    (desc : option string) (d : TenantDb) :
  ledger_ok d -> ledger_ok (atomic (post_transaction id type key lines desc) d).1.
Proof.
  apply keeps_atomic. intros s t tx. apply post_transaction_keeps.
Qed.

Lemma post_transaction_keeps_books_witness :
  ledger_ok example_books /\
  ledger_ok (atomic (post_transaction 20 "deposit" "k" example_deposit None) example_books).1.
Proof.
  split; [apply example_books_ok|].
  apply (post_transaction_keeps_books 20 "deposit" "k" example_deposit None example_books).
  apply example_books_ok.
Defined.



(** C8. Once a posting under a key has returned, every further posting under that
    key, whatever its lines, returns the same transaction and changes nothing. *)
Theorem post_transaction_exactly_once (id id' : uuid) (type type' key : string)
    (lines lines' : list LedgerLine) (desc desc' : option string) (d t : TenantDb) (tx : uuid) :
  post_transaction id type key lines desc d = (t, Ret tx) ->
  post_transaction id' type' key lines' desc' t = (t, Ret tx).
Proof. intros H. by eapply post_transaction_repeat. Qed.

Lemma post_transaction_exactly_once_witness :
  let r := post_transaction 20 "deposit" "k" example_deposit None example_books in
  post_transaction 21 "withdrawal" "k" [] None r.1 = (r.1, Ret 20%positive).
Proof.
  apply (post_transaction_exactly_once 20 21 "deposit" "withdrawal" "k" example_deposit []
           None None example_books). reflexivity.
Defined.

(** An unbalanced posting under a new key is refused before anything is
    written. *)
Theorem post_transaction_unbalanced (id : uuid) (type key : string) (lines : list LedgerLine)
    (desc : option string) (d : TenantDb) :
  key_fresh key d -> total_in DEBIT lines <> total_in CREDIT lines ->
  post_transaction id type key lines desc d = (d, Exc AssertionError).
Proof.
  intros Hk Hb. unfold post_transaction.
  rewrite bind_Exc. right. exists d, (transactions d). split; [done|].
  rewrite bind_Exc. right. exists d, None. split.
  { apply scalar_one_or_none_Ret. split; [done|apply Hk]. }
  rewrite bind_Exc. left. apply require_Exc. rewrite Z.eqb_neq. done.
Qed.

Lemma post_transaction_unbalanced_witness :
  post_transaction 20 "deposit" "k" [mkLedgerLine "savings_account" 7 CREDIT 500] None example_books
  = (example_books, Exc AssertionError).
Proof. apply (post_transaction_unbalanced 20 "deposit" "k"); [reflexivity|discriminate]. Defined.

(** On a ledger that satisfies the invariant, recomputing any account's
    balance from its entries gives the cached balance, and changes nothing. *)
Theorem reconcile_balance_cached (ty : string) (id : uuid) (d : TenantDb) (acc : account) (side : string) :
  ledger_ok d -> account_at d ty id acc side ->
  reconcile_balance ty id d = (d, Ret (balance_field acc)).
Proof.
  intros Hd Hat. rewrite (reconcile_balance_run _ _ _ _ _ Hat). by rewrite <- (ok_cached _ Hd _ _ _ _ Hat).
Qed.

Lemma reconcile_balance_cached_witness :
  let t := (post_transaction 20 "deposit" "k" example_deposit None example_books).1 in
  reconcile_balance "savings_account" 7 t = (t, Ret 500).
Proof.
  apply (reconcile_balance_cached "savings_account" 7
    (post_transaction 20 "deposit" "k" example_deposit None example_books).1
    (SavingsAcc (mkSavingsAccount 3 4 "SAV-1" SA_ACTIVE 500)) "credit").
  - apply (post_transaction_keeps 20 "deposit" "k" example_deposit None example_books _ 20%positive);
      [reflexivity|apply example_books_ok].
  - apply at_savings. reflexivity.
Defined.
