(* ===== verification/Savings.v ===== *)
(** * Savings accounts: [microfinance/mf_app/services/savings.py]

    The services receive ORM objects of the session; here they receive the row's
    key and read the object where the code reads an attribute of it ([deref]). *)

From S2P Require Import Prelude PyStd Amortization Tenant Ledger.

(** ** Model *)

(** An attribute access on an object of the session. *)
Definition deref {V} (table : TenantDb -> gmap uuid V) (id : uuid) : M TenantDb V :=
  o ← db_get table id; some_or o AttributeError.

Definition named (name : string) (a : InternalAccount) : bool := bool_decide (ia_name a = name).

Definition get_internal_account (name : string) : M TenantDb uuid :=
  accounts ← gets internal_accounts;
  account ← scalar_one_or_none (select (named name) accounts);
  kv ← some_or account RuntimeError;
  mret kv.1.

Definition get_cash_account : M TenantDb uuid := get_internal_account "cash".

Definition deposit (tx : uuid) (account : uuid) (amount : money) (idempotency_key : string)
    (description : option string) : M TenantDb uuid :=
  a ← deref savings_accounts account;
  require (bool_decide (sa_status a = SA_ACTIVE)) AccountNotActiveError;;
  cash ← get_cash_account;
  post_transaction tx "deposit" idempotency_key
    [mkLedgerLine "internal_account" cash DEBIT amount;
     mkLedgerLine "savings_account" account CREDIT amount] description.

Definition withdraw (tx : uuid) (account : uuid) (amount : money) (idempotency_key : string)
    (description : option string) : M TenantDb uuid :=
  a ← deref savings_accounts account;
  require (bool_decide (sa_status a = SA_ACTIVE)) AccountNotActiveError;;
  require (negb (sa_balance_cached a <? amount)) InsufficientFundsError;;
  cash ← get_cash_account;
  post_transaction tx "withdrawal" idempotency_key
    [mkLedgerLine "savings_account" account DEBIT amount;
     mkLedgerLine "internal_account" cash CREDIT amount] description.

(** [if not idempotency_key: raise MissingIdempotencyKeyError] *)
Definition truthy (s : option string) : option string :=
  match s with Some EmptyString => None | _ => s end.

(** [db.add(SavingsAccount(...)); db.flush()]: the column defaults are an active
    account with no balance; the account number is unique.  [id] is the key drawn
    for the row and [number] the result of [generate_account_number]. *)
Definition insert_savings_account (id : uuid) (customer product : uuid) (number : string) :
    M TenantDb unit :=
  accounts ← gets savings_accounts;
  require (bool_decide (accounts !! id = None)) IntegrityError;;
  require (bool_decide (rows (fun a => bool_decide (account_number a = number)) accounts = []))
    IntegrityError;;
  modify (fun d => d <| savings_accounts ::=
    <[id := mkSavingsAccount customer product number SA_ACTIVE 0]> |>);;
  flush.

Definition open_savings_account (id tx : uuid) (number : string) (customer product : uuid)
    (opening_deposit : money) (idempotency_key : option string) : M TenantDb uuid :=
  c ← deref customers customer;
  require (bool_decide (kyc_status c = VERIFIED)) CustomerNotVerifiedError;;
  p ← deref savings_products product;
  require (negb (opening_deposit <? min_opening_balance p)) BelowMinimumOpeningBalanceError;;
  insert_savings_account id customer product number;;
  (if 0 <? opening_deposit then
     key ← some_or (truthy idempotency_key) MissingIdempotencyKeyError;
     deposit tx id opening_deposit key (Some "Opening deposit");;
     mret tt
   else mret tt);;
  mret id.

(** ** Runs *)

#[export] Instance SavingsAccount_eq_dec : EqDecision SavingsAccount.
Proof. solve_decision. Defined.

Lemma deref_run {V} (table : TenantDb -> gmap uuid V) id d t v :
  deref table id d = (t, Ret v) <-> t = d /\ table d !! id = Some v.
Proof.
  unfold deref, db_get. split.
  - intros H. minv. done.
  - intros [-> H]. rewrite bind_Ret. exists d, (Some v). by rewrite gets_Ret, some_or_Ret.
Qed.

(** [cash_is d cash]: [cash] is the one account named "cash". *)
Definition internal_is (name : string) (d : TenantDb) (id : uuid) : Prop :=
  exists a, select (named name) (internal_accounts d) = [(id, a)].

Lemma get_internal_account_run name d t id :
  get_internal_account name d = (t, Ret id) <-> t = d /\ internal_is name d id.
Proof.
  unfold get_internal_account, internal_is. split.
  - intros H. minv.
    match goal with x : uuid * InternalAccount |- _ => destruct x end. eauto.
  - intros (-> & a & H). rewrite bind_Ret. exists d, (internal_accounts d). split; [done|].
    rewrite bind_Ret. exists d, (Some (id, a)). split; [by apply scalar_one_or_none_Ret|]. done.
Qed.

Lemma internal_is_lookup name d id :
  internal_is name d id -> exists a, internal_accounts d !! id = Some a /\ ia_name a = name.
Proof.
  intros [a H]. assert ((id, a) ∈ select (named name) (internal_accounts d)) as Hin
    by (rewrite H; left).
  apply elem_of_select in Hin as [? Hn%bool_decide_eq_true]. eauto.
Qed.

Lemma internal_is_unique name d id id' : internal_is name d id -> internal_is name d id' -> id = id'.
Proof. intros [a H] [a' H']. congruence. Qed.

Lemma pres_deref {V} I (table : TenantDb -> gmap uuid V) id : pres I (deref table id).
Proof. unfold deref, db_get. pres_go. Qed.
Lemma pres_get_internal_account I name : pres I (get_internal_account name).
Proof. unfold get_internal_account. pres_go. Qed.
#[export] Hint Resolve pres_deref pres_get_internal_account : pres.

Definition deposit_lines (cash account : uuid) (amount : money) : list LedgerLine :=
  [mkLedgerLine "internal_account" cash DEBIT amount; mkLedgerLine "savings_account" account CREDIT amount].
Definition withdraw_lines (cash account : uuid) (amount : money) : list LedgerLine :=
  [mkLedgerLine "savings_account" account DEBIT amount; mkLedgerLine "internal_account" cash CREDIT amount].

Lemma deposit_run tx account amount key desc d t r :
  deposit tx account amount key desc d = (t, Ret r) <->
  exists a cash, savings_accounts d !! account = Some a /\ sa_status a = SA_ACTIVE /\
    internal_is "cash" d cash /\
    post_transaction tx "deposit" key (deposit_lines cash account amount) desc d = (t, Ret r).
Proof.
  unfold deposit, get_cash_account. split.
  - intros (? & a & [-> Ha]%deref_run & H)%bind_Ret.
    apply bind_Ret in H as (? & ? & [Hs%bool_decide_eq_true ->]%require_Ret & H).
    apply bind_Ret in H as (? & cash & [-> Hc]%get_internal_account_run & H). eauto 7.
  - intros (a & cash & Ha & Hs & Hc & H).
    rewrite bind_Ret. exists d, a. rewrite deref_run. split; [done|].
    rewrite bind_Ret. exists d, tt. rewrite require_Ret, bool_decide_eq_true. split; [done|].
    rewrite bind_Ret. exists d, cash. by rewrite get_internal_account_run.
Qed.

Lemma withdraw_run tx account amount key desc d t r :
  withdraw tx account amount key desc d = (t, Ret r) <->
  exists a cash, savings_accounts d !! account = Some a /\ sa_status a = SA_ACTIVE /\
    amount <= sa_balance_cached a /\ internal_is "cash" d cash /\
    post_transaction tx "withdrawal" key (withdraw_lines cash account amount) desc d = (t, Ret r).
Proof.
  unfold withdraw, get_cash_account. split.
  - intros (? & a & [-> Ha]%deref_run & H)%bind_Ret.
    apply bind_Ret in H as (? & ? & [Hs%bool_decide_eq_true ->]%require_Ret & H).
    apply bind_Ret in H as (? & ? & [Hf ->]%require_Ret & H).
    apply bind_Ret in H as (? & cash & [-> Hc]%get_internal_account_run & H).
    apply negb_true_iff, Z.ltb_ge in Hf. eauto 8.
  - intros (a & cash & Ha & Hs & Hf & Hc & H).
    rewrite bind_Ret. exists d, a. rewrite deref_run. split; [done|].
    rewrite bind_Ret. exists d, tt. rewrite require_Ret, bool_decide_eq_true. split; [done|].
    rewrite bind_Ret. exists d, tt. rewrite require_Ret, negb_true_iff, Z.ltb_ge. split; [done|].
    rewrite bind_Ret. exists d, cash. by rewrite get_internal_account_run.
Qed.

Lemma deposit_keeps tx account amount key desc : keeps ledger_ok (deposit tx account amount key desc).
Proof.
  intros d t r (a & cash & _ & _ & _ & H)%deposit_run Hd. by eapply post_transaction_keeps.
Qed.

Lemma withdraw_keeps tx account amount key desc : keeps ledger_ok (withdraw tx account amount key desc).
Proof.
  intros d t r (a & cash & _ & _ & _ & _ & H)%withdraw_run Hd. by eapply post_transaction_keeps.
Qed.

Lemma flush_books d : same_books d (flush d).1.
Proof. by split. Qed.

Lemma keeps_flush : keeps ledger_ok flush.
Proof. intros d t u H. rewrite flush_run in H. simplify_eq. apply same_books_ok. by split. Qed.

Lemma insert_savings_account_run id customer product number d t u :
  insert_savings_account id customer product number d = (t, Ret u) ->
  savings_accounts d !! id = None /\
  t = d <| savings_accounts ::= <[id := mkSavingsAccount customer product number SA_ACTIVE 0]> |>
        <| schedule_lines_flushed := schedule_lines d |>.
Proof.
  unfold insert_savings_account. intros H. minv.
  match goal with H : bool_decide (_ = None) = true |- _ => apply bool_decide_eq_true in H end.
  rewrite flush_run in *. by simplify_eq.
Qed.

Lemma insert_savings_account_keeps id customer product number :
  keeps ledger_ok (insert_savings_account id customer product number).
Proof.
  intros d t u [Hn ->]%insert_savings_account_run Hd.
  apply (same_books_ok (d <| savings_accounts ::= <[id := mkSavingsAccount customer product number SA_ACTIVE 0]> |>));
    [by split|]. by apply ledger_ok_new_savings.
Qed.
#[export] Hint Resolve deposit_keeps withdraw_keeps keeps_flush insert_savings_account_keeps : pres.

Lemma open_savings_account_keeps id tx number customer product amount key :
  keeps ledger_ok (open_savings_account id tx number customer product amount key).
Proof. unfold open_savings_account. keeps_go. Qed.
#[export] Hint Resolve open_savings_account_keeps : pres.

(** ** The effect on balances *)

Lemma deposit_effect_savings tx cash account amount id :
  signed_total "credit" (entries_of "savings_account" id (line_entry tx <$> deposit_lines cash account amount))
  = if decide (id = account) then amount else 0.
Proof.
  unfold deposit_lines. rewrite !effect_cons, effect_nil. simpl.
  repeat case_decide; simplify_eq; unfold sign_of; simpl; try done; lia.
Qed.

Lemma withdraw_effect_savings tx cash account amount id :
  signed_total "credit" (entries_of "savings_account" id (line_entry tx <$> withdraw_lines cash account amount))
  = if decide (id = account) then - amount else 0.
Proof.
  unfold withdraw_lines. rewrite !effect_cons, effect_nil. simpl.
  repeat case_decide; simplify_eq; unfold sign_of; simpl; try done; lia.
Qed.

Lemma deposit_effect_internal tx cash account amount id side :
  signed_total side (entries_of "internal_account" id (line_entry tx <$> deposit_lines cash account amount))
  = if decide (id = cash) then sign_of DEBIT side * amount else 0.
Proof.
  unfold deposit_lines. rewrite !effect_cons, effect_nil. simpl.
  repeat case_decide; simplify_eq; lia.
Qed.

Lemma withdraw_effect_internal tx cash account amount id side :
  signed_total side (entries_of "internal_account" id (line_entry tx <$> withdraw_lines cash account amount))
  = if decide (id = cash) then sign_of CREDIT side * amount else 0.
Proof.
  unfold withdraw_lines. rewrite !effect_cons, effect_nil. simpl.
  repeat case_decide; simplify_eq; lia.
Qed.

(** No customer account is ever overdrawn. *)
Definition no_overdraft (d : TenantDb) : Prop :=
  forall id a, savings_accounts d !! id = Some a -> 0 <= sa_balance_cached a.

Definition sound (d : TenantDb) : Prop := ledger_ok d /\ no_overdraft d.

Lemma deposit_sound tx account amount key desc :
  0 <= amount -> keeps sound (deposit tx account amount key desc).
Proof.
  intros Ha d t r H [Hd Hn]. split; [by eapply deposit_keeps|].
  apply deposit_run in H as (a & cash & _ & _ & _ & H).
  apply post_transaction_run in H as [[-> _]|[_ Hp]]; [done|].
  intros id b Hb. destruct (fresh_posting_savings _ _ _ _ _ _ _ _ _ Hp Hd Hb) as (b0 & Hb0 & ->).
  specialize (Hn _ _ Hb0). rewrite deposit_effect_savings. simpl. case_decide; lia.
Qed.

Lemma withdraw_sound tx account amount key desc : keeps sound (withdraw tx account amount key desc).
Proof.
  intros d t r H [Hd Hn]. split; [by eapply withdraw_keeps|].
  apply withdraw_run in H as (a & cash & Ha & _ & Hle & _ & H).
  apply post_transaction_run in H as [[-> _]|[_ Hp]]; [done|].
  intros id b Hb. destruct (fresh_posting_savings _ _ _ _ _ _ _ _ _ Hp Hd Hb) as (b0 & Hb0 & ->).
  specialize (Hn _ _ Hb0). rewrite withdraw_effect_savings. simpl. case_decide; simplify_eq; lia.
Qed.

Lemma insert_savings_account_sound id customer product number :
  keeps sound (insert_savings_account id customer product number).
Proof.
  intros d t u H [Hd Hn]. split; [by eapply insert_savings_account_keeps|].
  apply insert_savings_account_run in H as [_ ->].
  intros j a Hj. simpl in Hj. apply lookup_insert_Some in Hj as [[<- <-]|[_ Hj]]; [done|by eapply Hn].
Qed.
#[export] Hint Resolve deposit_sound withdraw_sound insert_savings_account_sound : pres.

Lemma open_savings_account_sound id tx number customer product amount key :
  keeps sound (open_savings_account id tx number customer product amount key).
Proof.
  unfold open_savings_account. keeps_go.
  apply deposit_sound. match goal with H : (0 <? _) = true |- _ => apply Z.ltb_lt in H end. lia.
Qed.
#[export] Hint Resolve open_savings_account_sound : pres.

Lemma same_books_sound d t : same_books d t -> sound d -> sound t.
Proof.
  intros Hs [Hd Hn]. split; [by eapply same_books_ok|]. intros id a Ha.
  destruct (lookup_fmap_eq _ _ _ _ _ (eq_sym (sb_savings _ _ Hs)) Ha) as (b & Hb & <-). by eapply Hn.
Qed.

Lemma keeps_flush_sound : keeps sound flush.
Proof. intros d t u H. rewrite flush_run in H. simplify_eq. apply same_books_sound. by split. Qed.

(** A posting that touches no customer account cannot overdraw one. *)
Lemma no_effect ty id side tx lines :
  Forall (fun l => account_type l <> ty) lines ->
  signed_total side (entries_of ty id (line_entry tx <$> lines)) = 0.
Proof.
  induction 1 as [|l ls Hn Hls IH]; [done|]. by rewrite effect_cons, IH, decide_False by congruence.
Qed.

Lemma post_transaction_sound tx type key lines desc :
  Forall (fun l => account_type l <> "savings_account") lines ->
  keeps sound (post_transaction tx type key lines desc).
Proof.
  intros Hl d t r H [Hd Hn]. split; [by eapply post_transaction_keeps|].
  apply post_transaction_run in H as [[-> _]|[_ Hp]]; [done|].
  intros id b Hb. destruct (fresh_posting_savings _ _ _ _ _ _ _ _ _ Hp Hd Hb) as (b0 & Hb0 & ->).
  rewrite no_effect by done. specialize (Hn _ _ Hb0). simpl. lia.
Qed.
#[export] Hint Resolve keeps_flush_sound : pres.

(** ** What the customer sees *)

Definition balance_of (d : TenantDb) (id : uuid) : option money :=
  sa_balance_cached <$> savings_accounts d !! id.
Definition cash_balance (d : TenantDb) (id : uuid) : option money :=
  ia_balance_cached <$> internal_accounts d !! id.

(** A request is ready to be booked: the account is active, there is one cash
    account, of the debit side, and neither the key nor the transaction id is in use. *)
Record bookable (d : TenantDb) (tx account cash : uuid) (key : string) : Prop := {
  bk_active : exists a, savings_accounts d !! account = Some a /\ sa_status a = SA_ACTIVE;
  bk_cash : internal_is "cash" d cash;
  bk_side : normal_balance_side <$> internal_accounts d !! cash = Some "debit";
  bk_key : key_fresh key d;
  bk_tx : transactions d !! tx = None;
}.

Lemma bookable_accounts d tx account cash key :
  bookable d tx account cash key ->
  exists a c, savings_accounts d !! account = Some a /\ sa_status a = SA_ACTIVE /\
    internal_accounts d !! cash = Some c /\ normal_balance_side c = "debit".
Proof.
  intros [(a & Ha & Hs) _ Hc _ _]. destruct (internal_accounts d !! cash) as [c|] eqn:E; [|done].
  injection Hc as Hc. eauto 6.
Qed.


Lemma bookable_deposit_accounts d tx account cash key amount :
  bookable d tx account cash key -> Forall (account_exists d) (deposit_lines cash account amount).
Proof.
  intros (a & c & Ha & _ & Hc & _)%bookable_accounts.
  repeat constructor; eexists _, _; by constructor.
Qed.

Lemma bookable_withdraw_accounts d tx account cash key amount :
  bookable d tx account cash key -> Forall (account_exists d) (withdraw_lines cash account amount).
Proof.
  intros (a & c & Ha & _ & Hc & _)%bookable_accounts.
  repeat constructor; eexists _, _; by constructor.
Qed.

(** What a booked deposit ([amount] up) or withdrawal ([amount] down) leaves. *)
Record booked (d t : TenantDb) (tx : uuid) (key : string) (account cash : uuid) (delta : money) :
    Prop := {
  bd_ok : ledger_ok t;
  bd_savings : forall id, balance_of t id =
    (fun b => if decide (id = account) then b + delta else b) <$> balance_of d id;
  bd_internal : forall id, cash_balance t id =
    (fun b => if decide (id = cash) then b + delta else b) <$> cash_balance d id;
  bd_loans : outstanding_principal <$> loans t = outstanding_principal <$> loans d;
  bd_status : sa_status <$> savings_accounts t = sa_status <$> savings_accounts d;
  bd_sides : normal_balance_side <$> internal_accounts t = normal_balance_side <$> internal_accounts d;
  bd_transaction : exists row, idempotency_key row = key /\
    transactions t = <[tx := row]> (transactions d);
  bd_names : ia_name <$> internal_accounts t = ia_name <$> internal_accounts d;
}.

Lemma fresh_posting_kept tx type key lines desc d t :
  fresh_posting tx type key lines desc d t ->
  sa_status <$> savings_accounts t = sa_status <$> savings_accounts d /\
  normal_balance_side <$> internal_accounts t = normal_balance_side <$> internal_accounts d /\
  ia_name <$> internal_accounts t = ia_name <$> internal_accounts d.
Proof.
  intros Hp. pose proof (fp_forget _ _ _ _ _ _ _ Hp) as E.
  set (zs := fun a : SavingsAccount => a <| sa_balance_cached := 0 |>).
  set (zi := fun a : InternalAccount => a <| ia_balance_cached := 0 |>).
  assert (zs <$> savings_accounts t = zs <$> savings_accounts d) as Es by exact (f_equal savings_accounts E).
  assert (zi <$> internal_accounts t = zi <$> internal_accounts d) as Ei by exact (f_equal internal_accounts E).
  split; [|split].
  - change sa_status with (sa_status ∘ zs). by rewrite !map_fmap_compose, Es.
  - change normal_balance_side with (normal_balance_side ∘ zi). by rewrite !map_fmap_compose, Ei.
  - change ia_name with (ia_name ∘ zi). by rewrite !map_fmap_compose, Ei.
Qed.

Lemma fresh_posting_loans_kept tx type key lines desc d t :
  fresh_posting tx type key lines desc d t -> ledger_ok d ->
  Forall (fun l => account_type l <> "loan") lines ->
  outstanding_principal <$> loans t = outstanding_principal <$> loans d.
Proof.
  intros Hp Hd Hl. apply map_eq. intros id. rewrite !lookup_fmap.
  pose proof (no_effect "loan" id "debit" tx lines Hl) as Hz.
  destruct (loans t !! id) as [l'|] eqn:E'.
  - destruct (fresh_posting_loan _ _ _ _ _ _ _ _ _ Hp Hd E') as (l & -> & ->).
    rewrite Hz. simpl. f_equal. lia.
  - destruct (loans d !! id) as [l|] eqn:El; [|done].
    destruct (forget_loan d t id l (fp_forget _ _ _ _ _ _ _ Hp) El) as (l' & ? & _). congruence.
Qed.

Lemma fresh_posting_balance tx type key lines desc d t id :
  fresh_posting tx type key lines desc d t -> ledger_ok d ->
  balance_of t id = (fun b => b + signed_total "credit"
    (entries_of "savings_account" id (line_entry tx <$> lines))) <$> balance_of d id.
Proof.
  intros Hp Hd. unfold balance_of. destruct (savings_accounts t !! id) as [a'|] eqn:E'.
  - destruct (fresh_posting_savings _ _ _ _ _ _ _ _ _ Hp Hd E') as (a & -> & ->). done.
  - destruct (savings_accounts d !! id) as [a|] eqn:Ea; [|done].
    destruct (forget_savings d t id a (fp_forget _ _ _ _ _ _ _ Hp) Ea) as (a' & ? & _). congruence.
Qed.

Lemma fresh_posting_cash tx type key lines desc d t id :
  fresh_posting tx type key lines desc d t -> ledger_ok d ->
  cash_balance t id = a ← internal_accounts d !! id;
    Some (ia_balance_cached a + signed_total (normal_balance_side a)
            (entries_of "internal_account" id (line_entry tx <$> lines))).
Proof.
  intros Hp Hd. unfold cash_balance. destruct (internal_accounts d !! id) as [a|] eqn:Ea.
  - by rewrite (fresh_posting_internal _ _ _ _ _ _ _ _ _ Hp Hd Ea).
  - destruct (internal_accounts t !! id) as [a'|] eqn:E'; [|done].
    pose proof (f_equal internal_accounts (eq_sym (fp_forget _ _ _ _ _ _ _ Hp))) as E.
    destruct (lookup_fmap_eq _ _ _ _ _ E E') as (a & ? & _). congruence.
Qed.

Lemma booked_intro tx type key lines desc d t account cash delta :
  fresh_posting tx type key lines desc d t -> ledger_ok d ->
  normal_balance_side <$> internal_accounts d !! cash = Some "debit" ->
  Forall (fun l => account_type l <> "loan") lines ->
  (forall id, signed_total "credit" (entries_of "savings_account" id (line_entry tx <$> lines))
     = if decide (id = account) then delta else 0) ->
  (forall id side, (id = cash -> side = "debit") ->
     signed_total side (entries_of "internal_account" id (line_entry tx <$> lines))
     = if decide (id = cash) then delta else 0) ->
  booked d t tx key account cash delta.
Proof.
  intros Hp Hd Hc Hl Hs Hi. destruct (fresh_posting_kept _ _ _ _ _ _ _ Hp) as (K1 & K2 & K3).
  split; try done.
  - by eapply fresh_posting_ok.
  - intros id. rewrite (fresh_posting_balance _ _ _ _ _ _ _ _ Hp Hd), Hs.
    destruct (balance_of d id); simpl; [|done]. f_equal. case_decide; lia.
  - intros id. rewrite (fresh_posting_cash _ _ _ _ _ _ _ _ Hp Hd). unfold cash_balance.
    destruct (internal_accounts d !! id) as [a|] eqn:Ea; [|done]. simpl. rewrite Hi.
    + f_equal. case_decide; lia.
    + intros ->. rewrite Ea in Hc. by injection Hc.
  - by eapply fresh_posting_loans_kept.
  - eexists. split; [|exact (fp_transactions _ _ _ _ _ _ _ Hp)]. done.
Qed.

Lemma deposit_booked d tx account cash key amount desc :
  ledger_ok d -> bookable d tx account cash key ->
  exists t, deposit tx account amount key desc d = (t, Ret tx) /\ booked d t tx key account cash amount.
Proof.
  intros Hd Hb. destruct (bookable_accounts _ _ _ _ _ Hb) as (a & c & Ha & Hs & Hc & Hside).
  destruct (post_transaction_returns tx "deposit" key (deposit_lines cash account amount) desc d)
    as [t Ht]; [apply Hb|apply Hb| |by eapply bookable_deposit_accounts|].
  { reflexivity. }
  exists t. split; [apply deposit_run; exists a, cash; split_and!; try done; apply Hb|].
  destruct (post_transaction_run _ _ _ _ _ _ _ _ Ht) as [(_ & row & Hr)|[_ Hp]].
  { by rewrite (bk_key _ _ _ _ _ Hb) in Hr. }
  eapply booked_intro; [exact Hp|done|apply Hb|by repeat constructor| |].
  - intros id. apply deposit_effect_savings.
  - intros id side Hsd. rewrite deposit_effect_internal. case_decide; [|done].
    rewrite Hsd by done. unfold sign_of. simpl. lia.
Qed.

Lemma withdraw_booked d tx account cash key amount desc :
  ledger_ok d -> bookable d tx account cash key ->
  (exists b, balance_of d account = Some b /\ amount <= b) ->
  exists t, withdraw tx account amount key desc d = (t, Ret tx) /\ booked d t tx key account cash (- amount).
Proof.
  intros Hd Hb (b & Hbal & Hle). destruct (bookable_accounts _ _ _ _ _ Hb) as (a & c & Ha & Hs & Hc & Hside).
  unfold balance_of in Hbal. rewrite Ha in Hbal. injection Hbal as <-.
  destruct (post_transaction_returns tx "withdrawal" key (withdraw_lines cash account amount) desc d)
    as [t Ht]; [apply Hb|apply Hb| |by eapply bookable_withdraw_accounts|].
  { reflexivity. }
  exists t. split; [apply withdraw_run; exists a, cash; split_and!; try done; apply Hb|].
  destruct (post_transaction_run _ _ _ _ _ _ _ _ Ht) as [(_ & row & Hr)|[_ Hp]].
  { by rewrite (bk_key _ _ _ _ _ Hb) in Hr. }
  eapply booked_intro; [exact Hp|done|apply Hb|by repeat constructor| |].
  - intros id. apply withdraw_effect_savings.
  - intros id side Hsd. rewrite withdraw_effect_internal. case_decide; [|done].
    rewrite Hsd by done. unfold sign_of. simpl. lia.
Qed.

Lemma internal_is_names d t name id :
  ia_name <$> internal_accounts t = ia_name <$> internal_accounts d ->
  internal_is name d id -> internal_is name t id.
Proof.
  intros E Hd. destruct (internal_is_lookup _ _ _ Hd) as (a & Ha & Hn).
  destruct (lookup_fmap_eq _ _ _ _ _ E Ha) as (a' & Ha' & Hn').
  exists a'. apply select_singleton; [done|unfold named; rewrite bool_decide_eq_true; congruence|].
  intros j b Hb Hbn%bool_decide_eq_true.
  destruct (lookup_fmap_eq _ _ _ _ _ (eq_sym E) Hb) as (b' & Hb' & Hnb).
  destruct Hd as [a0 Hd].
  assert ((j, b') ∈ select (named name) (internal_accounts d)) as Hin.
  { apply elem_of_select. split; [done|]. unfold named. rewrite bool_decide_eq_true. congruence. }
  rewrite Hd in Hin. by apply list_elem_of_singleton in Hin as [= -> ->].
Qed.

Lemma booked_bookable d t tx key account cash delta tx' key' :
  booked d t tx key account cash delta -> bookable d tx account cash key ->
  key' <> key -> tx' <> tx -> key_fresh key' d -> transactions d !! tx' = None ->
  bookable t tx' account cash key'.
Proof.
  intros Hb [(a & Ha & Hs) Hc Hsd Hk Ht] Hkey Htx Hk' Ht'.
  destruct (bd_transaction _ _ _ _ _ _ _ Hb) as (row & Hrow & Htr). split.
  - destruct (lookup_fmap_eq _ _ _ _ _ (bd_status _ _ _ _ _ _ _ Hb) Ha) as (a' & ? & ?).
    exists a'. split; congruence.
  - by eapply internal_is_names; [eapply bd_names|].
  - rewrite <- lookup_fmap, (bd_sides _ _ _ _ _ _ _ Hb), lookup_fmap. done.
  - apply key_fresh_iff. rewrite Htr. intros j r [[_ <-]|[_ Hj]]%lookup_insert_Some; [congruence|].
    rewrite key_fresh_iff in Hk'. by eapply Hk'.
  - by rewrite Htr, lookup_insert_ne.
Qed.

Lemma withdraw_refused tx account amount key desc d a :
  savings_accounts d !! account = Some a -> sa_status a = SA_ACTIVE -> sa_balance_cached a < amount ->
  withdraw tx account amount key desc d = (d, Exc InsufficientFundsError).
Proof.
  intros Ha Hs Hlt. unfold withdraw.
  rewrite bind_Exc. right. exists d, a. rewrite deref_run. split; [done|].
  rewrite bind_Exc. right. exists d, tt. rewrite require_Ret, bool_decide_eq_true. split; [done|].
  rewrite bind_Exc. left. apply require_Exc. by rewrite negb_false_iff, Z.ltb_lt.
Qed.

(** The state a completed withdrawal leaves is one a retry starts from. *)
Lemma withdraw_repeatable tx account amount key desc d t r :
  withdraw tx account amount key desc d = (t, Ret r) ->
  exists a cash, savings_accounts t !! account = Some a /\ sa_status a = SA_ACTIVE /\
    internal_is "cash" t cash /\
    forall tx', post_transaction tx' "withdrawal" key (withdraw_lines cash account amount) desc t
      = (t, Ret r).
Proof.
  intros (a & cash & Ha & Hs & _ & Hc & H)%withdraw_run.
  pose proof (post_transaction_repeat _ _ _ _ _ _ _ _ H) as Hrep.
  apply post_transaction_run in H as [[-> _]|[_ Hp]]; [eauto 8|].
  destruct (fresh_posting_kept _ _ _ _ _ _ _ Hp) as (K1 & _ & K3).
  destruct (lookup_fmap_eq _ _ _ _ _ K1 Ha) as (a' & Ha' & Hs').
  exists a', cash. split_and!; [done|congruence|by eapply internal_is_names|]. intros. apply Hrep.
Qed.

(** The completed run of an account opening with a key. *)
Lemma open_savings_account_run id tx number customer product amount key d t r :
  open_savings_account id tx number customer product amount (Some key) d = (t, Ret r) ->
  r = id /\ savings_accounts d !! id = None /\
  exists d1, insert_savings_account id customer product number d = (d1, Ret tt) /\
    (0 < amount -> exists x, deposit tx id amount key (Some "Opening deposit") d1 = (t, Ret x)) /\
    (amount <= 0 -> t = d1).
Proof.
  unfold open_savings_account.
  intros (? & c & [-> _]%deref_run & H)%bind_Ret.
  apply bind_Ret in H as (? & ? & [_ ->]%require_Ret & H).
  apply bind_Ret in H as (? & p & [-> _]%deref_run & H).
  apply bind_Ret in H as (? & ? & [_ ->]%require_Ret & H).
  apply bind_Ret in H as (d1 & [] & Hi & H).
  pose proof (insert_savings_account_run _ _ _ _ _ _ _ Hi) as [Hn _].
  apply bind_Ret in H as (d2 & [] & Hdep & [-> ->]%mret_Ret).
  split; [done|]. split; [done|]. exists d1. split; [done|].
  destruct (Z.ltb_spec 0 amount); [|apply mret_Ret in Hdep as [-> _]; split; [lia|done]].
  split; [intros _|lia].
  apply bind_Ret in Hdep as (? & k & [Hk ->]%some_or_Ret & Hdep).
  apply bind_Ret in Hdep as (? & x & Hdep & [-> _]%mret_Ret).
  assert (k = key) as -> by (destruct key; simpl in Hk; congruence). by exists x.
Qed.

(** ** Properties *)

(** An institution with its cash account, an active customer account holding
    [b], and a savings product. *)
Definition example_tenant : TenantDb :=
  example_books
    <| internal_accounts := {[1%positive := mkInternalAccount "cash" "debit" 0]} |>
    <| customers := {[3%positive := mkCustomer 2 "Awa" None VERIFIED]} |>
    <| savings_products := {[4%positive := mkSavingsProduct "Basic" "BASIC" 0 0]} |>.

Lemma example_tenant_ok : ledger_ok example_tenant.
Proof.
  assert (example_tenant = empty_tenant
    <| customers := {[3%positive := mkCustomer 2 "Awa" None VERIFIED]} |>
    <| savings_products := {[4%positive := mkSavingsProduct "Basic" "BASIC" 0 0]} |>
    <| internal_accounts ::= <[1%positive := mkInternalAccount "cash" "debit" 0]> |>
    <| savings_accounts ::= <[7%positive := mkSavingsAccount 3 4 "SAV-1" SA_ACTIVE 0]> |>
    <| loans ::= <[9%positive := mkLoan 3 5 100000 12 APPROVED None None None None None 0]> |>) as ->
    by reflexivity.
  apply ledger_ok_new_loan; [|done..].
  apply ledger_ok_new_savings; [|done..].
  apply ledger_ok_new_internal; [|done|done|by left].
  eapply same_books_ok; [|apply ledger_ok_empty]. by split.
Qed.

Lemma example_tenant_bookable tx key : bookable example_tenant tx 7 1 key.
Proof.
  split; try reflexivity.
  - eexists. split; reflexivity.
  - eexists. reflexivity.
Qed.

(** C13. On sound books, a deposit followed by a withdrawal of the same amount
    under another key goes through, and leaves every customer account and every
    account of the institution with the balance it had. *)
Theorem deposit_withdraw_roundtrip (d : TenantDb) (tx tx' account cash : uuid) (key key' : string)
    (amount : money) (desc desc' : option string) :
  sound d -> bookable d tx account cash key ->
  key' <> key -> tx' <> tx -> key_fresh key' d -> transactions d !! tx' = None ->
  exists t t', deposit tx account amount key desc d = (t, Ret tx) /\
    withdraw tx' account amount key' desc' t = (t', Ret tx') /\ ledger_ok t' /\
    (forall id, balance_of t' id = balance_of d id) /\
    (forall id, cash_balance t' id = cash_balance d id).
Proof.
  intros [Hd Hn] Hb Hkey Htx Hk' Ht'.
  destruct (deposit_booked d tx account cash key amount desc Hd Hb) as (t & Ht & B).
  pose proof (booked_bookable _ _ _ _ _ _ _ _ _ B Hb Hkey Htx Hk' Ht') as Hb'.
  destruct (bookable_accounts _ _ _ _ _ Hb) as (a & c & Ha & _).
  destruct (withdraw_booked t tx' account cash key' amount desc') as (t' & Ht2 & B').
  - apply (bd_ok _ _ _ _ _ _ _ B).
  - done.
  - eexists. rewrite (bd_savings _ _ _ _ _ _ _ B). unfold balance_of. rewrite Ha. simpl.
    rewrite decide_True by done. split; [done|]. specialize (Hn _ _ Ha). lia.
  - exists t, t'. split_and!; [done|done|apply (bd_ok _ _ _ _ _ _ _ B')|intros id..].
    + rewrite (bd_savings _ _ _ _ _ _ _ B'), (bd_savings _ _ _ _ _ _ _ B).
      destruct (balance_of d id); simpl; [|done]. f_equal. case_decide; lia.
    + rewrite (bd_internal _ _ _ _ _ _ _ B'), (bd_internal _ _ _ _ _ _ _ B).
      destruct (cash_balance d id); simpl; [|done]. f_equal. case_decide; lia.
Qed.

Lemma deposit_withdraw_roundtrip_witness :
  exists t t', deposit 20 7 500 "k1" None example_tenant = (t, Ret 20%positive) /\
    withdraw 21 7 500 "k2" None t = (t', Ret 21%positive) /\ ledger_ok t' /\
    (forall id, balance_of t' id = balance_of example_tenant id) /\
    (forall id, cash_balance t' id = cash_balance example_tenant id).
Proof.
  apply (deposit_withdraw_roundtrip example_tenant 20 21 7 1 "k1" "k2" 500 None None).
  - split; [apply example_tenant_ok|]. intros id a H.
    change (savings_accounts example_tenant) with
      (<[7%positive := mkSavingsAccount 3 4 "SAV-1" SA_ACTIVE 0]> (∅ : gmap uuid SavingsAccount)) in H.
    apply lookup_insert_Some in H as [[_ <-]|[_ H]]; [vm_compute; discriminate|].
    by rewrite lookup_empty in H.
  - apply example_tenant_bookable.
  - discriminate.
  - discriminate.
  - reflexivity.
  - reflexivity.
Defined.

(** A withdrawal that is ready to be booked is granted exactly when the
    account holds the amount; granted, it takes the amount from that customer
    account and from the cash account and from no other, and leaves the loans
    alone; refused, it raises [InsufficientFundsError] and changes nothing. *)
Theorem withdraw_iff_funds (d : TenantDb) (tx account cash : uuid) (key : string)
    (amount balance : money) (desc : option string) :
  ledger_ok d -> bookable d tx account cash key -> balance_of d account = Some balance ->
  (amount <= balance ->
     exists t, withdraw tx account amount key desc d = (t, Ret tx) /\ ledger_ok t /\
       (forall id, balance_of t id =
          (fun b => if decide (id = account) then b - amount else b) <$> balance_of d id) /\
       (forall id, cash_balance t id =
          (fun b => if decide (id = cash) then b - amount else b) <$> cash_balance d id) /\
       outstanding_principal <$> loans t = outstanding_principal <$> loans d) /\
  (balance < amount -> withdraw tx account amount key desc d = (d, Exc InsufficientFundsError)).
Proof.
  intros Hd Hb Hbal. split.
  - intros Hle. destruct (withdraw_booked d tx account cash key amount desc Hd Hb) as (t & Ht & B);
      [by eauto|].
    exists t. split; [done|]. destruct B as [B1 B2 B3 B4 _ _ _ _]. done.
  - intros Hlt. destruct (bookable_accounts _ _ _ _ _ Hb) as (a & c & Ha & Hs & _).
    unfold balance_of in Hbal. rewrite Ha in Hbal. injection Hbal as <-.
    by eapply withdraw_refused.
Qed.

Lemma withdraw_iff_funds_witness :
  let d := (deposit 20 7 500 "k1" None example_tenant).1 in
  balance_of d 7 = Some 500 /\
  (exists t, withdraw 21 7 300 "k2" None d = (t, Ret 21%positive) /\ balance_of t 7 = Some 200) /\
  withdraw 21 7 501 "k2" None d = (d, Exc InsufficientFundsError).
Proof.
  set (d := (deposit 20 7 500 "k1" None example_tenant).1).
  assert (ledger_ok d) as Hd.
  { apply (deposit_keeps 20 7 500 "k1" None example_tenant d 20%positive);
      [reflexivity|apply example_tenant_ok]. }
  assert (bookable d 21 7 1 "k2") as Hb.
  { split; try reflexivity; eexists; try reflexivity. split; reflexivity. }
  split; [reflexivity|]. split.
  - destruct (withdraw_iff_funds d 21 7 1 "k2" 300 500 None Hd Hb eq_refl) as [H _].
    destruct H as (t & Ht & _ & Hbal & _); [lia|]. exists t. split; [exact Ht|].
    rewrite Hbal. reflexivity.
  - destruct (withdraw_iff_funds d 21 7 1 "k2" 501 500 None Hd Hb eq_refl) as [_ H]. apply H. lia.
Defined.

(** Retrying a completed withdrawal with the same key returns the same
    transaction and changes nothing, provided the balance that is left still
    covers the amount; otherwise the retry is refused for lack of funds, since
    the funds are checked before the idempotency key. *)
Theorem withdraw_retry (d t : TenantDb) (tx tx' account : uuid) (key : string)
    (amount balance : money) (desc : option string) (r : uuid) :
  withdraw tx account amount key desc d = (t, Ret r) -> balance_of t account = Some balance ->
  withdraw tx' account amount key desc t =
    if balance <? amount then (t, Exc InsufficientFundsError) else (t, Ret r).
Proof.
  intros Hw Hbal. destruct (withdraw_repeatable _ _ _ _ _ _ _ _ Hw) as (a & cash & Ha & Hs & Hc & Hp).
  unfold balance_of in Hbal. rewrite Ha in Hbal. injection Hbal as <-.
  destruct (Z.ltb_spec (sa_balance_cached a) amount).
  - by eapply withdraw_refused.
  - apply withdraw_run. exists a, cash. split_and!; done.
Qed.

Lemma withdraw_retry_witness :
  let d := (deposit 20 7 500 "k1" None example_tenant).1 in
  let t := (withdraw 21 7 500 "k2" None d).1 in
  withdraw 22 7 500 "k2" None t = (t, Exc InsufficientFundsError).
Proof.
  set (d := (deposit 20 7 500 "k1" None example_tenant).1).
  apply (withdraw_retry d (withdraw 21 7 500 "k2" None d).1 21 22 7 "k2" 500 0 None 21); reflexivity.
Defined.

(** An account opened with a deposit under a new key holds exactly that
    deposit.  Under a key that is already in use the opening still returns, but
    the account holds nothing and nothing is booked. *)
Theorem open_account_balance (d t : TenantDb) (id tx customer product r : uuid) (number key : string)
    (amount : money) :
  ledger_ok d -> 0 <= amount ->
  open_savings_account id tx number customer product amount (Some key) d = (t, Ret r) ->
  (key_fresh key d -> balance_of t id = Some amount) /\
  (~ key_fresh key d -> balance_of t id = Some 0 /\
     ledger_entries t = ledger_entries d /\ transactions t = transactions d).
Proof.
  intros Hd Ham H. apply open_savings_account_run in H as (-> & Hn & d1 & Hi & Hpos & Hzero).
  pose proof (insert_savings_account_keeps _ _ _ _ _ _ _ Hi Hd) as Hd1.
  apply insert_savings_account_run in Hi as [_ E].
  assert (balance_of d1 id = Some 0) as Hb1.
  { subst d1. unfold balance_of. simpl. by rewrite lookup_insert_eq. }
  assert (transactions d1 = transactions d) as Et by (by subst d1).
  assert (ledger_entries d1 = ledger_entries d) as Ee by (by subst d1).
  assert (key_rows key d1 = key_rows key d) as Ek by (unfold key_rows; by rewrite Et).
  destruct (Z.eq_dec amount 0) as [->|Hne].
  { rewrite Hzero by lia. split; intros _; [done|]. by split_and!. }
  destruct Hpos as [x Hdep]; [lia|].
  apply deposit_run in Hdep as (a & cash & _ & _ & _ & Hp).
  apply post_transaction_run in Hp as [(-> & row & Hr)|[_ Hp]].
  - rewrite Ek in Hr. split; [|done]. unfold key_fresh. by rewrite Hr.
  - split.
    + intros _. rewrite (fresh_posting_balance _ _ _ _ _ _ _ _ Hp Hd1), Hb1, deposit_effect_savings.
      by rewrite decide_True.
    + intros Hk. destruct Hk. unfold key_fresh. rewrite <- Ek. apply (fp_key _ _ _ _ _ _ _ Hp).
Qed.

Lemma open_account_balance_witness :
  let o := open_savings_account 8 20 "SAV-2" 3 4 500 (Some "k1") example_tenant in
  let o' := open_savings_account 11 21 "SAV-3" 3 4 700 (Some "k1") o.1 in
  balance_of o.1 8 = Some 500 /\ o'.2 = Ret 11%positive /\ balance_of o'.1 11 = Some 0.
Proof.
  set (o := open_savings_account 8 20 "SAV-2" 3 4 500 (Some "k1") example_tenant).
  set (o' := open_savings_account 11 21 "SAV-3" 3 4 700 (Some "k1") o.1).
  assert (o.2 = Ret 8%positive) as H2 by (vm_compute; reflexivity).
  assert (o'.2 = Ret 11%positive) as H2' by (vm_compute; reflexivity).
  assert (o = (o.1, Ret 8%positive)) as Ho by (rewrite <- H2; apply surjective_pairing).
  split; [|split].
  - apply (open_account_balance example_tenant o.1 8 20 3 4 8 "SAV-2" "k1" 500);
      [apply example_tenant_ok|lia|exact Ho|vm_compute; reflexivity].
  - exact H2'.
  - apply (open_account_balance o.1 o'.1 11 21 3 4 11 "SAV-3" "k1" 700).
    + apply (open_savings_account_keeps _ _ _ _ _ _ _ _ _ _ Ho example_tenant_ok).
    + lia.
    + rewrite <- H2'. apply surjective_pairing.
    + vm_compute. discriminate.
Defined.
