(* ===== verification/Loans.v ===== *)
(** * The loan lifecycle: [microfinance/mf_app/services/loans.py]

    As in [Savings], an ORM object handed to a service is its key here, read
    through the session at each attribute access. *)

From stdpp Require Import pretty.
From S2P Require Import Prelude PyStd Amortization Tenant Ledger Savings.

(** ** Model *)

Definition get_interest_income_account : M TenantDb uuid := get_internal_account "interest_income".

(** Assigns attributes of a loan object of the session. *)
Definition set_loan (loan : uuid) (f : Loan -> Loan) : M TenantDb unit :=
  modify (fun d => d <| loans ::= alter f loan |>).

(** [db.add(Loan(...)); db.flush()], with the defaults of the columns. *)
Definition insert_loan (id : uuid) (customer product : uuid) (principal : money) (term_months : Z) :
    M TenantDb unit :=
  existing ← gets (fun d => loans d !! id);
  require (bool_decide (existing = None)) IntegrityError;;
  modify (fun d => d <| loans ::= <[id :=
    mkLoan customer product principal term_months DRAFT None None None None None 0]> |>);;
  flush.

Definition create_loan (id : uuid) (customer product : uuid) (principal : money) (term_months : Z) :
    M TenantDb uuid :=
  c ← deref customers customer;
  require (bool_decide (kyc_status c = VERIFIED)) CustomerNotVerifiedError;;
  p ← deref loan_products product;
  require ((min_principal p <=? principal) && (principal <=? max_principal p)) InvalidLoanAmountError;;
  require ((min_term_months p <=? term_months) && (term_months <=? max_term_months p))
    InvalidLoanTermError;;
  insert_loan id customer product principal term_months;;
  mret id.

Definition require_status (loan : uuid) (expected : LoanStatus) : M TenantDb unit :=
  l ← deref loans loan;
  require (bool_decide (lo_status l = expected)) InvalidLoanStateError.

Definition submit_for_approval (loan : uuid) : M TenantDb unit :=
  require_status loan DRAFT;;
  set_loan loan (fun l => l <| lo_status := PENDING_APPROVAL |>);;
  flush.

Definition approve_loan (now : timestamp) (loan staff_id : uuid) : M TenantDb unit :=
  require_status loan PENDING_APPROVAL;;
  set_loan loan (fun l => l <| lo_status := APPROVED |> <| approved_by_staff_id := Some staff_id |>
                            <| approved_at := Some now |>);;
  flush.

Definition reject_loan (loan staff_id : uuid) (reason : string) : M TenantDb unit :=
  require_status loan PENDING_APPROVAL;;
  set_loan loan (fun l => l <| lo_status := LOAN_REJECTED |> <| approved_by_staff_id := Some staff_id |>
                            <| rejection_reason := Some reason |>);;
  flush.

(** [db.add(RepaymentSchedule(...)); db.flush()] *)
Definition insert_schedule (id loan : uuid) : M TenantDb unit :=
  existing ← gets (fun d => schedules d !! id);
  require (bool_decide (existing = None)) IntegrityError;;
  modify (fun d => d <| schedules ::= <[id := mkRepaymentSchedule loan 1 true]> |>);;
  flush.

Definition schedule_row (schedule : uuid) (line : ScheduleLine) : RepaymentScheduleLine :=
  mkRepaymentScheduleLine schedule (installment_number line) (due_date line)
    (principal_due line) (interest_due line) 0 0 LINE_PENDING.

(** [db.add(RepaymentScheduleLine(...))]; the row reaches the database at the next flush. *)
Definition add_schedule_line (schedule : uuid) (id : uuid) (line : ScheduleLine) : M TenantDb unit :=
  existing ← gets (fun d => schedule_lines d !! id);
  require (bool_decide (existing = None)) IntegrityError;;
  modify (fun d => d <| schedule_lines ::= <[id := schedule_row schedule line]> |>).

Definition lift {A} (o : outcome A) : M TenantDb A := fun d => (d, o).

(** [schedule] and [line_id] are the keys drawn for the schedule and its lines. *)
Definition disburse_loan (now : timestamp) (today : date) (tx schedule : uuid) (line_id : nat -> uuid)
    (loan : uuid) (product : LoanProduct) (idempotency_key : string) (disbursement_date : option date) :
    M TenantDb unit :=
  require_status loan APPROVED;;
  let disbursement_date := default today disbursement_date in
  l ← deref loans loan;
  schedule_lines ← lift (generate_repayment_schedule (lo_principal l) (periodic_interest_rate product)
    (lo_term_months l) disbursement_date (amortization_method product));
  insert_schedule schedule loan;;
  for_each (imap (fun i line => (line_id i, line)) schedule_lines)
    (fun kl => add_schedule_line schedule kl.1 kl.2);;
  cash ← get_cash_account;
  l ← deref loans loan;
  post_transaction tx "disbursement" idempotency_key
    [mkLedgerLine "loan" loan DEBIT (lo_principal l);
     mkLedgerLine "internal_account" cash CREDIT (lo_principal l)]
    (Some ("Disbursement of loan " +:+ pretty loan));;
  set_loan loan (fun l => l <| lo_status := ACTIVE |> <| disbursed_at := Some now |>);;
  flush.

Definition pending_line (schedule : uuid) (line : RepaymentScheduleLine) : bool :=
  bool_decide (schedule_id line = schedule) && bool_decide (rl_status line = LINE_PENDING).

Definition interest_remaining (line : RepaymentScheduleLine) : money :=
  rl_interest_due line - rl_interest_paid line.
Definition principal_remaining (line : RepaymentScheduleLine) : money :=
  rl_principal_due line - rl_principal_paid line.

(** The assignments to the schedule line. *)
Definition pay_line (interest_portion principal_portion : money) (line : RepaymentScheduleLine) :
    RepaymentScheduleLine :=
  let line := line <| rl_interest_paid ::= Z.add interest_portion |>
                   <| rl_principal_paid ::= Z.add principal_portion |> in
  if (rl_principal_paid line =? rl_principal_due line) && (rl_interest_paid line =? rl_interest_due line)
  then line <| rl_status := LINE_PAID |> else line.

Definition repay_lines (cash interest_income loan : uuid) (amount principal_portion interest_portion : money) :
    list LedgerLine :=
  mkLedgerLine "internal_account" cash DEBIT amount
  :: (if 0 <? principal_portion then [mkLedgerLine "loan" loan CREDIT principal_portion] else [])
  ++ (if 0 <? interest_portion
      then [mkLedgerLine "internal_account" interest_income CREDIT interest_portion] else []).

Definition repay_installment (now : timestamp) (tx loan : uuid) (amount : money) (idempotency_key : string) :
    M TenantDb (uuid * uuid) :=
  require_status loan ACTIVE;;
  all_schedules ← gets schedules;
  kv ← scalar_one (select (fun s => bool_decide (rs_loan_id s = loan) && rs_is_active s) all_schedules);
  let schedule := kv.1 in
  flushed ← gets schedule_lines_flushed;
  first ← some_or (min_by (fun kv => rl_installment_number kv.2) (select (pending_line schedule) flushed))
    InvalidLoanStateError;
  let line_id := first.1 in
  line ← deref schedule_lines line_id;
  let total_remaining := interest_remaining line + principal_remaining line in
  require (negb (total_remaining <? amount)) OverpaymentError;;
  let interest_portion := Z.min amount (interest_remaining line) in
  let principal_portion := amount - interest_portion in
  modify (fun d => d <| schedule_lines ::= alter (pay_line interest_portion principal_portion) line_id |>);;
  cash ← get_cash_account;
  interest_income ← get_interest_income_account;
  transaction ← post_transaction tx "repayment" idempotency_key
    (repay_lines cash interest_income loan amount principal_portion interest_portion)
    (Some ("Repayment of loan " +:+ pretty loan +:+ " installment "
           +:+ pretty (rl_installment_number line)));
  flushed ← gets schedule_lines_flushed;
  (if bool_decide (select (pending_line schedule) flushed = [])
   then set_loan loan (fun l => l <| lo_status := CLOSED |> <| closed_at := Some now |>)
   else mret tt);;
  flush;;
  mret (transaction, line_id).

(** ** The ledger across the loan operations *)

Lemma pres_require_status I loan st : pres I (require_status loan st).
Proof. unfold require_status. pres_go. Qed.
Lemma pres_lift {A} I (o : outcome A) : pres I (lift o).
Proof. by intros d. Qed.
#[export] Hint Resolve pres_require_status pres_lift : pres.

Lemma set_loan_same_books loan f d :
  (forall l, outstanding_principal (f l) = outstanding_principal l) ->
  same_books d (d <| loans ::= alter f loan |>).
Proof.
  intros Hf. split; try done. simpl. apply map_eq. intros j. rewrite !lookup_fmap.
  destruct (decide (j = loan)) as [->|]; [|by rewrite lookup_alter_ne].
  rewrite lookup_alter_eq. destruct (loans d !! loan); simpl; [by rewrite Hf|done].
Qed.

Lemma set_loan_sound loan f :
  (forall l, outstanding_principal (f l) = outstanding_principal l) -> keeps sound (set_loan loan f).
Proof. intros Hf. apply keeps_modify. intros d. by apply same_books_sound, set_loan_same_books. Qed.
#[export] Hint Resolve set_loan_sound : pres.
#[export] Hint Extern 1 (@eq Z _ _) => reflexivity : pres.

Lemma insert_loan_run id customer product principal term d t u :
  insert_loan id customer product principal term d = (t, Ret u) ->
  loans d !! id = None /\
  t = d <| loans ::= <[id := mkLoan customer product principal term DRAFT None None None None None 0]> |>
        <| schedule_lines_flushed := schedule_lines d |>.
Proof.
  unfold insert_loan. intros H. minv.
  match goal with H : bool_decide (_ = None) = true |- _ => apply bool_decide_eq_true in H end.
  rewrite flush_run in *. by simplify_eq.
Qed.

Lemma insert_loan_sound id customer product principal term :
  keeps sound (insert_loan id customer product principal term).
Proof.
  intros d t u [Hn ->]%insert_loan_run [Hd Ho]. split; [|done].
  apply (same_books_ok (d <| loans ::=
    <[id := mkLoan customer product principal term DRAFT None None None None None 0]> |>)); [by split|].
  by apply ledger_ok_new_loan.
Qed.

Lemma insert_schedule_run id loan d t u :
  insert_schedule id loan d = (t, Ret u) ->
  schedules d !! id = None /\
  t = d <| schedules ::= <[id := mkRepaymentSchedule loan 1 true]> |>
        <| schedule_lines_flushed := schedule_lines d |>.
Proof.
  unfold insert_schedule. intros H. minv.
  match goal with H : bool_decide (_ = None) = true |- _ => apply bool_decide_eq_true in H end.
  rewrite flush_run in *. by simplify_eq.
Qed.

Lemma insert_schedule_sound id loan : keeps sound (insert_schedule id loan).
Proof. intros d t u [_ ->]%insert_schedule_run. apply same_books_sound. by split. Qed.

Lemma add_schedule_line_run s id line d t u :
  add_schedule_line s id line d = (t, Ret u) ->
  schedule_lines d !! id = None /\ t = d <| schedule_lines ::= <[id := schedule_row s line]> |>.
Proof.
  unfold add_schedule_line. intros H. minv.
  match goal with H : bool_decide (_ = None) = true |- _ => apply bool_decide_eq_true in H end. done.
Qed.

Lemma add_schedule_line_sound s id line : keeps sound (add_schedule_line s id line).
Proof. intros d t u [_ ->]%add_schedule_line_run. apply same_books_sound. by split. Qed.
#[export] Hint Resolve insert_loan_sound insert_schedule_sound add_schedule_line_sound : pres.

Lemma create_loan_sound id customer product principal term :
  keeps sound (create_loan id customer product principal term).
Proof. unfold create_loan. keeps_go. Qed.

Lemma submit_for_approval_sound loan : keeps sound (submit_for_approval loan).
Proof. unfold submit_for_approval. keeps_go. Qed.

Lemma approve_loan_sound now loan staff : keeps sound (approve_loan now loan staff).
Proof. unfold approve_loan. keeps_go. Qed.

Lemma reject_loan_sound loan staff reason : keeps sound (reject_loan loan staff reason).
Proof. unfold reject_loan. keeps_go. Qed.

Lemma disburse_loan_sound now today tx schedule line_id loan product key date :
  keeps sound (disburse_loan now today tx schedule line_id loan product key date).
Proof.
  unfold disburse_loan. keeps_go.
  apply post_transaction_sound. by repeat constructor.
Qed.

Lemma repay_lines_types cash income loan amount p i :
  Forall (fun l => account_type l <> "savings_account") (repay_lines cash income loan amount p i).
Proof. unfold repay_lines. repeat case_match; by repeat constructor. Qed.

Lemma repay_installment_sound now tx loan amount key :
  keeps sound (repay_installment now tx loan amount key).
Proof.
  unfold repay_installment. keeps_go.
  - apply keeps_modify. intros d. apply same_books_sound. by split.
  - apply post_transaction_sound, repay_lines_types.
Qed.
#[export] Hint Resolve create_loan_sound submit_for_approval_sound approve_loan_sound
  reject_loan_sound disburse_loan_sound repay_installment_sound : pres.

(** ** The loan books *)

Definition line_ok (l : RepaymentScheduleLine) : Prop :=
  rl_interest_paid l <= Z.max 0 (rl_interest_due l) /\
  rl_principal_paid l <= Z.max 0 (rl_principal_due l) /\
  (rl_status l = LINE_PAID ->
     rl_principal_paid l = rl_principal_due l /\ rl_interest_paid l = rl_interest_due l).

(** The principal the lines of a schedule are for, and what is left of it to pay. *)
Definition due_of (s : uuid) (m : gmap uuid RepaymentScheduleLine) : money :=
  map_sum (fun l => if decide (schedule_id l = s) then rl_principal_due l else 0) m.
Definition remaining_of (s : uuid) (m : gmap uuid RepaymentScheduleLine) : money :=
  map_sum (fun l => if decide (schedule_id l = s) then principal_remaining l else 0) m.

Definition lent (st : LoanStatus) : bool :=
  match st with ACTIVE | CLOSED => true | _ => false end.

(** A loan that was never disbursed owes nothing and has no schedule; one that was
    has one schedule, for its principal, and owes what is left to pay on it; a
    closed one has every installment paid. *)
Definition loan_ok (d : TenantDb) (id : uuid) (l : Loan) : Prop :=
  1 <= lo_term_months l /\
  if lent (lo_status l) then
    exists s r, schedules d !! s = Some r /\ rs_loan_id r = id /\ rs_is_active r = true /\
      due_of s (schedule_lines d) = lo_principal l /\
      remaining_of s (schedule_lines d) = outstanding_principal l /\
      (lo_status l = CLOSED -> forall k x, schedule_lines d !! k = Some x -> schedule_id x = s ->
         rl_status x = LINE_PAID)
  else outstanding_principal l = 0 /\ forall s r, schedules d !! s = Some r -> rs_loan_id r <> id.

Record loan_books (d : TenantDb) : Prop := {
  lb_line : forall k x, schedule_lines d !! k = Some x -> line_ok x /\ is_Some (schedules d !! schedule_id x);
  lb_schedule : forall s r, schedules d !! s = Some r -> is_Some (loans d !! rs_loan_id r);
  lb_unique : forall s s' r r', schedules d !! s = Some r -> schedules d !! s' = Some r' ->
    rs_loan_id r = rs_loan_id r' -> s = s';
  lb_loan : forall id l, loans d !! id = Some l -> loan_ok d id l;
  lb_flushed : schedule_lines_flushed d = schedule_lines d;
}.

(** A step that leaves loans, schedules and lines alone. *)
Lemma loan_books_same d t :
  loans t = loans d -> schedules t = schedules d -> schedule_lines t = schedule_lines d ->
  schedule_lines_flushed t = schedule_lines d -> loan_books d -> loan_books t.
Proof.
  intros Hl Hs Hsl Hf [A B C D E].
  split; rewrite ?Hl, ?Hs, ?Hsl; try done.
  intros id l H. specialize (D id l H). unfold loan_ok in *. by rewrite Hs, Hsl.
Qed.

(** A step on one loan that keeps it undisbursed. *)
Lemma loan_books_update d t loan l l' :
  loans d !! loan = Some l -> loans t = <[loan := l']> (loans d) ->
  schedules t = schedules d -> schedule_lines t = schedule_lines d ->
  schedule_lines_flushed t = schedule_lines d ->
  lent (lo_status l) = false -> lent (lo_status l') = false ->
  outstanding_principal l' = outstanding_principal l -> lo_term_months l' = lo_term_months l ->
  loan_books d -> loan_books t.
Proof.
  intros Hl Ht Hs Hsl Hf Hst Hst' Ho Htm [A B C D E].
  split; rewrite ?Hs, ?Hsl; try done.
  - intros s r Hr. rewrite Ht. destruct (B _ _ Hr) as [x Hx].
    destruct (decide (rs_loan_id r = loan)) as [->|]; [by rewrite lookup_insert_eq|].
    rewrite lookup_insert_ne by done. by exists x.
  - intros id x. rewrite Ht. intros [[<- <-]|[_ H]]%lookup_insert_Some.
    + specialize (D _ _ Hl). unfold loan_ok in *. rewrite Hs, Hst', Ho, Htm. by rewrite Hst in D.
    + specialize (D _ _ H). unfold loan_ok in *. by rewrite Hs, Hsl.
Qed.

(** Sums over a schedule. *)
Lemma map_sum_zero {V} (f : V -> Z) (m : gmap positive V) :
  (forall k v, m !! k = Some v -> f v = 0) -> map_sum f m = 0.
Proof.
  induction m as [|k v m Hk IH] using map_ind; intros H; [apply map_sum_empty|].
  rewrite map_sum_insert_new by done. rewrite (H k v) by apply lookup_insert_eq.
  rewrite IH; [done|]. intros j w Hj. apply (H j).
  rewrite lookup_insert_ne; [done|]. intros ->. congruence.
Qed.

Lemma map_sum_alter {V} (f : V -> Z) (g : V -> V) (m : gmap positive V) k v :
  m !! k = Some v -> map_sum f (alter g k m) = map_sum f m - f v + f (g v).
Proof.
  intros H. assert (alter g k m = <[k := g v]> m) as ->.
  { apply map_eq. intros j. destruct (decide (j = k)) as [->|].
    - by rewrite lookup_alter_eq, lookup_insert_eq, H.
    - by rewrite lookup_alter_ne, lookup_insert_ne. }
  by apply map_sum_insert.
Qed.

(** Every payment stays within the line, and completes it exactly when nothing is left. *)
Lemma pay_line_fields i p x :
  schedule_id (pay_line i p x) = schedule_id x /\
  rl_principal_due (pay_line i p x) = rl_principal_due x /\
  principal_remaining (pay_line i p x) = principal_remaining x - p /\
  interest_remaining (pay_line i p x) = interest_remaining x - i.
Proof.
  unfold pay_line, principal_remaining, interest_remaining. case_match; simpl; split_and!; done || lia.
Qed.

Lemma pay_line_paid i p x :
  rl_interest_paid (pay_line i p x) = rl_interest_paid x + i /\
  rl_principal_paid (pay_line i p x) = rl_principal_paid x + p.
Proof. unfold pay_line. case_match; simpl; lia. Qed.

Lemma pay_line_ok x amount :
  line_ok x -> rl_status x = LINE_PENDING -> amount <= interest_remaining x + principal_remaining x ->
  line_ok (pay_line (Z.min amount (interest_remaining x)) (amount - Z.min amount (interest_remaining x)) x).
Proof.
  unfold line_ok, pay_line, interest_remaining, principal_remaining. intros (H1 & H2 & _) Hs Hle. simpl.
  case_match eqn:E; simpl.
  - apply andb_true_iff in E as [E1%Z.eqb_eq E2%Z.eqb_eq]. split_and!; lia.
  - rewrite Hs. split_and!; [lia|lia|done].
Qed.

(** The loans after a posting that moves one of them. *)
Lemma posting_one_loan tx type key lines desc d t loan l delta :
  fresh_posting tx type key lines desc d t -> ledger_ok d -> loans d !! loan = Some l ->
  (forall id, signed_total "debit" (entries_of "loan" id (line_entry tx <$> lines))
     = if decide (id = loan) then delta else 0) ->
  loans t = <[loan := l <| outstanding_principal ::= Z.add delta |>]> (loans d).
Proof.
  intros Hp Hd Hl He. apply map_eq. intros id.
  destruct (loans t !! id) as [x'|] eqn:E'.
  - destruct (fresh_posting_loan _ _ _ _ _ _ _ _ _ Hp Hd E') as (x & Hx & ->). rewrite He.
    destruct (decide (id = loan)) as [->|].
    + rewrite lookup_insert_eq. simplify_eq. destruct l. simpl. do 2 f_equal. lia.
    + rewrite lookup_insert_ne by done. rewrite Hx. destruct x. simpl. do 2 f_equal. lia.
  - destruct (decide (id = loan)) as [->|].
    + destruct (forget_loan d t _ _ (fp_forget _ _ _ _ _ _ _ Hp) Hl) as (y & ? & _). congruence.
    + rewrite lookup_insert_ne by done. destruct (loans d !! id) as [x|] eqn:Ex; [|done].
      destruct (forget_loan d t _ _ (fp_forget _ _ _ _ _ _ _ Hp) Ex) as (y & ? & _). congruence.
Qed.

Lemma fresh_posting_schedules tx type key lines desc d t :
  fresh_posting tx type key lines desc d t ->
  schedules t = schedules d /\ schedule_lines t = schedule_lines d.
Proof.
  intros Hp. pose proof (fp_forget _ _ _ _ _ _ _ Hp) as E.
  split; [exact (f_equal schedules E)|exact (f_equal schedule_lines E)].
Qed.

Lemma repay_effect tx cash income loan amount p i id :
  0 <= p ->
  signed_total "debit" (entries_of "loan" id (line_entry tx <$> repay_lines cash income loan amount p i))
  = if decide (id = loan) then - p else 0.
Proof.
  intros Hp. unfold repay_lines. rewrite effect_cons. simpl account_type. rewrite decide_False by done.
  destruct (Z.ltb_spec 0 p), (Z.ltb_spec 0 i); simpl app; rewrite ?effect_cons, effect_nil;
    simpl account_type; simpl account_id; repeat case_decide; simplify_eq; unfold sign_of; simpl; lia.
Qed.

(** What a completed repayment under a new key does, [x] being the oldest unpaid
    installment of the loan's schedule [s]. *)
Record repaid (d t : TenantDb) (loan line : uuid) (amount : money) (l l' : Loan) (s : uuid)
    (x : RepaymentScheduleLine) : Prop := {
  rp_loan : loans d !! loan = Some l;
  rp_active : lo_status l = ACTIVE;
  rp_schedule : exists r, schedules d !! s = Some r /\ rs_loan_id r = loan /\ rs_is_active r = true;
  rp_line : schedule_lines d !! line = Some x;
  rp_of : schedule_id x = s;
  rp_pending : rl_status x = LINE_PENDING;
  rp_oldest : forall k y, schedule_lines d !! k = Some y -> schedule_id y = s ->
    rl_status y = LINE_PENDING -> rl_installment_number x <= rl_installment_number y;
  rp_due : amount <= interest_remaining x + principal_remaining x;
  rp_schedules : schedules t = schedules d;
  rp_lines : schedule_lines t =
    alter (pay_line (Z.min amount (interest_remaining x)) (amount - Z.min amount (interest_remaining x)))
      line (schedule_lines d);
  rp_flushed : schedule_lines_flushed t = schedule_lines t;
  rp_loans : loans t = <[loan := l']> (loans d);
  rp_principal : lo_principal l' = lo_principal l;
  rp_term : lo_term_months l' = lo_term_months l;
  rp_outstanding : outstanding_principal l' =
    outstanding_principal l - (amount - Z.min amount (interest_remaining x));
  rp_status : lo_status l' =
    if bool_decide (select (pending_line s) (schedule_lines t) = []) then CLOSED else ACTIVE;
}.

Lemma require_status_run loan st d t u :
  require_status loan st d = (t, Ret u) <-> t = d /\ exists l, loans d !! loan = Some l /\ lo_status l = st.
Proof.
  unfold require_status. split.
  - intros (? & l & [-> Hl]%deref_run & [Hs%bool_decide_eq_true ->]%require_Ret)%bind_Ret. eauto.
  - intros (-> & l & Hl & Hs). rewrite bind_Ret. exists d, l. rewrite deref_run. split; [done|].
    rewrite require_Ret, bool_decide_eq_true. by destruct u.
Qed.

(** The row the first [SELECT] of a repayment finds. *)
Lemma oldest_pending s d k y x :
  schedule_lines_flushed d = schedule_lines d ->
  min_by (fun kv => rl_installment_number kv.2) (select (pending_line s) (schedule_lines_flushed d))
    = Some (k, y) ->
  schedule_lines d !! k = Some x ->
  schedule_id x = s /\ rl_status x = LINE_PENDING /\
  forall j z, schedule_lines d !! j = Some z -> schedule_id z = s -> rl_status z = LINE_PENDING ->
    rl_installment_number x <= rl_installment_number z.
Proof.
  intros Hfl [Hin Hle]%min_by_Some Hx. rewrite Hfl in *.
  apply elem_of_select in Hin as [Hy Hp]. simplify_eq.
  apply andb_true_iff in Hp as [E1%bool_decide_eq_true E2%bool_decide_eq_true].
  split; [done|]. split; [done|]. intros j z Hz Hs Hst. apply (Hle (j, z)).
  apply elem_of_select. split; [done|]. unfold pending_line.
  apply andb_true_iff. by rewrite !bool_decide_eq_true.
Qed.

Lemma repay_installment_run now tx loan amount key d t r line :
  repay_installment now tx loan amount key d = (t, Ret (r, line)) ->
  ledger_ok d -> loan_books d -> key_fresh key d ->
  exists l l' s x, repaid d t loan line amount l l' s x.
Proof.
  intros H Hd [_ _ _ _ Hfl] Hk. unfold repay_installment in H.
  apply bind_Ret in H as (? & ? & (-> & l & Hl & Hst)%require_status_run & H).
  apply bind_Ret in H as (? & ? & [-> ->]%gets_Ret & H).
  apply bind_Ret in H as (? & [s r0] & [-> Hs]%scalar_one_Ret & H). cbv zeta in H. simpl in H.
  apply bind_Ret in H as (? & ? & [-> ->]%gets_Ret & H).
  apply bind_Ret in H as (? & [k y] & [Hmin ->]%some_or_Ret & H). simpl in H.
  apply bind_Ret in H as (? & x & [-> Hx]%deref_run & H).
  apply bind_Ret in H as (? & ? & [Hdue ->]%require_Ret & H).
  apply bind_Ret in H as (d1 & ? & Hd1%modify_Ret & H).
  apply bind_Ret in H as (? & cash & [-> Hc]%get_internal_account_run & H).
  apply bind_Ret in H as (? & income & [-> Hi]%get_internal_account_run & H).
  apply bind_Ret in H as (d2 & tr & Hpost & H).
  apply bind_Ret in H as (? & ? & [-> ->]%gets_Ret & H).
  apply bind_Ret in H as (d3 & ? & Hclose & H).
  apply bind_Ret in H as (d4 & ? & Hflush & [<- [= -> ->]]%mret_Ret).
  apply negb_true_iff, Z.ltb_ge in Hdue.
  destruct (oldest_pending _ _ _ _ _ Hfl Hmin Hx) as (P1 & P2 & P3).
  assert ((s, r0) ∈ select (fun s => bool_decide (rs_loan_id s = loan) && rs_is_active s) (schedules d))
    as [Hr [Hrl%bool_decide_eq_true Hra]%andb_true_iff]%elem_of_select by (rewrite Hs; left).
  assert (ledger_ok d1) as Hok1.
  { eapply same_books_ok; [|exact Hd]. rewrite Hd1. by split. }
  assert (key_fresh key d1) as Hk1 by (by rewrite Hd1).
  apply post_transaction_run in Hpost as [(-> & row & Hrow)|[-> Hp]]; [by rewrite Hk1 in Hrow|].
  destruct (fresh_posting_schedules _ _ _ _ _ _ _ Hp) as [Es El].
  pose proof (fp_flushed _ _ _ _ _ _ _ Hp) as Ef.
  assert (loans d1 !! loan = Some l) as Hl1 by (by rewrite Hd1).
  assert (0 <= amount - Z.min amount (interest_remaining x)) as Hpos by lia.
  pose proof (posting_one_loan _ _ _ _ _ _ _ loan l _ Hp Hok1 Hl1
    (fun id => repay_effect _ _ _ _ _ _ _ id Hpos)) as Elo.
  rewrite flush_run in Hflush. injection Hflush as Ht.
  assert (exists l', loans d3 = <[loan := l']> (loans d) /\ schedules d3 = schedules d2 /\
    schedule_lines d3 = schedule_lines d2 /\
    lo_principal l' = lo_principal l /\ lo_term_months l' = lo_term_months l /\
    outstanding_principal l' = outstanding_principal l - (amount - Z.min amount (interest_remaining x)) /\
    lo_status l' = if bool_decide (select (pending_line s) (schedule_lines_flushed d2) = [])
                   then CLOSED else ACTIVE) as (l' & E1 & E2 & E3 & E4 & E5 & E6 & E7).
  { assert (loans d1 = loans d) as Eld by (by rewrite Hd1). rewrite Eld in Elo.
    case_bool_decide.
    - apply modify_Ret in Hclose as ->. eexists. split; [simpl; rewrite Elo, alter_insert_eq; reflexivity|].
      simpl. split_and!; done || lia.
    - apply mret_Ret in Hclose as [-> _]. eexists. split; [exact Elo|]. simpl. split_and!; done || lia. }
  exists l, l', s, x. rewrite Ef, El in E7.
  assert (schedule_lines t = schedule_lines d1) as Etl by (rewrite <- Ht; simpl; congruence).
  split; try done; try (rewrite <- Ht; simpl; congruence).
  - by exists r0.
  - rewrite <- Ht. simpl. rewrite E2, Es, Hd1. done.
  - rewrite Etl, Hd1. done.
  - rewrite Etl. done.
Qed.

Lemma remaining_after_payment s s' d line x i p :
  schedule_lines d !! line = Some x -> schedule_id x = s ->
  remaining_of s' (alter (pay_line i p) line (schedule_lines d))
  = remaining_of s' (schedule_lines d) - if decide (s' = s) then p else 0.
Proof.
  intros Hx <-. unfold remaining_of. rewrite (map_sum_alter _ _ _ _ _ Hx).
  destruct (pay_line_fields i p x) as (-> & _ & -> & _).
  repeat case_decide; simplify_eq; lia.
Qed.

Lemma due_after_payment s' d line x i p :
  schedule_lines d !! line = Some x ->
  due_of s' (alter (pay_line i p) line (schedule_lines d)) = due_of s' (schedule_lines d).
Proof.
  intros Hx. unfold due_of. rewrite (map_sum_alter _ _ _ _ _ Hx).
  destruct (pay_line_fields i p x) as (-> & -> & _). lia.
Qed.

Lemma lookup_alter_Some' {V} (f : V -> V) (m : gmap positive V) i j y :
  alter f i m !! j = Some y <-> (i = j /\ exists x, m !! i = Some x /\ y = f x) \/ (i <> j /\ m !! j = Some y).
Proof.
  destruct (decide (i = j)) as [->|Hne].
  - rewrite lookup_alter_eq, fmap_Some. naive_solver.
  - rewrite lookup_alter_ne by done. naive_solver.
Qed.

Lemma repaid_loan_books d t loan line amount l l' s x :
  repaid d t loan line amount l l' s x -> loan_books d -> loan_books t.
Proof.
  intros [R1 R2 (r & Rs & Rl & Ra) R4 R5 R6 _ R8 R9 R10 R11 R12 R13 R14 R15 R16] [A B C D E].
  set (i := Z.min amount (interest_remaining x)) in *.
  split; rewrite ?R9; try done.
  - intros k y. rewrite R10. intros [[-> (z & Hz & ->)]|[_ Hy]]%lookup_alter_Some'; [|by eapply A].
    simplify_eq. destruct (A _ _ R4) as [Hz' Hs']. destruct (pay_line_fields i (amount - i) x) as (-> & _).
    split; [|done]. by apply pay_line_ok.
  - intros s' r' Hr'. rewrite R12. destruct (B _ _ Hr') as [y Hy].
    destruct (decide (rs_loan_id r' = loan)) as [->|]; [by rewrite lookup_insert_eq|].
    rewrite lookup_insert_ne by done. by exists y.
  - intros id y. rewrite R12. intros [[<- <-]|[Hne Hy]]%lookup_insert_Some.
    + destruct (D _ _ R1) as [Dt Dl]. rewrite R2 in Dl. simpl in Dl.
      destruct Dl as (s' & r' & D1 & D2 & D3 & D4 & D5 & _).
      assert (s' = s) as -> by (eapply (C s' s); [done..|congruence]).
      split; [by rewrite R14|].
      assert (lent (lo_status l') = true) as -> by (rewrite R16; by case_bool_decide).
      exists s, r. rewrite R9, R13, R15, R10, (due_after_payment _ _ _ _ _ _ R4).
      rewrite (remaining_after_payment s s _ _ _ _ _ R4 R5), decide_True by done.
      split_and!; try done; [lia|].
      intros Hcl k z Hz Hzs. rewrite <- R10 in Hz. rewrite R16 in Hcl.
      case_bool_decide as Hsel; [|done].
      rewrite select_nil_iff in Hsel. specialize (Hsel _ _ Hz). unfold pending_line in Hsel.
      rewrite bool_decide_eq_true_2 in Hsel by done. simpl in Hsel.
      apply bool_decide_eq_false in Hsel. by destruct (rl_status z).
    + destruct (D _ _ Hy) as [Dt Dl]. split; [done|]. rewrite R9.
      destruct (lent (lo_status y)); [|done].
      destruct Dl as (s' & r' & D1 & D2 & D3 & D4 & D5 & D6). exists s', r'.
      assert (s' <> s) as Hss by (intros ->; congruence).
      rewrite R10, (due_after_payment _ _ _ _ _ _ R4), (remaining_after_payment s s' _ _ _ _ _ R4 R5),
        decide_False by done.
      split_and!; try done; [lia|].
      intros Hcl k z [[-> (w & Hw & ->)]|[_ Hz]]%lookup_alter_Some' Hzs; [|by eapply D6].
      destruct (pay_line_fields i (amount - i) w) as (Hw1 & _). congruence.
Qed.

(** ** Disbursement *)

Record lines_added (s : uuid) (lines : list ScheduleLine) (d t : TenantDb) : Prop := {
  la_same : t = d <| schedule_lines := schedule_lines t |>;
  la_rows : forall k x, schedule_lines t !! k = Some x ->
    schedule_lines d !! k = Some x \/ exists line, x = schedule_row s line;
  la_old : forall k x, schedule_lines d !! k = Some x -> schedule_lines t !! k = Some x;
  la_sum : forall f, map_sum f (schedule_lines t)
    = map_sum f (schedule_lines d) + sumZ ((fun l => f (schedule_row s l)) <$> lines);
}.

Lemma add_lines_run s (kls : list (uuid * ScheduleLine)) d t u :
  for_each kls (fun kl => add_schedule_line s kl.1 kl.2) d = (t, Ret u) -> lines_added s kls.*2 d t.
Proof.
  revert d. induction kls as [|[k line] kls IH]; intros d H; simpl in H.
  - apply mret_Ret in H as [-> _]. split; [by destruct d|eauto|eauto|].
    intros f. rewrite !fmap_nil. cbn [sumZ foldr]. lia.
  - apply bind_Ret in H as (d1 & ? & [Hn E]%add_schedule_line_run & H). simpl in Hn, E.
    destruct (IH _ H) as [S R O F]. subst d1. simpl in *. split.
    + rewrite S at 1. done.
    + intros j y Hj. destruct (R _ _ Hj) as [Hx|]; [|eauto].
      apply lookup_insert_Some in Hx as [[_ <-]|[_ Hx]]; eauto.
    + intros j y Hj. apply O. rewrite lookup_insert_ne; [done|]. intros ->. congruence.
    + intros f. rewrite F, map_sum_insert_new by done. rewrite !fmap_cons, sumZ_cons. unfold fmap at 2. lia.
Qed.

Lemma imap_snd {A B} (f : nat -> A) (l : list B) : (imap (fun i x => (f i, x)) l).*2 = l.
Proof.
  revert f. induction l as [|x l IH]; intros f; [done|]. simpl. f_equal. apply (IH (f ∘ S)).
Qed.

Lemma disburse_effect tx cash loan amount id :
  signed_total "debit" (entries_of "loan" id (line_entry tx <$>
    [mkLedgerLine "loan" loan DEBIT amount; mkLedgerLine "internal_account" cash CREDIT amount]))
  = if decide (id = loan) then amount else 0.
Proof.
  rewrite !effect_cons, effect_nil. simpl. repeat case_decide; simplify_eq; unfold sign_of; simpl; lia.
Qed.

(** What a completed disbursement under a new key does. *)
Record disbursed (d t : TenantDb) (loan s : uuid) (lines : list ScheduleLine) (l l' : Loan)
    (product : LoanProduct) (start : date) (u : TenantDb) : Prop := {
  db_loan : loans d !! loan = Some l;
  db_approved : lo_status l = APPROVED;
  db_lines : generate_repayment_schedule (lo_principal l) (periodic_interest_rate product)
    (lo_term_months l) start (amortization_method product) = Ret lines;
  db_new : schedules d !! s = None;
  db_schedules : schedules t = <[s := mkRepaymentSchedule loan 1 true]> (schedules d);
  db_added : lines_added s lines
    (d <| schedules ::= <[s := mkRepaymentSchedule loan 1 true]> |>
       <| schedule_lines_flushed := schedule_lines d |>) u;
  db_rows : schedule_lines t = schedule_lines u;
  db_flushed : schedule_lines_flushed t = schedule_lines t;
  db_loans : loans t = <[loan := l']> (loans d);
  db_l' : l' = l <| outstanding_principal ::= Z.add (lo_principal l) |> <| lo_status := ACTIVE |>
                 <| disbursed_at := disbursed_at l' |>;
}.

Lemma disburse_loan_run now today tx s line_id loan product key date d t r :
  disburse_loan now today tx s line_id loan product key date d = (t, Ret r) ->
  ledger_ok d -> key_fresh key d ->
  exists lines l l' u, disbursed d t loan s lines l l' product (default today date) u.
Proof.
  intros H Hd Hk. unfold disburse_loan in H. cbv zeta in H.
  apply bind_Ret in H as (? & ? & (-> & l & Hl & Hst)%require_status_run & H).
  apply bind_Ret in H as (? & l0 & [-> Hl0]%deref_run & H). simplify_eq.
  apply bind_Ret in H as (? & lines & Hgen & H). injection Hgen as <- Hgen.
  apply bind_Ret in H as (d1 & ? & [Hs Hd1]%insert_schedule_run & H).
  apply bind_Ret in H as (u & ? & Hadd%add_lines_run & H). rewrite imap_snd in Hadd.
  apply bind_Ret in H as (? & cash & [-> Hc]%get_internal_account_run & H).
  apply bind_Ret in H as (? & l0 & [-> Hl0]%deref_run & H).
  apply bind_Ret in H as (d3 & tr & Hpost & H).
  apply bind_Ret in H as (d4 & ? & Hset%modify_Ret & Hflush).
  rewrite flush_run in Hflush. injection Hflush as Ht.
  pose proof (la_same _ _ _ _ Hadd) as Eu.
  assert (loans u = loans d) as Elu by (rewrite Eu, Hd1; done).
  rewrite Elu in Hl0. simplify_eq.
  assert (ledger_ok u) as Hu.
  { eapply same_books_ok; [|exact Hd]. rewrite Eu. by split. }
  assert (key_fresh key u) as Hku by (by rewrite Eu).
  apply post_transaction_run in Hpost as [(-> & row & Hrow)|[-> Hp]]; [by rewrite Hku in Hrow|].
  destruct (fresh_posting_schedules _ _ _ _ _ _ _ Hp) as [Es El].
  rewrite <- Elu in Hl.
  pose proof (posting_one_loan _ _ _ _ _ _ _ loan l _ Hp Hu Hl
    (fun id => disburse_effect _ _ _ _ id)) as Elo.
  rewrite Elu in Hl, Elo.
  eexists lines, l, _, u. split; try done; try (simpl; congruence).
  - simpl. rewrite Es, Eu. done.
  - simpl. rewrite Elo, alter_insert_eq. reflexivity.
  - by destruct l.
Qed.

Lemma disbursed_sums d t loan s lines l l' product start u :
  disbursed d t loan s lines l l' product start u -> loan_books d ->
  (forall s', s' <> s -> due_of s' (schedule_lines t) = due_of s' (schedule_lines d) /\
                         remaining_of s' (schedule_lines t) = remaining_of s' (schedule_lines d)) /\
  due_of s (schedule_lines t) = total_principal lines /\
  remaining_of s (schedule_lines t) = total_principal lines.
Proof.
  intros [_ _ _ Hn _ Ha Er _ _ _] [A _ _ _ _]. rewrite Er.
  pose proof (la_sum _ _ _ _ Ha) as F. simpl in F.
  assert (forall f : money -> money -> money, map_sum (fun x => if decide (schedule_id x = s)
      then f (rl_principal_due x) (rl_principal_paid x) else 0) (schedule_lines d) = 0) as Hz.
  { intros f. apply map_sum_zero. intros k x Hx. destruct (A _ _ Hx) as [_ [r Hr]].
    rewrite decide_False; [done|]. intros <-. congruence. }
  split_and!.
  - intros s' Hne. unfold due_of, remaining_of. rewrite !F.
    assert (forall g, sumZ ((fun l => if decide (schedule_id (schedule_row s l) = s') then g l else 0) <$> lines) = 0)
      as Hg.
    { intros g. clear -Hne. induction lines as [|y ys IH]; [done|]. rewrite fmap_cons, sumZ_cons.
      simpl schedule_id in *. rewrite decide_False by done. exact IH. }
    split; rewrite Hg; lia.
  - unfold due_of. rewrite F. rewrite (Hz (fun due _ => due)). unfold total_principal.
    rewrite Z.add_0_l. f_equal. apply list_fmap_ext. intros _ y _. simpl. by rewrite decide_True.
  - unfold remaining_of, principal_remaining. rewrite F. rewrite (Hz (fun due paid => due - paid)).
    unfold total_principal. rewrite Z.add_0_l. f_equal. apply list_fmap_ext. intros _ y _. simpl.
    rewrite decide_True by done. lia.
Qed.

Lemma disbursed_loan_books d t loan s lines l l' product start u :
  disbursed d t loan s lines l l' product start u -> loan_books d -> loan_books t.
Proof.
  intros Hdb Hd. pose proof (disbursed_sums _ _ _ _ _ _ _ _ _ _ Hdb Hd) as (So & Sd & Sr).
  destruct Hd as [A B C D E]. destruct Hdb as [B1 B2 B3 B4 B5 B6 B7 B8 B9 B10].
  destruct (D _ _ B1) as [Dt Dl]. rewrite B2 in Dl. destruct Dl as [Dz Dn].
  pose proof (schedule_total _ _ _ _ _ _ Dt B3) as Htot.
  split; try done.
  - intros k x. rewrite B5, B7. intros Hx.
    destruct (la_rows _ _ _ _ B6 _ _ Hx) as [Hold|[line ->]].
    + destruct (A _ _ Hold) as [Hok [r Hr]]. split; [done|].
      rewrite lookup_insert_ne by congruence. by exists r.
    + split; [|simpl; by rewrite lookup_insert_eq]. unfold line_ok. simpl. split_and!; [lia|lia|done].
  - intros s' r'. rewrite B5, B9. intros [[<- <-]|[_ Hr]]%lookup_insert_Some.
    + simpl. by rewrite lookup_insert_eq.
    + destruct (B _ _ Hr) as [y Hy].
      destruct (decide (rs_loan_id r' = loan)) as [->|]; [by rewrite lookup_insert_eq|].
      rewrite lookup_insert_ne by done. by exists y.
  - intros s1 s2 r1 r2. rewrite B5.
    intros [[<- <-]|[_ H1]]%lookup_insert_Some [[<- <-]|[_ H2]]%lookup_insert_Some; simpl; intros Heq.
    + done.
    + by destruct (Dn _ _ H2).
    + by destruct (Dn _ _ H1).
    + by eapply C.
  - intros id y. rewrite B9. intros [[<- <-]|[Hne Hy]]%lookup_insert_Some.
    + rewrite B10. split; [done|]. simpl. exists s, (mkRepaymentSchedule loan 1 true).
      rewrite B5, lookup_insert_eq, Sd, Sr, Dz. split_and!; try done; lia.
    + destruct (D _ _ Hy) as [Et El]. split; [done|]. destruct (lent (lo_status y)).
      * destruct El as (s' & r' & E1 & E2 & E3 & E4 & E5 & E6).
        assert (s' <> s) as Hss by congruence. destruct (So _ Hss) as [Q1 Q2].
        exists s', r'. rewrite B5, lookup_insert_ne by done. rewrite Q1, Q2.
        split_and!; try done. intros Hcl k x. rewrite B7. intros Hx Hxs.
        destruct (la_rows _ _ _ _ B6 _ _ Hx) as [Hold|[line ->]]; [by eapply E6|done].
      * destruct El as [E1 E2]. split; [done|]. intros s' r'. rewrite B5.
        intros [[_ <-]|[_ Hr]]%lookup_insert_Some; [done|by eapply E2].
Qed.

(** The other operations. *)
Lemma create_loan_books id customer product principal term d t r :
  1 <= term -> create_loan id customer product principal term d = (t, Ret r) ->
  loan_books d -> loan_books t.
Proof.
  intros Ht H [A B C D E]. unfold create_loan in H.
  apply bind_Ret in H as (? & c & [-> _]%deref_run & H).
  apply bind_Ret in H as (? & ? & [_ ->]%require_Ret & H).
  apply bind_Ret in H as (? & p & [-> _]%deref_run & H).
  apply bind_Ret in H as (? & ? & [_ ->]%require_Ret & H).
  apply bind_Ret in H as (? & ? & [_ ->]%require_Ret & H).
  apply bind_Ret in H as (? & ? & [Hn ->]%insert_loan_run & [-> _]%mret_Ret).
  split; try done.
  - intros s r' Hr. simpl. destruct (B _ _ Hr) as [y Hy].
    rewrite lookup_insert_ne by congruence. by exists y.
  - intros j l Hj. simpl in Hj. apply lookup_insert_Some in Hj as [[<- <-]|[_ Hj]]; [|by apply D].
    split; [done|]. split; [done|]. intros s r' Hr Heq. simpl in Hr.
    destruct (B _ _ Hr) as [y Hy]. congruence.
Qed.

Lemma set_status_books loan st f d t u :
  (require_status loan st;; set_loan loan f;; flush) d = (t, Ret u) ->
  lent st = false ->
  (forall l, lent (lo_status (f l)) = false /\ outstanding_principal (f l) = outstanding_principal l /\
     lo_term_months (f l) = lo_term_months l) ->
  loan_books d -> loan_books t.
Proof.
  intros H Hst Hf Hd.
  apply bind_Ret in H as (? & ? & (-> & l & Hl & Hs)%require_status_run & H).
  apply bind_Ret in H as (d1 & ? & Hset%modify_Ret & Hflush).
  rewrite flush_run in Hflush. injection Hflush as Ht.
  destruct (Hf l) as (F1 & F2 & F3).
  eapply (loan_books_update d t loan l (f l)); try done; try (rewrite <- Ht, Hset; done).
  - rewrite <- Ht, Hset. simpl. apply map_eq. intros j. destruct (decide (j = loan)) as [->|].
    + by rewrite lookup_alter_eq, lookup_insert_eq, Hl.
    + by rewrite lookup_alter_ne, lookup_insert_ne.
  - by rewrite Hs.
Qed.

Lemma posting_loan_books tx type key lines desc d t r :
  post_transaction tx type key lines desc d = (t, Ret r) ->
  Forall (fun l => account_type l <> "loan") lines ->
  ledger_ok d -> loan_books d -> loan_books t.
Proof.
  intros [[-> _]|[_ Hp]]%post_transaction_run Hl Hd Hb; [done|].
  destruct (fresh_posting_schedules _ _ _ _ _ _ _ Hp) as [Es El].
  apply (loan_books_same d); try done.
  - apply map_eq. intros id. destruct (loans t !! id) as [x'|] eqn:E'.
    + destruct (fresh_posting_loan _ _ _ _ _ _ _ _ _ Hp Hd E') as (x & -> & ->).
      rewrite no_effect by done. destruct x. simpl. do 2 f_equal. lia.
    + destruct (loans d !! id) as [x|] eqn:Ex; [|done].
      destruct (forget_loan d t _ _ (fp_forget _ _ _ _ _ _ _ Hp) Ex) as (y & ? & _). congruence.
  - rewrite (fp_flushed _ _ _ _ _ _ _ Hp). done.
Qed.

(** The whole invariant of an institution's database. *)
Definition tenant_ok (d : TenantDb) : Prop := sound d /\ loan_books d.

Lemma tenant_ok_empty : tenant_ok empty_tenant.
Proof.
  split; [split; [apply ledger_ok_empty|by intros id a]|]. by split.
Qed.

Lemma disburse_loan_ok now today tx s line_id loan product key date d t r :
  disburse_loan now today tx s line_id loan product key date d = (t, Ret r) ->
  key_fresh key d -> tenant_ok d -> tenant_ok t.
Proof.
  intros H Hk [[Hd Ho] Hb]. split; [by eapply disburse_loan_sound|].
  destruct (disburse_loan_run _ _ _ _ _ _ _ _ _ _ _ _ H Hd Hk) as (lines & l & l' & u & Hdb).
  by eapply disbursed_loan_books.
Qed.

Lemma repay_installment_ok now tx loan amount key d t r :
  repay_installment now tx loan amount key d = (t, Ret r) ->
  key_fresh key d -> tenant_ok d -> tenant_ok t.
Proof.
  destruct r as [r line]. intros H Hk [[Hd Ho] Hb]. split; [by eapply repay_installment_sound|].
  destruct (repay_installment_run _ _ _ _ _ _ _ _ _ H Hd Hb Hk) as (l & l' & s & x & Hr).
  by eapply repaid_loan_books.
Qed.

Lemma deposit_ok tx account amount key desc d t r :
  deposit tx account amount key desc d = (t, Ret r) -> 0 <= amount -> tenant_ok d -> tenant_ok t.
Proof.
  intros H Ha [Hs Hb]. split; [by eapply deposit_sound|].
  apply deposit_run in H as (a & cash & _ & _ & _ & H).
  eapply posting_loan_books; [exact H|by repeat constructor|apply Hs|done].
Qed.

Lemma withdraw_ok tx account amount key desc d t r :
  withdraw tx account amount key desc d = (t, Ret r) -> tenant_ok d -> tenant_ok t.
Proof.
  intros H [Hs Hb]. split; [by eapply withdraw_sound|].
  apply withdraw_run in H as (a & cash & _ & _ & _ & _ & H).
  eapply posting_loan_books; [exact H|by repeat constructor|apply Hs|done].
Qed.

(** A closed loan owes nothing: every installment is paid in full. *)
Lemma closed_owes_nothing d id l :
  loan_books d -> loans d !! id = Some l -> lo_status l = CLOSED -> outstanding_principal l = 0.
Proof.
  intros [A B C D E] Hl Hc. destruct (D _ _ Hl) as [_ Dl]. rewrite Hc in Dl.
  destruct Dl as (s & r & _ & _ & _ & _ & <- & Hp). apply map_sum_zero. intros k x Hx.
  case_decide as Hs; [|done]. destruct (A _ _ Hx) as [(_ & _ & Hpaid) _].
  destruct (Hpaid (Hp eq_refl _ _ Hx Hs)) as [E1 _]. unfold principal_remaining. lia.
Qed.

(** ** Properties *)

(** An institution with its accounts, a verified customer, a flat loan product at
    1% and a customer's application for 1,000.00 over two months. *)
Definition example_product : LoanProduct :=
  mkLoanProduct "Micro" "MICRO" FLAT 10000 1000 1000000 1 24.
Definition example_institution : TenantDb :=
  empty_tenant
    <| customers := {[3%positive := mkCustomer 2 "Awa" None VERIFIED]} |>
    <| loan_products := {[5%positive := example_product]} |>
    <| internal_accounts ::= <[1%positive := mkInternalAccount "cash" "debit" 0]> |>
    <| internal_accounts ::= <[2%positive := mkInternalAccount "interest_income" "credit" 0]> |>.

Lemma example_institution_ok : tenant_ok example_institution.
Proof.
  assert (ledger_ok example_institution) as H.
  { apply ledger_ok_new_internal; [|done|done|by right].
    apply ledger_ok_new_internal; [|done|done|by left].
    eapply same_books_ok; [|apply ledger_ok_empty]. by split. }
  split; [split; [done|by intros id a]|]. by split.
Qed.

(** The application approved by staff member 6. *)
Definition approved_loan : M TenantDb unit :=
  create_loan 9 3 5 100000 2;; submit_for_approval 9;; approve_loan 0 9 6.
Definition example_approved : TenantDb := (approved_loan example_institution).1.
Definition example_disbursed : TenantDb :=
  (disburse_loan 0 (Date 2026 1 31) 20 30 (fun i => Pos.of_nat (40 + i)) 9 example_product "d1" None
     example_approved).1.

Lemma approved_loan_ok d t u : approved_loan d = (t, Ret u) -> tenant_ok d -> tenant_ok t.
Proof.
  unfold approved_loan. intros H [Hs Hb].
  apply bind_Ret in H as (d1 & ? & H1 & H). apply bind_Ret in H as (d2 & [] & H2 & H3).
  split.
  - eapply approve_loan_sound; [exact H3|]. eapply submit_for_approval_sound; [exact H2|].
    by eapply create_loan_sound.
  - eapply set_status_books; [exact H3|done|done|].
    eapply set_status_books; [exact H2|done|done|].
    eapply create_loan_books; [|exact H1|done]. lia.
Qed.

Lemma run_fst {A} (m : M TenantDb A) d (r : A) : (m d).2 = Ret r -> m d = ((m d).1, Ret r).
Proof. destruct (m d). simpl. by intros ->. Qed.

Lemma example_approved_ok : tenant_ok example_approved.
Proof.
  eapply approved_loan_ok; [|apply example_institution_ok].
  apply (run_fst _ _ tt). vm_compute. reflexivity.
Qed.




Lemma example_disbursed_ok : tenant_ok example_disbursed.
Proof.
  eapply (disburse_loan_ok 0 (Date 2026 1 31) 20 30 _ 9 example_product "d1" None example_approved);
    [|vm_compute; reflexivity|apply example_approved_ok].
  apply (run_fst _ _ tt). vm_compute. reflexivity.
Qed.


(** Retrying a repayment with the same key is not idempotent: the second call
    returns the first transaction and books nothing, but pays the installment a
    second time.  Here half of the installment was paid once, and the installment
    ends up fully paid while the loan still owes its whole first half. *)
Theorem repay_replay_pays_twice :
  let once := repay_installment 0 21 9 25500 "r1" example_disbursed in
  let twice := repay_installment 0 22 9 25500 "r1" once.1 in
  twice.2 = once.2 /\
  ledger_entries twice.1 = ledger_entries once.1 /\
  outstanding_principal <$> loans twice.1 !! 9%positive = outstanding_principal <$> loans once.1 !! 9%positive /\
  rl_status <$> schedule_lines once.1 !! 40%positive = Some LINE_PENDING /\
  rl_status <$> schedule_lines twice.1 !! 40%positive = Some LINE_PAID /\
  remaining_of 30 (schedule_lines twice.1) <> from_option outstanding_principal 0 (loans twice.1 !! 9%positive).
Proof. vm_compute. split_and!; done. Qed.
