(* ===== verification/MfRbac.v ===== *)
(** * Staff permissions of the microfinance service: [microfinance/mf_app/services/rbac.py] *)

From S2P Require Import Prelude PyStd Amortization Tenant.

(** ** Model *)

Definition ALL_ROLES : list MFStaffRole := [INSTITUTION_ADMIN; BRANCH_MANAGER; LOAN_OFFICER; TELLER].

(** [_PERMISSIONS], in the order of the source. *)
Definition PERMISSIONS : list (string * list MFStaffRole) :=
  [("branches:manage", [INSTITUTION_ADMIN]);
   ("branches:read", ALL_ROLES);
   ("staff:manage", [INSTITUTION_ADMIN]);
   ("staff:read", [INSTITUTION_ADMIN; BRANCH_MANAGER]);
   ("customers:manage", [INSTITUTION_ADMIN; BRANCH_MANAGER; LOAN_OFFICER]);
   ("customers:read", ALL_ROLES);
   ("savings_products:manage", [INSTITUTION_ADMIN]);
   ("savings_products:read", ALL_ROLES);
   ("savings:transact", [INSTITUTION_ADMIN; BRANCH_MANAGER; TELLER]);
   ("savings:read", ALL_ROLES);
   ("loan_products:manage", [INSTITUTION_ADMIN]);
   ("loan_products:read", ALL_ROLES);
   ("loans:manage", [INSTITUTION_ADMIN; BRANCH_MANAGER; LOAN_OFFICER]);
   ("loans:approve", [INSTITUTION_ADMIN; BRANCH_MANAGER]);
   ("loans:disburse", [INSTITUTION_ADMIN; BRANCH_MANAGER; TELLER]);
   ("loans:repay", [INSTITUTION_ADMIN; BRANCH_MANAGER; TELLER]);
   ("loans:read", ALL_ROLES);
   ("reports:read", [INSTITUTION_ADMIN; BRANCH_MANAGER])].

Definition has_permission (role : MFStaffRole) (action : string) : outcome bool :=
  match dict_get PERMISSIONS action with
  | None => Exc ValueError
  | Some allowed => Ret (bool_decide (role ∈ allowed))
  end.

Definition require_permission {S} (role : MFStaffRole) (action : string) : M S unit :=
  match has_permission role action with
  | Exc e => raise e
  | Ret b => require b (HTTPException 403)
  end.

(** [allows role action]: the request passes the guard. *)
Definition allows (role : MFStaffRole) (action : string) : bool :=
  match has_permission role action with Ret b => b | Exc _ => false end.

(** ** Lemmas *)

Lemma pres_require_staff_permission {S} (I : S -> Prop) role action : pres I (require_permission role action).
Proof. unfold require_permission. destruct (has_permission role action); auto with pres. Qed.
#[export] Hint Resolve pres_require_staff_permission : pres.

Lemma require_staff_permission_run {S} role action (s t : S) u :
  require_permission role action s = (t, Ret u) <-> t = s /\ allows role action = true.
Proof.
  unfold require_permission, allows. destruct (has_permission role action) as [b|e].
  - rewrite require_Ret. tauto.
  - split; [discriminate|]. intros [_ H]. discriminate H.
Qed.

(** ** Properties *)

(** The guard of every route: an action outside the matrix is a programming
    error whoever asks; an institution's administrator may do everything in it;
    approving credit is reserved to the management, and whoever handles cash at
    the desk may neither prepare nor approve a loan, while whoever prepares
    loans may not move money. *)
Theorem require_permission_matrix {S} (role : MFStaffRole) (action : string) (s : S) :
  (dict_get PERMISSIONS action = None ->
     require_permission role action s = (s, Exc ValueError)) /\
  (forall roles, dict_get PERMISSIONS action = Some roles ->
     (role ∈ roles -> require_permission role action s = (s, Ret tt)) /\
     (role ∉ roles -> require_permission role action s = (s, Exc (HTTPException 403))) /\
     INSTITUTION_ADMIN ∈ roles) /\
  (allows role "loans:approve" = true <-> role = INSTITUTION_ADMIN \/ role = BRANCH_MANAGER) /\
  (allows TELLER "loans:manage" = false /\ allows TELLER "loans:approve" = false) /\
  (forall a, a ∈ ["savings:transact"; "loans:disburse"; "loans:repay"] -> allows LOAN_OFFICER a = false).
Proof.
  unfold require_permission, has_permission. split_and!.
  - by intros ->.
  - intros roles E. rewrite E. split_and!.
    + intros H. by rewrite bool_decide_eq_true_2.
    + intros H. by rewrite bool_decide_eq_false_2.
    + apply dict_get_In in E.
      assert (Forall (fun ar : string * list MFStaffRole => INSTITUTION_ADMIN ∈ ar.2) PERMISSIONS) as H
        by (repeat constructor).
      rewrite Forall_forall in H. apply (H (action, roles) E).
  - destruct role; vm_compute; split; intros H; try discriminate H; try tauto; destruct H as [H|H]; discriminate H.
  - reflexivity.
  - reflexivity.
  - intros a Ha. repeat (apply elem_of_cons in Ha as [->|Ha]; [reflexivity|]). by apply elem_of_nil in Ha.
Qed.
