(* ===== verification/Queue.v ===== *)
(** * The job queues: [backend/app/services/jobs.py], [backend/app/worker.py]

    Both services keep a queue in a table of their own database, with the same
    columns and the same code.  The queue is written once, against an interface
    ([JobRow], [JobStore]); [Jobs] and [MfControl] instantiate it. *)

From S2P Require Import Prelude PyStd.

(** ** JSON payloads *)

(** The values the services put in a JSON column.  [JId] is the text of a UUID. *)
Inductive jval :=
| JNull | JBool (b : bool) | JInt (z : Z) | JStr (s : string) | JId (u : uuid) | JIds (us : list uuid)
| JTime (t : timestamp).
#[export] Instance jval_eq_dec : EqDecision jval.
Proof. solve_decision. Defined.
Abbreviation payload := (gmap string jval) (only parsing).

(** [payload[key]] *)
Definition item {S} (p : payload) (key : string) : M S jval := some_or (p !! key) KeyError.

(** [uuid.UUID(v)] *)
Definition as_uuid {S} (v : jval) : M S uuid :=
  match v with
  | JId u => mret u
  | JStr _ => raise ValueError
  | JNull => raise TypeError
  | _ => raise AttributeError
  end.

Lemma as_uuid_Ret {S} v (s t : S) u : as_uuid v s = (t, Ret u) <-> t = s /\ v = JId u.
Proof. destruct v; simpl; unfold mret, M_ret, raise; naive_solver. Qed.

(** ** Model *)

Inductive JobStatus := QUEUED | RUNNING | SUCCEEDED | FAILED | RETRYING.
#[export] Instance JobStatus_eq_dec : EqDecision JobStatus.
Proof. solve_decision. Defined.

(** The columns the queue itself reads and writes. *)
Record JobCore := mkJobCore {
  status : JobStatus;
  result : option payload;
  error : option string;
  attempts : Z;
  max_attempts : Z;
  next_run_at : timestamp;
  started_at : option timestamp;
  completed_at : option timestamp;
  created_at : timestamp;
}.
#[export] Instance JobCore_fields : Fields JobCore := fun c =>
  mkJobCore (status c) (result c) (error c) (attempts c) (max_attempts c) (next_run_at c)
    (started_at c) (completed_at c) (created_at c).

(** The defaults of the columns, for a row inserted at [now]. *)
Definition new_core (now : timestamp) : JobCore :=
  mkJobCore QUEUED None None 0 5 now None None now.

(** A row of a job table, seen by the queue. *)
Class JobRow (J : Type) := {
  core : J -> JobCore;
  with_core : JobCore -> J -> J;
  job_type : J -> string;
  core_with : forall c j, core (with_core c j) = c;
  type_with : forall c j, job_type (with_core c j) = job_type j;
}.

(** A database that holds a job table. *)
Class JobStore (S J : Type) := {
  jobs : S -> gmap uuid J;
  set_jobs : gmap uuid J -> S -> S;
  jobs_set : forall m s, jobs (set_jobs m s) = m;
  set_set : forall m m' s, set_jobs m (set_jobs m' s) = set_jobs m s;
  set_get : forall s, set_jobs (jobs s) s = s;
}.

Definition BACKOFF_BASE_SECONDS : Z := 5.
Definition BACKOFF_MAX_SECONDS : Z := 300.

Section queue.
Context {S J : Type} `{JR : JobRow J} `{JS : JobStore S J}.
(** [str(exc)] *)
Context (str_exn : exn -> string).

(** The object of a job in the session. *)
Definition job_object (id : uuid) : M S J :=
  o ← gets (fun s => jobs s !! id); some_or o AttributeError.

(** Assigns attributes of a job object. *)
Definition set_core (id : uuid) (f : JobCore -> JobCore) : M S unit :=
  modify (fun s => set_jobs (alter (fun j => with_core (f (core j)) j) id (jobs s)) s).

(** [db.add(Job(...)); db.flush()] *)
Definition insert_job (id : uuid) (j : J) : M S uuid :=
  existing ← gets (fun s => jobs s !! id);
  require (bool_decide (existing = None)) IntegrityError;;
  modify (fun s => set_jobs (<[id := j]> (jobs s)) s);;
  mret id.

Definition due (now : timestamp) (c : JobCore) : bool :=
  (bool_decide (status c = QUEUED) || bool_decide (status c = RETRYING)) && (next_run_at c <=? now).

Definition claim_next_job (now : timestamp) : M S (option uuid) :=
  table ← gets jobs;
  match min_by (fun kj => created_at (core kj.2)) (select (fun j => due now (core j)) table) with
  | None => mret None
  | Some (id, _) =>
      set_core id (fun c => c <| status := RUNNING |> <| attempts ::= Z.add 1 |>
                              <| started_at := Some now |>);;
      mret (Some id)
  end.

Definition mark_succeeded (now : timestamp) (id : uuid) (r : option payload) : M S unit :=
  set_core id (fun c => c <| status := SUCCEEDED |> <| result := r |> <| completed_at := Some now |>
                          <| error := None |>).

Definition backoff (attempts : Z) : Z :=
  Z.min (BACKOFF_BASE_SECONDS * 2 ^ (attempts - 1)) BACKOFF_MAX_SECONDS.

Definition mark_failed_or_retry (now : timestamp) (id : uuid) (err : string) : M S unit :=
  set_core id (fun c => c <| error := Some (String.substring 0 2000 err) |>);;
  j ← job_object id;
  if max_attempts (core j) <=? attempts (core j) then
    set_core id (fun c => c <| status := FAILED |> <| completed_at := Some now |>)
  else
    set_core id (fun c => c <| status := RETRYING |>
                            <| next_run_at := now + seconds (backoff (attempts c)) |>).

(** [run_once]: claims a job in one transaction, runs its handler in a second one.
    [handlers] and [terminal] are the two dispatch tables. *)
Definition run_once (now : timestamp) (handlers : string -> option (uuid -> M S (option payload)))
    (terminal : string -> option (uuid -> M S unit)) : M S bool :=
  claimed ← atomic (claim_next_job now);
  match claimed with
  | None => mret false
  | Some id =>
      atomic (
        j ← job_object id;
        try_except
          (handler ← some_or (handlers (job_type j)) ValueError;
           r ← handler id;
           mark_succeeded now id r)
          (fun e => Some (
             mark_failed_or_retry now id (str_exn e);;
             j ← job_object id;
             if decide (status (core j) = FAILED) then
               match terminal (job_type j) with
               | Some h => h id
               | None => mret tt
               end
             else mret tt)));;
      mret true
  end.

(** ** Lemmas *)

Definition core_of (s : S) (id : uuid) : option JobCore := core <$> jobs s !! id.

Lemma set_core_run id f s t u :
  set_core id f s = (t, Ret u) ->
  forall j, core_of t j = if decide (j = id) then f <$> core_of s j else core_of s j.
Proof.
  intros ->%modify_Ret j. unfold core_of. rewrite jobs_set. case_decide as E.
  - subst j. rewrite lookup_alter_eq. destruct (jobs s !! id); simpl; [|done]. by rewrite core_with.
  - by rewrite lookup_alter_ne.
Qed.

Lemma set_core_total id f s : exists t, set_core id f s = (t, Ret tt).
Proof. by eexists. Qed.

Lemma job_object_run id s t j : job_object id s = (t, Ret j) <-> t = s /\ jobs s !! id = Some j.
Proof.
  unfold job_object. split.
  - intros Hr. minv. done.
  - intros [-> Hj]. rewrite bind_Ret. exists s, (Some j). by rewrite gets_Ret, some_or_Ret.
Qed.

(** Everything a claim does. *)
Lemma claim_next_job_run now s t r :
  claim_next_job now s = (t, r) ->
  (r = Ret None /\ t = s /\ forall id c, core_of s id = Some c -> due now c = false) \/
  exists id c, r = Ret (Some id) /\ core_of s id = Some c /\ due now c = true /\
    (forall id' c', core_of s id' = Some c' -> due now c' = true -> created_at c <= created_at c') /\
    (forall j, core_of t j = if decide (j = id)
       then Some (c <| status := RUNNING |> <| attempts ::= Z.add 1 |> <| started_at := Some now |>)
       else core_of s j).
Proof.
  unfold claim_next_job, mbind at 1, M_bind at 1, gets. intros Hr.
  destruct (min_by _ _) as [[id j]|] eqn:E.
  - right. apply min_by_Some in E as [Hin Hmin]. apply elem_of_select in Hin as [Hj Hdue].
    set (f := fun c : JobCore => _) in Hr.
    destruct (set_core_total id f s) as [t' Ht'].
    unfold mbind, M_bind in Hr. rewrite Ht' in Hr. injection Hr as <- <-.
    exists id, (core j). unfold core_of at 1. rewrite Hj. split_and!; try done.
    + intros id' c' Hc' Hd'. unfold core_of in Hc'. apply fmap_Some in Hc' as (j' & Hj' & ->).
      apply (Hmin (id', j')). by apply elem_of_select.
    + intros k. rewrite (set_core_run _ _ _ _ _ Ht'). case_decide; [|done]. subst k.
      unfold core_of. by rewrite Hj.
  - left. injection Hr as <- <-. split_and!; try done.
    apply min_by_None in E. rewrite select_nil_iff in E. intros id c Hc.
    unfold core_of in Hc. apply fmap_Some in Hc as (j & Hj & ->). by eapply E.
Qed.

(** The life of a job row: it waits with attempts left, and never exceeds its limit. *)
Definition core_ok (c : JobCore) : Prop :=
  attempts c <= max_attempts c /\
  (status c = QUEUED \/ status c = RETRYING -> attempts c < max_attempts c) /\ 0 <= attempts c.
Definition queue_ok (s : S) : Prop := forall id c, core_of s id = Some c -> core_ok c.

Lemma due_waiting now c : due now c = true -> status c = QUEUED \/ status c = RETRYING.
Proof.
  unfold due. intros [[Hs|Hs]%orb_true_iff _]%andb_true_iff; apply bool_decide_eq_true in Hs; auto.
Qed.

Lemma claim_next_job_ok now : pres queue_ok (claim_next_job now).
Proof.
  intros s Hs. destruct (claim_next_job now s) as [t r] eqn:E. simpl.
  destruct (claim_next_job_run _ _ _ _ E) as [(_ & -> & _)|(id & c & _ & Hc & Hd & _ & Ht)]; [done|].
  intros j c'. rewrite Ht. case_decide; [|apply Hs]. intros [= <-].
  destruct (Hs _ _ Hc) as (H1 & H2 & H3). apply due_waiting, H2 in Hd. unfold core_ok. simpl.
  split_and!; [lia|intros [?|?]; done|lia].
Qed.

(** What is left of a failed run: [c] is the row as the handler left it. *)
Definition failed_core (now : timestamp) (err : string) (c : JobCore) : JobCore :=
  let c := c <| error := Some (String.substring 0 2000 err) |> in
  if max_attempts c <=? attempts c then c <| status := FAILED |> <| completed_at := Some now |>
  else c <| status := RETRYING |> <| next_run_at := now + seconds (backoff (attempts c)) |>.

Lemma mark_failed_or_retry_run now id err s c :
  core_of s id = Some c ->
  exists t, mark_failed_or_retry now id err s = (t, Ret tt) /\
    forall j, core_of t j = if decide (j = id) then Some (failed_core now err c) else core_of s j.
Proof.
  intros Hc. unfold mark_failed_or_retry.
  set (f := fun c : JobCore => c <| error := _ |>).
  destruct (set_core_total id f s) as [s1 H1]. pose proof (set_core_run _ _ _ _ _ H1) as E1.
  assert (core_of s1 id = Some (f c)) as Hc1 by (rewrite E1, decide_True, Hc by done; done).
  unfold core_of in Hc1. apply fmap_Some in Hc1 as (j & Hj & Hfc).
  unfold mbind at 1, M_bind at 1. rewrite H1.
  unfold mbind at 1, M_bind at 1. assert (job_object id s1 = (s1, Ret j)) as -> by (by apply job_object_run).
  rewrite <- Hfc. unfold failed_core. fold (f c).
  destruct (max_attempts (f c) <=? attempts (f c)).
  - set (g := fun c : JobCore => c <| status := FAILED |> <| completed_at := _ |>).
    destruct (set_core_total id g s1) as [s2 H2]. pose proof (set_core_run _ _ _ _ _ H2) as E2.
    exists s2. split; [done|]. intros k. rewrite E2, E1. case_decide; [|done]. subst k. by rewrite Hc.
  - set (g := fun c : JobCore => c <| status := RETRYING |> <| next_run_at := _ |>).
    destruct (set_core_total id g s1) as [s2 H2]. pose proof (set_core_run _ _ _ _ _ H2) as E2.
    exists s2. split; [done|]. intros k. rewrite E2, E1. case_decide; [|done]. subst k. by rewrite Hc.
Qed.

Lemma backoff_bounds n : 1 <= n -> BACKOFF_BASE_SECONDS <= backoff n <= BACKOFF_MAX_SECONDS.
Proof.
  unfold backoff, BACKOFF_BASE_SECONDS, BACKOFF_MAX_SECONDS. intros Hn.
  assert (2 ^ 0 <= 2 ^ (n - 1)) by (apply Z.pow_le_mono_r; lia). lia.
Qed.

Lemma backoff_mono n m : 1 <= n <= m -> backoff n <= backoff m.
Proof.
  unfold backoff, BACKOFF_BASE_SECONDS, BACKOFF_MAX_SECONDS. intros Hn.
  assert (2 ^ (n - 1) <= 2 ^ (m - 1)) by (apply Z.pow_le_mono_r; lia). lia.
Qed.

(** A handler leaves the queue's columns of its own row alone. *)
Definition frames {A} (id : uuid) (m : M S A) : Prop :=
  forall s, is_Some (core_of s id) -> core_of (m s).1 id = core_of s id.

(** Attempts that are still allowed, over the whole table. *)
Definition attempts_left (s : S) : Z := map_sum (fun j => max_attempts (core j) - attempts (core j)) (jobs s).

Lemma core_ok_left s id c : queue_ok s -> core_of s id = Some c -> 0 <= max_attempts c - attempts c.
Proof. intros Hs Hc. destruct (Hs _ _ Hc) as (? & ? & ?). lia. Qed.

Lemma attempts_left_nonneg s : queue_ok s -> 0 <= attempts_left s.
Proof.
  intros Hs. unfold attempts_left, map_sum. apply sumZ_nonneg, Forall_forall.
  intros x (j & -> & Hj)%list_elem_of_fmap. apply list_elem_of_fmap in Hj as ([id j'] & -> & Hj).
  apply elem_of_map_to_list in Hj. simpl. apply (core_ok_left s id); [done|].
  unfold core_of. by rewrite Hj.
Qed.

Lemma attempts_left_cores s t id c c' :
  core_of s id = Some c ->
  (forall j, core_of t j = if decide (j = id) then Some c' else core_of s j) ->
  attempts_left t = attempts_left s - (max_attempts c - attempts c) + (max_attempts c' - attempts c').
Proof.
  intros Hc Ht. unfold attempts_left.
  set (g := fun c : JobCore => max_attempts c - attempts c).
  assert (forall m : gmap uuid J, map_sum (fun j => g (core j)) m = map_sum g (core <$> m)) as Eg.
  { intros m. unfold map_sum. rewrite map_to_list_fmap, <- !list_fmap_compose. done. }
  fold (g c) (g c'). change (fun j => _) with (fun j => g (core j)). rewrite !Eg.
  assert (core <$> jobs t = <[id := c']> (core <$> jobs s)) as ->.
  { apply map_eq. intros j. rewrite lookup_fmap. specialize (Ht j). unfold core_of in Ht. rewrite Ht.
    case_decide; [subst j; by rewrite lookup_insert_eq|]. by rewrite lookup_insert_ne, lookup_fmap. }
  apply map_sum_insert. rewrite lookup_fmap. exact Hc.
Qed.

(** How a run ends for the claimed job. *)
Inductive settled (now : timestamp) (c c' : JobCore) : Prop :=
| settled_done : status c' = SUCCEEDED -> completed_at c' = Some now -> error c' = None -> settled now c c'
| settled_retry : status c' = RETRYING -> attempts c + 1 < max_attempts c ->
    next_run_at c' = now + seconds (backoff (attempts c + 1)) -> settled now c c'
| settled_failed : status c' = FAILED -> max_attempts c <= attempts c + 1 ->
    completed_at c' = Some now -> settled now c c'.

Lemma job_of_core s id c : core_of s id = Some c -> exists j, jobs s !! id = Some j /\ core j = c.
Proof. unfold core_of. intros (j & Hj & ->)%fmap_Some. eauto. Qed.

(** The second transaction of [run_once]. *)
Lemma settle_run now id (m : M S (option payload)) (k : J -> M S unit) c s :
  core_of s id = Some c -> frames id m ->
  (forall j s, is_Some (core_of s id) -> exists t, k j s = (t, Ret tt) /\ core_of t id = core_of s id) ->
  exists t c', atomic (try_except (r ← m; mark_succeeded now id r)
      (fun e => Some (mark_failed_or_retry now id (str_exn e);;
         j ← job_object id;
         if decide (status (core j) = FAILED) then k j else mret tt))) s = (t, Ret tt) /\
    core_of t id = Some c' /\ attempts c' = attempts c /\ max_attempts c' = max_attempts c /\
    ((status c' = SUCCEEDED /\ completed_at c' = Some now /\ error c' = None) \/
     exists e, c' = failed_core now (str_exn e) c).
Proof.
  intros Hc Hm Hk. specialize (Hm s ltac:(by rewrite Hc)). destruct (m s) as [s1 [r|e]] eqn:E; simpl in Hm.
  - destruct (set_core_total id (fun c => c <| status := SUCCEEDED |> <| result := r |>
        <| completed_at := Some now |> <| error := None |>) s1) as [t Ht].
    pose proof (set_core_run _ _ _ _ _ Ht) as Et.
    exists t. eexists. split.
    { apply atomic_Ret. unfold try_except. unfold mbind, M_bind. rewrite E.
      unfold mark_succeeded. by rewrite Ht. }
    split; [rewrite Et, decide_True, Hm, Hc by done; reflexivity|].
    split; [done|]. split; [done|]. by left.
  - rewrite Hc in Hm.
    destruct (mark_failed_or_retry_run now id (str_exn e) s1 c Hm) as (s2 & H2 & E2).
    assert (core_of s2 id = Some (failed_core now (str_exn e) c)) as Hc2 by (by rewrite E2, decide_True).
    destruct (job_of_core _ _ _ Hc2) as (j & Hj & Ej).
    destruct (Hk j s2) as (s3 & H3 & E3); [by rewrite Hc2|].
    exists (if decide (status (core j) = FAILED) then s3 else s2), (failed_core now (str_exn e) c).
    split.
    { apply atomic_Ret. unfold try_except. unfold mbind at 1, M_bind at 1. rewrite E.
      unfold mbind at 1, M_bind at 1. rewrite H2.
      unfold mbind at 1, M_bind at 1.
      assert (job_object id s2 = (s2, Ret j)) as -> by (by apply job_object_run).
      case_decide; [apply H3|done]. }
    split; [case_decide; [by rewrite E3|done]|].
    unfold failed_core. split; [|split]; [case_match; done..|]. right. by exists e.
Qed.

Lemma failed_core_settled now e c c0 :
  attempts c = attempts c0 + 1 -> max_attempts c = max_attempts c0 ->
  settled now c0 (failed_core now e c).
Proof.
  intros H1 H2. unfold failed_core. simpl. destruct (Z.leb_spec (max_attempts c) (attempts c)).
  - apply settled_failed; simpl; [done|lia|done].
  - apply settled_retry; simpl; [done|lia|]. by rewrite H1.
Qed.

Lemma run_once_settles now handlers terminal s id c t1 :
  claim_next_job now s = (t1, Ret (Some id)) -> core_of s id = Some c ->
  (forall ty h, handlers ty = Some h -> frames id (h id)) ->
  (forall ty h, terminal ty = Some h ->
     forall s, is_Some (core_of s id) -> exists t, h id s = (t, Ret tt) /\ core_of t id = core_of s id) ->
  exists t c', run_once now handlers terminal s = (t, Ret true) /\ core_of t id = Some c' /\
    attempts c' = attempts c + 1 /\ max_attempts c' = max_attempts c /\ settled now c c'.
Proof.
  intros Hcl Hc Hh Ht.
  destruct (claim_next_job_run _ _ _ _ Hcl) as [(H' & _)|(id' & c0 & [= <-] & Hc0 & _ & _ & Et1)];
    [discriminate H'|]. simplify_eq.
  set (c1 := c <| status := RUNNING |> <| attempts ::= Z.add 1 |> <| started_at := Some now |>) in *.
  assert (core_of t1 id = Some c1) as Hc1 by (by rewrite Et1, decide_True).
  destruct (job_of_core _ _ _ Hc1) as (j & Hj & Ej).
  set (body := h ← some_or (handlers (job_type j)) ValueError; h id).
  set (k := fun j : J => match terminal (job_type j) with Some h => h id | None => (mret tt : M S unit) end).
  destruct (settle_run now id body k c1 t1 Hc1) as (t & c' & Hrun & Hc' & A1 & A2 & A3).
  - intros u Hu. unfold body. destruct (handlers (job_type j)) as [h|] eqn:Eh; [|done]. by eapply Hh.
  - intros j' u Hu. unfold k. destruct (terminal (job_type j')) as [h|] eqn:Eh; [by eapply Ht|].
    by exists u.
  - exists t, c'. split.
    { unfold run_once. unfold mbind at 1, M_bind at 1.
      assert (atomic (claim_next_job now) s = (t1, Ret (Some id))) as -> by (by apply atomic_Ret).
      apply (proj1 (atomic_Ret _ _ _ _)) in Hrun. unfold mbind at 1, M_bind at 1.
      rewrite (proj2 (atomic_Ret _ t1 t tt)); [done|].
      unfold mbind at 1, M_bind at 1.
      assert (job_object id t1 = (t1, Ret j)) as -> by (by apply job_object_run).
      rewrite <- Hrun. unfold try_except.
      unfold body, mbind, M_bind. destruct (handlers (job_type j)); done. }
    split_and!; try done; [rewrite A1; unfold c1; simpl; lia|].
    destruct A3 as [(B1 & B2 & B3)|[e ->]]; [by apply settled_done|].
    apply failed_core_settled; unfold c1; simpl; [lia|done].
Qed.

End queue.
