(* ===== verification/MfControl.v ===== *)
(** * The microfinance service's control database

    Institutions, staff accounts, the job queue and the authentication of a request:
    [microfinance/mf_app/models/], [core/dependencies.py], [services/jobs.py],
    [services/onboarding.py], [worker.py]. *)

From stdpp Require Import pretty.
From S2P Require Import Prelude PyStd Amortization Tenant Ledger Savings Loans Queue MfRbac.

(** ** Data *)

Inductive MFInstitutionStatus := PROVISIONING | INST_ACTIVE | INST_FAILED | INST_SUSPENDED.
#[export] Instance MFInstitutionStatus_eq_dec : EqDecision MFInstitutionStatus.
Proof. solve_decision. Defined.

Record MFInstitution := mkMFInstitution {
  mi_name : string;
  mi_slug : string;
  mi_status : MFInstitutionStatus;
  cp_project_id : option uuid;
  cp_database_id : option uuid;
  db_host : option string;
  db_port : option Z;
  db_name : option string;
  db_username : option string;
  encrypted_db_password : option string;
  failure_reason : option string;
}.

Record MFStaffUser := mkMFStaffUser {
  institution_id : uuid;
  email : string;
  password_hash : string;
  role : MFStaffRole;
  tenant_agent_id : option uuid;
  is_active : bool;
}.

Record MFJob := mkMFJob {
  mj_type : string;
  mj_institution_id : option uuid;
  mj_payload : payload;
  mj_core : JobCore;
}.

Record MFPlatformAccount := mkMFPlatformAccount {
  cp_organization_id : uuid;
  cp_email : string;
  encrypted_cp_password : string;
  cached_access_token : option string;
  token_expires_at : option timestamp;
}.

(** [tenants]: the institutions' own databases, by URL. *)
Record MfWorld := mkMfWorld {
  institutions : gmap uuid MFInstitution;
  staff_users : gmap uuid MFStaffUser;
  mf_jobs : gmap uuid MFJob;
  platform_accounts : gmap uuid MFPlatformAccount;
  tenants : gmap string TenantDb;
}.

#[export] Instance MFInstitution_fields : Fields MFInstitution := fun i =>
  mkMFInstitution (mi_name i) (mi_slug i) (mi_status i) (cp_project_id i) (cp_database_id i)
    (db_host i) (db_port i) (db_name i) (db_username i) (encrypted_db_password i) (failure_reason i).
#[export] Instance MFJob_fields : Fields MFJob := fun j =>
  mkMFJob (mj_type j) (mj_institution_id j) (mj_payload j) (mj_core j).
#[export] Instance MFPlatformAccount_fields : Fields MFPlatformAccount := fun a =>
  mkMFPlatformAccount (cp_organization_id a) (cp_email a) (encrypted_cp_password a)
    (cached_access_token a) (token_expires_at a).
#[export] Instance MfWorld_fields : Fields MfWorld := fun w =>
  mkMfWorld (institutions w) (staff_users w) (mf_jobs w) (platform_accounts w) (tenants w).

#[export] Program Instance MFJob_row : JobRow MFJob := {
  core := mj_core;
  with_core := fun c j => j <| mj_core := c |>;
  job_type := mj_type;
}.
Solve All Obligations with done.
#[export] Program Instance MfWorld_store : JobStore MfWorld MFJob := {
  jobs := mf_jobs;
  set_jobs := fun m w => w <| mf_jobs := m |>;
}.
Solve All Obligations with by intros; destruct s.

(** ** Authentication: [core/dependencies.py] *)

Record StaffTokenPayload := mkStaffTokenPayload {
  tok_staff_user_id : uuid;
  tok_institution_id : uuid;
  tok_role : string;
}.

Section auth.
(** Verification of a signed token, and of the operator's: [PyJWT] and [argon2]. *)
Context (decode_staff_access_token : string -> option StaffTokenPayload).
Context (verify_operator_token : string -> bool).
Context (verify_password : string -> string -> bool).

Definition require_mf_operator (credentials : option string) : M MfWorld unit :=
  require (match credentials with Some c => verify_operator_token c | None => false end)
    (HTTPException 401).

Definition get_institution_by_slug (slug : string) : M MfWorld (uuid * MFInstitution) :=
  all_institutions ← gets institutions;
  institution ← scalar_one_or_none (select (fun i => bool_decide (mi_slug i = slug)) all_institutions);
  some_or institution (HTTPException 404).

Definition require_active_institution (institution : MFInstitution) : M MfWorld unit :=
  require (bool_decide (mi_status institution = INST_ACTIVE)) (HTTPException 409).

Definition get_current_staff_user (institution : uuid) (credentials : option string) :
    M MfWorld (uuid * MFStaffUser) :=
  token ← some_or credentials (HTTPException 401);
  payload ← some_or (decode_staff_access_token token) (HTTPException 401);
  require (bool_decide (tok_institution_id payload = institution)) (HTTPException 403);;
  staff ← gets (fun w => staff_users w !! tok_staff_user_id payload);
  staff ← some_or staff (HTTPException 401);
  require (is_active staff) (HTTPException 401);;
  mret (tok_staff_user_id payload, staff).

(** [POST .../auth/login]: the claims the issued token carries. *)
Definition login (slug mail password : string) : M MfWorld (uuid * uuid * MFStaffRole) :=
  institution ← get_institution_by_slug slug;
  us ← gets staff_users;
  staff ← scalar_one_or_none
    (select (fun u => bool_decide (institution_id u = institution.1) && bool_decide (email u = mail)) us);
  staff ← some_or staff (HTTPException 401);
  require (is_active staff.2 && verify_password password (password_hash staff.2)) (HTTPException 401);;
  mret (staff.1, institution.1, role staff.2).

Lemma get_current_staff_user_run institution credentials w t r :
  get_current_staff_user institution credentials w = (t, Ret r) ->
  t = w /\ exists token p, credentials = Some token /\ decode_staff_access_token token = Some p /\
    tok_institution_id p = institution /\ r.1 = tok_staff_user_id p /\
    staff_users w !! r.1 = Some r.2 /\ is_active r.2 = true.
Proof.
  unfold get_current_staff_user.
  intros (? & token & [Hc ->]%some_or_Ret & H)%bind_Ret.
  apply bind_Ret in H as (? & p & [Hp ->]%some_or_Ret & H).
  apply bind_Ret in H as (? & ? & [Hi%bool_decide_eq_true ->]%require_Ret & H).
  apply bind_Ret in H as (? & o & [-> ->]%gets_Ret & H).
  apply bind_Ret in H as (? & st & [Hs ->]%some_or_Ret & H).
  apply bind_Ret in H as (? & ? & [Ha ->]%require_Ret & [-> ->]%mret_Ret).
  split; [done|]. exists token, p. done.
Qed.

(** Both only read. *)
Lemma get_current_staff_user_Exc institution credentials w t e :
  get_current_staff_user institution credentials w = (t, Exc e) -> t = w.
Proof.
  intros H. assert (pres (eq w) (get_current_staff_user institution credentials)) as Hp
    by (unfold get_current_staff_user; pres_go).
  specialize (Hp w eq_refl). by rewrite H in Hp.
Qed.

Lemma get_institution_by_slug_Exc slug w t e : get_institution_by_slug slug w = (t, Exc e) -> t = w.
Proof.
  intros H. assert (pres (eq w) (get_institution_by_slug slug)) as Hp
    by (unfold get_institution_by_slug; pres_go).
  specialize (Hp w eq_refl). by rewrite H in Hp.
Qed.

Lemma get_institution_by_slug_run slug w t i :
  get_institution_by_slug slug w = (t, Ret i) ->
  t = w /\ institutions w !! i.1 = Some i.2 /\ mi_slug i.2 = slug /\
  forall j x, institutions w !! j = Some x -> mi_slug x = slug -> j = i.1.
Proof.
  unfold get_institution_by_slug.
  intros (? & ? & [-> ->]%gets_Ret & H)%bind_Ret.
  apply bind_Ret in H as (? & o & [-> Ho]%scalar_one_or_none_Ret & [-> ->]%some_or_Ret).
  assert (i ∈ select (fun i => bool_decide (mi_slug i = slug)) (institutions w)) as Hin by (rewrite Ho; left).
  destruct i as [i x]. apply elem_of_select in Hin as [Hi Hs%bool_decide_eq_true].
  split_and!; try done. intros j y Hj Hy.
  assert ((j, y) ∈ select (fun i => bool_decide (mi_slug i = slug)) (institutions w)) as Hin
    by (apply elem_of_select; by rewrite bool_decide_eq_true).
  rewrite Ho in Hin. by apply list_elem_of_singleton in Hin as [= -> _].
Qed.
End auth.

(** ** Tenant sessions: [db/tenant_session.py] *)

Section onboarding.
Context (encrypt_secret : string -> string) (decrypt_secret : option string -> outcome string).

(** [f"{x}"] of an optional value. *)
Definition fstr {A} `{Pretty A} (o : option A) : string :=
  match o with Some x => pretty x | None => "None" end.
#[local] Instance string_pretty : Pretty string := id.

Definition tenant_database_url (i : MFInstitution) : outcome string :=
  password ← decrypt_secret (encrypted_db_password i);
  mret ("postgresql+asyncpg://" +:+ fstr (db_username i) +:+ ":" +:+ password +:+ "@"
        +:+ fstr (db_host i) +:+ ":" +:+ fstr (db_port i) +:+ "/" +:+ fstr (db_name i)).

(** A session on the database at [url], committed when [m] returns and rolled
    back when it raises. *)
Definition on_tenant {A} (url : string) (m : M TenantDb A) : M MfWorld A := fun w =>
  match tenants w !! url with
  | None => (w, Exc OperationalError)
  | Some d =>
      let r := atomic m d in (w <| tenants ::= <[url := r.1]> |>, r.2)
  end.

(** ** The job queue and onboarding: [services/jobs.py], [services/onboarding.py] *)

Record connection := mkConnection {
  host : option string; port : option Z; database : option string; username : option string; password : string;
}.

(** The platform, through its SDK. *)
Record PlatformApi := {
  api_login : string -> string -> outcome (option string);
  create_project : uuid -> string -> string -> outcome uuid;
  create_database : uuid -> uuid -> string -> string -> outcome (uuid * uuid);
  wait_for_job : uuid -> outcome unit;
  get_database : uuid -> uuid -> uuid -> outcome uuid;
  get_connection : uuid -> uuid -> uuid -> outcome connection;
}.
Context (client : PlatformApi).
(** The exit status of the [alembic] subprocess. *)
Context (alembic_upgrade : string -> outcome unit).
(** [str(exc)] *)
Context (str_exn : exn -> string).

Definition mf_enqueue (now : timestamp) (id : uuid) (type : string) (p : payload)
    (institution : option uuid) : M MfWorld uuid :=
  insert_job id (mkMFJob type institution p (new_core now)).

Definition mf_claim_next_job (now : timestamp) : M MfWorld (option uuid) := claim_next_job now.
Definition mf_mark_succeeded (now : timestamp) (job : uuid) (r : option payload) : M MfWorld unit :=
  mark_succeeded now job r.
Definition mf_mark_failed_or_retry (now : timestamp) (job : uuid) (err : string) : M MfWorld unit :=
  mark_failed_or_retry now job err.

(** [select(MFPlatformAccount)].scalars().first() *)
Definition get_platform_account : M MfWorld (uuid * MFPlatformAccount) :=
  accounts ← gets (fun w => map_to_list (platform_accounts w));
  some_or (head accounts) RuntimeError.

Definition TOKEN_REFRESH_MARGIN : Z := seconds 60.

Definition needs_login (now : timestamp) (account : MFPlatformAccount) : bool :=
  match cached_access_token account, token_expires_at account with
  | Some _, Some expires => expires - now <? TOKEN_REFRESH_MARGIN
  | _, _ => true
  end.
(** [account.cached_access_token = token], good for 25 minutes. *)
Definition cache_token (now : timestamp) (account : uuid) (token : option string) : M MfWorld unit :=
  modify (fun w => w <| platform_accounts ::= alter (fun a =>
    a <| cached_access_token := token |> <| token_expires_at := Some (now + seconds (60 * 25)) |>) account |>).
(** The token the client is left with. *)
Definition get_authenticated_client (now : timestamp) : M MfWorld (option string) :=
  account ← get_platform_account;
  if needs_login now account.2 then
    pw ← lift_outcome (decrypt_secret (Some (encrypted_cp_password account.2)));
    token ← lift_outcome (api_login client (cp_email account.2) pw);
    cache_token now account.1 token;;
    mret token
  else mret (cached_access_token account.2).

(** [services/tenant_migrate.py]: the schema exists once the subprocess succeeds. *)
Definition run_tenant_migrations (url : string) : M MfWorld unit :=
  lift_outcome (alembic_upgrade url);;
  modify (fun w => w <| tenants ::= partial_alter (fun o => Some (default empty_tenant o)) url |>).

(** [db.add(InternalAccount(...))]; the name is unique. *)
Definition add_internal_account (id : uuid) (name side : string) : M TenantDb unit :=
  accounts ← gets internal_accounts;
  require (bool_decide (accounts !! id = None)) IntegrityError;;
  require (bool_decide (rows (fun a => bool_decide (ia_name a = name)) accounts = [])) IntegrityError;;
  modify (fun d => d <| internal_accounts ::= <[id := mkInternalAccount name side 0]> |>).

(** The tenant transaction of the onboarding. *)
Definition initial_rows (profile cash interest_income : uuid) (name currency : string) : M TenantDb unit :=
  ps ← gets institution_profiles;
  require (bool_decide (ps !! profile = None)) IntegrityError;;
  modify (fun d => d <| institution_profiles ::= <[profile := mkInstitutionProfile name currency]> |>);;
  add_internal_account cash "cash" "debit";;
  add_internal_account interest_income "interest_income" "credit".

Definition set_institution (id : uuid) (f : MFInstitution -> MFInstitution) : M MfWorld unit :=
  modify (fun w => w <| institutions ::= alter f id |>).

Definition institution_object (id : uuid) : M MfWorld MFInstitution :=
  o ← gets (fun w => institutions w !! id); some_or o AttributeError.

Definition payload_str (v : jval) : M MfWorld string :=
  match v with JStr s => mret s | _ => raise TypeError end.

(** The institution to onboard, its region and its currency. *)
Definition onboarding_request (job : uuid) : M MfWorld (uuid * MFInstitution * string * string) :=
  j ← job_object job;
  institution ← item (mj_payload j) "institution_id";
  institution ← as_uuid institution;
  found ← gets (fun w => institutions w !! institution);
  i ← some_or found RuntimeError;
  region_code ← item (mj_payload j) "region_code";
  region_code ← payload_str region_code;
  currency ← item (mj_payload j) "currency";
  currency ← payload_str currency;
  mret (institution, i, region_code, currency).

(** What the platform answered, in the row of the institution. *)
Definition with_connection (project db : uuid) (conn : connection) (i : MFInstitution) : MFInstitution :=
  i <| cp_project_id := Some project |> <| cp_database_id := Some db |>
    <| db_host := host conn |> <| db_port := port conn |>
    <| db_name := database conn |> <| db_username := username conn |>
    <| encrypted_db_password := Some (encrypt_secret (password conn)) |>.

(** The schema and the first rows of the tenant, and the institution is active. [profile],
    [cash] and [income] are the keys drawn for the tenant rows. *)
Definition open_institution (profile cash income institution : uuid) (currency : string) (project : uuid) :
    M MfWorld (option payload) :=
  i ← institution_object institution;
  tenant_url ← lift_outcome (tenant_database_url i);
  run_tenant_migrations tenant_url;;
  on_tenant tenant_url (initial_rows profile cash income (mi_name i) currency);;
  set_institution institution (fun i => i <| mi_status := INST_ACTIVE |>);;
  mret (Some {["cp_project_id" := JId project]}).

Definition execute_onboard_institution (now : timestamp) (profile cash income : uuid) (job : uuid) :
    M MfWorld (option payload) :=
  r ← onboarding_request job;
  let '(institution, i, region_code, currency) := r in
  get_authenticated_client now;;
  account ← get_platform_account;
  let org := cp_organization_id account.2 in
  project ← lift_outcome (create_project client org (mi_name i) (mi_slug i));
  created ← lift_outcome (create_database client org project "main" region_code);
  lift_outcome (wait_for_job client created.1);;
  db ← lift_outcome (get_database client org project created.2);
  conn ← lift_outcome (get_connection client org project db);
  set_institution institution (with_connection project db conn);;
  open_institution profile cash income institution currency project.

Definition mark_institution_failed (job : uuid) : M MfWorld unit :=
  j ← job_object job;
  match mj_institution_id j with
  | Some institution => set_institution institution (fun i =>
      i <| mi_status := INST_FAILED |> <| failure_reason := error (mj_core j) |>)
  | None => mret tt
  end.

(** [MF_HANDLERS] and [_TERMINAL_FAILURE_HANDLERS]. *)
Definition MF_HANDLERS (now : timestamp) (profile cash income : uuid) (ty : string) :
    option (uuid -> M MfWorld (option payload)) :=
  if decide (ty = "onboard_institution") then Some (execute_onboard_institution now profile cash income)
  else None.
Definition MF_TERMINAL_FAILURE_HANDLERS (ty : string) : option (uuid -> M MfWorld unit) :=
  if decide (ty = "onboard_institution") then Some mark_institution_failed else None.

Definition mf_run_once (now : timestamp) (profile cash income : uuid) : M MfWorld bool :=
  run_once str_exn now (MF_HANDLERS now profile cash income) MF_TERMINAL_FAILURE_HANDLERS.

(** [InstitutionCreate]: the slug is [^[a-z][a-z0-9-]{1,62}$]. *)
Definition slug_char (c : Ascii.ascii) : bool :=
  let n := Ascii.nat_of_ascii c in bool_decide (97 <= n <= 122)%nat || is_digit c || Ascii.eqb c (Ascii.ascii_of_nat 45).
Definition institution_slug_ok (slug : string) : bool :=
  match slug with
  | String c s => bool_decide (97 <= Ascii.nat_of_ascii c <= 122)%nat && all_chars slug_char s
                  && bool_decide (1 <= String.length s <= 62)%nat
  | EmptyString => false
  end.
Definition institution_create_ok (name slug region_code currency : string) : bool :=
  let len s := Z.of_nat (String.length s) in
  (2 <=? len name) && (len name <=? 200) && institution_slug_ok slug && (2 <=? len region_code) && (len region_code <=? 50)
  && (len currency =? 3).

(** [POST /institutions], after the operator's token was checked.  [id], [staff]
    and [job] are the keys drawn, [pw_hash] the hash of the generated password. *)
Definition create_institution (now : timestamp) (id staff job : uuid) (pw_hash : string)
    (name slug region_code currency admin_email : string) : M MfWorld (uuid * uuid) :=
  require (institution_create_ok name slug region_code currency) (HTTPException 422);;
  all_institutions ← gets institutions;
  existing ← scalar_one_or_none (select (fun i => bool_decide (mi_slug i = slug)) all_institutions);
  require (bool_decide (existing = None)) (HTTPException 409);;
  require (bool_decide (all_institutions !! id = None)) IntegrityError;;
  modify (fun w => w <| institutions ::= <[id :=
    mkMFInstitution name slug PROVISIONING None None None None None None None None]> |>);;
  staffs ← gets staff_users;
  require (bool_decide (staffs !! staff = None)) IntegrityError;;
  modify (fun w => w <| staff_users ::= <[staff :=
    mkMFStaffUser id admin_email pw_hash INSTITUTION_ADMIN None true]> |>);;
  job ← mf_enqueue now job "onboard_institution"
    (<["institution_id" := JId id]> (<["region_code" := JStr region_code]>
      {["currency" := JStr currency]})) (Some id);
  mret (id, job).

(** ** Onboarding *)

Lemma add_internal_account_run id name side d t u :
  add_internal_account id name side d = (t, Ret u) ->
  internal_accounts d !! id = None /\
  (forall j a, internal_accounts d !! j = Some a -> ia_name a <> name) /\
  t = d <| internal_accounts ::= <[id := mkInternalAccount name side 0]> |>.
Proof.
  unfold add_internal_account. intros H. minv.
  match goal with H : bool_decide (_ !! _ = None) = true |- _ => apply bool_decide_eq_true in H end.
  match goal with H : bool_decide (rows _ _ = []) = true |- _ => apply bool_decide_eq_true in H as Hr end.
  split; [done|]. split; [|done]. intros j a Ha Hn.
  assert (a ∈ rows (fun a => bool_decide (ia_name a = name)) (internal_accounts d)) as Hin.
  { apply elem_of_rows. exists j. by rewrite bool_decide_eq_true. }
  rewrite Hr in Hin. by apply elem_of_nil in Hin.
Qed.

Lemma add_internal_account_ok id name side d t u :
  add_internal_account id name side d = (t, Ret u) -> side = "debit" \/ side = "credit" ->
  tenant_ok d -> tenant_ok t.
Proof.
  intros (Hn & _ & ->)%add_internal_account_run Hs [[Hd Ho] Hb]. split; [split; [|done]|].
  - by apply ledger_ok_new_internal.
  - apply (loan_books_same d); try done. apply (lb_flushed _ Hb).
Qed.

Lemma add_internal_account_is id name side d t u :
  add_internal_account id name side d = (t, Ret u) ->
  internal_is name t id /\
  normal_balance_side <$> internal_accounts t !! id = Some side /\
  forall name' id', internal_is name' d id' -> name' <> name ->
    internal_is name' t id' /\ internal_accounts t !! id' = internal_accounts d !! id'.
Proof.
  intros (Hid & Hn & ->)%add_internal_account_run. split; [|split].
  - exists (mkInternalAccount name side 0). apply select_singleton.
    + apply lookup_insert_eq.
    + unfold named. by rewrite bool_decide_eq_true.
    + intros j a Hj Ha%bool_decide_eq_true. simpl in Hj.
      apply lookup_insert_Some in Hj as [[<- _]|[_ Hj]]; [done|]. by destruct (Hn _ _ Hj).
  - simpl. by rewrite lookup_insert_eq.
  - intros name' id' His Hne. destruct (internal_is_lookup _ _ _ His) as (a & Ha & Hna).
    assert (id <> id') as Hids by congruence.
    split; [|simpl; by rewrite lookup_insert_ne].
    exists a. apply select_singleton; [simpl; by rewrite lookup_insert_ne|
      unfold named; by rewrite bool_decide_eq_true|].
    intros j b Hj Hb%bool_decide_eq_true. simpl in Hj.
    apply lookup_insert_Some in Hj as [[_ <-]|[_ Hj]]; [by destruct Hne|].
    destruct His as [a0 Hsel].
    assert ((j, b) ∈ select (named name') (internal_accounts d)) as Hin.
    { apply elem_of_select. split; [done|]. unfold named. by rewrite bool_decide_eq_true. }
    rewrite Hsel in Hin. by apply list_elem_of_singleton in Hin as [= -> ->].
Qed.

(** A tenant database the services can work with. *)
Record tenant_ready (d : TenantDb) : Prop := {
  tr_ok : tenant_ok d;
  tr_cash : exists c, internal_is "cash" d c /\
    normal_balance_side <$> internal_accounts d !! c = Some "debit";
  tr_income : exists c, internal_is "interest_income" d c /\
    normal_balance_side <$> internal_accounts d !! c = Some "credit";
}.

Lemma initial_rows_ready profile cash income name currency d t u :
  initial_rows profile cash income name currency d = (t, Ret u) -> tenant_ok d -> tenant_ready t.
Proof.
  unfold initial_rows. intros H Hd.
  apply bind_Ret in H as (? & ? & [-> ->]%gets_Ret & H).
  apply bind_Ret in H as (? & ? & [_ ->]%require_Ret & H).
  apply bind_Ret in H as (d1 & ? & Hd1%modify_Ret & H).
  apply bind_Ret in H as (d2 & ? & H1 & H2).
  assert (tenant_ok d1) as Hok.
  { subst d1. destruct Hd as [[Hl Ho] Hb]. split; [split; [|done]|].
    - eapply same_books_ok; [|exact Hl]. by split.
    - apply (loan_books_same d); try done. apply (lb_flushed _ Hb). }
  destruct (add_internal_account_is _ _ _ _ _ _ H1) as (C1 & C2 & _).
  destruct (add_internal_account_is _ _ _ _ _ _ H2) as (I1 & I2 & Hkeep).
  destruct (Hkeep "cash" cash C1) as [C3 C4]; [done|].
  split.
  - eapply add_internal_account_ok; [exact H2|by right|].
    eapply add_internal_account_ok; [exact H1|by left|done].
  - exists cash. by rewrite C4.
  - by exists income.
Qed.

Lemma on_tenant_run {A} url (m : M TenantDb A) w t a :
  on_tenant url m w = (t, Ret a) ->
  exists d d', tenants w !! url = Some d /\ m d = (d', Ret a) /\ t = w <| tenants ::= <[url := d']> |>.
Proof.
  unfold on_tenant. destruct (tenants w !! url) as [d|]; [|done].
  destruct (atomic m d) as [d' r] eqn:E. simpl. intros [= <- ->].
  apply (proj1 (atomic_Ret _ _ _ _)) in E. by exists d, d'.
Qed.

Lemma payload_str_run v w t s : payload_str v w = (t, Ret s) -> t = w.
Proof. destruct v; simpl; try discriminate. by intros [-> _]%mret_Ret. Qed.

Lemma as_uuid_run v (w t : MfWorld) u : as_uuid v w = (t, Ret u) -> t = w.
Proof. destruct v; simpl; try discriminate. by intros [-> _]%mret_Ret. Qed.

(** Reading the platform account and refreshing its token touches no tenant. *)
Lemma get_authenticated_client_tenants now w t r :
  get_authenticated_client now w = (t, Ret r) -> tenants t = tenants w /\ institutions t = institutions w.
Proof.
  unfold get_authenticated_client, get_platform_account. cbv zeta. intros H.
  apply bind_Ret in H as (? & a & Ha & H).
  assert (x = w) as -> by (minv; done).
  destruct (needs_login now a.2).
  - apply bind_Ret in H as (? & pw & [-> _]%lift_outcome_Ret & H).
    apply bind_Ret in H as (? & tok & [-> _]%lift_outcome_Ret & H).
    apply bind_Ret in H as (? & ? & ->%modify_Ret & [-> _]%mret_Ret). done.
  - by apply mret_Ret in H as [-> _].
Qed.

Lemma onboarding_request_run job w t r :
  onboarding_request job w = (t, Ret r) -> t = w /\ institutions w !! r.1.1.1 = Some r.1.1.2.
Proof.
  unfold onboarding_request. intros H.
  apply bind_Ret in H as (w1 & j & [-> _]%job_object_run & H).
  apply bind_Ret in H as (w1 & v & [_ ->]%some_or_Ret & H).
  apply bind_Ret in H as (w1 & inst & ->%as_uuid_run & H).
  apply bind_Ret in H as (w1 & o & [-> ->]%gets_Ret & H).
  apply bind_Ret in H as (w1 & i & [Hi ->]%some_or_Ret & H).
  apply bind_Ret in H as (w1 & rc & [_ ->]%some_or_Ret & H).
  apply bind_Ret in H as (w1 & rc' & ->%payload_str_run & H).
  apply bind_Ret in H as (w1 & cur & [_ ->]%some_or_Ret & H).
  apply bind_Ret in H as (w1 & cur' & ->%payload_str_run & [-> ->]%mret_Ret). done.
Qed.

Lemma run_tenant_migrations_run url w t u :
  run_tenant_migrations url w = (t, Ret u) ->
  t = w <| tenants ::= partial_alter (fun o => Some (default empty_tenant o)) url |>.
Proof.
  unfold run_tenant_migrations. intros (? & ? & [-> _]%lift_outcome_Ret & ->%modify_Ret)%bind_Ret. done.
Qed.

Lemma pres_item (I : MfWorld -> Prop) p k : pres I (item p k).
Proof. unfold item. pres_go. Qed.
Lemma pres_as_uuid (I : MfWorld -> Prop) v : pres I (as_uuid v).
Proof. unfold as_uuid. pres_go. Qed.
Lemma pres_payload_str I v : pres I (payload_str v).
Proof. unfold payload_str. pres_go. Qed.
Lemma pres_job_object (I : MfWorld -> Prop) id : pres I (job_object id).
Proof. unfold job_object. pres_go. Qed.
Lemma pres_institution_object I id : pres I (institution_object id).
Proof. unfold institution_object. pres_go. Qed.
Lemma pres_get_platform_account I : pres I get_platform_account.
Proof. unfold get_platform_account. pres_go. Qed.
#[local] Hint Resolve pres_item pres_as_uuid pres_payload_str pres_job_object
  pres_institution_object pres_get_platform_account : pres.

Definition same_jobs (m : gmap uuid MFJob) (w : MfWorld) : Prop := mf_jobs w = m.

Lemma pres_on_tenant {A} m url (k : M TenantDb A) : pres (same_jobs m) (on_tenant url k).
Proof. intros w Hw. unfold on_tenant. by destruct (tenants w !! url). Qed.
Lemma pres_set_institution m id f : pres (same_jobs m) (set_institution id f).
Proof. by apply pres_modify. Qed.
Lemma pres_get_authenticated_client m now : pres (same_jobs m) (get_authenticated_client now).
Proof. unfold get_authenticated_client, cache_token. pres_go. by apply pres_modify. Qed.
Lemma pres_run_tenant_migrations m url : pres (same_jobs m) (run_tenant_migrations url).
Proof. unfold run_tenant_migrations. pres_go. by apply pres_modify. Qed.
#[local] Hint Resolve pres_on_tenant pres_set_institution pres_get_authenticated_client
  pres_run_tenant_migrations : pres.

Lemma execute_onboard_institution_frames now profile cash income id job :
  frames job (execute_onboard_institution now profile cash income id).
Proof.
  intros w. unfold core_of. enough (pres (same_jobs (mf_jobs w))
    (execute_onboard_institution now profile cash income id)) as H by (by rewrite (H w eq_refl)).
  unfold execute_onboard_institution, onboarding_request, open_institution. pres_go.
Qed.

(** The state after the terminal handler. *)
Lemma mark_institution_failed_run job w j :
  mf_jobs w !! job = Some j ->
  exists t, mark_institution_failed job w = (t, Ret tt) /\ mf_jobs t = mf_jobs w /\
    forall id i, mj_institution_id j = Some id -> institutions w !! id = Some i ->
      exists i', institutions t !! id = Some i' /\ mi_status i' = INST_FAILED /\
        failure_reason i' = error (mj_core j).
Proof.
  intros Hj. unfold mark_institution_failed. unfold mbind, M_bind.
  assert (job_object job w = (w, Ret j)) as -> by (by apply job_object_run).
  destruct (mj_institution_id j) as [id|]; [|by exists w].
  eexists. split; [reflexivity|]. split; [done|]. intros id' i [= <-] Hi. simpl.
  rewrite lookup_alter_eq, Hi. by eexists.
Qed.

(** A tenant that is opened in a database that did not exist has the schema, the one cash
    account on the debit side, the one interest account on the credit side and sound books. *)
Lemma open_institution_run profile cash income inst currency project w t r :
  open_institution profile cash income inst currency project w = (t, Ret r) ->
  exists i url, institutions w !! inst = Some i /\ tenant_database_url i = Ret url /\
    institutions t = alter (fun i => i <| mi_status := INST_ACTIVE |>) inst (institutions w) /\
    platform_accounts t = platform_accounts w /\ r = Some {["cp_project_id" := JId project]} /\
    (tenants w !! url = None -> exists d, tenants t !! url = Some d /\ tenant_ready d) /\
    (forall url', url' <> url -> tenants t !! url' = tenants w !! url').
Proof.
  unfold open_institution. intros (w1 & i & Hobj & H)%bind_Ret.
  assert (w1 = w /\ institutions w !! inst = Some i) as [-> Hi] by (unfold institution_object in Hobj; minv; done).
  apply bind_Ret in H as (w3 & url & [-> Hurl]%lift_outcome_Ret & H).
  apply bind_Ret in H as (w3 & ? & Hmig%run_tenant_migrations_run & H).
  apply bind_Ret in H as (w4 & ? & (d & d' & Hd & Hrows & Hw4)%on_tenant_run & H).
  apply bind_Ret in H as (w5 & ? & Hfin%modify_Ret & [-> ->]%mret_Ret).
  exists i, url. split_and!; [done..|by rewrite Hfin, Hw4, Hmig|by rewrite Hfin, Hw4, Hmig|done| |].
  - intros Hnone. exists d'. split; [rewrite Hfin, Hw4; simpl; apply lookup_insert_eq|].
    eapply initial_rows_ready; [exact Hrows|].
    rewrite Hmig in Hd. simpl in Hd. rewrite lookup_partial_alter_eq, Hnone in Hd.
    injection Hd as <-. apply tenant_ok_empty.
  - intros url' Hne. rewrite Hfin, Hw4, Hmig. simpl. by rewrite lookup_insert_ne, lookup_partial_alter_ne by done.
Qed.

(** One that is not opened leaves the institutions as they were. *)
Lemma open_institution_raises profile cash income inst currency project w t e :
  open_institution profile cash income inst currency project w = (t, Exc e) -> institutions t = institutions w.
Proof.
  assert (forall A (m : M MfWorld A) u r v, pres (fun x => institutions x = institutions u) m -> m u = (v, r) ->
    institutions v = institutions u) as Hp by (intros A m u r v Hm E; specialize (Hm u eq_refl); by rewrite E in Hm).
  unfold open_institution. intros [H|(w1 & i & Ho & H)]%bind_Exc; [revert H; apply Hp; unfold institution_object; pres_go|].
  rewrite <- (Hp _ _ _ _ _ (pres_institution_object _ inst) Ho). clear Ho w.
  apply bind_Exc in H as [[= -> _]|(w2 & url & [-> _]%lift_outcome_Ret & H)]; [done|].
  apply bind_Exc in H as [H|(w3 & [] & ->%run_tenant_migrations_run & H)].
  { revert H. apply Hp. unfold run_tenant_migrations. pres_go. by apply pres_modify. }
  apply bind_Exc in H as [H|(w4 & [] & (d & d' & _ & _ & ->)%on_tenant_run & H)]; [|discriminate H].
  unfold on_tenant in H. case_match; by injection H as <- _.
Qed.

(** When the onboarding job of an institution returns, on a database the platform has just
    created for it, the institution is active, and the database its URL leads to is ready. *)
Lemma onboarding_makes_ready (now : timestamp) (profile cash income job : uuid) (w t : MfWorld)
    (r : option payload) :
  execute_onboard_institution now profile cash income job w = (t, Ret r) ->
  exists institution i url, institutions t !! institution = Some i /\ mi_status i = INST_ACTIVE /\
    tenant_database_url i = Ret url /\
    (tenants w !! url = None -> exists d, tenants t !! url = Some d /\ tenant_ready d) /\
    (forall url', url' <> url -> tenants t !! url' = tenants w !! url').
Proof.
  unfold execute_onboard_institution. intros H.
  apply bind_Ret in H as (w1 & [[[inst i] rc] cur] & [-> Hi]%onboarding_request_run & H). cbv zeta in H.
  apply bind_Ret in H as (w1 & tok & [Ht1 Hi1]%get_authenticated_client_tenants & H).
  apply bind_Ret in H as (w2 & acc & Hacc & H).
  assert (w2 = w1) as -> by (unfold get_platform_account in Hacc; minv; done).
  apply bind_Ret in H as (w2 & project & [-> _]%lift_outcome_Ret & H).
  apply bind_Ret in H as (w2 & created & [-> _]%lift_outcome_Ret & H).
  apply bind_Ret in H as (w2 & ? & [-> _]%lift_outcome_Ret & H).
  apply bind_Ret in H as (w2 & db & [-> _]%lift_outcome_Ret & H).
  apply bind_Ret in H as (w2 & conn & [-> _]%lift_outcome_Ret & H).
  apply bind_Ret in H as (w2 & ? & Hset%modify_Ret & H).
  apply open_institution_run in H as (i' & url & Hi' & Hurl & Ht & _ & _ & Hready & Hother).
  assert (tenants w2 = tenants w) as Ht2 by (by rewrite Hset). rewrite Ht2 in *.
  exists inst, (i' <| mi_status := INST_ACTIVE |>), url. split_and!; [by rewrite Ht, lookup_alter_eq, Hi'|done..].
Qed.

(** One turn of the worker settles the job it claims, whatever the platform
    answers: the job has one more attempt and is done, or waits for a retry after
    the backoff, or, at its last attempt, has failed.  No job is left running. *)
Theorem mf_run_once_settles (now : timestamp) (profile cash income id : uuid) (w w1 : MfWorld) (c : JobCore) :
  mf_claim_next_job now w = (w1, Ret (Some id)) -> core_of w id = Some c ->
  exists t c', mf_run_once now profile cash income w = (t, Ret true) /\ core_of t id = Some c' /\
    attempts c' = attempts c + 1 /\ max_attempts c' = max_attempts c /\ settled now c c'.
Proof.
  intros Hcl Hc. unfold mf_run_once. eapply run_once_settles; [exact Hcl|exact Hc| |].
  - unfold MF_HANDLERS. intros ty h. case_decide; [|done]. intros [= <-].
    apply execute_onboard_institution_frames.
  - unfold MF_TERMINAL_FAILURE_HANDLERS. intros ty h. case_decide; [|done]. intros [= <-] u Hu.
    destruct Hu as [c0 Hc0]. destruct (job_of_core _ _ _ Hc0) as (j & Hj & _).
    destruct (mark_institution_failed_run _ _ _ Hj) as (t & Ht & Ej & _).
    exists t. split; [done|]. unfold core_of. simpl. by rewrite Ej.
Qed.
End onboarding.

(** A platform that grants everything, and one institution waiting for its database. *)
Definition example_client : PlatformApi := {|
  api_login := fun _ _ => Ret (Some "token");
  create_project := fun _ _ _ => Ret 70%positive;
  create_database := fun _ _ _ _ => Ret (71%positive, 72%positive);
  wait_for_job := fun _ => Ret tt;
  get_database := fun _ _ db => Ret db;
  get_connection := fun _ _ _ => Ret (mkConnection (Some "db1") (Some 6432) (Some "main") (Some "app") "pw");
|}.
Definition example_encrypt (s : string) : string := s.
Definition example_decrypt (o : option string) : outcome string :=
  match o with Some s => Ret s | None => Exc TypeError end.
Definition example_upgrade (url : string) : outcome unit := Ret tt.

Definition example_world : MfWorld :=
  (create_institution 0 1 2 3 "hash" "Caisse" "caisse" "eu" "XOF" "a@b.c"
     (mkMfWorld ∅ ∅ ∅ {[9%positive := mkMFPlatformAccount 8 "mf@x" "pw" None None]} ∅)).1.

Lemma onboarding_makes_ready_witness :
  let r := execute_onboard_institution example_encrypt example_decrypt example_client example_upgrade
             0 60 61 62 3 example_world in
  exists institution i url d, institutions r.1 !! institution = Some i /\ mi_status i = INST_ACTIVE /\
    tenants r.1 !! url = Some d /\ tenant_ready d.
Proof.
  set (r := execute_onboard_institution example_encrypt example_decrypt example_client example_upgrade
             0 60 61 62 3 example_world).
  assert (r.2 = Ret (Some {["cp_project_id" := JId 70]})) as H2 by (vm_compute; reflexivity).
  destruct (onboarding_makes_ready example_encrypt example_decrypt example_client example_upgrade
    0 60 61 62 3 example_world r.1 (Some {["cp_project_id" := JId 70]}))
    as (inst & i & url & Hi & Hs & Hu & Hready & _).
  - rewrite <- H2. apply surjective_pairing.
  - destruct (Hready eq_refl) as (d & Hd & Hok). exists inst, i, url, d. split_and!; assumption.
Defined.

Lemma mf_run_once_settles_witness :
  let refused := {| api_login := fun _ _ => Ret (Some "token"); create_project := fun _ _ _ => Exc (HTTPException 409);
    create_database := fun _ _ _ _ => Exc RuntimeError; wait_for_job := fun _ => Ret tt;
    get_database := fun _ _ db => Ret db; get_connection := fun _ _ _ => Exc RuntimeError |} in
  exists t c', mf_run_once example_encrypt example_decrypt refused example_upgrade (fun _ => "Conflict")
      0 60 61 62 example_world = (t, Ret true) /\
    core_of t 3 = Some c' /\ attempts c' = 1 /\ status c' = RETRYING /\ next_run_at c' = seconds 5.
Proof.
  set (refused := {| api_login := _ |}).
  set (w1 := (mf_claim_next_job 0 example_world).1).
  destruct (mf_run_once_settles example_encrypt example_decrypt refused example_upgrade (fun _ => "Conflict")
    0 60 61 62 3 example_world w1 (new_core 0)) as (t & c' & Ht & Hc & Ha & _ & Hs).
  - vm_compute. reflexivity.
  - vm_compute. reflexivity.
  - exists t, c'. split; [exact Ht|]. split; [exact Hc|]. split; [exact Ha|].
    vm_compute in Ht. injection Ht as <-. vm_compute in Hc. injection Hc as <-. split; reflexivity.
Defined.
