(* ===== verification/MfApi.v ===== *)
(** * The institution's HTTP API: [microfinance/mf_app/api/v1/endpoints/]

    Each endpoint is a definition: the checks of its request schema, the permission
    guard, the lookups, the service call with its exceptions mapped to statuses.
    [tenant_request] adds what the dependencies do before it. *)

From S2P Require Import Prelude PyStd Amortization Tenant Ledger Savings Loans Queue MfRbac MfControl.

(** ** Model *)

Section validation.
(** [Field(min_length=lo, max_length=hi)] *)
Definition str_between (lo hi : Z) (s : string) : bool :=
  (lo <=? Z.of_nat (String.length s)) && (Z.of_nat (String.length s) <=? hi).
Definition opt_max (hi : Z) (o : option string) : bool :=
  match o with Some s => str_between 0 hi s | None => true end.
Definition valid {S} (b : bool) : M S unit := require b (HTTPException 422).

(** The request schemas, [mf_app/schemas/]: the constraints on the fields of each. *)
Definition branch_create_ok (name code : string) : bool := str_between 2 200 name && str_between 1 20 code.
Definition customer_create_ok (full_name : string) (phone : option string) : bool :=
  str_between 2 200 full_name && opt_max 30 phone.
Definition savings_account_open_ok (opening_deposit : money) (key : option string) : bool :=
  (0 <=? opening_deposit) && opt_max 255 key.
Definition savings_transaction_ok (amount : money) (key : string) (description : option string) : bool :=
  (0 <? amount) && str_between 1 255 key && opt_max 500 description.
(** The rate is in basis points. *)
Definition savings_product_create_ok (name code : string) (rate : Z) (min_balance : money) : bool :=
  str_between 2 200 name && str_between 1 30 code && (0 <=? rate) && (rate <=? 10000) && (0 <=? min_balance).
(** The rate is in millionths. *)
Definition loan_product_create_ok (p : LoanProduct) : bool :=
  str_between 2 200 (lp_name p) && str_between 1 30 (lp_code p)
  && (0 <=? periodic_interest_rate p) && (periodic_interest_rate p <=? 1000000)
  && (0 <? min_principal p) && (0 <? max_principal p)
  && (1 <=? min_term_months p) && (1 <=? max_term_months p).
Definition loan_create_ok (principal : money) (term_months : Z) : bool := (0 <? principal) && (1 <=? term_months).
Definition loan_reject_ok (reason : string) : bool := str_between 1 500 reason.
Definition loan_disburse_ok (key : string) : bool := str_between 1 255 key.
Definition loan_repay_ok (amount : money) (key : string) : bool := (0 <? amount) && str_between 1 255 key.
(** The password is hashed before it comes here. *)
Definition staff_create_ok (full_name : string) : bool := str_between 2 200 full_name.
End validation.

(** [except classes as exc: raise HTTPException(409)] *)
Definition conflict {A} (classes : list exn) (m : M TenantDb A) : M TenantDb A :=
  try_except m (fun e => if bool_decide (e ∈ classes) then Some (raise (HTTPException 409)) else None).

(** [db.get(T, id)], 404 when there is none. *)
Definition get_or_404 {V} (table : TenantDb -> gmap uuid V) (id : uuid) : M TenantDb V :=
  o ← db_get table id; some_or o (HTTPException 404).

(** [tenant_db.commit()]; the transaction itself is [on_tenant]. *)
Definition commit : M TenantDb unit := flush.

Definition create_branch (id : uuid) (name code : string) (staff : uuid * MFStaffUser) : M TenantDb uuid :=
  valid (branch_create_ok name code);;
  require_permission (role staff.2) "branches:manage";;
  table ← gets branches;
  require (bool_decide (table !! id = None)) IntegrityError;;
  require (bool_decide (rows (fun b => bool_decide (br_code b = code)) table = [])) IntegrityError;;
  modify (fun d => d <| branches ::= <[id := mkBranch name code]> |>);;
  commit;;
  mret id.

Definition create_customer (id branch : uuid) (full_name : string) (phone : option string)
    (staff : uuid * MFStaffUser) : M TenantDb uuid :=
  valid (customer_create_ok full_name phone);;
  require_permission (role staff.2) "customers:manage";;
  get_or_404 branches branch;;
  table ← gets customers;
  require (bool_decide (table !! id = None)) IntegrityError;;
  modify (fun d => d <| customers ::= <[id := mkCustomer branch full_name phone PENDING]> |>);;
  commit;;
  mret id.

Definition update_kyc_status (customer : uuid) (st : KYCStatus) (staff : uuid * MFStaffUser) : M TenantDb uuid :=
  require_permission (role staff.2) "customers:manage";;
  get_or_404 customers customer;;
  modify (fun d => d <| customers ::= alter (fun c => c <| kyc_status := st |>) customer |>);;
  commit;;
  mret customer.

Definition create_savings_product (id : uuid) (name code : string) (rate : Z) (min_balance : money)
    (staff : uuid * MFStaffUser) : M TenantDb uuid :=
  valid (savings_product_create_ok name code rate min_balance);;
  require_permission (role staff.2) "savings_products:manage";;
  table ← gets savings_products;
  existing ← scalar_one_or_none (select (fun p => bool_decide (sp_code p = code)) table);
  require (bool_decide (existing = None)) (HTTPException 409);;
  require (bool_decide (table !! id = None)) IntegrityError;;
  modify (fun d => d <| savings_products ::= <[id := mkSavingsProduct name code rate min_balance]> |>);;
  commit;;
  mret id.

Definition open_account (id tx : uuid) (number : string) (customer product : uuid) (opening_deposit : money)
    (key : option string) (staff : uuid * MFStaffUser) : M TenantDb uuid :=
  valid (savings_account_open_ok opening_deposit key);;
  require_permission (role staff.2) "savings:transact";;
  get_or_404 customers customer;;
  get_or_404 savings_products product;;
  account ← conflict [CustomerNotVerifiedError; BelowMinimumOpeningBalanceError; MissingIdempotencyKeyError]
    (open_savings_account id tx number customer product opening_deposit key);
  commit;;
  mret account.

Definition deposit_endpoint (tx account : uuid) (amount : money) (key : string) (description : option string)
    (staff : uuid * MFStaffUser) : M TenantDb uuid :=
  valid (savings_transaction_ok amount key description);;
  require_permission (role staff.2) "savings:transact";;
  get_or_404 savings_accounts account;;
  transaction ← conflict [AccountNotActiveError] (deposit tx account amount key description);
  commit;;
  mret transaction.

Definition withdraw_endpoint (tx account : uuid) (amount : money) (key : string) (description : option string)
    (staff : uuid * MFStaffUser) : M TenantDb uuid :=
  valid (savings_transaction_ok amount key description);;
  require_permission (role staff.2) "savings:transact";;
  get_or_404 savings_accounts account;;
  transaction ← conflict [AccountNotActiveError; InsufficientFundsError]
    (withdraw tx account amount key description);
  commit;;
  mret transaction.

Definition BUSINESS_ERRORS : list exn :=
  [CustomerNotVerifiedError; InvalidLoanAmountError; InvalidLoanTermError; InvalidLoanStateError;
   OverpaymentError].

Definition create_loan_product (id : uuid) (p : LoanProduct) (staff : uuid * MFStaffUser) : M TenantDb uuid :=
  valid (loan_product_create_ok p);;
  require_permission (role staff.2) "loan_products:manage";;
  table ← gets loan_products;
  existing ← scalar_one_or_none (select (fun q => bool_decide (lp_code q = lp_code p)) table);
  require (bool_decide (existing = None)) (HTTPException 409);;
  require (bool_decide (table !! id = None)) IntegrityError;;
  modify (fun d => d <| loan_products ::= <[id := p]> |>);;
  commit;;
  mret id.

Definition create_loan_application (id customer product : uuid) (principal : money) (term_months : Z)
    (staff : uuid * MFStaffUser) : M TenantDb uuid :=
  valid (loan_create_ok principal term_months);;
  require_permission (role staff.2) "loans:manage";;
  get_or_404 customers customer;;
  get_or_404 loan_products product;;
  loan ← conflict BUSINESS_ERRORS (create_loan id customer product principal term_months);
  commit;;
  mret loan.

Definition submit_loan (loan : uuid) (staff : uuid * MFStaffUser) : M TenantDb uuid :=
  require_permission (role staff.2) "loans:manage";;
  get_or_404 loans loan;;
  conflict BUSINESS_ERRORS (submit_for_approval loan);;
  commit;;
  mret loan.

Definition approve_loan_endpoint (now : timestamp) (loan : uuid) (staff : uuid * MFStaffUser) : M TenantDb uuid :=
  require_permission (role staff.2) "loans:approve";;
  get_or_404 loans loan;;
  conflict BUSINESS_ERRORS (approve_loan now loan staff.1);;
  commit;;
  mret loan.

Definition reject_loan_endpoint (loan : uuid) (reason : string) (staff : uuid * MFStaffUser) : M TenantDb uuid :=
  valid (loan_reject_ok reason);;
  require_permission (role staff.2) "loans:approve";;
  get_or_404 loans loan;;
  conflict BUSINESS_ERRORS (reject_loan loan staff.1 reason);;
  commit;;
  mret loan.

(** A missing product reaches the service as [None]. *)
Definition disburse_loan_endpoint (now : timestamp) (today : date) (tx schedule : uuid) (line_id : nat -> uuid)
    (loan : uuid) (key : string) (staff : uuid * MFStaffUser) : M TenantDb uuid :=
  valid (loan_disburse_ok key);;
  require_permission (role staff.2) "loans:disburse";;
  l ← get_or_404 loans loan;
  product ← db_get loan_products (lo_product_id l);
  conflict BUSINESS_ERRORS (
    match product with
    | Some product => disburse_loan now today tx schedule line_id loan product key None
    | None => require_status loan APPROVED;; raise AttributeError
    end);;
  commit;;
  mret loan.

Definition repay_loan_endpoint (now : timestamp) (tx loan : uuid) (amount : money) (key : string)
    (staff : uuid * MFStaffUser) : M TenantDb uuid :=
  valid (loan_repay_ok amount key);;
  require_permission (role staff.2) "loans:repay";;
  get_or_404 loans loan;;
  conflict BUSINESS_ERRORS (repay_installment now tx loan amount key);;
  commit;;
  mret loan.

(** The requests that change the institution's database, with the keys, random values
    and clock readings each of them draws. *)
Inductive mf_request :=
| CreateBranch (id : uuid) (name code : string)
| CreateCustomer (id branch : uuid) (full_name : string) (phone : option string)
| UpdateKyc (customer : uuid) (st : KYCStatus)
| CreateSavingsProduct (id : uuid) (name code : string) (rate : Z) (min_balance : money)
| OpenAccount (id tx : uuid) (number : string) (customer product : uuid) (opening_deposit : money)
    (key : option string)
| Deposit (tx account : uuid) (amount : money) (key : string) (description : option string)
| Withdraw (tx account : uuid) (amount : money) (key : string) (description : option string)
| CreateLoanProduct (id : uuid) (p : LoanProduct)
| CreateLoan (id customer product : uuid) (principal : money) (term_months : Z)
| SubmitLoan (loan : uuid)
| ApproveLoan (now : timestamp) (loan : uuid)
| RejectLoan (loan : uuid) (reason : string)
| DisburseLoan (now : timestamp) (today : date) (tx schedule : uuid) (line_id : nat -> uuid) (loan : uuid)
    (key : string)
| RepayLoan (now : timestamp) (tx loan : uuid) (amount : money) (key : string).

Definition handle (req : mf_request) : uuid * MFStaffUser -> M TenantDb uuid :=
  match req with
  | CreateBranch id name code => create_branch id name code
  | CreateCustomer id branch full_name phone => create_customer id branch full_name phone
  | UpdateKyc customer st => update_kyc_status customer st
  | CreateSavingsProduct id name code rate min_balance =>
      create_savings_product id name code rate min_balance
  | OpenAccount id tx number customer product amount key => open_account id tx number customer product amount key
  | Deposit tx account amount key description => deposit_endpoint tx account amount key description
  | Withdraw tx account amount key description => withdraw_endpoint tx account amount key description
  | CreateLoanProduct id p => create_loan_product id p
  | CreateLoan id customer product principal term => create_loan_application id customer product principal term
  | SubmitLoan loan => submit_loan loan
  | ApproveLoan now loan => approve_loan_endpoint now loan
  | RejectLoan loan reason => reject_loan_endpoint loan reason
  | DisburseLoan now today tx schedule line_id loan key =>
      disburse_loan_endpoint now today tx schedule line_id loan key
  | RepayLoan now tx loan amount key => repay_loan_endpoint now tx loan amount key
  end.

(** The permission each request asks for. *)
Definition action_of (req : mf_request) : string :=
  match req with
  | CreateBranch _ _ _ => "branches:manage"
  | CreateCustomer _ _ _ _ | UpdateKyc _ _ => "customers:manage"
  | CreateSavingsProduct _ _ _ _ _ => "savings_products:manage"
  | OpenAccount _ _ _ _ _ _ _ | Deposit _ _ _ _ _ | Withdraw _ _ _ _ _ => "savings:transact"
  | CreateLoanProduct _ _ => "loan_products:manage"
  | CreateLoan _ _ _ _ _ | SubmitLoan _ => "loans:manage"
  | ApproveLoan _ _ | RejectLoan _ _ => "loans:approve"
  | DisburseLoan _ _ _ _ _ _ _ => "loans:disburse"
  | RepayLoan _ _ _ _ _ => "loans:repay"
  end.

(** The idempotency key a request books under. *)
Definition key_of (req : mf_request) : option string :=
  match req with
  | OpenAccount _ _ _ _ _ _ key => truthy key
  | Deposit _ _ _ key _ | Withdraw _ _ _ key _ => Some key
  | DisburseLoan _ _ _ _ _ _ key | RepayLoan _ _ _ _ key => Some key
  | _ => None
  end.

Section requests.
Context (decode_staff_access_token : string -> option StaffTokenPayload).
Context (decrypt_secret : option string -> outcome string).

(** A request to [/institutions/{slug}/...]: the dependencies, then the endpoint on
    the institution's own database. *)
Definition tenant_request {A} (slug : string) (credentials : option string)
    (endpoint : uuid * MFStaffUser -> M TenantDb A) : M MfWorld A :=
  institution ← get_institution_by_slug slug;
  staff ← get_current_staff_user decode_staff_access_token institution.1 credentials;
  require_active_institution institution.2;;
  url ← lift_outcome (tenant_database_url decrypt_secret institution.2);
  on_tenant url (endpoint staff).

(** [POST .../staff]: the tenant's row is committed before the control row. *)
Definition create_staff (agent id : uuid) (pw_hash : string) (slug : string) (credentials : option string)
    (full_name mail : string) (new_role : MFStaffRole) (branch : option uuid) : M MfWorld uuid :=
  institution ← get_institution_by_slug slug;
  require_active_institution institution.2;;
  staff ← get_current_staff_user decode_staff_access_token institution.1 credentials;
  url ← lift_outcome (tenant_database_url decrypt_secret institution.2);
  valid (staff_create_ok full_name);;
  require_permission (role staff.2) "staff:manage";;
  require (negb (bool_decide (new_role = INSTITUTION_ADMIN) && negb (bool_decide (branch = None))))
    (HTTPException 400);;
  require (negb (negb (bool_decide (new_role = INSTITUTION_ADMIN)) && bool_decide (branch = None)))
    (HTTPException 400);;
  match branch with
  | Some b => on_tenant url (get_or_404 branches b);; mret tt
  | None => mret tt
  end;;
  us ← gets staff_users;
  existing ← scalar_one_or_none (select (fun u =>
    bool_decide (institution_id u = institution.1) && bool_decide (email u = mail)) us);
  require (bool_decide (existing = None)) (HTTPException 409);;
  on_tenant url (
    table ← gets agents;
    require (bool_decide (table !! agent = None)) IntegrityError;;
    modify (fun d => d <| agents ::= <[agent := mkAgent branch full_name new_role]> |>);;
    commit);;
  require (bool_decide (us !! id = None)) IntegrityError;;
  modify (fun w => w <| staff_users ::= <[id :=
    mkMFStaffUser institution.1 mail pw_hash new_role (Some agent) true]> |>);;
  mret id.
End requests.

(** ** Invariants of the requests *)

Lemma conflict_run {A} cs (m : M TenantDb A) d t a :
  conflict cs m d = (t, Ret a) -> m d = (t, Ret a).
Proof.
  unfold conflict, try_except. destruct (m d) as [u [b|e]]; [done|]. by case_bool_decide.
Qed.

Lemma get_or_404_run {V} (table : TenantDb -> gmap uuid V) id d t v :
  get_or_404 table id d = (t, Ret v) <-> t = d /\ table d !! id = Some v.
Proof.
  unfold get_or_404, db_get. split.
  - intros H. minv. done.
  - intros [-> H]. rewrite bind_Ret. exists d, (Some v). by rewrite gets_Ret, some_or_Ret.
Qed.

Lemma keeps_conflict {A} I cs (m : M TenantDb A) : keeps I m -> keeps I (conflict cs m).
Proof. intros Hm d t a H%conflict_run. exact (Hm _ _ _ H). Qed.
Lemma pres_get_or_404 {V} I (table : TenantDb -> gmap uuid V) id : pres I (get_or_404 table id).
Proof. unfold get_or_404, db_get. pres_go. Qed.
Lemma pres_valid {S} (I : S -> Prop) b : pres I (valid b).
Proof. apply pres_require. Qed.
Lemma pres_db_get {V} I (table : TenantDb -> gmap uuid V) id : pres I (db_get table id).
Proof. apply pres_gets. Qed.
#[export] Hint Resolve keeps_conflict pres_get_or_404 pres_valid pres_db_get : pres.

Lemma commit_sound : keeps sound commit.
Proof. apply keeps_flush_sound. Qed.
#[export] Hint Resolve commit_sound : pres.

(** A step on the tables the books do not depend on. *)
Lemma other_tables_sound f :
  (forall d, internal_accounts (f d) = internal_accounts d /\ savings_accounts (f d) = savings_accounts d /\
     loans (f d) = loans d /\ transactions (f d) = transactions d /\ ledger_entries (f d) = ledger_entries d) ->
  keeps sound (modify f).
Proof.
  intros Hf. apply keeps_modify. intros d. apply same_books_sound.
  destruct (Hf d) as (E1 & E2 & E3 & E4 & E5). split; by rewrite ?E1, ?E2, ?E3.
Qed.

Lemma deposit_endpoint_run tx account amount key description staff d t r :
  deposit_endpoint tx account amount key description staff d = (t, Ret r) ->
  0 < amount /\ exists u, deposit tx account amount key description d = (u, Ret r) /\ commit u = (t, Ret tt).
Proof.
  unfold deposit_endpoint. intros (? & ? & [Hv ->]%require_Ret & H)%bind_Ret.
  apply bind_Ret in H as (? & ? & [-> _]%require_staff_permission_run & H).
  apply bind_Ret in H as (? & ? & [-> _]%get_or_404_run & H).
  apply bind_Ret in H as (u & tr & Hd%conflict_run & H).
  apply bind_Ret in H as (? & [] & Hc & [-> ->]%mret_Ret).
  unfold savings_transaction_ok in Hv. rewrite !andb_true_iff, Z.ltb_lt in Hv. split; [tauto|]. by exists u.
Qed.

Lemma handle_sound req staff : keeps sound (handle req staff).
Proof.
  destruct req as [| | | | |tx account amount key description| | | | | | | |].
  6: { intros d t r (Ha & u & Hd & Hc)%deposit_endpoint_run Hs.
       eapply commit_sound; [exact Hc|]. eapply deposit_sound; [|exact Hd|done]. lia. }
  all: unfold handle, create_branch, create_customer, update_kyc_status, create_savings_product,
    open_account, withdraw_endpoint, create_loan_product, create_loan_application,
    submit_loan, approve_loan_endpoint, reject_loan_endpoint, disburse_loan_endpoint, repay_loan_endpoint;
    keeps_go; try (apply other_tables_sound; done).
  apply keeps_conflict. keeps_go.
Qed.

(** The books of the loans, as long as no request reuses a key. *)
Lemma commit_ok d t u : commit d = (t, Ret u) -> tenant_ok d -> tenant_ok t.
Proof.
  intros H [Hs Hb]. split; [by eapply commit_sound|].
  unfold commit in H. rewrite flush_run in H. injection H as <- _.
  by apply (loan_books_same d).
Qed.

Lemma other_tables_ok f d t u :
  modify f d = (t, Ret u) ->
  (forall d, internal_accounts (f d) = internal_accounts d /\ savings_accounts (f d) = savings_accounts d /\
     loans (f d) = loans d /\ transactions (f d) = transactions d /\ ledger_entries (f d) = ledger_entries d) ->
  (forall d, schedules (f d) = schedules d /\ schedule_lines (f d) = schedule_lines d /\
     schedule_lines_flushed (f d) = schedule_lines_flushed d) ->
  tenant_ok d -> tenant_ok t.
Proof.
  intros H Hf Hg [Hs Hb]. split; [by eapply other_tables_sound|].
  apply modify_Ret in H as ->. destruct (Hf d) as (_ & _ & E3 & _), (Hg d) as (G1 & G2 & G3).
  apply (loan_books_same d); try done. rewrite G3. apply (lb_flushed _ Hb).
Qed.

Lemma open_savings_account_ok id tx number customer product amount key d t r :
  open_savings_account id tx number customer product amount key d = (t, Ret r) ->
  tenant_ok d -> tenant_ok t.
Proof.
  intros H Hd. pose proof (open_savings_account_sound _ _ _ _ _ _ _ _ _ _ H (proj1 Hd)) as Hs.
  split; [done|]. unfold open_savings_account in H.
  apply bind_Ret in H as (? & ? & [-> _]%deref_run & H).
  apply bind_Ret in H as (? & ? & [_ ->]%require_Ret & H).
  apply bind_Ret in H as (? & ? & [-> _]%deref_run & H).
  apply bind_Ret in H as (? & ? & [_ ->]%require_Ret & H).
  apply bind_Ret in H as (d1 & ? & Hi & H).
  assert (tenant_ok d1) as Hd1.
  { destruct Hd as [Hsd Hb]. split; [by eapply insert_savings_account_sound|].
    apply insert_savings_account_run in Hi as [_ ->]. by apply (loan_books_same d). }
  apply bind_Ret in H as (d2 & ? & Hdep & [-> _]%mret_Ret).
  destruct (Z.ltb_spec 0 amount); [|by apply mret_Ret in Hdep as [-> _]; apply Hd1].
  apply bind_Ret in Hdep as (? & k & [_ ->]%some_or_Ret & Hdep).
  apply bind_Ret in Hdep as (? & tr & Hdep & [-> _]%mret_Ret).
  eapply (deposit_ok _ _ _ _ _ _ _ _ Hdep); [lia|done].
Qed.

(** [fresh_keeps k m]: the runs of [m] that return keep the invariant, if the key [k]
    is not in use. *)
Definition fresh_keeps {A} (k : option string) (m : M TenantDb A) : Prop :=
  forall d t a, m d = (t, Ret a) -> (forall key, k = Some key -> key_fresh key d) -> tenant_ok d -> tenant_ok t.

Lemma fresh_read {A B} k (m : M TenantDb A) (f : A -> M TenantDb B) :
  (forall d, pres (eq d) m) -> (forall a, fresh_keeps k (f a)) -> fresh_keeps k (m ≫= f).
Proof.
  intros Hm Hf d t b (u & a & H1 & H2)%bind_Ret. specialize (Hm d d eq_refl).
  rewrite H1 in Hm. simpl in Hm. subst u. by eapply Hf.
Qed.

Lemma fresh_write {A B} k (m : M TenantDb A) (f : A -> M TenantDb B) :
  fresh_keeps k m -> (forall a, keeps tenant_ok (f a)) -> fresh_keeps k (m ≫= f).
Proof.
  intros Hm Hf d t b (u & a & H1 & H2)%bind_Ret Hk Hd. eapply Hf; [exact H2|]. by eapply Hm.
Qed.

Lemma commit_then {A} (r : A) : keeps tenant_ok (commit;; mret r).
Proof.
  intros d t a (u & [] & H1 & [-> _]%mret_Ret)%bind_Ret Hd. by eapply commit_ok.
Qed.

Lemma fresh_conflict {A} k cs (m : M TenantDb A) : fresh_keeps k m -> fresh_keeps k (conflict cs m).
Proof. intros Hm d t a H%conflict_run. by eapply Hm. Qed.

Lemma fresh_other k f :
  (forall d, internal_accounts (f d) = internal_accounts d /\ savings_accounts (f d) = savings_accounts d /\
     loans (f d) = loans d /\ transactions (f d) = transactions d /\ ledger_entries (f d) = ledger_entries d) ->
  (forall d, schedules (f d) = schedules d /\ schedule_lines (f d) = schedule_lines d /\
     schedule_lines_flushed (f d) = schedule_lines_flushed d) ->
  fresh_keeps k (modify f).
Proof. intros Hf Hg d t u H _. by eapply other_tables_ok. Qed.

Lemma set_status_ok loan st f k :
  lent st = false ->
  (forall l, lent (lo_status (f l)) = false /\ outstanding_principal (f l) = outstanding_principal l /\
     lo_term_months (f l) = lo_term_months l) ->
  fresh_keeps k (require_status loan st;; set_loan loan f;; flush).
Proof.
  intros Hst Hf d t u H _ [Hs Hb]. split; [|by eapply set_status_books].
  revert H Hs. apply (keeps_bind sound); [eauto with pres|]. intros _.
  apply keeps_bind; [|eauto with pres]. apply set_loan_sound. intros l. apply Hf.
Qed.

Lemma fresh_valid {B} k b (f : unit -> M TenantDb B) :
  (b = true -> fresh_keeps k (f tt)) -> fresh_keeps k (valid b ≫= f).
Proof.
  intros Hf d t r (u & [] & [Hb ->]%require_Ret & H2)%bind_Ret. exact (Hf Hb _ _ _ H2).
Qed.

(** The service calls of the endpoints. *)
Lemma fresh_deposit tx account amount key desc :
  0 <= amount -> fresh_keeps (Some key) (deposit tx account amount key desc).
Proof. intros Ha d t r H _. by eapply deposit_ok. Qed.
Lemma fresh_withdraw tx account amount key desc : fresh_keeps (Some key) (withdraw tx account amount key desc).
Proof. intros d t r H _. by eapply withdraw_ok. Qed.
Lemma fresh_open id tx number customer product amount key :
  fresh_keeps (truthy key) (open_savings_account id tx number customer product amount key).
Proof. intros d t r H _. by eapply open_savings_account_ok. Qed.
Lemma fresh_create_loan k id customer product principal term :
  1 <= term -> fresh_keeps k (create_loan id customer product principal term).
Proof.
  intros Ht d t r H _ [Hs Hb]. split; [by eapply create_loan_sound|by eapply create_loan_books].
Qed.
Lemma fresh_repay now tx loan amount key : fresh_keeps (Some key) (repay_installment now tx loan amount key).
Proof. intros d t r H Hk. eapply repay_installment_ok; [exact H|by apply Hk]. Qed.
Lemma fresh_disburse now today tx schedule line_id loan product key start :
  fresh_keeps (Some key) (disburse_loan now today tx schedule line_id loan product key start).
Proof. intros d t r H Hk. eapply disburse_loan_ok; [exact H|by apply Hk]. Qed.
Lemma fresh_raise {A} k e : fresh_keeps k (raise e : M TenantDb A).
Proof. intros d t r H. discriminate H. Qed.

Create HintDb fresh discriminated.
#[export] Hint Resolve fresh_withdraw fresh_open fresh_repay fresh_disburse fresh_raise : fresh.

Lemma handle_ok req staff : fresh_keeps (key_of req) (handle req staff).
Proof.
  destruct req; unfold handle, create_branch, create_customer, update_kyc_status, create_savings_product,
    open_account, deposit_endpoint, withdraw_endpoint, create_loan_product, create_loan_application,
    submit_loan, approve_loan_endpoint, reject_loan_endpoint, disburse_loan_endpoint, repay_loan_endpoint;
    simpl key_of; try (apply fresh_valid; intros Hv);
    repeat (apply fresh_read; [solve [intros; eauto with pres]|intros ?]);
    try (apply fresh_write; [|intros; apply commit_then]; try (apply fresh_conflict));
    try solve [apply fresh_other; done | eauto with fresh | apply set_status_ok; [done|by intros []]].
  - apply fresh_deposit. unfold savings_transaction_ok in Hv. rewrite !andb_true_iff, Z.ltb_lt in Hv. lia.
  - apply fresh_create_loan. unfold loan_create_ok in Hv. rewrite !andb_true_iff, Z.leb_le in Hv. lia.
  - match goal with |- context [match ?p with _ => _ end] => destruct p end; [eauto with fresh|].
    apply fresh_read; [intros; eauto with pres|eauto with fresh].
Qed.

(** A request is guarded by the permission of its action. *)
Lemma handle_guarded req staff d t r :
  handle req staff d = (t, Ret r) -> allows (role staff.2) (action_of req) = true.
Proof.
  assert (forall (b : bool) e a (m : M TenantDb uuid),
    (require b e;; require_permission (role staff.2) a;; m) d = (t, Ret r) ->
    allows (role staff.2) a = true) as Hv.
  { intros b e a m (? & ? & [_ ->]%require_Ret & H)%bind_Ret.
    by apply bind_Ret in H as (? & ? & [_ ?]%require_staff_permission_run & _). }
  assert (forall a (m : M TenantDb uuid),
    (require_permission (role staff.2) a;; m) d = (t, Ret r) -> allows (role staff.2) a = true) as Hn.
  { intros a m H. by apply bind_Ret in H as (? & ? & [_ ?]%require_staff_permission_run & _). }
  destruct req; intros H; first [eapply Hv; exact H | eapply Hn; exact H].
Qed.

(** ** Properties *)

Section access.
Context (decode_staff_access_token : string -> option StaffTokenPayload).
Context (decrypt_secret : option string -> outcome string).

(** [granted w slug credentials action url]: the credentials are a token of an active
    staff member of the active institution [slug], whose role allows [action],
    and [url] is that institution's database. *)
Definition granted (w : MfWorld) (slug : string) (credentials : option string) (action url : string) : Prop :=
  exists id i token p st, institutions w !! id = Some i /\ mi_slug i = slug /\ mi_status i = INST_ACTIVE /\
    credentials = Some token /\ decode_staff_access_token token = Some p /\ tok_institution_id p = id /\
    staff_users w !! tok_staff_user_id p = Some st /\ is_active st = true /\
    allows (role st) action = true /\ tenant_database_url decrypt_secret i = Ret url.

(** C9. Whatever a request answers, it leaves the control database alone, and
    changes an institution's database only if it is the database of the active
    institution named in its path and the bearer is an active member of that
    institution's staff with the permission of the action. *)
Theorem tenant_request_isolated (slug : string) (credentials : option string) (req : mf_request)
    (w : MfWorld) (url : string) :
  let t := (tenant_request decode_staff_access_token decrypt_secret slug credentials (handle req) w).1 in
  (institutions t = institutions w /\ staff_users t = staff_users w /\ mf_jobs t = mf_jobs w) /\
  (tenants t !! url = tenants w !! url \/ granted w slug credentials (action_of req) url).
Proof.
  cbv zeta. destruct (tenant_request _ _ slug credentials (handle req) w) as [t res] eqn:E. simpl.
  revert E. unfold tenant_request.
  unfold mbind at 1, M_bind at 1. destruct (get_institution_by_slug slug w) as [w1 [[id i]|e]] eqn:E1;
    [|apply get_institution_by_slug_Exc in E1 as ->; intros [= <- _]; auto].
  apply get_institution_by_slug_run in E1 as (-> & Hi & Hslug & _). simpl in *.
  unfold mbind at 1, M_bind at 1.
  destruct (get_current_staff_user _ id credentials w) as [w1 [[sid st]|e]] eqn:E2;
    [|apply get_current_staff_user_Exc in E2 as ->; intros [= <- _]; auto].
  apply get_current_staff_user_run in E2 as (-> & token & p & Hc & Hdec & Hid & Hsid & Hst & Hact).
  simpl in *. unfold require_active_institution.
  unfold mbind at 1, M_bind at 1, require, mret, M_ret, raise.
  destruct (bool_decide_reflect (mi_status i = INST_ACTIVE)) as [Ha|];
    [|intros [= <- _]; auto].
  unfold mbind at 1, M_bind at 1, lift_outcome.
  destruct (tenant_database_url decrypt_secret i) as [url'|e] eqn:Hurl; [|intros [= <- _]; auto].
  unfold on_tenant. destruct (tenants w !! url') as [d|] eqn:Hd; [|intros [= <- _]; auto].
  intros [= <- _]. simpl. split; [done|]. destruct (decide (url = url')) as [->|Hne]; [|left; by rewrite lookup_insert_ne].
  unfold atomic. destruct (handle req (sid, st) d) as [d' [r|e]] eqn:Hreq; simpl.
  - right. apply handle_guarded in Hreq. simpl in Hreq. subst sid.
    exists id, i, token, p, st. by split_and!.
  - left. by rewrite lookup_insert_eq.
Qed.

(** The status of a customer can be set back to [PENDING]: nothing refuses the
    value the request schema documents as never being a target. *)
Theorem update_kyc_accepts_pending (customer : uuid) (staff : uuid * MFStaffUser) (d : TenantDb) (c : Customer) :
  customers d !! customer = Some c -> allows (role staff.2) "customers:manage" = true ->
  exists t, update_kyc_status customer PENDING staff d = (t, Ret customer) /\
    kyc_status <$> customers t !! customer = Some PENDING.
Proof.
  intros Hc Ha. eexists. split.
  - unfold update_kyc_status. rewrite bind_Ret. exists d, tt. rewrite require_staff_permission_run. split; [done|].
    rewrite bind_Ret. exists d, c. rewrite get_or_404_run. split; [done|].
    rewrite bind_Ret. eexists _, tt. split; [reflexivity|].
    rewrite bind_Ret. eexists _, tt. split; reflexivity.
  - simpl. by rewrite lookup_alter_eq, Hc.
Qed.
End access.

Lemma update_kyc_accepts_pending_witness :
  let staff := (6%positive, mkMFStaffUser 1 "o@x" "hash" LOAN_OFFICER None true) in
  exists t, update_kyc_status 3 PENDING staff example_institution = (t, Ret 3%positive) /\
    kyc_status <$> customers t !! 3%positive = Some PENDING.
Proof.
  set (staff := (6%positive, mkMFStaffUser 1 "o@x" "hash" LOAN_OFFICER None true)).
  apply (update_kyc_accepts_pending 3 staff example_institution (mkCustomer 2 "Awa" None VERIFIED)); reflexivity.
Defined.
