(* ===== verification/Reports.v ===== *)
(** * Reports and reachable states: [microfinance/mf_app/services/reports.py]

    The reports, and what holds in every state an institution's database can reach
    through its API. *)

From S2P Require Import Prelude PyStd Amortization Tenant Ledger Savings Loans Queue MfRbac MfControl MfApi.

(** ** Model *)

Record TrialBalanceLine := mkTrialBalanceLine {
  tb_account_type : string;
  tb_account_id : option uuid;
  tb_label : string;
  tb_normal_side : string;
  tb_balance : money;
}.

Record TrialBalance := mkTrialBalance {
  tb_lines : list TrialBalanceLine;
  total_debit_side : money;
  total_credit_side : money;
  balanced : bool;
}.

(** The loop over the internal accounts. *)
Fixpoint add_internal_lines (accounts : list (uuid * InternalAccount))
    (acc : list TrialBalanceLine * money * money) : list TrialBalanceLine * money * money :=
  match accounts with
  | [] => acc
  | (id, a) :: accounts =>
      let '(lines, debit_total, credit_total) := acc in
      let lines := lines ++ [mkTrialBalanceLine "internal_account" (Some id) (ia_name a)
                               (normal_balance_side a) (ia_balance_cached a)] in
      add_internal_lines accounts
        (if decide (normal_balance_side a = "debit")
         then (lines, debit_total + ia_balance_cached a, credit_total)
         else (lines, debit_total, credit_total + ia_balance_cached a))
  end.

Definition get_trial_balance : M TenantDb TrialBalance :=
  accounts ← gets (fun d => map_to_list (internal_accounts d));
  savings_total ← gets (fun d => map_sum sa_balance_cached (savings_accounts d));
  loans_total ← gets (fun d => map_sum outstanding_principal (loans d));
  let '(lines, debit_total, credit_total) := add_internal_lines accounts ([], 0, 0) in
  let lines := lines ++ [mkTrialBalanceLine "savings_accounts_total" None
    "Customer savings (liability)" "credit" savings_total] in
  let credit_total := credit_total + savings_total in
  let lines := lines ++ [mkTrialBalanceLine "loans_total" None "Loans outstanding (asset)" "debit" loans_total] in
  let debit_total := debit_total + loans_total in
  mret (mkTrialBalance lines debit_total credit_total (debit_total =? credit_total)).

Record LoanPortfolio := mkLoanPortfolio {
  active_loan_count : Z;
  total_principal_disbursed : money;
  total_outstanding_principal : money;
}.

Definition get_loan_portfolio : M TenantDb LoanPortfolio :=
  found ← gets (fun d => rows (fun l => bool_decide (lo_status l = ACTIVE)
                                        || bool_decide (lo_status l = CLOSED)) (loans d));
  let active_loans := filter (fun l => lo_status l = ACTIVE) found in
  mret (mkLoanPortfolio (Z.of_nat (length active_loans)) (sumZ (lo_principal <$> found))
          (sumZ (outstanding_principal <$> active_loans))).

(** The endpoints of [endpoints/reports.py]. *)
Definition trial_balance (staff : uuid * MFStaffUser) : M TenantDb TrialBalance :=
  require_permission (role staff.2) "reports:read";; get_trial_balance.
Definition loan_portfolio (staff : uuid * MFStaffUser) : M TenantDb LoanPortfolio :=
  require_permission (role staff.2) "reports:read";; get_loan_portfolio.

(** One request on the institution's database, whoever sends it and however it ends. *)
Inductive request_step (d t : TenantDb) : Prop :=
| do_request req staff : t = (atomic (handle req staff) d).1 -> request_step d t.

(** The same, by clients that never reuse an idempotency key. *)
Inductive fresh_step (d t : TenantDb) : Prop :=
| do_fresh req staff : (forall key, key_of req = Some key -> key_fresh key d) ->
    t = (atomic (handle req staff) d).1 -> fresh_step d t.

(** ** The trial balance *)

Lemma on_side_decide a :
  on_side is_debit a = (if decide (normal_balance_side a = "debit") then ia_balance_cached a else 0) /\
  on_side (negb ∘ is_debit) a = (if decide (normal_balance_side a = "debit") then 0 else ia_balance_cached a).
Proof. unfold on_side, is_debit, compose. by case_bool_decide; case_decide. Qed.

Lemma add_internal_lines_totals accounts lines dt ct :
  exists ls, add_internal_lines accounts (lines, dt, ct) = (lines ++ ls,
    dt + sumZ (on_side is_debit <$> accounts.*2),
    ct + sumZ (on_side (negb ∘ is_debit) <$> accounts.*2)) /\ length ls = length accounts.
Proof.
  revert lines dt ct. induction accounts as [|[id a] accounts IH]; intros lines dt ct.
  - exists []. rewrite app_nil_r. split; [|done]. unfold sumZ; simpl.
    apply (f_equal2 pair); [apply (f_equal2 pair); [done|lia]|lia].
  - rewrite !fmap_cons, !sumZ_cons. cbn [add_internal_lines snd].
    destruct (on_side_decide a) as [-> ->]. case_decide as Hs;
      (match goal with |- context [add_internal_lines _ (?l, ?x, ?y)] => destruct (IH l x y) as (ls & -> & Hl) end;
       eexists (_ :: ls); rewrite <- app_assoc; split; [|simpl; by rewrite Hl];
       apply (f_equal2 pair); [apply (f_equal2 pair); [done|lia]|lia]).
Qed.

Lemma get_trial_balance_run d :
  exists tb, get_trial_balance d = (d, Ret tb) /\
    total_debit_side tb = debit_side d /\ total_credit_side tb = credit_side d /\
    balanced tb = (debit_side d =? credit_side d) /\
    length (tb_lines tb) = (size (internal_accounts d) + 2)%nat.
Proof.
  unfold get_trial_balance, mbind, M_bind, gets.
  destruct (add_internal_lines_totals (map_to_list (internal_accounts d)) [] 0 0) as (ls & E & Hl).
  rewrite E. eexists. split; [reflexivity|]. simpl.
  unfold debit_side, credit_side, internal_total, map_sum. rewrite !Z.add_0_l. split_and!; try done.
  rewrite !length_app, Hl. simpl. rewrite length_map_to_list. lia.
Qed.

(** ** Reachability *)

Lemma request_step_sound d t : request_step d t -> sound d -> sound t.
Proof. intros [req staff ->]. apply keeps_atomic, handle_sound. Qed.

Lemma fresh_step_ok d t : fresh_step d t -> tenant_ok d -> tenant_ok t.
Proof.
  intros [req staff Hk ->] Hd. unfold atomic. destruct (handle req staff d) as [u [r|e]] eqn:E; [|done].
  by eapply handle_ok.
Qed.

Lemma fresh_request d t : fresh_step d t -> request_step d t.
Proof. intros [req staff _ ->]. by econstructor. Qed.

Lemma rtc_request_sound d t : rtc request_step d t -> sound d -> sound t.
Proof. induction 1 as [|d u t H _ IH]; [done|]. intros Hd. by apply IH, (request_step_sound d). Qed.

Lemma rtc_fresh_ok d t : rtc fresh_step d t -> tenant_ok d -> tenant_ok t.
Proof. induction 1 as [|d u t H _ IH]; [done|]. intros Hd. by apply IH, (fresh_step_ok d). Qed.

(** ** The life of a loan *)

Inductive loan_edge : LoanStatus -> LoanStatus -> Prop :=
| edge_submit : loan_edge DRAFT PENDING_APPROVAL
| edge_approve : loan_edge PENDING_APPROVAL APPROVED
| edge_reject : loan_edge PENDING_APPROVAL LOAN_REJECTED
| edge_disburse : loan_edge APPROVED ACTIVE
| edge_close : loan_edge ACTIVE CLOSED.

Definition same_terms (l l' : Loan) : Prop :=
  lo_customer_id l' = lo_customer_id l /\ lo_product_id l' = lo_product_id l /\
  lo_principal l' = lo_principal l /\ lo_term_months l' = lo_term_months l.

(** The loans of [d] are still there in [t], where the request took at most one edge. *)
Definition evolves (d t : TenantDb) : Prop :=
  forall id l, loans d !! id = Some l -> exists l', loans t !! id = Some l' /\ same_terms l l' /\
    (lo_status l' = lo_status l \/ loan_edge (lo_status l) (lo_status l')).

(** Nothing but what the ledger writes has changed in the loans. *)
Definition same_loans (d t : TenantDb) : Prop :=
  forall id l, loans d !! id = Some l -> exists l', loans t !! id = Some l' /\
    l' <| outstanding_principal := 0 |> = l <| outstanding_principal := 0 |>.

Lemma same_loans_refl d : same_loans d d.
Proof. intros id l H. eauto. Qed.

Lemma forget_terms l l' :
  l' <| outstanding_principal := 0 |> = l <| outstanding_principal := 0 |> ->
  same_terms l l' /\ lo_status l' = lo_status l.
Proof. destruct l, l'. simpl. intros E. inversion E; subst. done. Qed.

Lemma same_loans_evolves d t : same_loans d t -> evolves d t.
Proof.
  intros H id l Hl. destruct (H id l Hl) as (l' & Hl' & E). destruct (forget_terms _ _ E).
  exists l'. auto.
Qed.

Lemma same_loans_eq d u t : same_loans d u -> loans t = loans u -> same_loans d t.
Proof. intros H E id l. rewrite E. apply H. Qed.

Lemma post_transaction_same_loans d tx type key lines desc :
  keeps (same_loans d) (post_transaction tx type key lines desc).
Proof.
  intros u t r [[-> _]|[_ Hp]]%post_transaction_run H; [done|]. intros id l Hl.
  destruct (H id l Hl) as (l1 & Hl1 & E1).
  destruct (forget_loan _ t _ _ (fp_forget _ _ _ _ _ _ _ Hp) Hl1) as (l2 & Hl2 & E2).
  exists l2. split; [done|congruence].
Qed.

Lemma same_loans_modify d f : (forall u, loans (f u) = loans u) -> keeps (same_loans d) (modify f).
Proof. intros Hf. apply keeps_modify. intros u H. by eapply same_loans_eq. Qed.

Lemma flush_same_loans d : keeps (same_loans d) flush.
Proof. by apply same_loans_modify. Qed.

Lemma insert_loan_same_loans d id customer product principal term :
  keeps (same_loans d) (insert_loan id customer product principal term).
Proof.
  intros u t r [Hn ->]%insert_loan_run H j l Hl. destruct (H j l Hl) as (l' & Hl' & E).
  exists l'. split; [|done]. simpl. rewrite lookup_insert_ne; [done|]. intros <-. congruence.
Qed.
#[export] Hint Resolve post_transaction_same_loans flush_same_loans insert_loan_same_loans : pres.

Lemma insert_schedule_same_loans d id loan : keeps (same_loans d) (insert_schedule id loan).
Proof. intros u t r [_ ->]%insert_schedule_run H. by eapply same_loans_eq. Qed.
Lemma add_schedule_line_same_loans d s id line : keeps (same_loans d) (add_schedule_line s id line).
Proof. intros u t r [_ ->]%add_schedule_line_run H. by eapply same_loans_eq. Qed.
Lemma insert_savings_account_same_loans d id customer product number :
  keeps (same_loans d) (insert_savings_account id customer product number).
Proof. intros u t r [_ ->]%insert_savings_account_run H. by eapply same_loans_eq. Qed.
#[export] Hint Resolve insert_schedule_same_loans add_schedule_line_same_loans
  insert_savings_account_same_loans : pres.

(** The last step of a transition, from a state where the loans are as in [d]. *)
Lemma set_loan_evolves d u t loan f l r :
  same_loans d u -> set_loan loan f u = (t, Ret r) ->
  loans d !! loan = Some l ->
  (forall l1, lo_status l1 = lo_status l -> same_terms l1 (f l1) /\ loan_edge (lo_status l) (lo_status (f l1))) ->
  evolves d t.
Proof.
  intros H ->%modify_Ret Hl Hf id x Hx. destruct (H id x Hx) as (x' & Hx' & E).
  destruct (forget_terms _ _ E) as [T S]. simpl. destruct (decide (id = loan)) as [->|Hne].
  - simplify_eq. rewrite lookup_alter_eq, Hx'. exists (f x'). split; [done|].
    destruct (Hf x' S) as [T' Ed]. split; [|by right].
    unfold same_terms in *. destruct T as (? & ? & ? & ?), T' as (? & ? & ? & ?). split_and!; congruence.
  - rewrite lookup_alter_ne by done. exists x'. auto.
Qed.

Lemma evolves_flush d u t r : evolves d u -> flush u = (t, Ret r) -> evolves d t.
Proof. intros H E. rewrite flush_run in E. by injection E as <- _. Qed.

(** [evo m]: every completed run of [m] takes the loans along at most one edge. *)
Definition evo {A} (m : M TenantDb A) : Prop := forall d t a, m d = (t, Ret a) -> evolves d t.

Lemma evo_same {A} (m : M TenantDb A) : (forall d, keeps (same_loans d) m) -> evo m.
Proof. intros H d t a E. apply same_loans_evolves. eapply H; [exact E|apply same_loans_refl]. Qed.

Lemma evo_read {A B} (m : M TenantDb A) (f : A -> M TenantDb B) :
  (forall d, pres (eq d) m) -> (forall a, evo (f a)) -> evo (m ≫= f).
Proof.
  intros Hm Hf d t b (u & a & H1 & H2)%bind_Ret. specialize (Hm d d eq_refl).
  rewrite H1 in Hm. simpl in Hm. subst u. by eapply Hf.
Qed.

Lemma evo_commit {A B} (m : M TenantDb A) (r : A -> B) : evo m -> evo (a ← m; commit;; mret (r a)).
Proof.
  intros Hm d t b (u & a & H1 & H2)%bind_Ret.
  apply bind_Ret in H2 as (v & ? & H2 & [-> _]%mret_Ret). eapply evolves_flush; [|exact H2]. by eapply Hm.
Qed.

Lemma evo_conflict {A} cs (m : M TenantDb A) : evo m -> evo (conflict cs m).
Proof. intros Hm d t a H%conflict_run. by eapply Hm. Qed.

Lemma evo_transition loan st f :
  (forall l1, lo_status l1 = st -> same_terms l1 (f l1) /\ loan_edge st (lo_status (f l1))) ->
  evo (require_status loan st;; set_loan loan f;; flush).
Proof.
  intros Hf d t r (? & ? & (-> & l & Hl & Hs)%require_status_run & H)%bind_Ret.
  apply bind_Ret in H as (u & ? & H1 & H2). eapply evolves_flush; [|exact H2].
  eapply set_loan_evolves; [apply same_loans_refl|exact H1|exact Hl|]. by rewrite Hs.
Qed.

Lemma evo_disburse now today tx s line_id loan product key start :
  evo (disburse_loan now today tx s line_id loan product key start).
Proof.
  intros d t r H. unfold disburse_loan in H. cbv zeta in H.
  apply bind_Ret in H as (? & ? & (-> & l & Hl & Hst)%require_status_run & H).
  apply bind_Ret in H as (? & ? & [-> _]%deref_run & H).
  apply bind_Ret in H as (? & lines & Hgen & H). injection Hgen as <- _.
  apply bind_Ret in H as (d1 & ? & H1 & H).
  apply bind_Ret in H as (d2 & ? & H2 & H).
  apply bind_Ret in H as (? & ? & [-> _]%get_internal_account_run & H).
  apply bind_Ret in H as (? & ? & [-> _]%deref_run & H).
  apply bind_Ret in H as (d3 & ? & H3 & H).
  apply bind_Ret in H as (d4 & ? & H4 & H5).
  eapply evolves_flush; [|exact H5]. eapply set_loan_evolves; [|exact H4|exact Hl|].
  - eapply post_transaction_same_loans; [exact H3|].
    eapply keeps_for; [|exact H2|]; [intros; apply add_schedule_line_same_loans|].
    eapply insert_schedule_same_loans; [exact H1|apply same_loans_refl].
  - rewrite Hst. intros l1 _. split; [done|constructor].
Qed.

Lemma evo_repay now tx loan amount key : evo (repay_installment now tx loan amount key).
Proof.
  intros d t r H. unfold repay_installment in H.
  apply bind_Ret in H as (? & ? & (-> & l & Hl & Hst)%require_status_run & H).
  apply bind_Ret in H as (? & ? & [-> ->]%gets_Ret & H).
  apply bind_Ret in H as (? & sc & [-> _]%scalar_one_Ret & H). cbv zeta in H.
  apply bind_Ret in H as (? & ? & [-> ->]%gets_Ret & H).
  apply bind_Ret in H as (? & ? & [_ ->]%some_or_Ret & H).
  apply bind_Ret in H as (? & ? & [-> _]%deref_run & H).
  apply bind_Ret in H as (? & ? & [_ ->]%require_Ret & H).
  apply bind_Ret in H as (d1 & ? & H1 & H).
  apply bind_Ret in H as (? & ? & [-> _]%get_internal_account_run & H).
  apply bind_Ret in H as (? & ? & [-> _]%get_internal_account_run & H).
  apply bind_Ret in H as (d2 & ? & H2 & H).
  apply bind_Ret in H as (? & ? & [-> ->]%gets_Ret & H).
  apply bind_Ret in H as (d3 & ? & H3 & H).
  apply bind_Ret in H as (d4 & ? & H4 & [-> _]%mret_Ret).
  eapply evolves_flush; [|exact H4].
  assert (same_loans d d2) as Hsame.
  { eapply post_transaction_same_loans; [exact H2|].
    eapply same_loans_modify; [|exact H1|apply same_loans_refl]. done. }
  case_bool_decide.
  - eapply set_loan_evolves; [exact Hsame|exact H3|exact Hl|]. rewrite Hst. intros l1 _.
    split; [done|constructor].
  - apply mret_Ret in H3 as [-> _]. by apply same_loans_evolves.
Qed.

Lemma deposit_same_loans d tx account amount key desc : keeps (same_loans d) (deposit tx account amount key desc).
Proof.
  intros u t r (a & cash & _ & _ & _ & H)%deposit_run. by eapply post_transaction_same_loans.
Qed.
Lemma withdraw_same_loans d tx account amount key desc : keeps (same_loans d) (withdraw tx account amount key desc).
Proof.
  intros u t r (a & cash & _ & _ & _ & _ & H)%withdraw_run. by eapply post_transaction_same_loans.
Qed.
#[export] Hint Resolve deposit_same_loans withdraw_same_loans : pres.

Lemma open_same_loans d id tx number customer product amount key :
  keeps (same_loans d) (open_savings_account id tx number customer product amount key).
Proof. unfold open_savings_account. keeps_go. Qed.
Lemma create_loan_same_loans d id customer product principal term :
  keeps (same_loans d) (create_loan id customer product principal term).
Proof. unfold create_loan. keeps_go. Qed.

Lemma handle_evo req staff : evo (handle req staff).
Proof.
  destruct req; unfold handle, create_branch, create_customer, update_kyc_status, create_savings_product,
    open_account, deposit_endpoint, withdraw_endpoint, create_loan_product, create_loan_application,
    submit_loan, approve_loan_endpoint, reject_loan_endpoint, disburse_loan_endpoint, repay_loan_endpoint;
    repeat (apply evo_read; [solve [intros; eauto with pres]|intros ?]);
    try (first [apply (evo_commit _ (fun _ => _)) | apply (evo_commit _ (fun a => a))]);
    try apply evo_conflict;
    try solve [apply evo_same; intros; first [by apply same_loans_modify | eauto with pres]].
  - apply evo_same. intros d. apply open_same_loans.
  - apply evo_same. intros d. apply create_loan_same_loans.
  - apply evo_transition. intros l1 _. split; [done|constructor].
  - apply evo_transition. intros l1 _. split; [done|constructor].
  - apply evo_transition. intros l1 _. split; [done|constructor].
  - match goal with |- context [match ?p with _ => _ end] => destruct p end; [apply evo_disburse|].
    apply evo_same. intros d. keeps_go.
  - apply evo_repay.
Qed.

Lemma evolves_refl d : evolves d d.
Proof. apply same_loans_evolves, same_loans_refl. Qed.

Lemma loan_portfolio_outstanding d :
  loan_books d ->
  exists p, get_loan_portfolio d = (d, Ret p) /\
    total_outstanding_principal p = map_sum outstanding_principal (loans d).
Proof.
  intros [A B C D E]. unfold get_loan_portfolio, mbind, M_bind, gets. eexists. split; [reflexivity|]. simpl.
  unfold rows, select, map_sum. assert (forall kl, kl ∈ map_to_list (loans d) ->
    lo_status kl.2 <> ACTIVE -> outstanding_principal kl.2 = 0) as Hz.
  { intros [id l] Hin Hs. apply elem_of_map_to_list in Hin. simpl in *.
    destruct (lo_status l) eqn:Est; try done; try (destruct (D _ _ Hin) as [_ Dl]; rewrite Est in Dl; apply Dl).
    apply (closed_owes_nothing d id l); [by split|done|done]. }
  clear -Hz. induction (map_to_list (loans d)) as [|[id l] ls IH]; [done|].
  assert (forall kl, kl ∈ ls -> lo_status kl.2 <> ACTIVE -> outstanding_principal kl.2 = 0) as Hz'.
  { intros kl Hin. apply Hz. by right. }
  specialize (IH Hz'). assert (lo_status l <> ACTIVE -> outstanding_principal l = 0) as Hl.
  { apply (Hz (id, l)). left. }
  rewrite filter_cons, !fmap_cons, sumZ_cons, <- IH. clear IH Hz Hz'. cbn [snd].
  destruct (decide (lo_status l = ACTIVE)) as [E|E].
  - rewrite decide_True by (by rewrite bool_decide_eq_true_2).
    rewrite fmap_cons, filter_cons. cbn [snd]. by rewrite decide_True.
  - rewrite Hl by done. case_decide; [|done].
    rewrite fmap_cons, filter_cons. cbn [snd]. by rewrite decide_False.
Qed.

(** ** Properties *)

Lemma example_institution_ready : tenant_ready example_institution.
Proof.
  split; [apply example_institution_ok| |].
  - exists 1%positive. split; [eexists|]; vm_compute; reflexivity.
  - exists 2%positive. split; [eexists|]; vm_compute; reflexivity.
Qed.


Definition example_teller : uuid * MFStaffUser :=
  (6%positive, mkMFStaffUser 1 "t@x" "hash" INSTITUTION_ADMIN None true).
Definition example_requests : list mf_request :=
  [CreateLoan 9 3 5 100000 2; SubmitLoan 9; ApproveLoan 0 9;
   DisburseLoan 0 (Date 2026 1 31) 20 30 (fun i => Pos.of_nat (40 + i)) 9 "d1";
   RepayLoan 0 21 9 51000 "r1"; RepayLoan 0 22 9 60000 "r2"; RepayLoan 0 23 9 51000 "r3"].
(** The states after each of the requests. *)
Definition run_requests (d : TenantDb) (reqs : list mf_request) : TenantDb :=
  foldl (fun d req => (atomic (handle req example_teller) d).1) d reqs.

Lemma run_requests_reach d reqs : rtc request_step d (run_requests d reqs).
Proof.
  revert d. induction reqs as [|req reqs IH]; intros d; simpl; [constructor|].
  econstructor; [|apply IH]. by econstructor.
Qed.

(** ... and whether every one of them comes with a new key. *)
Fixpoint all_fresh (d : TenantDb) (reqs : list mf_request) : bool :=
  match reqs with
  | [] => true
  | req :: reqs =>
      match key_of req with Some key => bool_decide (key_rows key d = []) | None => true end
      && all_fresh (atomic (handle req example_teller) d).1 reqs
  end.

Lemma run_requests_fresh d reqs : all_fresh d reqs = true -> rtc fresh_step d (run_requests d reqs).
Proof.
  revert d. induction reqs as [|req reqs IH]; intros d H; simpl; [constructor|].
  simpl in H. apply andb_true_iff in H as [H1 H2].
  econstructor; [|by apply IH]. eapply (do_fresh _ _ req example_teller); [|done].
  intros key E. rewrite E in H1. by apply bool_decide_eq_true in H1.
Qed.




(** A request takes a loan along at most one edge of its life cycle, never
    loses one, and never changes its customer, its product, its principal or its
    term. *)
Theorem loan_lifecycle (d t : TenantDb) (id : uuid) (l : Loan) :
  request_step d t -> loans d !! id = Some l ->
  exists l', loans t !! id = Some l' /\ same_terms l l' /\
    (lo_status l' = lo_status l \/ loan_edge (lo_status l) (lo_status l')).
Proof.
  intros [req staff ->] Hl. unfold atomic. destruct (handle req staff d) as [u [r|e]] eqn:E; simpl.
  - by apply (handle_evo _ _ _ _ _ E).
  - by apply evolves_refl.
Qed.

Lemma loan_lifecycle_witness :
  let d := run_requests example_institution [CreateLoan 9 3 5 100000 2] in
  let t := (atomic (handle (SubmitLoan 9) example_teller) d).1 in
  exists l', loans t !! 9%positive = Some l' /\ lo_status l' = PENDING_APPROVAL.
Proof.
  set (d := run_requests example_institution [CreateLoan 9 3 5 100000 2]).
  set (t := (atomic (handle (SubmitLoan 9) example_teller) d).1).
  destruct (loan_lifecycle d t 9 (mkLoan 3 5 100000 2 DRAFT None None None None None 0)) as (l' & Hl & _).
  - by econstructor.
  - vm_compute. reflexivity.
  - exists l'. split; [exact Hl|].
    assert (lo_status <$> loans t !! 9%positive = Some PENDING_APPROVAL) as H by (vm_compute; reflexivity).
    rewrite Hl in H. by injection H.
Defined.
