(* ===== verification/MfReads.v ===== *)
(** * What the staff of an institution reads: the [GET] endpoints of
    [microfinance/mf_app/api/v1/endpoints/]

    A row comes with its key. Rows come in no order, but where the query asks for one. *)

From stdpp Require Import sorting.
From S2P Require Import Prelude PyStd Amortization Tenant Ledger Savings Loans Queue MfRbac MfControl MfApi Reports.

(** ** Model *)

(** [list(result.scalars().all())] of a whole table. *)
Definition all_rows {V} (table : TenantDb -> gmap uuid V) : M TenantDb (list (uuid * V)) := gets (fun d => map_to_list (table d)).
Definition reading {A} (staff : uuid * MFStaffUser) (action : string) (m : M TenantDb A) : M TenantDb A :=
  require_permission (role staff.2) action;; m.

Definition list_branches (staff : uuid * MFStaffUser) : M TenantDb (list (uuid * Branch)) :=
  reading staff "branches:read" (all_rows branches).
Definition list_customers (staff : uuid * MFStaffUser) : M TenantDb (list (uuid * Customer)) :=
  reading staff "customers:read" (all_rows customers).
Definition get_customer (customer : uuid) (staff : uuid * MFStaffUser) : M TenantDb Customer :=
  reading staff "customers:read" (get_or_404 customers customer).
Definition list_savings_products (staff : uuid * MFStaffUser) : M TenantDb (list (uuid * SavingsProduct)) :=
  reading staff "savings_products:read" (all_rows savings_products).
Definition list_customer_accounts (customer : uuid) (staff : uuid * MFStaffUser) : M TenantDb (list (uuid * SavingsAccount)) :=
  reading staff "savings:read" (gets (fun d => select (fun a => bool_decide (sa_customer_id a = customer)) (savings_accounts d))).
Definition read_account (account : uuid) (staff : uuid * MFStaffUser) : M TenantDb SavingsAccount :=
  reading staff "savings:read" (get_or_404 savings_accounts account).
Definition list_loan_products (staff : uuid * MFStaffUser) : M TenantDb (list (uuid * LoanProduct)) :=
  reading staff "loan_products:read" (all_rows loan_products).
Definition get_loan (loan : uuid) (staff : uuid * MFStaffUser) : M TenantDb Loan :=
  reading staff "loans:read" (get_or_404 loans loan).

(** [order_by(key)] *)
Definition by_key {A} (key : A -> Z) (x y : A) : Prop := key x <= key y.
#[export] Instance by_key_dec {A} (key : A -> Z) : RelDecision (by_key key).
Proof. intros x y. unfold by_key. apply _. Defined.
#[export] Instance by_key_trans {A} (key : A -> Z) : Transitive (by_key key).
Proof. intros x y z. unfold by_key. lia. Qed.
#[export] Instance by_key_total {A} (key : A -> Z) : Total (by_key key).
Proof. intros x y. unfold by_key. lia. Qed.
Definition order_by {A} (key : A -> Z) (l : list A) : list A := merge_sort (by_key key) l.
(** [result.scalars().unique()]: the first of the rows of an object. *)
Fixpoint unique {V} (l : list (uuid * V)) : list (uuid * V) :=
  match l with
  | [] => []
  | x :: l => x :: filter (fun y => y.1 <> x.1) (unique l)
  end.

(** The join: a row for every entry of the account. *)
Definition entry_transactions (account : uuid) (d : TenantDb) : list (uuid * Transaction) :=
  omap (fun e => (transaction_id e,.) <$> transactions d !! transaction_id e)
    (filter (fun e => le_account_type e = "savings_account" /\ le_account_id e = account) (ledger_entries d)).
(** [created_at] is the column of that name, which the server fills. *)
Definition list_account_transactions (created_at : uuid -> timestamp) (account : uuid) (staff : uuid * MFStaffUser) :
    M TenantDb (list (uuid * Transaction)) :=
  reading staff "savings:read" (gets (fun d => unique (order_by (fun x => created_at x.1) (entry_transactions account d)))).

Definition get_loan_schedule (loan : uuid) (staff : uuid * MFStaffUser) : M TenantDb (list (uuid * RepaymentScheduleLine)) :=
  reading staff "loans:read" (
    get_or_404 loans loan;;
    table ← gets schedules;
    schedule ← scalar_one_or_none (select (fun r => bool_decide (rs_loan_id r = loan) && rs_is_active r) table);
    match schedule with
    | None => mret []
    | Some (schedule, _) =>
        gets (fun d => order_by (fun x => rl_installment_number x.2)
          (select (fun l => bool_decide (schedule_id l = schedule)) (schedule_lines_flushed d)))
    end).

(** *** The control database *)

Section control.
Context (decode_staff_access_token : string -> option StaffTokenPayload) (verify_operator_token : string -> bool).

Definition list_institutions (credentials : option string) : M MfWorld (list (uuid * MFInstitution)) :=
  require_mf_operator verify_operator_token credentials;;
  gets (fun w => map_to_list (institutions w)).
Definition get_mf_job (credentials : option string) (job : uuid) : M MfWorld MFJob :=
  require_mf_operator verify_operator_token credentials;;
  found ← gets (fun w => mf_jobs w !! job);
  some_or found (HTTPException 404).
Definition list_staff (slug : string) (credentials : option string) : M MfWorld (list (uuid * MFStaffUser)) :=
  institution ← get_institution_by_slug slug;
  require_active_institution institution.2;;
  staff ← get_current_staff_user decode_staff_access_token institution.1 credentials;
  require_permission (role staff.2) "staff:read";;
  gets (fun w => select (fun u => bool_decide (institution_id u = institution.1)) (staff_users w)).
End control.

(** ** Lemmas *)

Lemma order_by_perm {A} (key : A -> Z) l : order_by key l ≡ₚ l.
Proof. apply merge_sort_Permutation. Qed.
Lemma order_by_sorted {A} (key : A -> Z) l : StronglySorted (by_key key) (order_by key l).
Proof. apply StronglySorted_merge_sort; apply _. Qed.

Lemma sublist_sorted {A} (R : A -> A -> Prop) l l' : l `sublist_of` l' -> StronglySorted R l' -> StronglySorted R l.
Proof.
  induction 1 as [|x l l' Hl IH|x l l' Hl IH]; [done|..]; intros [Hf Hs]%StronglySorted_cons; [|by apply IH].
  apply StronglySorted_cons. split; [|by apply IH]. rewrite Forall_forall in *. intros y Hy. apply Hf. by apply (sublist_subseteq _ _ Hl).
Qed.
Lemma unique_sublist {V} (l : list (uuid * V)) : unique l `sublist_of` l.
Proof.
  induction l as [|x l IH]; [done|]. cbn [unique]. apply sublist_skip. etransitivity; [apply sublist_filter|done].
Qed.
Lemma unique_keys {V} (l : list (uuid * V)) : NoDup (unique l).*1 /\ forall k, k ∈ (unique l).*1 <-> k ∈ l.*1.
Proof.
  induction l as [|x l [Hn Hk]]; [split; [apply NoDup_nil_2|done]|]. cbn [unique fmap list_fmap].
  assert (Hf : forall k, k ∈ (filter (fun y => y.1 <> x.1) (unique l)).*1 <-> k ∈ (unique l).*1 /\ k <> x.1).
  { intros k. rewrite !list_elem_of_fmap. setoid_rewrite list_elem_of_filter. naive_solver. }
  split.
  - apply NoDup_cons. split; [rewrite Hf; by intros [_ ?]|].
    eapply sublist_NoDup; [exact Hn|]. apply fmap_sublist, sublist_filter.
  - intros k. rewrite !elem_of_cons, Hf, Hk. destruct (decide (k = x.1)); naive_solver.
Qed.

(** A sum over a list, by the keys of its elements. *)
Lemma sum_by_key {A} (f : A -> Z) (key : A -> uuid) (ks : list uuid) l :
  NoDup ks -> (forall x, x ∈ l -> key x ∈ ks) ->
  sumZ (f <$> l) = sumZ ((fun k => sumZ (f <$> filter (fun x => key x = k) l)) <$> ks).
Proof.
  intros Hn. induction l as [|x l IH]; intros Hl.
  - clear Hn Hl. induction ks as [|k ks IH]; [done|]. rewrite fmap_cons, sumZ_cons, <- IH. done.
  - rewrite fmap_cons, sumZ_cons, IH by (intros; apply Hl; by right). assert (Hx : key x ∈ ks) by (apply Hl; left). clear IH Hl.
    induction Hn as [|k ks Hk Hn IH]; [by apply elem_of_nil in Hx|]. rewrite !fmap_cons, !sumZ_cons, filter_cons.
    destruct (decide (key x = k)) as [E|E].
    + rewrite fmap_cons, sumZ_cons. cut (((fun k => sumZ (f <$> filter (fun x => key x = k) (x :: l))) <$> ks) =
        ((fun k => sumZ (f <$> filter (fun x => key x = k) l)) <$> ks)); [intros ->; lia|].
      apply list_fmap_ext. intros i k' Hi. apply list_elem_of_lookup_2 in Hi. rewrite filter_cons, decide_False; [done|]. congruence.
    + apply elem_of_cons in Hx as [|Hx]; [done|]. specialize (IH Hx). lia.
Qed.

Lemma sum_filter {A} (f : A -> Z) (P : A -> Prop) `{!forall x, Decision (P x)} l :
  sumZ (f <$> filter P l) = sumZ ((fun x => if decide (P x) then f x else 0) <$> l).
Proof.
  induction l as [|x l IH]; [done|]. rewrite filter_cons, fmap_cons, sumZ_cons. case_decide; [rewrite fmap_cons, sumZ_cons|]; lia.
Qed.
Lemma sum_perm {A} (f : A -> Z) l l' : l ≡ₚ l' -> sumZ (f <$> l) = sumZ (f <$> l').
Proof. induction 1; rewrite ?fmap_cons, ?sumZ_cons; lia. Qed.
Lemma sum_select {V} (f : V -> Z) (P : V -> bool) (m : gmap uuid V) :
  sumZ ((fun x => f x.2) <$> select P m) = map_sum (fun v => if P v then f v else 0) m.
Proof.
  unfold select, map_sum. rewrite sum_filter, <- list_fmap_compose. f_equal. apply list_fmap_ext. intros i x _. cbn.
  case_decide as E; [by rewrite E|]. by apply not_true_is_false in E as ->.
Qed.

(** Every role may read the accounts and the loans. *)
Lemma reading_run {A} staff action (m : M TenantDb A) d :
  allows (role staff.2) action = true -> reading staff action m d = m d.
Proof.
  intros H. unfold reading. assert (require_permission (role staff.2) action d = (d, Ret tt)) as E
    by (by apply require_staff_permission_run). unfold mbind, M_bind. by rewrite E.
Qed.

(** *** The history of an account *)

Definition account_entries (account : uuid) (d : TenantDb) : list LedgerEntry := entries_of "savings_account" account (ledger_entries d).
(** What a transaction adds to the balance of a savings account. *)
Definition effect (account : uuid) (d : TenantDb) (tx : uuid) : money :=
  signed_total "credit" (filter (fun e => transaction_id e = tx) (account_entries account d)).

Lemma entry_transactions_keys account d :
  ledger_ok d -> (entry_transactions account d).*1 = transaction_id <$> account_entries account d.
Proof.
  intros Hd. unfold entry_transactions, account_entries, entries_of.
  assert (Ht : forall e, e ∈ filter (fun e => le_account_type e = "savings_account" /\ le_account_id e = account) (ledger_entries d) ->
    is_Some (transactions d !! transaction_id e)) by (intros e [_ He]%list_elem_of_filter; by apply (ok_transactions _ Hd)).
  induction (filter _ _) as [|e es IH]; [done|]. destruct (Ht e) as [t Hte]; [by left|]. cbn [omap list_omap]. rewrite Hte. cbn.
  f_equal. apply IH. intros e' He'. apply Ht. by right.
Qed.

Definition history (created_at : uuid -> timestamp) (account : uuid) (d : TenantDb) : list (uuid * Transaction) :=
  unique (order_by (fun x => created_at x.1) (entry_transactions account d)).
Lemma history_sorted created_at account d : StronglySorted (by_key (fun x => created_at x.1)) (history created_at account d).
Proof. eapply sublist_sorted; [apply unique_sublist|apply order_by_sorted]. Qed.
Lemma history_keys created_at account d :
  ledger_ok d -> NoDup (history created_at account d).*1 /\
  forall tx, tx ∈ (history created_at account d).*1 <-> exists e, e ∈ account_entries account d /\ transaction_id e = tx.
Proof.
  intros Hd. unfold history. destruct (unique_keys (order_by (fun x => created_at x.1) (entry_transactions account d))) as [Hn Hk].
  split; [done|]. intros tx. rewrite Hk, order_by_perm, entry_transactions_keys by done. rewrite list_elem_of_fmap. naive_solver.
Qed.
Lemma history_balance created_at account a d :
  ledger_ok d -> savings_accounts d !! account = Some a ->
  sa_balance_cached a = sumZ (effect account d <$> (history created_at account d).*1).
Proof.
  intros Hd Ha. pose proof (ok_cached _ Hd _ _ _ _ (at_savings d account a Ha)) as E. cbn [balance_field] in E. rewrite E.
  destruct (history_keys created_at account d Hd) as [Hn Hk]. unfold signed_total. fold (account_entries account d).
  rewrite (sum_by_key _ transaction_id (history created_at account d).*1); [done|done|]. intros e He. apply Hk. by exists e.
Qed.

(** *** The schedule of a loan *)

Lemma schedule_sum (f : RepaymentScheduleLine -> Z) s (m : gmap uuid RepaymentScheduleLine) :
  sumZ ((fun x => f x.2) <$> order_by (fun x => rl_installment_number x.2) (select (fun l => bool_decide (schedule_id l = s)) m)) =
  map_sum (fun l => if decide (schedule_id l = s) then f l else 0) m.
Proof.
  rewrite (sum_perm _ _ _ (order_by_perm _ _)), sum_select. unfold map_sum. f_equal. apply list_fmap_ext. intros i l _.
  case_bool_decide as E; [by rewrite decide_True|by rewrite decide_False].
Qed.
Lemma get_loan_schedule_run loan x staff d :
  loan_books d -> loans d !! loan = Some x ->
  exists l, get_loan_schedule loan staff d = (d, Ret l) /\ StronglySorted (by_key (fun y => rl_installment_number y.2)) l /\
    if lent (lo_status x) then sumZ ((fun y => rl_principal_due y.2) <$> l) = lo_principal x /\
      sumZ ((fun y => principal_remaining y.2) <$> l) = outstanding_principal x
    else l = [].
Proof.
  intros Hb Hx. unfold get_loan_schedule. rewrite reading_run by (by destruct (role staff.2)).
  assert (get_or_404 loans loan d = (d, Ret x)) as E by (by apply get_or_404_run).
  destruct (lb_loan _ Hb _ _ Hx) as [_ Hok]. destruct (lent (lo_status x)).
  - destruct Hok as (s & r & Hs & Hr & Ha & Hdue & Hrem & _).
    assert (select (fun r => bool_decide (rs_loan_id r = loan) && rs_is_active r) (schedules d) = [(s, r)]) as Hsel.
    { apply select_singleton; [done|by rewrite Hr, Ha, bool_decide_eq_true_2|].
      intros s' r' Hs' [E'%bool_decide_eq_true _]%andb_true_iff. apply (lb_unique _ Hb _ _ _ _ Hs' Hs). congruence. }
    eexists. split; [unfold mbind at 1, M_bind at 1; rewrite E, bind_gets, Hsel; reflexivity|].
    rewrite (lb_flushed _ Hb), !schedule_sum. split; [apply order_by_sorted|done].
  - destruct Hok as [_ Hno]. exists [].
    assert (select (fun r => bool_decide (rs_loan_id r = loan) && rs_is_active r) (schedules d) = []) as Hsel.
    { apply select_nil_iff. intros s r Hs. apply andb_false_iff. left. apply bool_decide_eq_false. by apply (Hno s). }
    split; [unfold mbind at 1, M_bind at 1; rewrite E, bind_gets, Hsel; reflexivity|]. split; [apply SSorted_nil|done].
Qed.

(** ** Properties *)


(** *** Reading changes nothing *)

Definition read_only {A} (m : M TenantDb A) : Prop := forall d, (m d).1 = d.
Lemma read_only_gets {A} (f : TenantDb -> A) : read_only (gets f).
Proof. done. Qed.
Lemma read_only_bind {A B} (m : M TenantDb A) (f : A -> M TenantDb B) : read_only m -> (forall a, read_only (f a)) -> read_only (m ≫= f).
Proof.
  intros Hm Hf d. specialize (Hm d). unfold mbind, M_bind. destruct (m d) as [t [a|e]]; cbn in *; subst t; [apply Hf|done].
Qed.
Lemma read_only_permission r action : read_only (require_permission r action).
Proof. intros d. unfold require_permission. destruct (has_permission r action) as [[]|]; done. Qed.
Lemma read_only_get_or_404 {V} (table : TenantDb -> gmap uuid V) id : read_only (get_or_404 table id).
Proof. intros d. unfold get_or_404, db_get. rewrite bind_gets. by destruct (table d !! id). Qed.
Lemma read_only_reading {A} staff action (m : M TenantDb A) : read_only m -> read_only (reading staff action m).
Proof. intros Hm. apply read_only_bind; [apply read_only_permission|done]. Qed.
Lemma read_only_schedule loan staff : read_only (get_loan_schedule loan staff).
Proof.
  apply read_only_reading, read_only_bind; [apply read_only_get_or_404|]. intros _. apply read_only_bind; [done|]. intros table.
  apply read_only_bind; [|by intros [[]|]]. intros d. by destruct (select _ table) as [|? []].
Qed.
(** A request that only reads the tenant's database leaves the whole service as it was. *)
Lemma tenant_read_changes_nothing {A} decode decrypt slug credentials (endpoint : uuid * MFStaffUser -> M TenantDb A) w :
  (forall staff, read_only (endpoint staff)) -> (tenant_request decode decrypt slug credentials endpoint w).1 = w.
Proof.
  intros He. assert (pres (eq w) (tenant_request decode decrypt slug credentials endpoint)) as Hp; [|by rewrite <- (Hp w eq_refl)].
  unfold tenant_request, get_institution_by_slug, get_current_staff_user, require_active_institution. pres_go.
  intros v <-. unfold on_tenant. destruct (tenants w !! _) as [d|] eqn:Hd; [|done]. unfold atomic.
  match goal with |- context [endpoint ?st d] => specialize (He st d); destruct (endpoint st d) as [t [b|e]] end; cbn in *; try subst t;
    destruct w; unfold upd_field; cbn in *; f_equal; by rewrite insert_id.
Qed.

(** ** Examples *)

Definition example_savings : list mf_request :=
  [CreateSavingsProduct 50 "Livret" "LIV" 300 100; OpenAccount 60 61 "0001" 3 50 500 (Some "o1");
   Deposit 62 60 300 "p1" None; Withdraw 63 60 100 "w1" None].
