(* ===== verification/ControlPlane.v ===== *)
(** * The control plane's database: [backend/app/models/]

    One record per table row and one for the database, with the columns the
    modelled services read or write.  Sessions run with [autoflush=False]; no
    modelled service selects on a column it assigned since its last flush, so a
    table has one view.  [agent_log] is not a table: it is the sequence of the
    calls made to the data-plane agents. *)

From S2P Require Import Prelude PyStd Queue.

Inductive NodeStatus := NODE_ACTIVE | MAINTENANCE | DRAINING.
Inductive ClusterTopology := SINGLE | PRIMARY_REPLICA.
Inductive ClusterStatus := CL_PROVISIONING | CL_ACTIVE | DEGRADED | CL_DELETED.
Inductive ClusterMemberRole := PRIMARY | REPLICA.
Inductive IsolationLevel := SHARED | DEDICATED.
Inductive DatabaseStatus := DB_CREATING | DB_RUNNING | DB_UPDATING | DB_SUSPENDING | DB_SUSPENDED |
    DB_RESTORING | DB_MIGRATING | DB_FAILING | DB_FAILED | DB_DELETING | DB_DELETED.
Inductive CredentialScope := SCOPE_APP | SCOPE_READONLY | SCOPE_ADMIN.
Inductive BackupType := AUTOMATIC | MANUAL.
Inductive BackupStatus := BK_PENDING | BK_COMPLETED | BK_FAILED | BK_VERIFIED |
    BK_VERIFICATION_FAILED | BK_PURGED.
Inductive MembershipRole := OWNER | ADMIN | DEVELOPER | BILLING | READONLY.
Inductive SubscriptionStatus := SUB_ACTIVE | PAST_DUE | CANCELED.
Inductive UsageMetric := CPU_HOURS | STORAGE_GB_HOURS | CONNECTIONS | EGRESS_GB.
Inductive InvoiceStatus := INV_DRAFT | INV_FINALIZED | INV_PAID | INV_VOID.
Inductive PaymentProviderName := MANUAL_PROVIDER | NOWPAYMENTS | FEDAPAY.
Inductive PaymentStatus := PAY_PENDING | PAY_SUCCEEDED | PAY_FAILED.
Inductive WebhookDeliveryStatus := WD_PENDING | WD_SUCCEEDED | WD_FAILED.

#[export] Instance NodeStatus_eq_dec : EqDecision NodeStatus.
Proof. solve_decision. Defined.
#[export] Instance ClusterTopology_eq_dec : EqDecision ClusterTopology.
Proof. solve_decision. Defined.
#[export] Instance ClusterStatus_eq_dec : EqDecision ClusterStatus.
Proof. solve_decision. Defined.
#[export] Instance ClusterMemberRole_eq_dec : EqDecision ClusterMemberRole.
Proof. solve_decision. Defined.
#[export] Instance IsolationLevel_eq_dec : EqDecision IsolationLevel.
Proof. solve_decision. Defined.
#[export] Instance DatabaseStatus_eq_dec : EqDecision DatabaseStatus.
Proof. solve_decision. Defined.
#[export] Instance CredentialScope_eq_dec : EqDecision CredentialScope.
Proof. solve_decision. Defined.
#[export] Instance BackupType_eq_dec : EqDecision BackupType.
Proof. solve_decision. Defined.
#[export] Instance BackupStatus_eq_dec : EqDecision BackupStatus.
Proof. solve_decision. Defined.
#[export] Instance MembershipRole_eq_dec : EqDecision MembershipRole.
Proof. solve_decision. Defined.
#[export] Instance SubscriptionStatus_eq_dec : EqDecision SubscriptionStatus.
Proof. solve_decision. Defined.
#[export] Instance UsageMetric_eq_dec : EqDecision UsageMetric.
Proof. solve_decision. Defined.
#[export] Instance InvoiceStatus_eq_dec : EqDecision InvoiceStatus.
Proof. solve_decision. Defined.
#[export] Instance PaymentProviderName_eq_dec : EqDecision PaymentProviderName.
Proof. solve_decision. Defined.
#[export] Instance PaymentStatus_eq_dec : EqDecision PaymentStatus.
Proof. solve_decision. Defined.
#[export] Instance WebhookDeliveryStatus_eq_dec : EqDecision WebhookDeliveryStatus.
Proof. solve_decision. Defined.

(** [WebhookDelivery.payload] is the JSON object with the keys [event] and [data]. *)

(** The JSON of [Database.backup_policy]: the keys the scheduler reads, [None] when
    absent. *)
Record BackupPolicy := mkBackupPolicy {
  policy_enabled : bool;
  policy_frequency_hours : option Z;
  policy_retention_days : option Z;
}.

Record Region := mkRegion {
  rg_code : string;
  rg_active : bool;
}.

Record Node := mkNode {
  nd_region_id : uuid;
  nd_ip_address : option string;
  nd_cpu_total : Z;
  nd_ram_total_mb : Z;
  nd_storage_total_gb : Z;
  nd_agent_port : Z;
  nd_postgres_port : Z;
  nd_status : NodeStatus;
  nd_last_heartbeat_at : option timestamp;
  nd_node_secret_hash : string;
}.

Record NodeRegistrationToken := mkNodeRegistrationToken {
  rt_region_id : uuid;
  rt_token_hash : string;
  rt_expires_at : timestamp;
  rt_used_at : option timestamp;
}.

Record Cluster := mkCluster {
  cl_region_id : uuid;
  cl_topology : ClusterTopology;
  cl_shared : bool;
  cl_status : ClusterStatus;
}.

Record ClusterMember := mkClusterMember {
  cm_cluster_id : uuid;
  cm_node_id : uuid;
  cm_role : ClusterMemberRole;
  cm_replication_lag_bytes : option Z;
  cm_promoted_at : option timestamp;
}.

Record ClusterEvent := mkClusterEvent {
  ce_cluster_id : uuid;
  ce_event_type : string;
  ce_data : payload;
}.

Record Database := mkDatabase {
  db_project_id : uuid;
  db_region_id : uuid;
  db_cluster_id : option uuid;
  db_name : string;
  db_physical_name : string;
  db_isolation_level : IsolationLevel;
  db_status : DatabaseStatus;
  db_cpu_limit : Z;
  db_ram_limit_mb : Z;
  db_storage_limit_gb : Z;
  db_connection_host : option string;
  db_connection_port : option Z;
  db_backup_policy : BackupPolicy;
  db_deleted_at : option timestamp;
}.

Record DatabaseCredential := mkDatabaseCredential {
  cr_database_id : uuid;
  cr_role_name : string;
  cr_display_name : option string;
  cr_is_primary : bool;
  cr_encrypted_password : string;
  cr_scope : CredentialScope;
  cr_rotated_at : option timestamp;
}.

Record DatabaseEvent := mkDatabaseEvent {
  de_database_id : uuid;
  de_job_id : option uuid;
  de_event_type : string;
  de_data : payload;
}.

Record Backup := mkBackup {
  bk_database_id : uuid;
  bk_type : BackupType;
  bk_status : BackupStatus;
  bk_storage_key : string;
  bk_size_bytes : option Z;
  bk_error : option string;
  bk_started_at : option timestamp;
  bk_completed_at : option timestamp;
  bk_verified_at : option timestamp;
  bk_verification_detail : option string;
  bk_created_at : timestamp;
}.

Record Organization := mkOrganization {
  og_name : string;
  og_slug : string;
}.

Record User := mkUser {
  ur_email : string;
  ur_password_hash : option string;
  ur_mfa_enabled : bool;
  ur_mfa_secret : option string;
  ur_is_platform_admin : bool;
  ur_last_login_at : option timestamp;
  ur_token_version : Z;
}.

Record ApiKey := mkApiKey {
  ak_organization_id : uuid;
  ak_user_id : option uuid;
  ak_name : string;
  ak_key_prefix : string;
  ak_key_hash : string;
  ak_last_used_at : option timestamp;
  ak_revoked_at : option timestamp;
}.

Record AuditLog := mkAuditLog {
  au_organization_id : option uuid;
  au_user_id : option uuid;
  au_action : string;
  au_resource_type : string;
  au_resource_id : option uuid;
  au_before : option payload;
  au_after : option payload;
}.

Record Project := mkProject {
  pj_organization_id : uuid;
  pj_name : string;
  pj_slug : string;
}.

Record Membership := mkMembership {
  ms_user_id : uuid;
  ms_organization_id : uuid;
  ms_role : MembershipRole;
}.

Record Plan := mkPlan {
  pl_name : string;
  pl_quotas : gmap string Z;
  pl_pricing : gmap string decimal;
  pl_is_active : bool;
}.

Record Subscription := mkSubscription {
  su_organization_id : uuid;
  su_plan_id : uuid;
  su_status : SubscriptionStatus;
  su_current_period_start : timestamp;
  su_current_period_end : timestamp;
}.

Record UsageRecord := mkUsageRecord {
  us_database_id : uuid;
  us_metric : UsageMetric;
  us_value : Z;
  us_period_start : timestamp;
  us_period_end : timestamp;
}.

Record Invoice := mkInvoice {
  iv_organization_id : uuid;
  iv_subscription_id : uuid;
  iv_period_start : timestamp;
  iv_period_end : timestamp;
  iv_status : InvoiceStatus;
  iv_total_amount : money;
  iv_currency : string;
  iv_finalized_at : option timestamp;
  iv_paid_at : option timestamp;
  iv_payment_reference : option string;
}.

Record InvoiceLineItem := mkInvoiceLineItem {
  il_invoice_id : uuid;
  il_description : string;
  il_metric : string;
  il_quantity : decimal;
  il_unit_price : decimal;
  il_amount : money;
}.

Record Payment := mkPayment {
  pa_invoice_id : uuid;
  pa_organization_id : uuid;
  pa_provider : PaymentProviderName;
  pa_provider_payment_id : option string;
  pa_amount : money;
  pa_currency : string;
  pa_status : PaymentStatus;
  pa_provider_status : option string;
  pa_error : option string;
  pa_expires_at : option timestamp;
}.

Record Webhook := mkWebhook {
  wh_organization_id : uuid;
  wh_url : string;
  wh_encrypted_secret : string;
  wh_event_types : list string;
  wh_is_active : bool;
}.

Record WebhookDelivery := mkWebhookDelivery {
  wd_webhook_id : uuid;
  wd_event_type : string;
  wd_payload : string * payload;
  wd_status : WebhookDeliveryStatus;
  wd_response_code : option Z;
  wd_error : option string;
  wd_delivered_at : option timestamp;
}.

Record Notification := mkNotification {
  nt_user_id : uuid;
  nt_type : string;
  nt_data : payload;
  nt_read_at : option timestamp;
}.

Inductive OAuthProviderName := GOOGLE | GITHUB.
#[export] Instance OAuthProviderName_eq_dec : EqDecision OAuthProviderName.
Proof. solve_decision. Defined.

Record OAuthAccount := mkOAuthAccount {
  oa_user_id : uuid;
  oa_provider : OAuthProviderName;
  oa_provider_account_id : string;
  oa_email : string;
}.

Record QueryExecution := mkQueryExecution {
  qe_database_id : uuid;
  qe_user_id : uuid;
  qe_query_text : string;
  qe_status : string;
  qe_row_count : option Z;
  qe_error : option string;
}.

Record SavedQuery := mkSavedQuery {
  sq_database_id : uuid;
  sq_user_id : uuid;
  sq_name : string;
  sq_query_text : string;
}.

Record Job := mkJob {
  jb_type : string;
  jb_idempotency_key : option string;
  jb_organization_id : option uuid;
  jb_resource_type : option string;
  jb_resource_id : option uuid;
  jb_payload : payload;
  jb_core : JobCore;
}.

Record AgentCall := mkAgentCall {
  ac_node : uuid;
  ac_method : string;
  ac_path : string;
  ac_args : payload;
}.

#[export] Instance Region_fields : Fields Region := fun x =>
  mkRegion (rg_code x) (rg_active x).
#[export] Instance Node_fields : Fields Node := fun x =>
  mkNode (nd_region_id x) (nd_ip_address x) (nd_cpu_total x) (nd_ram_total_mb x)
    (nd_storage_total_gb x) (nd_agent_port x) (nd_postgres_port x) (nd_status x)
    (nd_last_heartbeat_at x) (nd_node_secret_hash x).
#[export] Instance NodeRegistrationToken_fields : Fields NodeRegistrationToken := fun x =>
  mkNodeRegistrationToken (rt_region_id x) (rt_token_hash x) (rt_expires_at x) (rt_used_at x).
#[export] Instance Cluster_fields : Fields Cluster := fun x =>
  mkCluster (cl_region_id x) (cl_topology x) (cl_shared x) (cl_status x).
#[export] Instance ClusterMember_fields : Fields ClusterMember := fun x =>
  mkClusterMember (cm_cluster_id x) (cm_node_id x) (cm_role x) (cm_replication_lag_bytes x)
    (cm_promoted_at x).
#[export] Instance ClusterEvent_fields : Fields ClusterEvent := fun x =>
  mkClusterEvent (ce_cluster_id x) (ce_event_type x) (ce_data x).
#[export] Instance Database_fields : Fields Database := fun x =>
  mkDatabase (db_project_id x) (db_region_id x) (db_cluster_id x) (db_name x) (db_physical_name x)
    (db_isolation_level x) (db_status x) (db_cpu_limit x) (db_ram_limit_mb x) (db_storage_limit_gb
    x) (db_connection_host x) (db_connection_port x) (db_backup_policy x) (db_deleted_at x).
#[export] Instance DatabaseCredential_fields : Fields DatabaseCredential := fun x =>
  mkDatabaseCredential (cr_database_id x) (cr_role_name x) (cr_display_name x) (cr_is_primary x)
    (cr_encrypted_password x) (cr_scope x) (cr_rotated_at x).
#[export] Instance DatabaseEvent_fields : Fields DatabaseEvent := fun x =>
  mkDatabaseEvent (de_database_id x) (de_job_id x) (de_event_type x) (de_data x).
#[export] Instance Backup_fields : Fields Backup := fun x =>
  mkBackup (bk_database_id x) (bk_type x) (bk_status x) (bk_storage_key x) (bk_size_bytes x)
    (bk_error x) (bk_started_at x) (bk_completed_at x) (bk_verified_at x) (bk_verification_detail x)
    (bk_created_at x).
#[export] Instance Organization_fields : Fields Organization := fun x =>
  mkOrganization (og_name x) (og_slug x).
#[export] Instance User_fields : Fields User := fun x =>
  mkUser (ur_email x) (ur_password_hash x) (ur_mfa_enabled x) (ur_mfa_secret x)
    (ur_is_platform_admin x) (ur_last_login_at x) (ur_token_version x).
#[export] Instance ApiKey_fields : Fields ApiKey := fun x =>
  mkApiKey (ak_organization_id x) (ak_user_id x) (ak_name x) (ak_key_prefix x) (ak_key_hash x)
    (ak_last_used_at x) (ak_revoked_at x).
#[export] Instance Project_fields : Fields Project := fun x =>
  mkProject (pj_organization_id x) (pj_name x) (pj_slug x).
#[export] Instance Membership_fields : Fields Membership := fun x =>
  mkMembership (ms_user_id x) (ms_organization_id x) (ms_role x).
#[export] Instance Plan_fields : Fields Plan := fun x =>
  mkPlan (pl_name x) (pl_quotas x) (pl_pricing x) (pl_is_active x).
#[export] Instance Subscription_fields : Fields Subscription := fun x =>
  mkSubscription (su_organization_id x) (su_plan_id x) (su_status x) (su_current_period_start x)
    (su_current_period_end x).
#[export] Instance UsageRecord_fields : Fields UsageRecord := fun x =>
  mkUsageRecord (us_database_id x) (us_metric x) (us_value x) (us_period_start x) (us_period_end x).
#[export] Instance Invoice_fields : Fields Invoice := fun x =>
  mkInvoice (iv_organization_id x) (iv_subscription_id x) (iv_period_start x) (iv_period_end x)
    (iv_status x) (iv_total_amount x) (iv_currency x) (iv_finalized_at x) (iv_paid_at x)
    (iv_payment_reference x).
#[export] Instance InvoiceLineItem_fields : Fields InvoiceLineItem := fun x =>
  mkInvoiceLineItem (il_invoice_id x) (il_description x) (il_metric x) (il_quantity x)
    (il_unit_price x) (il_amount x).
#[export] Instance Payment_fields : Fields Payment := fun x =>
  mkPayment (pa_invoice_id x) (pa_organization_id x) (pa_provider x) (pa_provider_payment_id x)
    (pa_amount x) (pa_currency x) (pa_status x) (pa_provider_status x) (pa_error x) (pa_expires_at
    x).
#[export] Instance Webhook_fields : Fields Webhook := fun x =>
  mkWebhook (wh_organization_id x) (wh_url x) (wh_encrypted_secret x) (wh_event_types x)
    (wh_is_active x).
#[export] Instance WebhookDelivery_fields : Fields WebhookDelivery := fun x =>
  mkWebhookDelivery (wd_webhook_id x) (wd_event_type x) (wd_payload x) (wd_status x)
    (wd_response_code x) (wd_error x) (wd_delivered_at x).
#[export] Instance Notification_fields : Fields Notification := fun x =>
  mkNotification (nt_user_id x) (nt_type x) (nt_data x) (nt_read_at x).
#[export] Instance Job_fields : Fields Job := fun x =>
  mkJob (jb_type x) (jb_idempotency_key x) (jb_organization_id x) (jb_resource_type x)
    (jb_resource_id x) (jb_payload x) (jb_core x).
#[export] Instance AgentCall_fields : Fields AgentCall := fun x =>
  mkAgentCall (ac_node x) (ac_method x) (ac_path x) (ac_args x).

Record Cp := mkCp {
  regions : gmap uuid Region;
  nodes : gmap uuid Node;
  clusters : gmap uuid Cluster;
  cluster_members : gmap uuid ClusterMember;
  cluster_events : list ClusterEvent;
  databases : gmap uuid Database;
  credentials : gmap uuid DatabaseCredential;
  database_events : list DatabaseEvent;
  cp_jobs : gmap uuid Job;
  backups : gmap uuid Backup;
  organizations : gmap uuid Organization;
  users : gmap uuid User;
  api_keys : gmap uuid ApiKey;
  audit_logs : list AuditLog;
  projects : gmap uuid Project;
  memberships : gmap uuid Membership;
  plans : gmap uuid Plan;
  subscriptions : gmap uuid Subscription;
  usage_records : list UsageRecord;
  invoices : gmap uuid Invoice;
  invoice_line_items : list InvoiceLineItem;
  payments : gmap uuid Payment;
  webhooks : gmap uuid Webhook;
  webhook_deliveries : gmap uuid WebhookDelivery;
  notifications : gmap uuid Notification;
  node_tokens : gmap uuid NodeRegistrationToken;
  query_executions : list QueryExecution;
  saved_queries : gmap uuid SavedQuery;
  oauth_accounts : gmap uuid OAuthAccount;
  agent_log : list AgentCall;
}.

#[export] Instance Cp_fields : Fields Cp := fun x =>
  mkCp (regions x) (nodes x) (clusters x) (cluster_members x) (cluster_events x) (databases x)
    (credentials x) (database_events x) (cp_jobs x) (backups x) (organizations x) (users x) (api_keys x)
    (audit_logs x) (projects x) (memberships x) (plans x) (subscriptions x) (usage_records x) (invoices x)
    (invoice_line_items x) (payments x) (webhooks x) (webhook_deliveries x) (notifications x)
    (node_tokens x) (query_executions x) (saved_queries x) (oauth_accounts x) (agent_log x).

Definition empty_cp : Cp :=
  mkCp ∅ ∅ ∅ ∅ [] ∅ ∅ [] ∅ ∅ ∅ ∅ ∅ [] ∅ ∅ ∅ ∅ [] ∅ [] ∅ ∅ ∅ ∅ ∅ [] ∅ ∅ [].

#[export] Program Instance Job_row : JobRow Job := {
  core := jb_core;
  with_core := fun c j => j <| jb_core := c |>;
  job_type := jb_type;
}.
Solve All Obligations with done.
#[export] Program Instance Cp_store : JobStore Cp Job := {
  jobs := cp_jobs;
  set_jobs := fun m s => s <| cp_jobs := m |>;
}.
Solve All Obligations with by intros; destruct s.

(** ** Access to rows *)

(** [db.get(T, id)] *)
Definition cp_get {V} (table : Cp -> gmap uuid V) (id : uuid) : M Cp (option V) :=
  gets (fun s => table s !! id).
(** An attribute access on an object of the session. *)
Definition obj {V} (table : Cp -> gmap uuid V) (id : uuid) : M Cp V :=
  o ← cp_get table id; some_or o AttributeError.
(** [db.get(T, x)] where the column [x] may be null. *)
Definition cp_get_opt {V} (table : Cp -> gmap uuid V) (id : option uuid) : M Cp (option V) :=
  match id with Some id => cp_get table id | None => mret None end.

Definition set_database (id : uuid) (f : Database -> Database) : M Cp unit :=
  modify (fun s => s <| databases ::= alter f id |>).
Definition set_backup (id : uuid) (f : Backup -> Backup) : M Cp unit :=
  modify (fun s => s <| backups ::= alter f id |>).
Definition add_database_event (e : DatabaseEvent) : M Cp unit :=
  modify (fun s => s <| database_events ::= fun es => es ++ [e] |>).
Definition add_cluster_event (e : ClusterEvent) : M Cp unit :=
  modify (fun s => s <| cluster_events ::= fun es => es ++ [e] |>).

Lemma obj_run {V} (table : Cp -> gmap uuid V) id s t v :
  obj table id s = (t, Ret v) <-> t = s /\ table s !! id = Some v.
Proof.
  unfold obj, cp_get. split.
  - intros H. minv. done.
  - intros [-> H]. rewrite bind_Ret. exists s, (Some v). by rewrite gets_Ret, some_or_Ret.
Qed.
Lemma cp_get_run {V} (table : Cp -> gmap uuid V) id s t v :
  cp_get table id s = (t, Ret v) <-> t = s /\ v = table s !! id.
Proof. unfold cp_get. by rewrite gets_Ret. Qed.
Lemma pres_cp_get {V} I (table : Cp -> gmap uuid V) id : pres I (cp_get table id).
Proof. apply pres_gets. Qed.
Lemma pres_cp_get_opt {V} I (table : Cp -> gmap uuid V) id : pres I (cp_get_opt table id).
Proof. destruct id; simpl; [apply pres_cp_get|apply pres_ret]. Qed.
Lemma pres_obj {V} I (table : Cp -> gmap uuid V) id : pres I (obj table id).
Proof. unfold obj, cp_get. pres_go. Qed.
#[export] Hint Resolve pres_cp_get pres_cp_get_opt pres_obj : pres.

Lemma pres_cp_item (I : Cp -> Prop) p k : pres I (item p k).
Proof. unfold item. pres_go. Qed.
Lemma pres_cp_as_uuid (I : Cp -> Prop) v : pres I (as_uuid v).
Proof. unfold as_uuid. pres_go. Qed.
Lemma pres_cp_job_object (I : Cp -> Prop) id : pres I (job_object id).
Proof. unfold job_object. pres_go. Qed.
#[export] Hint Resolve pres_cp_item pres_cp_as_uuid pres_cp_job_object : pres.
