(* ===== verification/Placement.v ===== *)
(** * Placement and quotas: [backend/app/services/]
    [node_health.py], [placement.py], [quotas.py], [database_lookup.py] *)

From Stdlib Require Import SpecFloat.
From S2P Require Import Prelude PyStd Queue ControlPlane.

(** ** Model *)

(** *** Node health *)

Definition HEARTBEAT_STALE_SECONDS : Z := 60.

Definition status_value (st : NodeStatus) : string :=
  match st with NODE_ACTIVE => "active" | MAINTENANCE => "maintenance" | DRAINING => "draining" end.

Definition effective_status (now : timestamp) (node : Node) : string :=
  if decide (nd_status node <> NODE_ACTIVE) then status_value (nd_status node)
  else match nd_last_heartbeat_at node with
       | None => "offline"
       | Some beat => if seconds HEARTBEAT_STALE_SECONDS <? now - beat then "offline" else "active"
       end.

Definition is_eligible_for_placement (now : timestamp) (node : Node) : bool :=
  bool_decide (effective_status now node = "active").

(** *** Scores: Python floats are IEEE doubles *)

Definition float_of_Z (z : Z) : spec_float := binary_normalize 53 1024 z 0 false.
(** [a / b] on integers. *)
Definition int_truediv (a b : Z) : outcome spec_float :=
  if b =? 0 then Exc ZeroDivisionError else Ret (SFdiv 53 1024 (float_of_Z a) (float_of_Z b)).
(** [max(0.0, x)] *)
Definition fmax0 (x : spec_float) : spec_float := if SFltb (S754_zero false) x then x else S754_zero false.

Definition score (node : Node) (allocated_cpu allocated_ram_mb allocated_storage_gb : Z) : outcome spec_float :=
  cpu ← int_truediv (nd_cpu_total node - allocated_cpu) (nd_cpu_total node);
  ram ← int_truediv (nd_ram_total_mb node - allocated_ram_mb) (nd_ram_total_mb node);
  storage ← int_truediv (nd_storage_total_gb node - allocated_storage_gb) (nd_storage_total_gb node);
  mret (SFadd 53 1024 (SFadd 53 1024 (fmax0 cpu) (fmax0 ram)) (fmax0 storage)).

(** *** Capacity *)

(** The rows of the join: one per membership, on the node, of the cluster of each
    database that counts. *)
Definition hosted (node : uuid) (exclude : option uuid) (s : Cp) : list Database :=
  dbs ← map_to_list (databases s);
  if negb (bool_decide (db_status dbs.2 = DB_DELETED)) && negb (bool_decide (exclude = Some dbs.1)) then
    match db_cluster_id dbs.2 with
    | None => []
    | Some c =>
        match clusters s !! c with
        | None => []
        | Some _ =>
            m ← rows (fun m => bool_decide (cm_cluster_id m = c) && bool_decide (cm_node_id m = node))
                  (cluster_members s);
            [dbs.2]
        end
    end
  else [].

Definition allocated_resources (node : uuid) (exclude : option uuid) : M Cp (Z * Z * Z) :=
  rows ← gets (hosted node exclude);
  mret (sumZ (db_cpu_limit <$> rows), sumZ (db_ram_limit_mb <$> rows), sumZ (db_storage_limit_gb <$> rows)).

(** [limit(1)]: the first of the rows, in the order of the table. *)
Definition member_on (s : Cp) (cluster node : uuid) : bool :=
  negb (bool_decide (rows (fun m => bool_decide (cm_cluster_id m = cluster)
                                    && bool_decide (cm_node_id m = node)) (cluster_members s) = [])).

Definition find_shared_cluster_on_node (node : uuid) : M Cp (option uuid) :=
  found ← gets (fun s => filter (fun kc =>
      (member_on s kc.1 node && cl_shared kc.2 && bool_decide (cl_status kc.2 = CL_ACTIVE)) = true)
    (map_to_list (clusters s)));
  mret (fst <$> head found).

Definition fits (node : Node) (allocated : Z * Z * Z) (cpu_limit ram_limit_mb storage_limit_gb : Z) : bool :=
  let '(cpu, ram, storage) := allocated in
  (cpu + cpu_limit <=? nd_cpu_total node) && (ram + ram_limit_mb <=? nd_ram_total_mb node)
  && (storage + storage_limit_gb <=? nd_storage_total_gb node).

Definition fits_on_node (id : uuid) (cpu_limit ram_limit_mb storage_limit_gb : Z) (exclude : option uuid) :
    M Cp bool :=
  node ← obj nodes id;
  allocated ← allocated_resources id exclude;
  mret (fits node allocated cpu_limit ram_limit_mb storage_limit_gb).

(** The loop that scores the nodes. *)
Fixpoint score_nodes (cpu_limit ram_limit_mb storage_limit_gb : Z) (eligible : list (uuid * Node)) :
    M Cp (list (spec_float * (uuid * Node))) :=
  match eligible with
  | [] => mret []
  | (id, node) :: eligible =>
      allocated ← allocated_resources id None;
      if fits node allocated cpu_limit ram_limit_mb storage_limit_gb then
        let '(cpu, ram, storage) := allocated in
        sc ← lift_outcome (score node cpu ram storage);
        scored ← score_nodes cpu_limit ram_limit_mb storage_limit_gb eligible;
        mret ((sc, (id, node)) :: scored)
      else score_nodes cpu_limit ram_limit_mb storage_limit_gb eligible
  end.

(** [scored.sort(key=..., reverse=True); scored[0]]: the sort is stable, so this is the
    first element no other exceeds. *)
Fixpoint best_scored {A} (scored : list (spec_float * A)) : option (spec_float * A) :=
  match scored with
  | [] => None
  | x :: scored =>
      match best_scored scored with
      | Some y => if SFltb x.1 y.1 then Some y else Some x
      | None => Some x
      end
  end.

Record PlacementDecision := mkPlacementDecision {
  decision_node : uuid;
  existing_cluster : option uuid;
}.

Definition select_node_and_cluster (now : timestamp) (region_code : string) (isolation_level : IsolationLevel)
    (cpu_limit ram_limit_mb storage_limit_gb : Z) : M Cp PlacementDecision :=
  all_regions ← gets regions;
  region ← scalar_one_or_none (select (fun r => bool_decide (rg_code r = region_code) && rg_active r) all_regions);
  region ← some_or region ValueError;
  all_nodes ← gets nodes;
  let in_region := select (fun n => bool_decide (nd_region_id n = region.1)) all_nodes in
  let eligible := filter (fun kn => is_eligible_for_placement now kn.2 = true) in_region in
  require (negb (bool_decide (eligible = []))) NoCapacityError;;
  scored ← score_nodes cpu_limit ram_limit_mb storage_limit_gb eligible;
  best ← some_or (best_scored scored) NoCapacityError;
  let best_node := best.2.1 in
  if decide (isolation_level = DEDICATED) then mret (mkPlacementDecision best_node None)
  else
    existing ← find_shared_cluster_on_node best_node;
    mret (mkPlacementDecision best_node existing).

(** *** Quotas *)

Definition terminal_status (st : DatabaseStatus) : bool :=
  bool_decide (st = DB_DELETING) || bool_decide (st = DB_DELETED).

Definition get_active_plan (organization : uuid) : M Cp Plan :=
  subs ← gets subscriptions;
  subscription ← scalar_one_or_none (rows (fun x => bool_decide (su_organization_id x = organization)) subs);
  subscription ← some_or subscription RuntimeError;
  plan ← cp_get plans (su_plan_id subscription);
  some_or plan RuntimeError.

Definition in_organization (s : Cp) (organization : uuid) (d : Database) : bool :=
  match projects s !! db_project_id d with
  | Some p => bool_decide (pj_organization_id p = organization)
  | None => false
  end.

Definition live_databases (organization : uuid) (s : Cp) : list Database :=
  rows (fun d => in_organization s organization d && negb (terminal_status (db_status d))) (databases s).

Definition check_database_quota (organization : uuid) (additional_storage_gb additional_cpu : Z) : M Cp unit :=
  plan ← get_active_plan organization;
  dbs ← gets (live_databases organization);
  match pl_quotas plan !! "max_databases" with
  | Some max => require (negb (max <? Z.of_nat (length dbs) + 1)) QuotaExceededError
  | None => mret tt
  end;;
  match pl_quotas plan !! "max_storage_gb" with
  | Some max => require (negb (max <? sumZ (db_storage_limit_gb <$> dbs) + additional_storage_gb)) QuotaExceededError
  | None => mret tt
  end;;
  match pl_quotas plan !! "max_cpu_total" with
  | Some max => require (negb (max <? sumZ (db_cpu_limit <$> dbs) + additional_cpu)) QuotaExceededError
  | None => mret tt
  end.

(** *** Lookups *)

Definition get_project_or_404 (organization project : uuid) : M Cp Project :=
  p ← cp_get projects project;
  p ← some_or p (HTTPException 404);
  require (bool_decide (pj_organization_id p = organization)) (HTTPException 404);;
  mret p.

Definition get_database_or_404 (project database : uuid) : M Cp Database :=
  d ← cp_get databases database;
  d ← some_or d (HTTPException 404);
  require (bool_decide (db_project_id d = project)) (HTTPException 404);;
  mret d.

Definition get_database_ids_for_organization (organization : uuid) : M Cp (list uuid) :=
  gets (fun s => fst <$> select (in_organization s organization) (databases s)).

(** ** Lemmas *)

Lemma pres_allocated_resources I node exclude : pres I (allocated_resources node exclude).
Proof. unfold allocated_resources. pres_go. Qed.
Lemma pres_fits_on_node I id a b c exclude : pres I (fits_on_node id a b c exclude).
Proof. unfold fits_on_node. pres_go. apply pres_allocated_resources. Qed.
Lemma pres_find_shared_cluster_on_node I node : pres I (find_shared_cluster_on_node node).
Proof. unfold find_shared_cluster_on_node. pres_go. Qed.
Lemma pres_get_active_plan I org : pres I (get_active_plan org).
Proof. unfold get_active_plan. pres_go. Qed.
#[export] Hint Resolve pres_allocated_resources pres_fits_on_node pres_find_shared_cluster_on_node
  pres_get_active_plan : pres.
Lemma pres_check_database_quota I org a b : pres I (check_database_quota org a b).
Proof. unfold check_database_quota. pres_go. Qed.
Lemma pres_score_nodes I a b c eligible : pres I (score_nodes a b c eligible).
Proof.
  induction eligible as [|[id node] eligible IH]; simpl; pres_go.
Qed.
#[export] Hint Resolve pres_check_database_quota pres_score_nodes : pres.
Lemma pres_select_node_and_cluster I now region iso a b c :
  pres I (select_node_and_cluster now region iso a b c).
Proof. unfold select_node_and_cluster. pres_go. Qed.
Lemma pres_get_project_or_404 I org project : pres I (get_project_or_404 org project).
Proof. unfold get_project_or_404. pres_go. Qed.
Lemma pres_get_database_or_404 I project database : pres I (get_database_or_404 project database).
Proof. unfold get_database_or_404. pres_go. Qed.
#[export] Hint Resolve pres_select_node_and_cluster pres_get_project_or_404 pres_get_database_or_404 : pres.

Definition allocated (s : Cp) (node : uuid) (exclude : option uuid) : Z * Z * Z :=
  let rows := hosted node exclude s in
  (sumZ (db_cpu_limit <$> rows), sumZ (db_ram_limit_mb <$> rows), sumZ (db_storage_limit_gb <$> rows)).

#[global] Arguments allocated : simpl never.
#[global] Arguments fits : simpl never.

Lemma allocated_resources_run node exclude s :
  allocated_resources node exclude s = (s, Ret (allocated s node exclude)).
Proof. done. Qed.

Lemma score_nodes_run cpu ram sto eligible s t scored :
  score_nodes cpu ram sto eligible s = (t, Ret scored) ->
  t = s /\ forall sc id node, (sc, (id, node)) ∈ scored ->
    (id, node) ∈ eligible /\ fits node (allocated s id None) cpu ram sto = true.
Proof.
  revert scored. induction eligible as [|[id node] eligible IH]; intros scored; simpl.
  - intros [-> ->]%mret_Ret. split; [done|]. intros sc id node H. by apply elem_of_nil in H.
  - unfold mbind at 1, M_bind at 1. rewrite allocated_resources_run.
    destruct (allocated s id None) as [[c r] o] eqn:Ha.
    destruct (fits node (c, r, o) cpu ram sto) eqn:Hf.
    + intros (u & sc0 & H1 & (v & rest & H2 & [-> ->]%mret_Ret)%bind_Ret)%bind_Ret.
      injection H1 as <- _. destruct (IH _ H2) as [-> Hall]. split; [done|].
      intros sc id' node' [[= -> -> ->]|Hin]%elem_of_cons; [split; [left|rewrite <- Hf; exact (f_equal (fun a => fits node a cpu ram sto) Ha)]|].
      destruct (Hall _ _ _ Hin). split; [by right|done].
    + intros H. destruct (IH _ H) as [-> Hall]. split; [done|].
      intros sc id' node' Hin. destruct (Hall _ _ _ Hin). split; [by right|done].
Qed.

Lemma best_scored_In {A} (scored : list (spec_float * A)) x : best_scored scored = Some x -> x ∈ scored.
Proof.
  revert x. induction scored as [|a l IH]; intros x; simpl; [done|].
  destruct (best_scored l) as [y|]; [case_match|]; intros [= <-]; [right; by apply IH|left|left].
Qed.

Lemma find_shared_cluster_run node s t o :
  find_shared_cluster_on_node node s = (t, Ret o) ->
  t = s /\ forall c, o = Some c -> exists cl, clusters s !! c = Some cl /\ cl_shared cl = true /\
    cl_status cl = CL_ACTIVE /\ member_on s c node = true.
Proof.
  unfold find_shared_cluster_on_node. intros (u & found & [-> ->]%gets_Ret & [-> ->]%mret_Ret)%bind_Ret.
  split; [done|]. intros c Hc.
  destruct (filter _ (map_to_list (clusters s))) as [|[c' cl] rest] eqn:E; [done|].
  injection Hc as ->.
  assert ((c, cl) ∈ filter (fun kc : uuid * Cluster => (member_on s kc.1 node && cl_shared kc.2
      && bool_decide (cl_status kc.2 = CL_ACTIVE)) = true) (map_to_list (clusters s))) as Hin
    by (rewrite E; left).
  apply list_elem_of_filter in Hin as [Hp Hin]. apply elem_of_map_to_list in Hin. simpl in Hp.
  rewrite !andb_true_iff, bool_decide_eq_true in Hp. exists cl. tauto.
Qed.

Lemma eligible_iff now node :
  is_eligible_for_placement now node = true <->
  nd_status node = NODE_ACTIVE /\
  exists beat, nd_last_heartbeat_at node = Some beat /\ now - beat <= seconds HEARTBEAT_STALE_SECONDS.
Proof.
  unfold is_eligible_for_placement, effective_status. rewrite bool_decide_eq_true.
  case_decide as Hs.
  - split; [|by intros [? _]]. destruct (nd_status node); try done.
  - assert (nd_status node = NODE_ACTIVE) as E by (destruct (nd_status node); naive_solver).
    destruct (nd_last_heartbeat_at node) as [beat|]; [|split; [done|by intros (_ & b & [=] & _)]].
    destruct (Z.ltb_spec (seconds HEARTBEAT_STALE_SECONDS) (now - beat)) as [Hlt|Hle].
    + split; [done|]. intros (_ & b & [= <-] & Hb). lia.
    + split; [|done]. intros _. split; [done|]. by exists beat.
Qed.

Lemma get_project_or_404_run org project s t p :
  get_project_or_404 org project s = (t, Ret p) ->
  t = s /\ projects s !! project = Some p /\ pj_organization_id p = org.
Proof.
  unfold get_project_or_404. intros H.
  apply bind_Ret in H as (? & ? & [-> ->]%cp_get_run & H).
  apply bind_Ret in H as (? & ? & [Ho ->]%some_or_Ret & H).
  apply bind_Ret in H as (? & ? & [Hb%bool_decide_eq_true ->]%require_Ret & [-> ->]%mret_Ret). done.
Qed.

Lemma get_database_or_404_run project database s t d :
  get_database_or_404 project database s = (t, Ret d) ->
  t = s /\ databases s !! database = Some d /\ db_project_id d = project.
Proof.
  unfold get_database_or_404. intros H.
  apply bind_Ret in H as (? & ? & [-> ->]%cp_get_run & H).
  apply bind_Ret in H as (? & ? & [Ho ->]%some_or_Ret & H).
  apply bind_Ret in H as (? & ? & [Hb%bool_decide_eq_true ->]%require_Ret & [-> ->]%mret_Ret). done.
Qed.

(** The quota holds for one database more. *)
Definition within_quota (plan : Plan) (count storage cpu : Z) : Prop :=
  (forall m, pl_quotas plan !! "max_databases" = Some m -> count <= m) /\
  (forall m, pl_quotas plan !! "max_storage_gb" = Some m -> storage <= m) /\
  (forall m, pl_quotas plan !! "max_cpu_total" = Some m -> cpu <= m).

Lemma quota_gate_run (o : option Z) n s t u :
  (match o with Some m => require (negb (m <? n)) QuotaExceededError | None => mret tt end : M Cp unit) s
    = (t, Ret u) -> t = s /\ forall m, o = Some m -> n <= m.
Proof.
  destruct o as [m|].
  - intros [Hm ->]%require_Ret. split; [done|]. intros m' [= <-]. apply negb_true_iff, Z.ltb_ge in Hm. lia.
  - by intros [-> _]%mret_Ret.
Qed.

Lemma get_active_plan_run org s t plan : get_active_plan org s = (t, Ret plan) -> t = s.
Proof.
  unfold get_active_plan. intros H.
  apply bind_Ret in H as (? & ? & [-> ->]%gets_Ret & H).
  apply bind_Ret in H as (? & ? & [-> _]%scalar_one_or_none_Ret & H).
  apply bind_Ret in H as (? & ? & [_ ->]%some_or_Ret & H).
  apply bind_Ret in H as (? & ? & [-> ->]%cp_get_run & [_ ->]%some_or_Ret). done.
Qed.

Lemma get_active_plan_snd org s plan : (get_active_plan org s).2 = Ret plan -> get_active_plan org s = (s, Ret plan).
Proof.
  destruct (get_active_plan org s) as [t r] eqn:E. simpl. intros ->.
  by rewrite (get_active_plan_run _ _ _ _ E).
Qed.

Lemma check_database_quota_run org sto cpu s t u :
  check_database_quota org sto cpu s = (t, Ret u) ->
  t = s /\ exists plan, get_active_plan org s = (s, Ret plan) /\
    let dbs := live_databases org s in
    within_quota plan (Z.of_nat (length dbs) + 1) (sumZ (db_storage_limit_gb <$> dbs) + sto)
      (sumZ (db_cpu_limit <$> dbs) + cpu).
Proof.
  unfold check_database_quota. intros H.
  apply bind_Ret in H as (u1 & plan & Hp & H). pose proof (get_active_plan_run _ _ _ _ Hp) as ->.
  apply bind_Ret in H as (? & dbs & [-> ->]%gets_Ret & H).
  apply bind_Ret in H as (? & ? & [-> H1]%quota_gate_run & H).
  apply bind_Ret in H as (? & ? & [-> H2]%quota_gate_run & H).
  apply quota_gate_run in H as [-> H3]. split; [done|]. by exists plan.
Qed.

(** A placement that was found. *)
Record placed (now : timestamp) (region_code : string) (iso : IsolationLevel) (cpu ram sto : Z) (s : Cp)
    (dec : PlacementDecision) (node : Node) : Prop := {
  pl_node : nodes s !! decision_node dec = Some node;
  pl_eligible : is_eligible_for_placement now node = true;
  pl_fits : fits node (allocated s (decision_node dec) None) cpu ram sto = true;
  pl_region : exists r, regions s !! nd_region_id node = Some r /\ rg_code r = region_code /\ rg_active r = true;
  pl_dedicated : iso = DEDICATED -> existing_cluster dec = None;
  pl_cluster : forall c, existing_cluster dec = Some c -> exists cl, clusters s !! c = Some cl /\
    cl_shared cl = true /\ cl_status cl = CL_ACTIVE /\ member_on s c (decision_node dec) = true;
}.

Lemma select_node_and_cluster_run now region iso cpu ram sto s t dec :
  select_node_and_cluster now region iso cpu ram sto s = (t, Ret dec) ->
  t = s /\ exists node, placed now region iso cpu ram sto s dec node.
Proof.
  unfold select_node_and_cluster. cbv zeta. intros H.
  apply bind_Ret in H as (? & ? & [-> ->]%gets_Ret & H).
  apply bind_Ret in H as (? & o & [-> Ho]%scalar_one_or_none_Ret & H).
  apply bind_Ret in H as (? & [rid r] & [-> ->]%some_or_Ret & H).
  apply bind_Ret in H as (? & ? & [-> ->]%gets_Ret & H).
  apply bind_Ret in H as (? & ? & [_ ->]%require_Ret & H).
  apply bind_Ret in H as (? & scored & [-> Hscored]%score_nodes_run & H).
  apply bind_Ret in H as (? & [sc [id node]] & [Hbest ->]%some_or_Ret & H). simpl in H.
  apply best_scored_In in Hbest. destruct (Hscored _ _ _ Hbest) as [Hin Hfits].
  apply list_elem_of_filter in Hin as [Hel Hin]. apply elem_of_select in Hin as [Hn Hreg].
  apply bool_decide_eq_true in Hreg. simpl in *.
  assert ((rid, r) ∈ select (fun r => bool_decide (rg_code r = region) && rg_active r) (regions s)) as Hr
    by (rewrite Ho; left).
  apply elem_of_select in Hr as [Hr [Hcode%bool_decide_eq_true Hact]%andb_true_iff].
  case_decide as Hiso.
  - apply mret_Ret in H as [-> ->]. split; [done|]. exists node. split; try done. exists r. by rewrite Hreg.
  - apply bind_Ret in H as (? & o & [-> Hc]%find_shared_cluster_run & [-> ->]%mret_Ret).
    split; [done|]. exists node. split; try done. exists r. by rewrite Hreg.
Qed.

Definition nonzero (n : Node) : Prop := nd_cpu_total n <> 0 /\ nd_ram_total_mb n <> 0 /\ nd_storage_total_gb n <> 0.

Lemma score_total n a b c : nonzero n -> exists sc, score n a b c = Ret sc.
Proof.
  intros (H1 & H2 & H3). unfold score, int_truediv. rewrite !(proj2 (Z.eqb_neq _ _)) by done. by eexists.
Qed.

Lemma score_nodes_total cpu ram sto eligible s :
  (forall id n, (id, n) ∈ eligible -> nonzero n) ->
  exists scored, score_nodes cpu ram sto eligible s = (s, Ret scored) /\
    forall id n, (id, n) ∈ eligible -> fits n (allocated s id None) cpu ram sto = true ->
      exists sc, (sc, (id, n)) ∈ scored.
Proof.
  induction eligible as [|[id node] eligible IH]; intros Hnz.
  { exists []. split; [done|]. intros id n H. by apply elem_of_nil in H. }
  destruct IH as (scored & Hrun & Hall); [intros i n Hin; apply (Hnz i n); by right|].
  destruct (allocated s id None) as [[c r] o] eqn:Ha. simpl.
  destruct (score_total node c r o) as [sc Hsc]; [apply (Hnz id); left|].
  unfold mbind at 1, M_bind at 1. rewrite allocated_resources_run, Ha.
  destruct (fits node (c, r, o) cpu ram sto) eqn:Hf.
  - exists ((sc, (id, node)) :: scored). split.
    + unfold mbind, M_bind, lift_outcome. rewrite Hsc. by rewrite Hrun.
    + intros i n [[= -> ->]|Hin]%elem_of_cons Hfit; [exists sc; left|].
      destruct (Hall i n Hin Hfit) as [sc' Hsc']. exists sc'. by right.
  - exists scored. split; [done|]. intros i n [[= -> ->]|Hin]%elem_of_cons Hfit; [|by apply Hall].
    rewrite Ha in Hfit. congruence.
Qed.

Lemma best_scored_None {A} (scored : list (spec_float * A)) : best_scored scored = None -> scored = [].
Proof. destruct scored as [|x l]; simpl; [done|]. destruct (best_scored l); [case_match|]; done. Qed.

Lemma find_shared_cluster_total node s : exists o, find_shared_cluster_on_node node s = (s, Ret o).
Proof. by eexists. Qed.

(** A node the placement may choose. *)
Record candidate (now : timestamp) (region : uuid) (cpu ram sto : Z) (s : Cp) (id : uuid) (n : Node) : Prop := {
  cd_node : nodes s !! id = Some n;
  cd_region : nd_region_id n = region;
  cd_eligible : is_eligible_for_placement now n = true;
  cd_fits : fits n (allocated s id None) cpu ram sto = true;
}.

Lemma select_node_total now code iso cpu ram sto s rid r :
  select (fun r => bool_decide (rg_code r = code) && rg_active r) (regions s) = [(rid, r)] ->
  (forall id n, nodes s !! id = Some n -> nonzero n) ->
  match (select_node_and_cluster now code iso cpu ram sto s).2 with
  | Ret dec => exists n, candidate now rid cpu ram sto s (decision_node dec) n
  | Exc e => e = NoCapacityError /\ forall id n, ~ candidate now rid cpu ram sto s id n
  end.
Proof.
  intros Hr Hnz. unfold select_node_and_cluster. cbv zeta.
  unfold mbind at 1, M_bind at 1, gets at 1. rewrite Hr.
  unfold mbind at 1, M_bind at 1. simpl scalar_one_or_none. unfold mret at 1, M_ret at 1.
  unfold mbind at 1, M_bind at 1. simpl some_or. unfold mret at 1, M_ret at 1.
  unfold mbind at 1, M_bind at 1, gets at 1. cbn [fst snd].
  set (eligible := filter _ (select (fun n => bool_decide (nd_region_id n = rid)) (nodes s))).
  assert (forall id n, (id, n) ∈ eligible <-> nodes s !! id = Some n /\ nd_region_id n = rid /\
    is_eligible_for_placement now n = true) as Hel.
  { intros id n. unfold eligible. rewrite list_elem_of_filter, elem_of_select, bool_decide_eq_true. simpl. tauto. }
  destruct (score_nodes_total cpu ram sto eligible s) as (scored & Hrun & Hall).
  { intros id n (Hn & _)%Hel. by eapply Hnz. }
  destruct (decide (eligible = [])) as [Hnil|Hne].
  { rewrite bool_decide_eq_true_2 by done. simpl. split; [done|]. intros id n [H1 H2 H3 _].
    assert ((id, n) ∈ eligible) as Hin by (by apply Hel). rewrite Hnil in Hin. by apply elem_of_nil in Hin. }
  rewrite bool_decide_eq_false_2 by done. simpl negb. unfold require.
  unfold mbind at 1, M_bind at 1, mret at 1, M_ret at 1. unfold mbind at 1, M_bind at 1. rewrite Hrun.
  destruct (best_scored scored) as [[sc [id n]]|] eqn:Hbest.
  - assert (candidate now rid cpu ram sto s id n) as Hc.
    { apply best_scored_In in Hbest. destruct (score_nodes_run _ _ _ _ _ _ _ Hrun) as [_ Hs].
      destruct (Hs _ _ _ Hbest) as [(H1 & H2 & H3)%Hel H4]. done. }
    unfold mbind at 1, M_bind at 1. simpl some_or. unfold mret at 1, M_ret at 1. cbn [fst snd].
    case_decide; [by exists n|]. destruct (find_shared_cluster_total id s) as [o Ho].
    unfold mbind, M_bind. rewrite Ho. by exists n.
  - apply best_scored_None in Hbest. subst scored. simpl. split; [done|]. intros id n [H1 H2 H3 H4].
    destruct (Hall id n) as [sc Hin]; [by apply Hel|done|]. by apply elem_of_nil in Hin.
Qed.


Definition example_region_cp : Cp :=
  empty_cp <| regions := {[1%positive := mkRegion "eu" true]} |>
    <| nodes := {[9%positive := mkNode 1 (Some "10.0.0.9") 8 16384 100 8443 5432 NODE_ACTIVE (Some 0) "h"]} |>.

