(* ===== verification/Platform.v ===== *)
(** * What the services of the control plane share: [backend/app/services/]
    [jobs.py] ([enqueue]), [agent_client.py], [webhook_orchestrator.py]

    [Platform] is the outside world: the ids the server draws, the secrets, and the
    HTTP peers. *)

From S2P Require Import Prelude PyStd Queue ControlPlane.

(** The primary keys in use. *)
Definition used_ids (s : Cp) : gset uuid :=
  dom (clusters s) ∪ dom (cluster_members s) ∪ dom (databases s) ∪ dom (credentials s)
  ∪ dom (cp_jobs s) ∪ dom (backups s) ∪ dom (invoices s) ∪ dom (payments s) ∪ dom (webhooks s)
  ∪ dom (webhook_deliveries s) ∪ dom (nodes s) ∪ dom (organizations s) ∪ dom (memberships s)
  ∪ dom (projects s) ∪ dom (subscriptions s) ∪ dom (regions s) ∪ dom (users s) ∪ dom (api_keys s)
  ∪ dom (plans s) ∪ dom (notifications s) ∪ dom (node_tokens s) ∪ dom (saved_queries s)
  ∪ dom (oauth_accounts s).

Class Platform := {
  (** [uuid.uuid4()]: random, and new. *)
  uuid4 : Cp -> uuid;
  uuid4_fresh : forall s, uuid4 s ∉ used_ids s;
  (** [secrets.token_urlsafe(24)] *)
  token_urlsafe : Cp -> string;
  (** [services/secrets.py]: Fernet. *)
  encrypt_secret : string -> string;
  decrypt_secret : string -> outcome string;
  (** The agent of a node answers a call, given the calls made before. *)
  agent : list AgentCall -> AgentCall -> outcome payload;
  agent_raises : forall log call e, agent log call = Exc e ->
    e = AgentUnreachableError \/ exists code, e = AgentRequestError code;
  (** An HTTP POST to a subscriber: the status code of the answer. *)
  http_post : string -> string * payload -> string -> outcome Z;
}.

Section platform.
Context `{Env : Platform}.

(** ** Jobs *)

Definition enqueue (now : timestamp) (type : string) (p : payload) (idempotency_key : option string)
    (organization : option uuid) (resource_type : option string) (resource : option uuid) : M Cp uuid :=
  existing ←
    match idempotency_key with
    | None => mret None
    | Some key =>
        table ← gets cp_jobs;
        scalar_one_or_none (select (fun j => bool_decide (jb_idempotency_key j = Some key)) table)
    end;
  match existing with
  | Some (id, _) => mret id
  | None =>
      id ← gets uuid4;
      insert_job id (mkJob type idempotency_key organization resource_type resource p (new_core now))
  end.

(** ** The agents *)

Definition call_agent (node : uuid * Node) (method path : string) (args : payload) : M Cp payload :=
  match nd_ip_address node.2 with
  | None => raise AgentUnreachableError
  | Some ip =>
      require (negb (bool_decide (ip = ""))) AgentUnreachableError;;
      let call := mkAgentCall node.1 method path args in
      log ← gets agent_log;
      modify (fun s => s <| agent_log ::= fun l => l ++ [call] |>);;
      lift_outcome (agent log call)
  end.

(** A request's session: it rolls back when the handler raises, but the agents have
    been called. *)
Definition transaction {A} (m : M Cp A) : M Cp A := fun s =>
  match m s with
  | (t, Ret a) => (t, Ret a)
  | (t, Exc e) => (s <| agent_log := agent_log t |>, Exc e)
  end.

(** ** Webhook events *)

Definition insert_delivery (d : WebhookDelivery) : M Cp uuid :=
  id ← gets uuid4;
  modify (fun s => s <| webhook_deliveries ::= <[id := d]> |>);;
  mret id.

Definition emit_to (now : timestamp) (event_type : string) (data : payload) (w : uuid * Webhook) : M Cp unit :=
  if bool_decide (event_type ∈ wh_event_types w.2) then
    delivery ← insert_delivery (mkWebhookDelivery w.1 event_type (event_type, data) WD_PENDING None None None);
    enqueue now "deliver_webhook" {["delivery_id" := JId delivery]} None None
      (Some "webhook_delivery") (Some delivery);;
    mret tt
  else mret tt.

Definition emit_event (now : timestamp) (organization : option uuid) (event_type : string) (data : payload) :
    M Cp unit :=
  match organization with
  | None => mret tt
  | Some org =>
      table ← gets webhooks;
      for_each (select (fun w => bool_decide (wh_organization_id w = org) && wh_is_active w) table)
        (emit_to now event_type data)
  end.

Definition set_delivery (id : uuid) (f : WebhookDelivery -> WebhookDelivery) : M Cp unit :=
  modify (fun s => s <| webhook_deliveries ::= alter f id |>).

(** [is_success] *)
Definition is_success (code : Z) : bool := (200 <=? code) && (code <=? 299).

Definition execute_deliver_webhook (now : timestamp) (job : uuid) : M Cp (option payload) :=
  j ← job_object job;
  v ← item (jb_payload j) "delivery_id";
  id ← as_uuid v;
  o ← cp_get webhook_deliveries id;
  delivery ← some_or o RuntimeError;
  if decide (wd_status delivery = WD_SUCCEEDED) then mret (Some {["already_delivered" := JBool true]})
  else
    o ← cp_get webhooks (wd_webhook_id delivery);
    match o with
    | Some webhook =>
        if wh_is_active webhook then
          secret ← lift_outcome (decrypt_secret (wh_encrypted_secret webhook));
          code ← lift_outcome (http_post (wh_url webhook) (wd_payload delivery) secret);
          set_delivery id (fun d => d <| wd_response_code := Some code |>);;
          if is_success code then
            set_delivery id (fun d => d <| wd_status := WD_SUCCEEDED |> <| wd_delivered_at := Some now |>
                                        <| wd_error := None |>);;
            mret (Some {["status_code" := JInt code]})
          else raise RuntimeError
        else
          set_delivery id (fun d => d <| wd_status := WD_FAILED |>
            <| wd_error := Some "Webhook was deleted or deactivated before delivery" |>);;
          mret (Some {["skipped" := JBool true]})
    | None =>
        set_delivery id (fun d => d <| wd_status := WD_FAILED |>
          <| wd_error := Some "Webhook was deleted or deactivated before delivery" |>);;
        mret (Some {["skipped" := JBool true]})
    end.

Definition WEBHOOK_HANDLERS (now : timestamp) (ty : string) : option (uuid -> M Cp (option payload)) :=
  if decide (ty = "deliver_webhook") then Some (execute_deliver_webhook now) else None.

(** ** Lemmas *)

Lemma uuid4_not_used s :
  clusters s !! uuid4 s = None /\ cluster_members s !! uuid4 s = None /\ databases s !! uuid4 s = None /\
  credentials s !! uuid4 s = None /\ cp_jobs s !! uuid4 s = None /\ backups s !! uuid4 s = None /\
  invoices s !! uuid4 s = None /\ payments s !! uuid4 s = None /\ webhooks s !! uuid4 s = None /\
  webhook_deliveries s !! uuid4 s = None /\ nodes s !! uuid4 s = None /\ organizations s !! uuid4 s = None /\
  memberships s !! uuid4 s = None /\ projects s !! uuid4 s = None /\ subscriptions s !! uuid4 s = None /\
  regions s !! uuid4 s = None /\ users s !! uuid4 s = None /\ api_keys s !! uuid4 s = None /\
  plans s !! uuid4 s = None /\ notifications s !! uuid4 s = None /\ node_tokens s !! uuid4 s = None /\
  saved_queries s !! uuid4 s = None /\ oauth_accounts s !! uuid4 s = None.
Proof.
  pose proof (uuid4_fresh s) as H. unfold used_ids in H. rewrite !not_elem_of_union, !not_elem_of_dom in H.
  tauto.
Qed.

Lemma insert_job_total (j : Job) s :
  insert_job (uuid4 s) j s = (s <| cp_jobs ::= <[uuid4 s := j]> |>, Ret (uuid4 s)).
Proof.
  unfold insert_job. destruct (uuid4_not_used s) as (_&_&_&_&Hj&_).
  unfold mbind at 1, M_bind at 1, gets. simpl. rewrite Hj. simpl. by destruct s.
Qed.

(** Without a key, [enqueue] always adds a queued job. *)
Lemma enqueue_total now type p org rt rid s :
  enqueue now type p None org rt rid s =
    (s <| cp_jobs ::= <[uuid4 s := mkJob type None org rt rid p (new_core now)]> |>, Ret (uuid4 s)).
Proof. unfold enqueue. unfold mbind, M_bind, mret, M_ret, gets at 1. apply insert_job_total. Qed.

(** With a key: the job that has the key, or a new one. *)
Lemma enqueue_key now type p key org rt rid s t id :
  enqueue now type p (Some key) org rt rid s = (t, Ret id) ->
  (t = s /\ exists j, cp_jobs s !! id = Some j /\ jb_idempotency_key j = Some key) \/
  ((forall k j, cp_jobs s !! k = Some j -> jb_idempotency_key j <> Some key) /\ id = uuid4 s /\
   t = s <| cp_jobs ::= <[id := mkJob type (Some key) org rt rid p (new_core now)]> |>).
Proof.
  unfold enqueue. intros H.
  apply bind_Ret in H as (u & o & H1 & H2).
  apply bind_Ret in H1 as (? & ? & [-> ->]%gets_Ret & [-> Ho]%scalar_one_or_none_Ret).
  destruct o as [[id' j]|].
  - apply mret_Ret in H2 as [-> ->]. left. split; [done|]. exists j.
    assert ((id', j) ∈ select (fun j => bool_decide (jb_idempotency_key j = Some key)) (cp_jobs s)) as Hin
      by (rewrite Ho; left).
    apply elem_of_select in Hin as [Hj Hk%bool_decide_eq_true]. done.
  - apply bind_Ret in H2 as (? & ? & [-> ->]%gets_Ret & H2). rewrite insert_job_total in H2.
    injection H2 as <- <-. right. split_and!; try done. intros k j Hj Hk.
    rewrite select_nil_iff in Ho. specialize (Ho _ _ Hj). by apply bool_decide_eq_false in Ho.
Qed.

Lemma call_agent_run node method path args s t r :
  call_agent node method path args s = (t, Ret r) ->
  exists ip, nd_ip_address node.2 = Some ip /\
    t = s <| agent_log ::= fun l => l ++ [mkAgentCall node.1 method path args] |> /\
    agent (agent_log s) (mkAgentCall node.1 method path args) = Ret r.
Proof.
  unfold call_agent. destruct (nd_ip_address node.2) as [ip|]; [|done]. intros H.
  apply bind_Ret in H as (? & ? & [_ ->]%require_Ret & H).
  apply bind_Ret in H as (? & ? & [-> ->]%gets_Ret & H).
  apply bind_Ret in H as (? & ? & ->%modify_Ret & [= <- Hr]). by exists ip.
Qed.

Lemma call_agent_raises node method path args s t e :
  call_agent node method path args s = (t, Exc e) ->
  (e = AgentUnreachableError \/ exists code, e = AgentRequestError code) /\
  (t = s \/ t = s <| agent_log ::= fun l => l ++ [mkAgentCall node.1 method path args] |>).
Proof.
  unfold call_agent. destruct (nd_ip_address node.2) as [ip|]; [|intros [= <- <-]; auto].
  destruct (negb _); simpl; [|intros [= <- <-]; auto].
  unfold mbind, M_bind, mret, M_ret, gets, modify. intros [= <- Ha].
  split; [by eapply agent_raises|by right].
Qed.

(** Handlers that leave a part of the state alone. *)
Section keep.
Context (I : Cp -> Prop).
Lemma pres_call_agent node method path args :
  (forall s l, I s -> I (s <| agent_log := l |>)) -> pres I (call_agent node method path args).
Proof.
  intros H. unfold call_agent. destruct (nd_ip_address node.2) as [ip|]; [|apply pres_raise].
  apply pres_bind; [auto with pres|]. intros _. cbv zeta.
  apply pres_bind; [auto with pres|]. intros log.
  apply pres_bind; [|intros _; apply pres_lift_outcome]. apply pres_modify. intros s Hs. apply (H s _ Hs).
Qed.

Lemma pres_enqueue now type p key org rt rid :
  (forall s j, I s -> I (s <| cp_jobs ::= <[uuid4 s := j]> |>)) ->
  pres I (enqueue now type p key org rt rid).
Proof.
  intros H. unfold enqueue. apply pres_bind.
  { destruct key; pres_go. }
  intros [[id j]|]; [apply pres_ret|]. intros s Hs.
  unfold mbind, M_bind, gets at 1. rewrite insert_job_total. by apply H.
Qed.

Lemma pres_emit_event now org event data :
  (forall s j, I s -> I (s <| cp_jobs ::= <[uuid4 s := j]> |>)) ->
  (forall s d, I s -> I (s <| webhook_deliveries ::= <[uuid4 s := d]> |>)) ->
  pres I (emit_event now org event data).
Proof.
  intros Hj Hd. unfold emit_event. destruct org as [org|]; [|apply pres_ret].
  apply pres_bind; [auto with pres|]. intros table. apply pres_for. intros w _. unfold emit_to.
  destruct (bool_decide _); [|apply pres_ret].
  apply pres_bind; [|intros delivery; apply pres_bind; [by apply pres_enqueue|auto with pres]].
  intros s Hs. unfold insert_delivery. apply (Hd s). exact Hs.
Qed.
End keep.

Lemma pres_transaction {A} (I : Cp -> Prop) (m : M Cp A) :
  (forall s l, I s -> I (s <| agent_log := l |>)) -> keeps I m -> pres I (transaction m).
Proof.
  intros Hl Hm s Hs. unfold transaction. destruct (m s) as [t [a|e]] eqn:E; simpl; [by eapply Hm|by apply Hl].
Qed.

Lemma emit_to_total now event data w s : exists t, emit_to now event data w s = (t, Ret tt).
Proof.
  unfold emit_to. destruct (bool_decide _); [|by exists s].
  eexists. unfold insert_delivery. unfold mbind, M_bind, gets at 1, modify, mret, M_ret.
  rewrite enqueue_total. reflexivity.
Qed.

Lemma emit_event_total now org event data s : exists t, emit_event now org event data s = (t, Ret tt).
Proof.
  unfold emit_event. destruct org as [org|]; [|by exists s].
  unfold mbind at 1, M_bind at 1, gets. generalize (select (fun w => bool_decide (wh_organization_id w = org) && wh_is_active w) (webhooks s)).
  intros ws. revert s. induction ws as [|w ws IH]; intros s; simpl; [by exists s|].
  destruct (emit_to_total now event data w s) as [u Hu]. destruct (IH u) as [t Ht].
  exists t. unfold mbind, M_bind. by rewrite Hu.
Qed.
End platform.

(** ** An example platform

    Ids are drawn in order; the agent of node 9 is down for every [DELETE], and a node
    reports its number as its replication lag. *)

Definition example_agent (log : list AgentCall) (call : AgentCall) : outcome payload :=
  if bool_decide (ac_node call = 9%positive) && bool_decide (ac_method call = "DELETE")
  then Exc AgentUnreachableError
  else Ret (<["size_bytes" := JInt 1073741824]> (<["active_connections" := JInt 3]>
    (<["role" := JStr "standby"]> (<["lag_bytes" := JInt (Zpos (ac_node call))]>
      (<["verified" := JBool true]> {["detail" := JStr "ok"]}))))).

Lemma example_fresh (s : Cp) : fresh (used_ids s) ∉ used_ids s.
Proof. apply is_fresh. Qed.
Lemma example_agent_raises log call e :
  example_agent log call = Exc e -> e = AgentUnreachableError \/ exists code, e = AgentRequestError code.
Proof. unfold example_agent. destruct (_ && _); [|done]. intros [= <-]. by left. Qed.

#[export] Instance example_platform : Platform := {
  uuid4 := fun s => fresh (used_ids s);
  uuid4_fresh := example_fresh;
  token_urlsafe := fun _ => "token-of-24-random-bytes";
  encrypt_secret := fun x => x;
  decrypt_secret := fun x => Ret x;
  agent := example_agent;
  agent_raises := example_agent_raises;
  http_post := fun _ _ _ => Ret 200;
}.
