(* ===== verification/Orchestrator.v ===== *)
(** * The database orchestrator: [backend/app/services/orchestrator.py]

    The job handlers that create, delete, suspend, resume and migrate a database. *)

From S2P Require Import Prelude PyStd Queue ControlPlane Placement Platform.

(** ** Model *)

Definition PHYSICAL_NAME_PREFIX : string := "db_".
Definition ROLE_NAME_PREFIX : string := "u_".

Section orchestrator.
Context `{Env : Platform}.

(** [u] is [uuid.uuid4()]. *)
Definition generate_physical_identifiers (u : uuid) : string * string :=
  let suffix := String.substring 0 24 (uuid_hex u) in
  (PHYSICAL_NAME_PREFIX +:+ suffix, ROLE_NAME_PREFIX +:+ suffix).

Definition is_primary_of (cluster : option uuid) (m : ClusterMember) : bool :=
  bool_decide (Some (cm_cluster_id m) = cluster) && bool_decide (cm_role m = PRIMARY).

(** No row has a null [cluster_id], so a null argument selects nothing. *)
Definition get_primary_node (cluster : option uuid) : M Cp (uuid * Node) :=
  members ← gets cluster_members;
  member ← scalar_one (select (is_primary_of cluster) members);
  node ← cp_get nodes (cm_node_id member.2);
  node ← some_or node RuntimeError;
  mret (cm_node_id member.2, node).

(** [db.add(Cluster(...)); db.flush(); db.add(ClusterMember(...)); db.flush()] *)
Definition new_cluster (node region : uuid) (isolation_level : IsolationLevel) : M Cp uuid :=
  id ← gets uuid4;
  modify (fun s => s <| clusters ::= <[id := mkCluster region SINGLE
                           (bool_decide (isolation_level = SHARED)) CL_ACTIVE]> |>);;
  member ← gets uuid4;
  modify (fun s => s <| cluster_members ::= <[member := mkClusterMember id node PRIMARY None None]> |>);;
  mret id.

Definition get_or_create_cluster_on_node (node region : uuid) (isolation_level : IsolationLevel) : M Cp uuid :=
  existing ← (if decide (isolation_level = SHARED) then find_shared_cluster_on_node node else mret None);
  match existing with
  | Some cluster => mret cluster
  | None => new_cluster node region isolation_level
  end.

Definition get_object_or_raise {V} (table : Cp -> gmap uuid V) (job : uuid) (key : string) : M Cp (uuid * V) :=
  j ← job_object job;
  v ← item (jb_payload j) key;
  id ← as_uuid v;
  o ← cp_get table id;
  x ← some_or o RuntimeError;
  mret (id, x).

(** [role_name] is unique. *)
Definition add_credential (c : DatabaseCredential) : M Cp unit :=
  taken ← gets (fun s => rows (fun x => bool_decide (cr_role_name x = cr_role_name c)) (credentials s));
  require (bool_decide (taken = [])) IntegrityError;;
  id ← gets uuid4;
  modify (fun s => s <| credentials ::= <[id := c]> |>).

Definition role_name_of (physical_name : string) : string :=
  ROLE_NAME_PREFIX +:+ removeprefix PHYSICAL_NAME_PREFIX physical_name.

Definition database_path (d : Database) (action : string) : string :=
  "/v1/database/" +:+ db_physical_name d +:+ action.

(** [database.connection_host = ...; database.connection_port = ...; database.status = RUNNING] *)
Definition route_to (node : Node) (d : Database) : Database :=
  d <| db_connection_host := nd_ip_address node |> <| db_connection_port := Some (nd_postgres_port node) |>
    <| db_status := DB_RUNNING |>.

Definition opt_str (o : option string) : jval := match o with Some x => JStr x | None => JNull end.

Definition execute_create_database (now : timestamp) (job : uuid) : M Cp (option payload) :=
  j ← job_object job;
  database ← get_object_or_raise databases job "database_id";
  let '(id, d) := database in
  if bool_decide (db_status d = DB_RUNNING) && bool_decide (is_Some (db_cluster_id d)) then
    mret (Some {["already_running" := JBool true]})
  else
    o ← cp_get regions (db_region_id d);
    region ← some_or o RuntimeError;
    decision ← select_node_and_cluster now (rg_code region) (db_isolation_level d)
                 (db_cpu_limit d) (db_ram_limit_mb d) (db_storage_limit_gb d);
    cluster ← match existing_cluster decision with
              | Some c => mret c
              | None => get_or_create_cluster_on_node (decision_node decision) (db_region_id d)
                          (db_isolation_level d)
              end;
    set_database id (fun d => d <| db_cluster_id := Some cluster |>);;
    let role_name := role_name_of (db_physical_name d) in
    password ← gets token_urlsafe;
    node ← obj nodes (decision_node decision);
    call_agent (decision_node decision, node) "POST" "/v1/provision/database"
      (<["database_name" := JStr (db_physical_name d)]> (<["role_name" := JStr role_name]>
        {["password" := JStr password]}));;
    add_credential (mkDatabaseCredential id role_name None true (encrypt_secret password) SCOPE_APP None);;
    set_database id (route_to node);;
    add_database_event (mkDatabaseEvent id (Some job) "DATABASE_RUNNING"
      (<["node_id" := JId (decision_node decision)]> {["cluster_id" := JId cluster]}));;
    emit_event now (jb_organization_id j) "database.created" {["database_id" := JId id]};;
    mret (Some (<["node_id" := JId (decision_node decision)]> (<["cluster_id" := JId cluster]>
      (<["connection_host" := opt_str (nd_ip_address node)]>
        {["connection_port" := JInt (nd_postgres_port node)]})))).

Definition execute_delete_database (now : timestamp) (job : uuid) : M Cp (option payload) :=
  j ← job_object job;
  v ← item (jb_payload j) "database_id";
  id ← as_uuid v;
  o ← cp_get databases id;
  match o with
  | None => mret (Some {["already_deleted" := JBool true]})
  | Some d =>
      if decide (db_status d = DB_DELETED) then mret (Some {["already_deleted" := JBool true]})
      else
        (match db_cluster_id d with
         | None => mret tt
         | Some cluster =>
             node ← get_primary_node (Some cluster);
             creds ← gets credentials;
             credential ← scalar_one_or_none (rows (fun c =>
               bool_decide (cr_database_id c = id) && bool_decide (cr_scope c = SCOPE_APP)) creds);
             let role_name := match credential with
                              | Some c => cr_role_name c
                              | None => ROLE_NAME_PREFIX +:+ "unknown"
                              end in
             call_agent node "DELETE" (database_path d "") {["role_name" := JStr role_name]};;
             mret tt
         end);;
        set_database id (fun d => d <| db_status := DB_DELETED |> <| db_deleted_at := Some now |>);;
        add_database_event (mkDatabaseEvent id (Some job) "DATABASE_DELETED" ∅);;
        mret (Some ∅)
  end.

Definition execute_suspend_database (job : uuid) : M Cp (option payload) :=
  database ← get_object_or_raise databases job "database_id";
  let '(id, d) := database in
  if decide (db_status d = DB_SUSPENDED) then mret (Some {["already_suspended" := JBool true]})
  else
    node ← get_primary_node (db_cluster_id d);
    call_agent node "POST" (database_path d "/suspend") ∅;;
    set_database id (fun d => d <| db_status := DB_SUSPENDED |>);;
    add_database_event (mkDatabaseEvent id (Some job) "DATABASE_SUSPENDED" ∅);;
    mret (Some ∅).

Definition execute_resume_database (job : uuid) : M Cp (option payload) :=
  database ← get_object_or_raise databases job "database_id";
  let '(id, d) := database in
  if decide (db_status d = DB_RUNNING) then mret (Some {["already_running" := JBool true]})
  else
    node ← get_primary_node (db_cluster_id d);
    call_agent node "POST" (database_path d "/resume") ∅;;
    set_database id (fun d => d <| db_status := DB_RUNNING |>);;
    add_database_event (mkDatabaseEvent id (Some job) "DATABASE_RESUMED" ∅);;
    mret (Some ∅).

(** [except AgentUnreachableError: pass] *)
Definition ignore_unreachable {A} (m : M Cp A) : M Cp unit :=
  try_except (m;; mret tt) (fun e => if decide (e = AgentUnreachableError) then Some (mret tt) else None).

Definition execute_migrate_database (job : uuid) : M Cp (option payload) :=
  database ← get_object_or_raise databases job "database_id";
  let '(id, d) := database in
  target ← get_object_or_raise nodes job "target_node_id";
  cluster ← some_or (db_cluster_id d) RuntimeError;
  source ← get_primary_node (Some cluster);
  if decide (source.1 = target.1) then mret (Some {["already_there" := JBool true]})
  else
    creds ← gets credentials;
    credential ← scalar_one (rows (fun c => bool_decide (cr_database_id c = id) && cr_is_primary c) creds);
    password ← lift_outcome (decrypt_secret (cr_encrypted_password credential));
    call_agent source "POST" (database_path d "/quiesce") {["role_name" := JStr (cr_role_name credential)]};;
    key ← gets uuid4;
    let migration_key := "migrations/" +:+ str_uuid id +:+ "/" +:+ uuid_hex key +:+ ".dump.enc" in
    call_agent source "POST" (database_path d "/backup") {["storage_key" := JStr migration_key]};;
    call_agent target "POST" (database_path d "/restore")
      (<["storage_key" := JStr migration_key]> (<["role_name" := JStr (cr_role_name credential)]>
        {["password" := JStr password]}));;
    new ← get_or_create_cluster_on_node target.1 (db_region_id d) (db_isolation_level d);
    set_database id (fun d => route_to target.2 (d <| db_cluster_id := Some new |>));;
    call_agent source "DELETE" (database_path d "") {["role_name" := JStr (cr_role_name credential)]};;
    ignore_unreachable (call_agent target "DELETE" "/v1/backups" {["storage_key" := JStr migration_key]});;
    add_database_event (mkDatabaseEvent id (Some job) "DATABASE_MIGRATED"
      (<["from_node_id" := JId source.1]> (<["to_node_id" := JId target.1]> {["old_cluster_id" := JId cluster]})));;
    mret (Some (<["from_node_id" := JId source.1]> {["to_node_id" := JId target.1]})).

Definition HANDLERS (now : timestamp) (ty : string) : option (uuid -> M Cp (option payload)) :=
  if decide (ty = "create_database") then Some (execute_create_database now)
  else if decide (ty = "delete_database") then Some (execute_delete_database now)
  else if decide (ty = "suspend_database") then Some execute_suspend_database
  else if decide (ty = "resume_database") then Some execute_resume_database
  else if decide (ty = "migrate_database") then Some execute_migrate_database
  else None.

(** ** The fleet

    Every cluster has exactly one primary, on a node that exists, and a database that
    is in service has a cluster. *)

Definition serving (st : DatabaseStatus) : bool :=
  bool_decide (st = DB_RUNNING) || bool_decide (st = DB_SUSPENDING) || bool_decide (st = DB_SUSPENDED)
  || bool_decide (st = DB_UPDATING).

Record fleet (ns : gmap uuid Node) (cs : gmap uuid Cluster) (ms : gmap uuid ClusterMember)
    (ds : gmap uuid Database) : Prop := {
  fl_member : forall k m, ms !! k = Some m -> is_Some (cs !! cm_cluster_id m) /\ is_Some (ns !! cm_node_id m);
  fl_primary : forall c, is_Some (cs !! c) -> exists km, select (is_primary_of (Some c)) ms = [km];
  fl_cluster : forall id d c, ds !! id = Some d -> db_cluster_id d = Some c -> is_Some (cs !! c);
  fl_placed : forall id d, ds !! id = Some d -> serving (db_status d) = true -> is_Some (db_cluster_id d);
}.
Definition fleet_ok (s : Cp) : Prop := fleet (nodes s) (clusters s) (cluster_members s) (databases s).

(** ** Lemmas *)

Lemma fleet_alter ns cs ms ds id f :
  fleet ns cs ms ds ->
  (forall d, ds !! id = Some d ->
     (forall c, db_cluster_id (f d) = Some c -> is_Some (cs !! c)) /\
     (serving (db_status (f d)) = true -> is_Some (db_cluster_id (f d)))) ->
  fleet ns cs ms (alter f id ds).
Proof.
  intros [H1 H2 H3 H4] Hf. split; [done|done| |].
  - intros i d c. destruct (decide (i = id)) as [->|]; [|rewrite lookup_alter_ne by done; apply H3].
    rewrite lookup_alter_eq. intros (d0 & Hd & ->)%fmap_Some. destruct (Hf _ Hd). auto.
  - intros i d. destruct (decide (i = id)) as [->|]; [|rewrite lookup_alter_ne by done; apply H4].
    rewrite lookup_alter_eq. intros (d0 & Hd & ->)%fmap_Some. destruct (Hf _ Hd). auto.
Qed.

(** An update of a database that neither moves it nor puts it in service. *)
Lemma pres_set_database id f :
  (forall d, db_cluster_id (f d) = db_cluster_id d) ->
  (forall d, serving (db_status (f d)) = true -> serving (db_status d) = true) ->
  pres fleet_ok (set_database id f).
Proof.
  intros Hc Hs. apply pres_modify. intros s Hok. apply fleet_alter; [done|]. intros d Hd. rewrite Hc.
  split; [intros c; apply (fl_cluster _ _ _ _ Hok _ _ _ Hd)|].
  intros Hst. apply (fl_placed _ _ _ _ Hok _ _ Hd). auto.
Qed.

Lemma get_primary_node_run cluster s t node :
  get_primary_node cluster s = (t, Ret node) ->
  t = s /\ nodes s !! node.1 = Some node.2 /\
  exists k m, select (is_primary_of cluster) (cluster_members s) = [(k, m)] /\ cm_node_id m = node.1.
Proof.
  unfold get_primary_node. intros H.
  apply bind_Ret in H as (? & ? & [-> ->]%gets_Ret & H).
  apply bind_Ret in H as (? & [k m] & [-> Hm]%scalar_one_Ret & H).
  apply bind_Ret in H as (? & ? & [-> ->]%cp_get_run & H).
  apply bind_Ret in H as (? & n & [Hn ->]%some_or_Ret & [-> ->]%mret_Ret).
  split; [done|]. split; [done|]. by exists k, m.
Qed.

(** In a well-formed fleet, a database in service always has a primary to talk to. *)
Lemma get_primary_node_total s id d :
  fleet_ok s -> databases s !! id = Some d -> serving (db_status d) = true ->
  exists node, get_primary_node (db_cluster_id d) s = (s, Ret node).
Proof.
  intros Hok Hd Hserv. destruct (fl_placed _ _ _ _ Hok _ _ Hd Hserv) as [c Hc].
  destruct (fl_primary _ _ _ _ Hok c) as ([k m] & Hm); [by eapply fl_cluster|].
  assert ((k, m) ∈ select (is_primary_of (Some c)) (cluster_members s)) as [Hk _]%elem_of_select
    by (rewrite Hm; left).
  destruct (fl_member _ _ _ _ Hok _ _ Hk) as [_ [n Hn]].
  exists (cm_node_id m, n). unfold get_primary_node. rewrite Hc.
  unfold mbind, M_bind, gets at 1. rewrite Hm. simpl. unfold mret, M_ret, cp_get, gets. by rewrite Hn.
Qed.

Lemma pres_get_primary_node I cluster : pres I (get_primary_node cluster).
Proof. unfold get_primary_node. pres_go. Qed.
Lemma pres_get_object_or_raise {V} I (table : Cp -> gmap uuid V) job key :
  pres I (get_object_or_raise table job key).
Proof. unfold get_object_or_raise. pres_go. Qed.
#[local] Hint Resolve pres_get_primary_node pres_get_object_or_raise : pres.

Lemma pres_ignore_unreachable {A} I (m : M Cp A) : pres I m -> pres I (ignore_unreachable m).
Proof.
  intros Hm. unfold ignore_unreachable. apply pres_try; [pres_go; auto with pres|].
  intros e k. case_decide; intros [= <-]. apply pres_ret.
Qed.

(** The steps that leave the fleet alone. *)
Lemma fleet_call_agent node method path args : pres fleet_ok (call_agent node method path args).
Proof. apply pres_call_agent. by intros s l H. Qed.
Lemma fleet_emit_event now org event data : pres fleet_ok (emit_event now org event data).
Proof. apply pres_emit_event; by intros. Qed.
Lemma fleet_enqueue now type p key org rt rid : pres fleet_ok (enqueue now type p key org rt rid).
Proof. apply pres_enqueue. by intros. Qed.
Lemma fleet_add_database_event e : pres fleet_ok (add_database_event e).
Proof. by apply pres_modify. Qed.
Lemma fleet_add_credential c : pres fleet_ok (add_credential c).
Proof. unfold add_credential. pres_go. by apply pres_modify. Qed.
#[local] Hint Resolve fleet_call_agent fleet_emit_event fleet_enqueue fleet_add_database_event
  fleet_add_credential pres_ignore_unreachable : pres.

(** A new cluster with its primary. *)
Lemma new_cluster_run node region iso s :
  new_cluster node region iso s =
    let c := uuid4 s in
    let s1 := s <| clusters ::= <[c := mkCluster region SINGLE (bool_decide (iso = SHARED)) CL_ACTIVE]> |> in
    (s1 <| cluster_members ::= <[uuid4 s1 := mkClusterMember c node PRIMARY None None]> |>, Ret c).
Proof. done. Qed.

Lemma fleet_new_cluster ns cs ms ds c k cl m :
  fleet ns cs ms ds -> cs !! c = None -> ms !! k = None -> is_Some (ns !! cm_node_id m) ->
  cm_cluster_id m = c -> cm_role m = PRIMARY ->
  fleet ns (<[c := cl]> cs) (<[k := m]> ms) ds.
Proof.
  intros [H1 H2 H3 H4] Hc Hk Hn Em Er.
  assert (forall c', is_Some (cs !! c') -> is_Some (<[c := cl]> cs !! c')) as Hmono.
  { intros c' Hc'. destruct (decide (c = c')) as [->|];
      [by rewrite lookup_insert_eq|by rewrite lookup_insert_ne]. }
  split.
  - intros k' m' [[-> <-]|[? Hm']]%lookup_insert_Some.
    + rewrite Em, lookup_insert_eq. by split.
    + destruct (H1 _ _ Hm'). auto.
  - intros c' Hc'. destruct (decide (c = c')) as [<-|Hne].
    + exists (k, m). apply select_singleton; [by rewrite lookup_insert_eq| |].
      * unfold is_primary_of. rewrite !bool_decide_eq_true_2 by congruence. done.
      * intros k' m' [[-> <-]|[? Hm']]%lookup_insert_Some Hp; [done|]. exfalso.
        unfold is_primary_of in Hp. apply andb_true_iff in Hp as [Hp%bool_decide_eq_true _].
        injection Hp as Hp. destruct (H1 _ _ Hm') as [[? Hx] _]. congruence.
    + rewrite lookup_insert_ne in Hc' by done. destruct (H2 _ Hc') as [km Hkm]. exists km.
      apply select_insert_fresh; [done| |done]. unfold is_primary_of.
      rewrite bool_decide_eq_false_2; [done|]. congruence.
  - eauto.
  - done.
Qed.

Definition fleet_with (cluster : uuid) (s : Cp) : Prop := fleet_ok s /\ is_Some (clusters s !! cluster).
(** The database [id], if it exists, has a cluster. *)
Definition fleet_on (id : uuid) (s : Cp) : Prop :=
  fleet_ok s /\ forall d, databases s !! id = Some d -> is_Some (db_cluster_id d).

Lemma hoare_new_cluster node region iso :
  hoare (fun s => fleet_ok s /\ is_Some (nodes s !! node)) (new_cluster node region iso) fleet_with fleet_ok.
Proof.
  intros s [Hok Hn]. rewrite new_cluster_run. cbv zeta. simpl.
  destruct (uuid4_not_used s) as (Hc & _).
  match goal with |- fleet_with _ ?t => set (t' := t) end.
  split; [|unfold t'; simpl; rewrite lookup_insert_eq; by eexists].
  unfold fleet_ok, t'. simpl. apply fleet_new_cluster; try done.
  match goal with |- _ !! uuid4 ?u = None => exact (proj1 (proj2 (uuid4_not_used u))) end.
Qed.

Lemma hoare_get_or_create node region iso :
  hoare (fun s => fleet_ok s /\ is_Some (nodes s !! node)) (get_or_create_cluster_on_node node region iso)
    fleet_with fleet_ok.
Proof.
  unfold get_or_create_cluster_on_node.
  apply hoare_bind with (R := fun o s => (fleet_ok s /\ is_Some (nodes s !! node)) /\
    forall c, o = Some c -> is_Some (clusters s !! c)).
  - apply hoare_run; [|case_decide; auto with pres|by intros s [? _]].
    intros s t o Hs. case_decide.
    + intros [-> Hc]%find_shared_cluster_run. split; [done|].
      intros c Ho. destruct (Hc c Ho) as (cl & ? & _). by eexists.
    + intros [-> ->]%mret_Ret. done.
  - intros [c|].
    + intros s [[Hs _] Hc]. simpl. split; [done|]. by apply Hc.
    + intros s [Hs _]. by apply hoare_new_cluster.
Qed.

Lemma hoare_set_cluster id cluster :
  hoare (fleet_with cluster) (set_database id (fun d => d <| db_cluster_id := Some cluster |>))
    (fun _ => fleet_on id) fleet_ok.
Proof.
  intros s [Hok Hc]. simpl. split.
  - apply fleet_alter; [done|]. intros d _. simpl. split; [by intros c [= <-]|by eexists].
  - simpl. intros d. rewrite lookup_alter_eq. intros (d0 & _ & ->)%fmap_Some. by eexists.
Qed.

(** From here on the database can be put in service. *)
Lemma fleet_on_sub id s : fleet_on id s -> fleet_ok s.
Proof. by intros [? _]. Qed.
Lemma pres_fleet_on_call id node method path args : pres (fleet_on id) (call_agent node method path args).
Proof. apply pres_call_agent. by intros s l H. Qed.
Lemma pres_fleet_on_emit id now org event data : pres (fleet_on id) (emit_event now org event data).
Proof. apply pres_emit_event; by intros. Qed.
Lemma pres_fleet_on_event id e : pres (fleet_on id) (add_database_event e).
Proof. by apply pres_modify. Qed.
Lemma pres_fleet_on_credential id c : pres (fleet_on id) (add_credential c).
Proof. unfold add_credential. pres_go. by apply pres_modify. Qed.
Lemma pres_fleet_on_set id f :
  (forall d, db_cluster_id (f d) = db_cluster_id d) -> pres (fleet_on id) (set_database id f).
Proof.
  intros Hf. apply pres_modify. intros s [Hok Hd]. split.
  - apply fleet_alter; [done|]. intros d E. rewrite Hf. split; [intros c; by apply (fl_cluster _ _ _ _ Hok id d)|].
    intros _. by apply Hd.
  - intros d. simpl. rewrite lookup_alter_eq. intros (d0 & E & ->)%fmap_Some. rewrite Hf. by apply Hd.
Qed.
#[local] Hint Resolve pres_fleet_on_call pres_fleet_on_emit pres_fleet_on_event pres_fleet_on_credential : pres.

(** A placement names a node, and a cluster, that exist. *)
Lemma hoare_select_node now region iso cpu ram sto :
  hoare fleet_ok (select_node_and_cluster now region iso cpu ram sto)
    (fun dec s => (fleet_ok s /\ is_Some (nodes s !! decision_node dec)) /\
       forall c, existing_cluster dec = Some c -> is_Some (clusters s !! c)) fleet_ok.
Proof.
  apply hoare_run; [|auto with pres|done]. intros s t dec Hs [-> [node Hp]]%select_node_and_cluster_run.
  split; [split; [done|by exists node; apply Hp]|].
  intros c Hc. destruct (pl_cluster _ _ _ _ _ _ _ _ _ Hp c Hc) as (cl & ? & _). by exists cl.
Qed.

(** Placement, then a cluster, then the database in it: shared by creation and restore. *)
Lemma hoare_place_in {A} now region iso cpu ram sto id (new : PlacementDecision -> M Cp uuid)
    (k : PlacementDecision -> uuid -> M Cp A) :
  (forall dec, hoare (fun s => fleet_ok s /\ is_Some (nodes s !! decision_node dec)) (new dec) fleet_with fleet_ok) ->
  (forall dec c, pres (fleet_on id) (k dec c)) ->
  pres fleet_ok (dec ← select_node_and_cluster now region iso cpu ram sto;
    c ← match existing_cluster dec with Some c => mret c | None => new dec end;
    set_database id (fun d => d <| db_cluster_id := Some c |>);; k dec c).
Proof.
  intros Hnew Hk. apply pres_of_hoare with (P := fleet_ok) (Q := fun _ => fleet_on id);
    [|done|by intros ? s [? _]].
  eapply hoare_bind; [apply hoare_select_node|]. intros dec. simpl.
  apply hoare_bind with (R := fleet_with).
  - destruct (existing_cluster dec) as [c|].
    + intros s [[Hs _] Hc]. split; [done|]. by apply Hc.
    + eapply hoare_weaken; [apply Hnew|by intros s [? _]|done].
  - intros c. eapply hoare_bind; [apply hoare_set_cluster|]. intros u. cbv beta.
    apply hoare_of_pres; [apply Hk|by intros s [? _]].
Qed.

Lemma fleet_create now job : pres fleet_ok (execute_create_database now job).
Proof.
  unfold execute_create_database.
  apply pres_bind; [auto with pres|]. intros j. apply pres_bind; [auto with pres|]. intros [id d].
  destruct (_ && _); [apply pres_ret|]. apply pres_bind; [auto with pres|]. intros o.
  apply pres_bind; [auto with pres|]. intros region.
  apply hoare_place_in with (new := fun dec => get_or_create_cluster_on_node (decision_node dec) _ _)
    (k := fun dec cluster => _); [intros dec; apply hoare_get_or_create|].
  intros dec c. pres_go. by apply pres_fleet_on_set.
Qed.

Lemma fleet_delete now job : pres fleet_ok (execute_delete_database now job).
Proof. unfold execute_delete_database. pres_go. by apply pres_set_database. Qed.

(** A handler that reaches the primary of the database first: the database has a cluster. *)
Lemma hoare_primary id d :
  hoare (fun s => fleet_ok s /\ databases s !! id = Some d) (get_primary_node (db_cluster_id d))
    (fun _ => fleet_on id) fleet_ok.
Proof.
  apply hoare_run; [|auto with pres|by intros s [? _]].
  intros s t node [Hok Hd] (-> & _ & k & m & Hm & _)%get_primary_node_run.
  split; [done|]. intros d' Hd'. simplify_eq.
  assert ((k, m) ∈ select (is_primary_of (db_cluster_id d)) (cluster_members s)) as [_ Hp]%elem_of_select
    by (rewrite Hm; left).
  apply andb_true_iff in Hp as [<-%bool_decide_eq_true _]. by eexists.
Qed.

Lemma hoare_object {V} (table : Cp -> gmap uuid V) job key I :
  hoare I (get_object_or_raise table job key) (fun x s => I s /\ table s !! x.1 = Some x.2) I.
Proof.
  apply hoare_run; [|auto with pres|done]. intros s t x Hs H. unfold get_object_or_raise in H.
  apply bind_Ret in H as (? & j & [-> _]%job_object_run & H).
  apply bind_Ret in H as (? & v & [_ ->]%some_or_Ret & H).
  apply bind_Ret in H as (? & id & [-> _]%as_uuid_Ret & H).
  apply bind_Ret in H as (? & o & [-> ->]%cp_get_run & H).
  apply bind_Ret in H as (? & y & [Hy ->]%some_or_Ret & [-> ->]%mret_Ret). done.
Qed.

Lemma fleet_suspend job : pres fleet_ok (execute_suspend_database job).
Proof.
  unfold execute_suspend_database.
  apply pres_of_hoare with (P := fleet_ok) (Q := fun _ => fleet_ok); [|done|done].
  eapply hoare_bind; [apply hoare_object|]. intros [id d]. simpl. case_decide; [by intros s [? _]|].
  eapply hoare_bind; [by apply hoare_primary|]. intros node.
  eapply hoare_weaken; [apply (hoare_of_pres (fleet_on id)); [|apply fleet_on_sub]|done|by intros ? s [? _]].
  pres_go. by apply pres_fleet_on_set.
Qed.

Lemma fleet_resume job : pres fleet_ok (execute_resume_database job).
Proof.
  unfold execute_resume_database.
  apply pres_of_hoare with (P := fleet_ok) (Q := fun _ => fleet_ok); [|done|done].
  eapply hoare_bind; [apply hoare_object|]. intros [id d]. simpl. case_decide; [by intros s [? _]|].
  eapply hoare_bind; [by apply hoare_primary|]. intros node.
  eapply hoare_weaken; [apply (hoare_of_pres (fleet_on id)); [|apply fleet_on_sub]|done|by intros ? s [? _]].
  pres_go. by apply pres_fleet_on_set.
Qed.

Definition fleet_node (node : uuid) (s : Cp) : Prop := fleet_ok s /\ is_Some (nodes s !! node).
Lemma fleet_node_sub node s : fleet_node node s -> fleet_ok s.
Proof. by intros [? _]. Qed.
Lemma pres_fleet_node_call n node method path args : pres (fleet_node n) (call_agent node method path args).
Proof. apply pres_call_agent. by intros s l H. Qed.
#[local] Hint Resolve pres_fleet_node_call : pres.

Lemma fleet_migrate job : pres fleet_ok (execute_migrate_database job).
Proof.
  unfold execute_migrate_database. apply pres_bind; [auto with pres|]. intros [id d].
  apply pres_of_hoare with (P := fleet_ok) (Q := fun _ => fleet_ok); [|done|done].
  eapply hoare_bind; [apply hoare_object|]. intros target. cbv beta.
  apply hoare_weaken with (P := fleet_node target.1) (Q := fun _ => fleet_ok);
    [|intros s [Hs Hn]; split; [done|by eexists]|done].
  assert (forall {A} (m : M Cp A), pres (fleet_node target.1) m ->
    hoare (fleet_node target.1) m (fun _ => fleet_node target.1) fleet_ok) as step
    by (intros A m Hm; apply hoare_of_pres; [done|apply fleet_node_sub]).
  eapply hoare_bind; [apply step; auto with pres|]. intros cluster. cbv beta.
  eapply hoare_bind; [apply step; auto with pres|]. intros source. cbv beta.
  case_decide; [intros s [Hs _]; done|].
  eapply hoare_bind; [apply step; auto with pres|]. intros creds. cbv beta.
  eapply hoare_bind; [apply step; auto with pres|]. intros cred. cbv beta.
  eapply hoare_bind; [apply step; auto with pres|]. intros password. cbv beta.
  eapply hoare_bind; [apply step; auto with pres|]. intros ?. cbv beta.
  eapply hoare_bind; [apply step; auto with pres|]. intros key. cbv beta zeta.
  eapply hoare_bind; [apply step; auto with pres|]. intros ?. cbv beta.
  eapply hoare_bind; [apply step; auto with pres|]. intros ?. cbv beta.
  eapply hoare_bind; [apply hoare_get_or_create|]. intros new.
  apply hoare_bind with (R := fun _ => fleet_ok).
  - intros s [Hs Hnew]. simpl. apply fleet_alter; [done|]. intros d' _. simpl.
    split; [by intros c [= <-]|by eexists].
  - intros ?. apply hoare_of_pres; [|done]. pres_go.
Qed.

Lemma fleet_handlers now ty h job : HANDLERS now ty = Some h -> pres fleet_ok (h job).
Proof.
  unfold HANDLERS. repeat case_decide; intros [= <-];
    [apply fleet_create|apply fleet_delete|apply fleet_suspend|apply fleet_resume|apply fleet_migrate].
Qed.

(** ** What a creation does *)

Definition provision_call (node : uuid) (physical_name password : string) : AgentCall :=
  mkAgentCall node "POST" "/v1/provision/database"
    (<["database_name" := JStr physical_name]> (<["role_name" := JStr (role_name_of physical_name)]>
      {["password" := JStr password]})).

Lemma get_object_run {V} (table : Cp -> gmap uuid V) job key s t x :
  get_object_or_raise table job key s = (t, Ret x) ->
  t = s /\ table s !! x.1 = Some x.2 /\
  exists j, cp_jobs s !! job = Some j /\ jb_payload j !! key = Some (JId x.1).
Proof.
  unfold get_object_or_raise. intros H.
  apply bind_Ret in H as (? & j & [-> Hj]%job_object_run & H).
  apply bind_Ret in H as (? & v & [Hv ->]%some_or_Ret & H).
  apply bind_Ret in H as (? & id & [-> ->]%as_uuid_Ret & H).
  apply bind_Ret in H as (? & o & [-> ->]%cp_get_run & H).
  apply bind_Ret in H as (? & y & [Hy ->]%some_or_Ret & [-> ->]%mret_Ret). eauto.
Qed.

Lemma get_object_total {V} (table : Cp -> gmap uuid V) job key s j id x :
  cp_jobs s !! job = Some j -> jb_payload j !! key = Some (JId id) -> table s !! id = Some x ->
  get_object_or_raise table job key s = (s, Ret (id, x)).
Proof.
  intros Hj Hp Hx. unfold get_object_or_raise, item, mbind, M_bind.
  rewrite (proj2 (job_object_run _ s s j)) by done. simpl. rewrite Hp. simpl.
  unfold mret, M_ret, cp_get, gets. by rewrite Hx.
Qed.

(** Only the tables of jobs and deliveries change. *)
Definition same_data (s t : Cp) : Prop :=
  t <| cp_jobs := cp_jobs s |> <| webhook_deliveries := webhook_deliveries s |> = s.
Lemma emit_event_data now org event data s t u :
  emit_event now org event data s = (t, Ret u) -> same_data s t.
Proof.
  intros H.
  assert (pres (same_data s) (emit_event now org event data)) as Hp
    by (apply pres_emit_event; intros u' x Hu; unfold same_data in *; by destruct u').
  specialize (Hp s). rewrite H in Hp. apply Hp. by destruct s.
Qed.
Lemma emit_event_fields now org event data s t u :
  emit_event now org event data s = (t, Ret u) ->
  databases t = databases s /\ credentials t = credentials s /\ agent_log t = agent_log s /\
  nodes t = nodes s /\ clusters t = clusters s /\ cluster_members t = cluster_members s /\
  database_events t = database_events s /\ backups t = backups s.
Proof. intros H%emit_event_data. unfold same_data in H. rewrite <- H. done. Qed.

(** The columns of a database the handlers never change. *)
Definition same_request (d d' : Database) : Prop :=
  db_project_id d' = db_project_id d /\ db_region_id d' = db_region_id d /\ db_name d' = db_name d /\
  db_physical_name d' = db_physical_name d /\ db_isolation_level d' = db_isolation_level d /\
  db_cpu_limit d' = db_cpu_limit d /\ db_ram_limit_mb d' = db_ram_limit_mb d /\
  db_storage_limit_gb d' = db_storage_limit_gb d.

Lemma new_cluster_fields node region iso s t c :
  new_cluster node region iso s = (t, Ret c) ->
  databases t = databases s /\ credentials t = credentials s /\ agent_log t = agent_log s /\ nodes t = nodes s /\
  backups t = backups s /\ database_events t = database_events s.
Proof. rewrite new_cluster_run. cbv zeta. by intros [= <- _]. Qed.

Lemma get_or_create_fields node region iso s t c :
  get_or_create_cluster_on_node node region iso s = (t, Ret c) ->
  databases t = databases s /\ credentials t = credentials s /\ agent_log t = agent_log s /\ nodes t = nodes s /\
  backups t = backups s /\ database_events t = database_events s.
Proof.
  unfold get_or_create_cluster_on_node. intros H. apply bind_Ret in H as (u & o & H1 & H2).
  assert (u = s) as -> by (case_decide; [by apply find_shared_cluster_run in H1 as [-> _]|by apply mret_Ret in H1 as [-> _]]).
  destruct o; [by apply mret_Ret in H2 as [-> _]|by apply new_cluster_fields in H2].
Qed.

(** What is left of a database that was just put in service on [node]. *)
Record in_service (node : uuid) (n : Node) (cluster : uuid) (d : Database) (s t : Cp) (id : uuid)
    (call : AgentCall) (role password : string) : Prop := {
  is_database : exists d', databases t !! id = Some d' /\ db_status d' = DB_RUNNING /\
    db_cluster_id d' = Some cluster /\ db_connection_host d' = nd_ip_address n /\
    db_connection_port d' = Some (nd_postgres_port n) /\ same_request d d';
  is_others : forall i, i <> id -> databases t !! i = databases s !! i;
  is_log : agent_log t = agent_log s ++ [call];
  is_answered : exists r, agent (agent_log s) call = Ret r;
  is_credential : exists k, credentials s !! k = None /\
    credentials t = <[k := mkDatabaseCredential id role None true (encrypt_secret password) SCOPE_APP None]> (credentials s);
}.

Lemma add_credential_run c s t u :
  add_credential c s = (t, Ret u) ->
  t = s <| credentials ::= <[uuid4 s := c]> |>.
Proof.
  unfold add_credential. intros H.
  apply bind_Ret in H as (? & ? & [-> ->]%gets_Ret & H).
  apply bind_Ret in H as (? & ? & [_ ->]%require_Ret & H).
  apply bind_Ret in H as (? & ? & [-> ->]%gets_Ret & ->%modify_Ret). done.
Qed.

Lemma execute_create_database_run now job s t r j id d :
  cp_jobs s !! job = Some j -> jb_payload j !! "database_id" = Some (JId id) -> databases s !! id = Some d ->
  db_status d <> DB_RUNNING ->
  execute_create_database now job s = (t, Ret r) ->
  exists reg dec n c password,
    regions s !! db_region_id d = Some reg /\
    placed now (rg_code reg) (db_isolation_level d) (db_cpu_limit d) (db_ram_limit_mb d) (db_storage_limit_gb d)
      s dec n /\
    in_service (decision_node dec) n c d s t id
      (provision_call (decision_node dec) (db_physical_name d) password) (role_name_of (db_physical_name d)) password.
Proof.
  intros Hj Hp Hd Hst H. unfold execute_create_database in H.
  apply bind_Ret in H as (? & j' & [-> Hj']%job_object_run & H). change (cp_jobs s !! job = Some j') in Hj'. simplify_eq.
  apply bind_Ret in H as (? & x & Hx & H).
  rewrite (get_object_total databases job "database_id" s j id d) in Hx by done. injection Hx as <- <-. 
  rewrite (bool_decide_eq_false_2 (db_status d = DB_RUNNING)) in H by done. simpl in H.
  apply bind_Ret in H as (? & o & [-> ->]%cp_get_run & H).
  apply bind_Ret in H as (? & reg & [Hreg ->]%some_or_Ret & H).
  apply bind_Ret in H as (? & dec & [-> [n Hplaced]]%select_node_and_cluster_run & H).
  apply bind_Ret in H as (s1 & c & Hc & H).
  assert (databases s1 = databases s /\ credentials s1 = credentials s /\ agent_log s1 = agent_log s /\
    nodes s1 = nodes s) as (E1 & E2 & E3 & E4).
  { destruct (existing_cluster dec); [by apply mret_Ret in Hc as [-> _]|].
    apply get_or_create_fields in Hc. tauto. }
  apply bind_Ret in H as (s2 & ? & ->%modify_Ret & H).
  apply bind_Ret in H as (? & password & [-> _]%gets_Ret & H).
  apply bind_Ret in H as (? & n' & [-> Hn']%obj_run & H). simpl in Hn'.
  assert (n' = n) as -> by (pose proof (pl_node _ _ _ _ _ _ _ _ _ Hplaced); congruence).
  apply bind_Ret in H as (s3 & r3 & (ip & Hip & -> & Hr3)%call_agent_run & H).
  apply bind_Ret in H as (s4 & ? & ->%add_credential_run & H).
  apply bind_Ret in H as (s5 & ? & ->%modify_Ret & H).
  apply bind_Ret in H as (s6 & ? & ->%modify_Ret & H).
  apply bind_Ret in H as (s7 & ? & He & [-> _]%mret_Ret).
  apply emit_event_fields in He as (F1 & F2 & F3 & F4 & _). simpl in F1, F2, F3.
  exists reg, dec, n, c, password. split; [done|]. split; [done|]. split.
  - rewrite F1, lookup_alter_eq, E1, lookup_alter_eq, Hd. by eexists.
  - intros i Hi. by rewrite F1, !lookup_alter_ne, E1 by done.
  - by rewrite F3, E3.
  - exists r3. simpl in Hr3. by rewrite E3 in Hr3.
  - rewrite F2, E2. eexists. split; [|reflexivity].
    match goal with |- _ !! uuid4 ?u = None => pose proof (uuid4_not_used u) as Hu end.
    destruct Hu as (_ & _ & _ & Hu & _). exact Hu.
Qed.

(** ** What a migration does *)

Definition not_delete (c : AgentCall) : Prop := ac_method c <> "DELETE".

(** Nothing was destroyed, and the database is where it was. *)
Definition not_migrated (s t : Cp) : Prop :=
  databases t = databases s /\
  exists calls, agent_log t = agent_log s ++ calls /\ Forall not_delete calls.

(** The target answered the restore before anything was destroyed, and the database
    points to it. *)
Definition migrated (s t : Cp) : Prop :=
  exists id d d' source target n pre restore rest r,
    databases s !! id = Some d /\ nodes s !! target = Some n /\ source <> target /\
    agent_log t = agent_log s ++ pre ++ restore :: rest /\
    Forall (fun c => ac_method c = "POST" /\ ac_node c = source) pre /\
    ac_node restore = target /\ ac_path restore = database_path d "/restore" /\
    agent (agent_log s ++ pre) restore = Ret r /\
    databases t !! id = Some d' /\ db_status d' = DB_RUNNING /\ is_Some (db_cluster_id d') /\
    db_connection_host d' = nd_ip_address n /\ db_connection_port d' = Some (nd_postgres_port n) /\
    Forall (fun c => ac_method c = "DELETE") rest.

Lemma not_migrated_refl s : not_migrated s s.
Proof. split; [done|]. exists []. by rewrite app_nil_r. Qed.

Lemma hoare_call_agent node method path args (P : Cp -> Prop) I :
  (forall u, P u -> I u) ->
  (forall u, P u -> I (u <| agent_log ::= fun l => l ++ [mkAgentCall node.1 method path args] |>)) ->
  hoare P (call_agent node method path args)
    (fun r t => exists u, P u /\ t = u <| agent_log ::= fun l => l ++ [mkAgentCall node.1 method path args] |> /\
       agent (agent_log u) (mkAgentCall node.1 method path args) = Ret r) I.
Proof.
  intros H1 H2 u Hu. destruct (call_agent node method path args u) as [t [r|e]] eqn:E.
  - apply call_agent_run in E as (ip & _ & -> & Hr). by exists u.
  - apply call_agent_raises in E as [_ [->| ->]]; auto.
Qed.

(** The first part of a migration: [calls] were made, nothing else changed. *)
Definition asked (s : Cp) (calls : list AgentCall) (u : Cp) : Prop :=
  databases u = databases s /\ nodes u = nodes s /\ agent_log u = agent_log s ++ calls.
Lemma asked_not_migrated s calls u : Forall not_delete calls -> asked s calls u -> not_migrated s u.
Proof. intros Hc (H1 & H2 & H3). split; [done|]. by exists calls. Qed.

Lemma hoare_post s calls node path args :
  Forall not_delete calls ->
  hoare (asked s calls) (call_agent node "POST" path args)
    (fun r u => asked s (calls ++ [mkAgentCall node.1 "POST" path args]) u /\
       agent (agent_log s ++ calls) (mkAgentCall node.1 "POST" path args) = Ret r)
    (fun u => not_migrated s u \/ migrated s u).
Proof.
  intros Hc. assert (forall u, asked s calls u ->
    asked s (calls ++ [mkAgentCall node.1 "POST" path args])
      (u <| agent_log ::= fun l => l ++ [mkAgentCall node.1 "POST" path args] |>)) as Hext.
  { intros u (H1 & H2 & H3). split; [done|]. split; [done|]. simpl. by rewrite H3, app_assoc. }
  eapply hoare_weaken; [apply (hoare_call_agent _ _ _ _ (asked s calls))|done|].
  - intros u Hu. left. by eapply asked_not_migrated.
  - intros u Hu. left. eapply asked_not_migrated; [|by apply Hext].
    apply Forall_app. split; [done|]. by constructor.
  - intros r t (u & Hu & -> & Hr). split; [by apply Hext|]. by destruct Hu as (_ & _ & <-).
Qed.

Lemma pres_migrated_call s node path args : pres (migrated s) (call_agent node "DELETE" path args).
Proof.
  intros u (id & d & d' & source & target & n & pre & restore & rest & r & H).
  destruct H as (H1 & H2 & H3 & H4 & H5 & H6 & H7 & H8 & H9 & H10 & H11 & H12 & H13 & H14).
  assert (migrated s (u <| agent_log ::= fun l => l ++ [mkAgentCall node.1 "DELETE" path args] |>)) as Hm.
  { exists id, d, d', source, target, n, pre, restore, (rest ++ [mkAgentCall node.1 "DELETE" path args]), r.
    simpl. rewrite H4, <- !app_assoc. simpl. split_and!; try done.
    apply Forall_app. split; [done|]. by constructor. }
  destruct (call_agent node "DELETE" path args u) as [t [a|e]] eqn:E; simpl.
  - by apply call_agent_run in E as (ip & _ & -> & _).
  - apply call_agent_raises in E as [_ [->| ->]]; [|done].
    exists id, d, d', source, target, n, pre, restore, rest, r. split_and!; done.
Qed.
#[local] Hint Resolve pres_migrated_call : pres.

Lemma hoare_ask {A} s I (m : M Cp A) :
  (forall u, asked s [] u -> I u) -> pres (asked s []) m -> hoare (asked s []) m (fun _ => asked s []) I.
Proof. intros HI Hm. by apply hoare_of_pres. Qed.

(** The cutover. *)
Lemma migrated_cutover s u id d source target n pre restore r new :
  databases s !! id = Some d -> nodes s !! target = Some n -> source <> target ->
  Forall (fun c => ac_method c = "POST" /\ ac_node c = source) pre -> ac_node restore = target ->
  ac_path restore = database_path d "/restore" -> agent (agent_log s ++ pre) restore = Ret r ->
  asked s (pre ++ [restore]) u ->
  migrated s (u <| databases ::= alter (fun d => route_to n (d <| db_cluster_id := Some new |>)) id |>).
Proof.
  intros Hd Hn Hne Hpre H1 H2 H3 (E1 & E2 & E3).
  exists id, d, (route_to n (d <| db_cluster_id := Some new |>)), source, target, n, pre, restore, [], r.
  split_and!; try done.
  simpl. by rewrite lookup_alter_eq, E1, Hd.
Qed.

Lemma pres_asked_get_or_create s calls node region iso :
  pres (asked s calls) (get_or_create_cluster_on_node node region iso).
Proof.
  unfold get_or_create_cluster_on_node. pres_go. intros u Hu. rewrite new_cluster_run. exact Hu.
Qed.

Lemma hoare_migrate job s :
  let I u := not_migrated s u \/ migrated s u in
  hoare (fun u => u = s) (execute_migrate_database job) (fun _ => I) I.
Proof.
  cbv zeta. set (I := fun u => not_migrated s u \/ migrated s u).
  assert (forall u, asked s [] u -> I u) as HI by (intros u Hu; left; by eapply asked_not_migrated).
  assert (asked s [] s) as H0 by (split_and!; [done|done|by rewrite app_nil_r]).
  unfold execute_migrate_database.
  eapply hoare_bind; [eapply hoare_exc; [apply hoare_object|by intros u ->; apply HI]|]. intros [id d]. cbv beta.
  eapply hoare_pure; [intros u [-> Hd]; exact Hd|]. cbv beta. intros Hd.
  eapply hoare_bind.
  { eapply hoare_weaken; [eapply hoare_exc; [apply (hoare_object nodes job _ (fun u => u = s))|]|by intros u [-> _]|].
    - by intros u ->; apply HI.
    - intros a u Hu. exact Hu. }
  intros [target n]. cbv beta. eapply hoare_pure; [intros u [-> Hn]; exact Hn|]. cbn [fst snd]. intros Hn.
  eapply hoare_weaken with (P := asked s []) (Q := fun _ => I); [|by intros u [-> _]|done].
  eapply hoare_bind; [apply hoare_ask; [done|auto with pres]|]. intros cluster. cbv beta.
  eapply hoare_bind; [apply hoare_ask; [done|auto with pres]|]. intros source. cbv beta.
  case_decide as Hne; [intros u Hu; by apply HI|].
  eapply hoare_bind; [apply hoare_ask; [done|auto with pres]|]. intros creds. cbv beta.
  eapply hoare_bind; [apply hoare_ask; [done|auto with pres]|]. intros cred. cbv beta.
  eapply hoare_bind; [apply hoare_ask; [done|auto with pres]|]. intros password. cbv beta.
  set (c1 := mkAgentCall source.1 "POST" (database_path d "/quiesce") {["role_name" := JStr (cr_role_name cred)]}).
  apply hoare_bind with (R := fun _ => asked s [c1]);
    [eapply hoare_weaken; [by apply hoare_post|done|by intros ? u [Hu _]]|]. intros ?.
  apply hoare_bind with (R := fun _ => asked s [c1]); [by intros u Hu|]. intros key. cbv beta zeta.
  eapply hoare_bind; [apply hoare_post; by repeat constructor|]. intros ?. cbv beta.
  eapply hoare_weaken with (P := asked s _) (Q := fun _ => I); [|intros u [Hu _]; exact Hu|done].
  eapply hoare_bind; [apply hoare_post; by repeat constructor|]. intros r. cbv beta.
  eapply hoare_pure; [intros u [_ Hr]; exact Hr|]. intros Hr.
  eapply hoare_weaken with (P := asked s _) (Q := fun _ => I); [|intros u [Hu _]; exact Hu|done].
  eapply hoare_bind.
  { apply hoare_of_pres; [apply pres_asked_get_or_create|].
    intros u Hu. left. eapply asked_not_migrated; [|exact Hu]. by repeat constructor. }
  intros new. cbv beta. apply hoare_bind with (R := fun _ => migrated s).
  { intros u Hu. change (migrated s (u <| databases ::= alter (fun d => route_to n
      (d <| db_cluster_id := Some new |>)) id |>)).
    eapply migrated_cutover; [exact Hd|exact Hn|exact Hne| | | |exact Hr|exact Hu]; by repeat constructor. }
  intros ?. eapply hoare_weaken; [apply hoare_of_pres with (P := migrated s)| |]; [pres_go; by apply pres_modify|by right|done|by right].
Qed.

Lemma migrate_run job s :
  let t := (execute_migrate_database job s).1 in not_migrated s t \/ migrated s t.
Proof.
  pose proof (hoare_migrate job s s eq_refl) as H. cbv zeta in *.
  by destruct (execute_migrate_database job s) as [t [a|e]].
Qed.
(** *** Jobs already in the table stay as they are *)

Definition job_kept (job : uuid) (j : Job) (s : Cp) : Prop := cp_jobs s !! job = Some j.

Lemma job_kept_add job j s j' : job_kept job j s -> job_kept job j (s <| cp_jobs ::= <[uuid4 s := j']> |>).
Proof.
  unfold job_kept. simpl. intros Hj. rewrite lookup_insert_ne; [done|]. intros E.
  destruct (uuid4_not_used s) as (_ & _ & _ & _ & H & _). congruence.
Qed.
Lemma kept_emit_event job j now org event data : pres (job_kept job j) (emit_event now org event data).
Proof. apply pres_emit_event; [intros; by apply job_kept_add|by intros]. Qed.
Lemma kept_call_agent job j node method path args : pres (job_kept job j) (call_agent node method path args).
Proof. apply pres_call_agent. by intros. Qed.
Lemma kept_add_credential job j c : pres (job_kept job j) (add_credential c).
Proof. unfold add_credential. pres_go. by apply pres_modify. Qed.
Lemma kept_get_or_create job j node region iso :
  pres (job_kept job j) (get_or_create_cluster_on_node node region iso).
Proof. unfold get_or_create_cluster_on_node. pres_go. intros u Hu. rewrite new_cluster_run. exact Hu. Qed.
Lemma kept_set_database job j id f : pres (job_kept job j) (set_database id f).
Proof. by apply pres_modify. Qed.
Lemma kept_add_database_event job j e : pres (job_kept job j) (add_database_event e).
Proof. by apply pres_modify. Qed.
#[local] Hint Resolve kept_emit_event kept_call_agent kept_add_credential kept_get_or_create
  kept_set_database kept_add_database_event : pres.

Lemma kept_handlers now ty h job j id : HANDLERS now ty = Some h -> pres (job_kept job j) (h id).
Proof.
  unfold HANDLERS, execute_create_database, execute_delete_database, execute_suspend_database,
    execute_resume_database, execute_migrate_database.
  repeat case_decide; intros [= <-]; pres_go.
Qed.

Lemma create_database_again now job s j id d :
  cp_jobs s !! job = Some j -> jb_payload j !! "database_id" = Some (JId id) -> databases s !! id = Some d ->
  db_status d = DB_RUNNING -> is_Some (db_cluster_id d) ->
  execute_create_database now job s = (s, Ret (Some {["already_running" := JBool true]})).
Proof.
  intros Hj Hp Hd Hst Hc. unfold execute_create_database, mbind, M_bind.
  rewrite (proj2 (job_object_run _ s s j)) by done.
  rewrite (get_object_total databases job "database_id" s j id d) by done.
  by rewrite Hst, (bool_decide_eq_true_2 (is_Some _)).
Qed.

(** C23. When the creation of a database returns, it was placed on an eligible node
    of its region with room for it, the agent of that node was asked once, and answered,
    and the row says where the database is and holds its credential; asking again does
    nothing. *)
Theorem create_database_effect (now now' : timestamp) (job : uuid) (s t : Cp) (r : option payload) (j : Job)
    (id : uuid) (d : Database) :
  cp_jobs s !! job = Some j -> jb_payload j !! "database_id" = Some (JId id) -> databases s !! id = Some d ->
  db_status d <> DB_RUNNING ->
  execute_create_database now job s = (t, Ret r) ->
  (exists reg dec n c password,
    regions s !! db_region_id d = Some reg /\
    placed now (rg_code reg) (db_isolation_level d) (db_cpu_limit d) (db_ram_limit_mb d) (db_storage_limit_gb d)
      s dec n /\
    in_service (decision_node dec) n c d s t id
      (provision_call (decision_node dec) (db_physical_name d) password) (role_name_of (db_physical_name d)) password)
  /\ execute_create_database now' job t = (t, Ret (Some {["already_running" := JBool true]})).
Proof.
  intros Hj Hp Hd Hst H.
  pose proof (execute_create_database_run now job s t r j id d Hj Hp Hd Hst H) as Hrun. split; [exact Hrun|].
  destruct Hrun as (reg & dec & n & c & password & _ & _ & Hs).
  destruct (is_database _ _ _ _ _ _ _ _ _ _ Hs) as (d' & Hd' & Hst' & Hc' & _).
  apply (create_database_again now' job t j id d'); [|exact Hp|exact Hd'|exact Hst'|by eexists].
  pose proof (kept_handlers now "create_database" (execute_create_database now) job j job eq_refl s Hj) as Hk.
  by rewrite H in Hk.
Qed.

(** C22. However a migration ends, either nothing was destroyed and every database
    is where it was, or the target node has answered the restore, after a quiesce and a
    backup on another node, and the database points to the target. *)
Theorem migrate_never_destroys_first (job : uuid) (s : Cp) :
  let t := (execute_migrate_database job s).1 in not_migrated s t \/ migrated s t.
Proof. exact (migrate_run job s). Qed.
End orchestrator.

(** ** An example *)

Definition example_node (ip : string) : Node := mkNode 1 (Some ip) 8 16384 100 8443 5432 NODE_ACTIVE (Some 0) "h".
Definition example_database : Database :=
  mkDatabase 20 1 None "main" "db_0123" SHARED DB_CREATING 1 512 5 None None
    (mkBackupPolicy false None None) None.
Definition example_job (type : string) (org : option uuid) (p : payload) : Job :=
  mkJob type None org (Some "database") (Some 30%positive) p (new_core 0).

(** Region 1, nodes 8 and 9, database 30. *)
Definition example_cp : Cp :=
  empty_cp <| regions := {[1%positive := mkRegion "eu" true]} |>
    <| nodes := {[9%positive := example_node "10.0.0.9"]} |>
    <| databases := {[30%positive := example_database]} |>
    <| cp_jobs := <[40%positive := example_job "create_database" (Some 2%positive) {["database_id" := JId 30]}]>
        (<[41%positive := example_job "delete_database" (Some 2%positive) {["database_id" := JId 30]}]>
         {[42%positive := example_job "migrate_database" None
             (<["database_id" := JId 30]> {["target_node_id" := JId 8]})]}) |>.

Lemma create_database_effect_witness :
  exists t r, execute_create_database 0 40 example_cp = (t, Ret r) /\
    exists d, databases t !! 30%positive = Some d /\ db_connection_host d = Some "10.0.0.9" /\
      execute_create_database 5 40 t = (t, Ret (Some {["already_running" := JBool true]})).
Proof.
  destruct (execute_create_database 0 40 example_cp) as [t [r|e]] eqn:E.
  - exists t, r. split; [done|].
    destruct (create_database_effect 0 5 40 example_cp t r
      (example_job "create_database" (Some 2%positive) {["database_id" := JId 30]}) 30 example_database
      eq_refl eq_refl eq_refl ltac:(done) E) as [_ Hagain].
    assert (databases t !! 30%positive = databases (execute_create_database 0 40 example_cp).1 !! 30%positive) as Hd
      by (by rewrite E).
    eexists. split; [rewrite Hd; vm_compute; reflexivity|]. split; [reflexivity|exact Hagain].
  - apply (f_equal snd) in E. vm_compute in E. discriminate E.
Defined.
