(* ===== verification/Access.v ===== *)
(** * Who may do what in the control plane: [backend/app/services/rbac.py],
    [audit.py], [core/dependencies.py], [core/security.py] *)

From S2P Require Import Prelude PyStd Queue ControlPlane Platform.

(** ** Model *)

(** [_PERMISSIONS], in the order of the source. *)
Definition PERMISSIONS : list (string * list MembershipRole) :=
  [("org:delete", [OWNER]);
   ("org:update_settings", [OWNER; ADMIN]);
   ("org:manage_members", [OWNER; ADMIN]);
   ("org:read", [OWNER; ADMIN; DEVELOPER; BILLING; READONLY]);
   ("project:create", [OWNER; ADMIN; DEVELOPER]);
   ("project:delete", [OWNER; ADMIN]);
   ("project:read", [OWNER; ADMIN; DEVELOPER; BILLING; READONLY]);
   ("api_key:manage", [OWNER; ADMIN]);
   ("billing:read", [OWNER; ADMIN; BILLING]);
   ("database:create", [OWNER; ADMIN; DEVELOPER]);
   ("database:read", [OWNER; ADMIN; DEVELOPER; BILLING; READONLY]);
   ("database:delete", [OWNER; ADMIN]);
   ("database:manage", [OWNER; ADMIN; DEVELOPER]);
   ("database:connect", [OWNER; ADMIN; DEVELOPER]);
   ("database:roles:manage", [OWNER; ADMIN; DEVELOPER]);
   ("database:extensions:manage", [OWNER; ADMIN; DEVELOPER]);
   ("database:sql:execute", [OWNER; ADMIN; DEVELOPER]);
   ("database:observe", [OWNER; ADMIN; DEVELOPER; BILLING; READONLY]);
   ("database:backups:manage", [OWNER; ADMIN; DEVELOPER]);
   ("webhooks:manage", [OWNER; ADMIN]);
   ("subscription:manage", [OWNER])].

Definition has_permission (role : MembershipRole) (action : string) : outcome bool :=
  match dict_get PERMISSIONS action with
  | None => Exc ValueError
  | Some allowed => Ret (bool_decide (role ∈ allowed))
  end.

Definition require_permission (role : MembershipRole) (action : string) : M Cp unit :=
  allowed ← lift_outcome (has_permission role action);
  require allowed (HTTPException 403).

(** *** Audit *)

Definition REDACTED_KEYS : list string := ["password"; "password_hash"; "secret"; "token"; "api_key"; "key_hash"].
Definition redact (p : payload) : payload :=
  map_imap (fun k v => Some (if bool_decide (lower k ∈ REDACTED_KEYS) then JStr "***" else v)) p.
Definition record_audit (action resource_type : string) (resource organization user : option uuid)
    (before after : option payload) : M Cp unit :=
  modify (fun s => s <| audit_logs ::= fun l => l ++
    [mkAuditLog organization user action resource_type resource (redact <$> before) (redact <$> after)] |>).

(** *** Credentials *)

Definition API_KEY_PREFIX_LEN : nat := 8.
Definition extract_api_key_prefix (full_key : string) : option string :=
  if String.prefix "edb_" full_key then
    match partition_at "_" (removeprefix "edb_" full_key) with
    | None => None
    | Some (prefix, secret_part) =>
        if bool_decide (String.length prefix = API_KEY_PREFIX_LEN) && bool_decide (secret_part <> "")
        then Some prefix else None
    end
  else None.
(** [generate_api_key]: [prefix] is [secrets.token_hex(4)], [secret_part] is
    [secrets.token_urlsafe(32)]. *)
Definition full_api_key (prefix secret_part : string) : string := "edb_" +:+ prefix +:+ "_" +:+ secret_part.

(** Verification of signed tokens and of hashes: PyJWT and argon2. *)
Class Verifier := {
  decode_access_token : timestamp -> string -> option (uuid * Z);
  verify_api_key : string -> string -> bool;
}.

Section access.
Context `{Auth : Verifier}.

Definition authenticate_api_key (now : timestamp) (token : string) : M Cp (uuid * User) :=
  prefix ← some_or (extract_api_key_prefix token) (HTTPException 401);
  table ← gets api_keys;
  found ← scalar_one_or_none (select (fun k => bool_decide (ak_key_prefix k = prefix)) table);
  key ← some_or found (HTTPException 401);
  require (bool_decide (ak_revoked_at key.2 = None)) (HTTPException 401);;
  id ← some_or (ak_user_id key.2) (HTTPException 401);
  require (verify_api_key token (ak_key_hash key.2)) (HTTPException 401);;
  o ← cp_get users id;
  user ← some_or o (HTTPException 401);
  modify (fun s => s <| api_keys ::= alter (fun k => k <| ak_last_used_at := Some now |>) key.1 |>);;
  mret (id, user).

Definition get_current_user (now : timestamp) (credentials : option string) : M Cp (uuid * User) :=
  token ← some_or credentials (HTTPException 401);
  match extract_api_key_prefix token with
  | Some _ => authenticate_api_key now token
  | None =>
      decoded ← some_or (decode_access_token now token) (HTTPException 401);
      o ← cp_get users decoded.1;
      user ← some_or o (HTTPException 401);
      require (bool_decide (ur_token_version user = decoded.2)) (HTTPException 401);;
      mret (decoded.1, user)
  end.

Definition require_platform_admin (user : uuid * User) : M Cp unit :=
  require (ur_is_platform_admin user.2) (HTTPException 403).

Definition get_membership (organization user : uuid) : M Cp Membership :=
  table ← gets memberships;
  found ← scalar_one_or_none (rows (fun m => bool_decide (ms_organization_id m = organization)
                                      && bool_decide (ms_user_id m = user)) table);
  some_or found (HTTPException 404).

Definition require_active_subscription (organization : uuid) : M Cp unit :=
  table ← gets subscriptions;
  subscription ← scalar_one_or_none (rows (fun x => bool_decide (su_organization_id x = organization)) table);
  match subscription with
  | Some x => require (negb (bool_decide (su_status x = PAST_DUE))) (HTTPException 402)
  | None => mret tt
  end.

(** A request on an organization: the caller is authenticated (which records the use
    of an API key for good), then the endpoint runs as a member. *)
Definition org_request {A} (now : timestamp) (credentials : option string) (organization : uuid)
    (endpoint : uuid * User -> Membership -> M Cp A) : M Cp A :=
  user ← get_current_user now credentials;
  transaction (membership ← get_membership organization user.1; endpoint user membership).

(** A request for the administrators of the platform. *)
Definition admin_user_request {A} (now : timestamp) (credentials : option string) (m : uuid * User -> M Cp A) : M Cp A :=
  user ← get_current_user now credentials;
  transaction (require_platform_admin user;; m user).

(** ** Lemmas *)

Lemma require_permission_run role action s t u :
  require_permission role action s = (t, Ret u) <-> t = s /\ has_permission role action = Ret true.
Proof.
  unfold require_permission. rewrite bind_Ret. setoid_rewrite lift_outcome_Ret. setoid_rewrite require_Ret.
  naive_solver.
Qed.

Lemma get_membership_run organization user s t m :
  get_membership organization user s = (t, Ret m) ->
  t = s /\ exists k, memberships s !! k = Some m /\ ms_organization_id m = organization /\ ms_user_id m = user.
Proof.
  unfold get_membership. intros H.
  apply bind_Ret in H as (? & ? & [-> ->]%gets_Ret & H).
  apply bind_Ret in H as (? & o & [-> Ho]%scalar_one_or_none_Ret & [-> ->]%some_or_Ret).
  split; [done|].
  assert (m ∈ rows (fun m => bool_decide (ms_organization_id m = organization)
    && bool_decide (ms_user_id m = user)) (memberships s)) as (k & Hk & Hp)%elem_of_rows by (rewrite Ho; left).
  apply andb_true_iff in Hp as [?%bool_decide_eq_true ?%bool_decide_eq_true]. eauto.
Qed.

Lemma pres_require_permission I role action : pres I (require_permission role action).
Proof. unfold require_permission. pres_go. Qed.
Lemma pres_get_membership I org user : pres I (get_membership org user).
Proof. unfold get_membership. pres_go. Qed.
Lemma pres_require_active_subscription I org : pres I (require_active_subscription org).
Proof. unfold require_active_subscription. pres_go. Qed.

Lemma pres_get_current_user I now credentials :
  (forall s k, I s -> I (s <| api_keys := k |>)) -> pres I (get_current_user now credentials).
Proof.
  intros H. unfold get_current_user, authenticate_api_key. pres_go. apply pres_modify. intros u Hu. apply (H u _ Hu).
Qed.

(** What authentication tells about the caller. *)
Lemma get_current_user_run now credentials s t user :
  get_current_user now credentials s = (t, Ret user) ->
  users s !! user.1 = Some user.2 /\ t = s <| api_keys := api_keys t |> /\
  exists token, credentials = Some token /\
    ((exists k key, api_keys s !! k = Some key /\ ak_user_id key = Some user.1 /\ ak_revoked_at key = None /\
        extract_api_key_prefix token = Some (ak_key_prefix key) /\ verify_api_key token (ak_key_hash key) = true) \/
     decode_access_token now token = Some (user.1, ur_token_version user.2)).
Proof.
  unfold get_current_user. intros H. apply bind_Ret in H as (? & token & [-> ->]%some_or_Ret & H).
  destruct (extract_api_key_prefix token) as [prefix|] eqn:Ep.
  - unfold authenticate_api_key in H. rewrite Ep in H.
    apply bind_Ret in H as (? & p & [[= ->] ->]%some_or_Ret & H).
    apply bind_Ret in H as (? & ? & [-> ->]%gets_Ret & H).
    apply bind_Ret in H as (? & found & [-> Hf]%scalar_one_or_none_Ret & H).
    apply bind_Ret in H as (? & [k key] & [-> ->]%some_or_Ret & H). cbn [fst snd] in H.
    apply bind_Ret in H as (? & ? & [Hrev%bool_decide_eq_true ->]%require_Ret & H).
    apply bind_Ret in H as (? & id & [Hid ->]%some_or_Ret & H).
    apply bind_Ret in H as (? & ? & [Hv ->]%require_Ret & H).
    apply bind_Ret in H as (? & o & [-> ->]%cp_get_run & H).
    apply bind_Ret in H as (? & usr & [Hu ->]%some_or_Ret & H).
    apply bind_Ret in H as (? & ? & ->%modify_Ret & [-> ->]%mret_Ret).
    assert ((k, key) ∈ select (fun k => bool_decide (ak_key_prefix k = p)) (api_keys s))
      as [Hk Hp%bool_decide_eq_true]%elem_of_select by (rewrite Hf; left).
    split; [done|]. split; [done|]. exists token. split; [done|]. left. exists k, key. by rewrite Hp.
  - apply bind_Ret in H as (? & [id v] & [Hd ->]%some_or_Ret & H). cbn [fst snd] in H.
    apply bind_Ret in H as (? & o & [-> ->]%cp_get_run & H).
    apply bind_Ret in H as (? & usr & [Hu ->]%some_or_Ret & H).
    apply bind_Ret in H as (? & ? & [Hv%bool_decide_eq_true ->]%require_Ret & [-> ->]%mret_Ret).
    split; [done|]. split; [by destruct s|]. exists token. split; [done|]. right. by rewrite Hd, <- Hv.
Qed.
End access.
#[export] Hint Resolve pres_require_permission pres_get_membership pres_require_active_subscription : pres.
