(* ===== verification/Organizations.v ===== *)
(** * Organizations, members and projects: [backend/app/api/v1/endpoints/]
    [organizations.py], [projects.py] *)

From S2P Require Import Prelude PyStd Queue ControlPlane Platform Access.

(** ** Model *)

Definition DEFAULT_PLAN_NAME : string := "free".
Definition BILLING_PERIOD : Z := days 30.

Definition role_value (r : MembershipRole) : string :=
  match r with
  | OWNER => "owner" | ADMIN => "admin" | DEVELOPER => "developer" | BILLING => "billing"
  | READONLY => "readonly"
  end.

Section organizations.
Context `{Env : Platform} `{Auth : Verifier}.

(** [db.add(row)] under a new id. *)
Definition add_membership (m : Membership) : M Cp uuid :=
  id ← gets uuid4;
  modify (fun s => s <| memberships ::= <[id := m]> |>);;
  mret id.
Definition add_organization (o : Organization) : M Cp uuid :=
  id ← gets uuid4;
  modify (fun s => s <| organizations ::= <[id := o]> |>);;
  mret id.
Definition add_subscription (x : Subscription) : M Cp uuid :=
  id ← gets uuid4;
  modify (fun s => s <| subscriptions ::= <[id := x]> |>);;
  mret id.
Definition add_project (p : Project) : M Cp uuid :=
  id ← gets uuid4;
  modify (fun s => s <| projects ::= <[id := p]> |>);;
  mret id.

Definition create_organization (now : timestamp) (name slug : string) (current_user : uuid * User) : M Cp uuid :=
  table ← gets organizations;
  existing ← scalar_one_or_none (select (fun o => bool_decide (og_slug o = slug)) table);
  require (bool_decide (existing = None)) (HTTPException 409);;
  org ← add_organization (mkOrganization name slug);
  add_membership (mkMembership current_user.1 org OWNER);;
  all_plans ← gets plans;
  default_plan ← scalar_one_or_none (select (fun p => bool_decide (pl_name p = DEFAULT_PLAN_NAME)) all_plans);
  default_plan ← some_or default_plan (HTTPException 500);
  add_subscription (mkSubscription org default_plan.1 SUB_ACTIVE now (now + BILLING_PERIOD));;
  record_audit "ORGANIZATION_CREATED" "organization" (Some org) (Some org) (Some current_user.1) None
    (Some (<["name" := JStr name]> {["slug" := JStr slug]}));;
  mret org.

(** The caller needs no membership to create an organization. *)
Definition create_organization_request (now : timestamp) (credentials : option string) (name slug : string) :
    M Cp uuid :=
  user ← get_current_user now credentials;
  transaction (create_organization now name slug user).

Definition member_of (organization user : uuid) (m : Membership) : bool :=
  bool_decide (ms_organization_id m = organization) && bool_decide (ms_user_id m = user).

Definition add_member (organization : uuid) (email : string) (role : MembershipRole) (current_user : uuid * User)
    (membership : Membership) : M Cp uuid :=
  require_permission (ms_role membership) "org:manage_members";;
  all_users ← gets users;
  target_user ← scalar_one_or_none (select (fun u => bool_decide (ur_email u = email)) all_users);
  target_user ← some_or target_user (HTTPException 404);
  table ← gets memberships;
  existing ← scalar_one_or_none (select (member_of organization target_user.1) table);
  require (bool_decide (existing = None)) (HTTPException 409);;
  id ← add_membership (mkMembership target_user.1 organization role);
  record_audit "MEMBER_ADDED" "membership" None (Some organization) (Some current_user.1) None
    (Some (<["target_user_id" := JId target_user.1]> {["role" := JStr (role_value role)]}));;
  mret id.

Definition owner_in (organization : uuid) (m : Membership) : bool :=
  bool_decide (ms_organization_id m = organization) && bool_decide (ms_role m = OWNER).

Definition remove_member (organization target_user : uuid) (current_user : uuid * User) (membership : Membership) :
    M Cp unit :=
  require_permission (ms_role membership) "org:manage_members";;
  table ← gets memberships;
  target ← scalar_one_or_none (select (member_of organization target_user) table);
  target ← some_or target (HTTPException 404);
  (if decide (ms_role target.2 = OWNER) then
     owners ← gets (fun s => select (owner_in organization) (memberships s));
     require (negb (bool_decide (length owners <= 1)%nat)) (HTTPException 400)
   else mret tt);;
  modify (fun s => s <| memberships ::= delete target.1 |>);;
  record_audit "MEMBER_REMOVED" "membership" None (Some organization) (Some current_user.1)
    (Some (<["target_user_id" := JId target_user]> {["role" := JStr (role_value (ms_role target.2))]})) None.

Definition create_project (organization : uuid) (name slug : string) (current_user : uuid * User)
    (membership : Membership) : M Cp uuid :=
  require_permission (ms_role membership) "project:create";;
  table ← gets projects;
  existing ← scalar_one_or_none (select (fun p => bool_decide (pj_organization_id p = organization)
                                            && bool_decide (pj_slug p = slug)) table);
  require (bool_decide (existing = None)) (HTTPException 409);;
  id ← add_project (mkProject organization name slug);
  record_audit "PROJECT_CREATED" "project" (Some id) (Some organization) (Some current_user.1) None
    (Some (<["name" := JStr name]> {["slug" := JStr slug]}));;
  mret id.

Definition delete_project (organization project : uuid) (current_user : uuid * User) (membership : Membership) :
    M Cp unit :=
  require_permission (ms_role membership) "project:delete";;
  p ← cp_get projects project;
  p ← some_or p (HTTPException 404);
  require (bool_decide (pj_organization_id p = organization)) (HTTPException 404);;
  remaining ← gets (fun s => rows (fun d => bool_decide (db_project_id d = project)) (databases s));
  require (bool_decide (remaining = [])) (HTTPException 409);;
  modify (fun s => s <| projects ::= delete project |>);;
  record_audit "PROJECT_DELETED" "project" (Some project) (Some organization) (Some current_user.1)
    (Some (<["name" := JStr (pj_name p)]> {["slug" := JStr (pj_slug p)]})) None.

(** The requests of the two modules. *)
Inductive org_call :=
| CreateOrganization (name slug : string)
| AddMember (organization : uuid) (email : string) (role : MembershipRole)
| RemoveMember (organization user : uuid)
| CreateProject (organization : uuid) (name slug : string)
| DeleteProject (organization project : uuid).

Definition org_handle (now : timestamp) (credentials : option string) (call : org_call) : M Cp unit :=
  match call with
  | CreateOrganization name slug => create_organization_request now credentials name slug;; mret tt
  | AddMember o email role => org_request now credentials o (add_member o email role);; mret tt
  | RemoveMember o user => org_request now credentials o (remove_member o user)
  | CreateProject o name slug => org_request now credentials o (create_project o name slug);; mret tt
  | DeleteProject o project => org_request now credentials o (delete_project o project)
  end.

Definition org_step (s t : Cp) : Prop := exists now credentials call, t = (org_handle now credentials call s).1.

(** ** Invariant

    An organization keeps an owner and exactly one subscription, a user is at most once
    a member of it, and the rows that name it exist. *)

Record orgs (os : gmap uuid Organization) (ms : gmap uuid Membership) (xs : gmap uuid Subscription)
    (ps : gmap uuid Project) (ds : gmap uuid Database) : Prop := {
  og_owner : forall o, is_Some (os !! o) -> exists k m, ms !! k = Some m /\ owner_in o m = true;
  og_one_subscription : forall o, is_Some (os !! o) ->
    exists kx, select (fun x => bool_decide (su_organization_id x = o)) xs = [kx];
  og_once : forall k k' m m', ms !! k = Some m -> ms !! k' = Some m' ->
    ms_organization_id m = ms_organization_id m' -> ms_user_id m = ms_user_id m' -> k = k';
  og_member_fk : forall k m, ms !! k = Some m -> is_Some (os !! ms_organization_id m);
  og_subscription_fk : forall k x, xs !! k = Some x -> is_Some (os !! su_organization_id x);
  og_database_fk : forall k d, ds !! k = Some d -> is_Some (ps !! db_project_id d);
}.
Definition orgs_ok (s : Cp) : Prop :=
  orgs (organizations s) (memberships s) (subscriptions s) (projects s) (databases s).

(** ** Lemmas *)

Lemma pres_record_audit (I : Cp -> Prop) a b c d e f g :
  (forall s l, I s -> I (s <| audit_logs := l |>)) -> pres I (record_audit a b c d e f g).
Proof. intros H. apply pres_modify. intros s Hs. apply (H s _ Hs). Qed.

(** The endpoint runs for a caller who is a member. *)
Lemma pres_org_request {A} (I : Cp -> Prop) now credentials o (m : uuid * User -> Membership -> M Cp A) :
  (forall s l, I s -> I (s <| agent_log := l |>)) -> (forall s l, I s -> I (s <| api_keys := l |>)) ->
  (forall u ms k s t a, I s -> memberships s !! k = Some ms -> ms_organization_id ms = o -> ms_user_id ms = u.1 ->
     m u ms s = (t, Ret a) -> I t) ->
  pres I (org_request now credentials o m).
Proof.
  intros Hl Hk Hm. unfold org_request. apply pres_bind; [by apply pres_get_current_user|]. intros user.
  apply pres_transaction; [done|]. intros s t a H Hs.
  apply bind_Ret in H as (u & ms & [-> (k & Hms & Ho & Hu)]%get_membership_run & H). by eapply Hm.
Qed.

Lemma owner_insert (ms : gmap uuid Membership) o k m :
  ms !! k = None -> (exists k m, ms !! k = Some m /\ owner_in o m = true) ->
  exists k' m', <[k := m]> ms !! k' = Some m' /\ owner_in o m' = true.
Proof. intros Hk (k' & m' & Hm & Ho). exists k', m'. rewrite lookup_insert_ne by congruence. done. Qed.

Lemma once_insert (ms : gmap uuid Membership) k m :
  (forall k k' m m', ms !! k = Some m -> ms !! k' = Some m' ->
    ms_organization_id m = ms_organization_id m' -> ms_user_id m = ms_user_id m' -> k = k') ->
  (forall k' m', ms !! k' = Some m' -> ms_organization_id m = ms_organization_id m' ->
    ms_user_id m = ms_user_id m' -> False) ->
  forall k1 k2 m1 m2, <[k := m]> ms !! k1 = Some m1 -> <[k := m]> ms !! k2 = Some m2 ->
    ms_organization_id m1 = ms_organization_id m2 -> ms_user_id m1 = ms_user_id m2 -> k1 = k2.
Proof.
  intros H1 H2 k1 k2 m1 m2 [[<- <-]|[? Ha]]%lookup_insert_Some [[<- <-]|[? Hb]]%lookup_insert_Some Eo Eu.
  - done.
  - by destruct (H2 _ _ Hb).
  - by destruct (H2 _ _ Ha).
  - by eapply H1.
Qed.

Lemma orgs_create os ms xs ps ds o org km user kx plan a b :
  orgs os ms xs ps ds -> os !! o = None -> ms !! km = None -> xs !! kx = None ->
  orgs (<[o := org]> os) (<[km := mkMembership user o OWNER]> ms)
    (<[kx := mkSubscription o plan SUB_ACTIVE a b]> xs) ps ds.
Proof.
  intros [H1 H2 H3 H4 H5 H6] Ho Hm Hx.
  assert (forall o', is_Some (os !! o') -> is_Some (<[o := org]> os !! o')) as Hmono.
  { intros o' Ho'. destruct (decide (o = o')) as [->|];
      [by rewrite lookup_insert_eq|by rewrite lookup_insert_ne]. }
  split; [| | | | |exact H6].
  - intros o' Ho'. destruct (decide (o = o')) as [<-|].
    + eexists km, _. rewrite lookup_insert_eq. split; [done|]. unfold owner_in. simpl.
      by rewrite !bool_decide_eq_true_2.
    + rewrite lookup_insert_ne in Ho' by done. by apply owner_insert, H1.
  - intros o' Ho'. destruct (decide (o = o')) as [<-|].
    + eexists (kx, _). apply select_singleton; [by rewrite lookup_insert_eq|by apply bool_decide_eq_true_2|].
      intros k x [[<- _]|[_ Hk]]%lookup_insert_Some Hp%bool_decide_eq_true; [done|].
      destruct (H5 _ _ Hk). congruence.
    + rewrite lookup_insert_ne in Ho' by done. destruct (H2 _ Ho') as [kv Hkv]. exists kv.
      apply select_insert_fresh; [done|by apply bool_decide_eq_false_2|done].
  - apply once_insert; [done|]. simpl. intros k' m' Hk' E _. destruct (H4 _ _ Hk'). congruence.
  - intros k m [[_ <-]|[_ Hk]]%lookup_insert_Some; [by rewrite lookup_insert_eq|eauto].
  - intros k x [[_ <-]|[_ Hk]]%lookup_insert_Some; [by rewrite lookup_insert_eq|eauto].
Qed.

Lemma orgs_add_member os ms xs ps ds k m :
  orgs os ms xs ps ds -> ms !! k = None -> is_Some (os !! ms_organization_id m) ->
  select (member_of (ms_organization_id m) (ms_user_id m)) ms = [] ->
  orgs os (<[k := m]> ms) xs ps ds.
Proof.
  intros [H1 H2 H3 H4 H5 H6] Hk Ho Hnone. split; [|exact H2| | |exact H5|exact H6].
  - intros o Ho'. by apply owner_insert, H1.
  - apply once_insert; [done|]. intros k' m' Hk' Eo Eu.
    rewrite select_nil_iff in Hnone. specialize (Hnone _ _ Hk').
    unfold member_of in Hnone. by rewrite !bool_decide_eq_true_2 in Hnone.
  - intros k' m' [[_ <-]|[_ Hk']]%lookup_insert_Some; [done|eauto].
Qed.

Lemma select_two {V} (P : V -> bool) (m : gmap uuid V) k :
  (1 < length (select P m))%nat -> exists k' v', k' <> k /\ m !! k' = Some v' /\ P v' = true.
Proof.
  intros Hl. destruct (select P m) as [|[k1 v1] [|[k2 v2] rest]] eqn:E; simpl in Hl; [lia|lia|].
  pose proof (NoDup_select P m) as Hnd. rewrite E in Hnd. simpl in Hnd.
  apply NoDup_cons in Hnd as [Hnin _].
  assert (m !! k1 = Some v1 /\ P v1 = true) as [? ?] by (apply elem_of_select; rewrite E; left).
  assert (m !! k2 = Some v2 /\ P v2 = true) as [? ?] by (apply elem_of_select; rewrite E; right; left).
  destruct (decide (k1 = k)) as [->|]; [exists k2, v2|exists k1, v1]; split_and!; try done.
  intros ->. apply Hnin. left.
Qed.

Lemma orgs_remove_member os ms xs ps ds k m :
  orgs os ms xs ps ds -> ms !! k = Some m ->
  (ms_role m = OWNER -> (1 < length (select (owner_in (ms_organization_id m)) ms))%nat) ->
  orgs os (delete k ms) xs ps ds.
Proof.
  intros [H1 H2 H3 H4 H5 H6] Hk Hm. split; [|exact H2| | |exact H5|exact H6].
  - intros o Ho. destruct (H1 _ Ho) as (k1 & m1 & Hk1 & Ho1).
    destruct (decide (k1 = k)) as [->|]; [|exists k1, m1; by rewrite lookup_delete_ne].
    simplify_eq. pose proof Ho1 as Ho1'. apply andb_true_iff in Ho1' as [<-%bool_decide_eq_true Hr%bool_decide_eq_true].
    destruct (select_two _ _ k (Hm Hr)) as (k2 & m2 & Hne & Hk2 & Ho2). exists k2, m2.
    by rewrite lookup_delete_ne by done.
  - intros k1 k2 m1 m2 [_ Ha]%lookup_delete_Some [_ Hb]%lookup_delete_Some. by apply H3.
  - intros k1 m1 [_ Ha]%lookup_delete_Some. by eapply H4.
Qed.

Lemma create_organization_keeps now name slug user : keeps orgs_ok (create_organization now name slug user).
Proof.
  unfold create_organization, add_organization, add_membership, add_subscription, record_audit.
  intros s t a H Hs. minv.
  repeat match goal with H : context [uuid4 ?u] |- _ => clear H end.
  match goal with |- orgs_ok (upd_field audit_logs _ ?u) => change (orgs_ok u) end.
  unfold orgs_ok. cbn [organizations memberships subscriptions projects databases upd_field].
  apply orgs_create; [done|apply (uuid4_not_used s)| |].
  - match goal with |- _ !! uuid4 ?u = None => pose proof (uuid4_not_used u) as Hu end. simpl in Hu. tauto.
  - match goal with |- _ !! uuid4 ?u = None => pose proof (uuid4_not_used u) as Hu end. simpl in Hu. tauto.
Qed.

Lemma add_member_keeps o email role user membership k s t a :
  orgs_ok s -> memberships s !! k = Some membership -> ms_organization_id membership = o ->
  add_member o email role user membership s = (t, Ret a) -> orgs_ok t.
Proof.
  intros Hs Hk Ho H. unfold add_member, add_membership, record_audit in H.
  apply bind_Ret in H as (? & ? & [-> _]%require_permission_run & H). minv.
  match goal with H : bool_decide (_ = None) = true |- _ => apply bool_decide_eq_true in H; subst end.
  unfold orgs_ok. simpl. apply orgs_add_member; [done|apply (uuid4_not_used s)| |done].
  exact (og_member_fk _ _ _ _ _ Hs k _ Hk).
Qed.

Lemma remove_member_keeps o target user membership : keeps orgs_ok (remove_member o target user membership).
Proof.
  unfold remove_member, record_audit. intros s t a H Hs.
  apply bind_Ret in H as (? & ? & [-> _]%require_permission_run & H).
  apply bind_Ret in H as (? & ? & [-> ->]%gets_Ret & H).
  apply bind_Ret in H as (? & found & [-> Hf]%scalar_one_or_none_Ret & H).
  apply bind_Ret in H as (? & [k m] & [-> ->]%some_or_Ret & H). cbn [fst snd] in H.
  apply elem_of_singleton_select in Hf as [Hk Hm]. cbn [fst snd] in Hk, Hm.
  apply andb_true_iff in Hm as [Ho%bool_decide_eq_true _].
  apply bind_Ret in H as (u & ? & Hown & H).
  apply bind_Ret in H as (? & ? & ->%modify_Ret & ->%modify_Ret).
  assert (u = s /\ (ms_role m = OWNER -> (1 < length (select (owner_in (ms_organization_id m)) (memberships s)))%nat))
    as [-> Hlen].
  { case_decide as Hr; [|by apply mret_Ret in Hown as [-> _]].
    apply bind_Ret in Hown as (? & ? & [-> ->]%gets_Ret & [Hl%negb_true_iff ->]%require_Ret).
    apply bool_decide_eq_false in Hl. split; [done|]. intros _. rewrite Ho. lia. }
  by apply (orgs_remove_member _ _ _ _ _ k m).
Qed.

Lemma create_project_keeps o name slug user membership : keeps orgs_ok (create_project o name slug user membership).
Proof.
  unfold create_project, add_project, record_audit. intros s t a H Hs.
  apply bind_Ret in H as (? & ? & [-> _]%require_permission_run & H). minv.
  destruct Hs as [A1 A2 A3 A4 A5 A6]. split; try done. simpl. intros k d Hd.
  destruct (decide (uuid4 s = db_project_id d)) as [->|]; [by rewrite lookup_insert_eq|].
  rewrite lookup_insert_ne by done. by eapply A6.
Qed.

Lemma delete_project_keeps o project user membership : keeps orgs_ok (delete_project o project user membership).
Proof.
  unfold delete_project, record_audit. intros s t a H Hs.
  apply bind_Ret in H as (? & ? & [-> _]%require_permission_run & H).
  apply bind_Ret in H as (? & ? & [-> ->]%cp_get_run & H). minv.
  destruct Hs as [A1 A2 A3 A4 A5 A6]. split; try done. simpl. intros k d Hd.
  rewrite lookup_delete_ne; [by eapply A6|]. intros ->.
  match goal with H : bool_decide (rows _ _ = []) = true |- _ => apply bool_decide_eq_true in H; rename H into Hn end.
  assert (d ∈ rows (fun d' => bool_decide (db_project_id d' = db_project_id d)) (databases s)) as Hin.
  { apply elem_of_rows. exists k. by rewrite bool_decide_eq_true_2. }
  rewrite Hn in Hin. by apply elem_of_nil in Hin.
Qed.

Lemma org_handle_ok now credentials call : pres orgs_ok (org_handle now credentials call).
Proof.
  assert (forall s l, orgs_ok s -> orgs_ok (s <| agent_log := l |>)) as Hlog by done.
  assert (forall s l, orgs_ok s -> orgs_ok (s <| api_keys := l |>)) as Hkeys by done.
  destruct call as [name slug|o email role|o user|o name slug|o project]; simpl.
  - apply pres_bind; [|auto with pres]. unfold create_organization_request.
    apply pres_bind; [by apply pres_get_current_user|]. intros user. apply pres_transaction; [done|].
    apply create_organization_keeps.
  - apply pres_bind; [|auto with pres]. apply pres_org_request; [done|done|].
    intros u ms k s t a Hs Hk Ho _ H. by eapply add_member_keeps.
  - apply pres_org_request; [done|done|]. intros u ms k s t a Hs _ _ _ H. by eapply remove_member_keeps.
  - apply pres_bind; [|auto with pres]. apply pres_org_request; [done|done|].
    intros u ms k s t a Hs _ _ _ H. by eapply create_project_keeps.
  - apply pres_org_request; [done|done|]. intros u ms k s t a Hs _ _ _ H. by eapply delete_project_keeps.
Qed.

(** ** Properties *)

(** C32. From a well-formed database, whatever requests on organizations are served,
    every organization keeps an owner and exactly one subscription, and the project of
    every database, deleted or not, still exists. *)
Theorem organizations_keep_owner (s t : Cp) :
  orgs_ok s -> rtc org_step s t ->
  (forall o, is_Some (organizations t !! o) ->
     (exists k m, memberships t !! k = Some m /\ ms_organization_id m = o /\ ms_role m = OWNER) /\
     exists kx, select (fun x => bool_decide (su_organization_id x = o)) (subscriptions t) = [kx]) /\
  (forall k d, databases t !! k = Some d -> is_Some (projects t !! db_project_id d)).
Proof.
  intros Hs Hr. assert (orgs_ok t) as Ht.
  { clear -Hs Hr. induction Hr as [|s u t (now & credentials & call & ->) _ IH]; [done|].
    by apply IH, org_handle_ok. }
  destruct Ht as [H1 H2 _ _ _ H6]. split; [|exact H6]. intros o Ho. split; [|by apply H2].
  destruct (H1 o Ho) as (k & m & Hk & Hm). exists k, m. split; [done|].
  by apply andb_true_iff in Hm as [?%bool_decide_eq_true ?%bool_decide_eq_true].
Qed.
End organizations.

(** ** An example: three users, and tokens that name them *)

#[export] Instance example_verifier : Verifier := {
  decode_access_token := fun _ token =>
    dict_get [("alice", (5%positive, 0)); ("bob", (6%positive, 0)); ("eve", (7%positive, 0))] token;
  verify_api_key := fun key hash => bool_decide (key = hash);
}.

Definition example_user (email : string) : User := mkUser email None false None false None 0.
Definition example_plan : Plan :=
  mkPlan "free" (<["max_databases" := 1]> (<["max_storage_gb" := 10]> {["max_cpu_total" := 2]}))
    {["base_fee" := Dec 0 0]} true.
Definition example_users : Cp :=
  empty_cp <| users := <[5%positive := example_user "alice@x"]> (<[6%positive := example_user "bob@x"]>
      {[7%positive := example_user "eve@x"]}) |> <| plans := {[1%positive := example_plan]} |>.

(** The id of the first organization that is founded. *)
Definition acme : uuid := 8.

Definition run_org (calls : list (string * org_call)) (s : Cp) : Cp :=
  fold_left (fun s c => (org_handle 0 (Some c.1) c.2 s).1) calls s.

Lemma run_org_reach calls s : rtc org_step s (run_org calls s).
Proof.
  revert s. induction calls as [|c calls IH]; intros s; simpl; [apply rtc_refl|].
  eapply rtc_l; [|apply IH]. by exists 0, (Some c.1), c.2.
Qed.

(** Alice founds an organization and makes Bob an administrator. *)
Definition example_founding : list (string * org_call) :=
  [("alice", CreateOrganization "Acme" "acme"); ("alice", AddMember acme "bob@x" ADMIN)].
(** Bob makes Eve an owner, then removes Alice. *)
Definition example_takeover : list (string * org_call) :=
  [("bob", AddMember acme "eve@x" OWNER); ("bob", RemoveMember acme 5)].

Lemma example_users_ok : orgs_ok example_users.
Proof.
  split; simpl; intros *; try (intros [? H]; rewrite lookup_empty in H; discriminate H);
    intros H; rewrite lookup_empty in H; discriminate H.
Qed.

Lemma organizations_keep_owner_witness :
  let t := run_org (example_founding ++ example_takeover) example_users in
  is_Some (organizations t !! acme) /\
  exists k m, memberships t !! k = Some m /\ ms_organization_id m = acme /\ ms_role m = OWNER.
Proof.
  cbv zeta. set (t := run_org _ _).
  assert (is_Some (organizations t !! acme)) as Ho by (vm_compute; by eexists).
  split; [exact Ho|].
  exact (proj1 (proj1 (organizations_keep_owner example_users t example_users_ok (run_org_reach _ _)) acme Ho)).
Defined.

(** An administrator may hand out the role of owner, and remove an owner as
    soon as there is another: an organization can be taken from its founder, with the
    billing that [rbac.py] reserves to owners. *)
Theorem admin_can_evict_founder :
  let s := run_org example_founding example_users in
  let t := run_org example_takeover s in
  select (member_of acme 5) (memberships s) <> [] /\
  rows (member_of acme 6) (memberships s) = [mkMembership 6 acme ADMIN] /\
  select (member_of acme 5) (memberships t) = [] /\
  rows (owner_in acme) (memberships t) = [mkMembership 7 acme OWNER] /\
  has_permission ADMIN "subscription:manage" = Ret false.
Proof. vm_compute. split_and!; try reflexivity. discriminate. Qed.
