(* ===== verification/Databases.v ===== *)
(** * The database endpoints: [backend/app/api/v1/endpoints/databases.py],
    [database_admin.py] *)

From stdpp Require Import pretty.
From S2P Require Import Prelude PyStd Queue ControlPlane Placement Platform Orchestrator Access Organizations.

(** ** Model *)

Definition CONNECTIONS_PER_CPU : Z := 20.

Record DatabaseCreate := mkDatabaseCreate {
  dc_name : string;
  dc_region_code : string;
  dc_isolation_level : IsolationLevel;
  dc_cpu_limit : Z;
  dc_ram_limit_mb : Z;
  dc_storage_limit_gb : Z;
}.

(** The bounds of [DatabaseCreate] and [DatabaseResize]. *)
Definition valid_size (cpu ram storage : Z) : bool :=
  (1 <=? cpu) && (cpu <=? 32) && (256 <=? ram) && (ram <=? 262144) && (1 <=? storage) && (storage <=? 4096).

Definition isolation_value (i : IsolationLevel) : string :=
  match i with SHARED => "shared" | DEDICATED => "dedicated" end.

(** [f"{x}"] of the port. *)
Definition port_text (p : option Z) : string := match p with Some p => pretty p | None => "None" end.

Record DatabaseConnectionResponse := mkDatabaseConnectionResponse {
  dr_host : string;
  dr_port : option Z;
  dr_database : string;
  dr_username : string;
  dr_password : string;
  dr_connection_string : string;
}.

Section databases.
Context `{Env : Platform} `{Auth : Verifier}.

Definition add_database (d : Database) : M Cp uuid :=
  id ← gets uuid4;
  modify (fun s => s <| databases ::= <[id := d]> |>);;
  mret id.

(** [suffix] is the UUID of the physical identifiers. *)
Definition create_database (now : timestamp) (suffix organization project : uuid) (p : DatabaseCreate)
    (current_user : uuid * User) (membership : Membership) : M Cp (uuid * uuid) :=
  require (valid_size (dc_cpu_limit p) (dc_ram_limit_mb p) (dc_storage_limit_gb p)) (HTTPException 422);;
  require_active_subscription organization;;
  require_permission (ms_role membership) "database:create";;
  get_project_or_404 organization project;;
  all_regions ← gets regions;
  region ← scalar_one_or_none (select (fun r => bool_decide (rg_code r = dc_region_code p) && rg_active r) all_regions);
  region ← some_or region (HTTPException 404);
  table ← gets databases;
  existing ← scalar_one_or_none (select (fun d => bool_decide (db_project_id d = project)
                                            && bool_decide (db_name d = dc_name p)) table);
  require (bool_decide (existing = None)) (HTTPException 409);;
  try_except (check_database_quota organization (dc_storage_limit_gb p) (dc_cpu_limit p))
    (fun e => if decide (e = QuotaExceededError) then Some (raise (HTTPException 402)) else None);;
  let physical_name := (generate_physical_identifiers suffix).1 in
  id ← add_database (mkDatabase project region.1 None (dc_name p) physical_name (dc_isolation_level p)
         DB_CREATING (dc_cpu_limit p) (dc_ram_limit_mb p) (dc_storage_limit_gb p) None None
         (mkBackupPolicy false None None) None);
  job ← enqueue now "create_database" {["database_id" := JId id]} (Some ("create_database:" +:+ str_uuid id))
          (Some organization) (Some "database") (Some id);
  record_audit "DATABASE_CREATE_REQUESTED" "database" (Some id) (Some organization) (Some current_user.1) None
    (Some (<["name" := JStr (dc_name p)]> (<["region" := JStr (rg_code region.2)]>
      {["isolation" := JStr (isolation_value (dc_isolation_level p))]})));;
  mret (id, job).

Definition delete_database (now : timestamp) (organization project database : uuid) (current_user : uuid * User)
    (membership : Membership) : M Cp (uuid * uuid) :=
  require_permission (ms_role membership) "database:delete";;
  get_project_or_404 organization project;;
  d ← get_database_or_404 project database;
  require (negb (bool_decide (db_status d = DB_DELETED))) (HTTPException 409);;
  set_database database (fun d => d <| db_status := DB_DELETING |>);;
  job ← enqueue now "delete_database" {["database_id" := JId database]}
          (Some ("delete_database:" +:+ str_uuid database)) (Some organization) (Some "database") (Some database);
  record_audit "DATABASE_DELETE_REQUESTED" "database" (Some database) (Some organization) (Some current_user.1)
    None None;;
  mret (database, job).

Definition suspend_database (now : timestamp) (organization project database : uuid) (current_user : uuid * User)
    (membership : Membership) : M Cp (uuid * uuid) :=
  require_permission (ms_role membership) "database:manage";;
  get_project_or_404 organization project;;
  d ← get_database_or_404 project database;
  require (bool_decide (db_status d = DB_RUNNING)) (HTTPException 409);;
  set_database database (fun d => d <| db_status := DB_SUSPENDING |>);;
  job ← enqueue now "suspend_database" {["database_id" := JId database]} None
          (Some organization) (Some "database") (Some database);
  record_audit "DATABASE_SUSPEND_REQUESTED" "database" (Some database) (Some organization) (Some current_user.1)
    None None;;
  mret (database, job).

Definition resume_database (now : timestamp) (organization project database : uuid) (current_user : uuid * User)
    (membership : Membership) : M Cp (uuid * uuid) :=
  require_permission (ms_role membership) "database:manage";;
  get_project_or_404 organization project;;
  d ← get_database_or_404 project database;
  require (bool_decide (db_status d = DB_SUSPENDED)) (HTTPException 409);;
  set_database database (fun d => d <| db_status := DB_UPDATING |>);;
  job ← enqueue now "resume_database" {["database_id" := JId database]} None
          (Some organization) (Some "database") (Some database);
  record_audit "DATABASE_RESUME_REQUESTED" "database" (Some database) (Some organization) (Some current_user.1)
    None None;;
  mret (database, job).

(** [except AgentRequestError as exc: raise HTTPException(exc.status_code)] *)
Definition agent_request {A} (m : M Cp A) : M Cp A :=
  try_except m (fun e => match e with AgentRequestError code => Some (raise (HTTPException code)) | _ => None end).

Definition sizes (cpu ram storage : Z) : payload :=
  <["cpu_limit" := JInt cpu]> (<["ram_limit_mb" := JInt ram]> {["storage_limit_gb" := JInt storage]}).

Definition resize_database (organization project database : uuid) (cpu ram storage : Z) (current_user : uuid * User)
    (membership : Membership) : M Cp uuid :=
  require (valid_size cpu ram storage) (HTTPException 422);;
  require_permission (ms_role membership) "database:manage";;
  get_project_or_404 organization project;;
  d ← get_database_or_404 project database;
  require (bool_decide (db_status d = DB_RUNNING)) (HTTPException 409);;
  node ← get_primary_node (db_cluster_id d);
  fits ← fits_on_node node.1 cpu ram storage (Some database);
  require fits (HTTPException 409);;
  agent_request (call_agent node "POST" (database_path d "/connection-limit")
    {["limit" := JInt (cpu * CONNECTIONS_PER_CPU)]});;
  set_database database (fun d => d <| db_cpu_limit := cpu |> <| db_ram_limit_mb := ram |>
                                    <| db_storage_limit_gb := storage |>);;
  record_audit "DATABASE_RESIZED" "database" (Some database) (Some organization) (Some current_user.1)
    (Some (sizes (db_cpu_limit d) (db_ram_limit_mb d) (db_storage_limit_gb d))) (Some (sizes cpu ram storage));;
  mret database.

Definition get_database_connection (organization project database : uuid) (credential_id : option uuid)
    (membership : Membership) : M Cp DatabaseConnectionResponse :=
  require_active_subscription organization;;
  require_permission (ms_role membership) "database:connect";;
  get_project_or_404 organization project;;
  d ← get_database_or_404 project database;
  require (bool_decide (db_status d = DB_RUNNING) || bool_decide (db_status d = DB_SUSPENDED)) (HTTPException 409);;
  credential ←
    match credential_id with
    | Some id =>
        o ← cp_get credentials id;
        c ← some_or o (HTTPException 404);
        require (bool_decide (cr_database_id c = database)) (HTTPException 404);;
        mret (Some c)
    | None =>
        creds ← gets credentials;
        scalar_one_or_none (rows (fun c => bool_decide (cr_database_id c = database)
                                     && bool_decide (cr_scope c = SCOPE_APP)) creds)
    end;
  match credential, db_connection_host d with
  | Some c, Some host =>
      require (negb (bool_decide (host = ""))) (HTTPException 409);;
      password ← lift_outcome (decrypt_secret (cr_encrypted_password c));
      mret (mkDatabaseConnectionResponse host (db_connection_port d) (db_physical_name d) (cr_role_name c) password
        ("postgresql://" +:+ cr_role_name c +:+ ":" +:+ password +:+ "@" +:+ host +:+ ":"
         +:+ port_text (db_connection_port d) +:+ "/" +:+ db_physical_name d +:+ "?sslmode=require"))
  | _, _ => raise (HTTPException 409)
  end.

(** [POST /databases/{id}/migrate], for the administrators of the platform. *)
Definition migrate_database (now : timestamp) (database target : uuid) (admin : uuid * User) : M Cp (uuid * uuid) :=
  o ← cp_get databases database;
  d ← some_or o (HTTPException 404);
  require (bool_decide (db_status d = DB_RUNNING)) (HTTPException 409);;
  o ← cp_get nodes target;
  target_node ← some_or o (HTTPException 404);
  require (is_eligible_for_placement now target_node) (HTTPException 409);;
  require (bool_decide (nd_region_id target_node = db_region_id d)) (HTTPException 409);;
  current_node ← get_primary_node (db_cluster_id d);
  require (negb (bool_decide (current_node.1 = target))) (HTTPException 409);;
  fits ← fits_on_node target (db_cpu_limit d) (db_ram_limit_mb d) (db_storage_limit_gb d) None;
  require fits (HTTPException 409);;
  set_database database (fun d => d <| db_status := DB_MIGRATING |>);;
  job ← enqueue now "migrate_database" (<["database_id" := JId database]> {["target_node_id" := JId target]}) None
          None (Some "database") (Some database);
  record_audit "DATABASE_MIGRATION_REQUESTED" "database" (Some database) None (Some admin.1) None
    (Some (<["from_node_id" := JId current_node.1]> {["to_node_id" := JId target]}));;
  mret (database, job).

Definition migrate_request (now : timestamp) (credentials : option string) (database target : uuid) :
    M Cp (uuid * uuid) :=
  user ← get_current_user now credentials;
  transaction (require_platform_admin user;; migrate_database now database target user).

(** The requests of an organization on its databases. *)
Inductive database_call :=
| CreateDatabase (suffix project : uuid) (p : DatabaseCreate)
| DeleteDatabase (project database : uuid)
| SuspendDatabase (project database : uuid)
| ResumeDatabase (project database : uuid)
| ResizeDatabase (project database : uuid) (cpu ram storage : Z)
| GetConnection (project database : uuid) (credential : option uuid).

Definition database_endpoint (now : timestamp) (organization : uuid) (call : database_call)
    (user : uuid * User) (membership : Membership) : M Cp unit :=
  match call with
  | CreateDatabase suffix project p => create_database now suffix organization project p user membership;; mret tt
  | DeleteDatabase project d => delete_database now organization project d user membership;; mret tt
  | SuspendDatabase project d => suspend_database now organization project d user membership;; mret tt
  | ResumeDatabase project d => resume_database now organization project d user membership;; mret tt
  | ResizeDatabase project d cpu ram sto => resize_database organization project d cpu ram sto user membership;; mret tt
  | GetConnection project d credential => get_database_connection organization project d credential membership;; mret tt
  end.

Definition database_request (now : timestamp) (credentials : option string) (organization : uuid)
    (call : database_call) : M Cp unit :=
  org_request now credentials organization (database_endpoint now organization call).

(** The permission each request needs. *)
Definition database_action (call : database_call) : string :=
  match call with
  | CreateDatabase _ _ _ => "database:create"
  | DeleteDatabase _ _ => "database:delete"
  | SuspendDatabase _ _ | ResumeDatabase _ _ | ResizeDatabase _ _ _ _ _ => "database:manage"
  | GetConnection _ _ _ => "database:connect"
  end.

(** ** Lemmas *)

(** The steps that leave the databases and the projects alone. *)
Definition same_databases (s u : Cp) : Prop := databases u = databases s /\ projects u = projects s.
Lemma same_databases_refl s : same_databases s s.
Proof. done. Qed.

Lemma enqueue_databases now ty p key org rt rid s t id :
  enqueue now ty p key org rt rid s = (t, Ret id) -> same_databases s t.
Proof.
  intros H. assert (pres (same_databases s) (enqueue now ty p key org rt rid)) as Hp
    by (apply pres_enqueue; by intros).
  by apply (pres_run _ _ _ _ _ Hp H).
Qed.

(** What a request may change: rows of the organization. *)
Definition confined (org : uuid) (s t : Cp) : Prop :=
  forall id, databases t !! id = databases s !! id \/
    exists d', databases t !! id = Some d' /\ in_organization s org d' = true /\
      forall d, databases s !! id = Some d -> in_organization s org d = true.

Lemma confined_refl org s : confined org s s.
Proof. intros id. by left. Qed.

Lemma confined_alter org s u id d f :
  databases s !! id = Some d -> in_organization s org d = true ->
  (forall d, db_project_id (f d) = db_project_id d) ->
  databases u = alter f id (databases s) -> confined org s u.
Proof.
  intros Hd Hin Hf Hu i. rewrite Hu. destruct (decide (i = id)) as [->|]; [|left; by rewrite lookup_alter_ne].
  right. exists (f d). rewrite lookup_alter_eq, Hd. split; [done|].
  unfold in_organization in *. rewrite Hf. split; [done|]. by intros ? [= <-].
Qed.

Lemma in_organization_project s org d p :
  projects s !! db_project_id d = Some p -> pj_organization_id p = org -> in_organization s org d = true.
Proof. intros Hp Ho. unfold in_organization. rewrite Hp. by apply bool_decide_eq_true_2. Qed.

Lemma enqueue_keeps_confined org s now ty p key o rt rid : keeps (confined org s) (enqueue now ty p key o rt rid).
Proof. intros u t a [H _]%enqueue_databases Hu id. rewrite H. apply Hu. Qed.
Lemma audit_keeps_confined org s a b c d e f g : keeps (confined org s) (record_audit a b c d e f g).
Proof. by apply keeps_modify. Qed.
Lemma call_keeps_confined org s node m p args : keeps (confined org s) (agent_request (call_agent node m p args)).
Proof.
  intros u t a H Hu. unfold agent_request, try_except in H.
  destruct (call_agent node m p args u) as [v [r|e]] eqn:E.
  - injection H as <- _. by apply call_agent_run in E as (ip & _ & -> & _).
  - destruct e; discriminate H.
Qed.
#[local] Hint Resolve enqueue_keeps_confined audit_keeps_confined call_keeps_confined : pres.

(** The three requests that move a database along its life. *)
Lemma transition_confined org id s t f (r : M Cp (uuid * uuid)) d x :
  databases s !! id = Some d -> in_organization s org d = true ->
  (forall d, db_project_id (f d) = db_project_id d) -> keeps (confined org s) r ->
  (set_database id f;; r) s = (t, Ret x) -> confined org s t.
Proof.
  intros Hd Hin Hf Hr H. apply bind_Ret in H as (u & ? & ->%modify_Ret & H).
  eapply Hr; [exact H|]. by eapply confined_alter.
Qed.

Lemma create_database_run now suffix org project p user ms s t x :
  create_database now suffix org project p user ms s = (t, Ret x) ->
  has_permission (ms_role ms) "database:create" = Ret true /\
  (exists pr, projects s !! project = Some pr /\ pj_organization_id pr = org) /\
  (exists plan, get_active_plan org s = (s, Ret plan) /\ let dbs := live_databases org s in
    within_quota plan (Z.of_nat (length dbs) + 1) (sumZ (db_storage_limit_gb <$> dbs) + dc_storage_limit_gb p)
      (sumZ (db_cpu_limit <$> dbs) + dc_cpu_limit p)) /\
  exists region, x.1 = uuid4 s /\ projects t = projects s /\
    databases t = <[x.1 := mkDatabase project region None (dc_name p) (generate_physical_identifiers suffix).1
      (dc_isolation_level p) DB_CREATING (dc_cpu_limit p) (dc_ram_limit_mb p) (dc_storage_limit_gb p) None None
      (mkBackupPolicy false None None) None]> (databases s).
Proof.
  unfold create_database, add_database. intros H.
  apply bind_Ret in H as (? & ? & [_ ->]%require_Ret & H).
  apply bind_Ret in H as (s0 & ? & Hsub & H).
  assert (s0 = s) as ->.
  { pose proof (pres_require_active_subscription (fun u => u = s) org s eq_refl) as Hp. by rewrite Hsub in Hp. }
  apply bind_Ret in H as (? & ? & [-> Hperm]%require_permission_run & H).
  apply bind_Ret in H as (? & pr & (-> & Hpr & Ho)%get_project_or_404_run & H).
  apply bind_Ret in H as (? & ? & [-> ->]%gets_Ret & H).
  apply bind_Ret in H as (? & ? & [-> _]%scalar_one_or_none_Ret & H).
  apply bind_Ret in H as (? & region & [-> ->]%some_or_Ret & H).
  apply bind_Ret in H as (? & ? & [-> ->]%gets_Ret & H).
  apply bind_Ret in H as (? & ? & [-> _]%scalar_one_or_none_Ret & H).
  apply bind_Ret in H as (? & ? & [_ ->]%require_Ret & H).
  apply bind_Ret in H as (s1 & ? & Hq & H).
  unfold try_except in Hq.
  destruct (check_database_quota _ _ _ s) as [s2 [[]|e]] eqn:Eq; [|by case_decide].
  injection Hq as <-. apply check_database_quota_run in Eq as [-> Hplan].
  cbv zeta in H. apply bind_Ret in H as (s1 & id & Hadd & H).
  apply bind_Ret in Hadd as (? & ? & [-> ->]%gets_Ret & Hadd).
  apply bind_Ret in Hadd as (? & ? & ->%modify_Ret & [-> ->]%mret_Ret).
  apply bind_Ret in H as (s2 & job & [E1 E2]%enqueue_databases & H).
  apply bind_Ret in H as (? & ? & ->%modify_Ret & [-> ->]%mret_Ret).
  split; [done|]. split; [by exists pr|]. split; [done|].
  exists region.1. split; [done|]. split; [exact E2|exact E1].
Qed.

Lemma endpoint_confined now org call user ms s t x :
  database_endpoint now org call user ms s = (t, Ret x) ->
  confined org s t /\ has_permission (ms_role ms) (database_action call) = Ret true.
Proof.
  destruct call as [suffix project p|project d|project d|project d|project d cpu ram sto|project d cr]; simpl; intros H.
  - apply bind_Ret in H as (u & y & H & [-> _]%mret_Ret).
    apply create_database_run in H as (Hperm & (pr & Hpr & Ho) & _ & region & Hid & _ & Hdb).
    split; [|done]. intros i. rewrite Hdb. destruct (decide (i = y.1)) as [->|]; [|left; by rewrite lookup_insert_ne].
    right. eexists. rewrite lookup_insert_eq. split; [done|]. split; [by eapply in_organization_project|].
    rewrite Hid. destruct (uuid4_not_used s) as (_ & _ & Hn & _). by rewrite Hn.
  - apply bind_Ret in H as (u & y & H & [-> _]%mret_Ret). unfold delete_database in H.
    apply bind_Ret in H as (? & ? & [-> Hperm]%require_permission_run & H).
    apply bind_Ret in H as (? & pr & (-> & Hpr & Ho)%get_project_or_404_run & H).
    apply bind_Ret in H as (? & row & (-> & Hd & <-)%get_database_or_404_run & H).
    apply bind_Ret in H as (? & ? & [_ ->]%require_Ret & H). split; [|done].
    eapply transition_confined; [exact Hd|by eapply in_organization_project| | |exact H]; [done|keeps_go].
  - apply bind_Ret in H as (u & y & H & [-> _]%mret_Ret). unfold suspend_database in H.
    apply bind_Ret in H as (? & ? & [-> Hperm]%require_permission_run & H).
    apply bind_Ret in H as (? & pr & (-> & Hpr & Ho)%get_project_or_404_run & H).
    apply bind_Ret in H as (? & row & (-> & Hd & <-)%get_database_or_404_run & H).
    apply bind_Ret in H as (? & ? & [_ ->]%require_Ret & H). split; [|done].
    eapply transition_confined; [exact Hd|by eapply in_organization_project| | |exact H]; [done|keeps_go].
  - apply bind_Ret in H as (u & y & H & [-> _]%mret_Ret). unfold resume_database in H.
    apply bind_Ret in H as (? & ? & [-> Hperm]%require_permission_run & H).
    apply bind_Ret in H as (? & pr & (-> & Hpr & Ho)%get_project_or_404_run & H).
    apply bind_Ret in H as (? & row & (-> & Hd & <-)%get_database_or_404_run & H).
    apply bind_Ret in H as (? & ? & [_ ->]%require_Ret & H). split; [|done].
    eapply transition_confined; [exact Hd|by eapply in_organization_project| | |exact H]; [done|keeps_go].
  - apply bind_Ret in H as (u & y & H & [-> _]%mret_Ret). unfold resize_database in H.
    apply bind_Ret in H as (? & ? & [_ ->]%require_Ret & H).
    apply bind_Ret in H as (? & ? & [-> Hperm]%require_permission_run & H).
    apply bind_Ret in H as (? & pr & (-> & Hpr & Ho)%get_project_or_404_run & H).
    apply bind_Ret in H as (? & row & (-> & Hd & <-)%get_database_or_404_run & H). split; [|done].
    apply bind_Ret in H as (? & ? & [_ ->]%require_Ret & H).
    apply bind_Ret in H as (? & node & (-> & _)%get_primary_node_run & H).
    apply bind_Ret in H as (s1 & fits & Hf & H).
    pose proof (pres_fits_on_node (fun u => u = s) node.1 cpu ram sto (Some d) s eq_refl) as Hs1.
    rewrite Hf in Hs1. simpl in Hs1. subst s1.
    apply bind_Ret in H as (? & ? & [_ ->]%require_Ret & H).
    apply bind_Ret in H as (s1 & r & Hc & H).
    assert (databases s1 = databases s) as E1.
    { unfold agent_request, try_except in Hc. destruct (call_agent _ _ _ _ s) as [v [b|e]] eqn:E.
      - injection Hc as <- _. by apply call_agent_run in E as (ip & _ & -> & _).
      - destruct e; discriminate Hc. }
    apply bind_Ret in H as (s2 & ? & ->%modify_Ret & H).
    apply bind_Ret in H as (s3 & ? & ->%modify_Ret & [-> _]%mret_Ret).
    eapply confined_alter; [exact Hd|by eapply in_organization_project| |simpl; by rewrite E1]. done.
  - apply bind_Ret in H as (u & y & H & [-> _]%mret_Ret).
    assert (u = s) as ->.
    { assert (pres (fun v => v = s) (get_database_connection org project d cr ms)) as Hp
        by (unfold get_database_connection; pres_go; auto with pres).
      specialize (Hp s eq_refl). by rewrite H in Hp. }
    split; [apply confined_refl|]. unfold get_database_connection in H.
    apply bind_Ret in H as (s0 & ? & _ & H). by apply bind_Ret in H as (? & ? & [_ Hperm]%require_permission_run & _).
Qed.

(** *** The fleet *)

Lemma fleet_record_audit a b c d e f g : pres fleet_ok (record_audit a b c d e f g).
Proof. by apply pres_modify. Qed.
Lemma fleet_transaction {A} (m : M Cp A) : pres fleet_ok m -> pres fleet_ok (transaction m).
Proof.
  intros Hm s Hs. specialize (Hm s Hs). unfold transaction. by destruct (m s) as [t [a|e]].
Qed.
Lemma fleet_agent_request node m p args : pres fleet_ok (agent_request (call_agent node m p args)).
Proof.
  unfold agent_request. apply pres_try; [apply fleet_call_agent|]. intros e k. destruct e; intros [= <-]. apply pres_raise.
Qed.
Lemma fleet_add_database d : db_cluster_id d = None -> serving (db_status d) = false -> pres fleet_ok (add_database d).
Proof.
  intros Hc Hst. unfold add_database. pres_go. apply pres_modify. intros s [H1 H2 H3 H4].
  split; [done|done| |]; simpl.
  - intros i d' c [[_ <-]|[_ Hd]]%lookup_insert_Some; [congruence|by eapply H3].
  - intros i d' [[_ <-]|[_ Hd]]%lookup_insert_Some; [congruence|by eapply H4].
Qed.
#[local] Hint Resolve fleet_record_audit fleet_agent_request fleet_enqueue fleet_call_agent
  pres_get_primary_node : pres.

(** A database that is in service stays placed when its status moves on. *)
Lemma fleet_move id d f {A} (m : M Cp A) :
  serving (db_status d) = true -> (forall d, db_cluster_id (f d) = db_cluster_id d) -> pres fleet_ok m ->
  hoare (fun s => fleet_ok s /\ databases s !! id = Some d) (set_database id f;; m) (fun _ => fleet_ok) fleet_ok.
Proof.
  intros Hd Hf Hm. apply hoare_bind with (R := fun _ => fleet_ok); [|intros _; by apply hoare_of_pres].
  intros s [Hs E]. simpl. apply fleet_alter; [done|]. intros d' E'. simplify_eq. rewrite Hf.
  split; [intros c; by apply (fl_cluster _ _ _ _ Hs id)|intros _; by apply (fl_placed _ _ _ _ Hs id)].
Qed.

Lemma hoare_get_database project id I :
  hoare I (get_database_or_404 project id) (fun d s => I s /\ databases s !! id = Some d) I.
Proof.
  apply hoare_run; [|auto with pres|done]. by intros s t d Hs (-> & Hd & _)%get_database_or_404_run.
Qed.

(** [require (status == st)] then a transition. *)
Lemma fleet_transition project id st f e {A} (m : M Cp A) :
  serving st = true -> (forall d, db_cluster_id (f d) = db_cluster_id d) -> pres fleet_ok m ->
  pres fleet_ok (d ← get_database_or_404 project id;
    require (bool_decide (db_status d = st)) e;; set_database id f;; m).
Proof.
  intros Hst Hf Hm. apply pres_of_hoare with (P := fleet_ok) (Q := fun _ => fleet_ok); [|done|done].
  eapply hoare_bind; [apply hoare_get_database|]. intros d. cbv beta.
  destruct (bool_decide (db_status d = st)) eqn:E; simpl.
  - apply bool_decide_eq_true in E as <-. by apply (fleet_move id d f m).
  - intros s [Hs _]. exact Hs.
Qed.

Lemma fleet_database_endpoint now org call user ms : pres fleet_ok (database_endpoint now org call user ms).
Proof.
  destruct call as [suffix project p|project d|project d|project d|project d cpu ram sto|project d cr]; simpl.
  - unfold create_database. pres_go; [|by apply fleet_add_database].
    apply pres_try; [auto with pres|]. intros e k. case_decide; intros [= <-]. apply pres_raise.
  - unfold delete_database. pres_go. by apply pres_set_database.
  - apply pres_bind; [|auto with pres]. unfold suspend_database.
    apply pres_bind; [auto with pres|]. intros _. apply pres_bind; [auto with pres|]. intros _.
    apply fleet_transition; [done|done|]. pres_go.
  - apply pres_bind; [|auto with pres]. unfold resume_database.
    apply pres_bind; [auto with pres|]. intros _. apply pres_bind; [auto with pres|]. intros _.
    apply fleet_transition; [done|done|]. pres_go.
  - unfold resize_database. pres_go. by apply pres_set_database.
  - unfold get_database_connection. pres_go.
Qed.

Lemma fleet_database_request now credentials org call : pres fleet_ok (database_request now credentials org call).
Proof.
  unfold database_request, org_request. apply pres_bind; [by apply pres_get_current_user|]. intros user.
  apply fleet_transaction. apply pres_bind; [auto with pres|]. intros ms. apply fleet_database_endpoint.
Qed.

Lemma fleet_migrate_request now credentials id target : pres fleet_ok (migrate_request now credentials id target).
Proof.
  unfold migrate_request. apply pres_bind; [by apply pres_get_current_user|]. intros user.
  apply fleet_transaction. unfold require_platform_admin, migrate_database. pres_go. by apply pres_set_database.
Qed.

(** ** Properties *)


(** C24. When the creation of a database is accepted, what the organization now has
    is still within its plan: databases, storage and CPU, the new one included. *)
Theorem create_database_within_quota (now : timestamp) (suffix org project : uuid) (p : DatabaseCreate)
    (user : uuid * User) (m : Membership) (s t : Cp) (x : uuid * uuid) (plan : Plan) :
  create_database now suffix org project p user m s = (t, Ret x) -> get_active_plan org s = (s, Ret plan) ->
  let dbs := live_databases org t in
  within_quota plan (Z.of_nat (length dbs)) (sumZ (db_storage_limit_gb <$> dbs)) (sumZ (db_cpu_limit <$> dbs)).
Proof.
  intros (_ & (pr & Hpr & Ho) & (plan' & Hplan' & Hq) & region & Hid & Hps & Hdb)%create_database_run Hplan.
  rewrite Hplan in Hplan'. injection Hplan' as <-.
  set (d := mkDatabase _ _ _ _ _ _ _ _ _ _ _ _ _ _) in Hdb.
  assert (live_databases org t ≡ₚ d :: live_databases org s) as E.
  { unfold live_databases, in_organization. rewrite Hdb, Hps. rewrite rows_insert_fresh.
    - unfold d at 1. cbn [db_project_id]. rewrite Hpr. by rewrite bool_decide_eq_true_2.
    - rewrite Hid. apply (uuid4_not_used s). }
  cbv zeta in *. rewrite E. rewrite !fmap_cons, !sumZ_cons. cbn [length]. destruct Hq as (H1 & H2 & H3). unfold d. simpl.
  split_and!; intros q Hq; [specialize (H1 _ Hq)|specialize (H2 _ Hq)|specialize (H3 _ Hq)]; lia.
Qed.
End databases.

(** ** An example: Acme, on the free plan, has one project and one node *)

Definition example_acme : Cp :=
  run_org (example_founding ++ [("alice", CreateProject acme "Main" "main")]) example_users
    <| regions := {[1%positive := mkRegion "eu" true]} |>
    <| nodes := {[9%positive := example_node "10.0.0.9"]} |>.
Definition example_request : DatabaseCreate := mkDatabaseCreate "prod" "eu" SHARED 1 512 10.

(** The ids drawn by the example platform, in order. *)
Definition example_project : uuid :=
  match map_to_list (projects example_acme) with (id, _) :: _ => id | [] => 1 end.
Definition example_created : Cp := (database_request 0 (Some "alice") acme (CreateDatabase 255 example_project example_request) example_acme).1.
Definition example_id : uuid :=
  match map_to_list (databases example_created) with (id, _) :: _ => id | [] => 1 end.
Definition example_job_id : uuid :=
  match map_to_list (cp_jobs example_created) with (id, _) :: _ => id | [] => 1 end.
Definition example_running : Cp := (execute_create_database 0 example_job_id example_created).1.

Lemma create_database_within_quota_witness :
  exists t x, create_database 0 255 acme example_project example_request (5%positive, example_user "alice@x")
      (mkMembership 5 acme OWNER) example_acme = (t, Ret x) /\
    within_quota example_plan (Z.of_nat (length (live_databases acme t)))
      (sumZ (db_storage_limit_gb <$> live_databases acme t)) (sumZ (db_cpu_limit <$> live_databases acme t)) /\
    length (live_databases acme t) = 1%nat.
Proof.
  assert (get_active_plan acme example_acme = (example_acme, Ret example_plan)) as Hp
    by (apply get_active_plan_snd; vm_compute; reflexivity).
  destruct (create_database 0 255 acme example_project example_request (5%positive, example_user "alice@x")
      (mkMembership 5 acme OWNER) example_acme) as [t [x|e]] eqn:E.
  - exists t, x. split; [reflexivity|]. split.
    + exact (create_database_within_quota 0 255 acme example_project example_request
        (5%positive, example_user "alice@x") (mkMembership 5 acme OWNER) example_acme t x example_plan E Hp).
    + assert (t = (create_database 0 255 acme example_project example_request (5%positive, example_user "alice@x")
        (mkMembership 5 acme OWNER) example_acme).1) as -> by (by rewrite E). vm_compute. reflexivity.
  - apply (f_equal snd) in E. vm_compute in E. discriminate E.
Defined.

(** A resize does not look at the plan: an organization at its quota of 10 GB and
    2 CPUs can grow its database to 100 GB and 8 CPUs, and is only stopped by the node. *)
Theorem resize_exceeds_quota :
  let s := example_running in
  let t := (database_request 0 (Some "alice") acme (ResizeDatabase example_project example_id 8 512 100) s).1 in
  (get_active_plan acme t).2 = Ret example_plan /\
  pl_quotas example_plan !! "max_storage_gb" = Some 10 /\ pl_quotas example_plan !! "max_cpu_total" = Some 2 /\
  db_storage_limit_gb <$> live_databases acme s = [10] /\
  db_storage_limit_gb <$> live_databases acme t = [100] /\ db_cpu_limit <$> live_databases acme t = [8].
Proof. vm_compute. split_and!; reflexivity. Qed.
