(* ===== verification/Failover.v ===== *)
(** * High availability: [backend/app/services/ha_orchestrator.py],
    [api/v1/endpoints/clusters.py], [scheduler.py] (the failover controller) *)

From S2P Require Import Prelude PyStd Queue ControlPlane Placement Platform Orchestrator Access Databases.

(** ** Model *)

Section failover.
Context `{Env : Platform} `{Auth : Verifier}.

Definition get_member_replication_status (node : uuid * Node) : M Cp payload :=
  call_agent node "GET" "/v1/replication/status" ∅.

(** [status.get("role") == "standby"] *)
Definition is_standby (status : payload) : bool := bool_decide (status !! "role" = Some (JStr "standby")).
(** [status.get("lag_bytes")]: an integer, or null. *)
Definition lag_bytes (status : payload) : option Z :=
  match status !! "lag_bytes" with Some (JInt z) => Some z | _ => None end.
Definition opt_int (o : option Z) : jval := match o with Some z => JInt z | None => JNull end.

Definition add_member_row (m : ClusterMember) : M Cp uuid :=
  id ← gets uuid4;
  modify (fun s => s <| cluster_members ::= <[id := m]> |>);;
  mret id.

Definition add_replica (cluster : uuid) (node : uuid * Node) : M Cp uuid :=
  status ← get_member_replication_status node;
  require (is_standby status) ValueError;;
  member ← add_member_row (mkClusterMember cluster node.1 REPLICA (lag_bytes status) None);
  add_cluster_event (mkClusterEvent cluster "REPLICA_ATTACHED"
    (<["node_id" := JId node.1]> {["lag_bytes" := opt_int (lag_bytes status)]}));;
  mret member.

(** [POST /clusters/{id}/replicas] *)
Definition attach_replica (cluster node : uuid) : M Cp uuid :=
  o ← cp_get clusters cluster;
  some_or o (HTTPException 404);;
  o ← cp_get nodes node;
  n ← some_or o (HTTPException 404);
  try_except (add_replica cluster (node, n)) (fun e =>
    match e with
    | AgentUnreachableError => Some (raise (HTTPException 502))
    | ValueError => Some (raise (HTTPException 409))
    | _ => None
    end).

(** One turn of the loop over the replicas: [except AgentUnreachableError: continue]. *)
Definition probe (m : uuid * ClusterMember) : M Cp (option (uuid * (uuid * Node) * Z)) :=
  node ← obj nodes (cm_node_id m.2);
  try_except
    (status ← get_member_replication_status (cm_node_id m.2, node);
     mret (if is_standby status
           then Some (m.1, (cm_node_id m.2, node), match lag_bytes status with Some z => z | None => 0 end)
           else None))
    (fun e => if decide (e = AgentUnreachableError) then Some (mret None) else None).

Fixpoint probe_all (replicas : list (uuid * ClusterMember)) : M Cp (list (uuid * (uuid * Node) * Z)) :=
  match replicas with
  | [] => mret []
  | m :: replicas =>
      c ← probe m;
      candidates ← probe_all replicas;
      mret (match c with Some c => c :: candidates | None => candidates end)
  end.

Definition set_member (id : uuid) (f : ClusterMember -> ClusterMember) : M Cp unit :=
  modify (fun s => s <| cluster_members ::= alter f id |>).

(** One turn of the loop of [refresh_replica_lag]. *)
Definition refresh_lag (m : uuid * ClusterMember) : M Cp unit :=
  node ← obj nodes (cm_node_id m.2);
  try_except
    (status ← get_member_replication_status (cm_node_id m.2, node);
     if is_standby status then set_member m.1 (fun x => x <| cm_replication_lag_bytes := lag_bytes status |>)
     else mret tt)
    (fun e => if decide (e = AgentUnreachableError) then Some (mret tt) else None).
Definition refresh_replica_lag (cluster : uuid) : M Cp unit :=
  members ← gets (fun s => select (fun m => bool_decide (cm_cluster_id m = cluster) && bool_decide (cm_role m = REPLICA))
                             (cluster_members s));
  for_each members refresh_lag.

Definition runs_on (cluster : uuid) (d : Database) : bool :=
  bool_decide (db_cluster_id d = Some cluster) && bool_decide (db_status d = DB_RUNNING).
Definition repoint (cluster : uuid) (node : Node) (d : Database) : Database :=
  if runs_on cluster d then
    d <| db_connection_host := nd_ip_address node |> <| db_connection_port := Some (nd_postgres_port node) |>
  else d.

Record FailoverResult := mkFailoverResult {
  promoted_node_id : uuid;
  databases_repointed : Z;
}.

Definition execute_failover (now : timestamp) (cluster : uuid) (automatic : bool) : M Cp FailoverResult :=
  o ← cp_get clusters cluster;
  some_or o ValueError;;
  members ← gets (fun s => select (fun m => bool_decide (cm_cluster_id m = cluster)) (cluster_members s));
  let primary_member := head (filter (fun km => cm_role km.2 = PRIMARY) members) in
  let replica_members := filter (fun km => cm_role km.2 = REPLICA) members in
  require (negb (bool_decide (replica_members = []))) NoHealthyReplicaError;;
  candidates ← probe_all replica_members;
  best ← some_or (min_by snd candidates) NoHealthyReplicaError;
  let '(chosen_member, chosen_node, chosen_lag) := best in
  call_agent chosen_node "POST" "/v1/replication/promote" ∅;;
  set_member chosen_member (fun m => m <| cm_role := PRIMARY |> <| cm_promoted_at := Some now |>
                                       <| cm_replication_lag_bytes := None |>);;
  (match primary_member with
   | Some pm => modify (fun s => s <| cluster_members ::= delete pm.1 |>)
   | None => mret tt
   end);;
  dbs ← gets (fun s => select (runs_on cluster) (databases s));
  modify (fun s => s <| databases ::= fmap (repoint cluster chosen_node.2) |>);;
  add_cluster_event (mkClusterEvent cluster "FAILOVER_COMPLETED"
    (<["automatic" := JBool automatic]> (<["promoted_node_id" := JId chosen_node.1]>
      (<["promoted_member_id" := JId chosen_member]>
        (<["previous_primary_node_id" := match primary_member with
                                         | Some pm => JId (cm_node_id pm.2) | None => JNull end]>
          (<["chosen_lag_bytes" := JInt chosen_lag]> {["databases_repointed" := JIds dbs.*1]}))))));;
  mret (mkFailoverResult chosen_node.1 (Z.of_nat (length dbs))).

(** [POST /clusters/{id}/failover] *)
Definition trigger_failover (now : timestamp) (cluster : uuid) : M Cp FailoverResult :=
  o ← cp_get clusters cluster;
  some_or o (HTTPException 404);;
  try_except (execute_failover now cluster false)
    (fun e => if decide (e = NoHealthyReplicaError) then Some (raise (HTTPException 409)) else None).

(** Both endpoints are for the administrators of the platform. *)
Definition admin_request {A} (now : timestamp) (credentials : option string) (m : M Cp A) : M Cp A :=
  admin_user_request now credentials (fun _ => m).

(** One cluster of [check_and_failover_unhealthy_clusters]; the session commits after it. *)
Definition check_cluster (now : timestamp) (kc : uuid * Cluster) : M Cp bool :=
  members ← gets cluster_members;
  primary_member ← scalar_one_or_none (rows (is_primary_of (Some kc.1)) members);
  match primary_member with
  | None => mret false
  | Some pm =>
      primary_node ← cp_get nodes (cm_node_id pm);
      if match primary_node with Some n => is_eligible_for_placement now n | None => false end then mret false
      else
        try_except (execute_failover now kc.1 true;; mret true)
          (fun e => if decide (e = NoHealthyReplicaError) then Some (
             add_cluster_event (mkClusterEvent kc.1 "FAILOVER_FAILED" {["reason" := JStr "no healthy replica"]});;
             mret false) else None)
  end.

Fixpoint check_clusters (now : timestamp) (cs : list (uuid * Cluster)) : M Cp Z :=
  match cs with
  | [] => mret 0
  | c :: cs =>
      done ← transaction (check_cluster now c);
      failovers ← check_clusters now cs;
      mret (if done : bool then failovers + 1 else failovers)
  end.

Definition is_ha (c : Cluster) : bool :=
  bool_decide (cl_topology c = PRIMARY_REPLICA) && bool_decide (cl_status c = CL_ACTIVE).

Definition check_and_failover_unhealthy_clusters (now : timestamp) : M Cp Z :=
  cs ← gets (fun s => select is_ha (clusters s));
  check_clusters now cs.

(** ** Lemmas *)

Lemma probe_run m s t o :
  probe m s = (t, Ret o) ->
  (exists l, t = s <| agent_log := l |>) /\
  forall c, o = Some c -> exists node status log,
    nodes s !! cm_node_id m.2 = Some node /\ c = (m.1, (cm_node_id m.2, node),
      match lag_bytes status with Some z => z | None => 0 end) /\
    is_standby status = true /\
    agent log (mkAgentCall (cm_node_id m.2) "GET" "/v1/replication/status" ∅) = Ret status.
Proof.
  unfold probe. intros H. apply bind_Ret in H as (? & node & [-> Hn]%obj_run & H).
  unfold try_except in H.
  destruct ((status ← get_member_replication_status (cm_node_id m.2, node); _) s) as [u [x|e]] eqn:E.
  - injection H as <- <-. apply bind_Ret in E as (v & status & Hc & [-> ->]%mret_Ret).
    apply call_agent_run in Hc as (ip & _ & -> & Hr). split; [by eexists|].
    intros c Hc. destruct (is_standby status) eqn:Es; [|done]. injection Hc as <-.
    exists node, status, (agent_log s). done.
  - case_decide; [|discriminate H]. injection H as <- <-. split; [|done].
    apply bind_Exc in E as [E|(v & status & _ & E)]; [|done].
    apply call_agent_raises in E as [_ [->| ->]]; [exists (agent_log s); by destruct s|by eexists].
Qed.

Lemma probe_all_run replicas s t candidates :
  probe_all replicas s = (t, Ret candidates) ->
  (exists l, t = s <| agent_log := l |>) /\
  forall id node lag, (id, node, lag) ∈ candidates -> exists m, (id, m) ∈ replicas /\
    nodes s !! node.1 = Some node.2 /\ cm_node_id m = node.1 /\
    exists status log, is_standby status = true /\
      agent log (mkAgentCall node.1 "GET" "/v1/replication/status" ∅) = Ret status /\
      lag = match lag_bytes status with Some z => z | None => 0 end.
Proof.
  revert s t candidates. induction replicas as [|m replicas IH]; intros s t candidates; simpl.
  - intros [-> ->]%mret_Ret. split; [exists (agent_log s); by destruct s|].
    intros id node lag H. by apply elem_of_nil in H.
  - intros H. apply bind_Ret in H as (u & c & [[l1 ->] Hc]%probe_run & H).
    apply bind_Ret in H as (v & rest & [[l2 ->] Hrest]%IH & [-> ->]%mret_Ret).
    split; [by eexists|]. intros id node lag Hin.
    assert ((c = Some (id, node, lag)) \/ (id, node, lag) ∈ rest) as [->|Hr].
    { destruct c as [c|]; [|by right]. apply elem_of_cons in Hin as [->|]; [by left|by right]. }
    + destruct (Hc _ eq_refl) as (n & status & log & Hn & [= -> -> ->] & Hst & Hag).
      exists m.2. rewrite <- surjective_pairing. split; [left|]. split; [done|]. split; [done|].
      exists status, log. done.
    + destruct (Hrest _ _ _ Hr) as (m' & Hm' & Hn & H'). exists m'. split; [by right|]. done.
Qed.

(** A promotion, and what it leaves. *)
Definition promoted (now : timestamp) (m : ClusterMember) : ClusterMember :=
  m <| cm_role := PRIMARY |> <| cm_promoted_at := Some now |> <| cm_replication_lag_bytes := None |>.

Definition replicas_of (cluster : uuid) (s : Cp) : list (uuid * ClusterMember) :=
  filter (fun km => cm_role km.2 = REPLICA)
    (select (fun m => bool_decide (cm_cluster_id m = cluster)) (cluster_members s)).
Definition old_primary (cluster : uuid) (s : Cp) : option (uuid * ClusterMember) :=
  head (filter (fun km => cm_role km.2 = PRIMARY)
    (select (fun m => bool_decide (cm_cluster_id m = cluster)) (cluster_members s))).

Record failed_over (now : timestamp) (cluster : uuid) (s t : Cp) (chosen node : uuid) (n : Node) : Prop := {
  fo_candidates : exists u candidates lag,
    probe_all (replicas_of cluster s) s = (u, Ret candidates) /\ (chosen, (node, n), lag) ∈ candidates /\
    forall c, c ∈ candidates -> lag <= c.2;
  fo_members : cluster_members t =
    let ms := alter (promoted now) chosen (cluster_members s) in
    match old_primary cluster s with Some pm => delete pm.1 ms | None => ms end;
  fo_databases : databases t = repoint cluster n <$> databases s;
  fo_nodes : nodes t = nodes s;
  fo_clusters : clusters t = clusters s;
  fo_jobs : cp_jobs t = cp_jobs s;
}.

Lemma execute_failover_run now cluster automatic s t r :
  execute_failover now cluster automatic s = (t, Ret r) ->
  exists chosen n, failed_over now cluster s t chosen (promoted_node_id r) n.
Proof.
  unfold execute_failover. intros H.
  apply bind_Ret in H as (? & o & [-> ->]%cp_get_run & H).
  apply bind_Ret in H as (? & cl & [_ ->]%some_or_Ret & H).
  apply bind_Ret in H as (? & ? & [-> ->]%gets_Ret & H). cbv zeta in H.
  apply bind_Ret in H as (? & ? & [_ ->]%require_Ret & H).
  apply bind_Ret in H as (u & candidates & Hc & H).
  destruct (probe_all_run _ _ _ _ Hc) as [[l El] _].
  apply bind_Ret in H as (? & [[chosen [node n]] lag] & [Hmin ->]%some_or_Ret & H).
  apply bind_Ret in H as (v & ? & (ip & _ & -> & _)%call_agent_run & H).
  apply bind_Ret in H as (? & ? & ->%modify_Ret & H).
  apply bind_Ret in H as (w & ? & Hw & H).
  apply bind_Ret in H as (? & dbs & [-> _]%gets_Ret & H).
  apply bind_Ret in H as (? & ? & ->%modify_Ret & H).
  apply bind_Ret in H as (? & ? & ->%modify_Ret & [-> ->]%mret_Ret).
  apply min_by_Some in Hmin as [Hin Hmin]. exists chosen, n. simpl.
  fold (old_primary cluster s) in Hw.
  split.
  - exists u, candidates, lag. split; [exact Hc|]. split; [exact Hin|]. intros c Hc'. apply (Hmin c Hc').
  - simpl. destruct (old_primary cluster s) as [pm|]; [apply modify_Ret in Hw as ->|apply mret_Ret in Hw as [-> _]];
      simpl; by rewrite El.
  - destruct (old_primary cluster s) as [pm|]; [apply modify_Ret in Hw as ->|apply mret_Ret in Hw as [-> _]];
      simpl; by rewrite El.
  - destruct (old_primary cluster s) as [pm|]; [apply modify_Ret in Hw as ->|apply mret_Ret in Hw as [-> _]];
      simpl; by rewrite El.
  - destruct (old_primary cluster s) as [pm|]; [apply modify_Ret in Hw as ->|apply mret_Ret in Hw as [-> _]];
      simpl; by rewrite El.
  - destruct (old_primary cluster s) as [pm|]; [apply modify_Ret in Hw as ->|apply mret_Ret in Hw as [-> _]];
      simpl; by rewrite El.
Qed.

(** The promoted row is a replica of the cluster on the promoted node. *)
Lemma failed_over_chosen now cluster s t chosen node n :
  failed_over now cluster s t chosen node n ->
  exists m, cluster_members s !! chosen = Some m /\ cm_cluster_id m = cluster /\ cm_role m = REPLICA /\
    cm_node_id m = node /\ nodes s !! node = Some n.
Proof.
  intros [(u & candidates & lag & Hc & Hin & _) _ _ _ _ _].
  destruct (probe_all_run _ _ _ _ Hc) as [_ Hall].
  destruct (Hall _ _ _ Hin) as (m & Hm & Hn & Hnode & _). exists m.
  unfold replicas_of in Hm. apply list_elem_of_filter in Hm as [Hr Hm].
  apply elem_of_select in Hm as [Hm Hcl%bool_decide_eq_true]. done.
Qed.

Lemma old_primary_spec cluster s km :
  select (is_primary_of (Some cluster)) (cluster_members s) = [km] -> old_primary cluster s = Some km.
Proof.
  intros Hs. unfold old_primary.
  destruct (filter _ (select _ _)) as [|pm rest] eqn:E.
  - exfalso. apply elem_of_singleton_select in Hs as [Hk Hp]. unfold is_primary_of in Hp.
    apply andb_true_iff in Hp as [Hc%bool_decide_eq_true Hr%bool_decide_eq_true]. injection Hc as Hc.
    assert (km ∈ filter (fun km : uuid * ClusterMember => cm_role km.2 = PRIMARY)
      (select (fun m => bool_decide (cm_cluster_id m = cluster)) (cluster_members s))) as Hin.
    { apply list_elem_of_filter. split; [done|]. destruct km. apply elem_of_select. split; [done|].
      by apply bool_decide_eq_true_2. }
    rewrite E in Hin. by apply elem_of_nil in Hin.
  - assert (pm ∈ filter (fun km : uuid * ClusterMember => cm_role km.2 = PRIMARY)
      (select (fun m => bool_decide (cm_cluster_id m = cluster)) (cluster_members s))) as Hin
      by (rewrite E; left).
    apply list_elem_of_filter in Hin as [Hr Hin]. destruct pm as [k m].
    apply elem_of_select in Hin as [Hk Hc%bool_decide_eq_true]. simpl in *.
    assert ((k, m) ∈ select (is_primary_of (Some cluster)) (cluster_members s)) as Hin.
    { apply elem_of_select. split; [done|]. unfold is_primary_of. rewrite !bool_decide_eq_true_2 by congruence. done. }
    rewrite Hs in Hin. apply list_elem_of_singleton in Hin. by rewrite Hin.
Qed.

(** In a well-formed fleet the promoted replica is the only primary left. *)
Lemma failed_over_primary now cluster s t chosen node n :
  fleet_ok s -> is_Some (clusters s !! cluster) -> failed_over now cluster s t chosen node n ->
  exists m, cluster_members s !! chosen = Some m /\ cm_cluster_id m = cluster /\ cm_node_id m = node /\
    select (is_primary_of (Some cluster)) (cluster_members t) = [(chosen, promoted now m)].
Proof.
  intros Hok Hcl Hf. destruct (failed_over_chosen _ _ _ _ _ _ _ Hf) as (m & Hm & Hmc & Hmr & Hmn & _).
  exists m. split; [done|]. split; [done|]. split; [done|].
  destruct (fl_primary _ _ _ _ Hok cluster Hcl) as [km Hkm]. pose proof (elem_of_singleton_select _ _ _ Hkm) as [Hk Hp].
  unfold is_primary_of in Hp. apply andb_true_iff in Hp as [Hc%bool_decide_eq_true Hr%bool_decide_eq_true].
  rewrite (fo_members _ _ _ _ _ _ _ Hf). cbv zeta. rewrite (old_primary_spec _ _ _ Hkm).
  assert (km.1 <> chosen) as Hne by (intros E; rewrite <- E, Hk in Hm; injection Hm as Hm; congruence).
  apply select_singleton.
  - rewrite lookup_delete_ne by done. by rewrite lookup_alter_eq, Hm.
  - unfold is_primary_of. rewrite !bool_decide_eq_true_2; [done|done|]. simpl. by rewrite Hmc.
  - intros k' m' [Hk1 Hm']%lookup_delete_Some Hp'. destruct (decide (k' = chosen)) as [->|Hk2]; [done|].
    rewrite lookup_alter_ne in Hm' by done.
    assert ((k', m') ∈ select (is_primary_of (Some cluster)) (cluster_members s)) as Hin by (by apply elem_of_select).
    rewrite Hkm in Hin. apply list_elem_of_singleton in Hin. subst km. done.
Qed.

Lemma fleet_databases_fmap ns cs ms ds f :
  fleet ns cs ms ds -> (forall d, db_cluster_id (f d) = db_cluster_id d /\ db_status (f d) = db_status d) ->
  fleet ns cs ms (f <$> ds).
Proof.
  intros [H1 H2 H3 H4] Hf. split; [done|done| |]; intros i d.
  - intros c (d0 & <- & Hd)%lookup_fmap_Some. rewrite (proj1 (Hf d0)). by eapply H3.
  - intros (d0 & <- & Hd)%lookup_fmap_Some. rewrite (proj1 (Hf d0)), (proj2 (Hf d0)). by eapply H4.
Qed.

Lemma repoint_keeps cluster n d :
  db_cluster_id (repoint cluster n d) = db_cluster_id d /\ db_status (repoint cluster n d) = db_status d.
Proof. unfold repoint. by destruct (runs_on cluster d). Qed.

Lemma failed_over_fleet now cluster s t chosen node n :
  fleet_ok s -> is_Some (clusters s !! cluster) -> failed_over now cluster s t chosen node n -> fleet_ok t.
Proof.
  intros Hok Hcl Hf.
  destruct (failed_over_primary _ _ _ _ _ _ _ Hok Hcl Hf) as (m & Hm & Hmc & _ & Hprim).
  destruct (fl_primary _ _ _ _ Hok cluster Hcl) as [km Hkm].
  pose proof (elem_of_singleton_select _ _ _ Hkm) as [Hk Hp]. unfold is_primary_of in Hp.
  apply andb_true_iff in Hp as [Hc%bool_decide_eq_true _]. injection Hc as Hc.
  pose proof (fo_members _ _ _ _ _ _ _ Hf) as Hms. cbv zeta in Hms. rewrite (old_primary_spec _ _ _ Hkm) in Hms.
  assert (forall k x, cluster_members t !! k = Some x -> exists y, cluster_members s !! k = Some y /\
    cm_cluster_id x = cm_cluster_id y /\ cm_node_id x = cm_node_id y) as Hold.
  { intros k x. rewrite Hms. intros [_ Hx]%lookup_delete_Some. destruct (decide (k = chosen)) as [->|Hne].
    - rewrite lookup_alter_eq, Hm in Hx. injection Hx as <-. by exists m.
    - rewrite lookup_alter_ne in Hx by done. by exists x. }
  unfold fleet_ok. rewrite (fo_nodes _ _ _ _ _ _ _ Hf), (fo_clusters _ _ _ _ _ _ _ Hf), (fo_databases _ _ _ _ _ _ _ Hf).
  apply fleet_databases_fmap; [|apply repoint_keeps]. destruct Hok as [H1 H2 H3 H4]. split; [| |done|done].
  - intros k x Hx. destruct (Hold _ _ Hx) as (y & Hy & -> & ->). by eapply H1.
  - intros c Hcs. destruct (decide (c = cluster)) as [->|Hne]; [by eexists|].
    destruct (H2 c Hcs) as [kp Hkp]. exists kp. pose proof (elem_of_singleton_select _ _ _ Hkp) as [Hkp1 Hkp2].
    pose proof Hkp2 as Hkp3. unfold is_primary_of in Hkp3.
    apply andb_true_iff in Hkp3 as [Hkc%bool_decide_eq_true _]. injection Hkc as Hkc.
    rewrite (surjective_pairing kp). apply select_singleton; [|done|].
    + rewrite Hms, lookup_delete_ne, lookup_alter_ne; [done| |]; congruence.
    + intros k' m' Hm' Hp'. rewrite Hms in Hm'. apply lookup_delete_Some in Hm' as [_ Hm'].
      destruct (decide (k' = chosen)) as [->|Hk']; [exfalso|rewrite lookup_alter_ne in Hm' by done].
      * rewrite lookup_alter_eq, Hm in Hm'. injection Hm' as <-. unfold is_primary_of in Hp'.
        apply andb_true_iff in Hp' as [Hx%bool_decide_eq_true _]. injection Hx as Hx. simpl in Hx. congruence.
      * assert ((k', m') ∈ select (is_primary_of (Some c)) (cluster_members s)) as Hin by (by apply elem_of_select).
        rewrite Hkp in Hin. apply list_elem_of_singleton in Hin. by subst kp.
Qed.

Lemma fleet_execute_failover now cluster automatic : keeps fleet_ok (execute_failover now cluster automatic).
Proof.
  intros s t r H Hs. pose proof H as H0. unfold execute_failover in H0.
  apply bind_Ret in H0 as (? & o & [-> ->]%cp_get_run & H0).
  apply bind_Ret in H0 as (? & cl & [Hcl ->]%some_or_Ret & _).
  apply execute_failover_run in H as (chosen & n & Hf). eapply failed_over_fleet; [done| |done]. by eexists.
Qed.

(** A failover that raises has written nothing. *)
Lemma execute_failover_exc now cluster automatic s t e :
  execute_failover now cluster automatic s = (t, Exc e) -> exists l, t = s <| agent_log := l |>.
Proof.
  assert (forall u, (exists l, u = s <| agent_log := l |>) -> exists l, u = s <| agent_log := l |>) as Hid by done.
  assert (exists l, s = s <| agent_log := l |>) as H0 by (exists (agent_log s); by destruct s).
  set (I := fun u => exists l, u = s <| agent_log := l |>) in *.
  assert (forall r, pres I (probe_all r)) as Hprobe.
  { assert (forall s' u, I s' -> forall l, u = s' <| agent_log := l |> -> I u) as Hlog
      by (intros s' u [l' ->] l ->; by eexists).
    induction r as [|m r IH]; simpl; [apply pres_ret|]. apply pres_bind; [|intros c; by apply pres_bind; [|auto with pres]].
    unfold probe. apply pres_bind; [auto with pres|]. intros node. apply pres_try.
    - apply pres_bind; [|auto with pres]. apply pres_call_agent. intros u l Hu. by eapply Hlog.
    - intros e' k. case_decide; intros [= <-]. apply pres_ret. }
  unfold execute_failover. intros H.
  apply bind_Exc in H as [H|(u & o & [-> ->]%cp_get_run & H)]; [discriminate H|].
  apply bind_Exc in H as [H|(u & cl & [Hcl ->]%some_or_Ret & H)].
  { destruct (clusters s !! cluster); [discriminate H|]. injection H as <- _. exact H0. }
  apply bind_Exc in H as [H|(u & ? & [-> ->]%gets_Ret & H)]; [discriminate H|]. cbv zeta in H.
  apply bind_Exc in H as [(_ & -> & _)%require_Exc|(u & ? & [_ ->]%require_Ret & H)]; [exact H0|].
  apply bind_Exc in H as [H|(u & candidates & Hc & H)].
  { pose proof (Hprobe (replicas_of cluster s) s H0) as Hp. unfold replicas_of in Hp. rewrite H in Hp. exact Hp. }
  pose proof (Hprobe (replicas_of cluster s) s H0) as Hu. unfold replicas_of in Hu. rewrite Hc in Hu. simpl in Hu.
  apply bind_Exc in H as [H|(v & [[chosen node] lag] & [Hmin ->]%some_or_Ret & H)].
  { destruct (min_by snd candidates); [discriminate H|]. by injection H as <- _. }
  apply bind_Exc in H as [H|(v & ? & Hca & H)].
  { apply call_agent_raises in H as [_ [->| ->]]; [exact Hu|]. destruct Hu as [l ->]. by eexists. }
  apply bind_Exc in H as [H|(w & ? & _ & H)]; [discriminate H|].
  apply bind_Exc in H as [H|(w' & ? & _ & H)]; [destruct (head _); discriminate H|].
  apply bind_Exc in H as [H|(w2 & ? & _ & H)]; [discriminate H|].
  apply bind_Exc in H as [H|(w3 & ? & _ & H)]; [discriminate H|].
  apply bind_Exc in H as [H|(w4 & ? & _ & H)]; discriminate H.
Qed.

Lemma fleet_attach_replica cluster node : keeps fleet_ok (attach_replica cluster node).
Proof.
  intros s t r H Hs. unfold attach_replica in H.
  apply bind_Ret in H as (? & o & [-> ->]%cp_get_run & H).
  apply bind_Ret in H as (? & cl & [Hcl ->]%some_or_Ret & H).
  apply bind_Ret in H as (? & o & [-> ->]%cp_get_run & H).
  apply bind_Ret in H as (? & n & [Hn ->]%some_or_Ret & H). unfold try_except in H.
  destruct (add_replica cluster (node, n) s) as [u [x|e]] eqn:E; [|destruct e; discriminate H].
  injection H as <- <-. unfold add_replica, add_member_row in E.
  apply bind_Ret in E as (v & status & (ip & _ & -> & _)%call_agent_run & E).
  apply bind_Ret in E as (? & ? & [_ ->]%require_Ret & E).
  apply bind_Ret in E as (w & member & Hm & E).
  apply bind_Ret in Hm as (? & ? & [-> ->]%gets_Ret & Hm).
  apply bind_Ret in Hm as (? & ? & ->%modify_Ret & [-> ->]%mret_Ret).
  apply bind_Ret in E as (? & ? & ->%modify_Ret & [-> ->]%mret_Ret).
  match goal with |- context [uuid4 ?u] => pose proof (uuid4_not_used u) as Hu end.
  destruct Hu as (_ & Hk & _). destruct Hs as [H1 H2 H3 H4]. split; [| |done|done]; simpl.
  - intros k m [[_ <-]|[_ Hm]]%lookup_insert_Some; [|by eapply H1]. simpl. split; by eexists.
  - intros c Hc. destruct (H2 c Hc) as [km Hkm]. exists km. apply select_insert_fresh; [exact Hk| |exact Hkm].
    unfold is_primary_of. apply andb_false_r.
Qed.

(** Refreshing the lag of the replicas leaves the fleet as it is. *)
Lemma fleet_set_lag id lag : pres fleet_ok (set_member id (fun x => x <| cm_replication_lag_bytes := lag |>)).
Proof.
  apply pres_modify. intros s [H1 H2 H3 H4]. set (f := fun x => x <| cm_replication_lag_bytes := lag |>).
  assert (forall k m, alter f id (cluster_members s) !! k = Some m ->
    exists m0, cluster_members s !! k = Some m0 /\ cm_cluster_id m = cm_cluster_id m0 /\ cm_node_id m = cm_node_id m0 /\
      forall c, is_primary_of c m = is_primary_of c m0) as Hf.
  { intros k m [(-> & m0 & Hm & ->)|[_ Hm]]%lookup_alter_Some; [by exists m0|by exists m]. }
  split; [| |done|done]; simpl.
  - intros k m (m0 & Hm & -> & -> & _)%Hf. by eapply H1.
  - intros c Hc. destruct (H2 c Hc) as [[k m] Hkm]. pose proof (elem_of_singleton_select _ _ _ Hkm) as [Hk Hp]. cbn [fst snd] in Hk, Hp.
    destruct (decide (k = id)) as [->|Hne]; [exists (id, f m); by apply select_alter_one|].
    exists (k, m). apply select_singleton; [by rewrite lookup_alter_ne|done|].
    intros k' m' (m0 & Hm & _ & _ & E)%Hf Hp'. rewrite E in Hp'.
    assert ((k', m0) ∈ select (is_primary_of (Some c)) (cluster_members s)) as Hin by (by apply elem_of_select).
    rewrite Hkm in Hin. apply list_elem_of_singleton in Hin. by simplify_eq.
Qed.
Lemma fleet_refresh_replica_lag cluster : pres fleet_ok (refresh_replica_lag cluster).
Proof.
  unfold refresh_replica_lag. apply pres_bind; [auto with pres|]. intros ms. apply pres_for. intros m _. unfold refresh_lag.
  apply pres_bind; [auto with pres|]. intros node. apply pres_try.
  - apply pres_bind; [apply fleet_call_agent|]. intros status. destruct (is_standby status); [apply fleet_set_lag|apply pres_ret].
  - intros e k. case_decide; intros [= <-]. apply pres_ret.
Qed.

Lemma fleet_trigger_failover now cluster : keeps fleet_ok (trigger_failover now cluster).
Proof.
  intros s t r H Hs. unfold trigger_failover in H.
  apply bind_Ret in H as (? & o & [-> ->]%cp_get_run & H).
  apply bind_Ret in H as (? & cl & [Hcl ->]%some_or_Ret & H). unfold try_except in H.
  destruct (execute_failover now cluster false s) as [u [x|e]] eqn:E; [|case_decide; discriminate H].
  injection H as <- <-. by eapply fleet_execute_failover.
Qed.

Lemma pres_admin_request {A} (I : Cp -> Prop) now credentials (m : M Cp A) :
  (forall s l, I s -> I (s <| agent_log := l |>)) -> (forall s l, I s -> I (s <| api_keys := l |>)) ->
  keeps I m -> pres I (admin_request now credentials m).
Proof.
  intros Hl Hk Hm. unfold admin_request, admin_user_request. apply pres_bind; [by apply pres_get_current_user|]. intros user.
  apply pres_transaction; [done|]. apply keeps_bind; [|done].
  apply pres_keeps. unfold require_platform_admin. pres_go.
Qed.

Lemma fleet_check_cluster now kc : keeps fleet_ok (check_cluster now kc).
Proof.
  intros s t r H Hs. unfold check_cluster in H.
  apply bind_Ret in H as (? & ? & [-> ->]%gets_Ret & H).
  apply bind_Ret in H as (? & pm & [-> _]%scalar_one_or_none_Ret & H).
  destruct pm as [pm|]; [|by apply mret_Ret in H as [-> _]].
  apply bind_Ret in H as (? & pn & [-> ->]%cp_get_run & H).
  destruct (match nodes s !! cm_node_id pm with Some n => _ | None => _ end); [by apply mret_Ret in H as [-> _]|].
  unfold try_except in H.
  destruct ((execute_failover now kc.1 true;; mret true) s) as [u [x|e]] eqn:E.
  - injection H as <- <-. apply bind_Ret in E as (v & y & E & [-> _]%mret_Ret). by eapply fleet_execute_failover.
  - case_decide; [|discriminate H].
    apply bind_Exc in E as [E|(v & y & _ & E)]; [|discriminate E].
    apply execute_failover_exc in E as [l ->].
    by apply bind_Ret in H as (? & ? & ->%modify_Ret & [-> _]%mret_Ret).
Qed.

Lemma fleet_check_clusters now cs : pres fleet_ok (check_clusters now cs).
Proof.
  induction cs as [|c cs IH]; simpl; [apply pres_ret|].
  apply pres_bind; [apply pres_transaction; [done|apply fleet_check_cluster]|]. intros b.
  apply pres_bind; [done|auto with pres].
Qed.

(** *** No cluster is ever declared highly available *)

Definition no_ha (s : Cp) : Prop := forall c cl, clusters s !! c = Some cl -> cl_topology cl = SINGLE.

Lemma no_ha_insert s c region b st :
  no_ha s -> no_ha (s <| clusters ::= <[c := mkCluster region SINGLE b st]> |>).
Proof. intros Hs k cl H. simpl in H. apply lookup_insert_Some in H as [[_ <-]|[_ Hk]]; [done|by eapply Hs]. Qed.

Lemma no_ha_get_or_create node region iso : pres no_ha (get_or_create_cluster_on_node node region iso).
Proof.
  unfold get_or_create_cluster_on_node. pres_go. intros s Hs. rewrite new_cluster_run. cbv zeta. simpl.
  apply (no_ha_insert s); exact Hs.
Qed.

Lemma no_ha_clusters s t : clusters t = clusters s -> no_ha s -> no_ha t.
Proof. intros E Hs c cl. rewrite E. apply Hs. Qed.

Lemma no_ha_nothing_to_do now s :
  no_ha s -> check_and_failover_unhealthy_clusters now s = (s, Ret 0).
Proof.
  intros Hs. unfold check_and_failover_unhealthy_clusters, mbind, M_bind, gets.
  rewrite (proj2 (select_nil_iff is_ha (clusters s))); [done|].
  intros c cl Hc. unfold is_ha. by rewrite (Hs _ _ Hc).
Qed.

(** ** Properties *)

End failover.

(** ** An example: cluster 50, its primary on node 9, its replicas on nodes 7 and 8 *)

Definition example_ha : Cp :=
  empty_cp <| nodes := <[7%positive := example_node "10.0.0.7"]> (<[8%positive := example_node "10.0.0.8"]>
      {[9%positive := example_node "10.0.0.9"]}) |>
    <| clusters := {[50%positive := mkCluster 1 PRIMARY_REPLICA true CL_ACTIVE]} |>
    <| cluster_members := <[51%positive := mkClusterMember 50 9 PRIMARY None None]>
        (<[52%positive := mkClusterMember 50 8 REPLICA None None]>
          {[53%positive := mkClusterMember 50 7 REPLICA None None]}) |>
    <| databases := {[30%positive := example_database <| db_status := DB_RUNNING |>
        <| db_cluster_id := Some 50%positive |> <| db_connection_host := Some "10.0.0.9" |>]} |>.

Lemma example_ha_fleet : fleet_ok example_ha.
Proof.
  split; simpl.
  - intros k m [[_ <-]|[_ [[_ <-]|[_ [_ <-]%lookup_singleton_Some]]%lookup_insert_Some]]%lookup_insert_Some;
      split; vm_compute; by eexists.
  - intros c [cl [<- _]%lookup_singleton_Some]. eexists. vm_compute. reflexivity.
  - intros id d c [_ <-]%lookup_singleton_Some [= <-]. vm_compute. by eexists.
  - intros id d [_ <-]%lookup_singleton_Some _. vm_compute. by eexists.
Qed.

