(* ===== verification/Backups.v ===== *)
(** * Backups: [backend/app/services/backup_orchestrator.py],
    [api/v1/endpoints/database_backups.py], [scheduler.py] (backups, verification,
    retention) *)

From S2P Require Import Prelude PyStd Queue ControlPlane Placement Platform Orchestrator Access Organizations.
From S2P Require Import Databases Failover.

(** ** Model *)

Definition REVERIFY_INTERVAL_DAYS : Z := 7.

Definition backup_storage_key (database backup : uuid) : string :=
  "backups/" +:+ str_uuid database +:+ "/" +:+ str_uuid backup +:+ ".dump.enc".

(** [status in (COMPLETED, VERIFIED)] *)
Definition restorable (st : BackupStatus) : bool := bool_decide (st = BK_COMPLETED) || bool_decide (st = BK_VERIFIED).

Definition backup_status_value (st : BackupStatus) : string :=
  match st with
  | BK_PENDING => "pending" | BK_COMPLETED => "completed" | BK_FAILED => "failed" | BK_VERIFIED => "verified"
  | BK_VERIFICATION_FAILED => "verification_failed" | BK_PURGED => "purged"
  end.

(** [body["verified"]] as a condition. *)
Definition truthy (v : jval) : bool :=
  match v with
  | JNull => false | JBool b => b | JInt z => negb (z =? 0) | JStr s => negb (bool_decide (s = ""))
  | JIds us => negb (bool_decide (us = [])) | JId _ | JTime _ => true
  end.
Definition jstr (v : jval) : option string := match v with JStr s => Some s | _ => None end.
Definition jint (v : jval) : option Z := match v with JInt z => Some z | _ => None end.

Section backups.
Context `{Env : Platform} `{Auth : Verifier}.

Definition execute_backup_database (now : timestamp) (job : uuid) : M Cp (option payload) :=
  j ← job_object job;
  x ← get_object_or_raise backups job "backup_id";
  let '(id, b) := x in
  if restorable (bk_status b) then mret (Some {["already_completed" := JBool true]})
  else
    o ← cp_get databases (bk_database_id b);
    d ← some_or o RuntimeError;
    require (bool_decide (is_Some (db_cluster_id d))) RuntimeError;;
    node ← get_primary_node (db_cluster_id d);
    set_backup id (fun b => b <| bk_started_at := Some now |>);;
    body ← call_agent node "POST" (database_path d "/backup") {["storage_key" := JStr (bk_storage_key b)]};
    size ← item body "size_bytes";
    set_backup id (fun b => b <| bk_status := BK_COMPLETED |> <| bk_size_bytes := jint size |>
                              <| bk_completed_at := Some now |>);;
    emit_event now (jb_organization_id j) "backup.completed" {["backup_id" := JId id]};;
    mret (Some {["size_bytes" := size]}).

Definition execute_restore_database (now : timestamp) (job : uuid) : M Cp (option payload) :=
  j ← job_object job;
  x ← get_object_or_raise databases job "database_id";
  let '(id, d) := x in
  if bool_decide (db_status d = DB_RUNNING) && bool_decide (is_Some (db_cluster_id d)) then
    mret (Some {["already_running" := JBool true]})
  else
    y ← get_object_or_raise backups job "backup_id";
    let '(bid, b) := y in
    require (restorable (bk_status b)) RuntimeError;;
    o ← cp_get regions (db_region_id d);
    region ← some_or o RuntimeError;
    decision ← select_node_and_cluster now (rg_code region) (db_isolation_level d)
                 (db_cpu_limit d) (db_ram_limit_mb d) (db_storage_limit_gb d);
    cluster ← match existing_cluster decision with
              | Some c => mret c
              | None => new_cluster (decision_node decision) (db_region_id d) (db_isolation_level d)
              end;
    set_database id (fun d => d <| db_cluster_id := Some cluster |>);;
    let role_name := role_name_of (db_physical_name d) in
    password ← gets token_urlsafe;
    node ← obj nodes (decision_node decision);
    call_agent (decision_node decision, node) "POST" (database_path d "/restore")
      (<["storage_key" := JStr (bk_storage_key b)]> (<["role_name" := JStr role_name]>
        {["password" := JStr password]}));;
    add_credential (mkDatabaseCredential id role_name None true (encrypt_secret password) SCOPE_APP None);;
    set_database id (route_to node);;
    add_database_event (mkDatabaseEvent id (Some job) "DATABASE_RESTORED"
      (<["backup_id" := JId bid]> {["node_id" := JId (decision_node decision)]}));;
    emit_event now (jb_organization_id j) "restore.completed"
      (<["database_id" := JId id]> {["backup_id" := JId bid]});;
    mret (Some (<["node_id" := JId (decision_node decision)]> {["cluster_id" := JId cluster]})).

Definition execute_verify_backup (now : timestamp) (job : uuid) : M Cp (option payload) :=
  x ← get_object_or_raise backups job "backup_id";
  let '(id, b) := x in
  if negb (restorable (bk_status b)) then mret (Some (<["skipped" := JBool true]>
    {["reason" := JStr ("backup status is " +:+ backup_status_value (bk_status b))]}))
  else
    o ← cp_get databases (bk_database_id b);
    d ← some_or o RuntimeError;
    require (bool_decide (is_Some (db_cluster_id d))) RuntimeError;;
    node ← get_primary_node (db_cluster_id d);
    body ← call_agent node "POST" "/v1/verify-backup" {["storage_key" := JStr (bk_storage_key b)]};
    set_backup id (fun b => b <| bk_verified_at := Some now |>);;
    detail ← item body "detail";
    set_backup id (fun b => b <| bk_verification_detail := jstr detail |>);;
    verified ← item body "verified";
    set_backup id (fun b => b <| bk_status := if truthy verified then BK_VERIFIED else BK_VERIFICATION_FAILED |>);;
    mret (Some body).

Definition BACKUP_HANDLERS (now : timestamp) (ty : string) : option (uuid -> M Cp (option payload)) :=
  if decide (ty = "backup_database") then Some (execute_backup_database now)
  else if decide (ty = "restore_database") then Some (execute_restore_database now)
  else if decide (ty = "verify_backup") then Some (execute_verify_backup now)
  else None.

(** *** Endpoints *)

Definition add_backup (now : timestamp) (database : uuid) (ty : BackupType) : M Cp uuid :=
  id ← gets uuid4;
  modify (fun s => s <| backups ::= <[id := mkBackup database ty BK_PENDING (backup_storage_key database id)
                           None None None None None None now]> |>);;
  mret id.

Definition create_backup (now : timestamp) (organization project database : uuid) (current_user : uuid * User)
    (membership : Membership) : M Cp (uuid * uuid) :=
  require_active_subscription organization;;
  require_permission (ms_role membership) "database:backups:manage";;
  get_project_or_404 organization project;;
  d ← get_database_or_404 project database;
  require (bool_decide (db_status d = DB_RUNNING)) (HTTPException 409);;
  backup ← add_backup now database MANUAL;
  job ← enqueue now "backup_database" {["backup_id" := JId backup]} None (Some organization)
          (Some "backup") (Some backup);
  record_audit "BACKUP_REQUESTED" "backup" (Some backup) (Some organization) (Some current_user.1) None
    (Some (<["database_id" := JId database]> {["type" := JStr "manual"]}));;
  mret (backup, job).

(** [suffix] is the UUID of the physical identifiers. *)
Definition restore_backup (now : timestamp) (suffix organization project database backup : uuid) (name : string)
    (current_user : uuid * User) (membership : Membership) : M Cp (uuid * uuid) :=
  require_active_subscription organization;;
  require_permission (ms_role membership) "database:backups:manage";;
  get_project_or_404 organization project;;
  source ← get_database_or_404 project database;
  o ← cp_get backups backup;
  b ← some_or o (HTTPException 404);
  require (bool_decide (bk_database_id b = database)) (HTTPException 404);;
  require (restorable (bk_status b)) (HTTPException 409);;
  table ← gets databases;
  existing_name ← scalar_one_or_none (select (fun d => bool_decide (db_project_id d = project)
                                                 && bool_decide (db_name d = name)) table);
  require (bool_decide (existing_name = None)) (HTTPException 409);;
  let physical_name := (generate_physical_identifiers suffix).1 in
  target ← add_database (mkDatabase project (db_region_id source) None name physical_name
             (db_isolation_level source) DB_RESTORING (db_cpu_limit source) (db_ram_limit_mb source)
             (db_storage_limit_gb source) None None (mkBackupPolicy false None None) None);
  job ← enqueue now "restore_database" (<["database_id" := JId target]> {["backup_id" := JId backup]})
          (Some ("restore_database:" +:+ str_uuid target)) (Some organization) (Some "database") (Some target);
  record_audit "BACKUP_RESTORE_REQUESTED" "database" (Some target) (Some organization) (Some current_user.1) None
    (Some (<["source_database_id" := JId database]> {["backup_id" := JId backup]}));;
  mret (target, job).

Definition set_backup_policy (organization project database : uuid) (enabled : bool)
    (frequency_hours retention_days : Z) (current_user : uuid * User) (membership : Membership) : M Cp unit :=
  require ((1 <=? frequency_hours) && (frequency_hours <=? 720) && (1 <=? retention_days)
           && (retention_days <=? 365)) (HTTPException 422);;
  require_active_subscription organization;;
  require_permission (ms_role membership) "database:backups:manage";;
  get_project_or_404 organization project;;
  get_database_or_404 project database;;
  set_database database (fun d => d <| db_backup_policy :=
    mkBackupPolicy enabled (Some frequency_hours) (Some retention_days) |>);;
  record_audit "BACKUP_POLICY_UPDATED" "database" (Some database) (Some organization) (Some current_user.1) None
    (Some (<["enabled" := JBool enabled]> (<["frequency_hours" := JInt frequency_hours]>
      {["retention_days" := JInt retention_days]}))).

(** *** The scheduler's passes over backups *)

(** [age_hours < frequency_hours]: the comparison of the quotient in hours, a float, with
    an integer is that of the durations, far above the float's precision. *)
Definition backup_due (now : timestamp) (s : Cp) (database : uuid) (d : Database) : bool :=
  policy_enabled (db_backup_policy d) &&
  let frequency_hours := default 24 (policy_frequency_hours (db_backup_policy d)) in
  match min_by (fun b => - bk_created_at b)
          (rows (fun b => bool_decide (bk_database_id b = database) && bool_decide (bk_type b = AUTOMATIC)) (backups s)) with
  | Some last_backup => negb (now - bk_created_at last_backup <? hours frequency_hours)
  | None => true
  end.

Definition enqueue_due_backups (now : timestamp) : M Cp Z :=
  transaction (
    dbs ← gets (fun s => select (fun d => bool_decide (db_status d = DB_RUNNING)) (databases s));
    count_each dbs (fun kd =>
      due ← gets (fun s => backup_due now s kd.1 kd.2);
      if due : bool then
        backup ← add_backup now kd.1 AUTOMATIC;
        enqueue now "backup_database" {["backup_id" := JId backup]} None None (Some "backup") (Some backup);;
        mret true
      else mret false)).

Definition enqueue_due_verifications (now : timestamp) : M Cp Z :=
  transaction (
    let cutoff := now - days REVERIFY_INTERVAL_DAYS in
    candidates ← gets (fun s => select (fun b => restorable (bk_status b)) (backups s));
    count_each candidates (fun kb =>
      if match bk_verified_at kb.2 with Some t => cutoff <? t | None => false end then mret false
      else
        enqueue now "verify_backup" {["backup_id" := JId kb.1]} None None (Some "backup") (Some kb.1);;
        mret true)).

(** One expired backup: [except AgentUnreachableError: continue]. *)
Definition purge_backup (d : Database) (kb : uuid * Backup) : M Cp bool :=
  deleted ←
    match db_cluster_id d with
    | None => mret true
    | Some _ =>
        try_except
          (node ← get_primary_node (db_cluster_id d);
           call_agent node "DELETE" "/v1/backups" {["storage_key" := JStr (bk_storage_key kb.2)]};;
           mret true)
          (fun e => if decide (e = AgentUnreachableError) then Some (mret false) else None)
    end;
  if deleted : bool then
    set_backup kb.1 (fun b => b <| bk_status := BK_PURGED |>);;
    mret true
  else mret false.

Definition expired (now : timestamp) (database : uuid) (retention_days : Z) (b : Backup) : bool :=
  bool_decide (bk_database_id b = database) && bool_decide (bk_type b = AUTOMATIC)
  && negb (bool_decide (bk_status b = BK_PURGED)) && negb (now - days retention_days <? bk_created_at b).

Definition purge_database (now : timestamp) (kd : uuid * Database) : M Cp Z :=
  match policy_retention_days (db_backup_policy kd.2) with
  | None => mret 0
  | Some retention_days =>
      if retention_days =? 0 then mret 0
      else
        bs ← gets (fun s => select (expired now kd.1 retention_days) (backups s));
        count_each bs (purge_backup kd.2)
  end.

Fixpoint purge_databases (now : timestamp) (dbs : list (uuid * Database)) : M Cp Z :=
  match dbs with
  | [] => mret 0
  | d :: dbs => n ← purge_database now d; rest ← purge_databases now dbs; mret (n + rest)
  end.

Definition purge_expired_automatic_backups (now : timestamp) : M Cp Z :=
  transaction (dbs ← gets (fun s => select (fun _ => true) (databases s)); purge_databases now dbs).

(** ** Lemmas *)

(** *** Retention *)

(** A backup the policy of its database lets go. *)
Definition purgeable (now : timestamp) (s : Cp) (b : Backup) : Prop :=
  exists d days_kept, databases s !! bk_database_id b = Some d /\
    policy_retention_days (db_backup_policy d) = Some days_kept /\ days_kept <> 0 /\
    bk_type b = AUTOMATIC /\ bk_created_at b <= now - days days_kept.

Definition deletion_asked (s t : Cp) (b : Backup) : Prop :=
  forall d, databases s !! bk_database_id b = Some d -> is_Some (db_cluster_id d) ->
    exists node, mkAgentCall node "DELETE" "/v1/backups" {["storage_key" := JStr (bk_storage_key b)]} ∈ agent_log t.

Definition retained (now : timestamp) (s t : Cp) : Prop :=
  databases t = databases s /\
  forall id, backups t !! id = backups s !! id \/
    exists b, backups s !! id = Some b /\ purgeable now s b /\ deletion_asked s t b /\
      backups t !! id = Some (b <| bk_status := BK_PURGED |>).

Lemma retained_log now s u l : retained now s u -> retained now s (u <| agent_log := agent_log u ++ l |>).
Proof.
  intros [Hd H]. split; [exact Hd|]. intros id. destruct (H id) as [E|(b & H1 & H2 & H3 & H4)]; [by left|].
  right. exists b. split_and!; try done. intros d Hd' Hc. destruct (H3 d Hd' Hc) as [node Hn].
  exists node. simpl. apply elem_of_app. by left.
Qed.

Lemma retained_call now s node m p args : pres (retained now s) (call_agent node m p args).
Proof.
  intros u Hu. destruct (call_agent node m p args u) as [t [r|e]] eqn:E; simpl.
  - apply call_agent_run in E as (ip & _ & -> & _). by apply (retained_log now s u).
  - apply call_agent_raises in E as [_ [->| ->]]; [done|]. by apply (retained_log now s u).
Qed.

Lemma retained_purge now s u id b :
  retained now s u -> backups s !! id = Some b -> purgeable now s b -> deletion_asked s u b ->
  retained now s (u <| backups ::= alter (fun b => b <| bk_status := BK_PURGED |>) id |>).
Proof.
  intros [Hd H] Hb Hp Ha. split; [exact Hd|]. intros i. simpl.
  destruct (decide (i = id)) as [->|Hne].
  - right. exists b. split_and!; try done. rewrite lookup_alter_eq.
    destruct (H id) as [->|(b' & Hb' & _ & _ & ->)]; [by rewrite Hb|]. simplify_eq. done.
  - rewrite lookup_alter_ne by done. destruct (H i) as [E|(b' & H1 & H2 & H3 & H4)]; [by left|].
    right. by exists b'.
Qed.

Lemma purge_backup_retained now s did d id b :
  databases s !! did = Some d -> bk_database_id b = did -> backups s !! id = Some b -> purgeable now s b ->
  keeps (retained now s) (purge_backup d (id, b)).
Proof.
  intros Hd Hbd Hb Hp u t r H Hu. unfold purge_backup in H. cbn [fst snd] in H.
  apply bind_Ret in H as (v & deleted & H1 & H2).
  assert (retained now s v /\ (deleted = true -> deletion_asked s v b)) as [Hv Ha].
  { destruct (db_cluster_id d) as [c|] eqn:Ec.
    - unfold try_except in H1.
      destruct ((node ← get_primary_node (Some c); _) u) as [w [x|e]] eqn:E.
      + injection H1 as <- <-. apply bind_Ret in E as (? & node & (-> & _)%get_primary_node_run & E).
        apply bind_Ret in E as (w' & y & (ip & _ & -> & _)%call_agent_run & [-> ->]%mret_Ret).
        split; [by apply (retained_log now s u)|]. intros _ d' Hd' _. exists node.1. simpl.
        apply elem_of_app. right. left.
      + case_decide; [|discriminate H1]. injection H1 as <- <-. split; [|done].
        pose proof (pres_bind (retained now s) (get_primary_node (Some c)) (fun node => call_agent node "DELETE"
          "/v1/backups" {["storage_key" := JStr (bk_storage_key b)]};; mret true)) as Hk.
        specialize (Hk (pres_get_primary_node _ _)
          ltac:(intros node; apply pres_bind; [apply retained_call|auto with pres]) u Hu).
        by rewrite E in Hk.
    - apply mret_Ret in H1 as [-> ->]. split; [done|]. intros _ d' Hd' [c Hc]. rewrite Hbd in Hd'. congruence. }
  destruct deleted; [|by apply mret_Ret in H2 as [-> _]].
  apply bind_Ret in H2 as (w & ? & ->%modify_Ret & [-> _]%mret_Ret).
  apply retained_purge with (b := b); auto.
Qed.

Lemma purge_database_retained now s did d :
  databases s !! did = Some d -> keeps (retained now s) (purge_database now (did, d)).
Proof.
  intros Hd. unfold purge_database. cbn [fst snd].
  destruct (policy_retention_days (db_backup_policy d)) as [k|] eqn:Ek; [|apply pres_keeps, pres_ret].
  destruct (Z.eqb_spec k 0) as [|Hk]; [apply pres_keeps, pres_ret|].
  intros u t r H Hu. apply bind_Ret in H as (v & bs & [-> ->]%gets_Ret & H).
  refine (keeps_count_each (retained now s) _ _ _ u t r H Hu). intros [id b] [Hb He]%elem_of_select.
  unfold expired in He. rewrite !andb_true_iff, !bool_decide_eq_true, !negb_true_iff in He.
  destruct He as [[[Hbd Hty] Hst] Hold]. apply bool_decide_eq_false in Hst. apply Z.ltb_ge in Hold.
  destruct (proj2 Hu id) as [E|(b0 & _ & _ & _ & E)]; rewrite Hb in E; [|injection E as ->; by destruct Hst].
  apply (purge_backup_retained now s did d id b Hd Hbd); [done|]. exists d, k. by rewrite Hbd.
Qed.

Lemma purge_databases_retained now s dbs :
  (forall kd, kd ∈ dbs -> databases s !! kd.1 = Some kd.2) -> keeps (retained now s) (purge_databases now dbs).
Proof.
  induction dbs as [|[did d] dbs IH]; intros H; simpl; [apply pres_keeps, pres_ret|].
  apply keeps_bind; [apply purge_database_retained, (H (did, d)); left|]. intros n.
  apply keeps_bind; [|intros; apply pres_keeps, pres_ret]. apply IH. intros kd Hkd. apply H. by right.
Qed.

Lemma purge_retained now s : retained now s (purge_expired_automatic_backups now s).1.
Proof.
  unfold purge_expired_automatic_backups, transaction.
  assert (retained now s s) as H0 by (split; [done|]; intros id; by left).
  destruct ((dbs ← _; purge_databases now dbs) s) as [t [n|e]] eqn:E; [|split; [done|]; intros id; by left].
  apply bind_Ret in E as (u & dbs & [-> ->]%gets_Ret & E). simpl.
  eapply purge_databases_retained; [|exact E|exact H0]. intros [k d] [Hk _]%elem_of_select. exact Hk.
Qed.

(** *** The fleet *)

Lemma fleet_set_backup id f : pres fleet_ok (set_backup id f).
Proof. by apply pres_modify. Qed.
Lemma fleet_add_backup now d ty : pres fleet_ok (add_backup now d ty).
Proof. unfold add_backup. pres_go. by apply pres_modify. Qed.
#[local] Hint Resolve fleet_set_backup fleet_add_backup fleet_call_agent fleet_emit_event fleet_enqueue
  fleet_record_audit pres_get_primary_node pres_get_object_or_raise : pres.

Lemma fleet_restore now job : pres fleet_ok (execute_restore_database now job).
Proof.
  unfold execute_restore_database.
  apply pres_bind; [auto with pres|]. intros j. apply pres_bind; [auto with pres|]. intros [id d].
  destruct (_ && _); [apply pres_ret|]. apply pres_bind; [auto with pres|]. intros [bid b].
  apply pres_bind; [auto with pres|]. intros _. apply pres_bind; [auto with pres|]. intros o.
  apply pres_bind; [auto with pres|]. intros region.
  apply hoare_place_in with (new := fun dec => new_cluster (decision_node dec) _ _)
    (k := fun dec cluster => _); [intros dec; apply hoare_new_cluster|].
  intros dec c. pres_go; try (apply pres_fleet_on_call || apply pres_fleet_on_credential
    || apply pres_fleet_on_event || apply pres_fleet_on_emit). by apply pres_fleet_on_set.
Qed.

Lemma fleet_backup_handlers now ty h job : BACKUP_HANDLERS now ty = Some h -> pres fleet_ok (h job).
Proof.
  unfold BACKUP_HANDLERS. repeat case_decide; intros [= <-].
  - unfold execute_backup_database. pres_go.
  - apply fleet_restore.
  - unfold execute_verify_backup. pres_go.
Qed.

(** *** Endpoints and passes *)

Inductive backup_call :=
| CreateBackup (project database : uuid)
| RestoreBackup (suffix project database backup : uuid) (name : string)
| SetBackupPolicy (project database : uuid) (enabled : bool) (frequency_hours retention_days : Z).

Definition backup_endpoint (now : timestamp) (o : uuid) (call : backup_call) (user : uuid * User)
    (membership : Membership) : M Cp unit :=
  match call with
  | CreateBackup p d => create_backup now o p d user membership;; mret tt
  | RestoreBackup suffix p d b name => restore_backup now suffix o p d b name user membership;; mret tt
  | SetBackupPolicy p d e f r => set_backup_policy o p d e f r user membership
  end.
Definition backup_request (now : timestamp) (credentials : option string) (o : uuid) (call : backup_call) : M Cp unit :=
  org_request now credentials o (backup_endpoint now o call).

Lemma fleet_backup_request now credentials o call : pres fleet_ok (backup_request now credentials o call).
Proof.
  unfold backup_request, org_request. apply pres_bind; [by apply pres_get_current_user|]. intros user.
  apply fleet_transaction. apply pres_bind; [auto with pres|]. intros ms.
  destruct call as [p d|suffix p d b name|p d e f r]; simpl.
  - unfold create_backup. pres_go.
  - unfold restore_backup. pres_go. by apply fleet_add_database.
  - unfold set_backup_policy. pres_go. by apply pres_set_database.
Qed.

Lemma fleet_due_backups now : pres fleet_ok (enqueue_due_backups now).
Proof. apply fleet_transaction. pres_go. apply pres_count_each. intros kd _. pres_go. Qed.
Lemma fleet_due_verifications now : pres fleet_ok (enqueue_due_verifications now).
Proof. apply fleet_transaction. cbv zeta. pres_go. apply pres_count_each. intros kd _. pres_go. Qed.
Lemma fleet_purge now : pres fleet_ok (purge_expired_automatic_backups now).
Proof.
  apply fleet_transaction. pres_go.
  match goal with |- pres _ (purge_databases _ ?dbs) => induction dbs as [|kd dbs IH]; simpl end; [apply pres_ret|].
  apply pres_bind; [|intros n; apply pres_bind; [exact IH|auto with pres]].
  unfold purge_database. pres_go. apply pres_count_each. intros kb _. unfold purge_backup.
  pres_go. apply pres_try; [pres_go|]. intros e k. case_decide; intros [= <-]. apply pres_ret.
Qed.

(** ** Properties *)

(** The retention pass touches no database and no backup but those it may
    purge: automatic, older than what the policy of their database keeps; and such a
    backup is only marked once the agent of its database, when it has one, has answered
    the deletion of the object. *)
Theorem purge_respects_retention (now : timestamp) (s : Cp) (id : uuid) (b : Backup) :
  backups s !! id = Some b ->
  let t := (purge_expired_automatic_backups now s).1 in
  databases t = databases s /\
  (backups t !! id = Some b \/
   (exists d days_kept, databases s !! bk_database_id b = Some d /\
      policy_retention_days (db_backup_policy d) = Some days_kept /\ days_kept <> 0 /\
      bk_type b = AUTOMATIC /\ bk_created_at b <= now - days days_kept /\
      (is_Some (db_cluster_id d) -> exists node,
         mkAgentCall node "DELETE" "/v1/backups" {["storage_key" := JStr (bk_storage_key b)]} ∈ agent_log t)) /\
   backups t !! id = Some (b <| bk_status := BK_PURGED |>)).
Proof.
  cbv zeta. intros Hb. destruct (purge_retained now s) as [Hd H]. split; [exact Hd|].
  destruct (H id) as [->|(b' & Hb' & (d & k & Hdb & Hk & Hk0 & Hty & Hage) & Ha & E)]; [by left|].
  simplify_eq. right. split; [|exact E]. exists d, k. split_and!; try done. by apply Ha.
Qed.
End backups.

(** ** Examples *)

(** Database 30 of the fleet above keeps its automatic backups for one day. *)
Definition example_old_backup : Backup :=
  mkBackup 30 AUTOMATIC BK_COMPLETED "backups/old" (Some 1) None None None None None 0.
Definition example_backups : Cp :=
  example_ha <| databases ::= alter (fun d => d <| db_backup_policy := mkBackupPolicy true (Some 24) (Some 1) |>) 30%positive |>
    <| nodes ::= delete 9%positive |> <| cluster_members := {[51%positive := mkClusterMember 50 8 PRIMARY None None]} |>
    <| backups := {[60%positive := example_old_backup]} |>.

Lemma purge_respects_retention_witness :
  let t := (purge_expired_automatic_backups (days 3) example_backups).1 in
  databases t = databases example_backups /\ bk_status <$> backups t !! 60%positive = Some BK_PURGED.
Proof.
  cbv zeta. split.
  - exact (proj1 (purge_respects_retention (days 3) example_backups 60 example_old_backup eq_refl)).
  - vm_compute. reflexivity.
Defined.

Definition example_with_backup : Cp :=
  example_running <| backups := {[60%positive := mkBackup example_id MANUAL BK_COMPLETED "k" None None None None None None 0]} |>.

(** Restoring a backup makes a new database and does not look at the plan: an
    organization at its quota of one database gets a second one. *)
Theorem restore_exceeds_quota :
  let s := example_with_backup in
  let r := backup_request 0 (Some "alice") acme (RestoreBackup 256 example_project example_id 60 "copy") s in
  r.2 = Ret tt /\
  (get_active_plan acme s).2 = Ret example_plan /\ pl_quotas example_plan !! "max_databases" = Some 1 /\
  length (live_databases acme s) = 1%nat /\ length (live_databases acme r.1) = 2%nat /\
  (check_database_quota acme 0 0 s).2 = Exc QuotaExceededError.
Proof. vm_compute. split_and!; reflexivity. Qed.
