(* ===== verification/Billing.v ===== *)
(** * Metering and invoices: [backend/app/services/billing.py],
    [notification_service.py], [scheduler.py] (metering, invoices),
    [api/v1/endpoints/billing.py] (plans and subscriptions) *)

From S2P Require Import Prelude PyStd Queue ControlPlane Placement Platform Orchestrator Access Organizations Databases.

(** ** Model *)

Definition TICK_INTERVAL_SECONDS : Z := 60.

Definition metric_value (m : UsageMetric) : string :=
  match m with
  | CPU_HOURS => "cpu_hours" | STORAGE_GB_HOURS => "storage_gb_hours" | CONNECTIONS => "connections"
  | EGRESS_GB => "egress_gb"
  end.
(** [for metric in UsageMetric] *)
Definition metrics : list UsageMetric := [CPU_HOURS; STORAGE_GB_HOURS; CONNECTIONS; EGRESS_GB].

(** Storing in a [Numeric(18, 6)] column, in millionths. *)
Definition quantize_micros (x : decimal) : Z :=
  if -6 <=? expo x then coeff x * 10 ^ (expo x + 6) else div_half_up (coeff x) (10 ^ (- 6 - expo x)).

(** *** Invoices *)

Record Line := mkLine {
  ln_description : string;
  ln_metric : string;
  ln_quantity : decimal;
  ln_unit_price : decimal;
  ln_amount : decimal;
}.

(** [func.coalesce(func.sum(UsageRecord.value), 0)] *)
Definition usage_sum (s : Cp) (ids : list uuid) (metric : UsageMetric) (period_start period_end : timestamp) : Z :=
  sumZ (us_value <$> filter (fun u => (bool_decide (us_database_id u ∈ ids) && bool_decide (us_metric u = metric)
    && (period_start <=? us_period_start u) && (us_period_start u <? period_end)) = true) (usage_records s)).

Definition usage_line (s : Cp) (ids : list uuid) (pricing : gmap string decimal)
    (period_start period_end : timestamp) (metric : UsageMetric) : option Line :=
  match pricing !! metric_value metric with
  | None => None
  | Some rate =>
      let quantity := Dec (usage_sum s ids metric period_start period_end) (-6) in
      if coeff quantity =? 0 then None
      else
        let amount := Dec (quantize_cents (dec_mul context_prec quantity rate)) (-2) in
        Some (mkLine (metric_value metric +:+ " usage") (metric_value metric) quantity rate amount)
  end.

Definition invoice_lines (s : Cp) (ids : list uuid) (pricing : gmap string decimal)
    (period_start period_end : timestamp) : list Line :=
  let base_fee := default (Dec 0 0) (pricing !! "base_fee") in
  (if 0 <? coeff base_fee then [mkLine "Base subscription fee" "base_fee" (Dec 1 0) base_fee base_fee] else [])
  ++ (if bool_decide (ids = []) then [] else omap (usage_line s ids pricing period_start period_end) metrics).

Definition invoice_total (lines : list Line) : decimal :=
  foldl (fun total l => dec_add context_prec total (ln_amount l)) (Dec 0 0) lines.

Section billing.
Context `{Env : Platform} `{Auth : Verifier}.

Definition add_line_item (invoice : uuid) (l : Line) : M Cp unit :=
  modify (fun s => s <| invoice_line_items ::= fun ls => ls ++
    [mkInvoiceLineItem invoice (ln_description l) (ln_metric l) (ln_quantity l) (ln_unit_price l)
       (quantize_cents (ln_amount l))] |>).

Definition set_subscription (id : uuid) (f : Subscription -> Subscription) : M Cp unit :=
  modify (fun s => s <| subscriptions ::= alter f id |>).

Definition compute_invoice_for_subscription (now : timestamp) (subscription : uuid) : M Cp uuid :=
  x ← obj subscriptions subscription;
  o ← cp_get plans (su_plan_id x);
  plan ← some_or o AttributeError;
  database_ids ← get_database_ids_for_organization (su_organization_id x);
  lines ← gets (fun s => invoice_lines s database_ids (pl_pricing plan)
                           (su_current_period_start x) (su_current_period_end x));
  id ← gets uuid4;
  modify (fun s => s <| invoices ::= <[id := mkInvoice (su_organization_id x) subscription
    (su_current_period_start x) (su_current_period_end x) INV_FINALIZED (quantize_cents (invoice_total lines))
    "USD" (Some now) None None]> |>);;
  for_each lines (add_line_item id);;
  set_subscription subscription (fun x => x <| su_current_period_start := su_current_period_end x |>
                                            <| su_current_period_end ::= Z.add BILLING_PERIOD |>);;
  mret id.

(** *** Notifications *)

(** The join of the owners' memberships with their users. *)
Definition owners (s : Cp) (organization : uuid) : list (uuid * User) :=
  ms ← rows (owner_in organization) (memberships s);
  match users s !! ms_user_id ms with Some u => [(ms_user_id ms, u)] | None => [] end.

Definition org_owner (organization : uuid) : M Cp (option (uuid * User)) :=
  found ← gets (fun s => owners s organization);
  scalar_one_or_none found.

(** [_notify]: the e-mail it sends never raises. *)
Definition notify (user : uuid) (type : string) (data : payload) : M Cp unit :=
  id ← gets uuid4;
  modify (fun s => s <| notifications ::= <[id := mkNotification user type data None]> |>).

Definition notify_owner (organization : uuid) (type : string) (data : payload) : M Cp unit :=
  owner ← org_owner organization;
  match owner with
  | None => mret tt
  | Some (user, _) => notify user type data
  end.

Definition notify_invoice_created (organization invoice : uuid) : M Cp unit :=
  notify_owner organization "invoice_created" {["invoice_id" := JId invoice]}.
Definition notify_invoice_paid (organization invoice : uuid) (provider : string) : M Cp unit :=
  notify_owner organization "invoice_paid" (<["invoice_id" := JId invoice]> {["provider" := JStr provider]}).
Definition notify_payment_failed (organization invoice : uuid) (provider : string) : M Cp unit :=
  notify_owner organization "payment_failed" (<["invoice_id" := JId invoice]> {["provider" := JStr provider]}).
Definition notify_subscription_changed (organization : uuid) (plan_name : string) : M Cp unit :=
  notify_owner organization "subscription_changed" {["plan_name" := JStr plan_name]}.
Definition notify_subscription_suspended (organization invoice : uuid) : M Cp unit :=
  notify_owner organization "subscription_suspended" {["invoice_id" := JId invoice]}.
Definition notify_subscription_reactivated (organization : uuid) : M Cp unit :=
  notify_owner organization "subscription_reactivated" ∅.

(** *** The scheduler's passes *)

Definition subscription_due (now : timestamp) (x : Subscription) : bool :=
  (su_current_period_end x <=? now) && bool_decide (su_status x = SUB_ACTIVE).

Definition unpaid_invoice (subscription : uuid) (v : Invoice) : bool :=
  bool_decide (iv_subscription_id v = subscription) && bool_decide (iv_status v = INV_FINALIZED).

Definition bill_subscription (now : timestamp) (kx : uuid * Subscription) : M Cp bool :=
  unpaid ← gets (fun s => head (select (unpaid_invoice kx.1) (invoices s)));
  match unpaid with
  | Some (invoice, _) =>
      set_subscription kx.1 (fun x => x <| su_status := PAST_DUE |>);;
      notify_subscription_suspended (su_organization_id kx.2) invoice;;
      mret false
  | None =>
      invoice ← compute_invoice_for_subscription now kx.1;
      notify_invoice_created (su_organization_id kx.2) invoice;;
      mret true
  end.

Definition generate_due_invoices (now : timestamp) : M Cp Z :=
  transaction (
    due ← gets (fun s => select (subscription_due now) (subscriptions s));
    count_each due (bill_subscription now)).

Definition HOURS_ELAPSED : decimal := dec_div context_prec (dec_of_Z TICK_INTERVAL_SECONDS) (dec_of_Z 3600).

Definition add_usage (database : uuid) (metric : UsageMetric) (value : decimal) (now : timestamp) : M Cp unit :=
  modify (fun s => s <| usage_records ::= fun us => us ++
    [mkUsageRecord database metric (quantize_micros value) (now - seconds TICK_INTERVAL_SECONDS) now] |>).

Definition as_int (v : jval) : M Cp Z := match v with JInt z => mret z | _ => raise TypeError end.

Definition meter_database (now : timestamp) (kd : uuid * Database) : M Cp bool :=
  answer ← try_except
    (node ← get_primary_node (db_cluster_id kd.2);
     r ← call_agent node "GET" (database_path kd.2 "/metrics") ∅;
     mret (Some r))
    (fun e => match e with
              | AgentUnreachableError | AgentRequestError _ => Some (mret None)
              | _ => None
              end);
  match answer with
  | None => mret false
  | Some metrics =>
      size ← (v ← item metrics "size_bytes"; as_int v);
      add_usage kd.1 STORAGE_GB_HOURS
        (dec_mul context_prec (dec_div context_prec (dec_of_Z size) (dec_of_Z (1024 ^ 3))) HOURS_ELAPSED) now;;
      add_usage kd.1 CPU_HOURS (dec_mul context_prec (dec_of_Z (db_cpu_limit kd.2)) HOURS_ELAPSED) now;;
      connections ← (v ← item metrics "active_connections"; as_int v);
      add_usage kd.1 CONNECTIONS (dec_of_Z connections) now;;
      mret true
  end.

Definition meter_usage (now : timestamp) : M Cp Z :=
  transaction (
    dbs ← gets (fun s => select (fun d => bool_decide (db_status d = DB_RUNNING)) (databases s));
    count_each dbs (meter_database now)).

(** *** Plans and subscriptions *)

(** [PlanCreate] *)
Definition valid_plan (name : string) : bool :=
  (2 <=? Z.of_nat (String.length name)) && (Z.of_nat (String.length name) <=? 50).
Definition create_plan (name : string) (quotas : gmap string Z) (pricing : gmap string decimal) : M Cp uuid :=
  require (valid_plan name) (HTTPException 422);;
  table ← gets plans;
  existing ← scalar_one_or_none (select (fun p => bool_decide (pl_name p = name)) table);
  require (bool_decide (existing = None)) (HTTPException 409);;
  id ← gets uuid4;
  modify (fun s => s <| plans ::= <[id := mkPlan name quotas pricing true]> |>);;
  mret id.

Definition get_subscription_or_404 (organization : uuid) : M Cp (uuid * Subscription) :=
  table ← gets subscriptions;
  found ← scalar_one_or_none (select (fun x => bool_decide (su_organization_id x = organization)) table);
  some_or found (HTTPException 404).

Definition update_subscription (organization plan : uuid) (membership : Membership) : M Cp uuid :=
  require_permission (ms_role membership) "subscription:manage";;
  x ← get_subscription_or_404 organization;
  o ← cp_get plans plan;
  p ← some_or o (HTTPException 404);
  require (pl_is_active p) (HTTPException 404);;
  set_subscription x.1 (fun x => x <| su_plan_id := plan |>);;
  notify_subscription_changed organization (pl_name p);;
  mret x.1.

(** ** Invariant

    The invoices of a subscription have disjoint periods, all before the period that is
    running, and at most one of them is unpaid; a suspended subscription has one. *)

Definition period_before (v w : Invoice) : Prop := iv_period_end v <= iv_period_start w.

Definition unpaid_in (vs : gmap uuid Invoice) (k : uuid) : Prop :=
  exists i v, vs !! i = Some v /\ iv_subscription_id v = k /\ iv_status v = INV_FINALIZED.

Record periods (xs : gmap uuid Subscription) (vs : gmap uuid Invoice) : Prop := {
  pd_forward : forall k x, xs !! k = Some x -> su_current_period_start x < su_current_period_end x;
  pd_past : forall i v, vs !! i = Some v -> exists x, xs !! iv_subscription_id v = Some x /\
    iv_period_start v < iv_period_end v <= su_current_period_start x;
  pd_disjoint : forall i j v w, vs !! i = Some v -> vs !! j = Some w -> i <> j ->
    iv_subscription_id v = iv_subscription_id w -> period_before v w \/ period_before w v;
  pd_one_unpaid : forall i j v w, vs !! i = Some v -> vs !! j = Some w ->
    iv_subscription_id v = iv_subscription_id w ->
    iv_status v = INV_FINALIZED -> iv_status w = INV_FINALIZED -> i = j;
  pd_suspended : forall k x, xs !! k = Some x -> su_status x = PAST_DUE -> unpaid_in vs k;
}.
Definition billing_ok (s : Cp) : Prop := periods (subscriptions s) (invoices s).

(** ** Lemmas *)

Lemma periods_alter xs vs k f :
  periods xs vs ->
  (forall x, su_current_period_start (f x) = su_current_period_start x /\
             su_current_period_end (f x) = su_current_period_end x) ->
  (forall x, su_status (f x) = PAST_DUE -> su_status x = PAST_DUE \/ unpaid_in vs k) ->
  periods (alter f k xs) vs.
Proof.
  intros [H1 H2 H3 H4 H5] Hf Hst. split; [| |done|done|].
  - intros k' x Hx.
    destruct (decide (k = k')) as [<-|].
    + rewrite lookup_alter_eq in Hx. destruct (xs !! k) as [y|] eqn:Hy; [|done]. simplify_eq/=.
      destruct (Hf y) as [-> ->]. by eapply H1.
    + rewrite lookup_alter_ne in Hx by done. by eapply H1.
  - intros i v Hv. destruct (H2 i v Hv) as (x & Hx & Hp).
    destruct (decide (k = iv_subscription_id v)) as [->|].
    + exists (f x). rewrite lookup_alter_eq, Hx. destruct (Hf x) as [-> _]. done.
    + exists x. by rewrite lookup_alter_ne.
  - intros k' x Hx. destruct (decide (k = k')) as [<-|].
    + rewrite lookup_alter_eq in Hx. destruct (xs !! k) as [y|] eqn:Hy; [|done]. simplify_eq/=.
      intros [Hy'|Hu]%Hst; [|done]. by eapply H5.
    + rewrite lookup_alter_ne in Hx by done. by eapply H5.
Qed.

Lemma unpaid_insert vs k i v : vs !! i = None -> unpaid_in vs k -> unpaid_in (<[i := v]> vs) k.
Proof.
  intros Hi (j & w & Hw & Hr). exists j, w. rewrite lookup_insert_ne; [done|]. intros <-. by rewrite Hi in Hw.
Qed.

Definition next_period (x : Subscription) : Subscription :=
  x <| su_current_period_start := su_current_period_end x |> <| su_current_period_end ::= Z.add BILLING_PERIOD |>.

(** The bill of the running period, then the next one starts. *)
Lemma periods_bill xs vs k x i v :
  periods xs vs -> xs !! k = Some x -> vs !! i = None -> iv_subscription_id v = k ->
  iv_period_start v = su_current_period_start x -> iv_period_end v = su_current_period_end x ->
  iv_status v = INV_FINALIZED ->
  (forall j w, vs !! j = Some w -> iv_subscription_id w = k -> iv_status w <> INV_FINALIZED) ->
  periods (alter next_period k xs) (<[i := v]> vs).
Proof.
  intros [H1 H2 H3 H4 H5] Hx Hi <- Hs He Hst Hu. pose proof (H1 _ _ Hx) as Hfwd.
  assert (0 < BILLING_PERIOD) as Hpos by done.
  split.
  - intros k' y Hy. destruct (decide (iv_subscription_id v = k')) as [<-|].
    + rewrite lookup_alter_eq, Hx in Hy. simplify_eq/=. lia.
    + rewrite lookup_alter_ne in Hy by done. by eapply H1.
  - intros j w Hw. apply lookup_insert_Some in Hw as [[<- <-]|[Hne Hw]].
    + exists (next_period x). rewrite lookup_alter_eq, Hx. split; [done|]. simpl. lia.
    + destruct (H2 j w Hw) as (y & Hy & Hp).
      destruct (decide (iv_subscription_id v = iv_subscription_id w)) as [E|].
      * exists (next_period x). rewrite <- E, lookup_alter_eq, Hx. split; [done|].
        rewrite <- E in Hy. simplify_eq/=. lia.
      * exists y. by rewrite lookup_alter_ne.
  - assert (forall j w, vs !! j = Some w -> iv_subscription_id v = iv_subscription_id w -> period_before w v) as Hold.
    { intros j w Hw E. destruct (H2 j w Hw) as (y & Hy & Hp). rewrite <- E in Hy. simplify_eq. red. lia. }
    intros a b w w' [[<- <-]|[Ha Hw]]%lookup_insert_Some [[<- <-]|[Hb Hw']]%lookup_insert_Some Hab E;
      [done| | |by eapply H3].
    + right. by eapply Hold.
    + left. by eapply Hold.
  - intros a b w w' [[<- <-]|[Ha Hw]]%lookup_insert_Some [[<- <-]|[Hb Hw']]%lookup_insert_Some E F G;
      [done| | |by eapply H4].
    + by destruct (Hu _ _ Hw' (eq_sym E)).
    + by destruct (Hu _ _ Hw E).
  - intros k' y Hy Hpd. destruct (decide (iv_subscription_id v = k')) as [<-|].
    + exists i, v. by rewrite lookup_insert_eq.
    + rewrite lookup_alter_ne in Hy by done. apply unpaid_insert; [done|]. by eapply H5.
Qed.

Lemma add_line_items_run id lines s :
  for_each lines (add_line_item id) s =
    (s <| invoice_line_items ::= fun ls => ls ++ ((fun l => mkInvoiceLineItem id (ln_description l) (ln_metric l)
       (ln_quantity l) (ln_unit_price l) (quantize_cents (ln_amount l))) <$> lines) |>, Ret tt).
Proof.
  revert s. induction lines as [|l lines IH]; intros s; simpl.
  - rewrite app_nil_r. by destruct s.
  - unfold mbind at 1, M_bind at 1. unfold add_line_item at 1, modify. rewrite IH.
    simpl. by rewrite <- app_assoc.
Qed.

(** What the invoice of a subscription is. *)
Lemma compute_invoice_run now subscription s t id :
  compute_invoice_for_subscription now subscription s = (t, Ret id) ->
  exists x plan,
    let ids := fst <$> select (in_organization s (su_organization_id x)) (databases s) in
    let lines := invoice_lines s ids (pl_pricing plan) (su_current_period_start x) (su_current_period_end x) in
    subscriptions s !! subscription = Some x /\ plans s !! su_plan_id x = Some plan /\
    id = uuid4 s /\
    invoices t = <[id := mkInvoice (su_organization_id x) subscription (su_current_period_start x)
       (su_current_period_end x) INV_FINALIZED (quantize_cents (invoice_total lines)) "USD" (Some now) None None]>
      (invoices s) /\
    invoice_line_items t = invoice_line_items s ++ ((fun l => mkInvoiceLineItem id (ln_description l) (ln_metric l)
       (ln_quantity l) (ln_unit_price l) (quantize_cents (ln_amount l))) <$> lines) /\
    subscriptions t = alter next_period subscription (subscriptions s).
Proof.
  unfold compute_invoice_for_subscription, get_database_ids_for_organization, set_subscription. intros H.
  apply bind_Ret in H as (? & x & [-> Hx]%obj_run & H).
  apply bind_Ret in H as (? & o & [-> ->]%cp_get_run & H).
  apply bind_Ret in H as (? & plan & [Hp ->]%some_or_Ret & H).
  apply bind_Ret in H as (? & ? & [-> ->]%gets_Ret & H).
  apply bind_Ret in H as (? & ? & [-> ->]%gets_Ret & H).
  apply bind_Ret in H as (? & ? & [-> ->]%gets_Ret & H).
  apply bind_Ret in H as (? & ? & ->%modify_Ret & H).
  apply bind_Ret in H as (? & ? & Hl & H). rewrite add_line_items_run in Hl. injection Hl as <- _.
  apply bind_Ret in H as (? & ? & ->%modify_Ret & [-> ->]%mret_Ret).
  exists x, plan. cbv zeta. split_and!; done.
Qed.

Lemma pres_notify_owner I organization type data :
  (forall s l, I s -> I (s <| notifications := l |>)) -> pres I (notify_owner organization type data).
Proof.
  intros H. unfold notify_owner, org_owner, notify. pres_go. apply pres_modify. intros s Hs. apply (H s _ Hs).
Qed.

Lemma head_select_None {V} P (m : gmap positive V) :
  head (select P m) = None -> forall k v, m !! k = Some v -> P v = false.
Proof.
  intros H. apply select_nil_iff. by destruct (select P m).
Qed.

Lemma bill_subscription_keeps now kx : keeps billing_ok (bill_subscription now kx).
Proof.
  intros s t b H Hs. unfold bill_subscription in H.
  apply bind_Ret in H as (? & unpaid & [-> ->]%gets_Ret & H).
  assert (forall u l, billing_ok u -> billing_ok (u <| notifications := l |>)) as Hn by done.
  destruct (head _) as [[i v]|] eqn:Hu.
  - apply bind_Ret in H as (u & [] & ->%modify_Ret & H).
    refine (pres_keeps billing_ok _ _ _ _ _ H _); [apply pres_bind; [by apply pres_notify_owner|auto with pres]|].
    apply periods_alter; [exact Hs|done|]. intros x _. right. exists i, v.
    apply head_Some_elem_of, elem_of_select in Hu as [Hv Hp]. unfold unpaid_invoice in Hp.
    by apply andb_true_iff in Hp as [->%bool_decide_eq_true ->%bool_decide_eq_true].
  - apply bind_Ret in H as (u & id & Hc & H).
    apply compute_invoice_run in Hc as (x & plan & Hx & _ & -> & Hi & _ & Hsub).
    assert (billing_ok u) as Hbu.
    { unfold billing_ok. rewrite Hi, Hsub. eapply periods_bill; [exact Hs|exact Hx|apply (uuid4_not_used s)|done..|].
      intros j w Hw E F. pose proof (head_select_None _ _ Hu _ _ Hw) as Hf. unfold unpaid_invoice in Hf.
      by rewrite !bool_decide_eq_true_2 in Hf. }
    refine (pres_keeps billing_ok _ _ _ _ _ H Hbu). apply pres_bind; [by apply pres_notify_owner|auto with pres].
Qed.

Lemma generate_due_invoices_ok now : pres billing_ok (generate_due_invoices now).
Proof.
  apply pres_transaction; [done|]. apply keeps_bind; [auto with pres|]. intros due.
  apply keeps_count_each. intros x _. apply bill_subscription_keeps.
Qed.

Lemma pres_meter_database I now kd :
  (forall s l, I s -> I (s <| agent_log := l |>)) -> (forall s l, I s -> I (s <| usage_records := l |>)) ->
  pres I (meter_database now kd).
Proof.
  intros Hl Hu. unfold meter_database, add_usage, as_int.
  apply pres_bind.
  - apply pres_try.
    + pres_go; [unfold get_primary_node; pres_go|by apply pres_call_agent].
    + intros e k. destruct e; intros [= <-]; apply pres_ret.
  - intros [metrics|]; [|apply pres_ret]. pres_go.
    all: apply pres_modify; intros s Hs; apply (Hu s _ Hs).
Qed.

Lemma meter_usage_ok now : pres billing_ok (meter_usage now).
Proof.
  apply pres_transaction; [done|]. apply pres_keeps, pres_bind; [auto with pres|]. intros dbs.
  apply pres_count_each. intros kd _. by apply pres_meter_database.
Qed.

Lemma update_subscription_ok organization plan membership :
  pres billing_ok (update_subscription organization plan membership).
Proof.
  unfold update_subscription, get_subscription_or_404, set_subscription, notify_subscription_changed. pres_go.
  - apply pres_modify. intros s Hs. apply periods_alter; [done|done|]. intros x Hx. by left.
  - by apply pres_notify_owner.
Qed.


(** An invariant that the rows of memberships, projects and audits do not matter to. *)
Lemma pres_org_handle (I : Cp -> Prop) now credentials call :
  (forall s l, I s -> I (s <| agent_log := l |>)) -> (forall s l, I s -> I (s <| api_keys := l |>)) ->
  (forall s l, I s -> I (s <| memberships := l |>)) -> (forall s l, I s -> I (s <| projects := l |>)) ->
  (forall s l, I s -> I (s <| audit_logs := l |>)) ->
  (forall name slug user, keeps I (create_organization now name slug user)) ->
  pres I (org_handle now credentials call).
Proof.
  intros Hlog Hkeys Hms Hps Haud Hcreate.
  assert (forall A (m : uuid * User -> Membership -> M Cp A) o,
    (forall u ms, pres I (m u ms)) -> pres I (org_request now credentials o m)) as Hreq.
  { intros A m o Hm. apply pres_org_request; [done..|]. intros u ms k s t a Hs _ _ _ E.
    exact (pres_keeps I _ (Hm u ms) _ _ _ E Hs). }
  assert (forall f, pres I (modify (fun s => s <| memberships ::= f |>))) as Hm by (intros f; apply pres_modify; intros s; apply Hms).
  assert (forall f, pres I (modify (fun s => s <| projects ::= f |>))) as Hp by (intros f; apply pres_modify; intros s; apply Hps).
  assert (forall f, pres I (modify (fun s => s <| audit_logs ::= f |>))) as Ha by (intros f; apply pres_modify; intros s; apply Haud).
  destruct call as [name slug|o email role|o user|o name slug|o project]; simpl.
  - apply pres_bind; [|auto with pres]. unfold create_organization_request.
    apply pres_bind; [by apply pres_get_current_user|]. intros user. by apply pres_transaction.
  - apply pres_bind; [|auto with pres]. apply Hreq. intros u ms. unfold add_member, record_audit. pres_go.
    intros s Hs. unfold add_membership. apply (Hms s _ Hs).
  - apply Hreq. intros u ms. unfold remove_member, record_audit. pres_go.
  - apply pres_bind; [|auto with pres]. apply Hreq. intros u ms. unfold create_project, record_audit. pres_go.
    intros s Hs. unfold add_project. apply (Hps s _ Hs).
  - apply Hreq. intros u ms. unfold delete_project, record_audit. pres_go.
Qed.

Lemma org_handle_billing now credentials call : pres billing_ok (org_handle now credentials call).
Proof.
  apply pres_org_handle; try done. intros name slug user.
  unfold create_organization, add_organization, add_membership, add_subscription, record_audit.
  intros s t a H Hs. minv. destruct Hs as [P1 P2 P3 P4 P5]. split; [| |done|done|]; simpl.
  - intros k x [[<- <-]|[_ Hx]]%lookup_insert_Some; [|by eapply P1]. simpl. unfold BILLING_PERIOD, days, hours, seconds. lia.
  - intros i v Hv. destruct (P2 i v Hv) as (x & Hx & Hp). exists x. split; [|done].
    rewrite lookup_insert_ne; [done|]. intros E.
    match type of E with uuid4 ?u = _ => pose proof (uuid4_not_used u) as Hu end. simpl in Hu.
    rewrite E, Hx in Hu. naive_solver.
  - intros k x [[<- <-]|[_ Hx]]%lookup_insert_Some; [done|by eapply P5].
Qed.

(** *** Totals *)

(** An amount in whole cents, that a [Numeric(18, 2)] column can hold. *)
Definition cents_ok (x : decimal) : Prop := -2 <= expo x <= 0 /\ Z.abs (quantize_cents x) < 10 ^ 18.

Definition cents_okb (x : decimal) : bool :=
  (-2 <=? expo x) && (expo x <=? 0) && (Z.abs (quantize_cents x) <? 10 ^ 18).
Lemma cents_okb_all lines :
  forallb (fun l => cents_okb (ln_amount l)) lines = true -> Forall (fun l => cents_ok (ln_amount l)) lines.
Proof.
  intros H. apply Forall_forall. intros l Hl. apply forallb_forall with (x := l) in H; [|by apply list_elem_of_In].
  unfold cents_okb in H. unfold cents_ok. lia.
Qed.

Lemma cents_of x : -2 <= expo x -> quantize_cents x = coeff x * 10 ^ (expo x + 2).
Proof. intros H. unfold quantize_cents. destruct (Z.leb_spec (-2) (expo x)); [done|lia]. Qed.

Lemma dec_add_cents x y :
  -2 <= expo x <= 0 -> -2 <= expo y <= 0 ->
  Z.abs (quantize_cents x) < 10 ^ 20 -> Z.abs (quantize_cents y) < 10 ^ 20 ->
  -2 <= expo (dec_add context_prec x y) <= 0 /\
  quantize_cents (dec_add context_prec x y) = quantize_cents x + quantize_cents y.
Proof.
  destruct x as [a i], y as [b j]. cbn [expo]. intros Hi Hj.
  rewrite !cents_of by (simpl; lia). simpl. intros Ha Hb. unfold dec_add. cbn [expo coeff].
  assert (forall n k, 0 <= k -> Z.abs n <= Z.abs (n * 10 ^ k)) as Hmono.
  { intros n k Hk. pose proof (Z.pow_pos_nonneg 10 k ltac:(lia) Hk). nia. }
  set (e := Z.min i j). assert (-2 <= e <= 0) as He by lia.
  assert (forall n k, e <= k -> n * 10 ^ (k - e) * 10 ^ (e + 2) = n * 10 ^ (k + 2)) as Hshift.
  { intros n k Hk. rewrite <- Z.mul_assoc, <- Z.pow_add_r by lia. do 2 f_equal. lia. }
  rewrite fix_prec_id; [|done|].
  - rewrite cents_of by (simpl; lia). simpl. split; [lia|]. rewrite Z.mul_add_distr_r, !Hshift by lia. lia.
  - cbn [coeff]. pose proof (Hmono (a * 10 ^ (i - e)) (e + 2) ltac:(lia)) as H1. rewrite Hshift in H1 by lia.
    pose proof (Hmono (b * 10 ^ (j - e)) (e + 2) ltac:(lia)) as H2. rewrite Hshift in H2 by lia.
    unfold context_prec. lia.
Qed.

Lemma foldl_dec_add (xs : list decimal) acc :
  Forall cents_ok xs -> -2 <= expo acc <= 0 ->
  Z.abs (quantize_cents acc) + Z.of_nat (length xs) * 10 ^ 18 < 10 ^ 20 ->
  quantize_cents (foldl (dec_add context_prec) acc xs) = quantize_cents acc + sumZ (quantize_cents <$> xs).
Proof.
  revert acc. induction xs as [|x xs IH]; intros acc Hx Ha Hl; cbn [foldl fmap list_fmap length] in *.
  - rewrite Z.add_0_r. done.
  - inversion Hx as [|? ? [He Hc] Hxs]; subst.
    destruct (dec_add_cents acc x) as [H1 H2]; [done|done|lia|lia|].
    rewrite IH; [|done|done|rewrite H2; lia]. rewrite H2, sumZ_cons. lia.
Qed.

Lemma invoice_total_foldl lines : invoice_total lines = foldl (dec_add context_prec) (Dec 0 0) (ln_amount <$> lines).
Proof. unfold invoice_total. generalize (Dec 0 0). induction lines as [|l lines IH]; intros d; simpl; [done|apply IH]. Qed.

Lemma invoice_lines_length s ids pricing a b : (length (invoice_lines s ids pricing a b) <= 5)%nat.
Proof.
  unfold invoice_lines. rewrite length_app.
  assert (length (omap (usage_line s ids pricing a b) metrics) <= 4)%nat.
  { generalize (usage_line s ids pricing a b) as f. intros f. unfold metrics. simpl.
    destruct (f CPU_HOURS), (f STORAGE_GB_HOURS), (f CONNECTIONS), (f EGRESS_GB); simpl; lia. }
  destruct (0 <? _), (bool_decide _); cbn [length]; lia.
Qed.

Lemma invoice_total_exact lines :
  (length lines <= 5)%nat -> Forall (fun l => cents_ok (ln_amount l)) lines ->
  quantize_cents (invoice_total lines) = sumZ ((fun l => quantize_cents (ln_amount l)) <$> lines).
Proof.
  intros Hl Hf. rewrite invoice_total_foldl, foldl_dec_add.
  - by rewrite <- list_fmap_compose.
  - by rewrite Forall_fmap.
  - done.
  - rewrite length_fmap. change (quantize_cents (Dec 0 0)) with 0. lia.
Qed.

Lemma filter_nil_all {A} (P : A -> Prop) `{forall x, Decision (P x)} l : Forall (fun x => ~ P x) l -> filter P l = [].
Proof. induction 1 as [|x l Hx _ IH]; [done|]. by rewrite filter_cons_False. Qed.

Lemma invoice_lines_usage s ids pricing a b l :
  l ∈ invoice_lines s ids pricing a b -> ln_metric l = "base_fee" \/
  exists metric, ln_metric l = metric_value metric /\ ln_quantity l = Dec (usage_sum s ids metric a b) (-6) /\
    pricing !! metric_value metric = Some (ln_unit_price l).
Proof.
  unfold invoice_lines. intros [Hl|Hl]%elem_of_app.
  - left. destruct (0 <? _); [|by apply elem_of_nil in Hl]. by apply list_elem_of_singleton in Hl as ->.
  - right. destruct (bool_decide _); [by apply elem_of_nil in Hl|].
    apply list_elem_of_omap in Hl as (metric & _ & Hm). exists metric. unfold usage_line in Hm.
    destruct (pricing !! metric_value metric) as [rate|]; [|done].
    cbn [coeff] in Hm. destruct (_ =? 0); [done|]. injection Hm as <-. done.
Qed.

(** ** Properties *)

Definition items_of (id : uuid) (s : Cp) : list InvoiceLineItem :=
  filter (fun l => il_invoice_id l = id) (invoice_line_items s).

End billing.

(** ** Examples *)

(** Two months after its foundation, an organization on a priced plan, with a database
    that was metered. *)
Definition example_priced_plan : Plan :=
  mkPlan "pro" ∅ (<["base_fee" := Dec 999 (-2)]> (<["cpu_hours" := Dec 31 (-1)]> {["storage_gb_hours" := Dec 2 (-1)]})) true.
Definition example_metered : Cp :=
  (meter_usage 3600000000 (example_running <| plans := {[1%positive := example_priced_plan]} |>)).1.
Definition example_subscription : uuid :=
  match map_to_list (subscriptions example_metered) with (id, _) :: _ => id | [] => 1 end.


Definition bill_at (now : timestamp) (s : Cp) : Cp := (generate_due_invoices now s).1.

(** The default plan is free, but its first invoice, of nothing, is still an
    unpaid invoice: a month later the organization is suspended. *)
Theorem free_plan_suspended :
  let s := run_org example_founding example_users in
  let t := bill_at BILLING_PERIOD s in
  let u := bill_at (2 * BILLING_PERIOD) t in
  (fun v => (iv_total_amount v, iv_status v)) <$> (map_to_list (invoices t)).*2 = [(0, INV_FINALIZED)] /\
  su_status <$> (map_to_list (subscriptions u)).*2 = [PAST_DUE] /\
  (require_active_subscription acme u).2 = Exc (HTTPException 402).
Proof. vm_compute. split_and!; reflexivity. Qed.

(** Alice gives her organization a second owner; Bob founds his own. *)
Definition example_second_owner : list (string * org_call) :=
  [("alice", CreateOrganization "Acme" "acme"); ("alice", AddMember acme "eve@x" OWNER); ("bob", CreateOrganization "Bob" "bob")].

(** Invoices are announced to the owner of the organization, found with
    [scalar_one_or_none]: once an organization has two owners the pass raises, and rolls
    back the invoices of every organization. *)
Theorem two_owners_stop_billing :
  let s := run_org example_second_owner example_users in
  length (select (subscription_due BILLING_PERIOD) (subscriptions s)) = 2%nat /\
  length (owners s acme) = 2%nat /\
  (generate_due_invoices BILLING_PERIOD s).2 = Exc MultipleResultsFound /\
  map_to_list (invoices (bill_at BILLING_PERIOD s)) = [].
Proof. vm_compute. split_and!; reflexivity. Qed.
