(* ===== verification/Payments.v ===== *)
(** * Payments: [backend/app/services/payment_service.py], [payments.py],
    [payment_providers/], the payment endpoints of [endpoints/billing.py] and
    [endpoints/payment_webhooks.py]

    [Gateways] is NOWPayments and FedaPay, and the digests that sign their webhooks. *)

From Stdlib Require Import Ascii.
From S2P Require Import Prelude PyStd Queue ControlPlane Placement Platform Orchestrator Access Organizations.
From S2P Require Import Databases Billing.

(** ** Model *)

(** What the handler reads in the body of a NOWPayments notification: [price_amount] in
    the currency of the invoice, [actually_paid] in the coin of the payment. *)
Record Ipn := mkIpn {
  ipn_payment_id : string;
  ipn_payment_status : option string;
  ipn_actually_paid : decimal;
  ipn_price_amount : decimal;
}.
(** The answer of NOWPayments to a new payment. *)
Record NowPayment := mkNowPayment {
  np_payment_id : string;
  np_payment_status : option string;
}.
(** What the handler reads in the body of a FedaPay event. *)
Record FedapayEvent := mkFedapayEvent {
  fe_id : string;
  fe_status : option string;
}.

Class Gateways := {
  nowpayments_create_payment : Cp -> uuid -> money -> string -> option string -> outcome NowPayment;
  fedapay_create_transaction : Cp -> uuid -> Z -> string -> string -> outcome string;
  fedapay_generate_token : Cp -> string -> outcome string;
  fedapay_collect : Cp -> string -> string -> string -> string -> outcome unit;
  (** [json.loads], and the fields of the result. *)
  read_ipn : string -> outcome Ipn;
  read_fedapay_event : string -> outcome FedapayEvent;
  (** The HMAC of the body written again with sorted keys; of the timestamp and the body. *)
  ipn_digest : string -> outcome string;
  fedapay_sign : string -> string -> outcome string;
  (** [settings.nowpayments_tolerance_usd], [settings.nowpayments_payment_window_hours] *)
  nowpayments_tolerance : decimal;
  nowpayments_window : Z;
}.

Definition MOBILE_MONEY_OPERATORS : list (string * string) :=
  [("mtn_open", "bj"); ("moov", "bj"); ("sbin", "bj"); ("moov_tg", "tg"); ("togocel", "tg"); ("mtn_ci", "ci");
   ("airtel_ne", "ne"); ("free_sn", "sn")].

Definition WEBHOOK_TOLERANCE_SECONDS : Z := 300.

Definition provider_value (p : PaymentProviderName) : string :=
  match p with MANUAL_PROVIDER => "manual" | NOWPAYMENTS => "nowpayments" | FEDAPAY => "fedapay" end.

Definition set_invoice (id : uuid) (f : Invoice -> Invoice) : M Cp unit :=
  modify (fun s => s <| invoices ::= alter f id |>).
Definition set_payment (id : uuid) (f : Payment -> Payment) : M Cp unit :=
  modify (fun s => s <| payments ::= alter f id |>).

(** *** Signatures *)

Section signatures.
Context `{Gates : Gateways}.

(** [hmac.compare_digest] refuses a text that is not ASCII. *)
Definition compare_digest (a b : string) : outcome bool :=
  let ascii := all_chars (fun c => bool_decide (nat_of_ascii c < 128)%nat) in
  if ascii a && ascii b then mret (bool_decide (a = b)) else Exc TypeError.

Definition nowpayments_verify_ipn_signature (body received : string) : outcome bool :=
  expected ← ipn_digest body;
  compare_digest expected (lower received).

(** [parts[key]]: the values the header gives to [key], in order. *)
Definition header_parts (key header : string) : list string :=
  omap (fun chunk =>
    let kv := default (chunk, "") (partition_at "=" chunk) in
    if bool_decide (strip kv.1 = key) then Some (strip kv.2) else None) (split_char ","%char header).

Fixpoint any_digest (expected : string) (sigs : list string) : outcome bool :=
  match sigs with
  | [] => mret false
  | s :: sigs =>
      b ← compare_digest expected s;
      if b : bool then mret true else any_digest expected sigs
  end.
Definition fedapay_verify_webhook_signature (now : timestamp) (body header : string) : outcome bool :=
  match header_parts "t" header, header_parts "s" header with
  | t :: _, (_ :: _) as sigs =>
      stamp ← py_int t;
      if seconds WEBHOOK_TOLERANCE_SECONDS <? Z.abs (now - seconds stamp) then mret false
      else
        expected ← fedapay_sign t body;
        any_digest expected sigs
  | _, _ => mret false
  end.
End signatures.

Section payments.
Context `{Env : Platform} `{Auth : Verifier} `{Gates : Gateways}.

(** *** Settlement *)

Definition still_unpaid (subscription invoice : uuid) (kv : uuid * Invoice) : bool :=
  unpaid_invoice subscription kv.2 && negb (bool_decide (kv.1 = invoice)).

Definition reactivate_if_current (invoice : uuid) : M Cp unit :=
  v ← obj invoices invoice;
  o ← cp_get subscriptions (iv_subscription_id v);
  match o with
  | None => mret tt
  | Some x =>
      if decide (su_status x = PAST_DUE) then
        table ← gets invoices;
        if bool_decide (filter (fun kv => still_unpaid (iv_subscription_id v) invoice kv = true) (map_to_list table) = [])
        then
          set_subscription (iv_subscription_id v) (fun x => x <| su_status := SUB_ACTIVE |>);;
          notify_subscription_reactivated (iv_organization_id v)
        else mret tt
      else mret tt
  end.

(** The amount travels in hundredths. *)
Definition mark_invoice_paid (now : timestamp) (invoice : uuid) (provider reference : string) : M Cp unit :=
  set_invoice invoice (fun v => v <| iv_status := INV_PAID |> <| iv_paid_at := Some now |>
                                  <| iv_payment_reference := Some reference |>);;
  v ← obj invoices invoice;
  notify_invoice_paid (iv_organization_id v) invoice provider;;
  emit_event now (Some (iv_organization_id v)) "invoice.paid"
    (<["invoice_id" := JId invoice]> (<["amount" := JInt (iv_total_amount v)]> {["currency" := JStr (iv_currency v)]}));;
  reactivate_if_current invoice.

(** [ManualPaymentProvider.charge]: an owner says that the money came. *)
Record PaymentResult := mkPaymentResult { pr_provider_reference : string; pr_status : string }.
Definition manual_charge (organization_reference : string) (amount : money) (currency reference : string) : PaymentResult :=
  mkPaymentResult reference "completed".
Definition pay_invoice_manually (now : timestamp) (invoice : uuid) : M Cp unit :=
  v ← obj invoices invoice;
  let result := manual_charge (str_uuid (iv_organization_id v)) (iv_total_amount v) (iv_currency v) (str_uuid invoice) in
  mark_invoice_paid now invoice "manual" (pr_provider_reference result).

Definition finalize_payment (now : timestamp) (payment : uuid) : M Cp unit :=
  p ← obj payments payment;
  if decide (pa_status p = PAY_SUCCEEDED) then mret tt
  else
    set_payment payment (fun p => p <| pa_status := PAY_SUCCEEDED |>);;
    o ← cp_get invoices (pa_invoice_id p);
    match o with
    | None => mret tt
    | Some v =>
        if decide (iv_status v = INV_PAID) then mret tt
        else mark_invoice_paid now (pa_invoice_id p) (provider_value (pa_provider p)) (str_uuid payment)
    end.

(** *** Initiation *)

Definition same_payment (provider : PaymentProviderName) (id : string) (p : Payment) : bool :=
  bool_decide (pa_provider p = provider) && bool_decide (pa_provider_payment_id p = Some id).

(** [uq_payments_provider_payment_id] *)
Definition add_payment (p : Payment) : M Cp uuid :=
  table ← gets payments;
  require (bool_decide (rows (fun q => bool_decide (pa_provider q = pa_provider p)
             && bool_decide (pa_provider_payment_id q = pa_provider_payment_id p)) table = [])) IntegrityError;;
  id ← gets uuid4;
  modify (fun s => s <| payments ::= <[id := p]> |>);;
  mret id.

Definition initiate_crypto_payment (now : timestamp) (invoice : uuid) (pay_currency : option string) : M Cp uuid :=
  v ← obj invoices invoice;
  answer ← gets (fun s => nowpayments_create_payment s invoice (iv_total_amount v) (lower (iv_currency v)) pay_currency);
  r ← lift_outcome answer;
  add_payment (mkPayment invoice (iv_organization_id v) NOWPAYMENTS (Some (np_payment_id r)) (iv_total_amount v)
    (iv_currency v) PAY_PENDING (np_payment_status r) None (Some (now + nowpayments_window))).

(** Up to the commit: the payment and the token that charges it. *)
Definition initiate_mobile_money_payment (invoice : uuid) (mode customer_email : string) : M Cp (uuid * string) :=
  require (bool_decide (is_Some (dict_get MOBILE_MONEY_OPERATORS mode))) ProviderError;;
  v ← obj invoices invoice;
  answer ← gets (fun s => fedapay_create_transaction s invoice (Z.quot (iv_total_amount v) 100) (iv_currency v) customer_email);
  transaction_id ← lift_outcome answer;
  answer ← gets (fun s => fedapay_generate_token s transaction_id);
  token ← lift_outcome answer;
  payment ← add_payment (mkPayment invoice (iv_organization_id v) FEDAPAY (Some transaction_id) (iv_total_amount v)
    (iv_currency v) PAY_PENDING (Some "pending") None None);
  mret (payment, token).

Definition charge_mobile_money (token mode phone : string) : M Cp unit :=
  operator ← some_or (dict_get MOBILE_MONEY_OPERATORS mode) ProviderError;
  answer ← gets (fun s => fedapay_collect s token mode phone operator);
  lift_outcome answer.

(** After the commit. *)
Definition charge_payment (payment : uuid) (token mode phone : string) : M Cp unit :=
  try_except (charge_mobile_money token mode phone)
    (fun e => match e with
              | ProviderError | TransportError => Some (set_payment payment (fun p => p <| pa_error := Some "the charge failed" |>))
              | _ => None
              end).

(** *** Webhooks *)

Definition fail_payment (payment : uuid) (p : Payment) : M Cp unit :=
  set_payment payment (fun p => p <| pa_status := PAY_FAILED |>);;
  o ← cp_get invoices (pa_invoice_id p);
  match o with
  | None => mret tt
  | Some v => notify_payment_failed (iv_organization_id v) (pa_invoice_id p) (provider_value (pa_provider p))
  end.

Definition ipn_settles (i : Ipn) : bool :=
  let shortfall := dec_sub context_prec (ipn_price_amount i) (ipn_actually_paid i) in
  bool_decide (ipn_payment_status i = Some "finished")
  || (bool_decide (ipn_payment_status i = Some "partially_paid") && dec_leb shortfall nowpayments_tolerance).

Definition handle_nowpayments_webhook (now : timestamp) (body signature : string) : M Cp unit :=
  valid ← lift_outcome (nowpayments_verify_ipn_signature body signature);
  require valid PaymentWebhookError;;
  i ← lift_outcome (read_ipn body);
  table ← gets payments;
  found ← scalar_one_or_none (select (same_payment NOWPAYMENTS (ipn_payment_id i)) table);
  match found with
  | None => mret tt
  | Some (payment, p) =>
      if decide (pa_status p = PAY_PENDING) then
        set_payment payment (fun p => p <| pa_provider_status := ipn_payment_status i |>);;
        if ipn_settles i then finalize_payment now payment
        else if bool_decide (ipn_payment_status i = Some "failed" \/ ipn_payment_status i = Some "expired")
                && (coeff (ipn_actually_paid i) =? 0)
        then fail_payment payment p
        else mret tt
      else mret tt
  end.

Definition handle_fedapay_webhook (now : timestamp) (body header : string) : M Cp unit :=
  valid ← lift_outcome (fedapay_verify_webhook_signature now body header);
  require valid PaymentWebhookError;;
  e ← lift_outcome (read_fedapay_event body);
  table ← gets payments;
  found ← scalar_one_or_none (select (same_payment FEDAPAY (fe_id e)) table);
  match found with
  | None => mret tt
  | Some (payment, p) =>
      if decide (pa_status p = PAY_PENDING) then
        if decide (fe_status e = Some "approved") then
          set_payment payment (fun p => p <| pa_provider_status := fe_status e |>);;
          finalize_payment now payment
        else if decide (fe_status e = Some "declined" \/ fe_status e = Some "canceled") then
          set_payment payment (fun p => p <| pa_provider_status := fe_status e |>);;
          fail_payment payment p
        else mret tt
      else mret tt
  end.

(** [if not signature], [except PaymentWebhookError] *)
Definition webhook_endpoint (signature : option string) (handler : string -> M Cp unit) : M Cp unit :=
  match signature with
  | None | Some "" => raise (HTTPException 400)
  | Some signature =>
      transaction (try_except (handler signature)
        (fun e => match e with PaymentWebhookError => Some (raise (HTTPException 400)) | _ => None end))
  end.

Definition nowpayments_webhook (now : timestamp) (signature : option string) (body : string) : M Cp unit :=
  webhook_endpoint signature (handle_nowpayments_webhook now body).
Definition fedapay_webhook (now : timestamp) (signature : option string) (body : string) : M Cp unit :=
  webhook_endpoint signature (handle_fedapay_webhook now body).

(** *** Endpoints *)

Definition get_finalized_invoice_or_404 (organization invoice : uuid) : M Cp Invoice :=
  o ← cp_get invoices invoice;
  v ← some_or o (HTTPException 404);
  require (bool_decide (iv_organization_id v = organization)) (HTTPException 404);;
  require (bool_decide (iv_status v = INV_FINALIZED)) (HTTPException 409);;
  mret v.

Definition pay_invoice (now : timestamp) (organization invoice : uuid) (membership : Membership) : M Cp unit :=
  require_permission (ms_role membership) "subscription:manage";;
  get_finalized_invoice_or_404 organization invoice;;
  pay_invoice_manually now invoice.

Definition pay_invoice_with_crypto (now : timestamp) (organization invoice : uuid) (pay_currency : option string)
    (membership : Membership) : M Cp uuid :=
  require_permission (ms_role membership) "subscription:manage";;
  get_finalized_invoice_or_404 organization invoice;;
  initiate_crypto_payment now invoice pay_currency.

Definition valid_phone (phone : string) : bool :=
  (6 <=? Z.of_nat (String.length phone)) && (Z.of_nat (String.length phone) <=? 20).

Definition pay_invoice_with_mobile_money (organization invoice : uuid) (mode phone : string)
    (current_user : uuid * User) (membership : Membership) : M Cp (uuid * string) :=
  require (valid_phone phone) (HTTPException 422);;
  require_permission (ms_role membership) "subscription:manage";;
  get_finalized_invoice_or_404 organization invoice;;
  initiate_mobile_money_payment invoice mode (ur_email current_user.2).

(** *** Everything that bills *)

Inductive billing_call :=
| OnOrganization (call : org_call)
| InvoicePass
| MeterPass
| CreatePlan (name : string) (quotas : gmap string Z) (pricing : gmap string decimal)
| UpdateSubscription (organization plan : uuid)
| PayManually (organization invoice : uuid)
| PayCrypto (organization invoice : uuid) (pay_currency : option string)
| PayMobileMoney (organization invoice : uuid) (mode phone : string)
| NowpaymentsWebhook (signature : option string) (body : string)
| FedapayWebhook (signature : option string) (body : string).

Definition billing_handle (now : timestamp) (credentials : option string) (call : billing_call) : M Cp unit :=
  match call with
  | OnOrganization call => org_handle now credentials call
  | InvoicePass => generate_due_invoices now;; mret tt
  | MeterPass => meter_usage now;; mret tt
  | CreatePlan name quotas pricing => admin_user_request now credentials (fun _ => create_plan name quotas pricing);; mret tt
  | UpdateSubscription o plan => org_request now credentials o (fun _ => update_subscription o plan);; mret tt
  | PayManually o invoice => org_request now credentials o (fun _ => pay_invoice now o invoice)
  | PayCrypto o invoice c => org_request now credentials o (fun _ => pay_invoice_with_crypto now o invoice c);; mret tt
  | PayMobileMoney o invoice mode phone =>
      p ← org_request now credentials o (pay_invoice_with_mobile_money o invoice mode phone);
      transaction (charge_payment p.1 p.2 mode phone)
  | NowpaymentsWebhook signature body => nowpayments_webhook now signature body
  | FedapayWebhook signature body => fedapay_webhook now signature body
  end.

Definition billing_step (s t : Cp) : Prop := exists now credentials call, t = (billing_handle now credentials call s).1.

(** ** Lemmas *)

Lemma alter_is_insert {V} (f : V -> V) (m : gmap positive V) k v :
  m !! k = Some v -> alter f k m = <[k := f v]> m.
Proof.
  intros Hk. apply map_eq. intros j. destruct (decide (k = j)) as [<-|].
  - by rewrite lookup_alter_eq, lookup_insert_eq, Hk.
  - by rewrite lookup_alter_ne, lookup_insert_ne.
Qed.

(** Announcing a payment leaves subscriptions and invoices alone. *)
Definition same_billing (s t : Cp) : Prop :=
  subscriptions t = subscriptions s /\ invoices t = invoices s /\ payments t = payments s.

Lemma notify_same_billing s0 organization type data : pres (same_billing s0) (notify_owner organization type data).
Proof. by apply pres_notify_owner. Qed.
Lemma emit_same_billing s0 now org event data : pres (same_billing s0) (emit_event now org event data).
Proof. by apply pres_emit_event. Qed.

Lemma run_same_billing {A} (m : M Cp A) s t a :
  (forall s0, pres (same_billing s0) m) -> m s = (t, Ret a) -> same_billing s t.
Proof. intros Hm E. specialize (Hm s s (conj eq_refl (conj eq_refl eq_refl))). by rewrite E in Hm. Qed.

Definition paid_at (now : timestamp) (reference : string) (v : Invoice) : Invoice :=
  v <| iv_status := INV_PAID |> <| iv_paid_at := Some now |> <| iv_payment_reference := Some reference |>.
Definition activate (x : Subscription) : Subscription := x <| su_status := SUB_ACTIVE |>.

Definition other_unpaid (vs : gmap uuid Invoice) (i k : uuid) : Prop :=
  exists j w, j <> i /\ vs !! j = Some w /\ iv_subscription_id w = k /\ iv_status w = INV_FINALIZED.

Lemma still_unpaid_nil vs i k :
  filter (fun kv => still_unpaid k i kv = true) (map_to_list vs) <> [] -> other_unpaid vs i k.
Proof.
  intros H. destruct (filter _ _) as [|[j w] l] eqn:E; [done|]. exists j, w.
  assert ((j, w) ∈ filter (fun kv => still_unpaid k i kv = true) (map_to_list vs)) as Hin by (rewrite E; left).
  apply list_elem_of_filter in Hin as [Hp Hm%elem_of_map_to_list]. unfold still_unpaid, unpaid_invoice in Hp.
  cbn [fst snd] in Hp.
  apply andb_true_iff in Hp as [[->%bool_decide_eq_true ->%bool_decide_eq_true]%andb_true_iff Hn%negb_true_iff].
  by apply bool_decide_eq_false in Hn.
Qed.

Lemma reactivate_run i s t v u :
  invoices s !! i = Some v -> reactivate_if_current i s = (t, Ret u) ->
  invoices t = invoices s /\ payments t = payments s /\
  (subscriptions t = alter activate (iv_subscription_id v) (subscriptions s) \/
   subscriptions t = subscriptions s /\
     forall x, subscriptions s !! iv_subscription_id v = Some x -> su_status x = PAST_DUE ->
       other_unpaid (invoices s) i (iv_subscription_id v)).
Proof.
  unfold reactivate_if_current. intros Hv H.
  apply bind_Ret in H as (? & v' & [-> Hv']%obj_run & H). rewrite Hv in Hv'. injection Hv' as <-.
  apply bind_Ret in H as (? & o & [-> ->]%cp_get_run & H).
  destruct (subscriptions s !! iv_subscription_id v) as [x|] eqn:Hx.
  2: { apply mret_Ret in H as [-> _]. do 2 (split; [done|]). right. split; [done|]. done. }
  case_decide as Hst.
  2: { apply mret_Ret in H as [-> _]. do 2 (split; [done|]). right. split; [done|]. by intros x' [= <-]. }
  apply bind_Ret in H as (? & ? & [-> ->]%gets_Ret & H).
  case_bool_decide as Hn.
  - apply bind_Ret in H as (? & ? & ->%modify_Ret & H).
    apply (run_same_billing _ _ _ _ (fun s0 => notify_same_billing s0 _ _ _)) in H as (-> & -> & ->). do 2 (split; [done|]). by left.
  - apply mret_Ret in H as [-> _]. do 2 (split; [done|]). right. split; [done|]. intros _ _ _. by apply still_unpaid_nil.
Qed.

Lemma mark_invoice_paid_run now i provider reference s t v u :
  invoices s !! i = Some v -> mark_invoice_paid now i provider reference s = (t, Ret u) ->
  invoices t = <[i := paid_at now reference v]> (invoices s) /\ payments t = payments s /\
  (subscriptions t = alter activate (iv_subscription_id v) (subscriptions s) \/
   subscriptions t = subscriptions s /\
     forall x, subscriptions s !! iv_subscription_id v = Some x -> su_status x = PAST_DUE ->
       other_unpaid (invoices s) i (iv_subscription_id v)).
Proof.
  unfold mark_invoice_paid, set_invoice. intros Hv H.
  apply bind_Ret in H as (s1 & ? & E%modify_Ret & H).
  assert (invoices s1 = <[i := paid_at now reference v]> (invoices s) /\ subscriptions s1 = subscriptions s /\
    payments s1 = payments s) as (Hi1 & Hs1 & Hp1).
  { rewrite E. split; [|done]. simpl. by rewrite (alter_is_insert _ _ _ v). }
  clear E.
  apply bind_Ret in H as (? & v' & [-> Hv']%obj_run & H).
  apply bind_Ret in H as (s2 & ? & Hn & H).
  apply (run_same_billing _ _ _ _ (fun s0 => notify_same_billing s0 _ _ _)) in Hn as (Hs2 & Hi2 & Hp2).
  apply bind_Ret in H as (s3 & ? & He & H).
  apply (run_same_billing _ _ _ _ (fun s0 => emit_same_billing s0 _ _ _ _)) in He as (Hs3 & Hi3 & Hp3).
  assert (invoices s3 = <[i := paid_at now reference v]> (invoices s)) as Hi by congruence.
  apply (reactivate_run i s3 t (paid_at now reference v)) in H as (Ht & Hp & Hr); [|by rewrite Hi, lookup_insert_eq].
  assert (subscriptions s3 = subscriptions s) as Hs by congruence.
  rewrite Hi in Ht. rewrite Hs, Hi in Hr. split; [done|]. split; [congruence|].
  destruct Hr as [Hr|[Hr Ho]]; [by left|right]. split; [done|].
  intros y Hy Hpd. destruct (Ho y Hy Hpd) as (j & w & Hj & Hw & Hsub). exists j, w.
  rewrite lookup_insert_ne in Hw by done. done.
Qed.

(** A paid invoice no longer suspends. *)
Lemma periods_paid xs vs i v v' :
  periods xs vs -> vs !! i = Some v ->
  iv_subscription_id v' = iv_subscription_id v -> iv_period_start v' = iv_period_start v ->
  iv_period_end v' = iv_period_end v -> iv_status v' <> INV_FINALIZED ->
  (forall x, xs !! iv_subscription_id v = Some x -> su_status x = PAST_DUE -> other_unpaid vs i (iv_subscription_id v)) ->
  periods xs (<[i := v']> vs).
Proof.
  intros [H1 H2 H3 H4 H5] Hv Hk Hs He Hst Ho. split; [done| | | |].
  - intros j w [[<- <-]|[_ Hw]]%lookup_insert_Some; [|by eapply H2].
    rewrite Hk, Hs, He. by eapply H2.
  - unfold period_before in *.
    intros a b w w' [[<- <-]|[Ha Hw]]%lookup_insert_Some [[<- <-]|[Hb Hw']]%lookup_insert_Some Hab E;
      [done| | |by eapply H3]; rewrite Hs, He; eapply H3; eauto; congruence.
  - intros a b w w' [[<- <-]|[Ha Hw]]%lookup_insert_Some [[<- <-]|[Hb Hw']]%lookup_insert_Some E F G;
      [done|done|done|by eapply H4].
  - intros k x Hx Hp. destruct (H5 k x Hx Hp) as (j & w & Hw & <- & Hf).
    destruct (decide (i = j)) as [<-|].
    + rewrite Hv in Hw. injection Hw as <-. destruct (Ho x Hx Hp) as (j & w & Hj & Hw & Hr).
      exists j, w. by rewrite lookup_insert_ne.
    + exists j, w. by rewrite lookup_insert_ne.
Qed.

Lemma mark_invoice_paid_keeps now i provider reference s t u :
  mark_invoice_paid now i provider reference s = (t, Ret u) -> billing_ok s -> billing_ok t.
Proof.
  intros H Hs. destruct (invoices s !! i) as [v|] eqn:Hv.
  2: { unfold mark_invoice_paid, set_invoice in H. apply bind_Ret in H as (? & ? & ->%modify_Ret & H).
       apply bind_Ret in H as (? & ? & [-> Hi]%obj_run & _). simpl in Hi. by rewrite lookup_alter_eq, Hv in Hi. }
  apply (mark_invoice_paid_run _ _ _ _ _ _ v) in H as (Hi & _ & Hx); [|done].
  unfold billing_ok. rewrite Hi. destruct Hx as [-> | [-> Ho]].
  - eapply periods_paid; [by apply periods_alter|exact Hv|done..|].
    intros x. rewrite lookup_alter_eq. by destruct (subscriptions s !! _); intros [= <-].
  - by eapply periods_paid.
Qed.

(** *** Invariants of everything that bills *)

Record billing_invariant (I : Cp -> Prop) : Prop := {
  bi_log : forall s l, I s -> I (s <| agent_log := l |>);
  bi_keys : forall s l, I s -> I (s <| api_keys := l |>);
  bi_payments : forall s l, I s -> I (s <| payments := l |>);
  bi_notifications : forall s l, I s -> I (s <| notifications := l |>);
  bi_usage : forall s l, I s -> I (s <| usage_records := l |>);
  bi_plans : forall s l, I s -> I (s <| plans := l |>);
  bi_org : forall now credentials call, pres I (org_handle now credentials call);
  bi_bill : forall now kx, keeps I (bill_subscription now kx);
  bi_subscribe : forall o plan ms, pres I (update_subscription o plan ms);
  bi_mark : forall now i provider reference s t u v, I s -> invoices s !! i = Some v -> iv_status v <> INV_PAID ->
    mark_invoice_paid now i provider reference s = (t, Ret u) -> I t;
}.

Section invariant.
Context (I : Cp -> Prop) (HI : billing_invariant I).

Lemma inv_set_payment id f : pres I (set_payment id f).
Proof. apply pres_modify. intros s Hs. by apply (bi_payments I HI s _ Hs). Qed.
Lemma inv_add_payment p : pres I (add_payment p).
Proof. unfold add_payment. pres_go. apply pres_modify. intros s Hs. by apply (bi_payments I HI s _ Hs). Qed.
Lemma inv_notify_payment_failed o i p : pres I (notify_payment_failed o i p).
Proof. apply pres_notify_owner. apply (bi_notifications I HI). Qed.
#[local] Hint Resolve inv_set_payment inv_add_payment inv_notify_payment_failed : pres.

Lemma inv_fail_payment id p : pres I (fail_payment id p).
Proof. unfold fail_payment. pres_go. Qed.
#[local] Hint Resolve inv_fail_payment : pres.

Lemma inv_finalize_payment now id : keeps I (finalize_payment now id).
Proof.
  unfold finalize_payment. intros s t b H Hs.
  apply bind_Ret in H as (? & p & [-> _]%obj_run & H).
  case_decide; [by apply mret_Ret in H as [-> _]|].
  apply bind_Ret in H as (s1 & ? & Hset & H).
  apply (pres_run I _ _ _ _ (inv_set_payment _ _)) in Hset; [|done].
  apply bind_Ret in H as (? & o & [-> ->]%cp_get_run & H).
  destruct (invoices s1 !! _) as [v|] eqn:Hv; [|by apply mret_Ret in H as [-> _]].
  case_decide; [by apply mret_Ret in H as [-> _]|]. eapply (bi_mark I HI); [exact Hset|exact Hv|done|exact H].
Qed.
#[local] Hint Resolve inv_finalize_payment : pres.

Lemma inv_nowpayments now body signature : keeps I (handle_nowpayments_webhook now body signature).
Proof. unfold handle_nowpayments_webhook. keeps_go. Qed.
Lemma inv_fedapay now body header : keeps I (handle_fedapay_webhook now body header).
Proof. unfold handle_fedapay_webhook. keeps_go. Qed.

Lemma inv_webhook_endpoint signature handler :
  (forall x, keeps I (handler x)) -> pres I (webhook_endpoint signature handler).
Proof.
  intros Hh. unfold webhook_endpoint. destruct signature as [[|c rest]|]; [apply pres_raise| |apply pres_raise].
  apply pres_transaction; [apply (bi_log I HI)|]. intros s t a. unfold try_except.
  destruct (handler _ s) as [u [b|e]] eqn:E.
  - intros [= <- <-]. by eapply Hh.
  - destruct e; done.
Qed.

Lemma get_finalized_run o i s t v :
  get_finalized_invoice_or_404 o i s = (t, Ret v) ->
  t = s /\ invoices s !! i = Some v /\ iv_organization_id v = o /\ iv_status v = INV_FINALIZED.
Proof.
  unfold get_finalized_invoice_or_404. intros H.
  apply bind_Ret in H as (? & ? & [-> ->]%cp_get_run & H).
  apply bind_Ret in H as (? & w & [Hw ->]%some_or_Ret & H).
  apply bind_Ret in H as (? & ? & [Ho%bool_decide_eq_true ->]%require_Ret & H).
  apply bind_Ret in H as (? & ? & [Hf%bool_decide_eq_true ->]%require_Ret & [-> ->]%mret_Ret). done.
Qed.

Lemma inv_pay_invoice now o i ms : keeps I (pay_invoice now o i ms).
Proof.
  unfold pay_invoice, pay_invoice_manually. intros s t a H Hs.
  apply bind_Ret in H as (? & ? & [-> _]%require_permission_run & H).
  apply bind_Ret in H as (? & v & (-> & Hv & _ & Hf)%get_finalized_run & H).
  apply bind_Ret in H as (? & w & [-> _]%obj_run & H).
  eapply (bi_mark I HI); [exact Hs|exact Hv|by rewrite Hf|exact H].
Qed.

Lemma pres_get_finalized o i : pres I (get_finalized_invoice_or_404 o i).
Proof. unfold get_finalized_invoice_or_404. pres_go. Qed.
#[local] Hint Resolve pres_get_finalized : pres.

Lemma inv_pay_crypto now o i c ms : pres I (pay_invoice_with_crypto now o i c ms).
Proof. unfold pay_invoice_with_crypto, initiate_crypto_payment. pres_go. Qed.
Lemma inv_pay_mobile o i mode phone u ms : pres I (pay_invoice_with_mobile_money o i mode phone u ms).
Proof. unfold pay_invoice_with_mobile_money, initiate_mobile_money_payment. pres_go. Qed.
Lemma inv_charge p token mode phone : pres I (charge_payment p token mode phone).
Proof.
  unfold charge_payment, charge_mobile_money. apply pres_try; [pres_go|].
  intros e k. destruct e; intros [= <-]; apply inv_set_payment.
Qed.

Lemma inv_org_request {A} now credentials o (m : uuid * User -> Membership -> M Cp A) :
  (forall u ms, keeps I (m u ms)) -> pres I (org_request now credentials o m).
Proof.
  intros Hm. apply pres_org_request; [apply (bi_log I HI)|apply (bi_keys I HI)|].
  intros u ms k s t a Hs _ _ _ E. exact (Hm u ms s t a E Hs).
Qed.

Lemma billing_handle_keeps now credentials call : pres I (billing_handle now credentials call).
Proof.
  destruct call as [call| | |name quotas pricing|o plan|o i|o i c|o i mode phone|signature body|signature body]; simpl.
  - apply (bi_org I HI).
  - apply pres_bind; [|auto with pres]. apply pres_transaction; [apply (bi_log I HI)|].
    apply keeps_bind; [auto with pres|]. intros due. apply keeps_count_each. intros x _. apply (bi_bill I HI).
  - apply pres_bind; [|auto with pres]. apply pres_transaction; [apply (bi_log I HI)|].
    apply pres_keeps, pres_bind; [auto with pres|]. intros dbs. apply pres_count_each. intros kd _.
    apply pres_meter_database; [apply (bi_log I HI)|apply (bi_usage I HI)].
  - apply pres_bind; [|auto with pres]. unfold admin_user_request. apply pres_bind; [apply pres_get_current_user, (bi_keys I HI)|].
    intros u. apply pres_transaction; [apply (bi_log I HI)|]. apply pres_keeps. unfold require_platform_admin, create_plan.
    pres_go. apply pres_modify. intros s. apply (bi_plans I HI).
  - apply pres_bind; [|auto with pres]. apply inv_org_request. intros u ms. apply pres_keeps, (bi_subscribe I HI).
  - apply inv_org_request. intros u ms. apply inv_pay_invoice.
  - apply pres_bind; [|auto with pres]. apply inv_org_request. intros u ms. apply pres_keeps, inv_pay_crypto.
  - apply pres_bind; [apply inv_org_request; intros u ms; apply pres_keeps, inv_pay_mobile|].
    intros p. apply pres_transaction; [apply (bi_log I HI)|apply pres_keeps, inv_charge].
  - apply inv_webhook_endpoint. intros x. apply inv_nowpayments.
  - apply inv_webhook_endpoint. intros x. apply inv_fedapay.
Qed.

Lemma billing_reachable s t : I s -> rtc billing_step s t -> I t.
Proof.
  intros Hs Hr. induction Hr as [|s u t (now & credentials & call & ->) _ IH]; [done|]. by apply IH, billing_handle_keeps.
Qed.
End invariant.

Lemma billing_ok_invariant : billing_invariant billing_ok.
Proof.
  split; try done.
  - intros. apply org_handle_billing.
  - intros. apply bill_subscription_keeps.
  - intros. apply update_subscription_ok.
  - intros now i provider reference s t u v Hs _ _ H. by eapply mark_invoice_paid_keeps.
Qed.

(** *** A paid invoice is final *)

Lemma pres_org_handle_invoices vs now credentials call : pres (fun s => invoices s = vs) (org_handle now credentials call).
Proof.
  apply pres_org_handle; try done. intros name slug user. apply pres_keeps.
  unfold create_organization, add_organization, add_membership, add_subscription, record_audit.
  pres_go; by apply pres_modify.
Qed.

Lemma bill_subscription_invoices now kx s t b :
  bill_subscription now kx s = (t, Ret b) ->
  invoices t = invoices s \/ exists i v, invoices s !! i = None /\ invoices t = <[i := v]> (invoices s).
Proof.
  unfold bill_subscription. intros H. apply bind_Ret in H as (? & unpaid & [-> _]%gets_Ret & H).
  destruct unpaid as [[i v]|].
  - left. apply bind_Ret in H as (? & ? & ->%modify_Ret & H). apply bind_Ret in H as (u & ? & Hn & [-> _]%mret_Ret).
    by apply (run_same_billing _ _ _ _ (fun s0 => notify_same_billing s0 _ _ _)) in Hn as (_ & -> & _).
  - right. apply bind_Ret in H as (u & id & Hc & H).
    apply compute_invoice_run in Hc as (x & plan & _ & _ & -> & Hi & _).
    apply bind_Ret in H as (w & ? & Hn & [-> _]%mret_Ret).
    apply (run_same_billing _ _ _ _ (fun s0 => notify_same_billing s0 _ _ _)) in Hn as (_ & -> & _).
    eexists _, _. split; [|exact Hi]. apply (uuid4_not_used s).
Qed.

Lemma paid_invariant i v : iv_status v = INV_PAID -> billing_invariant (fun s => invoices s !! i = Some v).
Proof.
  intros Hv. split; try done.
  - intros now credentials call s Hs. by rewrite (pres_org_handle_invoices _ _ _ call s eq_refl).
  - intros now kx s t b H Hs. apply bill_subscription_invoices in H as [->|(j & w & Hj & ->)]; [done|].
    rewrite lookup_insert_ne; [done|]. intros ->. by rewrite Hj in Hs.
  - intros o plan ms. unfold update_subscription, get_subscription_or_404, set_subscription, notify_subscription_changed.
    pres_go; [by apply pres_modify|by apply pres_notify_owner].
  - intros now j provider reference s t u w Hs Hw Hne H.
    apply (mark_invoice_paid_run _ _ _ _ _ _ w) in H as [-> _]; [|done].
    rewrite lookup_insert_ne; [done|]. intros ->. rewrite Hw in Hs. by simplify_eq.
Qed.

(** *** Settling *)


Lemma alter_alter {V} (f g : V -> V) (m : gmap positive V) k : alter f k (alter g k m) = alter (fun v => f (g v)) k m.
Proof.
  apply map_eq. intros j. destruct (decide (k = j)) as [<-|].
  - rewrite !lookup_alter_eq. by destruct (m !! k).
  - by rewrite !lookup_alter_ne.
Qed.

Definition settled (provider_status : option string) (p : Payment) : Payment :=
  p <| pa_provider_status := provider_status |> <| pa_status := PAY_SUCCEEDED |>.

(** The subscription of an invoice that is paid, when it was its only unpaid one. *)
Lemma paid_reactivates s t i v (Hs : billing_ok s) :
  invoices s !! i = Some v -> iv_status v = INV_FINALIZED ->
  (subscriptions t = alter activate (iv_subscription_id v) (subscriptions s) \/
   subscriptions t = subscriptions s /\
     forall x, subscriptions s !! iv_subscription_id v = Some x -> su_status x = PAST_DUE ->
       other_unpaid (invoices s) i (iv_subscription_id v)) ->
  forall x, subscriptions t !! iv_subscription_id v = Some x -> su_status x <> PAST_DUE.
Proof.
  intros Hv Hf [->|[-> Ho]] x Hx Hp.
  - rewrite lookup_alter_eq in Hx. destruct (subscriptions s !! _); simpl in Hx; by simplify_eq.
  - destruct (Ho x Hx Hp) as (j & w & Hj & Hw & Hk & Hfw). apply Hj. by eapply (pd_one_unpaid _ _ Hs).
Qed.

(** What a notification that settles does. *)
Lemma nowpayments_run now body signature s t u i k p v :
  handle_nowpayments_webhook now body signature s = (t, Ret u) -> read_ipn body = Ret i -> ipn_settles i = true ->
  select (same_payment NOWPAYMENTS (ipn_payment_id i)) (payments s) = [(k, p)] -> pa_status p = PAY_PENDING ->
  invoices s !! pa_invoice_id p = Some v -> iv_status v = INV_FINALIZED ->
  nowpayments_verify_ipn_signature body signature = Ret true /\
  payments t = alter (settled (ipn_payment_status i)) k (payments s) /\
  invoices t = <[pa_invoice_id p := paid_at now (str_uuid k) v]> (invoices s) /\
  (subscriptions t = alter activate (iv_subscription_id v) (subscriptions s) \/
   subscriptions t = subscriptions s /\
     forall x, subscriptions s !! iv_subscription_id v = Some x -> su_status x = PAST_DUE ->
       other_unpaid (invoices s) (pa_invoice_id p) (iv_subscription_id v)).
Proof.
  unfold handle_nowpayments_webhook. intros H Hr Hset Hsel Hp Hv Hf.
  apply bind_Ret in H as (? & b & [-> Hsig]%lift_outcome_Ret & H).
  apply bind_Ret in H as (? & ? & [-> ->]%require_Ret & H).
  apply bind_Ret in H as (? & i' & [-> Hi']%lift_outcome_Ret & H). rewrite Hr in Hi'. injection Hi' as <-.
  apply bind_Ret in H as (? & ? & [-> ->]%gets_Ret & H). rewrite Hsel in H.
  apply bind_Ret in H as (? & ? & [-> ->]%mret_Ret & H).
  case_decide; [|done]. rewrite Hset in H.
  apply bind_Ret in H as (? & ? & ->%modify_Ret & H). unfold finalize_payment in H.
  pose proof (elem_of_singleton_select _ _ _ Hsel) as [Hk _]. cbn [fst snd] in Hk.
  apply bind_Ret in H as (? & q & [-> Hq]%obj_run & H). cbn in Hq. rewrite lookup_alter_eq, Hk in Hq. injection Hq as <-.
  case_decide as Hst; [cbn in Hst; congruence|].
  apply bind_Ret in H as (? & ? & ->%modify_Ret & H).
  apply bind_Ret in H as (? & ? & [-> ->]%cp_get_run & H). cbn in H. rewrite Hv in H.
  case_decide; [congruence|].
  apply (mark_invoice_paid_run _ _ _ _ _ _ v) in H as (Hi & Hpay & Hx); [|done].
  split_and!; [done| |done|done]. rewrite Hpay. cbn. by rewrite alter_alter.
Qed.

(** ** Properties *)

(** C15. Whatever happens to organizations, plans, invoices and payments, an
    instant of a subscription is billed by at most one invoice (so no usage is billed
    twice), and a subscription is suspended only while exactly one invoice of it is
    unpaid. *)
Theorem usage_billed_once s t :
  billing_ok s -> rtc billing_step s t ->
  (forall i j v w instant, invoices t !! i = Some v -> invoices t !! j = Some w ->
     iv_subscription_id v = iv_subscription_id w ->
     iv_period_start v <= instant < iv_period_end v -> iv_period_start w <= instant < iv_period_end w -> i = j) /\
  (forall k x, subscriptions t !! k = Some x -> su_status x = PAST_DUE ->
     exists i v, invoices t !! i = Some v /\ iv_subscription_id v = k /\ iv_status v = INV_FINALIZED /\
       forall j w, invoices t !! j = Some w -> iv_subscription_id w = k -> iv_status w = INV_FINALIZED -> j = i).
Proof.
  intros Hs Hr. pose proof (billing_reachable _ billing_ok_invariant _ _ Hs Hr) as [_ _ H3 H4 H5]. split.
  - intros i j v w instant Hv Hw E Hi Hj. destruct (decide (i = j)) as [|Hn]; [done|].
    destruct (H3 _ _ _ _ Hv Hw Hn E); unfold period_before in *; lia.
  - intros k x Hx Hp. destruct (H5 _ _ Hx Hp) as (i & v & Hv & <- & Hf). exists i, v. split_and!; [done..|].
    intros j w Hw E Hfw. by eapply H4.
Qed.

(** A paid invoice is never touched again: whatever passes, payments and
    webhooks follow, it keeps its amount, its date and its reference. *)
Theorem paid_invoice_final s t i v :
  invoices s !! i = Some v -> iv_status v = INV_PAID -> rtc billing_step s t -> invoices t !! i = Some v.
Proof. intros Hv Hp Hr. exact (billing_reachable _ (paid_invariant i v Hp) _ _ Hv Hr). Qed.

(** A notification that settles a pending payment pays its invoice, which
    lifts the suspension, and delivering it again changes nothing. *)
Theorem nowpayments_settles now now' body signature s t i k p v :
  billing_ok s -> handle_nowpayments_webhook now body signature s = (t, Ret tt) ->
  read_ipn body = Ret i -> ipn_settles i = true ->
  select (same_payment NOWPAYMENTS (ipn_payment_id i)) (payments s) = [(k, p)] -> pa_status p = PAY_PENDING ->
  invoices s !! pa_invoice_id p = Some v -> iv_status v = INV_FINALIZED ->
  payments t !! k = Some (settled (ipn_payment_status i) p) /\
  invoices t !! pa_invoice_id p = Some (paid_at now (str_uuid k) v) /\
  (forall x, subscriptions t !! iv_subscription_id v = Some x -> su_status x <> PAST_DUE) /\
  handle_nowpayments_webhook now' body signature t = (t, Ret tt).
Proof.
  intros Hs H Hr Hset Hsel Hp Hv Hf.
  pose proof (nowpayments_run _ _ _ _ _ _ _ _ _ _ H Hr Hset Hsel Hp Hv Hf) as (Hsig & Hpay & Hi & Hx).
  pose proof (elem_of_singleton_select _ _ _ Hsel) as [Hk Hsame]. cbn [fst snd] in Hk, Hsame. split_and!.
  - by rewrite Hpay, lookup_alter_eq, Hk.
  - by rewrite Hi, lookup_insert_eq.
  - by apply (paid_reactivates s t (pa_invoice_id p) v).
  - unfold handle_nowpayments_webhook. rewrite Hsig, Hr.
    unfold lift_outcome, require, gets, mbind, M_bind, mret, M_ret.
    rewrite Hpay, (select_alter_one _ _ k p); [|done|done]. cbn [scalar_one_or_none].
    unfold mret, M_ret. done.
Qed.
End payments.

(** ** Examples *)

(** Bodies are named; NOWPayments numbers its payments after the invoice. *)
#[export] Instance example_gateways : Gateways := {
  nowpayments_create_payment := fun _ invoice _ _ _ => Ret (mkNowPayment (str_uuid invoice) (Some "waiting"));
  fedapay_create_transaction := fun _ invoice _ _ _ => Ret (str_uuid invoice);
  fedapay_generate_token := fun _ _ => Ret "token";
  fedapay_collect := fun _ _ _ _ _ => Exc ProviderError;
  read_ipn := fun body =>
    match partition_at ":" body with
    | Some (status, id) => Ret (mkIpn id (Some status) (Dec 95 (-1)) (Dec 10 0))
    | None => Exc ValueError
    end;
  read_fedapay_event := fun body =>
    match partition_at ":" body with
    | Some (status, id) => Ret (mkFedapayEvent id (Some status))
    | None => Exc ValueError
    end;
  ipn_digest := fun _ => Ret "digest";
  fedapay_sign := fun t _ => Ret t;
  nowpayments_tolerance := Dec 5 (-1);
  nowpayments_window := hours 3;
}.

Definition run_billing (calls : list (timestamp * string * billing_call)) (s : Cp) : Cp :=
  fold_left (fun s c => (billing_handle c.1.1 (Some c.1.2) c.2 s).1) calls s.
Lemma run_billing_reach calls s : rtc billing_step s (run_billing calls s).
Proof.
  revert s. induction calls as [|c calls IH]; intros s; simpl; [apply rtc_refl|].
  eapply rtc_l; [|apply IH]. by exists c.1.1, (Some c.1.2), c.2.
Qed.

Definition first_invoice (s : Cp) : uuid := match map_to_list (invoices s) with (id, _) :: _ => id | [] => 1 end.
Definition first_subscription (s : Cp) : uuid := match map_to_list (subscriptions s) with (id, _) :: _ => id | [] => 1 end.

(** Alice founds an organization, is billed, does not pay, and is suspended. *)
Definition example_suspended : Cp :=
  run_billing [(0, "alice", OnOrganization (CreateOrganization "Acme" "acme"));
               (BILLING_PERIOD, "", InvoicePass); (2 * BILLING_PERIOD, "", InvoicePass)] example_users.
(** She then starts a payment in crypto-currency. *)
Definition example_paying : Cp :=
  run_billing [(2 * BILLING_PERIOD, "alice", PayCrypto acme (first_invoice example_suspended) (Some "doge"))] example_suspended.
Definition example_ipn : string := "partially_paid:" +:+ str_uuid (first_invoice example_suspended).
Definition example_paid : Cp :=
  run_billing [(2 * BILLING_PERIOD, "", NowpaymentsWebhook (Some "digest") example_ipn)] example_paying.

Lemma example_users_billing_ok : billing_ok example_users.
Proof.
  split; simpl; intros *; intros H; rewrite lookup_empty in H; discriminate H.
Qed.

Lemma usage_billed_once_witness :
  exists i v, invoices example_suspended !! i = Some v /\ iv_subscription_id v = first_subscription example_suspended /\
    iv_status v = INV_FINALIZED.
Proof.
  pose proof (usage_billed_once example_users example_suspended example_users_billing_ok (run_billing_reach _ _)) as [_ H].
  destruct (subscriptions example_suspended !! first_subscription example_suspended) as [x|] eqn:Hx;
    [|vm_compute in Hx; discriminate Hx].
  destruct (H _ x Hx) as (i & v & Hv & Hk & Hf & _); [vm_compute in Hx; injection Hx as <-; reflexivity|].
  exists i, v. split_and!; assumption.
Defined.

Lemma paid_invoice_final_witness :
  let i := first_invoice example_suspended in
  let t := run_billing [(3 * BILLING_PERIOD, "", InvoicePass); (3 * BILLING_PERIOD, "alice", PayManually acme i)] example_paid in
  exists v, iv_status v = INV_PAID /\ invoices example_paid !! i = Some v /\ invoices t !! i = Some v.
Proof.
  intros i t. destruct (invoices example_paid !! i) as [v|] eqn:Hv; [|vm_compute in Hv; discriminate Hv].
  assert (iv_status v = INV_PAID) as Hp by (vm_compute in Hv; injection Hv as <-; reflexivity).
  exists v. split; [exact Hp|]. split; [reflexivity|].
  exact (paid_invoice_final example_paid t i v Hv Hp (run_billing_reach _ _)).
Defined.

Lemma example_paying_ok : billing_ok example_paying.
Proof.
  unfold example_paying, example_suspended.
  eapply billing_reachable; [apply billing_ok_invariant| |apply run_billing_reach].
  eapply billing_reachable; [apply billing_ok_invariant|exact example_users_billing_ok|apply run_billing_reach].
Qed.

Lemma nowpayments_settles_witness :
  let h := handle_nowpayments_webhook (2 * BILLING_PERIOD) example_ipn "digest" in
  exists t, h example_paying = (t, Ret tt) /\ h t = (t, Ret tt) /\
    (su_status <$> (map_to_list (subscriptions example_paying)).*2) = [PAST_DUE] /\
    (su_status <$> (map_to_list (subscriptions t)).*2) = [SUB_ACTIVE].
Proof.
  intros h. destruct (h example_paying) as [t [[]|e]] eqn:E.
  2: { assert (match (h example_paying).2 with Ret _ => true | Exc _ => false end = true) as H by (vm_compute; reflexivity).
       rewrite E in H. discriminate H. }
  exists t. split; [reflexivity|].
  set (i := mkIpn (str_uuid (first_invoice example_suspended)) (Some "partially_paid") (Dec 95 (-1)) (Dec 10 0)).
  destruct (select (same_payment NOWPAYMENTS (ipn_payment_id i)) (payments example_paying)) as [|[k p] []] eqn:Hsel;
    [vm_compute in Hsel; discriminate Hsel| |vm_compute in Hsel; discriminate Hsel].
  destruct (invoices example_paying !! pa_invoice_id p) as [v|] eqn:Hv.
  2: { vm_compute in Hsel. injection Hsel as <- <-. vm_compute in Hv. discriminate Hv. }
  pose proof (nowpayments_settles (2 * BILLING_PERIOD) (2 * BILLING_PERIOD) example_ipn "digest" example_paying t i k p v
    example_paying_ok E ltac:(vm_compute; reflexivity) ltac:(vm_compute; reflexivity) Hsel) as H.
  vm_compute in Hsel. injection Hsel as <- <-. vm_compute in Hv. injection Hv as <-.
  destruct H as (_ & _ & _ & Hagain); [reflexivity|vm_compute; reflexivity|reflexivity|].
  split; [exact Hagain|]. split; [vm_compute; reflexivity|].
  assert (t = (h example_paying).1) as -> by (rewrite E; reflexivity). vm_compute. reflexivity.
Defined.

(** The shortfall subtracts an amount of coins from an amount of money: nine and a half
    coins, whatever they are worth, settle an invoice of ten dollars. *)
Example coins_count_as_dollars id :
  ipn_settles (mkIpn id (Some "partially_paid") (Dec 95 (-1)) (Dec 10 0)) = true.
Proof. reflexivity. Qed.
