(* ===== verification/Worker.v ===== *)
(** * The worker process: [backend/app/worker.py]

    The dispatch tables of the job queue, a turn of the worker, and what becomes of
    the resource of a job that fails for good. *)

From S2P Require Import Prelude PyStd Queue ControlPlane Placement Platform Orchestrator Access Organizations.
From S2P Require Import Databases Failover Backups Billing.

(** ** Model *)

Section worker.
Context `{Env : Platform}.
(** [str(exc)] *)
Context (str_exn : exn -> string).

(** [{**HANDLERS, **BACKUP_HANDLERS, **WEBHOOK_HANDLERS}]: the last one wins. *)
Definition ALL_HANDLERS (now : timestamp) (ty : string) : option (uuid -> M Cp (option payload)) :=
  match WEBHOOK_HANDLERS now ty with
  | Some h => Some h
  | None => match BACKUP_HANDLERS now ty with Some h => Some h | None => HANDLERS now ty end
  end.

(** [str(job.resource_id)] *)
Definition resource_text (id : option uuid) : jval := match id with Some id => JId id | None => JStr "None" end.

Definition mark_database_failed (now : timestamp) (job : uuid) : M Cp unit :=
  j ← job_object job;
  o ← cp_get_opt databases (jb_resource_id j);
  match jb_resource_id j, o with
  | Some id, Some _ =>
      set_database id (fun d => d <| db_status := DB_FAILED |>);;
      add_database_event (mkDatabaseEvent id (Some job) "DATABASE_JOB_FAILED"
        (<["job_type" := JStr (jb_type j)]> {["error" := opt_str (error (jb_core j))]}))
  | _, _ => mret tt
  end;;
  emit_event now (jb_organization_id j) "database.failed" {["database_id" := resource_text (jb_resource_id j)]}.

Definition mark_backup_failed (now : timestamp) (job : uuid) : M Cp unit :=
  j ← job_object job;
  o ← cp_get_opt backups (jb_resource_id j);
  match jb_resource_id j, o with
  | Some id, Some _ => set_backup id (fun b => b <| bk_status := BK_FAILED |> <| bk_error := error (jb_core j) |>)
  | _, _ => mret tt
  end;;
  emit_event now (jb_organization_id j) "backup.failed" {["backup_id" := resource_text (jb_resource_id j)]}.

Definition mark_webhook_delivery_failed (job : uuid) : M Cp unit :=
  j ← job_object job;
  o ← cp_get_opt webhook_deliveries (jb_resource_id j);
  match jb_resource_id j, o with
  | Some id, Some _ => set_delivery id (fun d => d <| wd_status := WD_FAILED |> <| wd_error := error (jb_core j) |>)
  | _, _ => mret tt
  end.

(** No entry for [verify_backup]. *)
Definition TERMINAL_FAILURE_HANDLERS (now : timestamp) (ty : string) : option (uuid -> M Cp unit) :=
  dict_get [("create_database", mark_database_failed now); ("delete_database", mark_database_failed now);
            ("suspend_database", mark_database_failed now); ("resume_database", mark_database_failed now);
            ("restore_database", mark_database_failed now); ("migrate_database", mark_database_failed now);
            ("backup_database", mark_backup_failed now); ("deliver_webhook", mark_webhook_delivery_failed)] ty.

Definition cp_run_once (now : timestamp) : M Cp bool :=
  run_once str_exn now (ALL_HANDLERS now) (TERMINAL_FAILURE_HANDLERS now).

(** ** Lemmas *)

Lemma terminal_cases now ty h :
  TERMINAL_FAILURE_HANDLERS now ty = Some h ->
  h = mark_database_failed now \/ h = mark_backup_failed now \/ h = mark_webhook_delivery_failed.
Proof.
  intros H%dict_get_In. repeat (apply elem_of_cons in H as [H|H]; [injection H as -> ->; auto|]).
  by apply elem_of_nil in H.
Qed.

(** Any handler that only ever adds jobs. *)
#[local] Hint Resolve kept_emit_event kept_call_agent kept_add_credential kept_get_or_create
  kept_set_database kept_add_database_event pres_get_primary_node pres_get_object_or_raise : pres.

Lemma kept_set_backup job j id f : pres (job_kept job j) (set_backup id f).
Proof. by apply pres_modify. Qed.
Lemma kept_set_delivery job j id f : pres (job_kept job j) (set_delivery id f).
Proof. by apply pres_modify. Qed.
Lemma kept_new_cluster job j node region iso : pres (job_kept job j) (new_cluster node region iso).
Proof. intros u Hu. rewrite new_cluster_run. exact Hu. Qed.
Lemma kept_select_node job j now region iso a b c : pres (job_kept job j) (select_node_and_cluster now region iso a b c).
Proof. apply pres_select_node_and_cluster. Qed.
#[local] Hint Resolve kept_set_backup kept_set_delivery kept_new_cluster kept_select_node : pres.

Lemma kept_all_handlers now ty h job j id : ALL_HANDLERS now ty = Some h -> pres (job_kept job j) (h id).
Proof.
  unfold ALL_HANDLERS. destruct (WEBHOOK_HANDLERS now ty) as [w|] eqn:Ew.
  - intros [= <-]. revert Ew. unfold WEBHOOK_HANDLERS. case_decide; intros [= <-].
    unfold execute_deliver_webhook. pres_go.
  - destruct (BACKUP_HANDLERS now ty) as [b|] eqn:Eb; [|apply kept_handlers].
    intros [= <-]. revert Eb. unfold BACKUP_HANDLERS. repeat case_decide; intros [= <-].
    + unfold execute_backup_database. pres_go.
    + unfold execute_restore_database. pres_go.
    + unfold execute_verify_backup. pres_go.
Qed.

Lemma frames_all_handlers now ty h id : ALL_HANDLERS now ty = Some h -> frames id (h id).
Proof.
  intros Hh s [c Hc]. apply job_of_core in Hc as (j & Hj & Hcj).
  pose proof (kept_all_handlers _ _ _ id j id Hh s Hj) as Hk. unfold job_kept in Hk.
  unfold core_of. change (jobs (h id s).1) with (cp_jobs (h id s).1). change (jobs s) with (cp_jobs s).
  rewrite Hk. change (cp_jobs s !! id = Some j) in Hj. by rewrite Hj.
Qed.

Lemma kept_terminal now ty h job j id : TERMINAL_FAILURE_HANDLERS now ty = Some h -> pres (job_kept job j) (h id).
Proof.
  intros [-> | [-> | ->]]%terminal_cases;
    [unfold mark_database_failed|unfold mark_backup_failed|unfold mark_webhook_delivery_failed]; pres_go.
Qed.

Lemma cp_get_opt_total {V} (table : Cp -> gmap uuid V) id s :
  cp_get_opt table id s = (s, Ret (id ≫= fun id => table s !! id)).
Proof. by destruct id. Qed.

(** The terminal handlers never raise. *)
Lemma terminal_total now ty h id s j :
  TERMINAL_FAILURE_HANDLERS now ty = Some h -> cp_jobs s !! id = Some j -> exists t, h id s = (t, Ret tt).
Proof.
  intros Hh Hj.
  assert (job_object id s = (s, Ret j)) as Ej by (by apply job_object_run).
  apply terminal_cases in Hh as [-> | [-> | ->]].
  - unfold mark_database_failed. unfold mbind at 1, M_bind at 1. rewrite Ej.
    unfold mbind at 1, M_bind at 1. rewrite cp_get_opt_total.
    destruct (jb_resource_id j) as [r|]; simpl; [destruct (databases s !! r)|];
      unfold mbind at 1, M_bind at 1; simpl; apply emit_event_total.
  - unfold mark_backup_failed. unfold mbind at 1, M_bind at 1. rewrite Ej.
    unfold mbind at 1, M_bind at 1. rewrite cp_get_opt_total.
    destruct (jb_resource_id j) as [r|]; simpl; [destruct (backups s !! r)|];
      unfold mbind at 1, M_bind at 1; simpl; apply emit_event_total.
  - unfold mark_webhook_delivery_failed. unfold mbind at 1, M_bind at 1. rewrite Ej.
    unfold mbind at 1, M_bind at 1. rewrite cp_get_opt_total.
    destruct (jb_resource_id j) as [r|]; simpl; [destruct (webhook_deliveries s !! r)|]; by eexists.
Qed.

Lemma kept_set_core k j id f : k <> id -> pres (job_kept k j) (set_core id f).
Proof.
  intros Hne. apply pres_modify. intros s Hs. unfold job_kept. simpl. by rewrite lookup_alter_ne.
Qed.

Lemma claim_kept now s t r id k j :
  claim_next_job now s = (t, r) -> r = Ret (Some id) -> k <> id -> job_kept k j s -> job_kept k j t.
Proof.
  unfold claim_next_job, mbind at 1, M_bind at 1, gets. destruct (min_by _ _) as [[id' j']|]; [|by intros [= <- <-]].
  intros H Hr Hne Hs. subst r. apply bind_Ret in H as (u & ? & Hset & [-> [= ->]]%mret_Ret).
  refine (pres_run _ _ _ _ _ (kept_set_core k j id' _ Hne) Hset Hs).
Qed.

(** A turn of the worker touches no job row but the one it claims. *)
Lemma run_once_kept now s t1 id k j :
  claim_next_job now s = (t1, Ret (Some id)) -> k <> id -> job_kept k j s -> job_kept k j (cp_run_once now s).1.
Proof.
  intros Hc Hne Hs. pose proof (claim_kept _ _ _ _ _ _ _ Hc eq_refl Hne Hs) as H1.
  unfold cp_run_once, run_once. unfold mbind at 1, M_bind at 1.
  rewrite (proj2 (atomic_Ret _ s t1 (Some id)) Hc).
  assert (forall f, pres (job_kept k j) (set_core id f)) as Hset by (intros f; by apply kept_set_core).
  match goal with |- job_kept k j (?m t1).1 => enough (pres (job_kept k j) m) as Hp by exact (Hp t1 H1) end.
  apply pres_bind; [|auto with pres]. apply pres_atomic, pres_bind; [auto with pres|]. intros j0.
  apply pres_try.
  - destruct (ALL_HANDLERS now (job_type j0)) as [h|] eqn:Eh; [|by intros u Hu].
    change (pres (job_kept k j) (r ← h id; mark_succeeded now id r)).
    apply pres_bind; [by eapply kept_all_handlers|]. intros r. apply Hset.
  - intros e m [= <-]. unfold mark_failed_or_retry. pres_go. by eapply kept_terminal.
Qed.

(** A turn of the worker settles the job it claims. *)
Lemma cp_run_once_settles now s id c t1 :
  claim_next_job now s = (t1, Ret (Some id)) -> core_of s id = Some c ->
  exists t c', cp_run_once now s = (t, Ret true) /\ core_of t id = Some c' /\
    attempts c' = attempts c + 1 /\ max_attempts c' = max_attempts c /\ settled now c c'.
Proof.
  intros Hcl Hc. eapply run_once_settles; [exact Hcl|exact Hc| |].
  - intros ty h Hh. by eapply frames_all_handlers.
  - intros ty h Hh u [cu Hu]. apply job_of_core in Hu as (j & Hj & Hcj). change (cp_jobs u !! id = Some j) in Hj.
    destruct (terminal_total now ty h id u j Hh Hj) as [v Hv]. exists v. split; [done|].
    pose proof (kept_terminal now ty h id j id Hh u Hj) as Hk. rewrite Hv in Hk. unfold job_kept in Hk. simpl in Hk.
    unfold core_of. change (jobs v) with (cp_jobs v). change (jobs u) with (cp_jobs u). by rewrite Hk, Hj.
Qed.

(** *** Histories

    Turns of the worker, with the jobs they claim, between requests and passes that add
    jobs and change anything else. *)
Inductive turns : Cp -> list uuid -> Cp -> Prop :=
| turns_nil s : turns s [] s
| turns_job now s t1 id ids t :
    claim_next_job now s = (t1, Ret (Some id)) -> turns (cp_run_once now s).1 ids t -> turns s (id :: ids) t
| turns_other s u ids t :
    (forall k j, cp_jobs s !! k = Some j -> cp_jobs u !! k = Some j) -> turns u ids t -> turns s ids t.

Definition claims_of (id : uuid) (ids : list uuid) : Z := Z.of_nat (length (filter (fun k => k = id) ids)).

Lemma claims_of_cons id k ids : claims_of id (k :: ids) = (if decide (k = id) then 1 else 0) + claims_of id ids.
Proof. unfold claims_of. rewrite filter_cons. case_decide; simpl length; lia. Qed.

Definition resting (c : JobCore) : Prop := core_ok c /\ status c <> RUNNING.

Lemma claim_due now s t1 id c :
  claim_next_job now s = (t1, Ret (Some id)) -> core_of s id = Some c -> due now c = true.
Proof.
  intros Hcl Hc. destruct (claim_next_job_run _ _ _ _ Hcl) as [(H & _)|(id' & c' & [= <-] & Hc' & Hd & _)]; [done|].
  rewrite Hc in Hc'. by injection Hc' as <-.
Qed.

Lemma settled_resting now c c' :
  resting c -> due now c = true -> attempts c' = attempts c + 1 -> max_attempts c' = max_attempts c ->
  settled now c c' -> resting c'.
Proof.
  intros [(H1 & H2 & H3) H4] Hd Ha Hm Hs. apply due_waiting, H2 in Hd.
  destruct Hs as [Hst _ _|Hst Hlt _|Hst _ _]; (split; [split_and!; [lia| |lia]|by rewrite Hst]); rewrite Hst; intuition (try congruence); lia.
Qed.

Lemma turns_count s ids t id c :
  turns s ids t -> core_of s id = Some c -> resting c ->
  exists c', core_of t id = Some c' /\ attempts c' = attempts c + claims_of id ids /\
    max_attempts c' = max_attempts c /\ resting c'.
Proof.
  intros Ht. revert c. induction Ht as [s|now s t1 k ids t Hcl _ IH|s u ids t Hu _ IH]; intros c Hc Hr.
  - exists c. split_and!; [done| |done|done]. unfold claims_of. simpl. lia.
  - rewrite claims_of_cons. case_decide as E.
    + subst k. destruct (cp_run_once_settles now s id c t1 Hcl Hc) as (u & c1 & Hrun & Hc1 & Ha & Hm & Hset).
      rewrite Hrun in IH. cbn [fst] in IH.
      destruct (IH c1 Hc1) as (c' & Hc' & Ha' & Hm' & Hr').
      { eapply settled_resting; [done|by eapply claim_due|done..]. }
      exists c'. split_and!; [done|lia|congruence|done].
    + apply job_of_core in Hc as (j & Hj & <-). change (job_kept id j s) in Hj.
      pose proof (run_once_kept now s t1 k id j Hcl ltac:(congruence) Hj) as Hk. unfold job_kept in Hk.
      destruct (IH (core j)) as (c' & Hc' & Ha' & Hm' & Hr'); [|done|exists c'; split_and!; [done|lia|done|done]].
      unfold core_of. change (jobs (cp_run_once now s).1) with (cp_jobs (cp_run_once now s).1). by rewrite Hk.
  - apply job_of_core in Hc as (j & Hj & <-). apply (IH (core j)); [|done].
    unfold core_of. change (jobs u) with (cp_jobs u). by rewrite (Hu id j Hj).
Qed.

(** ** Properties *)


End worker.

(** ** Examples *)

Definition example_str_exn (e : exn) : string := "failed".

(** An agent that cannot be reached the first time. *)
Definition flaky_agent (log : list AgentCall) (call : AgentCall) : outcome payload :=
  match log with [] => Exc AgentUnreachableError | _ => Ret ∅ end.
Lemma flaky_agent_raises log call e :
  flaky_agent log call = Exc e -> e = AgentUnreachableError \/ exists code, e = AgentRequestError code.
Proof. destruct log; [|done]. intros [= <-]. by left. Qed.
Definition flaky_platform : Platform := {|
  uuid4 := fun s => fresh (used_ids s);
  uuid4_fresh := example_fresh;
  token_urlsafe := fun _ => "token-of-24-random-bytes";
  encrypt_secret := fun x => x;
  decrypt_secret := fun x => Ret x;
  agent := flaky_agent;
  agent_raises := flaky_agent_raises;
  http_post := fun _ _ _ => Ret 200;
|}.

Definition flaky_turn (now : timestamp) (s : Cp) : Cp := (@cp_run_once flaky_platform example_str_exn now s).1.

(** The creation of database 30 is queued, then its deletion. *)
Definition example_queue : Cp :=
  example_cp <| cp_jobs := <[40%positive := example_job "create_database" (Some 2%positive) {["database_id" := JId 30]}]>
    {[41%positive := (example_job "delete_database" (Some 2%positive) {["database_id" := JId 30]})
        <| jb_core := new_core 1 |>]} |>.

(** A deletion does not cancel a creation that is waiting to be tried again:
    the database is deleted, then created again by the retry, and runs. *)
Theorem deleted_database_resurrected :
  let s1 := flaky_turn 10 example_queue in
  let s2 := flaky_turn 20 s1 in
  let s3 := flaky_turn (seconds 6) s2 in
  (status <$> core_of s1 40%positive) = Some RETRYING /\
  (db_status <$> databases s2 !! 30%positive) = Some DB_DELETED /\
  (status <$> core_of s2 41%positive) = Some SUCCEEDED /\
  (db_status <$> databases s3 !! 30%positive) = Some DB_RUNNING.
Proof. vm_compute. split_and!; reflexivity. Qed.



(** Database 30 runs on node 9, whose agent goes down before the source is dropped. *)
Definition example_migrating : Cp :=
  (execute_create_database 0 40 (example_cp <| nodes ::= <[8%positive := example_node "10.0.0.8"]> |>)).1.

(** When dropping the source fails the migration raises after the cutover;
    the retry finds the database already there and asks the agents nothing: the copy on
    the source is never dropped. *)
Theorem migration_leaves_source :
  let s := (execute_migrate_database 42 example_migrating).1 in
  (execute_migrate_database 42 example_migrating).2 = Exc AgentUnreachableError /\
  (db_connection_host <$> databases example_migrating !! 30%positive) = Some (Some "10.0.0.9") /\
  (db_connection_host <$> databases s !! 30%positive) = Some (Some "10.0.0.8") /\
  (execute_migrate_database 42 s).2 = Ret (Some {["already_there" := JBool true]}) /\
  length (agent_log (execute_migrate_database 42 s).1) = length (agent_log s).
Proof. vm_compute. split_and!; reflexivity. Qed.
