(* ===== verification/Accounts.v ===== *)
(** * Accounts, sessions and API keys: [backend/app/api/v1/endpoints/auth.py],
    [endpoints/api_keys.py], [services/oauth_service.py]

    [Accounts] is what signs and verifies: argon2, PyJWT, pyotp, and the two OAuth
    providers. *)

From Stdlib Require Import Ascii.
From S2P Require Import Prelude PyStd Queue ControlPlane Placement Platform Access Organizations Orchestrator.
From S2P Require Import Databases Billing.

(** ** Model *)

(** What [fetch_user_info] returns. *)
Record OAuthInfo := mkOAuthInfo {
  oi_email_verified : bool;
  oi_email : option string;
  oi_provider_account_id : string;
}.

Class Accounts `{Auth : Verifier} := {
  hash_password : Cp -> string -> string;
  verify_password : string -> string -> bool;
  verify_hash_password : forall s p, verify_password p (hash_password s p) = true;
  generate_mfa_secret : Cp -> string;
  verify_totp_code : timestamp -> string -> string -> bool;
  (** [create_access_token], which [decode_access_token] reads until it expires. *)
  create_access_token : timestamp -> uuid -> Z -> string;
  access_token_lifetime : Z;
  decode_created : forall now later id version, later < whole_seconds (now + access_token_lifetime) ->
    decode_access_token later (create_access_token now id version) = Some (id, version);
  (** A JWT begins with the base64 of a JSON object, never with [edb_]. *)
  token_is_no_key : forall now id version, extract_api_key_prefix (create_access_token now id version) = None;
  (** [secrets.token_hex(4)] and [secrets.token_urlsafe(32)]. *)
  api_key_parts : Cp -> string * string;
  api_key_prefix_hex : forall s, String.length (api_key_parts s).1 = API_KEY_PREFIX_LEN /\
    String.index 0 "_" (api_key_parts s).1 = None /\ (api_key_parts s).2 <> "";
  hash_api_key : Cp -> string -> string;
  verify_hash_api_key : forall s k, verify_api_key k (hash_api_key s k) = true;
  (** [_verify_state]: the signed state, its purpose and its provider. *)
  verify_oauth_state : timestamp -> string -> string -> bool;
  (** [exchange_code], then [fetch_user_info]. *)
  oauth_user_info : Cp -> OAuthProviderName -> string -> outcome OAuthInfo;
}.

Section accounts.
Context `{Env : Platform} `{Acc : Accounts}.

Definition session_end (now : timestamp) : timestamp := whole_seconds (now + access_token_lifetime).

Definition set_user (id : uuid) (f : User -> User) : M Cp unit :=
  modify (fun s => s <| users ::= alter f id |>).
Definition add_user (u : User) : M Cp uuid :=
  id ← gets uuid4;
  modify (fun s => s <| users ::= <[id := u]> |>);;
  mret id.

Definition has_email (email : string) (u : User) : bool := bool_decide (ur_email u = email).

Definition notify_welcome (user : uuid) : M Cp unit := notify user "welcome" ∅.

(** *** Registration and login *)

Definition valid_password (p : string) : bool :=
  (10 <=? Z.of_nat (String.length p)) && (Z.of_nat (String.length p) <=? 128).

Definition register (email password : string) : M Cp uuid :=
  require (valid_password password) (HTTPException 422);;
  table ← gets users;
  existing ← scalar_one_or_none (select (has_email email) table);
  require (bool_decide (fst <$> existing = None)) (HTTPException 409);;
  hash ← gets (fun s => hash_password s password);
  user ← add_user (mkUser email (Some hash) false None false None 0);
  record_audit "USER_REGISTERED" "user" (Some user) None (Some user) None None;;
  notify_welcome user;;
  mret user.

Definition password_ok (u : User) (password : string) : bool :=
  match ur_password_hash u with Some hash => verify_password password hash | None => false end.

(** [payload.otp_code and verify_totp_code(user.mfa_secret, payload.otp_code)] *)
Definition otp_ok (now : timestamp) (u : User) (otp_code : option string) : M Cp bool :=
  match otp_code with
  | None | Some "" => mret false
  | Some code => secret ← some_or (ur_mfa_secret u) TypeError; mret (verify_totp_code now secret code)
  end.

(** The audit of a failed login is committed before the exception. *)
Definition login (now : timestamp) (email password : string) (otp_code : option string) : M Cp string :=
  table ← gets users;
  found ← scalar_one_or_none (select (has_email email) table);
  match found with
  | Some (id, u) =>
      if password_ok u password then
        second_factor ← (if ur_mfa_enabled u then otp_ok now u otp_code else mret true);
        if (second_factor : bool) then
          set_user id (fun u => u <| ur_last_login_at := Some now |>);;
          record_audit "LOGIN_SUCCEEDED" "user" (Some id) None (Some id) None None;;
          mret (create_access_token now id (ur_token_version u))
        else
          record_audit "LOGIN_MFA_FAILED" "user" (Some id) None (Some id) None None;;
          raise (HTTPException 401)
      else
        record_audit "LOGIN_FAILED" "user" None None None None None;;
        raise (HTTPException 401)
  | None =>
      record_audit "LOGIN_FAILED" "user" None None None None None;;
      raise (HTTPException 401)
  end.

(** *** OAuth *)

Definition oauth_provider (provider : string) : option OAuthProviderName :=
  dict_get [("google", GOOGLE); ("github", GITHUB)] provider.

Definition linked (provider : OAuthProviderName) (account : string) (a : OAuthAccount) : bool :=
  bool_decide (oa_provider a = provider) && bool_decide (oa_provider_account_id a = account).

Definition add_oauth_account (a : OAuthAccount) : M Cp unit :=
  id ← gets uuid4;
  modify (fun s => s <| oauth_accounts ::= <[id := a]> |>).

(** [ProviderError] stands for [OAuthLoginError]. *)
Definition handle_callback (now : timestamp) (provider code state : string) : M Cp (uuid * User) :=
  p ← some_or (oauth_provider provider) (HTTPException 404);
  require (verify_oauth_state now provider state) ProviderError;;
  answer ← gets (fun s => oauth_user_info s p code);
  info ← match answer with Ret info => mret info | Exc _ => raise ProviderError end;
  require (oi_email_verified info && negb (bool_decide (default "" (oi_email info) = ""))) ProviderError;;
  let email := default "" (oi_email info) in
  links ← gets oauth_accounts;
  existing_link ← scalar_one_or_none (rows (linked p (oi_provider_account_id info)) links);
  match existing_link with
  | Some link =>
      o ← cp_get users (oa_user_id link);
      u ← some_or o AttributeError;
      mret (oa_user_id link, u)
  | None =>
      table ← gets users;
      found ← scalar_one_or_none (select (has_email email) table);
      id ← match found with
           | Some (id, _) => mret id
           | None => add_user (mkUser email None false None false None 0)
           end;
      add_oauth_account (mkOAuthAccount id p (oi_provider_account_id info) email);;
      match found with
      | Some _ => mret tt
      | None => record_audit "USER_REGISTERED" "user" (Some id) None (Some id) None None;; notify_welcome id
      end;;
      u ← obj users id;
      mret (id, u)
  end.

(** The token travels to the front end in the redirection. *)
Definition oauth_callback (now : timestamp) (provider code state : string) : M Cp string :=
  transaction (
    x ← handle_callback now provider code state;
    let '(id, u) := x in
    require (negb (ur_mfa_enabled u)) ProviderError;;
    set_user id (fun u => u <| ur_last_login_at := Some now |>);;
    record_audit "LOGIN_SUCCEEDED" "user" (Some id) None (Some id) None None;;
    mret (create_access_token now id (ur_token_version u))).

(** *** Sessions and second factor *)

Definition session_request {A} (now : timestamp) (credentials : option string) (m : uuid * User -> M Cp A) : M Cp A :=
  user ← get_current_user now credentials;
  transaction (m user).

Definition revoke_all_sessions (user : uuid * User) : M Cp unit :=
  set_user user.1 (fun u => u <| ur_token_version ::= Z.add 1 |>);;
  record_audit "ALL_SESSIONS_REVOKED" "user" (Some user.1) None (Some user.1) None None.

Definition enable_mfa (user : uuid * User) : M Cp string :=
  secret ← gets generate_mfa_secret;
  set_user user.1 (fun u => u <| ur_mfa_secret := Some secret |>);;
  mret secret.

Definition verify_mfa (now : timestamp) (otp_code : string) (user : uuid * User) : M Cp unit :=
  require (match ur_mfa_secret user.2 with
           | None | Some "" => false
           | Some secret => verify_totp_code now secret otp_code
           end) (HTTPException 400);;
  set_user user.1 (fun u => u <| ur_mfa_enabled := true |>);;
  record_audit "MFA_ENABLED" "user" (Some user.1) None (Some user.1) None None.

(** *** API keys *)

Definition add_api_key (k : ApiKey) : M Cp uuid :=
  id ← gets uuid4;
  modify (fun s => s <| api_keys ::= <[id := k]> |>);;
  mret id.

(** The key itself is only ever in the answer. *)
Definition create_api_key (organization : uuid) (name : string) (current_user : uuid * User) (membership : Membership) :
    M Cp (uuid * string) :=
  require_permission (ms_role membership) "api_key:manage";;
  parts ← gets api_key_parts;
  let full_key := full_api_key parts.1 parts.2 in
  hash ← gets (fun s => hash_api_key s full_key);
  key ← add_api_key (mkApiKey organization (Some current_user.1) name parts.1 hash None None);
  record_audit "API_KEY_CREATED" "api_key" (Some key) (Some organization) (Some current_user.1) None
    (Some (<["name" := JStr name]> {["key_prefix" := JStr parts.1]}));;
  mret (key, full_key).

Definition revoke_api_key (now : timestamp) (organization api_key : uuid) (current_user : uuid * User)
    (membership : Membership) : M Cp unit :=
  require_permission (ms_role membership) "api_key:manage";;
  o ← cp_get api_keys api_key;
  k ← some_or o (HTTPException 404);
  require (bool_decide (ak_organization_id k = organization)) (HTTPException 404);;
  modify (fun s => s <| api_keys ::= alter (fun k => k <| ak_revoked_at := Some now |>) api_key |>);;
  record_audit "API_KEY_REVOKED" "api_key" (Some api_key) (Some organization) (Some current_user.1) None None.

(** *** Notifications *)

Definition mark_notification_read (now : timestamp) (notification : uuid) (user : uuid * User) : M Cp unit :=
  o ← cp_get notifications notification;
  n ← some_or o (HTTPException 404);
  require (bool_decide (nt_user_id n = user.1)) (HTTPException 404);;
  modify (fun s => s <| notifications ::= alter (fun n => n <| nt_read_at := Some now |>) notification |>).

(** ** Lemmas *)

Lemma substring_all x : String.substring 0 (String.length x) x = x.
Proof. induction x as [|c x IH]; simpl; [done|by rewrite IH]. Qed.
Lemma substring_app_l p x : String.substring 0 (String.length p) (p +:+ x) = p.
Proof. induction p as [|c p IH]; simpl; [by destruct x|by rewrite IH]. Qed.
Lemma substring_app_r p x : String.substring (String.length p) (String.length x) (p +:+ x) = x.
Proof. induction p as [|c p IH]; simpl; [apply substring_all|done]. Qed.
Lemma substring_app_rest p x : String.substring (String.length p) (String.length (p +:+ x) - String.length p) (p +:+ x) = x.
Proof. rewrite length_str_app. replace (_ + _ - _)%nat with (String.length x) by lia. apply substring_app_r. Qed.

Lemma index_sep p x : String.index 0 "_" p = None -> String.index 0 "_" (p +:+ "_" +:+ x) = Some (String.length p).
Proof.
  induction p as [|c p IH]; intros H; [by destruct x|].
  change (match (if String.prefix "_" (String c p) then Some 0%nat
                 else match String.index 0 "_" p with Some n => Some (S n) | None => None end) with
          | r => r end = None) in H.
  change ((if String.prefix "_" (String c (p +:+ "_" +:+ x)) then Some 0%nat
           else match String.index 0 "_" (p +:+ "_" +:+ x) with Some n => Some (S n) | None => None end)
          = Some (S (String.length p))).
  assert (String.prefix "_" (String c (p +:+ "_" +:+ x)) = String.prefix "_" (String c p)) as ->.
  { cbn [String.prefix]. by destruct (Ascii.ascii_dec _ c), p. }
  destruct (String.prefix "_" (String c p)); [done|].
  destruct (String.index 0 "_" p) as [n|]; [done|]. by rewrite IH.
Qed.

Lemma partition_sep p x : String.index 0 "_" p = None -> partition_at "_" (p +:+ "_" +:+ x) = Some (p, x).
Proof.
  intros H. unfold partition_at. rewrite index_sep by done.
  rewrite substring_app_l. do 2 f_equal.
  rewrite <- str_app_assoc.
  replace (S (String.length p)) with (String.length (p +:+ "_")) by (rewrite length_str_app; simpl; lia).
  apply substring_app_rest.
Qed.

(** Reading the prefix of a generated key gives it back. *)
Lemma extract_full_api_key prefix secret_part :
  String.length prefix = API_KEY_PREFIX_LEN -> String.index 0 "_" prefix = None -> secret_part <> "" ->
  extract_api_key_prefix (full_api_key prefix secret_part) = Some prefix.
Proof.
  intros Hl Hi Hs. unfold extract_api_key_prefix, full_api_key, removeprefix.
  assert (forall x, String.prefix "edb_" ("edb_" +:+ x) = true) as -> by (intros x; simpl; by destruct x).
  assert (forall x, String.substring (String.length "edb_") (String.length ("edb_" +:+ x) - String.length "edb_")
    ("edb_" +:+ x) = x) as ->.
  { intros x. apply (substring_app_rest "edb_"). }
  rewrite partition_sep by done. by rewrite !bool_decide_eq_true_2.
Qed.

Lemma generated_key_prefix s :
  extract_api_key_prefix (full_api_key (api_key_parts s).1 (api_key_parts s).2) = Some (api_key_parts s).1.
Proof. destruct (api_key_prefix_hex s) as (H1 & H2 & H3). by apply extract_full_api_key. Qed.

(** A session token authenticates exactly while its version is the user's. *)
Lemma get_current_user_token now token s id version u :
  extract_api_key_prefix token = None -> decode_access_token now token = Some (id, version) ->
  users s !! id = Some u ->
  get_current_user now (Some token) s =
    (s, if decide (ur_token_version u = version) then Ret (id, u) else Exc (HTTPException 401)).
Proof.
  intros Hp Hd Hu. unfold get_current_user, mbind, M_bind, some_or, mret, M_ret. rewrite Hp, Hd. simpl.
  unfold cp_get, gets. rewrite Hu. unfold require.
  case_decide as E; [by rewrite bool_decide_eq_true_2|by rewrite bool_decide_eq_false_2].
Qed.

(** An API key authenticates its user until it is revoked. *)
Lemma authenticate_key now s id k parts u user :
  let full := full_api_key parts.1 parts.2 in
  extract_api_key_prefix full = Some parts.1 ->
  select (fun k => bool_decide (ak_key_prefix k = parts.1)) (api_keys s) = [(id, k)] ->
  verify_api_key full (ak_key_hash k) = true -> ak_user_id k = Some user -> users s !! user = Some u ->
  (get_current_user now (Some full) s).2 =
    if decide (ak_revoked_at k = None) then Ret (user, u) else Exc (HTTPException 401).
Proof.
  intros full Hp Hsel Hv Hk Hu. unfold get_current_user, authenticate_api_key.
  unfold mbind, M_bind, some_or, mret, M_ret. rewrite Hp. unfold gets at 1. rewrite Hsel. cbn [scalar_one_or_none].
  unfold mret, M_ret. cbn [fst snd]. unfold require.
  case_decide as E; [rewrite bool_decide_eq_true_2 by done|by rewrite bool_decide_eq_false_2].
  unfold mret, M_ret. rewrite Hk, Hv. unfold cp_get, gets, modify. by rewrite Hu.
Qed.

(** ** Properties *)


(** Signing out everywhere refuses every session token issued to the user so
    far, the caller's included, and a token issued afterwards works. *)
Theorem revoke_all_signs_out now later credentials s t id u :
  (get_current_user now credentials s).2 = Ret (id, u) ->
  session_request now credentials revoke_all_sessions s = (t, Ret tt) ->
  (forall token version, extract_api_key_prefix token = None -> decode_access_token later token = Some (id, version) ->
     version <= ur_token_version u -> get_current_user later (Some token) t = (t, Exc (HTTPException 401))) /\
  (later < session_end now ->
   get_current_user later (Some (create_access_token now id (1 + ur_token_version u))) t =
     (t, Ret (id, u <| ur_token_version ::= Z.add 1 |>))).
Proof.
  intros Hc H. destruct (get_current_user now credentials s) as [s1 r] eqn:E. cbn [snd] in Hc. subst r.
  unfold session_request in H. apply bind_Ret in H as (s1' & user & E' & H). rewrite E in E'. injection E' as <- <-.
  apply get_current_user_run in E as (Hu & Es & _). cbn [fst snd] in Hu.
  assert (users s1 !! id = Some u) as Hu1 by (by rewrite Es).
  assert (users t !! id = Some (u <| ur_token_version ::= Z.add 1 |>)) as Ht.
  { unfold transaction in H. destruct (revoke_all_sessions (id, u) s1) as [t' [x|e]] eqn:Er; [|done].
    injection H as ->. unfold revoke_all_sessions, set_user, record_audit in Er.
    apply bind_Ret in Er as (? & ? & ->%modify_Ret & ->%modify_Ret). simpl. by rewrite lookup_alter_eq, Hu1. }
  split.
  - intros token version Hp Hd Hv. erewrite get_current_user_token; [|done..]. cbn [ur_token_version upd_field].
    rewrite decide_False; [done|]. lia.
  - intros Hl. erewrite get_current_user_token; [|apply token_is_no_key|by apply decode_created|done].
    cbn [ur_token_version upd_field]. by rewrite decide_True.
Qed.

(** The key in the answer to [create_api_key] authenticates its creator, by its
    prefix and its hash, which is all that is stored; once it is revoked it is refused. *)
Theorem api_key_lifecycle now organization name user membership s t id full_key :
  create_api_key organization name user membership s = (t, Ret (id, full_key)) ->
  users s !! user.1 = Some user.2 ->
  (forall k v, api_keys s !! k = Some v -> ak_key_prefix v <> (api_key_parts s).1) ->
  (get_current_user now (Some full_key) t).2 = Ret user /\
  forall later other caller revoked v,
    revoke_api_key later organization id other caller t = (v, Ret revoked) ->
    (get_current_user now (Some full_key) v).2 = Exc (HTTPException 401).
Proof.
  intros H Hu Hfresh. unfold create_api_key, add_api_key, record_audit in H.
  apply bind_Ret in H as (? & ? & [-> _]%require_permission_run & H).
  apply bind_Ret in H as (? & parts & [-> Hparts]%gets_Ret & H). cbv zeta in H.
  apply bind_Ret in H as (? & hash & [-> Hhash]%gets_Ret & H).
  apply bind_Ret in H as (t1 & key & Hadd & H).
  apply bind_Ret in Hadd as (? & ? & [-> ->]%gets_Ret & Hadd).
  apply bind_Ret in Hadd as (? & ? & ->%modify_Ret & [-> ->]%mret_Ret).
  apply bind_Ret in H as (? & ? & ->%modify_Ret & [-> [= -> ->]]%mret_Ret).
  rewrite <- Hparts in Hfresh.
  set (k := mkApiKey organization (Some user.1) name parts.1 hash None None).
  assert (select (fun k => bool_decide (ak_key_prefix k = parts.1)) (<[uuid4 s := k]> (api_keys s)) = [(uuid4 s, k)]) as Hsel.
  { apply select_singleton; [by rewrite lookup_insert_eq|by apply bool_decide_eq_true|].
    intros k' v' [[<- <-]|[_ Hk']]%lookup_insert_Some Hv'%bool_decide_eq_true; [done|]. by destruct (Hfresh _ _ Hk'). }
  assert (extract_api_key_prefix (full_api_key parts.1 parts.2) = Some parts.1) as Hpre
    by (rewrite Hparts; apply generated_key_prefix).
  assert (verify_api_key (full_api_key parts.1 parts.2) hash = true) as Hver by (rewrite Hhash; apply verify_hash_api_key).
  split.
  - erewrite authenticate_key; [|exact Hpre|exact Hsel|exact Hver|done|exact Hu].
    rewrite decide_True by done. by destruct user.
  - intros later other caller revoked v H. unfold revoke_api_key, record_audit in H.
    apply bind_Ret in H as (? & ? & [-> _]%require_permission_run & H).
    apply bind_Ret in H as (? & ? & [-> ->]%cp_get_run & H).
    apply bind_Ret in H as (? & k' & [Hk' ->]%some_or_Ret & H).
    apply bind_Ret in H as (? & ? & [_ ->]%require_Ret & H).
    apply bind_Ret in H as (? & ? & ->%modify_Ret & ->%modify_Ret).
    erewrite (authenticate_key now _ (uuid4 s) (k <| ak_revoked_at := Some later |>) parts user.2 user.1);
      [by rewrite decide_False|exact Hpre| |exact Hver|done|exact Hu].
    apply (select_alter_one _ _ _ k (fun k => k <| ak_revoked_at := Some later |>) Hsel). by apply bool_decide_eq_true.
Qed.
End accounts.

(** ** Examples

    A token is a binary number: its date of issue, the user and the version. *)

Definition example_decode (later : timestamp) (token : string) : option (uuid * Z) :=
  match token with
  | String "t"%char b =>
      p ← of_bits b;
      x ← decode (A := Z * positive * Z) p;
      if later <? x.1.1 + hours 1 then Some (x.1.2, x.2) else None
  | _ => None
  end.
Definition accounts_verifier : Verifier := {|
  decode_access_token := example_decode;
  verify_api_key := fun key hash => bool_decide (key = hash);
|}.
Definition example_token (now : timestamp) (id : uuid) (version : Z) : string :=
  String "t"%char (bits (encode (now, id, version))).

Lemma example_decode_created now later id version :
  later < whole_seconds (now + hours 1) -> example_decode later (example_token now id version) = Some (id, version).
Proof.
  intros H. assert (later < now + hours 1) as H'.
  { unfold whole_seconds in H. change (seconds 1) with 1000000 in H. pose proof (Z.mul_div_le (now + hours 1) 1000000). lia. }
  clear H. rename H' into H. unfold example_decode, example_token. rewrite of_bits_bits. cbn [mbind option_bind].
  rewrite decode_encode. cbn [mbind option_bind fst snd]. by apply Z.ltb_lt in H as ->.
Qed.

#[local] Existing Instance accounts_verifier.
#[refine] Definition example_accounts : @Accounts accounts_verifier := {|
  hash_password := fun _ p => p;
  verify_password := fun p hash => bool_decide (p = hash);
  generate_mfa_secret := fun s => bits (Pos.of_succ_nat (length (audit_logs s)));
  verify_totp_code := fun _ secret code => bool_decide (secret = code);
  create_access_token := example_token;
  access_token_lifetime := hours 1;
  decode_created := example_decode_created;
  api_key_parts := fun _ => ("0123abcd", "secret");
  hash_api_key := fun _ k => k;
  verify_oauth_state := fun _ _ _ => true;
  oauth_user_info := fun _ _ code => Ret (mkOAuthInfo true (Some code) code);
|}.
Proof.
  - intros s p. by apply bool_decide_eq_true.
  - done.
  - intros s. split_and!; done.
  - intros s k. by apply bool_decide_eq_true.
Defined.
#[local] Existing Instance example_accounts.

Definition example_registered : Cp := (register "dave@x" "correct horse" example_users).1.
Definition example_login : Cp * outcome string := login 0 "dave@x" "correct horse" None example_registered.
Definition dave_token : string := match example_login.2 with Ret t => t | Exc _ => "" end.
Definition dave : uuid := 8.


Lemma revoke_all_signs_out_witness :
  let s := example_login.1 in
  exists t, session_request 60 (Some dave_token) revoke_all_sessions s = (t, Ret tt) /\
    (get_current_user 60 (Some dave_token) s).2 = Ret (dave, mkUser "dave@x" (Some "correct horse") false None false (Some 0) 0) /\
    get_current_user 120 (Some dave_token) t = (t, Exc (HTTPException 401)).
Proof.
  intros s. destruct (session_request 60 (Some dave_token) revoke_all_sessions s) as [t [[]|e]] eqn:E;
    [|apply (f_equal snd) in E; vm_compute in E; discriminate E].
  exists t. split; [reflexivity|].
  assert ((get_current_user 60 (Some dave_token) s).2
    = Ret (dave, mkUser "dave@x" (Some "correct horse") false None false (Some 0) 0)) as Hc by (vm_compute; reflexivity).
  split; [exact Hc|].
  destruct (revoke_all_signs_out 60 120 (Some dave_token) s t _ _ Hc E) as [H _].
  apply (H dave_token 0); [vm_compute; reflexivity|vm_compute; reflexivity|]. simpl. lia.
Defined.

Lemma api_key_lifecycle_witness :
  let owner := mkMembership dave acme OWNER in
  let u := (dave, mkUser "dave@x" (Some "correct horse") false None false None 0) in
  exists t id key v, create_api_key acme "ci" u owner example_registered = (t, Ret (id, key)) /\
    (get_current_user 0 (Some key) t).2 = Ret u /\
    revoke_api_key 5 acme id u owner t = (v, Ret tt) /\
    (get_current_user 0 (Some key) v).2 = Exc (HTTPException 401).
Proof.
  intros owner u. destruct (create_api_key acme "ci" u owner example_registered) as [t [[id key]|e]] eqn:E;
    [|apply (f_equal snd) in E; vm_compute in E; discriminate E].
  destruct (api_key_lifecycle 0 acme "ci" u owner example_registered t id key E) as [Hget Hrev].
  { vm_compute. reflexivity. }
  { intros k v Hk. exfalso. vm_compute in Hk. destruct k; discriminate Hk. }
  destruct (revoke_api_key 5 acme id u owner t) as [v [[]|e]] eqn:Er.
  - exists t, id, key, v. split; [reflexivity|]. split; [exact Hget|]. split; [exact Er|].
    exact (Hrev 5 u owner tt v Er).
  - exfalso. assert (match create_api_key acme "ci" u owner example_registered with
      | (t, Ret (id, _)) => match (revoke_api_key 5 acme id u owner t).2 with Ret _ => true | Exc _ => false end
      | _ => false end = true) as H by (vm_compute; reflexivity).
    rewrite E, Er in H. discriminate H.
Defined.

(** Dave enrols a second factor, then asks for a new one. *)
Definition enrolled : Cp :=
  let s := (session_request 0 (Some dave_token) enable_mfa example_login.1).1 in
  match ur_mfa_secret <$> users s !! dave with
  | Some (Some code) => (session_request 0 (Some dave_token) (verify_mfa 0 code) s).1
  | _ => s
  end.
Definition first_code : string :=
  match ur_mfa_secret <$> users enrolled !! dave with Some (Some code) => code | _ => "" end.

(** Asking to enable the second factor replaces the secret at once, without a
    code and without disabling it: whoever holds a session replaces the factor of the
    account, and its owner can no longer log in with theirs. *)
Theorem enabling_mfa_replaces_the_factor :
  let t := (session_request 0 (Some dave_token) enable_mfa enrolled).1 in
  match (login 5 "dave@x" "correct horse" (Some first_code) enrolled).2 with Ret _ => True | Exc _ => False end /\
  (ur_mfa_enabled <$> users t !! dave) = Some true /\
  (login 5 "dave@x" "correct horse" (Some first_code) t).2 = Exc (HTTPException 401).
Proof. vm_compute. split_and!; reflexivity. Qed.

(** Registration does not check the e-mail, and a provider's login is linked
    to the account that already has it: whoever registers someone else's address with a
    password of their own keeps access to the account its owner opens with Google. *)
Theorem oauth_login_joins_an_unverified_account :
  let s := (register "victim@x" "attacker's password" example_users).1 in
  let r := oauth_callback 0 "google" "victim@x" "state" s in
  let victim := match r.2 with Ret token => (get_current_user 5 (Some token) r.1).2 | Exc e => Exc e end in
  let intruder := match (login 5 "victim@x" "attacker's password" None r.1).2 with
                  | Ret token => (get_current_user 6 (Some token) r.1).2 | Exc e => Exc e end in
  match victim, intruder with Ret (v, _), Ret (i, _) => v = i | _, _ => False end.
Proof. vm_compute. reflexivity. Qed.
