(* ===== verification/Nodes.v ===== *)
(** * Regions and nodes: [backend/app/api/v1/endpoints/nodes.py], [regions.py],
    [core/dependencies.py] ([get_authenticated_node])

    [NodeAuthority] is the certificate authority, and the hashes of tokens and secrets. *)

From S2P Require Import Prelude PyStd Queue ControlPlane Placement Platform Orchestrator Access Organizations.
From S2P Require Import Databases Failover.

(** ** Model *)

Class NodeAuthority := {
  generate_bootstrap_token : Cp -> string * string;
  verify_bootstrap_token : string -> string -> bool;
  generate_node_secret : Cp -> string * string;
  verify_node_secret : string -> string -> bool;
  verify_generated_secret : forall s, verify_node_secret (generate_node_secret s).1 (generate_node_secret s).2 = true;
  (** [ca.sign_node_csr]: the certificate, or [ValueError] for a bad request. *)
  sign_node_csr : string -> uuid -> option string -> outcome string;
}.

Record NodeRegisterRequest := mkNodeRegisterRequest {
  nr_region_code : string;
  nr_csr_pem : string;
  nr_ip_address : option string;
  nr_cpu_total : Z;
  nr_ram_total_mb : Z;
  nr_storage_total_gb : Z;
  nr_agent_port : Z;
  nr_postgres_port : Z;
}.

Section nodes.
Context `{Env : Platform} `{Auth : Verifier} `{Authority : NodeAuthority}.

Definition set_token (id : uuid) (f : NodeRegistrationToken -> NodeRegistrationToken) : M Cp unit :=
  modify (fun s => s <| node_tokens ::= alter f id |>).
Definition set_node (id : uuid) (f : Node -> Node) : M Cp unit :=
  modify (fun s => s <| nodes ::= alter f id |>).
Definition add_node (n : Node) : M Cp uuid :=
  id ← gets uuid4;
  modify (fun s => s <| nodes ::= <[id := n]> |>);;
  mret id.

Definition has_code (code : string) (r : Region) : bool := bool_decide (rg_code r = code).

(** [Field(gt=0)] *)
Definition valid_register (p : NodeRegisterRequest) : bool :=
  (0 <? nr_cpu_total p) && (0 <? nr_ram_total_mb p) && (0 <? nr_storage_total_gb p).

Definition unused_in (region : uuid) (t : NodeRegistrationToken) : bool :=
  bool_decide (rt_region_id t = region) && bool_decide (rt_used_at t = None).
Definition token_matches (now : timestamp) (credentials : string) (t : NodeRegistrationToken) : bool :=
  (now <=? rt_expires_at t) && verify_bootstrap_token credentials (rt_token_hash t).

Definition register_node (now : timestamp) (credentials : option string) (p : NodeRegisterRequest) :
    M Cp (uuid * string * string) :=
  require (valid_register p) (HTTPException 422);;
  credentials ← some_or credentials (HTTPException 401);
  table ← gets regions;
  found ← scalar_one_or_none (select (fun r => has_code (nr_region_code p) r && rg_active r) table);
  region ← some_or found (HTTPException 404);
  tokens ← gets node_tokens;
  let candidates := select (unused_in region.1) tokens in
  token ← some_or (head (filter (fun kt => token_matches now credentials kt.2 = true) candidates)) (HTTPException 401);
  set_token token.1 (fun t => t <| rt_used_at := Some now |>);;
  secret ← gets generate_node_secret;
  node ← add_node (mkNode region.1 (nr_ip_address p) (nr_cpu_total p) (nr_ram_total_mb p) (nr_storage_total_gb p)
                     (nr_agent_port p) (nr_postgres_port p) NODE_ACTIVE None secret.2);
  issued ← match sign_node_csr (nr_csr_pem p) node (nr_ip_address p) with
           | Ret pem => mret pem
           | Exc ValueError => raise (HTTPException 400)
           | Exc e => raise e
           end;
  record_audit "NODE_REGISTERED" "node" (Some node) None None None
    (Some {["region" := JStr (rg_code region.2)]});;
  mret (node, secret.1, issued).

Definition register_node_request (now : timestamp) (credentials : option string) (p : NodeRegisterRequest) :
    M Cp (uuid * string * string) :=
  transaction (register_node now credentials p).

Definition create_registration_token (now : timestamp) (region_code : string) (expires_in_minutes : Z)
    (admin : uuid * User) : M Cp (uuid * string) :=
  table ← gets regions;
  found ← scalar_one_or_none (select (has_code region_code) table);
  region ← some_or found (HTTPException 404);
  token ← gets generate_bootstrap_token;
  id ← gets uuid4;
  modify (fun s => s <| node_tokens ::= <[id := mkNodeRegistrationToken region.1 token.2
                          (now + seconds (60 * expires_in_minutes)) None]> |>);;
  record_audit "NODE_REGISTRATION_TOKEN_CREATED" "node_registration_token" None None (Some admin.1) None
    (Some (<["region" := JStr (rg_code region.2)]> {["expires_at" := JTime (now + seconds (60 * expires_in_minutes))]}));;
  mret (id, token.1).

Definition get_authenticated_node (credentials : option string) (node : uuid) : M Cp Node :=
  credentials ← some_or credentials (HTTPException 401);
  o ← cp_get nodes node;
  n ← some_or o (HTTPException 401);
  require (verify_node_secret credentials (nd_node_secret_hash n)) (HTTPException 401);;
  mret n.

(** The usage figures of the payload are only displayed. *)
Definition heartbeat (now : timestamp) (credentials : option string) (node : uuid) : M Cp unit :=
  transaction (
    get_authenticated_node credentials node;;
    set_node node (fun n => n <| nd_last_heartbeat_at := Some now |>)).

(** [AgentRequestError] is not caught. *)
Definition health_check (node : uuid) (admin : uuid * User) : M Cp bool :=
  o ← cp_get nodes node;
  n ← some_or o (HTTPException 404);
  reachable ← try_except (call_agent (node, n) "GET" "/v1/health" ∅;; mret true)
    (fun e => if decide (e = AgentUnreachableError) then Some (mret false) else None);
  record_audit "NODE_HEALTH_CHECK" "node" (Some node) None (Some admin.1) None None;;
  mret reachable.

(** [code] is unique. *)
Definition create_region (code : string) (admin : uuid * User) : M Cp uuid :=
  table ← gets regions;
  existing ← scalar_one_or_none (select (has_code code) table);
  require (bool_decide (fst <$> existing = None)) (HTTPException 409);;
  id ← gets uuid4;
  modify (fun s => s <| regions ::= <[id := mkRegion code true]> |>);;
  record_audit "REGION_CREATED" "region" (Some id) None (Some admin.1) None (Some {["code" := JStr code]});;
  mret id.

Inductive node_call :=
| RegisterNode (p : NodeRegisterRequest)
| CreateRegistrationToken (region_code : string) (expires_in_minutes : Z)
| Heartbeat (node : uuid)
| HealthCheck (node : uuid)
| CreateRegion (code : string).

Definition node_handle (now : timestamp) (credentials : option string) (call : node_call) : M Cp unit :=
  match call with
  | RegisterNode p => register_node_request now credentials p;; mret tt
  | CreateRegistrationToken code minutes =>
      admin_user_request now credentials (create_registration_token now code minutes);; mret tt
  | Heartbeat node => heartbeat now credentials node
  | HealthCheck node => admin_user_request now credentials (health_check node);; mret tt
  | CreateRegion code => admin_user_request now credentials (create_region code);; mret tt
  end.

(** ** Lemmas *)

(** Nodes are only ever added, and updated in place. *)
Lemma fleet_nodes ns ns' cs ms ds :
  fleet ns cs ms ds -> (forall k, is_Some (ns !! k) -> is_Some (ns' !! k)) -> fleet ns' cs ms ds.
Proof.
  intros [H1 H2 H3 H4] Hn. split; [|done..]. intros k m Hm. destruct (H1 k m Hm). auto.
Qed.

Lemma fleet_set_node id f : pres fleet_ok (set_node id f).
Proof.
  apply pres_modify. intros s Hs. eapply fleet_nodes; [exact Hs|]. intros k. simpl.
  destruct (decide (id = k)) as [<-|]; [rewrite lookup_alter_eq; by intros [n ->]|by rewrite lookup_alter_ne].
Qed.
Lemma fleet_add_node n : pres fleet_ok (add_node n).
Proof.
  unfold add_node. intros s Hs. unfold mbind, M_bind, gets, modify, mret, M_ret. cbn [fst].
  eapply fleet_nodes; [exact Hs|]. intros k Hk. simpl.
  destruct (decide (uuid4 s = k)) as [<-|]; [by rewrite lookup_insert_eq|by rewrite lookup_insert_ne].
Qed.
Lemma pres_get_authenticated_node I credentials node : pres I (get_authenticated_node credentials node).
Proof. unfold get_authenticated_node. pres_go. Qed.
#[local] Hint Resolve fleet_set_node fleet_add_node fleet_record_audit fleet_call_agent pres_get_authenticated_node : pres.

Lemma fleet_admin_user_request {A} now credentials (m : uuid * User -> M Cp A) :
  (forall u, pres fleet_ok (m u)) -> pres fleet_ok (admin_user_request now credentials m).
Proof.
  intros Hm. unfold admin_user_request. apply pres_bind; [by apply pres_get_current_user|]. intros u.
  apply fleet_transaction. apply pres_bind; [unfold require_platform_admin; pres_go|]. intros _. apply Hm.
Qed.

Lemma fleet_node_handle now credentials call : pres fleet_ok (node_handle now credentials call).
Proof.
  destruct call as [p|code minutes|node|node|code]; simpl.
  - apply pres_bind; [|auto with pres]. apply fleet_transaction. unfold register_node, set_token. pres_go.
    by apply pres_modify.
  - apply pres_bind; [|auto with pres]. apply fleet_admin_user_request. intros u. unfold create_registration_token.
    pres_go. by apply pres_modify.
  - apply fleet_transaction. pres_go.
  - apply pres_bind; [|auto with pres]. apply fleet_admin_user_request. intros u. unfold health_check. pres_go.
    apply pres_try; [pres_go|]. intros e k. case_decide; intros [= <-]. apply pres_ret.
  - apply pres_bind; [|auto with pres]. apply fleet_admin_user_request. intros u. unfold create_region.
    pres_go. by apply pres_modify.
Qed.

Definition used (now : timestamp) (t : NodeRegistrationToken) : NodeRegistrationToken := t <| rt_used_at := Some now |>.

Lemma register_node_run now credentials p s t node secret pem :
  register_node now (Some credentials) p s = (t, Ret (node, secret, pem)) ->
  exists region k token,
    node_tokens s !! k = Some token /\ rt_region_id token = region /\ rt_used_at token = None /\
    now <= rt_expires_at token /\ verify_bootstrap_token credentials (rt_token_hash token) = true /\
    node_tokens t = alter (used now) k (node_tokens s) /\ nodes s !! node = None /\
    sign_node_csr (nr_csr_pem p) node (nr_ip_address p) = Ret pem /\
    exists hash, verify_node_secret secret hash = true /\
      nodes t = <[node := mkNode region (nr_ip_address p) (nr_cpu_total p) (nr_ram_total_mb p) (nr_storage_total_gb p)
        (nr_agent_port p) (nr_postgres_port p) NODE_ACTIVE None hash]> (nodes s).
Proof.
  unfold register_node, set_token, add_node, record_audit. intros H.
  apply bind_Ret in H as (? & ? & [_ ->]%require_Ret & H).
  apply bind_Ret in H as (? & c & [[= ->] ->]%some_or_Ret & H).
  apply bind_Ret in H as (? & ? & [-> ->]%gets_Ret & H).
  apply bind_Ret in H as (? & found & [-> Hf]%scalar_one_or_none_Ret & H).
  apply bind_Ret in H as (? & [r region] & [-> ->]%some_or_Ret & H). cbn [fst snd] in H.
  apply bind_Ret in H as (? & ? & [-> ->]%gets_Ret & H). cbv zeta in H.
  apply bind_Ret in H as (? & [k token] & [Hk ->]%some_or_Ret & H). cbn [fst snd] in H.
  apply head_Some_elem_of, list_elem_of_filter in Hk as [Hm [Hk Hu]%elem_of_select]. cbn [fst snd] in Hm, Hk, Hu.
  apply andb_true_iff in Hm as [Hle%Z.leb_le Hver].
  apply andb_true_iff in Hu as [Hr%bool_decide_eq_true Hnone%bool_decide_eq_true].
  apply bind_Ret in H as (? & ? & ->%modify_Ret & H).
  apply bind_Ret in H as (? & sec & [-> Hsec]%gets_Ret & H).
  apply bind_Ret in H as (s1 & n & Hadd & H).
  apply bind_Ret in Hadd as (? & ? & [-> ->]%gets_Ret & Hadd).
  apply bind_Ret in Hadd as (? & ? & ->%modify_Ret & [-> ->]%mret_Ret).
  apply bind_Ret in H as (s2 & issued & Hsign & H).
  apply bind_Ret in H as (s3 & ? & ->%modify_Ret & [-> Hres]%mret_Ret).
  match type of Hres with (_, _, _) = (uuid4 ?u, _, _) => pose proof (uuid4_not_used u) as Hfresh end.
  destruct Hfresh as (_&_&_&_&_&_&_&_&_&_&Hfresh&_). cbn in Hfresh.
  injection Hres as -> -> ->.
  destruct (sign_node_csr _ _ _) as [pem'|e] eqn:Hissued in Hsign; [|by destruct e].
  apply mret_Ret in Hsign as [-> ->].
  exists r, k, token. split_and!; [done..|].
  exists sec.2. split; [rewrite Hsec; apply verify_generated_secret|done].
Qed.

Lemma register_node_refused now credentials p s :
  (forall k token, node_tokens s !! k = Some token -> verify_bootstrap_token credentials (rt_token_hash token) = true ->
     is_Some (rt_used_at token)) ->
  exists e, (register_node now (Some credentials) p s).2 = Exc e.
Proof.
  intros Hused. destruct (register_node now (Some credentials) p s) as [t [[[node secret] pem]|e]] eqn:E; [|by exists e].
  apply register_node_run in E as (r & k & token & Hk & _ & Hn & _ & Hv & _).
  destruct (Hused _ _ Hk Hv) as [x Hx]. congruence.
Qed.

(** ** Properties *)

(** A node is registered with an unused, unexpired token of its region, which is
    spent: no later registration with it succeeds. The node is not eligible for a
    database until its first heartbeat, which the secret in the answer authenticates. *)
Theorem bootstrap_token_registers_one_node now credentials p s t node secret pem :
  register_node now (Some credentials) p s = (t, Ret (node, secret, pem)) ->
  exists k token, node_tokens s !! k = Some token /\ rt_used_at token = None /\ now <= rt_expires_at token /\
    verify_bootstrap_token credentials (rt_token_hash token) = true /\
    nodes s !! node = None /\
    (exists n, nodes t !! node = Some n /\ nd_region_id n = rt_region_id token /\
       forall later, is_eligible_for_placement later n = false) /\
    (forall later, exists u n, heartbeat later (Some secret) node t = (u, Ret tt) /\
       nodes u !! node = Some n /\ is_eligible_for_placement later n = true) /\
    ((forall k' token', node_tokens s !! k' = Some token' ->
        verify_bootstrap_token credentials (rt_token_hash token') = true -> k' = k) ->
     forall later p', exists e, (register_node later (Some credentials) p' t).2 = Exc e).
Proof.
  intros H. apply register_node_run in H as (r & k & token & Hk & Hr & Hn & Hle & Hv & Ht & Hfresh & _ & hash & Hsec & Hnodes).
  exists k, token. split_and!; [done..| | |].
  - eexists. rewrite Hnodes, lookup_insert_eq. split; [done|]. split; [done|]. done.
  - intros later.
    eexists _, _. split; [|split].
    + unfold heartbeat, transaction, get_authenticated_node, mbind, M_bind, some_or, mret, M_ret, cp_get, gets.
      rewrite Hnodes, lookup_insert_eq. cbn [nd_node_secret_hash]. rewrite Hsec. reflexivity.
    + simpl. rewrite Hnodes, lookup_alter_eq, lookup_insert_eq. reflexivity.
    + unfold is_eligible_for_placement, effective_status. simpl. by rewrite Z.sub_diag.
  - intros Honly later p'. apply register_node_refused. intros k' token' Hk' Hv'. rewrite Ht in Hk'.
    destruct (decide (k = k')) as [<-|Hne].
    + rewrite lookup_alter_eq, Hk in Hk'. injection Hk' as <-. by exists now.
    + rewrite lookup_alter_ne in Hk' by done. by destruct Hne; symmetry; eapply Honly.
Qed.
End nodes.

(** ** An example *)

#[export] Instance example_authority : NodeAuthority := {
  generate_bootstrap_token := fun _ => ("bootstrap", "bootstrap");
  verify_bootstrap_token := fun token hash => bool_decide (token = hash);
  generate_node_secret := fun _ => ("secret", "secret");
  verify_node_secret := fun secret hash => bool_decide (secret = hash);
  verify_generated_secret := fun _ => eq_refl;
  sign_node_csr := fun csr _ _ => if bool_decide (csr = "") then Exc ValueError else Ret "certificate";
}.

Definition example_register : NodeRegisterRequest := mkNodeRegisterRequest "eu" "csr" (Some "10.0.0.7") 4 8192 100 9443 5432.
Definition example_tokens : Cp :=
  empty_cp <| regions := {[1%positive := mkRegion "eu" true]} |>
    <| node_tokens := {[2%positive := mkNodeRegistrationToken 1 "bootstrap" (seconds 3600) None]} |>.

Lemma bootstrap_token_registers_one_node_witness :
  exists t node secret pem, register_node 0 (Some "bootstrap") example_register example_tokens = (t, Ret (node, secret, pem)) /\
    exists e, (register_node 5 (Some "bootstrap") example_register t).2 = Exc e.
Proof.
  destruct (register_node 0 (Some "bootstrap") example_register example_tokens) as [t [[[node secret] pem]|e]] eqn:E;
    [|apply (f_equal snd) in E; vm_compute in E; discriminate E].
  exists t, node, secret, pem. split; [reflexivity|].
  destruct (bootstrap_token_registers_one_node 0 "bootstrap" example_register example_tokens t node secret pem E)
    as (k & token & Hk & _ & _ & _ & _ & _ & _ & H).
  apply H. intros k' token' Hk' _.
  change (({[2%positive := mkNodeRegistrationToken 1 "bootstrap" (seconds 3600) None]} : gmap uuid _) !! k = Some token) in Hk.
  change (({[2%positive := mkNodeRegistrationToken 1 "bootstrap" (seconds 3600) None]} : gmap uuid _) !! k' = Some token') in Hk'.
  apply lookup_singleton_Some in Hk as [<- _]. apply lookup_singleton_Some in Hk' as [<- _]. reflexivity.
Defined.
