(* ===== verification/DatabaseOps.v ===== *)
(** * Roles, extensions, the SQL editor and webhooks of an organization:
    [backend/app/api/v1/endpoints/database_roles.py], [database_ops.py],
    [database_sql.py], [webhooks.py], [services/sql_editor.py]

    [Postgres] is the connection of the SQL editor to the database of a customer. *)

From S2P Require Import Prelude PyStd Queue ControlPlane Placement Platform Orchestrator Access Organizations Databases.

(** ** Model *)

Abbreviation pgrow := (list string) (only parsing).

(** [conn.fetch]: the columns and the rows, the values as text. *)
Class Postgres := {
  (** host, port, user, password, database *)
  pg_connect : option string -> option Z -> string -> string -> string -> outcome unit;
  (** user, database, query; [OperationalError] stands for the errors of PostgreSQL. *)
  pg_fetch : string -> string -> string -> outcome (list string * list pgrow);
}.

Definition MAX_RETURNED_ROWS : nat := 500.

(** [duration_ms] is not modelled. *)
Record SqlExecutionResult := mkSqlExecutionResult {
  se_status : string;
  se_columns : list string;
  se_rows : list pgrow;
  se_row_count : Z;
  se_truncated : bool;
  se_error : option string;
}.

Definition scope_value (c : CredentialScope) : string :=
  match c with SCOPE_APP => "app" | SCOPE_READONLY => "readonly" | SCOPE_ADMIN => "admin" end.

Definition SUPPORTED_EVENT_TYPES : list string :=
  ["database.created"; "database.failed"; "backup.completed"; "backup.failed"; "restore.completed"; "invoice.paid"].

Section ops.
Context `{Env : Platform} `{Auth : Verifier} `{Pg : Postgres}.

(** *** Roles *)

Definition running_database (organization project database : uuid) : M Cp Database :=
  get_project_or_404 organization project;;
  d ← get_database_or_404 project database;
  require (bool_decide (db_status d = DB_RUNNING)) (HTTPException 409);;
  mret d.

(** [uuid.uuid4().hex[:24]] is [suffix]. *)
Definition create_role (suffix organization project database : uuid) (name : string) (scope : CredentialScope)
    (current_user : uuid * User) (membership : Membership) : M Cp (uuid * string) :=
  require_active_subscription organization;;
  require_permission (ms_role membership) "database:roles:manage";;
  d ← running_database organization project database;
  require (negb (bool_decide (scope = SCOPE_ADMIN))) (HTTPException 400);;
  let role_name := ROLE_NAME_PREFIX +:+ String.substring 0 24 (uuid_hex suffix) in
  password ← gets token_urlsafe;
  node ← get_primary_node (db_cluster_id d);
  agent_request (call_agent node "POST" (database_path d "/roles")
    (<["role_name" := JStr role_name]> (<["password" := JStr password]> {["scope" := JStr (scope_value scope)]})));;
  taken ← gets (fun s => rows (fun x => bool_decide (cr_role_name x = role_name)) (credentials s));
  require (bool_decide (taken = [])) IntegrityError;;
  id ← gets uuid4;
  modify (fun s => s <| credentials ::=
    <[id := mkDatabaseCredential database role_name (Some name) false (encrypt_secret password) scope None]> |>);;
  record_audit "DATABASE_ROLE_CREATED" "database_credential" (Some id) (Some organization) (Some current_user.1)
    None (Some (<["name" := JStr name]> {["scope" := JStr (scope_value scope)]}));;
  mret (id, password).

Definition role_of (database credential : uuid) : M Cp DatabaseCredential :=
  o ← cp_get credentials credential;
  c ← some_or o (HTTPException 404);
  require (bool_decide (cr_database_id c = database)) (HTTPException 404);;
  mret c.

Definition delete_role (organization project database credential : uuid) (current_user : uuid * User)
    (membership : Membership) : M Cp unit :=
  require_active_subscription organization;;
  require_permission (ms_role membership) "database:roles:manage";;
  get_project_or_404 organization project;;
  d ← get_database_or_404 project database;
  c ← role_of database credential;
  require (negb (cr_is_primary c)) (HTTPException 400);;
  node ← get_primary_node (db_cluster_id d);
  agent_request (call_agent node "DELETE" (database_path d ("/roles/" +:+ cr_role_name c)) ∅);;
  modify (fun s => s <| credentials ::= delete credential |>);;
  record_audit "DATABASE_ROLE_DELETED" "database_credential" (Some credential) (Some organization)
    (Some current_user.1) (Some {["scope" := JStr (scope_value (cr_scope c))]}) None.

Definition rotate_role (now : timestamp) (organization project database credential : uuid)
    (current_user : uuid * User) (membership : Membership) : M Cp string :=
  require_active_subscription organization;;
  require_permission (ms_role membership) "database:roles:manage";;
  get_project_or_404 organization project;;
  d ← get_database_or_404 project database;
  c ← role_of database credential;
  new_password ← gets token_urlsafe;
  node ← get_primary_node (db_cluster_id d);
  agent_request (call_agent node "POST" (database_path d ("/roles/" +:+ cr_role_name c +:+ "/rotate"))
    {["password" := JStr new_password]});;
  modify (fun s => s <| credentials ::= alter (fun c => c <| cr_encrypted_password := encrypt_secret new_password |>
                                                          <| cr_rotated_at := Some now |>) credential |>);;
  record_audit "DATABASE_ROLE_ROTATED" "database_credential" (Some credential) (Some organization)
    (Some current_user.1) None None;;
  mret new_password.

(** *** What the agent of the primary is asked for: the answer is passed on *)

(** [call_agent(node, "GET", f"/v1/database/{database.physical_name}{what}")]; an error of the
    agent is not caught. *)
Definition ask_agent (what : string) (organization project database : uuid) (membership : Membership) : M Cp payload :=
  require_permission (ms_role membership) "database:observe";;
  d ← running_database organization project database;
  node ← get_primary_node (db_cluster_id d);
  call_agent node "GET" (database_path d what) ∅.
(** The lists are passed on as they are. *)
Definition list_extensions := ask_agent "/extensions".
Definition list_tables := ask_agent "/tables".
(** [DatabaseMetricsResponse] of the body: the agent sends integers. *)
Definition figure (resp : payload) (key : string) : M Cp Z :=
  match resp !! key with Some (JInt z) => mret z | _ => raise ValueError end.
Definition get_metrics (organization project database : uuid) (membership : Membership) : M Cp (Z * Z * Z) :=
  resp ← ask_agent "/metrics" organization project database membership;
  size_bytes ← figure resp "size_bytes";
  active_connections ← figure resp "active_connections";
  max_connections ← figure resp "max_connections";
  mret (size_bytes, active_connections, max_connections).

(** *** Extensions *)

Definition valid_extension (name : string) : bool :=
  (2 <=? Z.of_nat (String.length name)) && (Z.of_nat (String.length name) <=? 63).

Definition install_extension (organization project database : uuid) (name : string) (current_user : uuid * User)
    (membership : Membership) : M Cp unit :=
  require (valid_extension name) (HTTPException 422);;
  require_active_subscription organization;;
  require_permission (ms_role membership) "database:extensions:manage";;
  d ← running_database organization project database;
  node ← get_primary_node (db_cluster_id d);
  agent_request (call_agent node "POST" (database_path d "/extensions") {["name" := JStr name]});;
  record_audit "DATABASE_EXTENSION_INSTALLED" "database" (Some database) (Some organization) (Some current_user.1)
    None (Some {["extension" := JStr name]}).

Definition drop_extension (organization project database : uuid) (name : string) (current_user : uuid * User)
    (membership : Membership) : M Cp unit :=
  require_active_subscription organization;;
  require_permission (ms_role membership) "database:extensions:manage";;
  d ← running_database organization project database;
  node ← get_primary_node (db_cluster_id d);
  agent_request (call_agent node "DELETE" (database_path d ("/extensions/" +:+ name)) ∅);;
  record_audit "DATABASE_EXTENSION_DROPPED" "database" (Some database) (Some organization) (Some current_user.1)
    (Some {["extension" := JStr name]}) None.

(** *** The SQL editor *)

Definition failed_result (error : string) : SqlExecutionResult := mkSqlExecutionResult "failed" [] [] 0 false (Some error).

Definition execute_query (d : Database) (c : DatabaseCredential) (query : string) : outcome SqlExecutionResult :=
  password ← decrypt_secret (cr_encrypted_password c);
  match pg_connect (db_connection_host d) (db_connection_port d) (cr_role_name c) password (db_physical_name d) with
  | Exc OperationalError => mret (failed_result ("Could not connect as " +:+ cr_role_name c))
  | Exc e => Exc e
  | Ret tt =>
      match pg_fetch (cr_role_name c) (db_physical_name d) query with
      | Exc OperationalError => mret (failed_result "the query failed")
      | Exc e => Exc e
      | Ret (columns, records) =>
          mret (mkSqlExecutionResult "succeeded" (match records with [] => [] | _ => columns end)
            (take MAX_RETURNED_ROWS records) (Z.of_nat (length records))
            (bool_decide (MAX_RETURNED_ROWS < length records)%nat) None)
      end
  end.

Definition valid_query (query : string) : bool :=
  (1 <=? Z.of_nat (String.length query)) && (Z.of_nat (String.length query) <=? 10000).

Definition app_role (database : uuid) (c : DatabaseCredential) : bool :=
  bool_decide (cr_database_id c = database) && bool_decide (cr_scope c = SCOPE_APP).

Definition succeeded (r : SqlExecutionResult) : bool := bool_decide (se_status r = "succeeded").

Definition execute_sql (organization project database : uuid) (query : string) (role : option uuid)
    (current_user : uuid * User) (membership : Membership) : M Cp SqlExecutionResult :=
  require (valid_query query) (HTTPException 422);;
  require_active_subscription organization;;
  require_permission (ms_role membership) "database:sql:execute";;
  d ← running_database organization project database;
  c ← match role with
      | Some id => role_of database id
      | None =>
          table ← gets credentials;
          found ← scalar_one_or_none (rows (app_role database) table);
          some_or found (HTTPException 409)
      end;
  r ← lift_outcome (execute_query d c query);
  modify (fun s => s <| query_executions ::= fun l => l ++
    [mkQueryExecution database current_user.1 query (se_status r)
       (if succeeded r then Some (se_row_count r) else None) (se_error r)] |>);;
  record_audit "SQL_QUERY_EXECUTED" "database" (Some database) (Some organization) (Some current_user.1) None
    (Some (<["query" := JStr (String.substring 0 500 query)]> {["role" := JStr (cr_role_name c)]}));;
  mret r.

Definition create_saved_query (organization project database : uuid) (name query : string) (current_user : uuid * User)
    (membership : Membership) : M Cp uuid :=
  require (valid_query query) (HTTPException 422);;
  require_permission (ms_role membership) "database:sql:execute";;
  get_project_or_404 organization project;;
  get_database_or_404 project database;;
  id ← gets uuid4;
  modify (fun s => s <| saved_queries ::= <[id := mkSavedQuery database current_user.1 name query]> |>);;
  mret id.

Definition delete_saved_query (organization project database saved : uuid) (membership : Membership) : M Cp unit :=
  require_permission (ms_role membership) "database:sql:execute";;
  get_project_or_404 organization project;;
  get_database_or_404 project database;;
  o ← cp_get saved_queries saved;
  q ← some_or o (HTTPException 404);
  require (bool_decide (sq_database_id q = database)) (HTTPException 404);;
  modify (fun s => s <| saved_queries ::= delete saved |>).

(** *** Webhooks *)

Definition valid_webhook (url : string) (event_types : list string) : bool :=
  (8 <=? Z.of_nat (String.length url)) && (Z.of_nat (String.length url) <=? 2048) && String.prefix "https://" url
  && negb (bool_decide (event_types = [])) && forallb (fun e => bool_decide (e ∈ SUPPORTED_EVENT_TYPES)) event_types.

(** The secret is drawn by [generate_random_password(32)]. *)
Definition create_webhook (organization : uuid) (url : string) (event_types : list string) (current_user : uuid * User)
    (membership : Membership) : M Cp (uuid * string) :=
  require (valid_webhook url event_types) (HTTPException 422);;
  require_permission (ms_role membership) "webhooks:manage";;
  secret ← gets token_urlsafe;
  id ← gets uuid4;
  modify (fun s => s <| webhooks ::= <[id := mkWebhook organization url (encrypt_secret secret) event_types true]> |>);;
  record_audit "WEBHOOK_CREATED" "webhook" (Some id) (Some organization) (Some current_user.1) None
    (Some {["url" := JStr url]});;
  mret (id, secret).

(** [webhook_deliveries.webhook_id] references the webhook, with no [ON DELETE]. *)
Definition delete_webhook (organization webhook : uuid) (current_user : uuid * User) (membership : Membership) : M Cp unit :=
  require_permission (ms_role membership) "webhooks:manage";;
  o ← cp_get webhooks webhook;
  w ← some_or o (HTTPException 404);
  require (bool_decide (wh_organization_id w = organization)) (HTTPException 404);;
  referenced ← gets (fun s => select (fun d => bool_decide (wd_webhook_id d = webhook)) (webhook_deliveries s));
  require (bool_decide (fst <$> referenced = [])) IntegrityError;;
  modify (fun s => s <| webhooks ::= delete webhook |>);;
  record_audit "WEBHOOK_DELETED" "webhook" (Some webhook) (Some organization) (Some current_user.1)
    (Some {["url" := JStr (wh_url w)]}) None.

(** *** Requests *)

Inductive ops_call :=
| CreateRole (suffix project database : uuid) (name : string) (scope : CredentialScope)
| DeleteRole (project database credential : uuid)
| RotateRole (project database credential : uuid)
| ListExtensions (project database : uuid)
| ListTables (project database : uuid)
| GetMetrics (project database : uuid)
| InstallExtension (project database : uuid) (name : string)
| DropExtension (project database : uuid) (name : string)
| ExecuteSql (project database : uuid) (query : string) (role : option uuid)
| CreateSavedQuery (project database : uuid) (name query : string)
| DeleteSavedQuery (project database saved : uuid)
| CreateWebhook (url : string) (event_types : list string)
| DeleteWebhook (webhook : uuid).

Definition ops_endpoint (now : timestamp) (o : uuid) (call : ops_call) (user : uuid * User) (ms : Membership) : M Cp unit :=
  match call with
  | CreateRole suffix p d name scope => create_role suffix o p d name scope user ms;; mret tt
  | DeleteRole p d c => delete_role o p d c user ms
  | RotateRole p d c => rotate_role now o p d c user ms;; mret tt
  | ListExtensions p d => list_extensions o p d ms;; mret tt
  | ListTables p d => list_tables o p d ms;; mret tt
  | GetMetrics p d => get_metrics o p d ms;; mret tt
  | InstallExtension p d name => install_extension o p d name user ms
  | DropExtension p d name => drop_extension o p d name user ms
  | ExecuteSql p d query role => execute_sql o p d query role user ms;; mret tt
  | CreateSavedQuery p d name query => create_saved_query o p d name query user ms;; mret tt
  | DeleteSavedQuery p d saved => delete_saved_query o p d saved ms
  | CreateWebhook url events => create_webhook o url events user ms;; mret tt
  | DeleteWebhook webhook => delete_webhook o webhook user ms
  end.
Definition ops_request (now : timestamp) (credentials : option string) (o : uuid) (call : ops_call) : M Cp unit :=
  org_request now credentials o (ops_endpoint now o call).

(** ** Lemmas *)

(** The roles of the databases of an organization. *)
Definition role_in (s : Cp) (org : uuid) (c : DatabaseCredential) : Prop :=
  exists d, databases s !! cr_database_id c = Some d /\ in_organization s org d = true.

(** Only roles of the organization are added, removed or changed. *)
Definition roles_confined (org : uuid) (s t : Cp) : Prop :=
  forall k, credentials t !! k = credentials s !! k \/
    (forall c, credentials s !! k = Some c -> role_in s org c) /\ (forall c, credentials t !! k = Some c -> role_in s org c).

Lemma running_database_run o p id s t d :
  running_database o p id s = (t, Ret d) ->
  t = s /\ databases s !! id = Some d /\ db_status d = DB_RUNNING /\ db_project_id d = p /\ in_organization s o d = true.
Proof.
  unfold running_database. intros H.
  apply bind_Ret in H as (? & pr & (-> & Hp & Ho)%get_project_or_404_run & H).
  apply bind_Ret in H as (? & d' & (-> & Hd & Hpd)%get_database_or_404_run & H).
  apply bind_Ret in H as (? & ? & [Hst%bool_decide_eq_true ->]%require_Ret & [-> ->]%mret_Ret).
  split_and!; [done..|]. eapply in_organization_project; [by rewrite Hpd|done].
Qed.

Lemma role_of_run id credential s t c :
  role_of id credential s = (t, Ret c) -> t = s /\ credentials s !! credential = Some c /\ cr_database_id c = id.
Proof.
  unfold role_of. intros H.
  apply bind_Ret in H as (? & ? & [-> ->]%cp_get_run & H).
  apply bind_Ret in H as (? & ? & [Hc ->]%some_or_Ret & H).
  by apply bind_Ret in H as (? & ? & [Hd%bool_decide_eq_true ->]%require_Ret & [-> ->]%mret_Ret).
Qed.

Lemma active_subscription_run o s t u : require_active_subscription o s = (t, Ret u) -> t = s.
Proof.
  intros H. assert (pres (fun v => v = s) (require_active_subscription o)) as Hp by auto with pres.
  exact (pres_run _ _ _ _ _ Hp H eq_refl).
Qed.

Lemma agent_request_run node m p args s t r :
  agent_request (call_agent node m p args) s = (t, Ret r) ->
  exists l, t = s <| agent_log := l |>.
Proof.
  unfold agent_request, try_except. intros H.
  destruct (call_agent node m p args s) as [v [r'|e]] eqn:E; [|destruct e; discriminate H].
  injection H as <- _. apply call_agent_run in E as (ip & _ & -> & _). by eexists.
Qed.

(** An update of a role of the organization. *)
Lemma roles_confined_at org s t k :
  (forall j, j <> k -> credentials t !! j = credentials s !! j) ->
  (forall c, credentials s !! k = Some c -> role_in s org c) ->
  (forall c, credentials t !! k = Some c -> role_in s org c) -> roles_confined org s t.
Proof. intros Hne Hs Ht j. destruct (decide (j = k)) as [->|]; [right; auto|left; auto]. Qed.

Lemma create_role_confined suffix o p d name scope user ms s t x :
  create_role suffix o p d name scope user ms s = (t, Ret x) ->
  roles_confined o s t /\ has_permission (ms_role ms) "database:roles:manage" = Ret true.
Proof.
  unfold create_role, record_audit. intros H.
  apply bind_Ret in H as (? & ? & ->%active_subscription_run & H).
  apply bind_Ret in H as (? & ? & [-> Hperm]%require_permission_run & H).
  apply bind_Ret in H as (? & db & (-> & Hd & _ & _ & Hin)%running_database_run & H).
  apply bind_Ret in H as (? & ? & [_ ->]%require_Ret & H). cbv zeta in H.
  apply bind_Ret in H as (? & pw & [-> _]%gets_Ret & H).
  apply bind_Ret in H as (? & node & (-> & _)%get_primary_node_run & H).
  apply bind_Ret in H as (? & ? & [l ->]%agent_request_run & H).
  apply bind_Ret in H as (? & ? & [-> _]%gets_Ret & H).
  apply bind_Ret in H as (? & ? & [_ ->]%require_Ret & H).
  apply bind_Ret in H as (? & ? & [-> ->]%gets_Ret & H).
  apply bind_Ret in H as (? & ? & ->%modify_Ret & H).
  apply bind_Ret in H as (? & ? & ->%modify_Ret & [-> _]%mret_Ret).
  split; [|done]. match goal with |- context [uuid4 ?u] => destruct (uuid4_not_used u) as (_&_&_&Hf&_); set (k := uuid4 u) in * end.
  cbn in Hf. apply roles_confined_at with k; simpl.
  - intros j Hj. by rewrite lookup_insert_ne.
  - intros c Hc. by rewrite Hf in Hc.
  - intros c. rewrite lookup_insert_eq. intros [= <-]. by exists db.
Qed.

Lemma delete_role_confined o p d c user ms s t x :
  delete_role o p d c user ms s = (t, Ret x) ->
  roles_confined o s t /\ has_permission (ms_role ms) "database:roles:manage" = Ret true.
Proof.
  unfold delete_role, record_audit. intros H.
  apply bind_Ret in H as (? & ? & ->%active_subscription_run & H).
  apply bind_Ret in H as (? & ? & [-> Hperm]%require_permission_run & H).
  apply bind_Ret in H as (? & pr & (-> & Hp & Ho)%get_project_or_404_run & H).
  apply bind_Ret in H as (? & db & (-> & Hd & Hpd)%get_database_or_404_run & H).
  apply bind_Ret in H as (? & cr & (-> & Hc & Hcd)%role_of_run & H).
  apply bind_Ret in H as (? & ? & [_ ->]%require_Ret & H).
  apply bind_Ret in H as (? & node & (-> & _)%get_primary_node_run & H).
  apply bind_Ret in H as (? & ? & [l ->]%agent_request_run & H).
  apply bind_Ret in H as (? & ? & ->%modify_Ret & ->%modify_Ret).
  split; [|done]. apply roles_confined_at with c; simpl.
  - intros j Hj. by rewrite lookup_delete_ne.
  - intros c' Hc'. rewrite Hc in Hc'. injection Hc' as <-. exists db. rewrite Hcd. split; [done|].
    eapply in_organization_project; [by rewrite Hpd|done].
  - intros c'. by rewrite lookup_delete_eq.
Qed.

Lemma rotate_role_confined now o p d c user ms s t x :
  rotate_role now o p d c user ms s = (t, Ret x) ->
  roles_confined o s t /\ has_permission (ms_role ms) "database:roles:manage" = Ret true.
Proof.
  unfold rotate_role, record_audit. intros H.
  apply bind_Ret in H as (? & ? & ->%active_subscription_run & H).
  apply bind_Ret in H as (? & ? & [-> Hperm]%require_permission_run & H).
  apply bind_Ret in H as (? & pr & (-> & Hp & Ho)%get_project_or_404_run & H).
  apply bind_Ret in H as (? & db & (-> & Hd & Hpd)%get_database_or_404_run & H).
  apply bind_Ret in H as (? & cr & (-> & Hc & Hcd)%role_of_run & H).
  apply bind_Ret in H as (? & pw & [-> _]%gets_Ret & H).
  apply bind_Ret in H as (? & node & (-> & _)%get_primary_node_run & H).
  apply bind_Ret in H as (? & ? & [l ->]%agent_request_run & H).
  apply bind_Ret in H as (? & ? & ->%modify_Ret & H).
  apply bind_Ret in H as (? & ? & ->%modify_Ret & [-> _]%mret_Ret).
  assert (role_in s o cr) as Hin.
  { exists db. rewrite Hcd. split; [done|]. eapply in_organization_project; [by rewrite Hpd|done]. }
  split; [|done]. apply roles_confined_at with c; simpl.
  - intros j Hj. by rewrite lookup_alter_ne.
  - intros c' Hc'. rewrite Hc in Hc'. by injection Hc' as <-.
  - intros c'. rewrite lookup_alter_eq, Hc. by intros [= <-].
Qed.

(** The calls that do not touch roles. *)
Lemma same_credentials_agent cs node m p args : pres (fun t => credentials t = cs) (agent_request (call_agent node m p args)).
Proof.
  unfold agent_request. apply pres_try; [by apply pres_call_agent|].
  intros e k. destruct e; intros [= <-]. apply pres_raise.
Qed.
Lemma same_credentials_call cs node m p args : pres (fun t => credentials t = cs) (call_agent node m p args).
Proof. by apply pres_call_agent. Qed.
Lemma pres_running_database I o p d : pres I (running_database o p d).
Proof. unfold running_database, get_project_or_404, get_database_or_404. pres_go. Qed.
Lemma pres_role_of I d c : pres I (role_of d c).
Proof. unfold role_of. pres_go. Qed.
#[local] Hint Resolve same_credentials_agent same_credentials_call pres_running_database pres_role_of pres_get_primary_node
  pres_get_project_or_404 pres_get_database_or_404 : pres.

Lemma ops_endpoint_roles now o call user ms s t x :
  ops_endpoint now o call user ms s = (t, Ret x) ->
  credentials t = credentials s \/
  roles_confined o s t /\ has_permission (ms_role ms) "database:roles:manage" = Ret true.
Proof.
  assert (forall m : M Cp unit, pres (fun u => credentials u = credentials s) m -> m s = (t, Ret x) ->
    credentials t = credentials s) as Hsame by (intros m Hm E; exact (pres_run _ _ _ _ _ Hm E eq_refl)).
  intros H. destruct call as [suffix p d name scope|p d c|p d c|p d|p d|p d|p d name|p d name|p d query role|p d name query|p d saved|url ev|w];
    cbn [ops_endpoint] in H.
  - right. apply bind_Ret in H as (u & y & H & [-> _]%mret_Ret). by eapply create_role_confined.
  - right. by eapply delete_role_confined.
  - right. apply bind_Ret in H as (u & y & H & [-> _]%mret_Ret). by eapply rotate_role_confined.
  - left. refine (Hsame _ _ H). unfold list_extensions, ask_agent. pres_go.
  - left. refine (Hsame _ _ H). unfold list_tables, ask_agent. pres_go.
  - left. refine (Hsame _ _ H). unfold get_metrics, ask_agent, figure. pres_go.
  - left. refine (Hsame _ _ H). unfold install_extension, record_audit. pres_go. by apply pres_modify.
  - left. refine (Hsame _ _ H). unfold drop_extension, record_audit. pres_go. by apply pres_modify.
  - left. refine (Hsame _ _ H). unfold execute_sql, record_audit. pres_go; by apply pres_modify.
  - left. refine (Hsame _ _ H). unfold create_saved_query. pres_go; by apply pres_modify.
  - left. refine (Hsame _ _ H). unfold delete_saved_query. pres_go; by apply pres_modify.
  - left. refine (Hsame _ _ H). unfold create_webhook, record_audit. pres_go; by apply pres_modify.
  - left. refine (Hsame _ _ H). unfold delete_webhook, record_audit. pres_go; by apply pres_modify.
Qed.

(** The credential of a statement: the role named, or the only role of scope [APP]. *)
Lemma sql_role_run (database : uuid) (role : option uuid) s t c :
  match role with
  | Some id => role_of database id
  | None => table ← gets credentials;
            found ← scalar_one_or_none (rows (app_role database) table);
            some_or found (HTTPException 409)
  end s = (t, Ret c) ->
  t = s /\ exists k, credentials s !! k = Some c /\ cr_database_id c = database /\
    match role with Some id => k = id | None => cr_scope c = SCOPE_APP end.
Proof.
  destruct role as [id|]; intros H.
  - apply role_of_run in H as (-> & Hc & Hd). split; [done|]. by exists id.
  - apply bind_Ret in H as (? & table & [-> ->]%gets_Ret & H).
    unfold mbind, M_bind in H.
    destruct (rows (app_role database) (credentials s)) as [|c' [|]] eqn:E; [discriminate H| |discriminate H].
    injection H as <- <-. split; [done|].
    assert (c' ∈ rows (app_role database) (credentials s)) as Hin by (rewrite E; by left).
    apply elem_of_rows in Hin as (k & Hk & [Hd%bool_decide_eq_true Hs%bool_decide_eq_true]%andb_prop).
    by exists k.
Qed.

(** What [execute_query] answers about a statement that PostgreSQL accepts, and about any other. *)
Lemma execute_query_run d c query r :
  execute_query d c query = Ret r ->
  (exists columns records, se_status r = "succeeded" /\
     pg_fetch (cr_role_name c) (db_physical_name d) query = Ret (columns, records) /\
     se_rows r = take MAX_RETURNED_ROWS records /\ se_row_count r = Z.of_nat (length records) /\
     se_truncated r = bool_decide (MAX_RETURNED_ROWS < length records)%nat /\ se_error r = None) \/
  se_status r = "failed" /\ se_rows r = [] /\ se_row_count r = 0 /\ se_truncated r = false /\ is_Some (se_error r).
Proof.
  unfold execute_query. destruct (decrypt_secret (cr_encrypted_password c)) as [password|e]; [|discriminate].
  cbn [mbind outcome_bind].
  destruct (pg_connect _ _ _ _ _) as [[]|e].
  - destruct (pg_fetch _ _ _) as [[columns records]|e] eqn:E.
    + intros [= <-]. left. by exists columns, records.
    + destruct e; intros [= <-]. right. split_and!; done.
  - destruct e; intros [= <-]. right. split_and!; done.
Qed.

Lemma execute_sql_run o p id query role user ms s t r :
  execute_sql o p id query role user ms s = (t, Ret r) ->
  exists d k c, databases s !! id = Some d /\ db_status d = DB_RUNNING /\ in_organization s o d = true /\
    has_permission (ms_role ms) "database:sql:execute" = Ret true /\
    credentials s !! k = Some c /\ cr_database_id c = id /\
    match role with Some k' => k = k' | None => cr_scope c = SCOPE_APP end /\
    execute_query d c query = Ret r /\
    query_executions t = query_executions s ++ [mkQueryExecution id user.1 query (se_status r)
      (if succeeded r then Some (se_row_count r) else None) (se_error r)] /\
    databases t = databases s /\ credentials t = credentials s.
Proof.
  unfold execute_sql, record_audit. intros H.
  apply bind_Ret in H as (? & ? & [_ ->]%require_Ret & H).
  apply bind_Ret in H as (? & ? & ->%active_subscription_run & H).
  apply bind_Ret in H as (? & ? & [-> Hperm]%require_permission_run & H).
  apply bind_Ret in H as (? & d & (-> & Hd & Hrun & _ & Hin)%running_database_run & H).
  apply bind_Ret in H as (? & c & [-> (k & Hc & Hcd & Hrole)]%sql_role_run & H).
  apply bind_Ret in H as (? & r' & Hr & H).
  unfold lift_outcome in Hr. injection Hr as -> Hr.
  apply bind_Ret in H as (? & ? & ->%modify_Ret & H).
  apply bind_Ret in H as (? & ? & ->%modify_Ret & [-> ->]%mret_Ret).
  exists d, k, c. split_and!; try done; by destruct role.
Qed.

(** ** Properties *)

(** Whatever a request of these endpoints answers, either the roles of the databases
    are untouched, or the caller is an authenticated member of the organization whose role
    manages database roles, and every role added, removed or rotated is one of a database of
    that organization. *)
Theorem role_requests_isolated (now : timestamp) (header : option string) (org : uuid) (call : ops_call) (s : Cp) :
  let t := (ops_request now header org call s).1 in
  credentials t = credentials s \/
  exists u user k m, get_current_user now header s = (u, Ret user) /\
    memberships s !! k = Some m /\ ms_organization_id m = org /\ ms_user_id m = user.1 /\
    has_permission (ms_role m) "database:roles:manage" = Ret true /\ roles_confined org s t.
Proof.
  cbv zeta. destruct (ops_request now header org call s) as [t r] eqn:Er. cbn [fst].
  unfold ops_request, org_request, mbind at 1, M_bind at 1 in Er.
  destruct (get_current_user now header s) as [u [user|e]] eqn:E.
  2: { left. injection Er as <- _. pose proof (pres_get_current_user (fun u => credentials u = credentials s)
         now header ltac:(done) s eq_refl) as Hp. by rewrite E in Hp. }
  destruct (get_current_user_run _ _ _ _ _ E) as (_ & Hu & _). unfold transaction in Er.
  destruct ((membership ← get_membership org user.1; ops_endpoint now org call user membership) u)
    as [v [x|e]] eqn:Em; injection Er as <- _; [|left; by rewrite Hu].
  apply bind_Ret in Em as (? & m & [-> (k & Hk & Ho & Hm)]%get_membership_run & Em).
  apply ops_endpoint_roles in Em as [Hc|[Hc Hp]]; [left; by rewrite Hc, Hu|].
  right. exists u, user, k, m. rewrite Hu in Hk. split_and!; try done.
  unfold roles_confined, role_in, in_organization in *. rewrite Hu in Hc. exact Hc.
Qed.

(** C33. A statement that the editor answers was sent to a running database of the
    organization, by a member allowed to, under one of that database's own roles: the one
    named, or else the application's. At most 500 rows come back, the true number of rows
    beside them, and exactly one entry is added to the history of the database. *)
Theorem sql_statement_confined org project id query role user m s t r :
  execute_sql org project id query role user m s = (t, Ret r) ->
  exists d k c, databases s !! id = Some d /\ db_status d = DB_RUNNING /\ in_organization s org d = true /\
    has_permission (ms_role m) "database:sql:execute" = Ret true /\
    credentials s !! k = Some c /\ cr_database_id c = id /\
    match role with Some k' => k = k' | None => cr_scope c = SCOPE_APP end /\
    (length (se_rows r) <= 500)%nat /\
    (se_status r = "succeeded" -> exists columns records,
       pg_fetch (cr_role_name c) (db_physical_name d) query = Ret (columns, records) /\
       se_row_count r = Z.of_nat (length records) /\ se_rows r `prefix_of` records /\
       (se_truncated r = false -> se_rows r = records)) /\
    (se_status r <> "succeeded" -> se_rows r = [] /\ is_Some (se_error r)) /\
    exists entry, query_executions t = query_executions s ++ [entry] /\
      qe_database_id entry = id /\ qe_user_id entry = user.1 /\ qe_query_text entry = query /\ qe_status entry = se_status r.
Proof.
  intros (d & k & c & Hd & Hr & Hin & Hp & Hc & Hcd & Hrole & Hq & Hh & _)%execute_sql_run.
  exists d, k, c. split_and!; try done.
  - apply execute_query_run in Hq as [(cs & rs & _ & _ & -> & _)|(_ & -> & _)]; [|simpl; lia].
    rewrite length_take. unfold MAX_RETURNED_ROWS. lia.
  - intros Hs. apply execute_query_run in Hq as [(cs & rs & _ & Hf & -> & Hn & -> & _)|(E & _)]; [|by rewrite E in Hs].
    exists cs, rs. split_and!; [done..|apply prefix_take|].
    intros Hle%bool_decide_eq_false. apply take_ge. lia.
  - intros Hs. by apply execute_query_run in Hq as [(cs & rs & E & _)|(_ & -> & _ & _ & He)].
  - eexists. split; [exact Hh|]. by split_and!.
Qed.

(** A webhook that was ever called cannot be removed: its deliveries reference it. *)
Lemma called_webhook_stays org webhook user m s w k dv :
  webhooks s !! webhook = Some w -> wh_organization_id w = org ->
  webhook_deliveries s !! k = Some dv -> wd_webhook_id dv = webhook ->
  has_permission (ms_role m) "webhooks:manage" = Ret true ->
  delete_webhook org webhook user m s = (s, Exc IntegrityError).
Proof.
  intros Hw Ho Hk Hd Hp. unfold delete_webhook.
  apply bind_Exc. right. exists s, tt. split; [by apply require_permission_run|].
  apply bind_Exc. right. exists s, (Some w). split; [by apply cp_get_run|].
  apply bind_Exc. right. exists s, w. split; [done|].
  apply bind_Exc. right. exists s, tt. split; [apply require_Ret; by rewrite bool_decide_eq_true_2|].
  apply bind_Exc. right. eexists s, _. split; [done|].
  apply bind_Exc. left. unfold require. rewrite bool_decide_eq_false_2; [done|]. intros E%fmap_nil_inv.
  assert ((k, dv) ∈ select (fun d => bool_decide (wd_webhook_id d = webhook)) (webhook_deliveries s)) as Hin
    by (apply elem_of_select; split; [done|by apply bool_decide_eq_true_2]).
  rewrite E in Hin. by apply elem_of_nil in Hin.
Qed.
End ops.

(** ** An example *)

(** One row with one column, whatever the statement. *)
#[export] Instance example_postgres : Postgres := {
  pg_connect := fun _ _ _ _ _ => Ret tt;
  pg_fetch := fun _ _ query => if bool_decide (query = "select 1") then Ret (["?column?"], [["1"]]) else Exc OperationalError;
}.

Definition example_owner : uuid * User := (5%positive, example_user "alice@x").
Definition example_member : Membership := mkMembership 5 acme OWNER.

Lemma sql_statement_confined_witness :
  exists t r, execute_sql acme example_project example_id "select 1" None example_owner example_member example_running = (t, Ret r) /\
    se_rows r = [["1"]] /\ (length (se_rows r) <= 500)%nat.
Proof.
  destruct (execute_sql acme example_project example_id "select 1" None example_owner example_member example_running)
    as [t [r|e]] eqn:E; [|apply (f_equal snd) in E; vm_compute in E; discriminate E].
  exists t, r. split; [reflexivity|]. split.
  - apply (f_equal (fun x => match x.2 with Ret r => se_rows r | Exc _ => [] end)) in E. vm_compute in E. symmetry. exact E.
  - destruct (sql_statement_confined acme example_project example_id "select 1" None example_owner example_member
      example_running t r E) as (d & k & c & _ & _ & _ & _ & _ & _ & _ & H & _). exact H.
Defined.

(** A second role of scope [APP] makes the editor, without a named role, fail on every
    statement: the query behind it expects at most one row. *)
Example two_app_roles_break_the_editor :
  let s := (ops_request 0 (Some "alice") acme (CreateRole (2^120) example_project example_id "reporting" SCOPE_APP) example_running).1 in
  (execute_sql acme example_project example_id "select 1" None example_owner example_member example_running).2 =
    Ret (mkSqlExecutionResult "succeeded" ["?column?"] [["1"]] 1 false None) /\
  (execute_sql acme example_project example_id "select 1" None example_owner example_member s).2 = Exc MultipleResultsFound.
Proof. vm_compute. split; reflexivity. Qed.
