(* ===== verification/System.v ===== *)
(** * The control plane as a whole

    One step relation for everything that changes the database of the control plane: a turn
    of the worker, a pass or a tick of the scheduler, and the requests of users, of
    administrators, of agents and of payment providers; and what every reachable state
    keeps. *)

From S2P Require Import Prelude PyStd Queue ControlPlane Placement Platform Orchestrator Access Organizations.
From S2P Require Import Databases Failover Backups Billing Payments Worker Accounts Nodes DatabaseOps.

(** ** Model *)

Section system.
Context `{Env : Platform} `{Auth : Verifier} `{Gates : Gateways} `{Acc : !Accounts} `{Authority : NodeAuthority} `{Pg : Postgres}.
Context (str_exn : exn -> string).

(** [tick]: an exception of a pass skips those after it. *)
Definition tick (now : timestamp) : M Cp unit :=
  enqueue_due_backups now;;
  enqueue_due_verifications now;;
  purge_expired_automatic_backups now;;
  check_and_failover_unhealthy_clusters now;;
  meter_usage now;;
  generate_due_invoices now;;
  mret tt.

Inductive account_call :=
| Register (email password : string)
| Login (email password : string) (otp_code : option string)
| OAuthCallback (provider code state : string)
| RevokeAllSessions
| EnableMfa
| VerifyMfa (otp_code : string)
| CreateApiKey (organization : uuid) (name : string)
| RevokeApiKey (organization api_key : uuid)
| MarkNotificationRead (notification : uuid).

Definition account_handle (now : timestamp) (credentials : option string) (call : account_call) : M Cp unit :=
  match call with
  | Register email password => register email password;; mret tt
  | Login email password otp => login now email password otp;; mret tt
  | OAuthCallback provider code state => oauth_callback now provider code state;; mret tt
  | RevokeAllSessions => session_request now credentials revoke_all_sessions
  | EnableMfa => session_request now credentials enable_mfa;; mret tt
  | VerifyMfa otp => session_request now credentials (verify_mfa now otp)
  | CreateApiKey o name => org_request now credentials o (create_api_key o name);; mret tt
  | RevokeApiKey o key => org_request now credentials o (revoke_api_key now o key)
  | MarkNotificationRead n => session_request now credentials (mark_notification_read now n)
  end.

Inductive cluster_call :=
| AttachReplica (cluster node : uuid)
| TriggerFailover (cluster : uuid).
Definition cluster_handle (now : timestamp) (credentials : option string) (call : cluster_call) : M Cp unit :=
  match call with
  | AttachReplica cluster node => admin_request now credentials (attach_replica cluster node);; mret tt
  | TriggerFailover cluster => admin_request now credentials (trigger_failover now cluster);; mret tt
  end.

(** Everything that happens to the control plane. A pass is a step of its own as well, as in
    a tick that an exception cut short. *)
Inductive step (s : Cp) : Cp -> Prop :=
| step_worker now : step s (cp_run_once str_exn now s).1
| step_tick now : step s (tick now s).1
| step_organization now credentials call : step s (org_handle now credentials call s).1
| step_database now credentials org call : step s (database_request now credentials org call s).1
| step_migrate now credentials database target : step s (migrate_request now credentials database target s).1
| step_backup now credentials org call : step s (backup_request now credentials org call s).1
| step_cluster now credentials call : step s (cluster_handle now credentials call s).1
| step_node now credentials call : step s (node_handle now credentials call s).1
| step_billing now credentials call : step s (billing_handle now credentials call s).1
| step_account now credentials call : step s (account_handle now credentials call s).1
| step_ops now credentials org call : step s (ops_request now credentials org call s).1.

(** [scripts/promote_platform_admin.py], which an operator runs: the only way to become an
    administrator. *)
Definition promote_admin (mail : string) : M Cp unit :=
  table ← gets users;
  found ← scalar_one_or_none (select (fun u => bool_decide (ur_email u = mail)) table);
  user ← some_or found (Exit 1);
  set_user user.1 (fun u => u <| ur_is_platform_admin := true |>).

(** A life of the platform, and the addresses that its operators have given to the script. *)
Inductive operated (s : Cp) : list string -> Cp -> Prop :=
| operated_start : operated s [] s
| operated_step mails t u : operated s mails t -> step t u -> operated s mails u
| operated_promotion mails t mail : operated s mails t -> operated s (mails ++ [mail]) (promote_admin mail t).1.

(** What the platform is to keep: clusters with one primary on a known node, billing periods
    that never overlap, and, as nothing ever declares a cluster replicated, [no_ha]. *)
Record platform_ok (s : Cp) : Prop := {
  po_fleet : fleet_ok s;
  po_billing : billing_ok s;
  po_no_ha : no_ha s;
}.

(** ** Invariants of the infrastructure

    A property of the subscriptions, the invoices and the clusters that a new cluster keeps
    is kept by everything that neither bills nor manages organizations. *)

Record infra_invariant (I : Cp -> Prop) : Prop := {
  ii_frame : forall s t, subscriptions t = subscriptions s -> invoices t = invoices s -> clusters t = clusters s ->
    users t = users s -> I s -> I t;
  ii_new : forall s c region shared st, I s -> clusters s !! c = None ->
    I (s <| clusters ::= <[c := mkCluster region SINGLE shared st]> |>);
}.

Lemma billing_ok_infra : infra_invariant billing_ok.
Proof.
  split; [|done]. intros s t Hx Hv _ _. unfold billing_ok. by rewrite Hx, Hv.
Qed.
Lemma no_ha_infra : infra_invariant no_ha.
Proof. split; [|intros; by apply no_ha_insert]. intros s t _ _ Hc _. by apply no_ha_clusters. Qed.

Section infra.
Context (I : Cp -> Prop) (HI : infra_invariant I).

(** Updates of the other tables. *)
Ltac infra := apply pres_modify; intros ? ?; eapply (ii_frame I HI); [..|eassumption]; reflexivity.
Lemma infra_log s l : I s -> I (s <| agent_log := l |>).
Proof. by apply (ii_frame I HI). Qed.
Lemma infra_keys s l : I s -> I (s <| api_keys := l |>).
Proof. by apply (ii_frame I HI). Qed.
Lemma infra_jobs s l : I s -> I (s <| cp_jobs := l |>).
Proof. by apply (ii_frame I HI). Qed.
Lemma infra_call_agent node m p args : pres I (call_agent node m p args).
Proof. apply pres_call_agent. exact infra_log. Qed.
Lemma infra_set_database id f : pres I (set_database id f).
Proof. infra. Qed.
Lemma infra_set_backup id f : pres I (set_backup id f).
Proof. infra. Qed.
Lemma infra_set_delivery id f : pres I (set_delivery id f).
Proof. infra. Qed.
Lemma infra_set_member id f : pres I (set_member id f).
Proof. infra. Qed.
Lemma infra_set_node id f : pres I (set_node id f).
Proof. infra. Qed.
Lemma infra_set_core id f : pres I (set_core id f).
Proof. infra. Qed.
Lemma infra_add_database_event e : pres I (add_database_event e).
Proof. infra. Qed.
Lemma infra_add_cluster_event e : pres I (add_cluster_event e).
Proof. infra. Qed.
Lemma infra_record_audit a b c d e f g : pres I (record_audit a b c d e f g).
Proof. infra. Qed.
Lemma infra_add_credential c : pres I (add_credential c).
Proof. unfold add_credential. pres_go. infra. Qed.
Lemma infra_add_database d : pres I (add_database d).
Proof. unfold add_database. pres_go. infra. Qed.
Lemma infra_add_backup now d ty : pres I (add_backup now d ty).
Proof. unfold add_backup. pres_go. infra. Qed.
Lemma infra_add_node n : pres I (add_node n).
Proof. unfold add_node. pres_go. infra. Qed.
Lemma infra_enqueue now ty p key o rt rid : pres I (enqueue now ty p key o rt rid).
Proof. apply pres_enqueue. intros s j Hs. eapply (ii_frame I HI); [..|exact Hs]; reflexivity. Qed.
Lemma infra_emit_event now o event data : pres I (emit_event now o event data).
Proof. apply pres_emit_event; intros s j Hs; (eapply (ii_frame I HI); [..|exact Hs]; reflexivity). Qed.
Lemma infra_transaction {A} (m : M Cp A) : pres I m -> pres I (transaction m).
Proof. intros Hm. apply pres_transaction; [exact infra_log|by apply pres_keeps]. Qed.
Lemma infra_get_current_user now credentials : pres I (get_current_user now credentials).
Proof. apply pres_get_current_user. exact infra_keys. Qed.
Lemma infra_new_cluster node region iso : pres I (new_cluster node region iso).
Proof.
  intros s Hs. rewrite new_cluster_run. cbv zeta. cbn [fst].
  pose proof (ii_new I HI s (uuid4 s) region (bool_decide (iso = SHARED)) CL_ACTIVE Hs) as Hn.
  eapply (ii_frame I HI); [..|apply Hn; by apply (uuid4_not_used s)]; reflexivity.
Qed.
Lemma infra_get_or_create node region iso : pres I (get_or_create_cluster_on_node node region iso).
Proof. unfold get_or_create_cluster_on_node. pres_go. apply infra_new_cluster. Qed.
Lemma infra_agent_request node m p args : pres I (agent_request (call_agent node m p args)).
Proof.
  unfold agent_request. apply pres_try; [apply infra_call_agent|]. intros e k. destruct e; intros [= <-]; apply pres_raise.
Qed.
Lemma infra_select_node now region iso a b c : pres I (select_node_and_cluster now region iso a b c).
Proof. apply pres_select_node_and_cluster. Qed.
#[local] Hint Resolve infra_call_agent infra_set_database infra_set_backup infra_set_delivery infra_set_member infra_set_node
  infra_set_core infra_add_database_event infra_add_cluster_event infra_record_audit infra_add_credential infra_add_database
  infra_add_backup infra_add_node infra_enqueue infra_emit_event infra_get_current_user infra_new_cluster
  infra_get_or_create infra_agent_request infra_select_node pres_get_primary_node pres_get_object_or_raise
  pres_get_project_or_404 pres_get_database_or_404 pres_get_membership pres_require_permission
  pres_require_active_subscription pres_running_database pres_role_of : pres.

(** *** The worker *)

Lemma infra_handlers now ty h job : ALL_HANDLERS now ty = Some h -> pres I (h job).
Proof.
  unfold ALL_HANDLERS, WEBHOOK_HANDLERS, BACKUP_HANDLERS, HANDLERS.
  repeat case_decide; intros [= <-].
  - unfold execute_deliver_webhook. pres_go.
  - unfold execute_backup_database. pres_go.
  - unfold execute_restore_database. pres_go.
  - unfold execute_verify_backup. pres_go.
  - unfold execute_create_database. pres_go.
  - unfold execute_delete_database. pres_go.
  - unfold execute_suspend_database. pres_go.
  - unfold execute_resume_database. pres_go.
  - unfold execute_migrate_database, ignore_unreachable. pres_go.
    apply pres_try; [pres_go|]. intros e k. destruct (decide (e = AgentUnreachableError)); intros [= <-]. apply pres_ret.
Qed.

Lemma infra_terminal now ty h job : TERMINAL_FAILURE_HANDLERS now ty = Some h -> pres I (h job).
Proof.
  intros [-> | [-> | ->]]%terminal_cases;
    [unfold mark_database_failed|unfold mark_backup_failed|unfold mark_webhook_delivery_failed]; pres_go.
Qed.

Lemma infra_run_once now : pres I (cp_run_once str_exn now).
Proof.
  unfold cp_run_once, run_once. apply pres_bind.
  { apply pres_atomic. unfold claim_next_job. pres_go. }
  intros [id|]; [|apply pres_ret]. apply pres_bind; [|auto with pres].
  apply pres_atomic, pres_bind; [auto with pres|]. intros j. apply pres_try.
  - destruct (ALL_HANDLERS now (job_type j)) as [h|] eqn:E; [|apply pres_raise].
    change (pres I (r ← h id; mark_succeeded now id r)).
    apply pres_bind; [by eapply infra_handlers|]. intros r. apply infra_set_core.
  - intros e k [= <-]. unfold mark_failed_or_retry. pres_go. by eapply infra_terminal.
Qed.

(** *** Requests *)

Lemma infra_org_request {A} now credentials o (m : uuid * User -> Membership -> M Cp A) :
  (forall u ms, pres I (m u ms)) -> pres I (org_request now credentials o m).
Proof.
  intros Hm. unfold org_request. apply pres_bind; [apply infra_get_current_user|]. intros u.
  apply infra_transaction, pres_bind; [auto with pres|]. intros ms. apply Hm.
Qed.

Lemma infra_database_request now credentials org call : pres I (database_request now credentials org call).
Proof.
  apply infra_org_request. intros u ms. destruct call; simpl.
  - unfold create_database. pres_go. apply pres_try; [auto with pres|]. intros e k. case_decide; intros [= <-]. apply pres_raise.
  - unfold delete_database. pres_go.
  - unfold suspend_database. pres_go.
  - unfold resume_database. pres_go.
  - unfold resize_database. pres_go.
  - unfold get_database_connection. pres_go.
Qed.

Lemma infra_migrate_request now credentials database target : pres I (migrate_request now credentials database target).
Proof.
  unfold migrate_request. apply pres_bind; [apply infra_get_current_user|]. intros u. apply infra_transaction.
  unfold require_platform_admin, migrate_database. pres_go.
Qed.

Lemma infra_backup_request now credentials org call : pres I (backup_request now credentials org call).
Proof.
  apply infra_org_request. intros u ms. destruct call; simpl.
  - unfold create_backup. pres_go.
  - unfold restore_backup. pres_go.
  - unfold set_backup_policy. pres_go.
Qed.

(** *** Failover *)

Lemma infra_probe_all replicas : pres I (probe_all replicas).
Proof.
  induction replicas as [|m replicas IH]; simpl; [apply pres_ret|]. unfold probe, get_member_replication_status. pres_go.
  apply pres_try; [pres_go|]. intros e k. case_decide; intros [= <-]. apply pres_ret.
Qed.
#[local] Hint Resolve infra_probe_all : pres.

Lemma infra_execute_failover now cluster automatic : pres I (execute_failover now cluster automatic).
Proof. unfold execute_failover. pres_go; infra. Qed.
Lemma infra_add_replica cluster node : pres I (add_replica cluster node).
Proof. unfold add_replica, get_member_replication_status, add_member_row. pres_go. infra. Qed.
#[local] Hint Resolve infra_execute_failover infra_add_replica : pres.

Lemma infra_cluster_handle now credentials call : pres I (cluster_handle now credentials call).
Proof.
  destruct call as [cluster node|cluster]; simpl; (apply pres_bind; [|auto with pres]); unfold admin_request, admin_user_request;
    (apply pres_bind; [apply infra_get_current_user|]); intros u; apply infra_transaction; unfold require_platform_admin.
  - unfold attach_replica. pres_go. apply pres_try; [pres_go|]. intros e k. destruct e; intros [= <-]; apply pres_raise.
  - unfold trigger_failover. pres_go. apply pres_try; [pres_go|]. intros e k. case_decide; intros [= <-]. apply pres_raise.
Qed.

Lemma infra_check_clusters now cs : pres I (check_clusters now cs).
Proof.
  induction cs as [|c cs IH]; simpl; [apply pres_ret|]. apply pres_bind; [|intros ?; apply pres_bind; [done|auto with pres]].
  apply infra_transaction. unfold check_cluster. pres_go.
  apply pres_try; [pres_go|]. intros e k. case_decide; intros [= <-]. pres_go.
Qed.

(** *** Passes *)

Lemma infra_due_backups now : pres I (enqueue_due_backups now).
Proof. apply infra_transaction. pres_go. apply pres_count_each. intros kd _. pres_go. Qed.
Lemma infra_due_verifications now : pres I (enqueue_due_verifications now).
Proof. apply infra_transaction. cbv zeta. pres_go. apply pres_count_each. intros kd _. pres_go. Qed.
Lemma infra_purge now : pres I (purge_expired_automatic_backups now).
Proof.
  apply infra_transaction. pres_go.
  match goal with |- pres _ (purge_databases _ ?dbs) => induction dbs as [|kd dbs IH]; simpl end; [apply pres_ret|].
  apply pres_bind; [|intros n; apply pres_bind; [exact IH|auto with pres]].
  unfold purge_database. pres_go. apply pres_count_each. intros kb _. unfold purge_backup. pres_go.
  apply pres_try; [pres_go|]. intros e k. case_decide; intros [= <-]. apply pres_ret.
Qed.
Lemma infra_failovers now : pres I (check_and_failover_unhealthy_clusters now).
Proof. unfold check_and_failover_unhealthy_clusters. apply pres_bind; [auto with pres|]. intros cs. apply infra_check_clusters. Qed.
Lemma infra_meter now : pres I (meter_usage now).
Proof.
  apply infra_transaction. pres_go. apply pres_count_each. intros kd _.
  apply pres_meter_database; [exact infra_log|]. intros s l. by apply (ii_frame I HI).
Qed.

Lemma infra_node_handle now credentials call : pres I (node_handle now credentials call).
Proof.
  assert (forall A (m : uuid * User -> M Cp A), (forall u, pres I (m u)) -> pres I (admin_user_request now credentials m)) as Hadmin.
  { intros A m Hm. unfold admin_user_request, require_platform_admin. apply pres_bind; [apply infra_get_current_user|]. intros u.
    apply infra_transaction. apply pres_bind; [pres_go|]. intros _. apply Hm. }
  destruct call as [p|code minutes|node|node|code]; simpl.
  - apply pres_bind; [|auto with pres]. apply infra_transaction. unfold register_node, set_token. pres_go. infra.
  - apply pres_bind; [|auto with pres]. apply Hadmin. intros u. unfold create_registration_token. pres_go. infra.
  - apply infra_transaction. unfold get_authenticated_node. pres_go.
  - apply pres_bind; [|auto with pres]. apply Hadmin. intros u. unfold health_check. pres_go.
    apply pres_try; [pres_go|]. intros e k. case_decide; intros [= <-]. apply pres_ret.
  - apply pres_bind; [|auto with pres]. apply Hadmin. intros u. unfold create_region. pres_go. infra.
Qed.
End infra.

(** *** Requests on accounts, roles, statements and webhooks touch none of these tables, and
    of the users neither the address nor the privilege *)

Definition same_standing (u v : User) : Prop :=
  ur_email v = ur_email u /\ ur_is_platform_admin v = ur_is_platform_admin u.
Record outer_invariant (I : Cp -> Prop) : Prop := {
  oi_frame : forall s t, nodes t = nodes s -> clusters t = clusters s -> cluster_members t = cluster_members s ->
    databases t = databases s -> subscriptions t = subscriptions s -> invoices t = invoices s -> users t = users s -> I s -> I t;
  oi_set_user : forall s id f, (forall u, same_standing u (f u)) -> I s -> I (s <| users ::= alter f id |>);
  oi_add_user : forall s id u, users s !! id = None -> ur_is_platform_admin u = false -> I s -> I (s <| users ::= <[id := u]> |>);
}.

Section outer.
Context (I : Cp -> Prop) (HI : outer_invariant I).
Ltac outer := apply pres_modify; intros ? ?; eapply (oi_frame I HI); [..|eassumption]; reflexivity.
Lemma outer_log s l : I s -> I (s <| agent_log := l |>).
Proof. by apply (oi_frame I HI). Qed.
Lemma outer_keys s l : I s -> I (s <| api_keys := l |>).
Proof. by apply (oi_frame I HI). Qed.
Lemma outer_record_audit a b c d e f g : pres I (record_audit a b c d e f g).
Proof. outer. Qed.
Lemma outer_set_user id f : (forall u, same_standing u (f u)) -> pres I (set_user id f).
Proof. intros Hf. apply pres_modify. intros s. by apply (oi_set_user I HI). Qed.
Lemma outer_add_user u : ur_is_platform_admin u = false -> pres I (add_user u).
Proof.
  intros Hu s Hs. unfold add_user. rewrite bind_gets. apply (oi_add_user I HI); [|done..].
  by destruct (uuid4_not_used s) as (_&_&_&_&_&_&_&_&_&_&_&_&_&_&_&_&H&_).
Qed.
Lemma outer_notify user ty data : pres I (notify user ty data).
Proof. unfold notify. pres_go. outer. Qed.
Lemma outer_add_oauth a : pres I (add_oauth_account a).
Proof. unfold add_oauth_account. pres_go. outer. Qed.
Lemma outer_add_api_key k : pres I (add_api_key k).
Proof. unfold add_api_key. pres_go. outer. Qed.
Lemma outer_agent_request node m p args : pres I (agent_request (call_agent node m p args)).
Proof.
  unfold agent_request. apply pres_try; [apply pres_call_agent; exact outer_log|]. intros e k. destruct e; intros [= <-]; apply pres_raise.
Qed.
Lemma outer_call_agent node m p args : pres I (call_agent node m p args).
Proof. apply pres_call_agent. exact outer_log. Qed.
Lemma outer_transaction {A} (m : M Cp A) : pres I m -> pres I (transaction m).
Proof. intros Hm. apply pres_transaction; [exact outer_log|by apply pres_keeps]. Qed.
Lemma outer_get_current_user now credentials : pres I (get_current_user now credentials).
Proof. apply pres_get_current_user. exact outer_keys. Qed.
#[local] Hint Extern 1 (pres _ (set_user _ _)) => apply outer_set_user; by intros : pres.
#[local] Hint Extern 1 (pres _ (add_user _)) => by apply outer_add_user : pres.
#[local] Hint Resolve outer_record_audit outer_notify outer_add_oauth outer_add_api_key
  outer_agent_request outer_call_agent pres_get_primary_node pres_get_project_or_404 pres_get_database_or_404 pres_get_membership
  pres_require_permission pres_require_active_subscription pres_running_database pres_role_of : pres.

Lemma outer_org_request {A} now credentials o (m : uuid * User -> Membership -> M Cp A) :
  (forall u ms, pres I (m u ms)) -> pres I (org_request now credentials o m).
Proof.
  intros Hm. unfold org_request. apply pres_bind; [apply outer_get_current_user|]. intros u.
  apply outer_transaction, pres_bind; [auto with pres|]. intros ms. apply Hm.
Qed.
Lemma outer_session_request {A} now credentials (m : uuid * User -> M Cp A) :
  (forall u, pres I (m u)) -> pres I (session_request now credentials m).
Proof.
  intros Hm. unfold session_request. apply pres_bind; [apply outer_get_current_user|]. intros u. by apply outer_transaction.
Qed.

Lemma outer_ops_request now credentials org call : pres I (ops_request now credentials org call).
Proof.
  apply outer_org_request. intros u ms. destruct call; simpl.
  - unfold create_role. pres_go. outer.
  - unfold delete_role. pres_go. outer.
  - unfold rotate_role. pres_go. outer.
  - unfold list_extensions, ask_agent. pres_go.
  - unfold list_tables, ask_agent. pres_go.
  - unfold get_metrics, ask_agent, figure. pres_go.
  - unfold install_extension. pres_go.
  - unfold drop_extension. pres_go.
  - unfold execute_sql. pres_go; outer.
  - unfold create_saved_query. pres_go. outer.
  - unfold delete_saved_query. pres_go. outer.
  - unfold create_webhook. pres_go. outer.
  - unfold delete_webhook. pres_go. outer.
Qed.

Lemma outer_account_handle now credentials call : pres I (account_handle now credentials call).
Proof.
  destruct call; simpl.
  - apply pres_bind; [|auto with pres]. unfold register, notify_welcome. pres_go.
  - apply pres_bind; [|auto with pres]. unfold login, otp_ok. pres_go.
  - apply pres_bind; [|auto with pres]. apply outer_transaction. unfold handle_callback, notify_welcome. pres_go.
  - apply outer_session_request. intros u. unfold revoke_all_sessions. pres_go.
  - apply pres_bind; [|auto with pres]. apply outer_session_request. intros u. unfold enable_mfa. pres_go.
  - apply outer_session_request. intros u. unfold verify_mfa. pres_go.
  - apply pres_bind; [|auto with pres]. apply outer_org_request. intros u ms. unfold create_api_key. pres_go.
  - apply outer_org_request. intros u ms. unfold revoke_api_key. pres_go. outer.
  - apply outer_session_request. intros u. unfold mark_notification_read. pres_go. outer.
Qed.
End outer.

(** *** Billing and organizations touch no table of the fleet *)

Record fleet_invariant (I : Cp -> Prop) : Prop := {
  fi_frame : forall s t, nodes t = nodes s -> clusters t = clusters s -> cluster_members t = cluster_members s ->
    databases t = databases s -> users t = users s -> I s -> I t;
}.

Lemma fleet_ok_frame : fleet_invariant fleet_ok.
Proof. split. intros s t Hn Hc Hm Hd _. unfold fleet_ok. by rewrite Hn, Hc, Hm, Hd. Qed.
Lemma no_ha_frame : fleet_invariant no_ha.
Proof. split. intros s t _ Hc _ _ _. by apply no_ha_clusters. Qed.
(** What says nothing of the users. *)
Lemma fleet_outer I : fleet_invariant I -> (forall s m, I s -> I (s <| users := m |>)) -> outer_invariant I.
Proof.
  intros HI Hu. split.
  - intros s t Hn Hc Hm Hd _ _ Hv. by apply (fi_frame I HI).
  - intros s id f _ Hs. by apply Hu.
  - intros s id u _ _ Hs. by apply Hu.
Qed.
Lemma fleet_ok_outer : outer_invariant fleet_ok.
Proof. by apply fleet_outer; [apply fleet_ok_frame|]. Qed.
Lemma no_ha_outer : outer_invariant no_ha.
Proof. by apply fleet_outer; [apply no_ha_frame|]. Qed.
Lemma billing_ok_outer : outer_invariant billing_ok.
Proof. split; [|done..]. intros s t _ _ _ _ Hx Hv _. unfold billing_ok. by rewrite Hx, Hv. Qed.

Section fleet_tables.
Context (I : Cp -> Prop) (HI : fleet_invariant I).
Ltac framed := apply pres_modify; intros ? ?; eapply (fi_frame I HI); [..|eassumption]; reflexivity.
Lemma framed_notify o ty data : pres I (notify_owner o ty data).
Proof. apply pres_notify_owner. intros s l. by apply (fi_frame I HI). Qed.
Lemma framed_emit_event now o event data : pres I (emit_event now o event data).
Proof. apply pres_emit_event; intros s j Hs; (eapply (fi_frame I HI); [..|exact Hs]; reflexivity). Qed.
#[local] Hint Resolve framed_notify framed_emit_event pres_require_permission : pres.

Lemma framed_org_handle now credentials call : pres I (org_handle now credentials call).
Proof.
  apply pres_org_handle; try (intros s l; by apply (fi_frame I HI)).
  intros name slug user. apply pres_keeps.
  unfold create_organization, add_organization, add_membership, add_subscription, record_audit. pres_go; framed.
Qed.

Lemma framed_billing : billing_invariant I.
Proof.
  split; try (intros s l; by apply (fi_frame I HI)).
  - apply framed_org_handle.
  - intros now kx. apply pres_keeps. unfold bill_subscription, compute_invoice_for_subscription, set_subscription,
      add_line_item, notify_subscription_suspended, notify_invoice_created. pres_go; framed.
  - intros o plan ms. unfold update_subscription, set_subscription, notify_subscription_changed, get_subscription_or_404. pres_go; framed.
  - intros now i provider reference s t u v Hs _ _ H.
    assert (pres I (mark_invoice_paid now i provider reference)) as Hp; [|by eapply pres_run].
    unfold mark_invoice_paid, set_invoice, notify_invoice_paid, reactivate_if_current, set_subscription,
      notify_subscription_reactivated. pres_go; framed.
Qed.
End fleet_tables.

(** *** The fleet and the worker *)

Lemma fleet_terminal now ty h job : TERMINAL_FAILURE_HANDLERS now ty = Some h -> pres fleet_ok (h job).
Proof.
  assert (forall id f, pres fleet_ok (set_backup id f)) as Hb by (intros; by apply pres_modify).
  assert (forall id f, pres fleet_ok (set_delivery id f)) as Hd by (intros; by apply pres_modify).
  intros [-> | [-> | ->]]%terminal_cases;
    [unfold mark_database_failed|unfold mark_backup_failed|unfold mark_webhook_delivery_failed]; pres_go;
    first [apply fleet_emit_event | by apply pres_set_database | apply fleet_add_database_event].
Qed.

Lemma fleet_all_handlers now ty h job : ALL_HANDLERS now ty = Some h -> pres fleet_ok (h job).
Proof.
  unfold ALL_HANDLERS. destruct (WEBHOOK_HANDLERS now ty) as [w|] eqn:Ew.
  - intros [= <-]. revert Ew. unfold WEBHOOK_HANDLERS. case_decide; intros [= <-].
    unfold execute_deliver_webhook. pres_go; by apply pres_modify.
  - destruct (BACKUP_HANDLERS now ty) as [b|] eqn:Eb; [|apply fleet_handlers].
    intros [= <-]. by eapply fleet_backup_handlers.
Qed.

Lemma fleet_run_once now : pres fleet_ok (cp_run_once str_exn now).
Proof.
  assert (forall id f, pres fleet_ok (set_core id f)) as Hc by (intros; by apply pres_modify).
  unfold cp_run_once, run_once. apply pres_bind.
  { apply pres_atomic. unfold claim_next_job. pres_go. }
  intros [id|]; [|apply pres_ret]. apply pres_bind; [|auto with pres].
  apply pres_atomic, pres_bind; [auto with pres|]. intros j. apply pres_try.
  - destruct (ALL_HANDLERS now (job_type j)) as [h|] eqn:E; [|apply pres_raise].
    change (pres fleet_ok (r ← h id; mark_succeeded now id r)).
    apply pres_bind; [by eapply fleet_all_handlers|]. intros r. apply Hc.
  - intros e k [= <-]. unfold mark_failed_or_retry. pres_go. by eapply fleet_terminal.
Qed.

Lemma fleet_cluster_handle now credentials call : pres fleet_ok (cluster_handle now credentials call).
Proof.
  destruct call; simpl; (apply pres_bind; [|auto with pres]); apply pres_admin_request; try done;
    [apply fleet_attach_replica|apply fleet_trigger_failover].
Qed.

(** *** The tick *)

Lemma tick_keeps (I : Cp -> Prop) now :
  pres I (enqueue_due_backups now) -> pres I (enqueue_due_verifications now) ->
  pres I (purge_expired_automatic_backups now) -> pres I (check_and_failover_unhealthy_clusters now) ->
  pres I (meter_usage now) -> pres I (generate_due_invoices now) -> pres I (tick now).
Proof. intros. unfold tick. repeat (apply pres_bind; [assumption|intros _]). apply pres_ret. Qed.

Lemma fleet_tick now : pres fleet_ok (tick now).
Proof.
  apply tick_keeps; [apply fleet_due_backups|apply fleet_due_verifications|apply fleet_purge| | |].
  - unfold check_and_failover_unhealthy_clusters. apply pres_bind; [auto with pres|]. intros cs. apply fleet_check_clusters.
  - intros s Hs. pose proof (billing_handle_keeps fleet_ok (framed_billing _ fleet_ok_frame) now None MeterPass s Hs) as H.
    cbn [billing_handle] in H. unfold mbind, M_bind in H. by destruct (meter_usage now s) as [t [n|e]].
  - intros s Hs. pose proof (billing_handle_keeps fleet_ok (framed_billing _ fleet_ok_frame) now None InvoicePass s Hs) as H.
    cbn [billing_handle] in H. unfold mbind, M_bind in H. by destruct (generate_due_invoices now s) as [t [n|e]].
Qed.

Lemma infra_tick (I : Cp -> Prop) now : infra_invariant I -> pres I (generate_due_invoices now) -> pres I (tick now).
Proof.
  intros HI Hg. apply tick_keeps; [by apply infra_due_backups|by apply infra_due_verifications|by apply infra_purge
    |by apply infra_failovers|by apply infra_meter|done].
Qed.

Lemma no_ha_generate now : pres no_ha (generate_due_invoices now).
Proof.
  intros s Hs. pose proof (billing_handle_keeps no_ha (framed_billing _ no_ha_frame) now None InvoicePass s Hs) as H.
  cbn [billing_handle] in H. unfold mbind, M_bind in H. by destruct (generate_due_invoices now s) as [t [n|e]].
Qed.

(** *** Every step *)

Lemma step_fleet s t : step s t -> fleet_ok s -> fleet_ok t.
Proof.
  intros H Hs. destruct H.
  - by apply fleet_run_once.
  - by apply fleet_tick.
  - by apply (framed_org_handle _ fleet_ok_frame).
  - by apply fleet_database_request.
  - by apply fleet_migrate_request.
  - by apply fleet_backup_request.
  - by apply fleet_cluster_handle.
  - by apply fleet_node_handle.
  - by apply (billing_handle_keeps _ (framed_billing _ fleet_ok_frame)).
  - by apply (outer_account_handle _ fleet_ok_outer).
  - by apply (outer_ops_request _ fleet_ok_outer).
Qed.

Lemma step_no_ha s t : step s t -> no_ha s -> no_ha t.
Proof.
  pose proof no_ha_infra as HI. intros H Hs. destruct H.
  - by apply (infra_run_once _ HI).
  - by apply (infra_tick _ _ HI (no_ha_generate now)).
  - by apply (framed_org_handle _ no_ha_frame).
  - by apply (infra_database_request _ HI).
  - by apply (infra_migrate_request _ HI).
  - by apply (infra_backup_request _ HI).
  - by apply (infra_cluster_handle _ HI).
  - by apply (infra_node_handle _ HI).
  - by apply (billing_handle_keeps _ (framed_billing _ no_ha_frame)).
  - by apply (outer_account_handle _ no_ha_outer).
  - by apply (outer_ops_request _ no_ha_outer).
Qed.

Lemma step_billing_ok s t : step s t -> billing_ok s -> billing_ok t.
Proof.
  pose proof billing_ok_infra as HI. intros H Hs. destruct H.
  - by apply (infra_run_once _ HI).
  - by apply (infra_tick _ _ HI (generate_due_invoices_ok now)).
  - by apply org_handle_billing.
  - by apply (infra_database_request _ HI).
  - by apply (infra_migrate_request _ HI).
  - by apply (infra_backup_request _ HI).
  - by apply (infra_cluster_handle _ HI).
  - by apply (infra_node_handle _ HI).
  - by apply (billing_handle_keeps _ billing_ok_invariant).
  - by apply (outer_account_handle _ billing_ok_outer).
  - by apply (outer_ops_request _ billing_ok_outer).
Qed.

Lemma step_platform_ok s t : step s t -> platform_ok s -> platform_ok t.
Proof.
  intros H [H1 H2 H3]. split; [by eapply step_fleet|by eapply step_billing_ok|by eapply step_no_ha].
Qed.

Lemma reachable_platform_ok s t : platform_ok s -> rtc step s t -> platform_ok t.
Proof. intros Hs Hr. induction Hr as [|s u t Hst _ IH]; [done|]. by eapply IH, step_platform_ok. Qed.

(** *** Administrators *)

(** Since [s], the administrators are those of [s] and users whose address is in [mails]; no
    user was removed, none changed address, none lost the privilege. *)
Record standing (s : Cp) (mails : list string) (t : Cp) : Prop := {
  sd_kept : forall k u, users s !! k = Some u -> exists v, users t !! k = Some v /\ ur_email v = ur_email u /\
    (ur_is_platform_admin u = true -> ur_is_platform_admin v = true);
  sd_named : forall k v, users t !! k = Some v -> ur_is_platform_admin v = true ->
    (exists u, users s !! k = Some u /\ ur_is_platform_admin u = true) \/ ur_email v ∈ mails;
}.

Lemma standing_frame s mails t u : users u = users t -> standing s mails t -> standing s mails u.
Proof. intros E [H1 H2]. split; by rewrite E. Qed.
Lemma standing_infra s mails : infra_invariant (standing s mails).
Proof. split; [intros t u _ _ _|intros t c region shared st H _; revert H]; by apply standing_frame. Qed.
Lemma standing_fleet s mails : fleet_invariant (standing s mails).
Proof. split. intros t u _ _ _ _. by apply standing_frame. Qed.

(** An update of one user that keeps its address and does not take the privilege away. *)
Lemma standing_alter s mails mails' t k f :
  (forall u, ur_email (f u) = ur_email u /\ (ur_is_platform_admin u = true -> ur_is_platform_admin (f u) = true)) ->
  (forall u, users t !! k = Some u -> ur_is_platform_admin (f u) = true ->
     ur_is_platform_admin u = true \/ ur_email u ∈ mails') ->
  mails ⊆ mails' -> standing s mails t -> standing s mails' (t <| users ::= alter f k |>).
Proof.
  intros Hf Hn Hm [H1 H2]. split; intros j u Hj; change (users (t <| users ::= alter f k |>)) with (alter f k (users t)) in *.
  - destruct (H1 j u Hj) as (v & Hv & He & Ha). destruct (decide (k = j)) as [<-|Hne].
    + exists (f v). rewrite lookup_alter_eq, Hv. destruct (Hf v) as [Hfe Hfa]. split_and!; [done|congruence|auto].
    + exists v. by rewrite lookup_alter_ne.
  - intros Hu. apply lookup_alter_Some in Hj as [(<- & v & Hv & ->)|[Hne Hj]].
    + rewrite (proj1 (Hf v)). destruct (Hn v Hv Hu) as [Ha|Hin]; [|by right].
      destruct (H2 _ _ Hv Ha) as [|Hin]; [by left|right; by apply Hm].
    + destruct (H2 _ _ Hj Hu) as [|Hin]; [by left|right; by apply Hm].
Qed.
Lemma standing_outer s mails : outer_invariant (standing s mails).
Proof.
  split.
  - intros t u _ _ _ _ _ _. by apply standing_frame.
  - intros t k f Hf. apply standing_alter; [|intros u _; rewrite (proj2 (Hf u)); by left|done].
    intros u. destruct (Hf u) as [-> ->]. done.
  - intros t k u Hk Hu [H1 H2]. split; intros j v Hj; change (users (t <| users ::= <[k := u]> |>)) with (<[k := u]> (users t)) in *.
    + destruct (H1 j v Hj) as (w & Hw & Hr). exists w. rewrite lookup_insert_ne; [done|]. intros ->. congruence.
    + intros Hv. apply lookup_insert_Some in Hj as [[_ <-]|[_ Hj]]; [congruence|]. by eapply H2.
Qed.

Lemma standing_generate s mails now : pres (standing s mails) (generate_due_invoices now).
Proof.
  intros t Ht. pose proof (billing_handle_keeps _ (framed_billing _ (standing_fleet s mails)) now None InvoicePass t Ht) as H.
  cbn [billing_handle] in H. unfold mbind, M_bind in H. by destruct (generate_due_invoices now t) as [u [n|e]].
Qed.
Lemma step_standing s mails t u : step t u -> standing s mails t -> standing s mails u.
Proof.
  pose proof (standing_infra s mails) as HI. intros H Hs. destruct H.
  - by apply (infra_run_once _ HI).
  - by apply (infra_tick _ _ HI (standing_generate s mails now)).
  - by apply (framed_org_handle _ (standing_fleet s mails)).
  - by apply (infra_database_request _ HI).
  - by apply (infra_migrate_request _ HI).
  - by apply (infra_backup_request _ HI).
  - by apply (infra_cluster_handle _ HI).
  - by apply (infra_node_handle _ HI).
  - by apply (billing_handle_keeps _ (framed_billing _ (standing_fleet s mails))).
  - by apply (outer_account_handle _ (standing_outer s mails)).
  - by apply (outer_ops_request _ (standing_outer s mails)).
Qed.

Lemma promote_admin_standing s mails mail t :
  standing s mails t -> standing s (mails ++ [mail]) (promote_admin mail t).1.
Proof.
  intros Ht. assert (standing s (mails ++ [mail]) t) as Ht'.
  { destruct Ht as [H1 H2]. split; [done|]. intros k v Hv Ha. destruct (H2 k v Hv Ha) as [|Hin]; [by left|right; set_solver]. }
  unfold promote_admin. rewrite bind_gets.
  destruct (select (fun u => bool_decide (ur_email u = mail)) (users t)) as [|[k x] [|y l]] eqn:E; [exact Ht'| |exact Ht'].
  assert ((k, x) ∈ select (fun u => bool_decide (ur_email u = mail)) (users t)) as Hin by (rewrite E; by left).
  apply elem_of_select in Hin as [Hk Hmail%bool_decide_eq_true].
  apply standing_alter with mails; [done| |set_solver|done]. cbn [fst]. intros y Hy _. right. simplify_eq. set_solver.
Qed.

Lemma operated_standing s mails t : operated s mails t -> standing s mails t.
Proof.
  intros H. induction H as [|mails t u _ IH Hst|mails t mail _ IH].
  - split; [intros k u Hu; by exists u|intros k v Hv Ha; left; by exists v].
  - by eapply step_standing.
  - by apply promote_admin_standing.
Qed.

(** Who an endpoint for administrators serves. *)
Lemma admin_user_request_run {A} now credentials (m : uuid * User -> M Cp A) s t a :
  admin_user_request now credentials m s = (t, Ret a) ->
  exists k u, users s !! k = Some u /\ ur_is_platform_admin u = true /\ (get_current_user now credentials s).2 = Ret (k, u).
Proof.
  unfold admin_user_request. intros (u & [k x] & Hu & H)%bind_Ret. pose proof Hu as Hc.
  apply get_current_user_run in Hu as (Hk & _). unfold transaction in H.
  destruct ((require_platform_admin (k, x);; m (k, x)) u) as [v [b|e]] eqn:E; [|discriminate H].
  apply bind_Ret in E as (? & ? & [Ha _]%require_Ret & _). exists k, x. by rewrite Hc.
Qed.

(** ** Properties *)

(** C2. From a well-formed control plane, whatever the worker, the scheduler and the
    callers do, in whatever order and whether their steps succeed or raise: every database
    in service has a primary node, which every operation on it finds; every cluster has
    exactly one primary; and the invoices of a subscription cover disjoint periods. *)
Theorem reachable_platform_serves (s t : Cp) :
  platform_ok s -> rtc step s t ->
  (forall id d, databases t !! id = Some d -> serving (db_status d) = true ->
     exists node n, get_primary_node (db_cluster_id d) t = (t, Ret (node, n)) /\ nodes t !! node = Some n) /\
  (forall c, is_Some (clusters t !! c) -> exists km, select (is_primary_of (Some c)) (cluster_members t) = [km]) /\
  (forall i j v w, invoices t !! i = Some v -> invoices t !! j = Some w ->
     iv_subscription_id v = iv_subscription_id w -> i = j \/ period_before v w \/ period_before w v).
Proof.
  intros Hs Hr. destruct (reachable_platform_ok s t Hs Hr) as [Hf Hb _]. split_and!.
  - intros id d Hd Hserv. destruct (get_primary_node_total t id d Hf Hd Hserv) as [[node n] Hn].
    exists node, n. split; [done|]. by apply get_primary_node_run in Hn as (_ & Hn & _).
  - intros c Hc. by apply (fl_primary _ _ _ _ Hf).
  - intros i j v w Hv Hw E. destruct (decide (i = j)) as [|Hne]; [by left|right]. by eapply (pd_disjoint _ _ Hb).
Qed.

(** C6. Nothing that the worker, the scheduler or a caller does makes an administrator:
    whoever an endpoint for administrators serves, and whatever it does for them, was an
    administrator at the start or has an address that an operator gave to the script; and no
    administrator loses the privilege. *)
Theorem administrators_are_appointed (s t : Cp) (mails : list string) :
  operated s mails t ->
  (forall A now credentials (m : uuid * User -> M Cp A) u a,
     admin_user_request now credentials m t = (u, Ret a) ->
     exists k v, (get_current_user now credentials t).2 = Ret (k, v) /\
       ((exists w, users s !! k = Some w /\ ur_is_platform_admin w = true) \/ ur_email v ∈ mails)) /\
  (forall k u, users s !! k = Some u -> ur_is_platform_admin u = true ->
     exists v, users t !! k = Some v /\ ur_email v = ur_email u /\ ur_is_platform_admin v = true).
Proof.
  intros [H1 H2]%operated_standing. split.
  - intros A now credentials m u a (k & v & Hv & Ha & Hc)%admin_user_request_run. exists k, v. split; [done|]. by eapply H2.
  - intros k u Hu Ha. destruct (H1 k u Hu) as (v & Hv & He & Hk). exists v. auto.
Qed.

(** The automatic failover never runs: attaching a replica does not make a
    cluster one of those the scheduler watches, and nothing else does, so in every
    reachable state its pass finds nothing to do, whatever the health of the nodes. *)
Theorem automatic_failover_never_runs (s t : Cp) (now : timestamp) :
  platform_ok s -> rtc step s t -> check_and_failover_unhealthy_clusters now t = (t, Ret 0).
Proof.
  intros Hs Hr. apply no_ha_nothing_to_do. exact (po_no_ha _ (reachable_platform_ok s t Hs Hr)).
Qed.
End system.

(** ** An example: Acme founds its organization, creates a database, and the worker serves it *)

#[local] Existing Instance accounts_verifier.
#[local] Existing Instance example_accounts.
Definition alice : option string := Some (example_token 0 5 0).

Definition first_day : Cp :=
  example_users <| regions := {[1%positive := mkRegion "eu" true]} |> <| nodes := {[9%positive := example_node "10.0.0.9"]} |>.
Definition founded : Cp := (org_handle 0 alice (CreateOrganization "Acme" "acme") first_day).1.
Definition founded_id : uuid := match map_to_list (organizations founded) with (id, _) :: _ => id | [] => 1 end.
Definition with_project : Cp := (org_handle 0 alice (CreateProject founded_id "Main" "main") founded).1.
Definition first_project : uuid := match map_to_list (projects with_project) with (id, _) :: _ => id | [] => 1 end.
Definition requested : Cp :=
  (database_request 0 alice founded_id (CreateDatabase (2 ^ 120) first_project example_request) with_project).1.
Definition served : Cp := (cp_run_once example_str_exn 1 requested).1.

Lemma platform_ok_without_clusters (s : Cp) :
  clusters s = ∅ -> cluster_members s = ∅ -> databases s = ∅ -> subscriptions s = ∅ -> invoices s = ∅ -> platform_ok s.
Proof.
  intros Hc Hm Hd Hx Hv. split; unfold fleet_ok, billing_ok, no_ha; rewrite ?Hc, ?Hm, ?Hd, ?Hx, ?Hv.
  - split; intros *; rewrite lookup_empty; [discriminate|by intros [? [=]]|discriminate|discriminate].
  - split; intros *; rewrite ?lookup_empty; discriminate.
  - intros c cl. rewrite lookup_empty. discriminate.
Qed.
Lemma first_day_ok : platform_ok first_day.
Proof. apply platform_ok_without_clusters; reflexivity. Qed.

Lemma served_reachable : rtc (step example_str_exn) first_day served.
Proof.
  apply rtc_l with founded; [exact (step_organization example_str_exn first_day 0 alice (CreateOrganization "Acme" "acme"))|].
  apply rtc_l with with_project; [exact (step_organization example_str_exn founded 0 alice (CreateProject founded_id "Main" "main"))|].
  apply rtc_l with requested; [exact (step_database example_str_exn with_project 0 alice founded_id
    (CreateDatabase (2 ^ 120) first_project example_request))|].
  apply rtc_once. exact (step_worker example_str_exn requested 1).
Qed.

Lemma reachable_platform_serves_witness :
  exists id d, databases served !! id = Some d /\ serving (db_status d) = true /\
    exists node n, get_primary_node (db_cluster_id d) served = (served, Ret (node, n)).
Proof.
  assert (exists id d, databases served !! id = Some d /\ serving (db_status d) = true) as (id & d & Hd & Hserv).
  { destruct (map_to_list (databases served)) as [|[id d] l] eqn:E; [apply (f_equal length) in E; vm_compute in E; discriminate E|].
    exists id, d. split; [apply elem_of_map_to_list; rewrite E; by left|].
    apply (f_equal (fun l => match l with (_, d) :: _ => serving (db_status d) | [] => false end)) in E.
    vm_compute in E. symmetry. exact E. }
  destruct (reachable_platform_serves example_str_exn first_day served first_day_ok served_reachable) as (H & _).
  destruct (H id d Hd Hserv) as (node & n & Hn & _).
  exists id, d. split; [exact Hd|]. split; [exact Hserv|]. exists node, n. exact Hn.
Defined.

(** A year later, with no heartbeat from the node. *)
Lemma automatic_failover_never_runs_witness :
  is_eligible_for_placement (days 365) (example_node "10.0.0.9") = false /\
  check_and_failover_unhealthy_clusters (days 365) served = (served, Ret 0).
Proof.
  split; [reflexivity|].
  exact (automatic_failover_never_runs example_str_exn first_day served (days 365) first_day_ok served_reachable).
Defined.

(** Alice is named to the script after her first database is served, and creates a region. *)
Definition appointed : Cp := (promote_admin "alice@x" served).1.
Lemma administrators_are_appointed_witness :
  (admin_user_request 2 alice (create_region "us") served).2 = Exc (HTTPException 403) /\
  is_Some (match (admin_user_request 2 alice (create_region "us") appointed).2 with Ret a => Some a | Exc _ => None end) /\
  exists k v, (get_current_user 2 alice appointed).2 = Ret (k, v) /\ ur_email v ∈ ["alice@x"].
Proof.
  split; [vm_compute; reflexivity|]. split; [vm_compute; by eexists|].
  assert (operated example_str_exn first_day ["alice@x"] appointed) as Ho.
  { apply (operated_promotion example_str_exn first_day [] served "alice@x").
    apply operated_step with requested; [|exact (step_worker example_str_exn requested 1)].
    apply operated_step with with_project; [|exact (step_database example_str_exn with_project 0 alice founded_id
      (CreateDatabase (2 ^ 120) first_project example_request))].
    apply operated_step with founded; [|exact (step_organization example_str_exn founded 0 alice (CreateProject founded_id "Main" "main"))].
    apply operated_step with first_day; [constructor|].
    exact (step_organization example_str_exn first_day 0 alice (CreateOrganization "Acme" "acme")). }
  destruct (administrators_are_appointed example_str_exn first_day appointed ["alice@x"] Ho) as [H _].
  destruct (admin_user_request 2 alice (create_region "us") appointed) as [u [a|e]] eqn:E.
  - destruct (H _ _ _ _ _ _ E) as (k & v & Hc & [(w & Hw & Ha)|Hin]); [clear - Hw Ha|exists k, v; exact (conj Hc Hin)].
    exfalso. revert Hw Ha. generalize k. clear. intros k Hw Ha.
    change (users first_day) with (users example_users) in Hw. cbn in Hw.
    rewrite !lookup_insert_Some, lookup_singleton_Some in Hw. by destruct Hw as [[_ <-]|[_ [[_ <-]|[_ [_ <-]]]]].
  - apply (f_equal snd) in E. vm_compute in E. discriminate E.
Defined.
