(* ===== verification/RateLimit.v ===== *)
(** * The rate limiter of the API: [backend/app/core/rate_limit.py] and the middleware of
    [backend/app/main.py]

    The state is the two dictionaries of the process. An instant is [time.monotonic()] in
    microseconds. The specification is a limiter that keeps every accepted request for
    ever and counts those of the last minute; the deques implement it. *)

From Stdlib Require Import Ascii String Sorted.
From stdpp Require Import pretty sorting.
From S2P Require Import Prelude PyStd Queue ControlPlane Platform Access Organizations.

(** ** Model *)

Definition WINDOW_SECONDS : Z := 60.
Definition UNAUTHENTICATED_LIMIT : Z := 20.
Definition DEFAULT_AUTHENTICATED_LIMIT : Z := 300.
Definition PLAN_LIMITS : gmap string Z := {["free" := 60; "pro" := 600]}.
Definition PLAN_CACHE_TTL_SECONDS : Z := 30.

(** The organizations of the cache by the integer of their identifier. *)
Record Limiter := mkLimiter {
  buckets : gmap string (list timestamp);
  plan_cache : gmap Z (string * timestamp);
}.
#[export] Instance Limiter_fields : Fields Limiter := fun x => mkLimiter (buckets x) (plan_cache x).

Definition bucket (s : Limiter) (key : string) : list timestamp := default [] (buckets s !! key).

(** [while bucket and bucket[0] <= now - _WINDOW_SECONDS: bucket.popleft()] *)
Fixpoint drop_expired (now : timestamp) (b : list timestamp) : list timestamp :=
  match b with
  | t :: b' => if t <=? now - seconds WINDOW_SECONDS then drop_expired now b' else b
  | [] => []
  end.

Definition check_rate_limit (now : timestamp) (key : string) (limit : Z) : M Limiter (bool * Z) :=
  b ← gets (fun s => drop_expired now (bucket s key));
  modify (fun s => s <| buckets ::= <[key := b]> |>);;
  if limit <=? Z.of_nat (length b) then
    oldest ← some_or (head b) IndexError;
    mret (false, Z.max 1 (Z.quot (seconds WINDOW_SECONDS - (now - oldest)) (seconds 1) + 1))
  else
    modify (fun s => s <| buckets ::= <[key := b ++ [now]]> |>);;
    mret (true, 0).

(** *** The key and the limit of a request *)

(** [_ORG_PATH_RE.match(path).group(1)]: [$] matches the end, or a newline before it. *)
Definition org_of_path (path : string) : option string :=
  if String.prefix "/api/v1/organizations/" path then
    let rest := removeprefix "/api/v1/organizations/" path in
    let id := String.substring 0 36 rest in
    let tail := String.substring 36 (String.length rest - 36) rest in
    if bool_decide (String.length id = 36%nat) && all_chars (fun c => is_hex c || Ascii.eqb c "-"%char) id
       && (bool_decide (tail = "") || bool_decide (tail = String "010"%char "") || String.prefix "/" tail)
    then Some id else None
  else None.

Definition hex_digit (c : ascii) : Z :=
  let n := Z.of_nat (nat_of_ascii (lower_ascii c)) in if n <=? 57 then n - 48 else n - 87.
Fixpoint hex_value (acc : Z) (s : string) : Z :=
  match s with EmptyString => acc | String c s => hex_value (16 * acc + hex_digit c) s end.
Fixpoint remove_dashes (s : string) : string :=
  match s with EmptyString => "" | String c s => if Ascii.eqb c "-"%char then remove_dashes s else String c (remove_dashes s) end.
(** [uuid.UUID(s)] of a string of hexadecimal digits and dashes. *)
Definition uuid_of (s : string) : outcome Z :=
  let h := remove_dashes s in
  if bool_decide (String.length h = 32%nat) then Ret (hex_value 0 h) else Exc ValueError.

(** The null UUID names no row. *)
Definition row_id (n : Z) : option uuid := match n with Zpos p => Some p | _ => None end.

Definition cached_plan (now : timestamp) (organization : Z) (s : Limiter) : option string :=
  match plan_cache s !! organization with
  | Some (name, until) => if now <? until then Some name else None
  | None => None
  end.

Definition plan_name_for_org (now : timestamp) (db : Cp) (organization : Z) : M Limiter (option string) :=
  cached ← gets (cached_plan now organization);
  match cached with
  | Some name => mret (Some name)
  | None =>
      subscription ← scalar_one_or_none
        (rows (fun x => bool_decide (Some (su_organization_id x) = row_id organization)) (subscriptions db));
      match subscription with
      | None => mret None
      | Some x =>
          match plans db !! su_plan_id x with
          | None => mret None
          | Some plan =>
              modify (fun s => s <| plan_cache ::=
                <[organization := (pl_name plan, now + seconds PLAN_CACHE_TTL_SECONDS)]> |>);;
              mret (Some (pl_name plan))
          end
      end
  end.

Record Request := mkRequest {
  rq_path : string;
  rq_authorization : string;
  rq_client : option string;
}.

(** [str] of the integer of a UUID. *)
Definition str_uuid_int (n : Z) : string :=
  let h := hex_of 32 n in
  String.substring 0 8 h +:+ "-" +:+ String.substring 8 4 h +:+ "-" +:+ String.substring 12 4 h +:+ "-"
  +:+ String.substring 16 4 h +:+ "-" +:+ String.substring 20 12 h.

Definition plan_limit (name : option string) : Z :=
  match name with
  | Some name => if bool_decide (name = "") then DEFAULT_AUTHENTICATED_LIMIT
                 else default DEFAULT_AUTHENTICATED_LIMIT (PLAN_LIMITS !! name)
  | None => DEFAULT_AUTHENTICATED_LIMIT
  end.

Section limiter.
Context `{Auth : Verifier}.

(** [utc] is the clock of the tokens, [now] the monotonic one. *)
Definition resolve_key_and_limit (now utc : timestamp) (db : Cp) (r : Request) : M Limiter (string * Z) :=
  match org_of_path (rq_path r) with
  | Some id =>
      organization ← lift_outcome (uuid_of id);
      name ← plan_name_for_org now db organization;
      mret ("org:" +:+ str_uuid_int organization, plan_limit name)
  | None =>
      let header := rq_authorization r in
      let user := if String.prefix "bearer " (lower header)
                  then decode_access_token utc (String.substring 7 (String.length header - 7) header) else None in
      mret match user with
           | Some (id, version) =>
               (** the text of a [TokenPayload] *)
               ("user:TokenPayload(user_id=UUID('" +:+ str_uuid id +:+ "'), token_version=" +:+ pretty version +:+ ")",
                DEFAULT_AUTHENTICATED_LIMIT)
           | None => ("ip:" +:+ default "unknown" (rq_client r), UNAUTHENTICATED_LIMIT)
           end
  end.

(** [RateLimitMiddleware.dispatch]: [None] lets the request through, [Some n] answers 429
    with [Retry-After: n]. *)
Definition dispatch (now utc : timestamp) (db : Cp) (r : Request) : M Limiter (option Z) :=
  if bool_decide (rq_path r = "/health") then mret None else
  kl ← resolve_key_and_limit now utc db r;
  answer ← check_rate_limit now kl.1 kl.2;
  mret (if answer.1 : bool then None else Some answer.2).

(** ** The specification *)

(** A limiter that remembers every accepted request and counts those of the last minute. *)
Abbreviation history := (list (string * timestamp)) (only parsing).
Definition of_key (key : string) (h : history) : list timestamp := (filter (fun x => x.1 = key) h).*2.
Definition recent (now : timestamp) (l : list timestamp) : list timestamp :=
  filter (fun t => now - seconds WINDOW_SECONDS < t) l.
Definition spec_check (now : timestamp) (key : string) (limit : Z) (h : history) : history * bool :=
  if Z.of_nat (length (recent now (of_key key h))) <? limit then (h ++ [(key, now)], true) else (h, false).

(** A request to the limiter: instant, key and limit. *)
Abbreviation call := (timestamp * string * Z)%type (only parsing).
Definition spec_run (calls : list call) : history :=
  foldl (fun h c => (spec_check c.1.1 c.1.2 c.2 h).1) [] calls.
Definition run (calls : list call) (s : Limiter) : Limiter :=
  foldl (fun s c => (check_rate_limit c.1.1 c.1.2 c.2 s).1) s calls.
(** The calls come in the order of the clock, with positive limits. *)
Definition ordered (calls : list call) : Prop :=
  StronglySorted Z.le (calls.*1.*1) /\ Forall (fun c => 0 < c.2) calls.

(** [represents now h s]: each deque of [s] holds, in order, the accepted requests of its
    key that are no older than a minute before some instant already passed. *)
Record represents (now : timestamp) (h : history) (s : Limiter) : Prop := {
  rp_sorted : StronglySorted Z.le h.*2;
  rp_past : Forall (fun t => t <= now) h.*2;
  rp_bucket : forall key, exists t, t <= now /\ bucket s key = recent t (of_key key h);
}.

(** ** Lemmas *)

Lemma drop_expired_recent now l : StronglySorted Z.le l -> drop_expired now l = recent now l.
Proof.
  induction 1 as [|t l Hl IH Ht]; [done|]. unfold recent in *. rewrite filter_cons. cbn [drop_expired].
  destruct (Z.leb_spec t (now - seconds WINDOW_SECONDS)).
  - rewrite decide_False by lia. exact IH.
  - rewrite decide_True by lia. f_equal. symmetry. apply filter_all. eapply Forall_impl; [exact Ht|]. simpl. lia.
Qed.

Lemma recent_recent t now l : t <= now -> recent now (recent t l) = recent now l.
Proof. intros Ht. apply list_filter_filter_l. lia. Qed.

Lemma of_key_sublist key h : of_key key h `sublist_of` h.*2.
Proof.
  unfold of_key. induction h as [|x h IH]; [done|]. rewrite filter_cons. case_decide; cbn [fmap list_fmap].
  - by apply sublist_skip.
  - by apply sublist_cons.
Qed.

Lemma sorted_sublist (l k : list Z) : l `sublist_of` k -> StronglySorted Z.le k -> StronglySorted Z.le l.
Proof.
  induction 1 as [|x l k Hs IH|x l k Hs IH]; intros Hk; [done| |]; inversion_clear Hk as [|? ? Hk' Hx]; [|auto].
  constructor; [auto|]. rewrite Forall_forall in *. intros y Hy. apply Hx. by eapply elem_of_sublist.
Qed.

Lemma of_key_app key k now h : of_key key (h ++ [(k, now)]) = of_key key h ++ (if decide (k = key) then [now] else []).
Proof.
  unfold of_key. rewrite filter_app, fmap_app. f_equal. rewrite filter_cons, filter_nil. simpl. by destruct (decide (k = key)).
Qed.

Lemma recent_app now l k : recent now (l ++ k) = recent now l ++ recent now k.
Proof. apply filter_app. Qed.

Lemma recent_now now : recent now [now] = [now].
Proof. unfold recent. rewrite filter_cons, filter_nil. case_decide as H; [done|]. unfold seconds, WINDOW_SECONDS in H. lia. Qed.

Lemma bucket_insert s key b k : bucket (s <| buckets ::= <[key := b]> |>) k = if decide (k = key) then b else bucket s k.
Proof.
  unfold bucket. simpl. case_decide as E; [subst; by rewrite lookup_insert_eq|by rewrite lookup_insert_ne].
Qed.

(** What a check leaves in the deques, whatever it answers. *)
Lemma check_rate_limit_run now key limit s :
  0 < limit ->
  let b := drop_expired now (bucket s key) in
  if limit <=? Z.of_nat (length b) then
    exists oldest, head b = Some oldest /\
      check_rate_limit now key limit s = (s <| buckets ::= <[key := b]> |>,
        Ret (false, Z.max 1 (Z.quot (seconds WINDOW_SECONDS - (now - oldest)) (seconds 1) + 1)))
  else exists t, check_rate_limit now key limit s = (t, Ret (true, 0)) /\ plan_cache t = plan_cache s /\
    forall k, bucket t k = if decide (k = key) then b ++ [now] else bucket s k.
Proof.
  intros Hl. cbv zeta. unfold check_rate_limit, mbind, M_bind, gets, modify, mret, M_ret.
  set (b := drop_expired now (bucket s key)).
  destruct (Z.leb_spec limit (Z.of_nat (length b))) as [Hle|Hlt].
  - destruct b as [|o b]; [simpl in Hle; lia|]. by exists o.
  - eexists. split; [done|]. split; [done|]. intros k. rewrite !bucket_insert. by case_decide.
Qed.

Lemma spec_check_sorted now key limit h c :
  StronglySorted Z.le h.*2 -> Forall (fun t => t <= c) h.*2 -> c <= now ->
  StronglySorted Z.le (spec_check now key limit h).1.*2 /\ Forall (fun t => t <= now) (spec_check now key limit h).1.*2.
Proof.
  intros Hs Hp Hc. assert (Forall (fun t => t <= now) h.*2) as Hn by (eapply Forall_impl; [exact Hp|]; simpl; lia).
  unfold spec_check. case_match; [|by split]. cbn [fst]. rewrite fmap_app. split.
  - clear Hp. induction h.*2 as [|x l IH]; simpl; [by repeat constructor|].
    inversion_clear Hs. inversion_clear Hn. constructor; [by apply IH|]. apply Forall_app. by repeat constructor.
  - apply Forall_app. split; [done|]. by repeat constructor.
Qed.

(** One call: the deque decides as the history does, and goes on representing it. *)
Lemma check_refines c now key limit h s :
  represents c h s -> c <= now -> 0 < limit ->
  exists t retry, check_rate_limit now key limit s = (t, Ret ((spec_check now key limit h).2, retry)) /\
    represents now (spec_check now key limit h).1 t.
Proof.
  intros [Hs Hp Hb] Hc Hl. destruct (Hb key) as (t0 & Ht0 & Hk).
  assert (drop_expired now (bucket s key) = recent now (of_key key h)) as E.
  { rewrite Hk, drop_expired_recent; [by apply recent_recent; lia|].
    eapply sorted_sublist; [|exact Hs]. etrans; [apply sublist_filter|apply of_key_sublist]. }
  pose proof (check_rate_limit_run now key limit s Hl) as H. cbv zeta in H. rewrite E in H.
  pose proof (spec_check_sorted now key limit h c Hs Hp Hc) as [Hs' Hp'].
  unfold spec_check in *. rewrite Z.ltb_antisym in *.
  destruct (limit <=? Z.of_nat (length (recent now (of_key key h)))); cbn [negb fst snd] in *.
  - destruct H as (oldest & _ & ->). do 2 eexists. split; [done|]. split; [done|done|]. intros k.
    rewrite bucket_insert. destruct (decide (k = key)) as [->|]; [by exists now|].
    destruct (Hb k) as (tk & ? & ?). exists tk. split; [lia|done].
  - destruct H as (t & -> & _ & Ht). do 2 eexists. split; [done|]. split; [done|done|]. intros k.
    rewrite Ht, of_key_app. destruct (decide (k = key)) as [->|Hne].
    + exists now. split; [done|]. by rewrite decide_True, recent_app, recent_now.
    + destruct (Hb k) as (tk & ? & ?). exists tk. split; [lia|]. by rewrite decide_False, app_nil_r by congruence.
Qed.

(** A run from the empty dictionaries follows the specification. *)
Lemma run_represents calls :
  ordered calls -> forall now, Forall (fun c => c.1.1 <= now) calls -> represents now (spec_run calls) (run calls (mkLimiter ∅ ∅)).
Proof.
  unfold ordered. induction calls as [|[[t k] l] calls IH] using rev_ind.
  - intros _ now _. split; [constructor|constructor|]. intros key. exists now. by split; [|vm_compute].
  - rewrite !fmap_app, Forall_app. intros [Hs [Hl Hlt]] now [_ Hn]%Forall_app. rewrite Forall_singleton in Hlt, Hn. cbn in Hlt, Hn.
    unfold run, spec_run. rewrite !foldl_app. cbn [foldl fst snd].
    assert (Forall (fun c => c.1.1 <= t) calls) as Ht.
    { clear -Hs. induction calls as [|c calls IH]; [constructor|]. inversion_clear Hs as [|? ? Hs' Hc].
      constructor; [|by apply IH]. apply Forall_app in Hc as [_ Hc]. by inversion_clear Hc. }
    destruct (check_refines t t k l (spec_run calls) (run calls (mkLimiter ∅ ∅))) as (s' & r & E & Hr); [|lia|exact Hlt|].
    { apply IH; [|done]. split; [|done]. eapply sorted_sublist; [|exact Hs]. by apply sublist_inserts_r. }
    unfold run, spec_run in E, Hr. rewrite E. cbn [fst]. destruct Hr as [H1 H2 H3]. split; [done| |].
    + eapply Forall_impl; [exact H2|]. simpl. lia.
    + intros key. destruct (H3 key) as (t0 & ? & ?). exists t0. split; [lia|done].
Qed.

(** The accepted requests of a key within a minute that starts at [a]. *)
Definition within (a : timestamp) (key : string) (h : list (string * timestamp)) : list timestamp :=
  filter (fun t => a <= t < a + seconds WINDOW_SECONDS) (of_key key h).

Lemma length_filter_mono (P Q : timestamp -> Prop) `{forall x, Decision (P x), forall x, Decision (Q x)} l :
  (forall x, P x -> Q x) -> (length (filter P l) <= length (filter Q l))%nat.
Proof.
  intros HPQ. induction l as [|x l IH]; [done|]. rewrite !filter_cons.
  repeat case_decide; simpl; try lia. by exfalso; auto.
Qed.

Lemma spec_run_within key limit calls :
  ordered calls -> Forall (fun c => c.1.2 = key -> c.2 <= limit) calls ->
  forall a, Z.of_nat (length (within a key (spec_run calls))) <= Z.max 0 limit.
Proof.
  unfold ordered. induction calls as [|[[t k] l] calls IH] using rev_ind; [intros; cbn; lia|].
  rewrite !fmap_app, !Forall_app. intros [Hs [Hl _]] [Hk Hkl] a. rewrite Forall_singleton in Hkl. cbn in Hkl.
  assert (StronglySorted Z.le calls.*1.*1) as Hs' by (eapply sorted_sublist; [|exact Hs]; by apply sublist_inserts_r).
  specialize (IH (conj Hs' Hl) Hk). unfold spec_run in *. rewrite foldl_app. cbn [foldl fst snd].
  set (h := foldl _ [] calls) in *. unfold spec_check.
  destruct (Z.ltb_spec (Z.of_nat (length (recent t (of_key k h)))) l) as [Hlt|]; [|apply IH]. cbn [fst].
  unfold within in *. rewrite of_key_app, filter_app, length_app.
  destruct (decide (k = key)) as [->|]; [|rewrite filter_nil; cbn [length]; specialize (IH a); lia].
  rewrite filter_cons, filter_nil. case_decide as Ha; cbn [length]; [|specialize (IH a); lia].
  assert (length (filter (fun x => (a <= x < a + seconds WINDOW_SECONDS)%Z) (of_key key h)) <=
    length (recent t (of_key key h)))%nat as Hm by (apply length_filter_mono; intros x; lia).
  specialize (Hkl eq_refl). lia.
Qed.

(** The answer of the refusal is enough: after that many seconds the oldest request has left
    the deque. *)
Lemma retry_after_suffices now key limit s t retry later :
  0 < limit -> Z.of_nat (length (drop_expired now (bucket s key))) <= limit ->
  StronglySorted Z.le (bucket s key) ->
  check_rate_limit now key limit s = (t, Ret (false, retry)) -> now + seconds retry <= later ->
  (check_rate_limit later key limit t).2 = Ret (true, 0).
Proof.
  intros Hl Hlen Hs H Hlater. pose proof (check_rate_limit_run now key limit s Hl) as Hr. cbv zeta in Hr.
  destruct (limit <=? Z.of_nat (length (drop_expired now (bucket s key)))); [|destruct Hr as (t' & E & _); congruence].
  destruct Hr as (o & Ho & E). rewrite E in H. injection H as <- <-.
  rewrite drop_expired_recent in * by done.
  destruct (recent now (bucket s key)) as [|o' b] eqn:Eb; [discriminate Ho|]. injection Ho as ->.
  assert (now - seconds WINDOW_SECONDS < o) as Hnow.
  { assert (o ∈ recent now (bucket s key)) as Hin by (rewrite Eb; by left).
    unfold recent in Hin. by apply list_elem_of_filter in Hin as [? _]. }
  assert (o <= later - seconds WINDOW_SECONDS) as Hgone.
  { pose proof (Z.quot_rem' (seconds WINDOW_SECONDS - (now - o)) (seconds 1)) as Hq.
    pose proof (Z.rem_bound_pos (seconds WINDOW_SECONDS - (now - o)) (seconds 1) ltac:(lia) ltac:(done)) as Hb.
    unfold seconds, WINDOW_SECONDS in *. lia. }
  pose proof (check_rate_limit_run later key limit (s <| buckets ::= <[key := o :: b]> |>) Hl) as Hr. cbv zeta in Hr.
  rewrite bucket_insert, decide_True in Hr by done. cbn [drop_expired] in Hr. rewrite (proj2 (Z.leb_le _ _) Hgone) in Hr.
  assert (length (drop_expired later b) <= length b)%nat as Hd.
  { clear. induction b as [|x b IH]; [done|]. simpl. case_match; simpl; lia. }
  cbn [length] in Hlen. rewrite (proj2 (Z.leb_gt _ _)) in Hr by lia. destruct Hr as (t' & E' & _).
  exact (f_equal snd E').
Qed.

Lemma ordered_prefix pre c post : ordered (pre ++ c :: post) ->
  ordered pre /\ Forall (fun x => x.1.1 <= c.1.1) pre /\ 0 < c.2.
Proof.
  unfold ordered. rewrite !fmap_app, !fmap_cons, Forall_app, Forall_cons. intros (Hs & Hpre & Hc & _). split_and!; try done.
  - eapply sorted_sublist; [|exact Hs]. by apply sublist_inserts_r.
  - clear -Hs. induction pre as [|x pre IH]; [constructor|]. inversion_clear Hs as [|? ? Hs' Hx].
    constructor; [|by apply IH]. apply Forall_app in Hx as [_ Hx]. by inversion_clear Hx.
Qed.

(** ** Properties *)

(** C34. Fed with calls in the order of the clock, the limiter takes every decision that a
    limiter remembering all the accepted requests and counting those of the last minute
    would take; so whatever the calls, a key is never granted more requests than its limit
    within any minute. *)
Theorem rate_limiter_refines_window (calls : list (timestamp * string * Z)) :
  ordered calls ->
  (forall pre c post, calls = pre ++ c :: post -> exists t retry,
     check_rate_limit c.1.1 c.1.2 c.2 (run pre (mkLimiter ∅ ∅)) =
       (t, Ret ((spec_check c.1.1 c.1.2 c.2 (spec_run pre)).2, retry))) /\
  (forall key limit, 0 <= limit -> Forall (fun c => c.1.2 = key -> c.2 <= limit) calls ->
     forall a, Z.of_nat (length (within a key (spec_run calls))) <= limit).
Proof.
  intros Ho. split.
  - intros pre c post ->. apply ordered_prefix in Ho as (Hpre & Hle & Hl).
    destruct (check_refines c.1.1 c.1.1 c.1.2 c.2 (spec_run pre) (run pre (mkLimiter ∅ ∅)))
      as (t & r & E & _); [by apply run_represents|lia|done|by eauto].
  - intros key limit Hl Hk a. pose proof (spec_run_within key limit calls Ho Hk a). lia.
Qed.

(** A refused caller that waits for the seconds it was told, and whose plan did not
    change, is granted its next request. *)
Theorem refused_call_may_retry (calls : list (timestamp * string * Z)) now key limit t retry later :
  ordered (calls ++ [(now, key, limit)]) -> Forall (fun c => c.1.2 = key -> c.2 = limit) calls ->
  check_rate_limit now key limit (run calls (mkLimiter ∅ ∅)) = (t, Ret (false, retry)) ->
  now + seconds retry <= later ->
  1 <= retry /\ (check_rate_limit later key limit t).2 = Ret (true, 0).
Proof.
  intros Ho Hk H Hlater. pose proof Ho as (Hpre & Hle & Hl)%ordered_prefix. cbn in Hle, Hl.
  destruct (run_represents calls Hpre now Hle) as [Hs Hp Hb]. destruct (Hb key) as (t0 & Ht0 & E).
  assert (StronglySorted Z.le (bucket (run calls (mkLimiter ∅ ∅)) key)) as Hsorted.
  { rewrite E. eapply sorted_sublist; [|exact Hs]. etrans; [apply sublist_filter|apply of_key_sublist]. }
  split.
  - pose proof (check_rate_limit_run now key limit (run calls (mkLimiter ∅ ∅)) Hl) as Hr. cbv zeta in Hr.
    destruct (limit <=? _); [destruct Hr as (o & _ & E')|destruct Hr as (t' & E' & _)]; rewrite E' in H; injection H; lia.
  - eapply retry_after_suffices; [exact Hl| |exact Hsorted|exact H|exact Hlater].
    rewrite drop_expired_recent by done. rewrite E, recent_recent by done.
    pose proof (spec_run_within key limit calls Hpre) as Hw. specialize (Hw ltac:(by eapply Forall_impl; [exact Hk|]; naive_solver lia)
      (now - seconds WINDOW_SECONDS + 1)).
    assert (length (recent now (of_key key (spec_run calls))) <=
      length (within (now - seconds WINDOW_SECONDS + 1) key (spec_run calls)))%nat as Hm; [|lia].
    unfold within. rewrite <- (filter_all (fun t => t <= now) (of_key key (spec_run calls))) at 1.
    + unfold recent. rewrite list_filter_filter. apply length_filter_mono. lia.
    + apply Forall_forall. intros x Hx. rewrite Forall_forall in Hp. apply Hp. eapply elem_of_sublist; [exact Hx|apply of_key_sublist].
Qed.
End limiter.

(** ** Examples *)

(** Three calls with a limit of two; the third is refused. *)
Definition example_calls : list (timestamp * string * Z) := [(0, "ip:h", 2); (seconds 10, "ip:h", 2)].

Lemma rate_limiter_refines_window_witness :
  ordered (example_calls ++ [(seconds 20, "ip:h", 2)]) /\
  forall a, Z.of_nat (length (within a "ip:h" (spec_run (example_calls ++ [(seconds 20, "ip:h", 2)])))) <= 2.
Proof.
  assert (ordered (example_calls ++ [(seconds 20, "ip:h", 2)])) as Ho
    by (split; repeat constructor; vm_compute; discriminate).
  split; [exact Ho|].
  apply (proj2 (rate_limiter_refines_window _ Ho) "ip:h" 2); [lia|]. repeat constructor; intros _; vm_compute; discriminate.
Defined.

Lemma refused_call_may_retry_witness :
  let s := run example_calls (mkLimiter ∅ ∅) in
  exists t, check_rate_limit (seconds 20) "ip:h" 2 s = (t, Ret (false, 41)) /\
    (check_rate_limit (seconds 61) "ip:h" 2 t).2 = Ret (true, 0).
Proof.
  cbv zeta. eexists. split; [reflexivity|].
  refine (proj2 (refused_call_may_retry example_calls (seconds 20) "ip:h" 2 _ 41 (seconds 61) _ _ _ _)).
  - split; repeat constructor; vm_compute; discriminate.
  - repeat constructor.
  - reflexivity.
  - vm_compute. discriminate.
Defined.

(** The key of an organization comes from the path alone: requests of strangers, refused later
    for want of credentials, use up the minute of its members. And a path with dashes only
    is an unhandled [ValueError]. *)
Example strangers_exhaust_an_organization :
  let path := "/api/v1/organizations/00000000-0000-0000-0000-000000000008/projects" in
  let stranger := mkRequest path "" (Some "203.0.113.9") in
  let member := mkRequest path "bearer alice" (Some "192.0.2.1") in
  let flood := foldl (fun s _ => (dispatch 0 0 empty_cp stranger s).1) (mkLimiter ∅ ∅) (seq 0 300) in
  (dispatch 0 0 empty_cp member (mkLimiter ∅ ∅)).2 = Ret None /\
  (dispatch 0 0 empty_cp member flood).2 = Ret (Some 61) /\
  (dispatch 0 0 empty_cp (mkRequest "/api/v1/organizations/------------------------------------" "" None) flood).2 = Exc ValueError.
Proof. vm_compute. split_and!; reflexivity. Qed.
