(* ===== verification/Agent.v ===== *)
(** * The agent of a node: [agent/app/postgres_admin.py], [main.py], [backup.py],
    [replication.py], and [backend/app/services/sql_identifiers.py]

    PostgreSQL, its client programs, the encryption of the backups and the object storage
    are parameters. The state keeps, beside them, every statement and every command sent,
    in order. *)

From Stdlib Require Import Ascii String.
From S2P Require Import Prelude PyStd Queue.

(** ** Model *)

(** [None] is the maintenance database, [Some d] the database [d]. *)
Class Server := {
  pg_state : Type;
  pg_connect : option string -> pg_state -> outcome unit;
  (** [conn.execute(statement, *args)] *)
  pg_execute : option string -> string -> list string -> pg_state -> pg_state * outcome unit;
  (** [conn.fetchval] of a text, a number or a boolean; [conn.fetch] of two columns. *)
  fetch_text : option string -> string -> list string -> pg_state -> outcome string;
  fetch_int : option string -> string -> list string -> pg_state -> outcome Z;
  fetch_bool : option string -> string -> pg_state -> outcome bool;
  fetch_pairs : option string -> string -> pg_state -> outcome (list (string * string));
  (** [conn.fetch] of any columns. *)
  fetch_rows : option string -> string -> list string -> pg_state -> outcome (list (list jval));
  (** The program, its arguments and its standard input. *)
  run_process : list string -> string -> pg_state -> pg_state * outcome string;
  (** Half a second passes. *)
  pg_wait : pg_state -> pg_state;
  fernet_encrypt : string -> string;
  fernet_decrypt : string -> outcome string;
  store : Type;
  put_object : string -> string -> store -> store;
  get_object : string -> store -> outcome string;
  delete_object : string -> store -> store;
}.

(** What is sent to PostgreSQL: a statement with its parameters, or a program. *)
Inductive sent :=
| Statement (database : option string) (text : string) (args : list string)
| Command (argv : list string).

Record Agent `{Pg : Server} := mkAgent {
  server : pg_state;
  objects : store;
  log : list sent;
}.
Arguments mkAgent {_} _ _ _.

Record AgentSettings := mkAgentSettings {
  hostname : string;
  agent_version : string;
  admin_user : string;
  dump_command_prefix : list string;
  pg_dump_path : string;
  pg_restore_path : string;
  pg_dump_host : string;
  pg_dump_port : string;
}.

(** *** Identifiers *)

Definition quote : ascii := "034"%char.
Definition newline : ascii := "010"%char.
Definition lower_letter (c : ascii) : bool := bool_decide (97 <= nat_of_ascii c <= 122)%nat.
Definition ident_char (c : ascii) : bool := lower_letter c || is_digit c || Ascii.eqb c "_"%char.
Fixpoint all_ident_chars (s : string) : bool :=
  match s with EmptyString => true | String c s => ident_char c && all_ident_chars s end.
(** [$] also matches before a newline that ends the string. *)
Fixpoint chomp (s : string) : string :=
  match s with
  | EmptyString => ""
  | String c EmptyString => if Ascii.eqb c newline then "" else s
  | String c s => String c (chomp s)
  end.
(** [_IDENTIFIER_RE.match(name)]; the pattern is the same on both sides. *)
Definition is_valid_identifier (name : string) : bool :=
  match chomp name with
  | EmptyString => false
  | String c s => lower_letter c && all_ident_chars s && bool_decide (2 <= String.length s <= 62)%nat
  end.
(** [sql_identifiers.validate_identifier] and the agent's own. *)
Definition validate_identifier (name : string) : outcome string :=
  if is_valid_identifier name then Ret name else Exc ValueError.

Definition ALLOWED_EXTENSIONS : list string :=
  ["citext"; "hstore"; "pg_stat_statements"; "pg_trgm"; "pgcrypto"; "uuid-ossp"].
Definition ROLE_SCOPES : list string := ["app"; "readonly"].

(** A name between double quotes. *)
Definition dq (name : string) : string := String quote (name +:+ String quote "").

Section agent.
Context `{Pg : Server}.
#[global] Instance Agent_fields : Fields Agent := fun x => mkAgent (server x) (objects x) (log x).

Definition check_identifier (name : string) : M Agent unit := require (is_valid_identifier name) InvalidIdentifierError.

Definition execute_in (database : option string) (text : string) (args : list string) : M Agent unit := fun s =>
  let '(p, r) := pg_execute database text args (server s) in
  (mkAgent p (objects s) (log s ++ [Statement database text args]), r).
Definition execute := execute_in None.

(** A query: it changes nothing on the server. *)
Definition query {A} (database : option string) (text : string) (args : list string) (f : pg_state -> outcome A) : M Agent A :=
  modify (fun s => s <| log ::= fun l => l ++ [Statement database text args] |>);;
  p ← gets server;
  lift_outcome (f p).
Definition fetchval_text database text args := query database text args (fetch_text database text args).

(** [SELECT quote_literal($1)] *)
Definition quoted_literal (value : string) : M Agent string := fetchval_text None "SELECT quote_literal($1)" [value].

Definition connect_to_database (database_name : string) : M Agent unit :=
  check_identifier database_name;;
  p ← gets server;
  lift_outcome (pg_connect (Some database_name) p).

(** *** [postgres_admin.py] *)

Definition create_database (database_name role_name password : string) : M Agent unit :=
  check_identifier database_name;;
  check_identifier role_name;;
  quoted_password ← quoted_literal password;
  execute ("CREATE ROLE " +:+ dq role_name +:+ " WITH LOGIN PASSWORD " +:+ quoted_password) [];;
  execute ("CREATE DATABASE " +:+ dq database_name +:+ " OWNER " +:+ dq role_name) [].

Definition terminate_connections (database_name : string) : M Agent unit :=
  execute "SELECT pg_terminate_backend(pid) FROM pg_stat_activity WHERE datname = $1 AND pid <> pg_backend_pid()"
    [database_name].

Definition drop_database (database_name role_name : string) : M Agent unit :=
  check_identifier database_name;;
  check_identifier role_name;;
  terminate_connections database_name;;
  execute ("DROP DATABASE IF EXISTS " +:+ dq database_name) [];;
  execute ("DROP ROLE IF EXISTS " +:+ dq role_name) [].

Definition int_text (z : Z) : string := pretty.pretty z.

Definition set_connection_limit (database_name : string) (limit : Z) : M Agent unit :=
  check_identifier database_name;;
  require (negb (limit <? -1)) ValueError;;
  execute ("ALTER DATABASE " +:+ dq database_name +:+ " WITH CONNECTION LIMIT " +:+ int_text limit) [].

Definition quiesce_for_migration (database_name role_name : string) : M Agent unit :=
  check_identifier database_name;;
  check_identifier role_name;;
  admin_role ← fetchval_text None "SELECT current_user" [];
  execute ("ALTER DATABASE " +:+ dq database_name +:+ " OWNER TO " +:+ dq admin_role) [];;
  execute ("REVOKE CONNECT ON DATABASE " +:+ dq database_name +:+ " FROM PUBLIC") [];;
  execute "SELECT pg_terminate_backend(a.pid) FROM pg_stat_activity a JOIN pg_roles r ON r.rolname = a.usename WHERE a.datname = $1 AND a.pid <> pg_backend_pid() AND NOT r.rolsuper"
    [database_name].

Definition suspend_database (database_name : string) : M Agent unit :=
  check_identifier database_name;;
  execute ("ALTER DATABASE " +:+ dq database_name +:+ " WITH ALLOW_CONNECTIONS false") [];;
  terminate_connections database_name.

Definition resume_database (database_name : string) : M Agent unit :=
  check_identifier database_name;;
  execute ("ALTER DATABASE " +:+ dq database_name +:+ " WITH ALLOW_CONNECTIONS true") [].

Definition create_role_in_database (database_name role_name password scope : string) : M Agent unit :=
  check_identifier database_name;;
  check_identifier role_name;;
  require (bool_decide (scope ∈ ROLE_SCOPES)) ValueError;;
  quoted_password ← quoted_literal password;
  execute ("CREATE ROLE " +:+ dq role_name +:+ " WITH LOGIN PASSWORD " +:+ quoted_password) [];;
  connect_to_database database_name;;
  let target := execute_in (Some database_name) in
  owner_name ← fetchval_text (Some database_name)
    "SELECT pg_get_userbyid(datdba) FROM pg_database WHERE datname = current_database()" [];
  target ("GRANT CONNECT ON DATABASE " +:+ dq database_name +:+ " TO " +:+ dq role_name) [];;
  target ("GRANT USAGE ON SCHEMA public TO " +:+ dq role_name) [];;
  if bool_decide (scope = "app") then
    target ("GRANT CREATE ON SCHEMA public TO " +:+ dq role_name) [];;
    target ("GRANT ALL PRIVILEGES ON ALL TABLES IN SCHEMA public TO " +:+ dq role_name) [];;
    target ("GRANT ALL PRIVILEGES ON ALL SEQUENCES IN SCHEMA public TO " +:+ dq role_name) [];;
    target ("ALTER DEFAULT PRIVILEGES FOR ROLE " +:+ dq owner_name +:+
            " IN SCHEMA public GRANT ALL PRIVILEGES ON TABLES TO " +:+ dq role_name) [];;
    target ("ALTER DEFAULT PRIVILEGES FOR ROLE " +:+ dq owner_name +:+
            " IN SCHEMA public GRANT ALL PRIVILEGES ON SEQUENCES TO " +:+ dq role_name) []
  else
    target ("GRANT SELECT ON ALL TABLES IN SCHEMA public TO " +:+ dq role_name) [];;
    target ("ALTER DEFAULT PRIVILEGES FOR ROLE " +:+ dq owner_name +:+
            " IN SCHEMA public GRANT SELECT ON TABLES TO " +:+ dq role_name) [].

Definition drop_role_in_database (database_name role_name : string) : M Agent unit :=
  check_identifier database_name;;
  check_identifier role_name;;
  connect_to_database database_name;;
  execute_in (Some database_name)
    "SELECT pg_terminate_backend(pid) FROM pg_stat_activity WHERE usename = $1 AND pid <> pg_backend_pid()" [role_name];;
  execute_in (Some database_name) ("DROP OWNED BY " +:+ dq role_name) [];;
  execute ("DROP ROLE IF EXISTS " +:+ dq role_name) [].

Definition rotate_role_password (role_name new_password : string) : M Agent unit :=
  check_identifier role_name;;
  quoted_password ← quoted_literal new_password;
  execute ("ALTER ROLE " +:+ dq role_name +:+ " WITH PASSWORD " +:+ quoted_password) [].

Definition validate_extension_name (name : string) : M Agent unit :=
  require (bool_decide (name ∈ ALLOWED_EXTENSIONS)) ValueError.

(** The name, and the version of those installed. *)
Definition list_extensions (database_name : string) : M Agent (list (string * option string)) :=
  connect_to_database database_name;;
  installed ← query (Some database_name) "SELECT extname, extversion FROM pg_extension" []
    (fetch_pairs (Some database_name) "SELECT extname, extversion FROM pg_extension");
  mret ((fun name => (name, dict_get (rev installed) name)) <$> ALLOWED_EXTENSIONS).

Definition install_extension (database_name extension_name : string) : M Agent unit :=
  validate_extension_name extension_name;;
  connect_to_database database_name;;
  execute_in (Some database_name) ("CREATE EXTENSION IF NOT EXISTS " +:+ dq extension_name) [].

Definition drop_extension (database_name extension_name : string) : M Agent unit :=
  validate_extension_name extension_name;;
  connect_to_database database_name;;
  execute_in (Some database_name) ("DROP EXTENSION IF EXISTS " +:+ dq extension_name) [].

Definition get_database_metrics (database_name : string) : M Agent payload :=
  check_identifier database_name;;
  size_bytes ← query None "SELECT pg_database_size($1)" [database_name]
    (fetch_int None "SELECT pg_database_size($1)" [database_name]);
  active_connections ← query None "SELECT count(*) FROM pg_stat_activity WHERE datname = $1" [database_name]
    (fetch_int None "SELECT count(*) FROM pg_stat_activity WHERE datname = $1" [database_name]);
  max_connections ← fetchval_text None "SHOW max_connections" [];
  max_connections ← lift_outcome (py_int max_connections);
  mret (<["size_bytes" := JInt size_bytes]> (<["active_connections" := JInt active_connections]>
    {["max_connections" := JInt max_connections]})).

(** The rows of a query, as objects with the names of the columns. *)
Definition fetch (database : option string) (text : string) (args : list string) : M Agent (list (list jval)) :=
  query database text args (fetch_rows database text args).
Definition record_of (columns : list string) (row : list jval) : payload := list_to_map (zip columns row).
(** A column of texts, and the one value of [fetchval]. *)
Definition text_of (v : option jval) : string := match v with Some (JStr x) => x | _ => "" end.
Definition first_value (rows : list (list jval)) : jval := match rows with (v :: _) :: _ => v | _ => JNull end.

Definition column_of (row : list jval) : payload :=
  <["name" := default JNull (row !! 0%nat)]> (<["type" := default JNull (row !! 1%nat)]>
    {["nullable" := JBool (bool_decide (row !! 2%nat = Some (JStr "YES")))]}).
(** The loop of [list_tables]: the name, the columns and the indexes of each table. *)
Fixpoint describe_tables (database_name : string) (tables : list (list jval)) :
    M Agent (list (string * list payload * list payload)) :=
  match tables with
  | [] => mret []
  | table :: tables =>
      let table_name := text_of (head table) in
      columns ← fetch (Some database_name)
        "SELECT column_name, data_type, is_nullable FROM information_schema.columns WHERE table_schema = 'public' AND table_name = $1 ORDER BY ordinal_position" [table_name];
      indexes ← fetch (Some database_name)
        "SELECT indexname, indexdef FROM pg_indexes WHERE schemaname = 'public' AND tablename = $1" [table_name];
      rest ← describe_tables database_name tables;
      mret ((table_name, column_of <$> columns, record_of ["name"; "definition"] <$> indexes) :: rest)
  end.
Definition list_tables (database_name : string) : M Agent (list (string * list payload * list payload)) :=
  connect_to_database database_name;;
  tables ← fetch (Some database_name)
    "SELECT table_name FROM information_schema.tables WHERE table_schema = 'public' ORDER BY table_name" [];
  describe_tables database_name tables.

(** The body of an answer: an object, a list of objects, the status of a primary with that
    of its replicas, or the tables of a database. *)
Inductive answer :=
| Body (object : payload)
| Objects (objects : list payload)
| PrimaryStatus (replicas : list payload)
| Tables (tables : list (string * list payload * list payload)).

(** *** [replication.py] *)

Definition REPLICA_COLUMNS : list string := ["application_name"; "client_addr"; "state"; "sync_state"; "lag_bytes"].
(** The lag, a difference of positions in bytes, is an integer. *)
Definition get_replication_status : M Agent answer :=
  in_recovery ← query None "SELECT pg_is_in_recovery()" [] (fetch_bool None "SELECT pg_is_in_recovery()");
  if negb in_recovery then
    replicas ← fetch None "SELECT application_name, client_addr::text AS client_addr, state, sync_state, pg_wal_lsn_diff(pg_current_wal_lsn(), replay_lsn) AS lag_bytes FROM pg_stat_replication" [];
    mret (PrimaryStatus (record_of REPLICA_COLUMNS <$> replicas))
  else
    receiver ← fetch None "SELECT status, sender_host, sender_port FROM pg_stat_wal_receiver" [];
    last_receive_lsn ← fetch None "SELECT pg_last_wal_receive_lsn()" [];
    last_replay_lsn ← fetch None "SELECT pg_last_wal_replay_lsn()" [];
    lag_bytes ← match first_value last_receive_lsn, first_value last_replay_lsn with
                | JStr receive, JStr replay =>
                    lag ← fetch None "SELECT pg_wal_lsn_diff($1, $2)" [receive; replay]; mret (first_value lag)
                | _, _ => mret JNull
                end;
    mret (Body (<["role" := JStr "standby"]>
      (<["connected_to_primary" := JBool (negb (bool_decide (receiver = [])))]>
        (<["sender_host" := match head receiver with Some row => default JNull (row !! 1%nat) | None => JNull end]>
          {["lag_bytes" := lag_bytes]})))).

(** The polls of [promote]: [wait_seconds / 0.5] of them. *)
Definition PROMOTE_POLLS : nat := 30.

Fixpoint poll_promotion (n : nat) : M Agent unit :=
  match n with
  | O => raise RuntimeError
  | S n =>
      in_recovery ← query None "SELECT pg_is_in_recovery()" [] (fetch_bool None "SELECT pg_is_in_recovery()");
      if in_recovery : bool then modify (fun s => s <| server ::= pg_wait |>);; poll_promotion n else mret tt
  end.
Definition promote : M Agent unit :=
  execute "SELECT pg_promote(wait := false)" [];;
  poll_promotion PROMOTE_POLLS.

(** *** [backup.py] *)

Context (settings : AgentSettings).
(** [str(exc)] *)
Context (str_exn : exn -> string).

Definition run (argv : list string) (stdin : string) : M Agent string := fun s =>
  let '(p, r) := run_process argv stdin (server s) in (mkAgent p (objects s) (log s ++ [Command argv]), r).

Definition dump_command (database_name : string) : list string :=
  dump_command_prefix settings ++
  [pg_dump_path settings; "-h"; pg_dump_host settings; "-p"; pg_dump_port settings; "-U"; admin_user settings; "-Fc";
   database_name].
Definition restore_command (database_name role : string) : list string :=
  dump_command_prefix settings ++
  [pg_restore_path settings; "-h"; pg_dump_host settings; "-p"; pg_dump_port settings; "-U"; admin_user settings; "-d";
   database_name; "--no-owner"; "--role=" +:+ role].

Definition dump_database (database_name : string) : M Agent string :=
  check_identifier database_name;;
  run (dump_command database_name) "".

Definition restore_dump (database_name dump : string) (owner_role : option string) : M Agent unit :=
  check_identifier database_name;;
  run (restore_command database_name (default (admin_user settings) owner_role)) dump;;
  mret tt.

Definition create_encrypted_backup (database_name : string) : M Agent string :=
  raw ← dump_database database_name;
  mret (fernet_encrypt raw).

Definition restore_encrypted_backup (database_name encrypted : string) (owner_role : string) : M Agent unit :=
  raw ← lift_outcome (fernet_decrypt encrypted);
  restore_dump database_name raw (Some owner_role).

(** [try: m finally: f] *)
Definition try_finally {A} (m : M Agent A) (f : M Agent unit) : M Agent A := fun s =>
  let '(t, r) := m s in
  match f t with (u, Ret _) => (u, r) | (u, Exc e) => (u, Exc e) end.

(** [u] is [uuid.uuid4()]. What is returned is [verified] and [detail]. *)
Definition temp_database (u : uuid) : string := "verify_" +:+ String.substring 0 16 (uuid_hex u).
Definition verify_encrypted_backup (u : uuid) (encrypted : string) : M Agent (bool * string) :=
  let temp_db := temp_database u in
  execute ("CREATE DATABASE " +:+ dq temp_db) [];;
  try_finally
    (try_except
      (raw ← lift_outcome (fernet_decrypt encrypted);
       restore_dump temp_db raw None;;
       connect_to_database temp_db;;
       table_count ← query (Some temp_db) "SELECT count(*) FROM information_schema.tables WHERE table_schema = 'public'" []
         (fetch_int (Some temp_db) "SELECT count(*) FROM information_schema.tables WHERE table_schema = 'public'" []);
       mret (true, "Restored successfully; " +:+ int_text table_count +:+ " table(s) found"))
      (fun e => Some (mret (false, String.substring 0 2000 (str_exn e)))))
    (execute ("DROP DATABASE IF EXISTS " +:+ dq temp_db +:+ " WITH (FORCE)") []).

(** *** [main.py] *)

Inductive agent_call :=
| ProvisionDatabase (database_name role_name password : string)
| DeleteDatabase (database_name role_name : string)
| SuspendDatabase (database_name : string)
| ResumeDatabase (database_name : string)
| SetConnectionLimit (database_name : string) (limit : Z)
| Quiesce (database_name role_name : string)
| CreateRole (database_name role_name password scope : string)
| DeleteRole (database_name role_name : string)
| RotateRole (database_name role_name password : string)
| ListExtensions (database_name : string)
| InstallExtension (database_name name : string)
| DropExtension (database_name name : string)
| Metrics (database_name : string)
| Backup (database_name storage_key : string)
| Restore (database_name storage_key role_name password : string)
| VerifyBackup (u : uuid) (storage_key : string)
| DeleteBackupObject (storage_key : string)
| ReplicationStatus
| Promote
| ListTables (database_name : string)
| Health.

Definition len_between (lo hi : Z) (s : string) : bool :=
  (lo <=? Z.of_nat (String.length s)) && (Z.of_nat (String.length s) <=? hi).
Definition min_len (lo : Z) (s : string) : bool := lo <=? Z.of_nat (String.length s).

(** The constraints of [schemas.py]. *)
Definition valid_body (c : agent_call) : bool :=
  match c with
  | ProvisionDatabase d r p => len_between 3 63 d && len_between 3 63 r && min_len 8 p
  | SetConnectionLimit _ limit => -1 <=? limit
  | Quiesce _ r => len_between 3 63 r
  | CreateRole _ r p scope => len_between 3 63 r && min_len 8 p && bool_decide (scope ∈ ROLE_SCOPES)
  | RotateRole _ _ p => min_len 8 p
  | InstallExtension _ name => len_between 2 63 name
  | Backup _ key | VerifyBackup _ key => len_between 1 512 key
  | Restore _ key r p => len_between 1 512 key && len_between 3 63 r && min_len 8 p
  | _ => true
  end.

(** [except (...) as exc: raise HTTPException(400)]; [InvalidIdentifierError] is a [ValueError]. *)
Definition bad_request {A} (caught : list exn) (m : M Agent A) : M Agent A :=
  try_except m (fun e => if decide (e ∈ caught) then Some (raise (HTTPException 400)) else None).

Definition provision_database (d r p : string) : M Agent payload :=
  try_except (create_database d r p) (fun e =>
    if decide (e = InvalidIdentifierError) then Some (raise (HTTPException 400))
    else if decide (e = DuplicateDatabaseError) then Some (mret tt) else None);;
  mret (<["status" := JStr "created"]> {["database_name" := JStr d]}).

Definition backup_endpoint (d key : string) : M Agent payload :=
  encrypted ← bad_request [InvalidIdentifierError; RuntimeError] (create_encrypted_backup d);
  modify (fun s => s <| objects ::= put_object key encrypted |>);;
  mret (<["status" := JStr "completed"]> (<["storage_key" := JStr key]>
    {["size_bytes" := JInt (Z.of_nat (String.length encrypted))]})).

Definition download (key : string) : M Agent string := s ← gets objects; lift_outcome (get_object key s).

Definition restore_endpoint (d key r p : string) : M Agent payload :=
  try_except
    (create_database d r p;;
     encrypted ← download key;
     restore_encrypted_backup d encrypted r)
    (fun e => if decide (e = InvalidIdentifierError) then Some (raise (HTTPException 400))
              else if decide (e = DuplicateDatabaseError) then Some (mret tt)
              else if decide (e = RuntimeError) then Some (raise (HTTPException 502)) else None);;
  mret (<["status" := JStr "restored"]> {["database_name" := JStr d]}).

Definition verify_backup_endpoint (u : uuid) (key : string) : M Agent payload :=
  encrypted ← download key;
  result ← verify_encrypted_backup u encrypted;
  mret (<["verified" := JBool result.1]> {["detail" := JStr result.2]}).

(** The answer of a call that returns nothing but that it was done. *)
Definition status (text : string) (names : payload) (m : M Agent unit) : M Agent answer :=
  m;; mret (Body (<["status" := JStr text]> names)).
Definition body (m : M Agent payload) : M Agent answer := p ← m; mret (Body p).
Definition extension_of (x : string * option string) : payload :=
  <["name" := JStr x.1]> (<["installed" := JBool (bool_decide (is_Some x.2))]>
    {["version" := match x.2 with Some v => JStr v | None => JNull end]}).

Definition delete_backup_object_endpoint (key : string) : M Agent answer :=
  status "deleted" {["storage_key" := JStr key]} (modify (fun s => s <| objects ::= delete_object key |>)).
Definition replication_status_endpoint : M Agent answer := get_replication_status.
Definition promote_endpoint : M Agent answer :=
  status "promoted" ∅ (try_except promote (fun e => if decide (e = RuntimeError) then Some (raise (HTTPException 500)) else None)).

Definition agent_endpoint (c : agent_call) : M Agent answer :=
  require (valid_body c) (HTTPException 422);;
  match c with
  | ProvisionDatabase d r p => body (provision_database d r p)
  | DeleteDatabase d r =>
      status "deleted" {["database_name" := JStr d]} (bad_request [InvalidIdentifierError] (drop_database d r))
  | SuspendDatabase d =>
      status "suspended" {["database_name" := JStr d]}
        (bad_request [InvalidIdentifierError] (check_identifier d;; suspend_database d))
  | ResumeDatabase d =>
      status "running" {["database_name" := JStr d]}
        (bad_request [InvalidIdentifierError] (check_identifier d;; resume_database d))
  | SetConnectionLimit d limit =>
      status "resized" (<["database_name" := JStr d]> {["connection_limit" := JInt limit]})
        (bad_request [InvalidIdentifierError; ValueError] (set_connection_limit d limit))
  | Quiesce d r =>
      status "quiesced" {["database_name" := JStr d]} (bad_request [InvalidIdentifierError] (quiesce_for_migration d r))
  | CreateRole d r p scope =>
      status "created" {["role_name" := JStr r]}
        (bad_request [InvalidIdentifierError; ValueError] (create_role_in_database d r p scope))
  | DeleteRole d r =>
      status "deleted" {["role_name" := JStr r]} (bad_request [InvalidIdentifierError] (drop_role_in_database d r))
  | RotateRole d r p =>
      status "rotated" {["role_name" := JStr r]}
        (bad_request [InvalidIdentifierError] (check_identifier d;; rotate_role_password r p))
  | ListExtensions d =>
      l ← bad_request [InvalidIdentifierError] (list_extensions d); mret (Objects (extension_of <$> l))
  | InstallExtension d name =>
      status "installed" {["name" := JStr name]}
        (bad_request [InvalidIdentifierError; ValueError] (install_extension d name))
  | DropExtension d name =>
      status "dropped" {["name" := JStr name]}
        (bad_request [InvalidIdentifierError; ValueError] (drop_extension d name))
  | Metrics d => body (bad_request [InvalidIdentifierError] (get_database_metrics d))
  | Backup d key => body (backup_endpoint d key)
  | Restore d key r p => body (restore_endpoint d key r p)
  | VerifyBackup u key => body (verify_backup_endpoint u key)
  | DeleteBackupObject key => delete_backup_object_endpoint key
  | ReplicationStatus => replication_status_endpoint
  | Promote => promote_endpoint
  | ListTables d => l ← bad_request [InvalidIdentifierError] (list_tables d); mret (Tables l)
  | Health => mret (Body (<["status" := JStr "ok"]> (<["hostname" := JStr (hostname settings)]>
      {["version" := JStr (agent_version settings)]})))
  end.

(** ** How PostgreSQL reads a statement

    A reader of SQL text: outside of quotes it keeps the characters, a quoted identifier
    becomes [#] and its name is kept, a literal becomes [~]. A doubled quote stands for
    one, and [E'...'] has backslash escapes. The skeleton is kept in reverse. *)

Inductive mode := Out | InId (n : string) | IdEnd (n : string) | InStr | StrEnd | InEsc | EscSlash | EscEnd.
Record reader := mkReader { md : mode; sk : list ascii; names : list string }.

Definition apostrophe : ascii := "039"%char.
Definition starts_escape (k : list ascii) : bool :=
  match k with
  | "E"%char :: c :: _ => negb (ident_char c)
  | ["E"%char] => true
  | _ => false
  end.
Definition out_char (k : list ascii) (ns : list string) (c : ascii) : reader :=
  if Ascii.eqb c quote then mkReader (InId "") k ns
  else if Ascii.eqb c apostrophe then mkReader (if starts_escape k then InEsc else InStr) k ns
  else mkReader Out (c :: k) ns.
Definition read_char (r : reader) (c : ascii) : reader :=
  let '(mkReader m k ns) := r in
  match m with
  | Out => out_char k ns c
  | InId n => mkReader (if Ascii.eqb c quote then IdEnd n else InId (n +:+ String c "")) k ns
  | IdEnd n => if Ascii.eqb c quote then mkReader (InId (n +:+ String quote "")) k ns else out_char ("#"%char :: k) (ns ++ [n]) c
  | InStr => mkReader (if Ascii.eqb c apostrophe then StrEnd else InStr) k ns
  | StrEnd => if Ascii.eqb c apostrophe then mkReader InStr k ns else out_char ("~"%char :: k) ns c
  | InEsc => mkReader (if Ascii.eqb c apostrophe then EscEnd else if Ascii.eqb c "\"%char then EscSlash else InEsc) k ns
  | EscSlash => mkReader InEsc k ns
  | EscEnd => if Ascii.eqb c apostrophe then mkReader InEsc k ns else out_char ("~"%char :: k) ns c
  end.
Fixpoint read_string (r : reader) (s : string) : reader :=
  match s with EmptyString => r | String c s => read_string (read_char r c) s end.
(** [None]: a quote is not closed. *)
Definition finish (r : reader) : option (string * list string) :=
  let '(mkReader m k ns) := r in
  match m with
  | Out => Some (string_of_list_ascii (rev k), ns)
  | IdEnd n => Some (string_of_list_ascii (rev ("#"%char :: k)), ns ++ [n])
  | StrEnd | EscEnd => Some (string_of_list_ascii (rev ("~"%char :: k)), ns)
  | _ => None
  end.
Definition read (s : string) : option (string * list string) := finish (read_string (mkReader Out [] []) s).

(** A text that is one literal and nothing else. *)
Definition is_literal (l : string) : bool :=
  match read_string (mkReader Out [] []) l with
  | mkReader StrEnd [] [] => true
  | mkReader EscEnd ["E"%char] [] => true
  | _ => false
  end.

Fixpoint no_quote (s : string) : bool :=
  match s with EmptyString => true | String c s => negb (Ascii.eqb c quote) && no_quote s end.

(** What the agent has to say, with [#] for a name and [~] for a password; the limit of
    connections is the only other thing that varies. *)
Definition SKELETONS : list string :=
  ["CREATE ROLE # WITH LOGIN PASSWORD ~"; "CREATE ROLE # WITH LOGIN PASSWORD E~"; "CREATE DATABASE # OWNER #";
   "CREATE DATABASE #"; "DROP DATABASE IF EXISTS #"; "DROP DATABASE IF EXISTS # WITH (FORCE)"; "DROP ROLE IF EXISTS #";
   "ALTER DATABASE # OWNER TO #"; "REVOKE CONNECT ON DATABASE # FROM PUBLIC";
   "ALTER DATABASE # WITH ALLOW_CONNECTIONS false"; "ALTER DATABASE # WITH ALLOW_CONNECTIONS true";
   "GRANT CONNECT ON DATABASE # TO #"; "GRANT USAGE ON SCHEMA public TO #"; "GRANT CREATE ON SCHEMA public TO #";
   "GRANT ALL PRIVILEGES ON ALL TABLES IN SCHEMA public TO #"; "GRANT ALL PRIVILEGES ON ALL SEQUENCES IN SCHEMA public TO #";
   "ALTER DEFAULT PRIVILEGES FOR ROLE # IN SCHEMA public GRANT ALL PRIVILEGES ON TABLES TO #";
   "ALTER DEFAULT PRIVILEGES FOR ROLE # IN SCHEMA public GRANT ALL PRIVILEGES ON SEQUENCES TO #";
   "GRANT SELECT ON ALL TABLES IN SCHEMA public TO #";
   "ALTER DEFAULT PRIVILEGES FOR ROLE # IN SCHEMA public GRANT SELECT ON TABLES TO #";
   "DROP OWNED BY #"; "ALTER ROLE # WITH PASSWORD ~"; "ALTER ROLE # WITH PASSWORD E~";
   "CREATE EXTENSION IF NOT EXISTS #"; "DROP EXTENSION IF EXISTS #";
   "SELECT quote_literal($1)"; "SELECT current_user"; "SELECT pg_promote(wait := false)"; "SELECT pg_is_in_recovery()";
   "SELECT pg_get_userbyid(datdba) FROM pg_database WHERE datname = current_database()";
   "SELECT extname, extversion FROM pg_extension"; "SELECT pg_database_size($1)";
   "SELECT count(*) FROM pg_stat_activity WHERE datname = $1"; "SHOW max_connections";
   "SELECT count(*) FROM information_schema.tables WHERE table_schema = ~";
   "SELECT table_name FROM information_schema.tables WHERE table_schema = ~ ORDER BY table_name";
   "SELECT column_name, data_type, is_nullable FROM information_schema.columns WHERE table_schema = ~ AND table_name = $1 ORDER BY ordinal_position";
   "SELECT indexname, indexdef FROM pg_indexes WHERE schemaname = ~ AND tablename = $1";
   "SELECT application_name, client_addr::text AS client_addr, state, sync_state, pg_wal_lsn_diff(pg_current_wal_lsn(), replay_lsn) AS lag_bytes FROM pg_stat_replication";
   "SELECT status, sender_host, sender_port FROM pg_stat_wal_receiver"; "SELECT pg_last_wal_receive_lsn()";
   "SELECT pg_last_wal_replay_lsn()"; "SELECT pg_wal_lsn_diff($1, $2)";
   "SELECT pg_terminate_backend(pid) FROM pg_stat_activity WHERE datname = $1 AND pid <> pg_backend_pid()";
   "SELECT pg_terminate_backend(pid) FROM pg_stat_activity WHERE usename = $1 AND pid <> pg_backend_pid()";
   "SELECT pg_terminate_backend(a.pid) FROM pg_stat_activity a JOIN pg_roles r ON r.rolname = a.usename WHERE a.datname = $1 AND a.pid <> pg_backend_pid() AND NOT r.rolsuper"].

(** ** Lemmas *)

(** *** Reading a statement piece by piece *)

Inductive piece := Word (s : string) | Ident (n : string) | Literal (l : string).

Definition piece_text (p : piece) : string :=
  match p with Word s => s | Ident n => dq n | Literal l => l end.
Fixpoint print (ps : list piece) : string :=
  match ps with [] => "" | [p] => piece_text p | p :: ps => piece_text p +:+ print ps end.

Lemma read_string_app a b r : read_string r (a +:+ b) = read_string (read_string r a) b.
Proof. revert r. induction a as [|c a IH]; intros r; [done|]. apply IH. Qed.

Lemma starts_escape_app x k : starts_escape (x ++ " "%char :: k) = starts_escape x.
Proof. destruct x as [|e [|c x]]; [done| |]; simpl; [by destruct e as [[] [] [] [] [] [] [] []]|done]. Qed.

(** What was read before a space does not change how the rest is read. *)
Lemma read_char_shift m x k ns ns' c :
  read_char (mkReader m (x ++ " "%char :: k) (ns ++ ns')) c =
  let r := read_char (mkReader m x ns') c in mkReader (md r) (sk r ++ " "%char :: k) (ns ++ names r).
Proof.
  assert (forall x ns', out_char (x ++ " "%char :: k) (ns ++ ns') c =
    let r := out_char x ns' c in mkReader (md r) (sk r ++ " "%char :: k) (ns ++ names r)) as Ho.
  { intros y ns''. unfold out_char. rewrite starts_escape_app. by repeat case_match. }
  destruct m; cbn [read_char]; try apply Ho; try (by repeat case_match).
  - case_match; [done|]. rewrite <- app_assoc. apply (Ho ("#"%char :: x)).
  - case_match; [done|]. apply (Ho ("~"%char :: x)).
  - case_match; [done|]. apply (Ho ("~"%char :: x)).
Qed.

Lemma read_string_shift s : forall m x k ns ns',
  read_string (mkReader m (x ++ " "%char :: k) (ns ++ ns')) s =
  let r := read_string (mkReader m x ns') s in mkReader (md r) (sk r ++ " "%char :: k) (ns ++ names r).
Proof.
  induction s as [|c s IH]; intros m x k ns ns'; [done|]. cbn [read_string]. rewrite read_char_shift. cbv zeta.
  rewrite IH. by destruct (read_char (mkReader m x ns') c) as [m' k' n'].
Qed.

Lemma read_literal l k ns :
  is_literal l = true -> exists e, In e [[]; ["E"%char]] /\
    finish (read_string (mkReader Out (" "%char :: k) ns) l) =
      Some (string_of_list_ascii (rev ("~"%char :: e ++ " "%char :: k)), ns).
Proof.
  unfold is_literal. intros H. pose proof (read_string_shift l Out [] k ns []) as E. cbn [app] in E. rewrite app_nil_r in E.
  rewrite E. cbv zeta. destruct (read_string (mkReader Out [] []) l) as [m x n]. cbn [md sk names].
  destruct m; try discriminate H; destruct x as [|e [|? ?]]; try discriminate H.
  - destruct n; [|discriminate H]. exists []. split; [by left|]. cbn [finish app]. by rewrite app_nil_r.
  - destruct e as [[] [] [] [] [] [] [] []]; try discriminate H. destruct n; [|discriminate H].
    exists ["E"%char]. split; [by right; left|]. cbn [finish app]. by rewrite app_nil_r.
  - by destruct e as [[] [] [] [] [] [] [] []].
Qed.

Lemma read_ident n : no_quote n = true -> forall k ns i,
  read_string (mkReader (InId i) k ns) (n +:+ String quote "") = mkReader (IdEnd (i +:+ n)) k ns.
Proof.
  induction n as [|c n IH]; intros Hn k ns i.
  - cbn. f_equal. f_equal. by rewrite str_app_nil_r.
  - cbn in Hn. apply andb_prop in Hn as [Hc Hn]. change (String c n +:+ String quote "") with (String c (n +:+ String quote "")).
    cbn [read_string read_char]. apply negb_true_iff in Hc. rewrite Hc, IH by done. by rewrite str_app_assoc.
Qed.
Lemma read_dq n k ns : no_quote n = true -> read_string (mkReader Out k ns) (dq n) = mkReader (IdEnd n) k ns.
Proof. intros Hn. unfold dq. cbn [read_string read_char out_char]. exact (read_ident n Hn k ns ""). Qed.

Fixpoint plain (s : string) : bool :=
  match s with EmptyString => true | String c s => negb (Ascii.eqb c quote) && negb (Ascii.eqb c apostrophe) && plain s end.
Fixpoint last_char (s : string) : option ascii :=
  match s with EmptyString => None | String c EmptyString => Some c | String _ s => last_char s end.

(** Words are plain, a name follows a word, and a literal a space, at the end. *)
Fixpoint well_formed (prev : option ascii) (ps : list piece) : bool :=
  match ps with
  | [] => true
  | Word w :: ps => plain w && bool_decide (is_Some (last_char w)) && well_formed (last_char w) ps
  | Ident n :: ps => bool_decide (is_Some prev) && no_quote n && well_formed None ps
  | [Literal l] => bool_decide (prev = Some " "%char) && is_literal l
  | Literal _ :: _ => false
  end.
Fixpoint skeleton (e k : list ascii) (ps : list piece) : list ascii :=
  match ps with
  | [] => k
  | Word w :: ps => skeleton e (rev (list_ascii_of_string w) ++ k) ps
  | Ident _ :: ps => skeleton e ("#"%char :: k) ps
  | Literal _ :: ps => skeleton e ("~"%char :: e ++ k) ps
  end.
Definition idents (ps : list piece) : list string := omap (fun p => match p with Ident n => Some n | _ => None end) ps.

Lemma print_cons p ps : print (p :: ps) = piece_text p +:+ print ps.
Proof. destruct ps; [|done]. simpl. by rewrite str_app_nil_r. Qed.

Lemma out_char_plain k ns c : Ascii.eqb c quote = false -> Ascii.eqb c apostrophe = false -> out_char k ns c = mkReader Out (c :: k) ns.
Proof. unfold out_char. by intros -> ->. Qed.

Lemma read_plain w : plain w = true -> forall k ns,
  read_string (mkReader Out k ns) w = mkReader Out (rev (list_ascii_of_string w) ++ k) ns.
Proof.
  induction w as [|c w IH]; intros Hw k ns; [done|]. cbn in Hw.
  apply andb_prop in Hw as [[Hq%negb_true_iff Ha%negb_true_iff]%andb_prop Hw].
  cbn [read_string read_char list_ascii_of_string rev]. rewrite out_char_plain, IH by done. by rewrite <- app_assoc.
Qed.

(** What has been read when the reader is between two pieces. *)
Definition between (prev : option ascii) (r : reader) (k : list ascii) (ns : list string) : Prop :=
  match prev with
  | Some c => r = mkReader Out k ns /\ head k = Some c
  | None => r = mkReader Out k ns /\ k = [] \/ exists n k' ns', r = mkReader (IdEnd n) k' ns' /\ k = "#"%char :: k' /\ ns = ns' ++ [n]
  end.

Lemma read_word w prev r k ns :
  plain w = true -> is_Some (last_char w) -> between prev r k ns ->
  read_string r w = mkReader Out (rev (list_ascii_of_string w) ++ k) ns.
Proof.
  intros Hw Hl Hb. destruct prev as [c|]; cbn in Hb; [destruct Hb as [-> _]; by apply read_plain|].
  destruct Hb as [[-> ->]|(n & k' & ns' & -> & -> & ->)]; [by apply read_plain|].
  destruct w as [|c w]; [by destruct Hl|]. cbn in Hw.
  apply andb_prop in Hw as [[Hq%negb_true_iff Ha%negb_true_iff]%andb_prop Hw].
  cbn [read_string read_char list_ascii_of_string rev]. rewrite Hq, out_char_plain, read_plain by done. by rewrite <- app_assoc.
Qed.

Lemma head_rev_word w k : is_Some (last_char w) -> head (rev (list_ascii_of_string w) ++ k) = last_char w.
Proof.
  induction w as [|c w IH] in k |- *; [by intros []|]. intros _. cbn [list_ascii_of_string rev].
  rewrite <- app_assoc. destruct w as [|d w]; [done|]. rewrite IH; [done|]. clear. revert d. induction w as [|c w IH]; intros d; [by eexists|apply IH].
Qed.

Lemma read_pieces ps : forall prev r k ns, between prev r k ns -> well_formed prev ps = true ->
  exists e, In e [[]; ["E"%char]] /\
    finish (read_string r (print ps)) = Some (string_of_list_ascii (rev (skeleton e k ps)), ns ++ idents ps).
Proof.
  induction ps as [|p ps IH]; intros prev r k ns Hb Hw.
  - exists []. split; [by left|]. cbn [print skeleton idents omap list_omap read_string]. rewrite app_nil_r.
    destruct prev as [c|]; cbn in Hb; [by destruct Hb as [-> _]|].
    by destruct Hb as [[-> ->]|(n & k' & ns' & -> & -> & ->)].
  - rewrite print_cons, read_string_app. destruct p as [w|n|l]; cbn [piece_text well_formed] in *.
    + apply andb_prop in Hw as [[Hw Hl%bool_decide_eq_true]%andb_prop Hps].
      rewrite (read_word w prev r k ns) by done. apply (IH (last_char w)); [|done].
      destruct (last_char w) as [c|] eqn:E; [|by destruct Hl]. split; [done|]. by rewrite head_rev_word, E by by rewrite E.
    + apply andb_prop in Hw as [[[c ->]%bool_decide_eq_true Hn]%andb_prop Hps]. destruct Hb as [-> _].
      rewrite read_dq by done. destruct (IH None (mkReader (IdEnd n) k ns) ("#"%char :: k) (ns ++ [n])) as (e & He & E); [|done|].
      { right. by exists n, k, ns. }
      exists e. split; [done|]. rewrite E. cbn [skeleton idents omap list_omap]. by rewrite <- app_assoc.
    + destruct ps; [|discriminate Hw]. apply andb_prop in Hw as [->%bool_decide_eq_true Hl].
      destruct Hb as [-> Hk]. destruct k as [|c k]; [discriminate Hk|]. injection Hk as ->.
      destruct (read_literal l k ns Hl) as (e & He & E). exists e. split; [done|]. cbn [print read_string skeleton idents omap list_omap].
      by rewrite E, app_nil_r.
Qed.

Lemma plain_app a b : plain (a +:+ b) = plain a && plain b.
Proof.
  induction a as [|c a IH]; [done|]. change (String c a +:+ b) with (String c (a +:+ b)). cbn [plain].
  by rewrite IH, andb_assoc.
Qed.
Lemma plain_pretty_N_go x : forall s, plain s = true -> plain (pretty.pretty_N_go x s) = true.
Proof.
  induction (N.lt_wf_0 x) as [x _ IH]. intros s Hs. destruct (decide (0 < x)%N) as [Hx|Hx].
  - rewrite pretty.pretty_N_go_step by done. apply IH; [apply N.div_lt; lia|]. cbn [plain]. rewrite Hs, andb_true_r.
    unfold pretty.pretty_N_char. by repeat case_match.
  - by assert (x = 0)%N as -> by lia.
Qed.
Lemma plain_pretty_N n : plain (@pretty.pretty N pretty.pretty_N n) = true.
Proof. unfold pretty.pretty, pretty.pretty_N. case_decide; [done|]. by apply plain_pretty_N_go. Qed.
Lemma plain_int_text z : plain (int_text z) = true.
Proof.
  destruct z as [|p|p]; [done|exact (plain_pretty_N (N.pos p))|].
  change (plain ("-" +:+ @pretty.pretty N pretty.pretty_N (N.pos p)) = true). rewrite plain_app. exact (plain_pretty_N (N.pos p)).
Qed.

Lemma ident_char_no_quote s : all_ident_chars s = true -> no_quote s = true.
Proof.
  induction s as [|c s IH]; [done|]. cbn. intros [Hc Hs]%andb_prop. rewrite IH by done. rewrite andb_true_r.
  apply negb_true_iff. destruct (Ascii.eqb_spec c quote) as [->|]; [discriminate Hc|done].
Qed.
Lemma chomp_no_quote s : no_quote (chomp s) = true -> no_quote s = true.
Proof.
  induction s as [|c s IH]; [done|]. destruct s as [|d s].
  - cbn. destruct (Ascii.eqb_spec c newline) as [->|]; [done|]. cbn. by rewrite andb_true_r.
  - change (chomp (String c (String d s))) with (String c (chomp (String d s))). intros [Hc Hs]%andb_prop.
    cbn [no_quote] in *. by rewrite Hc, IH.
Qed.
Lemma valid_no_quote n : is_valid_identifier n = true -> no_quote n = true.
Proof.
  unfold is_valid_identifier. intros H. apply chomp_no_quote. destruct (chomp n) as [|c s]; [done|].
  apply andb_prop in H as [[Hc Hs]%andb_prop _]. cbn. rewrite (ident_char_no_quote s Hs), andb_true_r.
  apply negb_true_iff. destruct (Ascii.eqb_spec c quote) as [->|]; [discriminate Hc|done].
Qed.

(** The throwaway database has a valid name. *)
Lemma all_ident_chars_app a b : all_ident_chars (a +:+ b) = all_ident_chars a && all_ident_chars b.
Proof.
  induction a as [|c a IH]; [done|]. change (String c a +:+ b) with (String c (a +:+ b)). cbn [all_ident_chars].
  by rewrite IH, andb_assoc.
Qed.
Lemma ident_char_hex n : 0 <= n < 16 -> ident_char (hex_char n) = true.
Proof.
  intros Hn. assert (exists k, (k < 16)%nat /\ n = Z.of_nat k) as (k & Hk & ->) by (exists (Z.to_nat n); lia).
  do 16 (destruct k as [|k]; [done|]). lia.
Qed.
Lemma all_ident_chars_hex d n : all_ident_chars (hex_of d n) = true.
Proof.
  revert n. induction d as [|d IH]; intros n; [done|]. cbn [hex_of]. rewrite all_ident_chars_app, IH. cbn [all_ident_chars].
  rewrite ident_char_hex; [done|]. apply Z.mod_pos_bound. lia.
Qed.
Lemma all_ident_chars_substring s i n : all_ident_chars s = true -> all_ident_chars (String.substring i n s) = true.
Proof.
  revert i n. induction s as [|c s IH]; intros i n Hs; [by destruct i, n|]. cbn in Hs. apply andb_prop in Hs as [Hc Hs].
  destruct i as [|i], n as [|n]; cbn; try apply IH; try done. by rewrite Hc, IH.
Qed.
Lemma length_substring_le s i n : (String.length (String.substring i n s) <= n)%nat.
Proof.
  revert i n. induction s as [|c s IH]; intros i n; [destruct i, n; cbn; lia|].
  destruct i as [|i], n as [|n]; cbn; try lia; try apply IH. specialize (IH O n). lia.
Qed.
Lemma chomp_ident s : all_ident_chars s = true -> chomp s = s.
Proof.
  induction s as [|c s IH]; [done|]. cbn [all_ident_chars]. intros [Hc Hs]%andb_prop. destruct s as [|d s].
  - cbn. destruct (Ascii.eqb_spec c newline) as [->|]; [discriminate Hc|done].
  - change (chomp (String c (String d s))) with (String c (chomp (String d s))). by rewrite IH.
Qed.
Lemma temp_database_valid u : is_valid_identifier (temp_database u) = true.
Proof.
  unfold is_valid_identifier, temp_database. set (h := String.substring 0 16 (uuid_hex u)).
  assert (all_ident_chars h = true) as Hh by apply all_ident_chars_substring, all_ident_chars_hex.
  rewrite chomp_ident by (rewrite all_ident_chars_app; exact Hh).
  change ("verify_" +:+ h) with (String "v" ("erify_" +:+ h)). cbn match. rewrite all_ident_chars_app, Hh.
  rewrite bool_decide_eq_true_2; [done|]. pose proof (length_substring_le (uuid_hex u) 0 16) as Hl. fold h in Hl.
  change (String.length ("erify_" +:+ h)) with (6 + String.length h)%nat. lia.
Qed.

(** *** What a call sends *)

(** The names come from the request, checked, from the allow-list, or from the server. *)
Definition name_ok (n : string) : Prop :=
  is_valid_identifier n = true \/ n ∈ ALLOWED_EXTENSIONS \/ exists db q p, fetch_text db q [] p = Ret n.
Definition skeleton_ok (k : string) : Prop :=
  k ∈ SKELETONS \/ exists z, k = "ALTER DATABASE # WITH CONNECTION LIMIT " +:+ int_text z.
Definition sent_ok (x : sent) : Prop :=
  match x with
  | Statement _ text _ => exists k ns, read text = Some (k, ns) /\ skeleton_ok k /\ Forall name_ok ns
  | Command argv => exists d, is_valid_identifier d = true /\
      (argv = dump_command d \/
       exists role, (role = admin_user settings \/ is_valid_identifier role = true) /\ argv = restore_command d role)
  end.

Definition sends {A} (m : M Agent A) : Prop := forall s, exists l, log (m s).1 = log s ++ l /\ Forall sent_ok l.

(** The names the server answers have no double quote, and [quote_literal] answers a literal. *)
Definition NAME_QUERIES : list string :=
  ["SELECT current_user"; "SELECT pg_get_userbyid(datdba) FROM pg_database WHERE datname = current_database()"].
Context (catalog_names : forall db q p n, q ∈ NAME_QUERIES -> fetch_text db q [] p = Ret n -> no_quote n = true).
Context (quote_literal_reads : forall v p l, fetch_text None "SELECT quote_literal($1)" [v] p = Ret l -> is_literal l = true).

Lemma sends_quiet {A} (m : M Agent A) : (forall s, log (m s).1 = log s) -> sends m.
Proof. intros H s. exists []. by rewrite app_nil_r. Qed.
Lemma sends_ret {A} (a : A) : sends (mret a).
Proof. by apply sends_quiet. Qed.
Lemma sends_raise {A} e : sends (raise e : M Agent A).
Proof. by apply sends_quiet. Qed.
Lemma sends_require b e : sends (require b e).
Proof. apply sends_quiet. by destruct b. Qed.
Lemma sends_lift {A} (o : outcome A) : sends (lift_outcome o).
Proof. by apply sends_quiet. Qed.
Lemma sends_gets {A} (f : Agent -> A) : sends (gets f).
Proof. by apply sends_quiet. Qed.
Lemma sends_objects f : sends (modify (fun s => s <| objects ::= f |>)).
Proof. by apply sends_quiet. Qed.
Lemma sends_server f : sends (modify (fun s => s <| server ::= f |>)).
Proof. by apply sends_quiet. Qed.

(** A continuation may rely on what its predecessor answered. *)
Lemma sends_bind_run {A B} (m : M Agent A) (f : A -> M Agent B) :
  sends m -> (forall s t a, m s = (t, Ret a) -> sends (f a)) -> sends (m ≫= f).
Proof.
  intros Hm Hf s. destruct (Hm s) as (l & Hl & Hok). unfold mbind, M_bind.
  destruct (m s) as [t [a|e]] eqn:E; cbn [fst] in *; [|by exists l].
  destruct (Hf s t a E t) as (l' & Hl' & Hok'). exists (l ++ l'). split; [by rewrite Hl', Hl, app_assoc|by apply Forall_app].
Qed.
Lemma sends_bind {A B} (m : M Agent A) (f : A -> M Agent B) : sends m -> (forall a, sends (f a)) -> sends (m ≫= f).
Proof. intros Hm Hf. apply sends_bind_run; [done|]. eauto. Qed.
Lemma sends_try {A} (m : M Agent A) h : sends m -> (forall e k, h e = Some k -> sends k) -> sends (try_except m h).
Proof.
  intros Hm Hh s. destruct (Hm s) as (l & Hl & Hok). unfold try_except.
  destruct (m s) as [t [a|e]]; cbn [fst] in *; [by exists l|]. destruct (h e) as [k|] eqn:E; [|by exists l].
  destruct (Hh e k E t) as (l' & Hl' & Hok'). exists (l ++ l'). split; [by rewrite Hl', Hl, app_assoc|by apply Forall_app].
Qed.
Lemma sends_finally {A} (m : M Agent A) f : sends m -> sends f -> sends (try_finally m f).
Proof.
  intros Hm Hf s. destruct (Hm s) as (l & Hl & Hok). unfold try_finally. destruct (m s) as [t r]. cbn [fst] in Hl.
  destruct (Hf t) as (l' & Hl' & Hok'). exists (l ++ l'). destruct (f t) as [u [[]|e]]; cbn [fst] in *;
    (split; [by rewrite Hl', Hl, app_assoc|by apply Forall_app]).
Qed.

Lemma sends_execute db text args : sent_ok (Statement db text args) -> sends (execute_in db text args).
Proof.
  intros H s. exists [Statement db text args]. unfold execute_in. destruct (pg_execute _ _ _ _) as [p r].
  split; [done|]. by constructor.
Qed.
Lemma sends_query {A} db text args (f : pg_state -> outcome A) : sent_ok (Statement db text args) -> sends (query db text args f).
Proof.
  intros H s. exists [Statement db text args]. split; [done|]. by constructor.
Qed.

(** A statement made of pieces. *)
Lemma sent_pieces db ps args :
  well_formed None ps = true -> skeleton_ok (string_of_list_ascii (rev (skeleton [] [] ps))) ->
  skeleton_ok (string_of_list_ascii (rev (skeleton ["E"%char] [] ps))) ->
  Forall name_ok (idents ps) -> sent_ok (Statement db (print ps) args).
Proof.
  intros Hw Hk Hk' Hn. destruct (read_pieces ps None (mkReader Out [] []) [] [] ltac:(by left) Hw) as (e & He & E).
  exists (string_of_list_ascii (rev (skeleton e [] ps))), (idents ps). split; [exact E|]. split; [|done].
  destruct He as [<-|[<-|[]]]; done.
Qed.
(** A statement with nothing to fill in. *)
Lemma sent_constant db text args k :
  read text = Some (k, []) -> bool_decide (k ∈ SKELETONS) = true -> sent_ok (Statement db text args).
Proof. intros H Hk%bool_decide_eq_true. exists k, []. split; [done|]. split; [by left|constructor]. Qed.

Lemma sends_check {A} n (f : unit -> M Agent A) : (is_valid_identifier n = true -> sends (f tt)) -> sends (check_identifier n ≫= f).
Proof.
  intros H. apply sends_bind_run; [apply sends_require|]. intros s t [] [Hn _]%require_Ret. auto.
Qed.
Lemma sends_literal {A} v (f : string -> M Agent A) : (forall l, is_literal l = true -> sends (f l)) -> sends (quoted_literal v ≫= f).
Proof.
  intros H. apply sends_bind_run.
  - apply sends_query. by eapply sent_constant.
  - intros s t l. unfold quoted_literal, fetchval_text, query, lift_outcome, mbind, M_bind, gets, modify.
    intros [= _ E]. by eapply H, quote_literal_reads.
Qed.
Lemma sends_name {A} db q (f : string -> M Agent A) :
  q ∈ NAME_QUERIES -> (forall n, no_quote n = true -> name_ok n -> sends (f n)) -> sends (fetchval_text db q [] ≫= f).
Proof.
  intros Hq H. apply sends_bind_run.
  - apply sends_query. unfold NAME_QUERIES in Hq. apply elem_of_cons in Hq as [->|[->|[]%elem_of_nil]%elem_of_cons];
      by eapply sent_constant.
  - intros s t n. unfold fetchval_text, query, lift_outcome, mbind, M_bind, gets, modify.
    intros [= _ E]. apply H; [by eapply catalog_names|]. right; right. by do 3 eexists.
Qed.

Lemma name_ok_valid n : is_valid_identifier n = true -> name_ok n.
Proof. by left. Qed.
Lemma name_ok_extension n : n ∈ ALLOWED_EXTENSIONS -> name_ok n /\ no_quote n = true.
Proof.
  intros H. split; [by right; left|].
  assert (Forall (fun x => no_quote x = true) ALLOWED_EXTENSIONS) as Hf by repeat constructor.
  rewrite Forall_forall in Hf. by apply Hf.
Qed.

(** [says ps]: the statement is the text of the pieces [ps]. *)
Ltac known_skeleton := left; match goal with |- ?P => refine (@bool_decide_unpack P _ _) end; vm_compute; exact I.
Ltac says ps :=
  apply sends_execute; refine (sent_pieces _ ps _ _ _ _ _);
  [ cbn; repeat match goal with
                | H : is_valid_identifier ?n = true |- _ => rewrite (valid_no_quote n H); clear H
                | H : no_quote ?n = true |- _ => rewrite H; clear H
                | H : is_literal ?l = true |- _ => rewrite H; clear H
                end; reflexivity
  | known_skeleton | known_skeleton
  | cbn [idents omap list_omap]; repeat (apply Forall_cons_2; [first [assumption | by apply name_ok_valid]|]); apply Forall_nil_2 ].
Ltac asks := apply sends_query; by eapply sent_constant.

Lemma sends_connect {A} n (f : unit -> M Agent A) : (is_valid_identifier n = true -> sends (f tt)) -> sends (connect_to_database n ≫= f).
Proof.
  intros H. apply sends_bind_run.
  - unfold connect_to_database. apply sends_check. intros _. apply sends_bind; [apply sends_gets|]. intros p. apply sends_lift.
  - intros s t [] (u & [] & [Hn _]%require_Ret & _)%bind_Ret. auto.
Qed.

Lemma sends_create_database d r p : sends (create_database d r p).
Proof.
  unfold create_database. apply sends_check. intros Hd. apply sends_check. intros Hr. apply sends_literal. intros l Hl.
  apply sends_bind; [says [Word "CREATE ROLE "; Ident r; Word " WITH LOGIN PASSWORD "; Literal l]|]. intros _.
  says [Word "CREATE DATABASE "; Ident d; Word " OWNER "; Ident r].
Qed.
Lemma sends_terminate d : sends (terminate_connections d).
Proof. apply sends_execute. by eapply sent_constant. Qed.
Lemma sends_drop_database d r : sends (drop_database d r).
Proof.
  unfold drop_database. apply sends_check. intros Hd. apply sends_check. intros Hr.
  apply sends_bind; [apply sends_terminate|]. intros _.
  apply sends_bind; [says [Word "DROP DATABASE IF EXISTS "; Ident d]|]. intros _. says [Word "DROP ROLE IF EXISTS "; Ident r].
Qed.
Lemma sends_set_connection_limit d z : sends (set_connection_limit d z).
Proof.
  unfold set_connection_limit. apply sends_check. intros Hd. apply sends_bind; [apply sends_require|]. intros _.
  apply sends_execute. exists ("ALTER DATABASE # WITH CONNECTION LIMIT " +:+ int_text z), [d].
  split; [|split; [right; by exists z|by constructor; [apply name_ok_valid|]]].
  assert (plain (" WITH CONNECTION LIMIT " +:+ int_text z) = true) as Hp by exact (plain_int_text z).
  unfold read.
  change ("ALTER DATABASE " +:+ dq d +:+ " WITH CONNECTION LIMIT " +:+ int_text z)
    with ("ALTER DATABASE " +:+ (dq d +:+ (" WITH CONNECTION LIMIT " +:+ int_text z))).
  rewrite read_string_app, read_plain, read_string_app, read_dq by (done || by apply valid_no_quote).
  erewrite (read_word _ None); [|exact Hp| |right; by do 3 eexists].
  - cbn [finish]. f_equal. f_equal. change (rev (list_ascii_of_string "ALTER DATABASE ") ++ []) with (rev (list_ascii_of_string "ALTER DATABASE ")).
    rewrite rev_app_distr, rev_involutive. cbn [rev]. rewrite rev_involutive.
    change ("ALTER DATABASE # WITH CONNECTION LIMIT " +:+ int_text z) with ("ALTER DATABASE #" +:+ (" WITH CONNECTION LIMIT " +:+ int_text z)).
    rewrite <- (string_of_list_ascii_of_string (" WITH CONNECTION LIMIT " +:+ int_text z)) at 2. reflexivity.
  - set (w := int_text z). change (" WITH CONNECTION LIMIT " +:+ w) with (String " " ("WITH CONNECTION LIMIT " +:+ w)).
    generalize ("WITH CONNECTION LIMIT " +:+ w) as v. generalize " "%char as c. intros c v. revert c.
    induction v as [|e v IH]; intros c; [by eexists|apply IH].
Qed.
Lemma sends_quiesce d r : sends (quiesce_for_migration d r).
Proof.
  unfold quiesce_for_migration. apply sends_check. intros Hd. apply sends_check. intros Hr.
  apply sends_name; [by left|]. intros a Ha Hok.
  apply sends_bind; [says [Word "ALTER DATABASE "; Ident d; Word " OWNER TO "; Ident a]|]. intros _.
  apply sends_bind; [says [Word "REVOKE CONNECT ON DATABASE "; Ident d; Word " FROM PUBLIC"]|]. intros _.
  apply sends_execute. by eapply sent_constant.
Qed.
Lemma sends_suspend d : sends (suspend_database d).
Proof.
  unfold suspend_database. apply sends_check. intros Hd.
  apply sends_bind; [says [Word "ALTER DATABASE "; Ident d; Word " WITH ALLOW_CONNECTIONS false"]|]. intros _. apply sends_terminate.
Qed.
Lemma sends_resume d : sends (resume_database d).
Proof.
  unfold resume_database. apply sends_check. intros Hd. says [Word "ALTER DATABASE "; Ident d; Word " WITH ALLOW_CONNECTIONS true"].
Qed.
Lemma sends_create_role d r p scope : sends (create_role_in_database d r p scope).
Proof.
  unfold create_role_in_database. apply sends_check. intros Hd. apply sends_check. intros Hr.
  apply sends_bind; [apply sends_require|]. intros _. apply sends_literal. intros l Hl.
  apply sends_bind; [says [Word "CREATE ROLE "; Ident r; Word " WITH LOGIN PASSWORD "; Literal l]|]. intros _.
  apply sends_connect. intros _. cbv zeta. apply sends_name; [by right; left|]. intros o Ho Hok.
  apply sends_bind; [says [Word "GRANT CONNECT ON DATABASE "; Ident d; Word " TO "; Ident r]|]. intros _.
  apply sends_bind; [says [Word "GRANT USAGE ON SCHEMA public TO "; Ident r]|]. intros _.
  destruct (bool_decide (scope = "app")).
  - apply sends_bind; [says [Word "GRANT CREATE ON SCHEMA public TO "; Ident r]|]. intros _.
    apply sends_bind; [says [Word "GRANT ALL PRIVILEGES ON ALL TABLES IN SCHEMA public TO "; Ident r]|]. intros _.
    apply sends_bind; [says [Word "GRANT ALL PRIVILEGES ON ALL SEQUENCES IN SCHEMA public TO "; Ident r]|]. intros _.
    apply sends_bind; [says [Word "ALTER DEFAULT PRIVILEGES FOR ROLE "; Ident o;
      Word " IN SCHEMA public GRANT ALL PRIVILEGES ON TABLES TO "; Ident r]|]. intros _.
    says [Word "ALTER DEFAULT PRIVILEGES FOR ROLE "; Ident o; Word " IN SCHEMA public GRANT ALL PRIVILEGES ON SEQUENCES TO "; Ident r].
  - apply sends_bind; [says [Word "GRANT SELECT ON ALL TABLES IN SCHEMA public TO "; Ident r]|]. intros _.
    says [Word "ALTER DEFAULT PRIVILEGES FOR ROLE "; Ident o; Word " IN SCHEMA public GRANT SELECT ON TABLES TO "; Ident r].
Qed.
Lemma sends_drop_role d r : sends (drop_role_in_database d r).
Proof.
  unfold drop_role_in_database. apply sends_check. intros Hd. apply sends_check. intros Hr. apply sends_connect. intros _.
  apply sends_bind; [apply sends_execute; by eapply sent_constant|]. intros _.
  apply sends_bind; [says [Word "DROP OWNED BY "; Ident r]|]. intros _. says [Word "DROP ROLE IF EXISTS "; Ident r].
Qed.
Lemma sends_rotate r p : sends (rotate_role_password r p).
Proof.
  unfold rotate_role_password. apply sends_check. intros Hr. apply sends_literal. intros l Hl.
  says [Word "ALTER ROLE "; Ident r; Word " WITH PASSWORD "; Literal l].
Qed.
Lemma sends_extension {A} n (f : unit -> M Agent A) :
  (name_ok n -> no_quote n = true -> sends (f tt)) -> sends (validate_extension_name n ≫= f).
Proof.
  intros H. apply sends_bind_run; [apply sends_require|].
  intros s t [] [[Hn Hq]%bool_decide_eq_true%name_ok_extension _]%require_Ret. auto.
Qed.
Lemma sends_list_extensions d : sends (list_extensions d).
Proof. unfold list_extensions. apply sends_connect. intros _. apply sends_bind; [asks|]. intros l. apply sends_ret. Qed.
Lemma sends_install d n : sends (install_extension d n).
Proof.
  unfold install_extension. apply sends_extension. intros Hok Hq. apply sends_connect. intros _.
  says [Word "CREATE EXTENSION IF NOT EXISTS "; Ident n].
Qed.
Lemma sends_drop_extension d n : sends (drop_extension d n).
Proof.
  unfold drop_extension. apply sends_extension. intros Hok Hq. apply sends_connect. intros _.
  says [Word "DROP EXTENSION IF EXISTS "; Ident n].
Qed.
Lemma sends_metrics d : sends (get_database_metrics d).
Proof.
  unfold get_database_metrics. apply sends_check. intros _. apply sends_bind; [asks|]. intros ?.
  apply sends_bind; [asks|]. intros ?. apply sends_bind; [asks|]. intros ?. apply sends_bind; [apply sends_lift|]. intros ?. apply sends_ret.
Qed.
Lemma sends_list_tables d : sends (list_tables d).
Proof.
  unfold list_tables. apply sends_connect. intros _. apply sends_bind; [asks|]. intros tables.
  induction tables as [|table tables IH]; cbn [describe_tables]; [apply sends_ret|].
  do 2 (apply sends_bind; [asks|]; intros ?). apply sends_bind; [exact IH|]. intros ?. apply sends_ret.
Qed.
Lemma sends_replication_status : sends get_replication_status.
Proof.
  unfold get_replication_status. apply sends_bind; [asks|]. intros b. destruct (negb b).
  - apply sends_bind; [asks|]. intros ?. apply sends_ret.
  - apply sends_bind; [asks|]. intros receiver. apply sends_bind; [asks|]. intros x. apply sends_bind; [asks|]. intros y.
    apply sends_bind; [|intros ?; apply sends_ret].
    destruct (first_value x); try apply sends_ret. destruct (first_value y); try apply sends_ret.
    apply sends_bind; [asks|]. intros ?. apply sends_ret.
Qed.
Lemma sends_promote : sends promote.
Proof.
  unfold promote. apply sends_bind; [apply sends_execute; by eapply sent_constant|]. intros _.
  induction PROMOTE_POLLS as [|n IH]; [apply sends_raise|]. cbn [poll_promotion]. apply sends_bind; [asks|]. intros [|]; [|apply sends_ret].
  apply sends_bind; [apply sends_server|]. done.
Qed.
Lemma sends_run argv stdin : sent_ok (Command argv) -> sends (run argv stdin).
Proof.
  intros H s. exists [Command argv]. unfold run. destruct (run_process _ _ _) as [p r]. split; [done|]. by constructor.
Qed.
Lemma sends_backup d : sends (create_encrypted_backup d).
Proof.
  unfold create_encrypted_backup, dump_database. apply sends_bind; [|intros ?; apply sends_ret].
  apply sends_check. intros Hd. apply sends_run. exists d. split; [done|by left].
Qed.
Lemma sends_restore_dump d dump o :
  (forall r, o = Some r -> is_valid_identifier r = true) -> sends (restore_dump d dump o).
Proof.
  intros Ho. unfold restore_dump. apply sends_check. intros Hd. apply sends_bind; [|intros ?; apply sends_ret].
  apply sends_run. exists d. split; [done|]. right. exists (default (admin_user settings) o).
  split; [|done]. destruct o as [r|]; [right; by apply Ho|by left].
Qed.
Lemma sends_verify u x : sends (verify_encrypted_backup u x).
Proof.
  pose proof (temp_database_valid u) as Hv.
  unfold verify_encrypted_backup. cbv zeta. apply sends_bind; [says [Word "CREATE DATABASE "; Ident (temp_database u)]|]. intros _.
  apply sends_finally; [|says [Word "DROP DATABASE IF EXISTS "; Ident (temp_database u); Word " WITH (FORCE)"]].
  apply sends_try; [|intros e k [= <-]; apply sends_ret].
  apply sends_bind; [apply sends_lift|]. intros raw. apply sends_bind; [by apply sends_restore_dump|]. intros _.
  apply sends_connect. intros _. apply sends_bind; [asks|]. intros ?. apply sends_ret.
Qed.

Lemma sends_bad_request {A} caught (m : M Agent A) : sends m -> sends (bad_request caught m).
Proof. intros H. apply sends_try; [done|]. intros e k. case_decide; intros [= <-]. apply sends_raise. Qed.
Lemma sends_status text names m : sends m -> sends (status text names m).
Proof. intros H. apply sends_bind; [done|]. intros ?. apply sends_ret. Qed.
Lemma sends_map {A B} (m : M Agent A) (f : A -> B) : sends m -> sends (x ← m; mret (f x)).
Proof. intros H. apply sends_bind; [done|]. intros ?. apply sends_ret. Qed.
Lemma sends_body m : sends m -> sends (body m).
Proof. apply sends_map. Qed.

(** A created database has valid names. *)
Lemma create_database_valid d r p s t x : create_database d r p s = (t, Ret x) -> is_valid_identifier r = true.
Proof.
  unfold create_database. intros H. apply bind_Ret in H as (? & ? & _ & H).
  by apply bind_Ret in H as (? & ? & [Hr _]%require_Ret & _).
Qed.
Lemma sends_restore d key r p : sends (restore_endpoint d key r p).
Proof.
  unfold restore_endpoint. apply sends_bind; [|intros ?; apply sends_ret]. apply sends_try.
  - apply sends_bind_run; [apply sends_create_database|]. intros s t x Hr%create_database_valid.
    apply sends_bind; [apply sends_bind; [apply sends_gets|intros ?; apply sends_lift]|]. intros e.
    unfold restore_encrypted_backup. apply sends_bind; [apply sends_lift|]. intros raw. apply sends_restore_dump.
    by intros r' [= <-].
  - intros e k. repeat case_decide; intros [= <-]; first [apply sends_raise|apply sends_ret].
Qed.

Create HintDb sends.
#[local] Hint Resolve sends_status sends_bad_request sends_create_database sends_drop_database sends_suspend sends_resume
  sends_set_connection_limit sends_quiesce sends_create_role sends_drop_role sends_rotate sends_list_extensions sends_install
  sends_drop_extension sends_metrics sends_backup sends_restore sends_verify sends_promote sends_list_tables
  sends_replication_status sends_map sends_body sends_ret sends_objects : sends.

Lemma sends_endpoint c : sends (agent_endpoint c).
Proof.
  unfold agent_endpoint, delete_backup_object_endpoint, replication_status_endpoint, promote_endpoint. apply sends_bind; [apply sends_require|]. intros _. destruct c; auto with sends.
  - apply sends_body. unfold provision_database. apply sends_bind; [|intros ?; apply sends_ret].
    apply sends_try; [auto with sends|]. intros e k. repeat case_decide; intros [= <-]; first [apply sends_raise|apply sends_ret].
  - apply sends_status, sends_bad_request, sends_check. auto with sends.
  - apply sends_status, sends_bad_request, sends_check. auto with sends.
  - apply sends_status, sends_bad_request, sends_check. auto with sends.
  - apply sends_body. unfold backup_endpoint. apply sends_bind; [auto with sends|]. intros x.
    apply sends_bind; [apply sends_objects|]. intros ?. apply sends_ret.
  - apply sends_body. unfold verify_backup_endpoint. apply sends_bind; [apply sends_bind; [apply sends_gets|intros ?; apply sends_lift]|].
    intros x. apply sends_map. auto with sends.
  - apply sends_status, sends_try; [auto with sends|]. intros e k. case_decide; intros [= <-]. apply sends_raise.
Qed.

(** ** Properties *)

End agent.

Section effects.
Context `{Pg : Server} (settings : AgentSettings) (str_exn : exn -> string).

(** What the verification of a backup sends: it is about the throwaway database. *)
Definition about_temp (temp : string) (x : sent) : Prop :=
  match x with
  | Statement None text _ => text = "CREATE DATABASE " +:+ dq temp \/ text = "DROP DATABASE IF EXISTS " +:+ dq temp +:+ " WITH (FORCE)"
  | Statement (Some d) _ _ => d = temp
  | Command argv => argv = restore_command settings temp (admin_user settings)
  end.
Definition stays_in (temp : string) {A} (m : M Agent A) : Prop :=
  forall s, objects (m s).1 = objects s /\ exists l, log (m s).1 = log s ++ l /\ Forall (about_temp temp) l.

Lemma stays_in_quiet temp {A} (m : M Agent A) : (forall s, (m s).1 = s) -> stays_in temp m.
Proof. intros H s. rewrite H. split; [done|]. exists []. by rewrite app_nil_r. Qed.
Lemma stays_in_identifier temp n : stays_in temp (check_identifier n).
Proof. apply stays_in_quiet. intros s. unfold check_identifier, require. by destruct (is_valid_identifier n). Qed.
Lemma stays_in_bind temp {A B} (m : M Agent A) (f : A -> M Agent B) :
  stays_in temp m -> (forall a, stays_in temp (f a)) -> stays_in temp (m ≫= f).
Proof.
  intros Hm Hf s. destruct (Hm s) as (Ho & l & Hl & Hok). unfold mbind, M_bind.
  destruct (m s) as [t [a|e]]; cbn [fst] in *; [|split; [done|by exists l]].
  destruct (Hf a t) as (Ho' & l' & Hl' & Hok'). split; [congruence|]. exists (l ++ l').
  split; [by rewrite Hl', Hl, app_assoc|by apply Forall_app].
Qed.
Lemma stays_in_execute temp db text args : about_temp temp (Statement db text args) -> stays_in temp (execute_in db text args).
Proof.
  intros H s. unfold execute_in. destruct (pg_execute _ _ _ _) as [p r]. split; [done|].
  eexists. split; [done|by constructor].
Qed.
Lemma stays_in_restore temp raw : stays_in temp (restore_dump settings temp raw None).
Proof.
  unfold restore_dump. apply stays_in_bind; [apply stays_in_identifier|]. intros _.
  apply stays_in_bind; [|intros ?; by apply stays_in_quiet]. intros s. unfold run.
  destruct (run_process _ _ _) as [p r]. split; [done|]. eexists. split; [done|by constructor].
Qed.

Lemma stays_in_try temp {A} (m : M Agent A) (a : exn -> A) :
  stays_in temp m -> stays_in temp (try_except m (fun e => Some (mret (a e)))).
Proof. intros Hm s. specialize (Hm s). unfold try_except. by destruct (m s) as [t [x|e]]. Qed.

Lemma try_all_returns {A} (m : M Agent A) (a : exn -> A) s t r :
  try_except m (fun e => Some (mret (a e))) s = (t, r) -> exists b, r = Ret b.
Proof. unfold try_except. destruct (m s) as [u [x|e]]; intros [= _ <-]; by eexists. Qed.

(** The part of a verification between the creation and the removal of the database. *)
Lemma stays_in_check temp encrypted :
  stays_in temp (try_except
      (raw ← lift_outcome (fernet_decrypt encrypted);
       restore_dump settings temp raw None;;
       connect_to_database temp;;
       table_count ← query (Some temp) "SELECT count(*) FROM information_schema.tables WHERE table_schema = 'public'" []
         (fetch_int (Some temp) "SELECT count(*) FROM information_schema.tables WHERE table_schema = 'public'" []);
       mret (true, "Restored successfully; " +:+ int_text table_count +:+ " table(s) found"))
      (fun e => Some (mret (false, String.substring 0 2000 (str_exn e))))).
Proof.
  apply stays_in_try. apply stays_in_bind; [by apply stays_in_quiet|]. intros raw. apply stays_in_bind; [apply stays_in_restore|]. intros _.
  apply stays_in_bind.
  { unfold connect_to_database. apply stays_in_bind; [apply stays_in_identifier|].
    intros _. apply stays_in_bind; [by apply stays_in_quiet|]. intros p. by apply stays_in_quiet. }
  intros _. apply stays_in_bind; [|intros ?; by apply stays_in_quiet].
  intros s. split; [done|]. eexists. split; [done|by constructor].
Qed.

(** The verification of a backup never answers with an exception once its
    throwaway database was created and can be dropped; it sends nothing but the creation
    of that database, the restoration into it and one query on it, and the last thing it
    sends is the order to drop it. The stored backups are left alone. *)
Theorem verification_stays_in_its_database (u : uuid) (encrypted : string) (s t : Agent) r :
  verify_encrypted_backup settings str_exn u encrypted s = (t, r) ->
  let temp := temp_database u in
  objects t = objects s /\
  (exists l, log t = log s ++ Statement None ("CREATE DATABASE " +:+ dq temp) [] :: l /\ Forall (about_temp temp) l /\
     match (execute ("CREATE DATABASE " +:+ dq temp) [] s).2 with
     | Exc e => l = [] /\ r = Exc e
     | Ret _ => exists l', l = l' ++ [Statement None ("DROP DATABASE IF EXISTS " +:+ dq temp +:+ " WITH (FORCE)") []]
     end) /\
  ((forall p, exists p', pg_execute None ("DROP DATABASE IF EXISTS " +:+ dq temp +:+ " WITH (FORCE)") [] p = (p', Ret tt)) ->
   forall e, r = Exc e -> (execute ("CREATE DATABASE " +:+ dq temp) [] s).2 = Exc e).
Proof.
  cbv zeta. unfold verify_encrypted_backup. cbv zeta. set (temp := temp_database u). intros H.
  unfold mbind at 1, M_bind at 1 in H. unfold execute in *.
  destruct (execute_in None ("CREATE DATABASE " +:+ dq temp) [] s) as [v rv] eqn:E. cbn [snd].
  assert (objects v = objects s /\ log v = log s ++ [Statement None ("CREATE DATABASE " +:+ dq temp) []]) as [Hov Hlv].
  { unfold execute_in in E. destruct (pg_execute _ _ _ _) as [p q]. by injection E as <- _. }
  destruct rv as [[]|e].
  2: { injection H as <- <-. split; [done|]. split; [exists []; by split_and!|]. by intros _ e' [= ->]. }
  unfold try_finally in H. pose proof (stays_in_check temp encrypted v) as (Ho & l & Hl & Hok).
  destruct (try_except _ _ v) as [w rw] eqn:Ew. cbn [fst] in Ho, Hl.
  assert (exists b, rw = Ret b) as [b ->].
  { eapply try_all_returns. exact Ew. }
  unfold execute_in in H. destruct (pg_execute None ("DROP DATABASE IF EXISTS " +:+ dq temp +:+ " WITH (FORCE)") [] (server w)) as [p q] eqn:Ed.
  set (drop := Statement None ("DROP DATABASE IF EXISTS " +:+ dq temp +:+ " WITH (FORCE)") []) in *.
  assert (t = mkAgent p (objects w) (log w ++ [drop])) as -> by (by destruct q; injection H as <- _).
  cbn [objects log]. split; [congruence|]. split.
  - exists (l ++ [drop]). rewrite Hl, Hlv, <- !app_assoc. split; [done|]. split; [|by exists l].
    apply Forall_app. split; [done|]. constructor; [by right|constructor].
  - intros Hdrop e ->. destruct (Hdrop (server w)) as [p' Hp']. rewrite Hp' in Ed. injection Ed as _ <-. discriminate H.
Qed.

(** The answers of the server to the polls of a promotion. *)
Fixpoint wait (n : nat) (p : pg_state) : pg_state := match n with O => p | S n => wait n (pg_wait p) end.
Definition in_recovery (p : pg_state) : outcome bool := fetch_bool None "SELECT pg_is_in_recovery()" p.

Lemma poll_promotion_run n : forall s,
  ((poll_promotion n s).2 = Ret tt <->
     exists k, (k < n)%nat /\ in_recovery (wait k (server s)) = Ret false /\
       forall j, (j < k)%nat -> in_recovery (wait j (server s)) = Ret true) /\
  ((forall j, (j < n)%nat -> in_recovery (wait j (server s)) = Ret true) -> (poll_promotion n s).2 = Exc RuntimeError).
Proof.
  induction n as [|n IH]; intros s.
  - split; [|done]. split; [discriminate|]. intros (k & Hk & _). lia.
  - cbn [poll_promotion]. unfold query, mbind, M_bind, gets, modify, lift_outcome.
    match goal with |- context [fetch_bool _ _ (server ?t)] => set (s1 := t) end.
    destruct (fetch_bool None "SELECT pg_is_in_recovery()" (server s1)) as [[|]|e] eqn:E; cbv beta iota;
      fold (in_recovery (server s1)) in E; change (server s1) with (server s) in E.
    + match goal with |- context [poll_promotion n ?t] => destruct (IH t) as [H1 H2]; change (server t) with (pg_wait (server s)) in H1, H2 end. split.
      * rewrite H1. split; intros (k & Hk & Hf & Hj).
        -- exists (S k). split; [lia|]. split; [done|]. intros [|j] Hlt; [done|]. apply Hj. lia.
        -- destruct k as [|k]; [cbn in Hf; congruence|]. exists k. split; [lia|]. split; [done|].
           intros j Hlt. apply (Hj (S j)). lia.
      * intros H. apply H2. intros j Hlt. apply (H (S j)). lia.
    + split; [|intros H; specialize (H O ltac:(lia)); cbn in H; congruence].
      split; [|done]. intros _. exists O. split; [lia|]. split; [done|]. intros j Hj. lia.
    + split; [|intros H; specialize (H O ltac:(lia)); cbn in H; congruence].
      split; [discriminate|]. intros (k & _ & Hf & Hj). destruct k as [|k]; [cbn in Hf; congruence|].
      specialize (Hj O ltac:(lia)). cbn in Hj. congruence.
Qed.

(** A promotion always answers, after at most thirty polls half a second apart: it
    succeeds exactly when one of them finds the server out of recovery, all those before
    having found it in recovery, and it is an error 500 when they all find it in recovery. *)
Theorem promotion_answers_in_thirty_polls (s : Agent) (p : pg_state) :
  pg_execute None "SELECT pg_promote(wait := false)" [] (server s) = (p, Ret tt) ->
  let answer := (agent_endpoint settings str_exn Promote s).2 in
  (answer = Ret (Body {["status" := JStr "promoted"]}) <->
     exists k, (k < 30)%nat /\ in_recovery (wait k p) = Ret false /\ forall j, (j < k)%nat -> in_recovery (wait j p) = Ret true) /\
  ((forall j, (j < 30)%nat -> in_recovery (wait j p) = Ret true) -> answer = Exc (HTTPException 500)).
Proof.
  intros Hp. cbv zeta. unfold agent_endpoint, promote_endpoint, status, promote, execute, execute_in, require, try_except, mbind, M_bind, mret, M_ret.
  cbn [valid_body]. rewrite Hp. unfold PROMOTE_POLLS.
  match goal with |- context [poll_promotion 30 ?t] => destruct (poll_promotion_run 30 t) as [H1 H2]; set (a := t) in * end.
  cbn [server a] in H1, H2. rewrite <- H1. destruct (poll_promotion 30 a) as [t [[]|e]]; cbn [snd] in *.
  - split; [done|]. intros H. discriminate (H2 H).
  - split; [|by intros [= ->]%H2]. case_decide; by split.
Qed.
End effects.

(** ** An example: a server with roles and databases, which reads the statements it is sent *)

Record PgCluster := mkClusterState { cl_roles : list string; cl_databases : list (string * string); cl_promoting : nat }.

Fixpoint double_apostrophes (s : string) : string :=
  match s with
  | EmptyString => ""
  | String c s => if Ascii.eqb c apostrophe then String c (String c (double_apostrophes s)) else String c (double_apostrophes s)
  end.
Definition literal_of (s : string) : string := String apostrophe (double_apostrophes s +:+ String apostrophe "").

Lemma literal_of_is_literal s : is_literal (literal_of s) = true.
Proof.
  unfold is_literal, literal_of. cbn [read_string read_char out_char Ascii.eqb Bool.eqb starts_escape].
  change (out_char [] [] apostrophe) with (mkReader InStr [] []).
  assert (read_string (mkReader InStr [] []) (double_apostrophes s +:+ String apostrophe "") = mkReader StrEnd [] []) as ->; [|done].
  induction s as [|c s IH]; [done|]. cbn [double_apostrophes]. destruct (Ascii.eqb c apostrophe) eqn:E.
  - change (String c (String c (double_apostrophes s)) +:+ String apostrophe "")
      with (String c (String c (double_apostrophes s +:+ String apostrophe ""))). cbn [read_string read_char]. by rewrite E.
  - change (String c (double_apostrophes s) +:+ String apostrophe "") with (String c (double_apostrophes s +:+ String apostrophe "")).
    cbn [read_string read_char]. by rewrite E.
Qed.

Definition example_execute (db : option string) (text : string) (args : list string) (p : PgCluster) : PgCluster * outcome unit :=
  match read text with
  | Some (k, [r]) =>
      if decide (k = "CREATE ROLE # WITH LOGIN PASSWORD ~") then
        if decide (r ∈ cl_roles p) then (p, Exc DuplicateObjectError)
        else (mkClusterState (r :: cl_roles p) (cl_databases p) (cl_promoting p), Ret tt)
      else if decide (k = "CREATE DATABASE #") then
        (mkClusterState (cl_roles p) ((r, "postgres") :: cl_databases p) (cl_promoting p), Ret tt)
      else if decide (k = "DROP DATABASE IF EXISTS #" \/ k = "DROP DATABASE IF EXISTS # WITH (FORCE)") then
        (mkClusterState (cl_roles p) (filter (fun x => x.1 <> r) (cl_databases p)) (cl_promoting p), Ret tt)
      else if decide (k = "DROP ROLE IF EXISTS #") then
        (mkClusterState (filter (fun x => x <> r) (cl_roles p)) (cl_databases p) (cl_promoting p), Ret tt)
      else (p, Ret tt)
  | Some (k, [d; r]) =>
      if decide (k = "CREATE DATABASE # OWNER #") then
        if decide (d ∈ (cl_databases p).*1) then (p, Exc DuplicateDatabaseError)
        else (mkClusterState (cl_roles p) ((d, r) :: cl_databases p) (cl_promoting p), Ret tt)
      else (p, Ret tt)
  | _ => (p, Ret tt)
  end.

(** It takes one more second to leave recovery. *)
#[export] Instance example_server : Server := {
  pg_state := PgCluster;
  pg_connect := fun _ _ => Ret tt;
  pg_execute := example_execute;
  fetch_text := fun _ q args _ =>
    if decide (q = "SELECT quote_literal($1)") then Ret (literal_of (default "" (head args)))
    else if decide (q = "SHOW max_connections") then Ret "100" else Ret "postgres";
  fetch_int := fun _ _ _ _ => Ret 0;
  fetch_bool := fun _ _ p => Ret (bool_decide (0 < cl_promoting p)%nat);
  fetch_pairs := fun _ _ _ => Ret [("plpgsql", "1.0")];
  fetch_rows := fun _ _ _ _ => Ret [];
  run_process := fun _ stdin p => (p, Ret stdin);
  pg_wait := fun p => mkClusterState (cl_roles p) (cl_databases p) (pred (cl_promoting p));
  fernet_encrypt := fun x => x;
  fernet_decrypt := fun x => if bool_decide (x = "") then Exc InvalidToken else Ret x;
  store := gmap string string;
  put_object := fun k v s => <[k := v]> s;
  get_object := fun k s => match s !! k with Some x => Ret x | None => Exc KeyError end;
  delete_object := fun k s => delete k s;
}.

Definition example_settings : AgentSettings := mkAgentSettings "node-1" "0.1.0" "postgres" [] "pg_dump" "pg_restore" "127.0.0.1" "5432".
Definition example_agent : Agent := mkAgent (mkClusterState ["postgres"] [] 2) (∅ : gmap string string) [].


Definition example_verification : Agent * outcome (bool * string) := verify_encrypted_backup example_settings (fun _ => "error") 5 "dump" example_agent.
Definition verified_and_dropped (t : Agent) (r : outcome (bool * string)) : bool :=
  match r with Ret b => b.1 && bool_decide (cl_databases (server t) = []) | Exc _ => false end.
Lemma verification_stays_in_its_database_witness :
  exists t r, verify_encrypted_backup example_settings (fun _ => "error") 5 "dump" example_agent = (t, r) /\
    objects t = objects example_agent /\ verified_and_dropped t r = true.
Proof.
  assert (let '(t, r) := example_verification in
    verified_and_dropped t r = true) as Hv by (vm_compute; reflexivity).
  unfold example_verification in Hv.
  destruct (verify_encrypted_backup example_settings (fun _ => "error") 5 "dump" example_agent) as [t r] eqn:E.
  exists t, r. split; [reflexivity|]. split; [|exact Hv].
  exact (proj1 (verification_stays_in_its_database example_settings (fun _ => "error") 5 "dump" example_agent t r E)).
Defined.

Lemma promotion_answers_in_thirty_polls_witness :
  (agent_endpoint example_settings (fun _ => "error") Promote example_agent).2 = Ret (Body {["status" := JStr "promoted"]}).
Proof.
  apply (promotion_answers_in_thirty_polls example_settings (fun _ => "error") example_agent (server example_agent)); [reflexivity|].
  exists 2%nat. split; [lia|]. split; [reflexivity|]. intros [|[|j]] Hj; [reflexivity|reflexivity|lia].
Defined.

(** Provisioning is not idempotent: the role is created before the database, so the second
    attempt fails on the role, with an error the endpoint does not catch. *)
Example provisioning_cannot_be_retried :
  let call := ProvisionDatabase "db_shop" "u_shop" "a password" in
  let '(s, first) := agent_endpoint example_settings (fun _ => "error") call example_agent in
  first = Ret (Body (<["status" := JStr "created"]> {["database_name" := JStr "db_shop"]})) /\
  (agent_endpoint example_settings (fun _ => "error") call s).2 = Exc DuplicateObjectError.
Proof. vm_compute. split; reflexivity. Qed.

(** A restoration whose download fails leaves an empty database, and cannot be retried either. *)
Example failed_restore_leaves_an_empty_database :
  let call := Restore "db_shop" "backups/1" "u_shop" "a password" in
  let '(s, first) := agent_endpoint example_settings (fun _ => "error") call example_agent in
  first = Exc KeyError /\ cl_databases (server s) = [("db_shop", "u_shop")] /\
  (agent_endpoint example_settings (fun _ => "error") call s).2 = Exc DuplicateObjectError.
Proof. vm_compute. split_and!; reflexivity. Qed.

(** The [$] of the pattern lets a newline through. *)
Example identifier_with_a_newline : is_valid_identifier ("db_shop" +:+ String newline "") = true.
Proof. reflexivity. Qed.
