(* ===== verification/Contract.v ===== *)
(** * The contract between the control plane and the agents: the calls of
    [backend/app/services/agent_client.py] against the routes of [agent/app/main.py]

    The two are deployed apart and share no code. [route] is the table of the routes of the
    agent; a call is [understood] when a route answers it, with a body that its schema
    accepts and names that the agent's own check accepts. *)

From Stdlib Require Import Ascii.
From S2P Require Import Prelude PyStd Queue ControlPlane Agent.
From S2P Require Import Placement Platform Orchestrator Access Organizations Databases Failover.
From S2P Require Import Backups Billing Payments Worker Accounts Nodes DatabaseOps System.

(** ** Model *)

Definition text_arg (p : payload) (key : string) : option string :=
  match p !! key with Some (JStr x) => Some x | _ => None end.
Definition int_arg (p : payload) (key : string) : option Z :=
  match p !! key with Some (JInt z) => Some z | _ => None end.

Abbreviation same := String.eqb (only parsing).

(** The routes below [/v1]. [u] is the UUID that a verification draws. *)
Definition route_v1 (u : uuid) (method : string) (path : list string) (args : payload) : option agent_call :=
  let arg := text_arg args in
  let get := same method "GET" in let post := same method "POST" in let del := same method "DELETE" in
  match path with
  | [x] =>
      if same x "verify-backup" && post then key ← arg "storage_key"; Some (VerifyBackup u key)
      else if same x "backups" && del then key ← arg "storage_key"; Some (DeleteBackupObject key)
      else if same x "health" && get then Some Health
      else None
  | [x; y] =>
      if same x "provision" then
        if same y "database" && post then
          d ← arg "database_name"; r ← arg "role_name"; p ← arg "password"; Some (ProvisionDatabase d r p)
        else None
      else if same x "replication" then
        if same y "status" && get then Some ReplicationStatus
        else if same y "promote" && post then Some Promote else None
      else if same x "database" && del then r ← arg "role_name"; Some (Agent.DeleteDatabase y r)
      else None
  | [x; d; action] =>
      if negb (same x "database") then None
      else if same action "suspend" && post then Some (Agent.SuspendDatabase d)
      else if same action "resume" && post then Some (Agent.ResumeDatabase d)
      else if same action "connection-limit" && post then limit ← int_arg args "limit"; Some (SetConnectionLimit d limit)
      else if same action "quiesce" && post then r ← arg "role_name"; Some (Quiesce d r)
      else if same action "roles" && post then
        r ← arg "role_name"; p ← arg "password"; scope ← arg "scope"; Some (Agent.CreateRole d r p scope)
      else if same action "extensions" && get then Some (Agent.ListExtensions d)
      else if same action "extensions" && post then name ← arg "name"; Some (Agent.InstallExtension d name)
      else if same action "metrics" && get then Some (Metrics d)
      else if same action "tables" && get then Some (Agent.ListTables d)
      else if same action "backup" && post then key ← arg "storage_key"; Some (Agent.Backup d key)
      else if same action "restore" && post then
        key ← arg "storage_key"; r ← arg "role_name"; p ← arg "password"; Some (Restore d key r p)
      else None
  | [x; d; kind; name] =>
      if negb (same x "database" && del) then None
      else if same kind "roles" then Some (Agent.DeleteRole d name)
      else if same kind "extensions" then Some (Agent.DropExtension d name)
      else None
  | [x; d; kind; r; action] =>
      if same x "database" && same kind "roles" && same action "rotate" && post
      then p ← arg "password"; Some (Agent.RotateRole d r p) else None
  | _ => None
  end.
Definition route (u : uuid) (call : AgentCall) : option agent_call :=
  match segments (ac_path call) with
  | root :: version :: path =>
      if same root "" && same version "v1" then route_v1 u (ac_method call) path (ac_args call) else None
  | _ => None
  end.

(** The identifiers of a call. *)
Definition call_names (c : agent_call) : list string :=
  match c with
  | ProvisionDatabase d r _ | Agent.DeleteDatabase d r | Quiesce d r | Agent.CreateRole d r _ _ | Agent.DeleteRole d r
  | Agent.RotateRole d r _ | Restore d _ r _ => [d; r]
  | Agent.SuspendDatabase d | Agent.ResumeDatabase d | SetConnectionLimit d _ | Agent.ListExtensions d
  | Agent.InstallExtension d _ | Agent.DropExtension d _ | Metrics d | Agent.Backup d _ | Agent.ListTables d => [d]
  | VerifyBackup _ _ | DeleteBackupObject _ | ReplicationStatus | Promote | Health => []
  end.

Definition understood (call : AgentCall) : Prop :=
  forall u, exists c, route u call = Some c /\ valid_body c = true /\ Forall (fun n => is_valid_identifier n = true) (call_names c).
(** The name of an extension to remove is put in the path as the caller wrote it. *)
Definition extension_removal (call : AgentCall) : Prop :=
  ac_method call = "DELETE" /\ exists d name, is_valid_identifier d = true /\
    ac_path call = "/v1/database/" +:+ d +:+ "/extensions/" +:+ name.

(** ** Lemmas *)

(** *** Paths *)

Lemma no_slash_chomp n : no_slash (chomp n) = true -> no_slash n = true.
Proof.
  induction n as [|c n IH]; [done|]. cbn [chomp]. destruct n as [|c' n].
  - destruct (Ascii.eqb_spec c newline) as [->|]; done.
  - cbn [no_slash]. intros [Hc Hn]%andb_prop. rewrite Hc. exact (IH Hn).
Qed.
Lemma no_slash_ident s : all_ident_chars s = true -> no_slash s = true.
Proof.
  induction s as [|c s IH]; [done|]. cbn. intros [Hc Hs]%andb_prop. rewrite (IH Hs), andb_true_r.
  destruct (Ascii.eqb_spec c "/"%char) as [->|]; [discriminate Hc|done].
Qed.
Lemma no_slash_valid n : is_valid_identifier n = true -> no_slash n = true.
Proof.
  unfold is_valid_identifier. intros H. apply no_slash_chomp. destruct (chomp n) as [|c s]; [done|].
  apply andb_prop in H as [[Hc Hs]%andb_prop _]. cbn. rewrite (no_slash_ident s Hs), andb_true_r.
  apply negb_true_iff. destruct (Ascii.eqb_spec c "/"%char) as [->|]; [discriminate Hc|done].
Qed.

(** *** The names that the control plane draws *)

Lemma length_substring_0 s n : (n <= String.length s)%nat -> String.length (String.substring 0 n s) = n.
Proof. revert n. induction s as [|c s IH]; intros [|n] H; cbn in *; [done|lia|done|]. rewrite IH; lia. Qed.

(** A name that the check and the length of the schemas accept. *)
Definition fit (n : string) : Prop := is_valid_identifier n = true /\ len_between 3 63 n = true.

Lemma fit_prefix c p u :
  lower_letter c = true -> all_ident_chars p = true -> (String.length p <= 3)%nat ->
  fit (String c p +:+ String.substring 0 24 (uuid_hex u)).
Proof.
  intros Hc Hp Hl. set (h := String.substring 0 24 (uuid_hex u)).
  assert (String.length h = 24%nat) as Hh by (apply length_substring_0; unfold uuid_hex; rewrite length_hex_of; lia).
  assert (all_ident_chars (p +:+ h) = true) as Hi.
  { rewrite all_ident_chars_app, Hp. apply all_ident_chars_substring, all_ident_chars_hex. }
  change (String c p +:+ h) with (String c (p +:+ h)).
  assert (ident_char c = true) as Hic by (unfold ident_char; by rewrite Hc).
  split.
  - unfold is_valid_identifier. rewrite chomp_ident; [|cbn [all_ident_chars]; by rewrite Hic].
    rewrite Hc, Hi, bool_decide_eq_true_2; [done|]. rewrite length_str_app. lia.
  - unfold len_between. cbn [String.length]. rewrite length_str_app. apply andb_true_intro. split; apply Z.leb_le; lia.
Qed.
Lemma fit_physical u : fit (generate_physical_identifiers u).1.
Proof. apply (fit_prefix "d"%char "b_"); [done|done|cbn; lia]. Qed.
Lemma fit_role u : fit (ROLE_NAME_PREFIX +:+ String.substring 0 24 (uuid_hex u)).
Proof. apply (fit_prefix "u"%char "_"); [done|done|cbn; lia]. Qed.
Lemma fit_role_of u : fit (role_name_of (generate_physical_identifiers u).1).
Proof. exact (fit_role u). Qed.
Lemma fit_unknown : fit (ROLE_NAME_PREFIX +:+ "unknown").
Proof. done. Qed.

(** *** The calls are understood *)

Lemma segments_database n rest :
  no_slash n = true -> segments ("/v1/database/" +:+ n +:+ String "/" rest) = ["" ; "v1"; "database"; n] ++ segments rest.
Proof.
  intros Hn. change ("/v1/database/" +:+ n +:+ String "/" rest) with ("" +:+ String "/" ("v1" +:+ String "/" ("database" +:+ String "/" (n +:+ String "/" rest)))).
  by rewrite !segments_cons.
Qed.
Lemma segments_database_only n :
  no_slash n = true -> segments ("/v1/database/" +:+ n +:+ "") = ["" ; "v1"; "database"; n].
Proof.
  intros Hn. rewrite str_app_nil_r. change ("/v1/database/" +:+ n) with ("" +:+ String "/" ("v1" +:+ String "/" ("database" +:+ String "/" n))).
  by rewrite !segments_cons, segments_last.
Qed.

Lemma text_arg_here k v (m : payload) : text_arg (<[k := JStr v]> m) k = Some v.
Proof. unfold text_arg. by rewrite lookup_insert_eq. Qed.
Lemma text_arg_next k k' v (m : payload) : k <> k' -> text_arg (<[k := v]> m) k' = text_arg m k'.
Proof. intros H. unfold text_arg. by rewrite lookup_insert_ne. Qed.
Lemma text_arg_one k v : text_arg {[k := JStr v]} k = Some v.
Proof. unfold text_arg. by rewrite lookup_singleton_eq. Qed.

(** [understand c]: the route of the call is [c]. *)
Ltac find_args := repeat first [rewrite text_arg_here | rewrite text_arg_one | rewrite text_arg_next by discriminate].
Ltac understand c :=
  intros u; exists c; split;
  [ unfold route; cbn [ac_path ac_method ac_args];
    rewrite ?segments_database, ?segments_database_only by (by apply no_slash_valid);
    repeat match goal with E : segments _ = _ |- _ => rewrite E end;
    repeat match goal with |- context [segments ?p] => let q := eval vm_compute in (segments p) in change (segments p) with q end;
    cbn [app]; cbv beta iota zeta delta [route_v1]; cbn [same String.eqb Ascii.eqb Bool.eqb andb negb]; find_args;
    repeat match goal with E : int_arg _ _ = _ |- _ => rewrite E end; reflexivity
  | split; [cbn [valid_body]; rewrite ?andb_true_iff; split_and?; first [assumption | reflexivity] | repeat (constructor; try assumption)] ].

Section calls.
Context (node : uuid) (d r : string) (Hd : fit d) (Hr : fit r).

Lemma understood_suspend : understood (mkAgentCall node "POST" ("/v1/database/" +:+ d +:+ "/suspend") ∅).
Proof. destruct Hd. understand (Agent.SuspendDatabase d). Qed.
Lemma understood_resume : understood (mkAgentCall node "POST" ("/v1/database/" +:+ d +:+ "/resume") ∅).
Proof. destruct Hd. understand (Agent.ResumeDatabase d). Qed.
Lemma understood_metrics : understood (mkAgentCall node "GET" ("/v1/database/" +:+ d +:+ "/metrics") ∅).
Proof. destruct Hd. understand (Metrics d). Qed.
Lemma understood_extensions : understood (mkAgentCall node "GET" ("/v1/database/" +:+ d +:+ "/extensions") ∅).
Proof. destruct Hd. understand (Agent.ListExtensions d). Qed.
Lemma understood_tables : understood (mkAgentCall node "GET" ("/v1/database/" +:+ d +:+ "/tables") ∅).
Proof. destruct Hd. understand (Agent.ListTables d). Qed.
Lemma understood_delete : understood (mkAgentCall node "DELETE" ("/v1/database/" +:+ d +:+ "") {["role_name" := JStr r]}).
Proof. destruct Hd, Hr. understand (Agent.DeleteDatabase d r). Qed.
Lemma understood_quiesce :
  understood (mkAgentCall node "POST" ("/v1/database/" +:+ d +:+ "/quiesce") {["role_name" := JStr r]}).
Proof. destruct Hd, Hr. understand (Quiesce d r). Qed.
Lemma understood_provision p : min_len 8 p = true ->
  understood (mkAgentCall node "POST" "/v1/provision/database"
    (<["database_name" := JStr d]> (<["role_name" := JStr r]> {["password" := JStr p]}))).
Proof. intros Hp. destruct Hd, Hr. understand (ProvisionDatabase d r p). Qed.
Lemma understood_limit z : 0 <= z ->
  understood (mkAgentCall node "POST" ("/v1/database/" +:+ d +:+ "/connection-limit") {["limit" := JInt z]}).
Proof.
  intros Hz. assert ((-1 <=? z) = true) by lia. destruct Hd.
  assert (int_arg {["limit" := JInt z]} "limit" = Some z) as E by (unfold int_arg; by rewrite lookup_singleton_eq).
  understand (SetConnectionLimit d z).
Qed.
Lemma understood_create_role p scope : min_len 8 p = true -> scope ∈ ROLE_SCOPES ->
  understood (mkAgentCall node "POST" ("/v1/database/" +:+ d +:+ "/roles")
    (<["role_name" := JStr r]> (<["password" := JStr p]> {["scope" := JStr scope]}))).
Proof.
  intros Hp Hs. assert (bool_decide (scope ∈ ROLE_SCOPES) = true) by (by apply bool_decide_eq_true). destruct Hd, Hr.
  understand (Agent.CreateRole d r p scope).
Qed.
Lemma understood_delete_role : understood (mkAgentCall node "DELETE" ("/v1/database/" +:+ d +:+ ("/roles/" +:+ r)) ∅).
Proof.
  destruct Hd, Hr. pose proof (no_slash_valid r ltac:(done)) as Hs.
  change ("/roles/" +:+ r) with (String "/" ("roles" +:+ String "/" r)).
  assert (segments ("roles" +:+ String "/" r) = ["roles"; r]) as E by (by rewrite segments_cons, segments_last).
  understand (Agent.DeleteRole d r).
Qed.
Lemma understood_rotate p : min_len 8 p = true ->
  understood (mkAgentCall node "POST" ("/v1/database/" +:+ d +:+ ("/roles/" +:+ r +:+ "/rotate")) {["password" := JStr p]}).
Proof.
  intros Hp. destruct Hd, Hr. pose proof (no_slash_valid r ltac:(done)) as Hs.
  change ("/roles/" +:+ r +:+ "/rotate") with (String "/" ("roles" +:+ String "/" (r +:+ String "/" "rotate"))).
  assert (segments ("roles" +:+ String "/" (r +:+ String "/" "rotate")) = ["roles"; r; "rotate"]) as E
    by (by rewrite !segments_cons by done).
  understand (Agent.RotateRole d r p).
Qed.
Lemma understood_install name : len_between 2 63 name = true ->
  understood (mkAgentCall node "POST" ("/v1/database/" +:+ d +:+ "/extensions") {["name" := JStr name]}).
Proof. intros Hn. destruct Hd. understand (Agent.InstallExtension d name). Qed.
Lemma understood_backup key : len_between 1 512 key = true ->
  understood (mkAgentCall node "POST" ("/v1/database/" +:+ d +:+ "/backup") {["storage_key" := JStr key]}).
Proof. intros Hk. destruct Hd. understand (Agent.Backup d key). Qed.
Lemma understood_restore key p : len_between 1 512 key = true -> min_len 8 p = true ->
  understood (mkAgentCall node "POST" ("/v1/database/" +:+ d +:+ "/restore")
    (<["storage_key" := JStr key]> (<["role_name" := JStr r]> {["password" := JStr p]}))).
Proof. intros Hk Hp. destruct Hd, Hr. understand (Restore d key r p). Qed.
End calls.

Lemma understood_verify node key : len_between 1 512 key = true ->
  understood (mkAgentCall node "POST" "/v1/verify-backup" {["storage_key" := JStr key]}).
Proof.
  intros Hk u. exists (VerifyBackup u key). split; [|split; [done|constructor]].
  unfold route. cbn [ac_path ac_method ac_args]. change (segments "/v1/verify-backup") with [""; "v1"; "verify-backup"].
  cbv beta iota zeta delta [route_v1]. cbn [String.eqb Ascii.eqb Bool.eqb andb]. by find_args.
Qed.
Lemma understood_delete_object node key :
  understood (mkAgentCall node "DELETE" "/v1/backups" {["storage_key" := JStr key]}).
Proof. understand (DeleteBackupObject key). Qed.
Lemma understood_status node : understood (mkAgentCall node "GET" "/v1/replication/status" ∅).
Proof. understand ReplicationStatus. Qed.
Lemma understood_promote node : understood (mkAgentCall node "POST" "/v1/replication/promote" ∅).
Proof. understand Promote. Qed.
Lemma understood_health node : understood (mkAgentCall node "GET" "/v1/health" ∅).
Proof. understand Health. Qed.

(** *** What the rows have to hold for it *)

Lemma length_str_uuid u : (String.length (str_uuid u) <= 36)%nat.
Proof.
  unfold str_uuid. cbv zeta. rewrite !length_str_app. cbn [String.length].
  pose proof (length_substring_le (uuid_hex u) 0 8). pose proof (length_substring_le (uuid_hex u) 8 4).
  pose proof (length_substring_le (uuid_hex u) 12 4). pose proof (length_substring_le (uuid_hex u) 16 4).
  pose proof (length_substring_le (uuid_hex u) 20 12). lia.
Qed.
Lemma key_length p x : (1 <= String.length p)%nat -> (String.length (p +:+ x) <= 512)%nat -> len_between 1 512 (p +:+ x) = true.
Proof. rewrite length_str_app. intros H1 H2. unfold len_between. rewrite length_str_app. apply andb_true_intro. split; apply Z.leb_le; lia. Qed.
Lemma backup_key_fits d b : len_between 1 512 (backup_storage_key d b) = true.
Proof.
  unfold backup_storage_key. pose proof (length_str_uuid d). pose proof (length_str_uuid b).
  apply key_length; [cbn; lia|]. rewrite !length_str_app. cbn [String.length]. lia.
Qed.
Lemma migration_key_fits d u : len_between 1 512 ("migrations/" +:+ str_uuid d +:+ "/" +:+ uuid_hex u +:+ ".dump.enc") = true.
Proof.
  pose proof (length_str_uuid d). apply key_length; [cbn; lia|]. rewrite !length_str_app. unfold uuid_hex. rewrite length_hex_of.
  cbn [String.length]. lia.
Qed.

Section contract.
Context `{Env : Platform} `{Auth : Verifier} `{Gates : Gateways} `{Acc : !Accounts} `{Authority : NodeAuthority} `{Pg : Postgres}.
Context (str_exn : exn -> string).
(** Fernet gives back what it encrypted; [token_urlsafe(24)] has 32 characters. *)
Hypothesis decrypt_encrypt : forall p, decrypt_secret (encrypt_secret p) = Ret p.
Hypothesis token_length : forall s, min_len 8 (token_urlsafe s) = true.

(** The password of a credential, as the agent will be told. *)
Definition password_fits (encrypted : string) : Prop := exists p, decrypt_secret encrypted = Ret p /\ min_len 8 p = true.

Record contract (s : Cp) : Prop := {
  ct_log : Forall (fun c => understood c \/ extension_removal c) (agent_log s);
  ct_databases : map_Forall (fun _ d => exists u, db_physical_name d = (generate_physical_identifiers u).1) (databases s);
  ct_credentials : map_Forall (fun _ c => fit (cr_role_name c) /\ password_fits (cr_encrypted_password c)) (credentials s);
  ct_backups : map_Forall (fun _ b => len_between 1 512 (bk_storage_key b) = true) (backups s);
}.

(** Updates of the other tables. *)
Lemma contract_frame s t :
  agent_log t = agent_log s -> databases t = databases s -> credentials t = credentials s -> backups t = backups s ->
  contract s -> contract t.
Proof. intros H1 H2 H3 H4 [C1 C2 C3 C4]. split; rewrite ?H1, ?H2, ?H3, ?H4; done. Qed.
Ltac same := apply pres_modify; intros ? ?; eapply contract_frame; [..|eassumption]; reflexivity.

Lemma contract_transaction {A} (m : M Cp A) : pres contract m -> pres contract (transaction m).
Proof.
  intros Hm s Hs. specialize (Hm s Hs). unfold transaction. destruct (m s) as [t [a|e]]; [done|].
  destruct Hm as [C1 _ _ _], Hs as [_ C2 C3 C4]. by split.
Qed.

Lemma contract_call node method path args :
  (forall ip, understood (mkAgentCall ip method path args) \/ extension_removal (mkAgentCall ip method path args)) ->
  pres contract (call_agent node method path args).
Proof.
  intros Hu. unfold call_agent. destruct (nd_ip_address node.2) as [ip|]; [|apply pres_raise].
  apply pres_bind; [auto with pres|]. intros _. cbv zeta. apply pres_bind; [auto with pres|]. intros log.
  apply pres_bind; [|intros _; apply pres_lift_outcome]. apply pres_modify. intros s [C1 C2 C3 C4]. split; try done.
  apply Forall_app. split; [done|]. constructor; [apply Hu|constructor].
Qed.
Lemma contract_understood node method path args :
  (forall ip, understood (mkAgentCall ip method path args)) -> pres contract (call_agent node method path args).
Proof. intros Hu. apply contract_call. intros ip. by left. Qed.
Lemma contract_agent_request {A} (m : M Cp A) : pres contract m -> pres contract (agent_request m).
Proof. intros Hm. apply pres_try; [done|]. intros e k. destruct e; intros [= <-]; apply pres_raise. Qed.

Lemma contract_set_database id f :
  (forall d, db_physical_name (f d) = db_physical_name d) -> pres contract (set_database id f).
Proof.
  intros Hf. apply pres_modify. intros s [C1 C2 C3 C4]. split; try done. intros k d Hk.
  change (alter f id (databases s) !! k = Some d) in Hk. apply lookup_alter_Some in Hk as [(-> & d0 & Hd & ->)|[_ Hk]]; [|by eapply C2].
  rewrite Hf. by eapply C2.
Qed.
Lemma contract_set_backup id f :
  (forall b, bk_storage_key (f b) = bk_storage_key b) -> pres contract (set_backup id f).
Proof.
  intros Hf. apply pres_modify. intros s [C1 C2 C3 C4]. split; try done. intros k b Hk.
  change (alter f id (backups s) !! k = Some b) in Hk. apply lookup_alter_Some in Hk as [(-> & b0 & Hb & ->)|[_ Hk]]; [|by eapply C4].
  rewrite Hf. by eapply C4.
Qed.
Lemma contract_add_database d : (exists u, db_physical_name d = (generate_physical_identifiers u).1) -> pres contract (add_database d).
Proof.
  intros Hd. unfold add_database. pres_go. apply pres_modify. intros s [C1 C2 C3 C4]. split; try done.
  by apply map_Forall_insert_2.
Qed.
Lemma contract_add_backup now d ty : pres contract (add_backup now d ty).
Proof.
  unfold add_backup. pres_go. apply pres_modify. intros s [C1 C2 C3 C4]. split; try done.
  apply map_Forall_insert_2; [apply backup_key_fits|done].
Qed.
Lemma password_of_token s : password_fits (encrypt_secret (token_urlsafe s)).
Proof. exists (token_urlsafe s). by rewrite decrypt_encrypt. Qed.
Lemma contract_add_credential c :
  fit (cr_role_name c) -> password_fits (cr_encrypted_password c) -> pres contract (add_credential c).
Proof.
  intros Hr Hp. unfold add_credential. pres_go. apply pres_modify. intros s [C1 C2 C3 C4]. split; try done.
  by apply map_Forall_insert_2.
Qed.

(** What a step that returns tells, in a state that respects the contract. *)
Definition learns {A} (m : M Cp A) (phi : A -> Prop) : Prop := forall s t a, contract s -> m s = (t, Ret a) -> phi a.
Lemma learn_bind {A B} (m : M Cp A) (f : A -> M Cp B) phi :
  pres contract m -> learns m phi -> (forall a, phi a -> pres contract (f a)) -> pres contract (m ≫= f).
Proof.
  intros Hm Hl Hf. apply pres_bind_run; [done|]. intros s t a Hs E. apply (Hf a); [by eapply Hl|]. by eapply pres_run.
Qed.

Definition named (d : Database) : Prop := exists u, db_physical_name d = (generate_physical_identifiers u).1.
Definition credential_ok (c : DatabaseCredential) : Prop := fit (cr_role_name c) /\ password_fits (cr_encrypted_password c).
Lemma named_fit d : named d -> fit (db_physical_name d).
Proof. intros [u ->]. apply fit_physical. Qed.
Lemma named_role d : named d -> fit (role_name_of (db_physical_name d)).
Proof. intros [u ->]. apply fit_role_of. Qed.

Lemma learn_object {V} (table : Cp -> gmap uuid V) job key (phi : V -> Prop) :
  (forall s, contract s -> map_Forall (fun _ => phi) (table s)) ->
  learns (get_object_or_raise table job key) (fun x => phi x.2).
Proof.
  intros Ht s t x Hs H. unfold get_object_or_raise in H.
  apply bind_Ret in H as (u1 & j & E1 & H). apply bind_Ret in H as (u2 & v & E2 & H).
  apply bind_Ret in H as (u3 & id & E3 & H). apply bind_Ret in H as (u4 & o & [-> ->]%cp_get_run & H).
  apply bind_Ret in H as (u5 & y & [Hy ->]%some_or_Ret & [-> ->]%mret_Ret).
  assert (contract u3) as H3.
  { eapply (pres_run _ _ _ _ _ _ E3), (pres_run _ _ _ _ _ _ E2), (pres_run _ _ _ _ _ _ E1), Hs. }
  exact (Ht _ H3 _ _ Hy).
  Unshelve. all: auto with pres.
Qed.
Lemma learn_database job key : learns (get_object_or_raise databases job key) (fun x => named x.2).
Proof. apply learn_object. intros s Hs. exact (ct_databases _ Hs). Qed.
Lemma learn_backup job key :
  learns (get_object_or_raise backups job key) (fun x => len_between 1 512 (bk_storage_key x.2) = true).
Proof. apply (learn_object _ _ _ (fun b => len_between 1 512 (bk_storage_key b) = true)). intros s Hs. exact (ct_backups _ Hs). Qed.
Lemma learn_get {V} (table : Cp -> gmap uuid V) id (phi : V -> Prop) :
  (forall s, contract s -> map_Forall (fun _ => phi) (table s)) ->
  learns (cp_get table id) (fun o => forall v, o = Some v -> phi v).
Proof. intros Ht s t o Hs [-> ->]%cp_get_run v Hv. exact (Ht _ Hs _ _ Hv). Qed.
Lemma learn_some {A} (o : option A) e (phi : A -> Prop) : (forall v, o = Some v -> phi v) -> learns (some_or o e) phi.
Proof. intros H s t a _ [Ha _]%some_or_Ret. by apply H. Qed.
Lemma learn_database_or_404 project id : learns (get_database_or_404 project id) named.
Proof. intros s t d Hs (_ & Hd & _)%get_database_or_404_run. exact (ct_databases _ Hs _ _ Hd). Qed.
Lemma learn_running o project id : learns (running_database o project id) named.
Proof. intros s t d Hs (_ & Hd & _)%running_database_run. exact (ct_databases _ Hs _ _ Hd). Qed.
Lemma learn_role id credential : learns (role_of id credential) credential_ok.
Proof. intros s t c Hs (_ & Hc & _)%role_of_run. exact (ct_credentials _ Hs _ _ Hc). Qed.
Lemma learn_credentials : learns (gets credentials) (map_Forall (fun _ => credential_ok)).
Proof. intros s t a Hs [-> ->]%gets_Ret. exact (ct_credentials _ Hs). Qed.
Lemma rows_credentials P m x : map_Forall (fun _ => credential_ok) m -> rows P m = [x] -> credential_ok x.
Proof. intros Hm E. assert (x ∈ rows P m) as (k & Hk & _)%elem_of_rows by (rewrite E; left). by eapply Hm. Qed.
Lemma learn_decrypt encrypted : password_fits encrypted -> learns (lift_outcome (decrypt_secret encrypted)) (fun p => min_len 8 p = true).
Proof. intros (p & E & Hp) s t a _ [_ H]%lift_outcome_Ret. congruence. Qed.
Lemma learn_token : learns (gets token_urlsafe) (fun p => min_len 8 p = true /\ password_fits (encrypt_secret p)).
Proof. intros s t p _ [_ ->]%gets_Ret. split; [apply token_length|apply password_of_token]. Qed.

(** *** The handlers of the jobs *)

Lemma contract_enqueue now ty p key o rt rid : pres contract (enqueue now ty p key o rt rid).
Proof. apply pres_enqueue. intros s j. by apply contract_frame. Qed.
Lemma contract_emit_event now o event data : pres contract (emit_event now o event data).
Proof. apply pres_emit_event; intros s j; by apply contract_frame. Qed.
Lemma contract_database_event e : pres contract (add_database_event e).
Proof. same. Qed.
Lemma contract_cluster_event e : pres contract (add_cluster_event e).
Proof. same. Qed.
Lemma contract_set_delivery id f : pres contract (set_delivery id f).
Proof. same. Qed.
Lemma contract_set_core id f : pres contract (set_core id f).
Proof. same. Qed.
Lemma contract_set_member id f : pres contract (set_member id f).
Proof. same. Qed.
Lemma contract_audit a b c d e f g : pres contract (record_audit a b c d e f g).
Proof. same. Qed.
Lemma contract_new_cluster node region iso : pres contract (new_cluster node region iso).
Proof. unfold new_cluster. pres_go; same. Qed.
Lemma contract_get_or_create node region iso : pres contract (get_or_create_cluster_on_node node region iso).
Proof.
  unfold get_or_create_cluster_on_node, find_shared_cluster_on_node. pres_go. apply contract_new_cluster.
Qed.
Lemma contract_select now code iso cpu ram sto : pres contract (select_node_and_cluster now code iso cpu ram sto).
Proof. apply pres_select_node_and_cluster. Qed.
#[local] Hint Resolve contract_enqueue contract_emit_event contract_database_event contract_cluster_event contract_set_delivery
  contract_set_core contract_set_member contract_audit contract_new_cluster contract_get_or_create contract_select
  contract_add_backup pres_get_primary_node pres_get_object_or_raise pres_ignore_unreachable : pres.

Lemma contract_create_database now job : pres contract (execute_create_database now job).
Proof.
  unfold execute_create_database. apply pres_bind; [auto with pres|]. intros j.
  eapply learn_bind; [auto with pres|apply learn_database|]. intros [id d] Hd. cbn [snd] in Hd.
  pose proof (named_fit _ Hd) as Hn. pose proof (named_role _ Hd) as Hr.
  destruct (_ && _); [apply pres_ret|]. do 3 (apply pres_bind; [auto with pres|]; intros ?).
  apply pres_bind; [pres_go|]. intros c. apply pres_bind; [by apply contract_set_database|]. intros _. cbv zeta.
  eapply learn_bind; [auto with pres|apply learn_token|]. intros p [Hp Hpf].
  apply pres_bind; [auto with pres|]. intros node.
  apply pres_bind; [apply contract_understood; intros ip; by apply understood_provision|]. intros _.
  apply pres_bind; [by apply contract_add_credential|]. intros _.
  apply pres_bind; [by apply contract_set_database|]. intros _. pres_go.
Qed.

Lemma contract_delete_database now job : pres contract (execute_delete_database now job).
Proof.
  unfold execute_delete_database. do 3 (apply pres_bind; [auto with pres|]; intros ?).
  eapply learn_bind; [auto with pres|apply learn_get; intros s Hs; exact (ct_databases _ Hs)|]. intros [d|] Hd; [|apply pres_ret].
  pose proof (named_fit _ (Hd _ eq_refl)) as Hn. case_decide; [apply pres_ret|].
  apply pres_bind; [|intros _; apply pres_bind; [by apply contract_set_database|pres_go]].
  destruct (db_cluster_id d) as [c|]; [|apply pres_ret]. apply pres_bind; [auto with pres|]. intros node.
  eapply learn_bind; [auto with pres|apply learn_credentials|]. intros creds Hc.
  apply pres_bind_run; [auto with pres|]. intros s t o Hs [-> Ho]%scalar_one_or_none_Ret. cbv zeta.
  assert (fit match o with Some c => cr_role_name c | None => ROLE_NAME_PREFIX +:+ "unknown" end) as Hr.
  { destruct o as [x|]; [|apply fit_unknown]. by eapply rows_credentials. }
  assert (pres contract (call_agent node "DELETE" (database_path d "")
    {["role_name" := JStr match o with Some c => cr_role_name c | None => ROLE_NAME_PREFIX +:+ "unknown" end]};; mret tt)) as Hp.
  { apply pres_bind; [|auto with pres]. apply contract_understood. intros ip. by apply understood_delete. }
  by apply Hp.
Qed.

Lemma contract_suspend_database job : pres contract (execute_suspend_database job).
Proof.
  unfold execute_suspend_database. eapply learn_bind; [auto with pres|apply learn_database|]. intros [id d] Hd.
  pose proof (named_fit _ Hd) as Hn. case_decide; [apply pres_ret|]. apply pres_bind; [auto with pres|]. intros node.
  apply pres_bind; [apply contract_understood; intros ip; by apply understood_suspend|]. intros _.
  apply pres_bind; [by apply contract_set_database|pres_go].
Qed.
Lemma contract_resume_database job : pres contract (execute_resume_database job).
Proof.
  unfold execute_resume_database. eapply learn_bind; [auto with pres|apply learn_database|]. intros [id d] Hd.
  pose proof (named_fit _ Hd) as Hn. case_decide; [apply pres_ret|]. apply pres_bind; [auto with pres|]. intros node.
  apply pres_bind; [apply contract_understood; intros ip; by apply understood_resume|]. intros _.
  apply pres_bind; [by apply contract_set_database|pres_go].
Qed.

Lemma contract_migrate_database job : pres contract (execute_migrate_database job).
Proof.
  unfold execute_migrate_database. eapply learn_bind; [auto with pres|apply learn_database|]. intros [id d] Hd. cbn [snd] in Hd.
  pose proof (named_fit _ Hd) as Hn. do 3 (apply pres_bind; [auto with pres|]; intros ?). case_decide; [apply pres_ret|].
  eapply learn_bind; [auto with pres|apply learn_credentials|]. intros creds Hc.
  eapply (learn_bind _ _ credential_ok); [auto with pres| |].
  { intros s t c _ [_ Hl]%scalar_one_Ret. by eapply rows_credentials. }
  intros c [Hr Hp]. eapply learn_bind; [auto with pres|by apply learn_decrypt|]. intros p Hlen.
  apply pres_bind; [apply contract_understood; intros ip; by apply understood_quiesce|]. intros _.
  apply pres_bind; [auto with pres|]. intros u. cbv zeta. pose proof (migration_key_fits id u) as Hk.
  apply pres_bind; [apply contract_understood; intros ip; by apply understood_backup|]. intros _.
  apply pres_bind; [apply contract_understood; intros ip; by apply understood_restore|]. intros _.
  apply pres_bind; [auto with pres|]. intros new. apply pres_bind; [by apply contract_set_database|]. intros _.
  apply pres_bind; [apply contract_understood; intros ip; by apply understood_delete|]. intros _.
  apply pres_bind; [|pres_go]. apply pres_ignore_unreachable, contract_understood. intros ip. apply understood_delete_object.
Qed.

Lemma contract_handlers now ty h job : HANDLERS now ty = Some h -> pres contract (h job).
Proof.
  unfold HANDLERS. repeat case_decide; intros [= <-];
    [apply contract_create_database|apply contract_delete_database|apply contract_suspend_database
    |apply contract_resume_database|apply contract_migrate_database].
Qed.

Lemma contract_backup_database now job : pres contract (execute_backup_database now job).
Proof.
  unfold execute_backup_database. apply pres_bind; [auto with pres|]. intros j.
  eapply learn_bind; [auto with pres|apply learn_backup|]. intros [id b] Hk. cbn [snd] in Hk.
  destruct (restorable _); [apply pres_ret|].
  eapply learn_bind; [auto with pres|apply learn_get; intros s Hs; exact (ct_databases _ Hs)|]. intros o Ho.
  eapply learn_bind; [auto with pres|exact (learn_some _ _ _ Ho)|]. intros d Hd. pose proof (named_fit _ Hd) as Hn.
  do 2 (apply pres_bind; [auto with pres|]; intros ?). apply pres_bind; [by apply contract_set_backup|]. intros _.
  apply pres_bind; [apply contract_understood; intros ip; by apply understood_backup|]. intros answer.
  apply pres_bind; [auto with pres|]. intros size. apply pres_bind; [by apply contract_set_backup|pres_go].
Qed.
Lemma contract_restore_database now job : pres contract (execute_restore_database now job).
Proof.
  unfold execute_restore_database. apply pres_bind; [auto with pres|]. intros j.
  eapply learn_bind; [auto with pres|apply learn_database|]. intros [id d] Hd. cbn [snd] in Hd.
  pose proof (named_fit _ Hd) as Hn. pose proof (named_role _ Hd) as Hr. destruct (_ && _); [apply pres_ret|].
  eapply learn_bind; [auto with pres|apply learn_backup|]. intros [bid b] Hk. cbn [snd] in Hk.
  do 4 (apply pres_bind; [auto with pres|]; intros ?).
  apply pres_bind; [pres_go|]. intros c. apply pres_bind; [by apply contract_set_database|]. intros _. cbv zeta.
  eapply learn_bind; [auto with pres|apply learn_token|]. intros p [Hp Hpf].
  apply pres_bind; [auto with pres|]. intros node.
  apply pres_bind; [apply contract_understood; intros ip; by apply understood_restore|]. intros _.
  apply pres_bind; [by apply contract_add_credential|]. intros _.
  apply pres_bind; [by apply contract_set_database|]. intros _. pres_go.
Qed.
Lemma contract_verify_backup now job : pres contract (execute_verify_backup now job).
Proof.
  unfold execute_verify_backup. eapply learn_bind; [auto with pres|apply learn_backup|]. intros [id b] Hk. cbn [snd] in Hk.
  destruct (negb _); [apply pres_ret|]. do 4 (apply pres_bind; [auto with pres|]; intros ?).
  apply pres_bind; [apply contract_understood; intros ip; by apply understood_verify|]. intros answer. pres_go; by apply contract_set_backup.
Qed.

Lemma contract_all_handlers now ty h job : ALL_HANDLERS now ty = Some h -> pres contract (h job).
Proof.
  unfold ALL_HANDLERS. destruct (WEBHOOK_HANDLERS now ty) as [w|] eqn:Ew.
  - intros [= <-]. revert Ew. unfold WEBHOOK_HANDLERS. case_decide; intros [= <-]. unfold execute_deliver_webhook. pres_go.
  - destruct (BACKUP_HANDLERS now ty) as [b|] eqn:Eb; [|apply contract_handlers].
    intros [= <-]. revert Eb. unfold BACKUP_HANDLERS. repeat case_decide; intros [= <-];
      [apply contract_backup_database|apply contract_restore_database|apply contract_verify_backup].
Qed.
Lemma contract_terminal now ty h job : TERMINAL_FAILURE_HANDLERS now ty = Some h -> pres contract (h job).
Proof.
  intros [-> | [-> | ->]]%terminal_cases;
    [unfold mark_database_failed|unfold mark_backup_failed|unfold mark_webhook_delivery_failed]; pres_go;
    first [by apply contract_set_database | by apply contract_set_backup].
Qed.
Lemma contract_run_once now : pres contract (cp_run_once str_exn now).
Proof.
  unfold cp_run_once, run_once. apply pres_bind.
  { apply pres_atomic. unfold claim_next_job. pres_go. }
  intros [id|]; [|apply pres_ret]. apply pres_bind; [|auto with pres].
  apply pres_atomic, pres_bind; [auto with pres|]. intros j. apply pres_try.
  - destruct (ALL_HANDLERS now (job_type j)) as [h|] eqn:E; [|apply pres_raise].
    change (pres contract (r ← h id; mark_succeeded now id r)).
    apply pres_bind; [by eapply contract_all_handlers|]. intros r. apply contract_set_core.
  - intros e k [= <-]. unfold mark_failed_or_retry. pres_go. by eapply contract_terminal.
Qed.

(** *** Requests *)

Lemma contract_current_user now credentials : pres contract (get_current_user now credentials).
Proof. apply pres_get_current_user. intros s k. by apply contract_frame. Qed.
Lemma contract_org_request {A} now credentials o (m : uuid * User -> Membership -> M Cp A) :
  (forall u ms, pres contract (m u ms)) -> pres contract (org_request now credentials o m).
Proof.
  intros Hm. unfold org_request. apply pres_bind; [apply contract_current_user|]. intros u.
  apply contract_transaction, pres_bind; [apply pres_get_membership|]. intros ms. apply Hm.
Qed.
Lemma contract_session_request {A} now credentials (m : uuid * User -> M Cp A) :
  (forall u, pres contract (m u)) -> pres contract (session_request now credentials m).
Proof.
  intros Hm. unfold session_request. apply pres_bind; [apply contract_current_user|]. intros u. by apply contract_transaction.
Qed.
#[local] Hint Resolve contract_current_user pres_require_permission pres_require_active_subscription pres_get_project_or_404
  pres_get_database_or_404 pres_check_database_quota pres_fits_on_node pres_running_database pres_role_of : pres.

Lemma contract_platform_admin user : pres contract (require_platform_admin user).
Proof. unfold require_platform_admin. pres_go. Qed.

Lemma contract_database_request now credentials org call : pres contract (database_request now credentials org call).
Proof.
  apply contract_org_request. intros u ms. destruct call as [suffix p x|p id|p id|p id|p id cpu ram sto|p id c]; simpl.
  - unfold create_database. pres_go; [|apply contract_add_database; by eexists].
    apply pres_try; [auto with pres|]. intros e k. case_decide; intros [= <-]. apply pres_raise.
  - unfold delete_database. pres_go; by apply contract_set_database.
  - unfold suspend_database. pres_go; by apply contract_set_database.
  - unfold resume_database. pres_go; by apply contract_set_database.
  - apply pres_bind; [|auto with pres]. unfold resize_database.
    apply pres_bind_run; [auto with pres|]. intros s t [] Hs [Hv ->]%require_Ret. revert s Hs.
    match goal with |- forall s, contract s -> contract (?m s).1 => change (pres contract m) end.
    assert (0 <= cpu * CONNECTIONS_PER_CPU) as Hz.
    { unfold valid_size in Hv. unfold CONNECTIONS_PER_CPU. rewrite !andb_true_iff in Hv. lia. }
    do 2 (apply pres_bind; [auto with pres|]; intros ?). eapply learn_bind; [auto with pres|apply learn_database_or_404|].
    intros d Hd. pose proof (named_fit _ Hd) as Hn. do 4 (apply pres_bind; [auto with pres|]; intros ?).
    apply pres_bind; [apply contract_agent_request, contract_understood; intros ip; by apply understood_limit|]. intros _.
    apply pres_bind; [by apply contract_set_database|pres_go].
  - unfold get_database_connection. pres_go.
Qed.
Lemma contract_migrate_request now credentials database target : pres contract (migrate_request now credentials database target).
Proof.
  unfold migrate_request. apply pres_bind; [auto with pres|]. intros u. apply contract_transaction, pres_bind; [apply contract_platform_admin|].
  intros _. unfold migrate_database. pres_go; by apply contract_set_database.
Qed.
Lemma contract_backup_request now credentials org call : pres contract (backup_request now credentials org call).
Proof.
  apply contract_org_request. intros u ms. destruct call as [p d|suffix p d b name|p d e f r]; simpl.
  - unfold create_backup. pres_go.
  - unfold restore_backup. pres_go. apply contract_add_database. by eexists.
  - unfold set_backup_policy. pres_go. by apply contract_set_database.
Qed.

(** *** Failovers *)

Lemma contract_probe m : pres contract (probe m).
Proof.
  unfold probe. apply pres_bind; [auto with pres|]. intros node. apply pres_try.
  - apply pres_bind; [apply contract_understood; intros ip; apply understood_status|]. intros ?. apply pres_ret.
  - intros e k. case_decide; intros [= <-]. apply pres_ret.
Qed.
Lemma contract_probe_all ms : pres contract (probe_all ms).
Proof. induction ms as [|m ms IH]; simpl; [apply pres_ret|]. pres_go. apply contract_probe. Qed.
Lemma contract_repoint c n : pres contract (modify (fun s => s <| databases ::= fmap (repoint c n) |>)).
Proof.
  apply pres_modify. intros s [C1 C2 C3 C4]. split; try done. intros k d Hk.
  change ((repoint c n <$> databases s) !! k = Some d) in Hk. rewrite lookup_fmap in Hk. apply fmap_Some in Hk as (d0 & Hd & ->).
  destruct (C2 _ _ Hd) as [u Hu]. exists u. unfold repoint. by destruct (runs_on c d0).
Qed.
Lemma contract_execute_failover now c automatic : pres contract (execute_failover now c automatic).
Proof.
  unfold execute_failover. do 3 (apply pres_bind; [auto with pres|]; intros ?). cbv zeta.
  apply pres_bind; [auto with pres|]. intros _. apply pres_bind; [apply contract_probe_all|]. intros candidates.
  apply pres_bind; [auto with pres|]. intros [[m n] lag].
  apply pres_bind; [apply contract_understood; intros ip; apply understood_promote|]. intros _.
  apply pres_bind; [auto with pres|]. intros _. apply pres_bind; [pres_go; same|]. intros _.
  apply pres_bind; [auto with pres|]. intros dbs. apply pres_bind; [apply contract_repoint|pres_go].
Qed.
Lemma contract_cluster_handle now credentials call : pres contract (cluster_handle now credentials call).
Proof.
  destruct call as [c n|c]; simpl; (apply pres_bind; [|auto with pres]); unfold admin_request, admin_user_request;
    (apply pres_bind; [auto with pres|]; intros u); apply contract_transaction, pres_bind; try apply contract_platform_admin; intros _.
  - unfold attach_replica. pres_go. apply pres_try.
    + unfold add_replica, add_member_row. apply pres_bind; [apply contract_understood; intros ip; apply understood_status|]. pres_go. same.
    + intros e k. destruct e; intros [= <-]; apply pres_raise.
  - unfold trigger_failover. pres_go. apply pres_try; [apply contract_execute_failover|].
    intros e k. case_decide; intros [= <-]. apply pres_raise.
Qed.
Lemma contract_check_clusters now cs : pres contract (check_clusters now cs).
Proof.
  induction cs as [|c cs IH]; simpl; [apply pres_ret|]. apply pres_bind; [|pres_go]. apply contract_transaction.
  unfold check_cluster. pres_go. apply pres_try.
  - apply pres_bind; [apply contract_execute_failover|pres_go].
  - intros e k. case_decide; intros [= <-]. pres_go.
Qed.

(** *** The scheduler *)

Lemma contract_due_backups now : pres contract (enqueue_due_backups now).
Proof. apply contract_transaction, pres_bind; [auto with pres|]. intros dbs. apply pres_count_each. pres_go. Qed.
Lemma contract_due_verifications now : pres contract (enqueue_due_verifications now).
Proof. apply contract_transaction. cbv zeta. apply pres_bind; [auto with pres|]. intros dbs. apply pres_count_each. pres_go. Qed.
Lemma contract_purge_backup d kb : pres contract (purge_backup d kb).
Proof.
  unfold purge_backup. apply pres_bind.
  - destruct (db_cluster_id d); [|apply pres_ret]. apply pres_try.
    + apply pres_bind; [auto with pres|]. intros node. apply pres_bind; [|auto with pres].
      apply contract_understood. intros ip. apply understood_delete_object.
    + intros e k. case_decide; intros [= <-]. apply pres_ret.
  - intros b. destruct b; pres_go. by apply contract_set_backup.
Qed.
Lemma contract_purge now : pres contract (purge_expired_automatic_backups now).
Proof.
  apply contract_transaction, pres_bind; [auto with pres|]. intros dbs. induction dbs as [|kd dbs IH]; simpl; [apply pres_ret|].
  apply pres_bind; [|pres_go]. unfold purge_database. destruct (policy_retention_days _); [|apply pres_ret].
  destruct (_ =? _); [apply pres_ret|]. apply pres_bind; [auto with pres|]. intros bs. apply pres_count_each. intros x _. apply contract_purge_backup.
Qed.
Lemma contract_meter now : pres contract (meter_usage now).
Proof.
  apply contract_transaction. eapply (learn_bind _ _ (fun dbs => Forall (fun kd => named kd.2) dbs)); [auto with pres| |].
  - intros s t dbs Hs [-> ->]%gets_Ret. apply Forall_forall. intros [k d] [Hk _]%elem_of_select. exact (ct_databases _ Hs _ _ Hk).
  - intros dbs Hd. rewrite Forall_forall in Hd. apply pres_count_each. intros kd Hin. pose proof (named_fit _ (Hd _ Hin)) as Hn.
    unfold meter_database. apply pres_bind; [|intros [p|]; unfold as_int, add_usage; pres_go; same]. apply pres_try.
    + apply pres_bind; [auto with pres|]. intros node. apply pres_bind; [|pres_go].
      apply contract_understood. intros ip. by apply understood_metrics.
    + intros e k. destruct e; intros [= <-]; apply pres_ret.
Qed.
Lemma contract_notify_owner o ty data : pres contract (notify_owner o ty data).
Proof. apply pres_notify_owner. intros s l. by apply contract_frame. Qed.
#[local] Hint Resolve contract_notify_owner : pres.
Lemma contract_invoices now : pres contract (generate_due_invoices now).
Proof.
  apply contract_transaction, pres_bind; [auto with pres|]. intros due. apply pres_count_each. intros x _.
  unfold bill_subscription, compute_invoice_for_subscription, set_subscription, add_line_item, notify_subscription_suspended,
    notify_invoice_created. pres_go; same.
Qed.
Lemma contract_tick now : pres contract (tick now).
Proof.
  apply tick_keeps; [apply contract_due_backups|apply contract_due_verifications|apply contract_purge| |apply contract_meter|apply contract_invoices].
  unfold check_and_failover_unhealthy_clusters. apply pres_bind; [auto with pres|]. intros cs. apply contract_check_clusters.
Qed.

(** *** Organizations, bills, nodes and accounts *)

Lemma contract_org_handle now credentials call : pres contract (org_handle now credentials call).
Proof.
  destruct call as [name slug|o email role|o u|o name slug|o p]; simpl.
  - apply pres_bind; [|auto with pres]. unfold create_organization_request. apply pres_bind; [auto with pres|]. intros user.
    apply contract_transaction. unfold create_organization, add_organization, add_membership, add_subscription. pres_go; same.
  - apply pres_bind; [|auto with pres]. apply contract_org_request. intros u ms. unfold add_member, add_membership. pres_go; same.
  - apply contract_org_request. intros v ms. unfold remove_member. pres_go; same.
  - apply pres_bind; [|auto with pres]. apply contract_org_request. intros u ms. unfold create_project. pres_go; same.
  - apply contract_org_request. intros u ms. unfold delete_project. pres_go; same.
Qed.

Lemma contract_mark_paid now i provider reference : pres contract (mark_invoice_paid now i provider reference).
Proof.
  unfold mark_invoice_paid, set_invoice, notify_invoice_paid, reactivate_if_current, set_subscription,
    notify_subscription_reactivated. pres_go; same.
Qed.
Lemma contract_set_payment id f : pres contract (set_payment id f).
Proof. same. Qed.
#[local] Hint Resolve contract_mark_paid contract_set_payment : pres.
Lemma contract_finalize now payment : pres contract (finalize_payment now payment).
Proof. unfold finalize_payment. pres_go. Qed.
Lemma contract_fail payment provider : pres contract (fail_payment payment provider).
Proof. unfold fail_payment, notify_payment_failed. pres_go. Qed.
#[local] Hint Resolve contract_finalize contract_fail : pres.
Lemma contract_webhook_endpoint signature handler : (forall x, pres contract (handler x)) -> pres contract (webhook_endpoint signature handler).
Proof.
  intros Hh. unfold webhook_endpoint. destruct signature as [[|c x]|]; try apply pres_raise. apply contract_transaction, pres_try; [apply Hh|].
  intros e k. destruct e; intros [= <-]; apply pres_raise.
Qed.
Lemma contract_admin_user_request {A} now credentials (m : uuid * User -> M Cp A) :
  (forall u, pres contract (m u)) -> pres contract (admin_user_request now credentials m).
Proof.
  intros Hm. unfold admin_user_request. apply pres_bind; [auto with pres|]. intros u.
  apply contract_transaction, pres_bind; [apply contract_platform_admin|]. intros _. apply Hm.
Qed.
Lemma contract_billing_handle now credentials call : pres contract (billing_handle now credentials call).
Proof.
  destruct call as [call| | |name quotas pricing|o plan|o i|o i c|o i mode phone|signature body|signature body]; simpl.
  - apply contract_org_handle.
  - apply pres_bind; [apply contract_invoices|auto with pres].
  - apply pres_bind; [apply contract_meter|auto with pres].
  - apply pres_bind; [|auto with pres]. apply contract_admin_user_request. intros u. unfold create_plan. pres_go. same.
  - apply pres_bind; [|auto with pres]. apply contract_org_request. intros u ms.
    unfold update_subscription, set_subscription, notify_subscription_changed, get_subscription_or_404. pres_go; same.
  - apply contract_org_request. intros u ms. unfold pay_invoice, pay_invoice_manually, get_finalized_invoice_or_404. pres_go.
  - apply pres_bind; [|auto with pres]. apply contract_org_request. intros u ms.
    unfold pay_invoice_with_crypto, initiate_crypto_payment, get_finalized_invoice_or_404, add_payment. pres_go; same.
  - apply pres_bind.
    + apply contract_org_request. intros u ms.
      unfold pay_invoice_with_mobile_money, initiate_mobile_money_payment, get_finalized_invoice_or_404, add_payment. pres_go; same.
    + intros p. apply contract_transaction, pres_try; [unfold charge_mobile_money; pres_go|].
      intros e k. destruct e; intros [= <-]; auto with pres.
  - apply contract_webhook_endpoint. intros x. unfold handle_nowpayments_webhook. pres_go.
  - apply contract_webhook_endpoint. intros x. unfold handle_fedapay_webhook. pres_go.
Qed.

Lemma contract_node_handle now credentials call : pres contract (node_handle now credentials call).
Proof.
  destruct call as [p|code minutes|node|node|code]; simpl.
  - apply pres_bind; [|auto with pres]. apply contract_transaction. unfold register_node, set_token, add_node. pres_go; same.
  - apply pres_bind; [|auto with pres]. apply contract_admin_user_request. intros u. unfold create_registration_token. pres_go. same.
  - apply contract_transaction. unfold get_authenticated_node, set_node. pres_go. same.
  - apply pres_bind; [|auto with pres]. apply contract_admin_user_request. intros u. unfold health_check. pres_go.
    apply pres_try; [|intros e k; case_decide; intros [= <-]; apply pres_ret].
    apply pres_bind; [|auto with pres]. apply contract_understood. intros ip. apply understood_health.
  - apply pres_bind; [|auto with pres]. apply contract_admin_user_request. intros u. unfold create_region. pres_go. same.
Qed.

Lemma contract_account_handle now credentials call : pres contract (account_handle now credentials call).
Proof.
  assert (forall id f, pres contract (set_user id f)) as Hset by (intros; same).
  assert (forall u, pres contract (add_user u)) as Hadd by (intros; unfold add_user; pres_go; same).
  assert (forall u ty data, pres contract (notify u ty data)) as Hnotify by (intros; unfold notify; pres_go; same).
  destruct call; simpl.
  - apply pres_bind; [|auto with pres]. unfold register, notify_welcome. pres_go.
  - apply pres_bind; [|auto with pres]. unfold login, otp_ok. pres_go.
  - apply pres_bind; [|auto with pres]. apply contract_transaction. unfold handle_callback, notify_welcome, add_oauth_account. pres_go; same.
  - apply contract_session_request. intros u. unfold revoke_all_sessions. pres_go.
  - apply pres_bind; [|auto with pres]. apply contract_session_request. intros u. unfold enable_mfa. pres_go.
  - apply contract_session_request. intros u. unfold verify_mfa. pres_go.
  - apply pres_bind; [|auto with pres]. apply contract_org_request. intros u ms. unfold create_api_key, add_api_key. pres_go; same.
  - apply contract_org_request. intros u ms. unfold revoke_api_key. pres_go. same.
  - apply contract_session_request. intros u. unfold mark_notification_read. pres_go. same.
Qed.

Lemma scope_value_role scope : scope <> SCOPE_ADMIN -> scope_value scope ∈ ROLE_SCOPES.
Proof. intros H. apply (bool_decide_unpack _). by destruct scope. Qed.
Lemma contract_create_role suffix o p id name scope user ms : pres contract (create_role suffix o p id name scope user ms).
Proof.
  unfold create_role. do 2 (apply pres_bind; [auto with pres|]; intros ?).
  eapply learn_bind; [auto with pres|apply learn_running|]. intros d Hd. pose proof (named_fit _ Hd) as Hn.
  apply pres_bind_run; [auto with pres|]. intros s t [] Hs [Hv%negb_true_iff%bool_decide_eq_false ->]%require_Ret. revert s Hs.
  match goal with |- forall s, contract s -> contract (?m s).1 => change (pres contract m) end. cbv zeta.
  pose proof (scope_value_role scope Hv) as Hscope. pose proof (fit_role suffix) as Hr.
  eapply learn_bind; [auto with pres|apply learn_token|]. intros pw [Hp Hpf]. apply pres_bind; [auto with pres|]. intros node.
  apply pres_bind; [apply contract_agent_request, contract_understood; intros ip; by apply understood_create_role|]. intros _.
  pres_go. apply pres_modify. intros s [C1 C2 C3 C4]. split; try done. by apply map_Forall_insert_2.
Qed.
Lemma contract_delete_role o p id credential user ms : pres contract (delete_role o p id credential user ms).
Proof.
  unfold delete_role. do 3 (apply pres_bind; [auto with pres|]; intros ?).
  eapply learn_bind; [auto with pres|apply learn_database_or_404|]. intros d Hd. pose proof (named_fit _ Hd) as Hn.
  eapply learn_bind; [auto with pres|apply learn_role|]. intros c [Hr Hp]. do 2 (apply pres_bind; [auto with pres|]; intros ?).
  apply pres_bind; [apply contract_agent_request, contract_understood; intros ip; by apply understood_delete_role|]. intros _.
  pres_go. apply pres_modify. intros s [C1 C2 C3 C4]. split; try done. by apply map_Forall_delete.
Qed.
Lemma contract_rotate_role now o p id credential user ms : pres contract (rotate_role now o p id credential user ms).
Proof.
  unfold rotate_role. do 3 (apply pres_bind; [auto with pres|]; intros ?).
  eapply learn_bind; [auto with pres|apply learn_database_or_404|]. intros d Hd. pose proof (named_fit _ Hd) as Hn.
  eapply learn_bind; [auto with pres|apply learn_role|]. intros c [Hr Hp].
  eapply learn_bind; [auto with pres|apply learn_token|]. intros pw [Hpw Hpf]. apply pres_bind; [auto with pres|]. intros node.
  apply pres_bind; [apply contract_agent_request, contract_understood; intros ip; by apply understood_rotate|]. intros _.
  pres_go. apply pres_modify. intros s [C1 C2 C3 C4]. split; try done. intros k x Hk.
  change (alter (fun c => c <| cr_encrypted_password := encrypt_secret pw |> <| cr_rotated_at := Some now |>) credential (credentials s) !! k = Some x) in Hk.
  apply lookup_alter_Some in Hk as [(-> & c0 & Hc & ->)|[_ Hk]]; [|by eapply C3]. destruct (C3 _ _ Hc) as [Hf _]. by split.
Qed.
Lemma contract_ask_agent what o p d ms :
  (forall node n, fit n -> understood (mkAgentCall node "GET" ("/v1/database/" +:+ n +:+ what) ∅)) ->
  pres contract (ask_agent what o p d ms).
Proof.
  intros Hu. unfold ask_agent. apply pres_bind; [auto with pres|]. intros _. eapply learn_bind; [auto with pres|apply learn_running|].
  intros x Hd. apply pres_bind; [auto with pres|]. intros node. apply contract_understood. intros ip. by apply Hu, named_fit.
Qed.
Lemma contract_ops_request now credentials org call : pres contract (ops_request now credentials org call).
Proof.
  apply contract_org_request. intros u ms. destruct call as [suffix p d name scope|p d c|p d c|p d|p d|p d|p d name|p d name|p d q role|p d name q|p d x|url events|w]; simpl.
  - apply pres_bind; [apply contract_create_role|auto with pres].
  - apply contract_delete_role.
  - apply pres_bind; [apply contract_rotate_role|auto with pres].
  - apply pres_bind; [apply contract_ask_agent; intros; by apply understood_extensions|auto with pres].
  - apply pres_bind; [apply contract_ask_agent; intros; by apply understood_tables|auto with pres].
  - apply pres_bind; [|auto with pres]. unfold get_metrics.
    apply pres_bind; [apply contract_ask_agent; intros; by apply understood_metrics|intros r; unfold figure; pres_go].
  - unfold install_extension. apply pres_bind_run; [auto with pres|]. intros s t [] Hs [Hv ->]%require_Ret. revert s Hs.
    match goal with |- forall s, contract s -> contract (?m s).1 => change (pres contract m) end.
    do 2 (apply pres_bind; [auto with pres|]; intros ?). eapply learn_bind; [auto with pres|apply learn_running|].
    intros x Hd. pose proof (named_fit _ Hd) as Hn. apply pres_bind; [auto with pres|]. intros node.
    apply pres_bind; [apply contract_agent_request, contract_understood; intros ip; by apply understood_install|pres_go].
  - unfold drop_extension. do 2 (apply pres_bind; [auto with pres|]; intros ?). eapply learn_bind; [auto with pres|apply learn_running|].
    intros x Hd. destruct (named_fit _ Hd) as [Hn _]. apply pres_bind; [auto with pres|]. intros node.
    apply pres_bind; [|pres_go]. apply contract_agent_request, contract_call. intros ip. right. split; [done|]. by do 2 eexists.
  - unfold execute_sql. pres_go; same.
  - unfold create_saved_query. pres_go. same.
  - unfold delete_saved_query. pres_go. same.
  - unfold create_webhook. pres_go. same.
  - unfold delete_webhook. pres_go. same.
Qed.

Lemma step_contract s t : step str_exn s t -> contract s -> contract t.
Proof.
  intros H Hs. destruct H.
  - by apply contract_run_once.
  - by apply contract_tick.
  - by apply contract_org_handle.
  - by apply contract_database_request.
  - by apply contract_migrate_request.
  - by apply contract_backup_request.
  - by apply contract_cluster_handle.
  - by apply contract_node_handle.
  - by apply contract_billing_handle.
  - by apply contract_account_handle.
  - by apply contract_ops_request.
Qed.

(** ** Properties *)

End contract.

(** ** An example: the provisioning of the first database of Acme *)

#[local] Existing Instance accounts_verifier.
#[local] Existing Instance example_accounts.

Lemma first_day_contract : contract first_day.
Proof.
  split; [change (agent_log first_day) with (@nil AgentCall); constructor|..]; intros k x H; exfalso; revert H;
    [change (databases first_day) with (∅ : gmap uuid Database)|change (credentials first_day) with (∅ : gmap uuid DatabaseCredential)
    |change (backups first_day) with (∅ : gmap uuid ControlPlane.Backup)]; by rewrite lookup_empty.
Qed.


(** What the agent makes of it. *)
Example provisioning_is_routed :
  option_map call_names (agent_log served !! 0%nat ≫= route 1) =
    Some ["db_010000000000000000000000"; "u_010000000000000000000000"].
Proof. vm_compute. reflexivity. Qed.
