(* ===== verification/Reads.v ===== *)
(** * What a member of an organization can read: the [GET] endpoints below
    [/organizations/{organization_id}] in [backend/app/api/v1/endpoints/]

    Each endpoint is its guards, its query and the response model, which leaves out the
    columns that are not shown. [same_view] is the part of the database that belongs to an
    organization; whatever the rest holds, the answers are the same. The endpoints that
    pass on an answer of an agent are in DatabaseOps. *)

From S2P Require Import Prelude PyStd Queue ControlPlane Placement Platform Orchestrator Access Organizations.
From S2P Require Import Databases Backups Billing Payments DatabaseOps.

(** ** Model *)

(** *** Responses *)

Record ApiKeyResponse := mkApiKeyResponse {
  akr_name : string; akr_key_prefix : string; akr_last_used_at : option timestamp; akr_revoked_at : option timestamp }.
Record InvoiceResponse := mkInvoiceResponse {
  ivr_organization_id : uuid; ivr_period_start : timestamp; ivr_period_end : timestamp; ivr_status : InvoiceStatus;
  ivr_total_amount : money; ivr_currency : string; ivr_finalized_at : option timestamp; ivr_paid_at : option timestamp }.
Record PaymentResponse := mkPaymentResponse {
  par_invoice_id : uuid; par_provider : PaymentProviderName; par_provider_payment_id : option string; par_amount : money;
  par_currency : string; par_status : PaymentStatus; par_provider_status : option string; par_expires_at : option timestamp }.
Record BackupResponse := mkBackupResponse {
  bkr_database_id : uuid; bkr_type : BackupType; bkr_status : BackupStatus; bkr_size_bytes : option Z; bkr_error : option string;
  bkr_started_at : option timestamp; bkr_completed_at : option timestamp; bkr_verified_at : option timestamp;
  bkr_verification_detail : option string; bkr_created_at : timestamp }.
Record RoleResponse := mkRoleResponse {
  rlr_name : option string; rlr_role_name : string; rlr_scope : CredentialScope; rlr_is_primary : bool;
  rlr_rotated_at : option timestamp }.
Record QueryExecutionResponse := mkQueryExecutionResponse {
  qer_query_text : string; qer_status : string; qer_row_count : option Z; qer_error : option string }.
Record SavedQueryResponse := mkSavedQueryResponse { sqr_name : string; sqr_query_text : string }.
Record DatabaseResponse := mkDatabaseResponse {
  dbr_project_id : uuid; dbr_region_id : uuid; dbr_cluster_id : option uuid; dbr_name : string;
  dbr_isolation_level : IsolationLevel; dbr_status : DatabaseStatus; dbr_cpu_limit : Z; dbr_ram_limit_mb : Z;
  dbr_storage_limit_gb : Z; dbr_connection_host : option string; dbr_connection_port : option Z }.
Record WebhookResponse := mkWebhookResponse {
  whr_url : string; whr_event_types : list string; whr_is_active : bool }.
Record WebhookDeliveryResponse := mkWebhookDeliveryResponse {
  wdr_event_type : string; wdr_status : WebhookDeliveryStatus; wdr_response_code : option Z; wdr_error : option string;
  wdr_delivered_at : option timestamp }.

Definition api_key_response (x : ApiKey) : ApiKeyResponse :=
  mkApiKeyResponse (ak_name x) (ak_key_prefix x) (ak_last_used_at x) (ak_revoked_at x).
Definition invoice_response (x : Invoice) : InvoiceResponse :=
  mkInvoiceResponse (iv_organization_id x) (iv_period_start x) (iv_period_end x) (iv_status x) (iv_total_amount x)
    (iv_currency x) (iv_finalized_at x) (iv_paid_at x).
Definition payment_response (x : Payment) : PaymentResponse :=
  mkPaymentResponse (pa_invoice_id x) (pa_provider x) (pa_provider_payment_id x) (pa_amount x) (pa_currency x) (pa_status x)
    (pa_provider_status x) (pa_expires_at x).
Definition backup_response (x : Backup) : BackupResponse :=
  mkBackupResponse (bk_database_id x) (bk_type x) (bk_status x) (bk_size_bytes x) (bk_error x) (bk_started_at x)
    (bk_completed_at x) (bk_verified_at x) (bk_verification_detail x) (bk_created_at x).
Definition role_response (x : DatabaseCredential) : RoleResponse :=
  mkRoleResponse (cr_display_name x) (cr_role_name x) (cr_scope x) (cr_is_primary x) (cr_rotated_at x).
Definition query_response (x : QueryExecution) : QueryExecutionResponse :=
  mkQueryExecutionResponse (qe_query_text x) (qe_status x) (qe_row_count x) (qe_error x).
Definition saved_query_response (x : SavedQuery) : SavedQueryResponse := mkSavedQueryResponse (sq_name x) (sq_query_text x).
Definition database_response (x : Database) : DatabaseResponse :=
  mkDatabaseResponse (db_project_id x) (db_region_id x) (db_cluster_id x) (db_name x) (db_isolation_level x) (db_status x)
    (db_cpu_limit x) (db_ram_limit_mb x) (db_storage_limit_gb x) (db_connection_host x) (db_connection_port x).
(** The columns that only describe a node, and its name, are left out of [Node]. *)
Record NodeResponse := mkNodeResponse {
  ndr_region_id : uuid; ndr_ip_address : option string; ndr_cpu_total : Z; ndr_ram_total_mb : Z; ndr_storage_total_gb : Z;
  ndr_agent_port : Z; ndr_postgres_port : Z; ndr_status : string; ndr_effective_status : string;
  ndr_last_heartbeat_at : option timestamp }.
Definition node_response (now : timestamp) (x : Node) : NodeResponse :=
  mkNodeResponse (nd_region_id x) (nd_ip_address x) (nd_cpu_total x) (nd_ram_total_mb x) (nd_storage_total_gb x)
    (nd_agent_port x) (nd_postgres_port x) (status_value (nd_status x)) (effective_status now x) (nd_last_heartbeat_at x).
Record ClusterMemberResponse := mkClusterMemberResponse {
  cmr_node_id : uuid; cmr_role : ClusterMemberRole; cmr_replication_lag_bytes : option Z; cmr_promoted_at : option timestamp }.
Definition member_response (x : ClusterMember) : ClusterMemberResponse :=
  mkClusterMemberResponse (cm_node_id x) (cm_role x) (cm_replication_lag_bytes x) (cm_promoted_at x).
Record ClusterResponse := mkClusterResponse {
  clr_region_id : uuid; clr_topology : ClusterTopology; clr_shared : bool; clr_status : ClusterStatus;
  clr_members : list (uuid * ClusterMemberResponse) }.
Definition webhook_response (x : Webhook) : WebhookResponse :=
  mkWebhookResponse (wh_url x) (wh_event_types x) (wh_is_active x).
Definition delivery_response (x : WebhookDelivery) : WebhookDeliveryResponse :=
  mkWebhookDeliveryResponse (wd_event_type x) (wd_status x) (wd_response_code x) (wd_error x) (wd_delivered_at x).

(** The body of an answer: rows with their ids, or one object. *)
Inductive answer :=
| Keys (l : list (uuid * ApiKeyResponse))
| TheSubscription (x : uuid * Subscription)
| Usage (period_start period_end : timestamp) (lines : list (UsageMetric * Z))
| Invoices (l : list (uuid * InvoiceResponse))
| TheInvoice (x : uuid * InvoiceResponse) (line_items : list InvoiceLineItem)
| Payments (l : list (uuid * PaymentResponse))
| Backups (l : list (uuid * BackupResponse))
| TheBackup (x : uuid * BackupResponse)
| ThePolicy (enabled : bool) (frequency_hours retention_days : Z)
| Roles (l : list (uuid * RoleResponse))
| History (l : list QueryExecutionResponse)
| SavedQueries (l : list (uuid * SavedQueryResponse))
| Databases (l : list (uuid * DatabaseResponse))
| TheDatabase (x : uuid * DatabaseResponse)
| TheOrganization (x : Organization) (role : MembershipRole)
| Members (l : list (uuid * Membership))
| Projects (l : list (uuid * Project))
| TheProject (x : uuid * Project)
| Webhooks (l : list (uuid * WebhookResponse))
| Deliveries (l : list (uuid * WebhookDeliveryResponse)).

(** *** Endpoints *)

Section reads.
Context `{Auth : Verifier}.
(** The column [created_at] of a row, set by the server. *)
Context (created_at : uuid -> timestamp).

(** [order_by(key.desc())] *)
Definition newer {A} (key : uuid * A -> timestamp) (x y : uuid * A) : Prop := key y <= key x.
#[export] Instance newer_dec {A} (key : uuid * A -> timestamp) : RelDecision (newer key).
Proof. intros x y. apply Z_le_dec. Defined.
Definition newest_first {A} (key : uuid * A -> timestamp) (l : list (uuid * A)) : list (uuid * A) :=
  merge_sort (newer key) l.
Definition by_creation {A} (x : uuid * A) : timestamp := created_at x.1.
Definition shown {A B} (f : A -> B) (l : list (uuid * A)) : list (uuid * B) := prod_map id f <$> l.

Definition list_api_keys (organization : uuid) (membership : Membership) : M Cp answer :=
  require_permission (ms_role membership) "api_key:manage";;
  l ← gets (fun s => select (fun k => bool_decide (ak_organization_id k = organization)
                                      && bool_decide (ak_revoked_at k = None)) (api_keys s));
  mret (Keys (shown api_key_response l)).

Definition get_subscription (organization : uuid) (membership : Membership) : M Cp answer :=
  require_permission (ms_role membership) "billing:read";;
  x ← get_subscription_or_404 organization;
  mret (TheSubscription x).

(** [group_by(UsageRecord.metric)] *)
Definition METRICS : list UsageMetric := [CPU_HOURS; STORAGE_GB_HOURS; CONNECTIONS; EGRESS_GB].
Definition usage_of (rs : list UsageRecord) (metric : UsageMetric) : option (UsageMetric * Z) :=
  match filter (fun u => us_metric u = metric) rs with
  | [] => None
  | l => Some (metric, sumZ (us_value <$> l))
  end.
Definition used_in (database_ids : list uuid) (period_start period_end : timestamp) (u : UsageRecord) : bool :=
  bool_decide (us_database_id u ∈ database_ids) && (period_start <=? us_period_start u) && (us_period_start u <? period_end).
Definition get_usage (organization : uuid) (membership : Membership) : M Cp answer :=
  require_permission (ms_role membership) "billing:read";;
  x ← get_subscription_or_404 organization;
  database_ids ← get_database_ids_for_organization organization;
  let period_start := su_current_period_start x.2 in
  let period_end := su_current_period_end x.2 in
  rs ← gets (fun s => filter (fun u => used_in database_ids period_start period_end u = true) (usage_records s));
  mret (Usage period_start period_end (if bool_decide (database_ids = []) then [] else omap (usage_of rs) METRICS)).

Definition list_invoices (organization : uuid) (membership : Membership) : M Cp answer :=
  require_permission (ms_role membership) "billing:read";;
  l ← gets (fun s => select (fun v => bool_decide (iv_organization_id v = organization)) (invoices s));
  mret (Invoices (shown invoice_response (newest_first (fun x => iv_period_start x.2) l))).

(** The lookup the two endpoints on an invoice share. *)
Definition invoice_or_404 (organization invoice : uuid) : M Cp Invoice :=
  o ← cp_get invoices invoice;
  v ← some_or o (HTTPException 404);
  require (bool_decide (iv_organization_id v = organization)) (HTTPException 404);;
  mret v.
Definition get_invoice (organization invoice : uuid) (membership : Membership) : M Cp answer :=
  require_permission (ms_role membership) "billing:read";;
  v ← invoice_or_404 organization invoice;
  line_items ← gets (fun s => filter (fun l => il_invoice_id l = invoice) (invoice_line_items s));
  mret (TheInvoice (invoice, invoice_response v) line_items).
Definition list_invoice_payments (organization invoice : uuid) (membership : Membership) : M Cp answer :=
  require_permission (ms_role membership) "billing:read";;
  invoice_or_404 organization invoice;;
  l ← gets (fun s => select (fun p => bool_decide (pa_invoice_id p = invoice)) (payments s));
  mret (Payments (shown payment_response (newest_first by_creation l))).

(** The two lookups the endpoints on a database share. *)
Definition database_of_project (organization project database : uuid) : M Cp Database :=
  get_project_or_404 organization project;;
  get_database_or_404 project database.

Definition list_backups (organization project database : uuid) (membership : Membership) : M Cp answer :=
  require_permission (ms_role membership) "database:observe";;
  database_of_project organization project database;;
  l ← gets (fun s => select (fun b => bool_decide (bk_database_id b = database)
                                      && negb (bool_decide (bk_status b = BK_PURGED))) (backups s));
  mret (Backups (shown backup_response (newest_first (fun x => bk_created_at x.2) l))).
Definition get_backup (organization project database backup : uuid) (membership : Membership) : M Cp answer :=
  require_permission (ms_role membership) "database:observe";;
  database_of_project organization project database;;
  o ← cp_get backups backup;
  b ← some_or o (HTTPException 404);
  require (bool_decide (bk_database_id b = database)) (HTTPException 404);;
  mret (TheBackup (backup, backup_response b)).
(** The defaults of the schema fill what the policy does not say. *)
Definition get_backup_policy (organization project database : uuid) (membership : Membership) : M Cp answer :=
  require_permission (ms_role membership) "database:observe";;
  d ← database_of_project organization project database;
  mret (ThePolicy (policy_enabled (db_backup_policy d)) (default 24 (policy_frequency_hours (db_backup_policy d)))
    (default 7 (policy_retention_days (db_backup_policy d)))).

Definition list_roles (organization project database : uuid) (membership : Membership) : M Cp answer :=
  require_permission (ms_role membership) "database:observe";;
  database_of_project organization project database;;
  l ← gets (fun s => select (fun c => bool_decide (cr_database_id c = database)) (credentials s));
  mret (Roles (shown role_response l)).

(** The executions are kept in the order of their creation. A negative [LIMIT] is an error
    of the database. *)
Definition get_history (organization project database : uuid) (limit : Z) (membership : Membership) : M Cp answer :=
  require_permission (ms_role membership) "database:observe";;
  database_of_project organization project database;;
  require (0 <=? Z.min limit 200) OperationalError;;
  l ← gets (fun s => rev (filter (fun q => qe_database_id q = database) (query_executions s)));
  mret (History (query_response <$> take (Z.to_nat (Z.min limit 200)) l)).
Definition list_saved_queries (organization project database : uuid) (membership : Membership) : M Cp answer :=
  require_permission (ms_role membership) "database:observe";;
  database_of_project organization project database;;
  l ← gets (fun s => select (fun q => bool_decide (sq_database_id q = database)) (saved_queries s));
  mret (SavedQueries (shown saved_query_response l)).

Definition list_databases (organization project : uuid) (membership : Membership) : M Cp answer :=
  require_permission (ms_role membership) "database:read";;
  get_project_or_404 organization project;;
  l ← gets (fun s => select (fun d => bool_decide (db_project_id d = project)
                                      && negb (bool_decide (db_status d = DB_DELETED))) (databases s));
  mret (Databases (shown database_response l)).
Definition get_database (organization project database : uuid) (membership : Membership) : M Cp answer :=
  require_permission (ms_role membership) "database:read";;
  d ← database_of_project organization project database;
  mret (TheDatabase (database, database_response d)).

Definition get_organization (organization : uuid) (membership : Membership) : M Cp answer :=
  o ← cp_get organizations organization;
  x ← some_or o (HTTPException 404);
  mret (TheOrganization x (ms_role membership)).
Definition list_members (organization : uuid) (membership : Membership) : M Cp answer :=
  require_permission (ms_role membership) "org:read";;
  l ← gets (fun s => select (fun m => bool_decide (ms_organization_id m = organization)) (memberships s));
  mret (Members l).
Definition list_projects (organization : uuid) (membership : Membership) : M Cp answer :=
  require_permission (ms_role membership) "project:read";;
  l ← gets (fun s => select (fun p => bool_decide (pj_organization_id p = organization)) (projects s));
  mret (Projects l).
Definition get_project (organization project : uuid) (membership : Membership) : M Cp answer :=
  require_permission (ms_role membership) "project:read";;
  p ← get_project_or_404 organization project;
  mret (TheProject (project, p)).

Definition list_webhooks (organization : uuid) (membership : Membership) : M Cp answer :=
  require_permission (ms_role membership) "webhooks:manage";;
  l ← gets (fun s => select (fun w => bool_decide (wh_organization_id w = organization)) (webhooks s));
  mret (Webhooks (shown webhook_response l)).
Definition list_deliveries (organization webhook : uuid) (membership : Membership) : M Cp answer :=
  require_permission (ms_role membership) "webhooks:manage";;
  o ← cp_get webhooks webhook;
  w ← some_or o (HTTPException 404);
  require (bool_decide (wh_organization_id w = organization)) (HTTPException 404);;
  l ← gets (fun s => select (fun x => bool_decide (wd_webhook_id x = webhook)) (webhook_deliveries s));
  mret (Deliveries (shown delivery_response (newest_first by_creation l))).

(** The reads of a user. *)
Definition list_plans : M Cp (list (uuid * Plan)) := gets (fun s => select pl_is_active (plans s)).
Definition list_regions : M Cp (list (uuid * Region)) := gets (fun s => select rg_active (regions s)).
Definition list_notifications (user : uuid) : M Cp (list (uuid * Notification)) :=
  l ← gets (fun s => select (fun n => bool_decide (nt_user_id n = user)) (notifications s));
  mret (newest_first by_creation l).
(** A membership joins the organization it names. *)
Definition list_my_organizations (user : uuid) : M Cp (list (uuid * Organization * MembershipRole)) :=
  gets (fun s => omap (fun m => (fun x => (ms_organization_id m, x, ms_role m)) <$> organizations s !! ms_organization_id m)
                   (rows (fun m => bool_decide (ms_user_id m = user)) (memberships s))).

Record JobResponse := mkJobResponse {
  jbr_type : string; jbr_status : JobStatus; jbr_attempts : Z; jbr_max_attempts : Z; jbr_error : option string;
  jbr_result : option payload; jbr_resource_type : option string; jbr_resource_id : option uuid; jbr_created_at : timestamp;
  jbr_completed_at : option timestamp }.
Definition job_response (j : Job) : JobResponse :=
  mkJobResponse (jb_type j) (Queue.status (jb_core j)) (attempts (jb_core j)) (max_attempts (jb_core j)) (error (jb_core j))
    (result (jb_core j)) (jb_resource_type j) (jb_resource_id j) (Queue.created_at (jb_core j)) (completed_at (jb_core j)).
Definition get_job (user job : uuid) : M Cp (uuid * JobResponse) :=
  o ← cp_get cp_jobs job;
  j ← some_or o (HTTPException 404);
  match jb_organization_id j with
  | Some organization =>
      table ← gets memberships;
      found ← scalar_one_or_none (rows (fun m => bool_decide (ms_organization_id m = organization)
                                          && bool_decide (ms_user_id m = user)) table);
      require (bool_decide (is_Some found)) (HTTPException 404)
  | None => mret tt
  end;;
  mret (job, job_response j).

(** *** What the administrators read of the fleet *)

Inductive fleet_answer :=
| NodesAre (l : list (uuid * NodeResponse)) | NodeIs (n : NodeResponse) | ClusterIs (c : ClusterResponse).
Inductive fleet_call := ListNodes | GetNode (node : uuid) | GetCluster (cluster : uuid).

Definition list_nodes (now : timestamp) : M Cp fleet_answer :=
  gets (fun s => NodesAre (shown (node_response now) (map_to_list (nodes s)))).
Definition get_node (now : timestamp) (node : uuid) : M Cp fleet_answer :=
  o ← cp_get nodes node;
  n ← some_or o (HTTPException 404);
  mret (NodeIs (node_response now n)).
Definition get_cluster (cluster : uuid) : M Cp fleet_answer :=
  o ← cp_get clusters cluster;
  c ← some_or o (HTTPException 404);
  members ← gets (fun s => select (fun m => bool_decide (cm_cluster_id m = cluster)) (cluster_members s));
  mret (ClusterIs (mkClusterResponse (cl_region_id c) (cl_topology c) (cl_shared c) (cl_status c) (shown member_response members))).
Definition fleet_read (now : timestamp) (call : fleet_call) : M Cp fleet_answer :=
  match call with
  | ListNodes => list_nodes now
  | GetNode node => get_node now node
  | GetCluster cluster => get_cluster cluster
  end.
Definition fleet_request (now : timestamp) (credentials : option string) (call : fleet_call) : M Cp fleet_answer :=
  admin_user_request now credentials (fun _ => fleet_read now call).

Inductive read_call :=
| ListApiKeys | GetSubscription | GetUsage | ListInvoices | GetInvoice (invoice : uuid)
| ListInvoicePayments (invoice : uuid) | ListBackups (project database : uuid) | GetBackup (project database backup : uuid)
| GetBackupPolicy (project database : uuid) | ListRoles (project database : uuid)
| GetHistory (project database : uuid) (limit : Z) | ListSavedQueries (project database : uuid)
| ListDatabases (project : uuid) | GetDatabase (project database : uuid) | GetOrganization | ListMembers | ListProjects
| GetProject (project : uuid) | ListWebhooks | ListDeliveries (webhook : uuid).

Definition read_endpoint (o : uuid) (call : read_call) (ms : Membership) : M Cp answer :=
  match call with
  | ListApiKeys => list_api_keys o ms
  | GetSubscription => get_subscription o ms
  | GetUsage => get_usage o ms
  | ListInvoices => list_invoices o ms
  | GetInvoice i => get_invoice o i ms
  | ListInvoicePayments i => list_invoice_payments o i ms
  | ListBackups p d => list_backups o p d ms
  | GetBackup p d b => get_backup o p d b ms
  | GetBackupPolicy p d => get_backup_policy o p d ms
  | ListRoles p d => list_roles o p d ms
  | GetHistory p d limit => get_history o p d limit ms
  | ListSavedQueries p d => list_saved_queries o p d ms
  | ListDatabases p => list_databases o p ms
  | GetDatabase p d => get_database o p d ms
  | GetOrganization => get_organization o ms
  | ListMembers => list_members o ms
  | ListProjects => list_projects o ms
  | GetProject p => get_project o p ms
  | ListWebhooks => list_webhooks o ms
  | ListDeliveries w => list_deliveries o w ms
  end.
(** The request of a caller who is authenticated. *)
Definition member_read (o user : uuid) (call : read_call) : M Cp answer :=
  transaction (membership ← get_membership o user; read_endpoint o call membership).
Definition read_request (now : timestamp) (credentials : option string) (o : uuid) (call : read_call) : M Cp answer :=
  user ← get_current_user now credentials; member_read o user.1 call.
End reads.

(** *** What belongs to an organization *)

Definition owned_database (o : uuid) (s : Cp) (id : uuid) : Prop :=
  match databases s !! id with Some d => in_organization s o d = true | None => False end.
#[export] Instance owned_database_dec o s id : Decision (owned_database o s id).
Proof. unfold owned_database. destruct (databases s !! id); apply _. Defined.
Definition owned_invoice (o : uuid) (s : Cp) (id : uuid) : Prop :=
  exists v, invoices s !! id = Some v /\ iv_organization_id v = o.
Definition owned_webhook (o : uuid) (s : Cp) (id : uuid) : Prop :=
  exists w, webhooks s !! id = Some w /\ wh_organization_id w = o.

(** The rows with [P] are the same. *)
Definition same_rows {V} (P : V -> Prop) (m m' : gmap uuid V) : Prop :=
  forall k v, P v -> m !! k = Some v <-> m' !! k = Some v.
Definition same_logs {V} (key : V -> uuid) (own : uuid -> Prop) (l l' : list V) : Prop :=
  forall id, own id -> filter (fun v => key v = id) l = filter (fun v => key v = id) l'.

Record same_view (o : uuid) (s t : Cp) : Prop := {
  sv_organization : organizations s !! o = organizations t !! o;
  sv_memberships : same_rows (fun m => ms_organization_id m = o) (memberships s) (memberships t);
  sv_api_keys : same_rows (fun k => ak_organization_id k = o) (api_keys s) (api_keys t);
  sv_subscriptions : same_rows (fun x => su_organization_id x = o) (subscriptions s) (subscriptions t);
  sv_projects : same_rows (fun p => pj_organization_id p = o) (projects s) (projects t);
  sv_invoices : same_rows (fun v => iv_organization_id v = o) (invoices s) (invoices t);
  sv_webhooks : same_rows (fun w => wh_organization_id w = o) (webhooks s) (webhooks t);
  sv_databases : same_rows (fun d => in_organization s o d = true) (databases s) (databases t);
  sv_backups : same_rows (fun b => owned_database o s (bk_database_id b)) (backups s) (backups t);
  sv_credentials : same_rows (fun c => owned_database o s (cr_database_id c)) (credentials s) (credentials t);
  sv_saved_queries : same_rows (fun q => owned_database o s (sq_database_id q)) (saved_queries s) (saved_queries t);
  sv_payments : same_rows (fun p => owned_invoice o s (pa_invoice_id p)) (payments s) (payments t);
  sv_deliveries : same_rows (fun x => owned_webhook o s (wd_webhook_id x)) (webhook_deliveries s) (webhook_deliveries t);
  sv_line_items : same_logs il_invoice_id (owned_invoice o s) (invoice_line_items s) (invoice_line_items t);
  sv_history : same_logs qe_database_id (owned_database o s) (query_executions s) (query_executions t);
  sv_usage : filter (fun u => owned_database o s (us_database_id u)) (usage_records s)
    = filter (fun u => owned_database o s (us_database_id u)) (usage_records t);
}.

(** An answer is the same up to the order of rows whose keys tie, or that are in none. *)
Definition same_answer (a b : answer) : Prop :=
  match a, b with
  | Keys l, Keys l' => l ≡ₚ l'
  | Invoices l, Invoices l' => l ≡ₚ l'
  | Payments l, Payments l' => l ≡ₚ l'
  | Backups l, Backups l' => l ≡ₚ l'
  | Roles l, Roles l' => l ≡ₚ l'
  | SavedQueries l, SavedQueries l' => l ≡ₚ l'
  | Databases l, Databases l' => l ≡ₚ l'
  | Members l, Members l' => l ≡ₚ l'
  | Projects l, Projects l' => l ≡ₚ l'
  | Webhooks l, Webhooks l' => l ≡ₚ l'
  | Deliveries l, Deliveries l' => l ≡ₚ l'
  | _, _ => a = b
  end.
Definition same_outcome {A} (R : A -> A -> Prop) (x y : outcome A) : Prop :=
  match x, y with
  | Ret a, Ret b => R a b
  | Exc e, Exc e' => e = e'
  | _, _ => False
  end.

(** ** Lemmas *)

Lemma same_answer_refl a : same_answer a a.
Proof. destruct a; simpl; reflexivity. Qed.

(** [agree R m m']: [m] in [s] and [m'] in [t] change nothing and end alike. *)
Section agree.
Context (s t : Cp).

Definition agree {A} (R : A -> A -> Prop) (m m' : M Cp A) : Prop :=
  (m s).1 = s /\ (m' t).1 = t /\ same_outcome R (m s).2 (m' t).2.

Lemma agree_bind {A B} (R : A -> A -> Prop) (R' : B -> B -> Prop) m m' f f' :
  agree R m m' -> (forall a b, R a b -> agree R' (f a) (f' b)) -> agree R' (m ≫= f) (m' ≫= f').
Proof.
  intros (Hs & Ht & Ho) Hf. unfold agree, mbind, M_bind. destruct (m s) as [s' [a|e]], (m' t) as [t' [b|e']];
    simpl in Hs, Ht, Ho; subst; [by apply Hf|done..].
Qed.
Lemma agree_ret {A} (R : A -> A -> Prop) a b : R a b -> agree R (mret a) (mret b).
Proof. done. Qed.
Lemma agree_gets {A} (R : A -> A -> Prop) f f' : R (f s) (f' t) -> agree R (gets f) (gets f').
Proof. done. Qed.
Lemma agree_require b e : agree eq (require b e) (require b e).
Proof. by destruct b. Qed.
Lemma agree_some_or {A} (x : option A) e : agree eq (some_or x e) (some_or x e).
Proof. by destruct x. Qed.
Lemma agree_lift {A} (x : outcome A) : agree eq (lift_outcome x) (lift_outcome x).
Proof. by destruct x. Qed.
Lemma agree_permission role action : agree eq (require_permission role action) (require_permission role action).
Proof.
  apply (agree_bind eq); [apply agree_lift|]. intros b ? <-. apply agree_require.
Qed.
Lemma agree_one {A} (l l' : list A) : l ≡ₚ l' -> agree eq (scalar_one_or_none l) (scalar_one_or_none l').
Proof.
  intros H. destruct l as [|x [|y l]].
  - by apply Permutation_nil_l in H as <-.
  - by apply Permutation_singleton_l in H as <-.
  - apply Permutation_length in H. by destruct l' as [|x' [|y' l']].
Qed.
Lemma agree_transaction {A} (R : A -> A -> Prop) m m' : agree R m m' -> agree R (transaction m) (transaction m').
Proof.
  unfold agree, transaction. destruct (m s) as [s' x], (m' t) as [t' y]. simpl. intros (-> & -> & Ho).
  destruct x, y; simpl in *; try done. split_and!; [by destruct s|by destruct t|done].
Qed.

(** A row that is read by its id, and that the caller must own. *)
Lemma agree_owned {V B} (R : B -> B -> Prop) (P : V -> Prop) `{forall v, Decision (P v)} (table : Cp -> gmap uuid V)
    id e (f f' : V -> M Cp B) :
  same_rows P (table s) (table t) ->
  (forall v, P v -> table s !! id = Some v -> table t !! id = Some v -> agree R (f v) (f' v)) ->
  agree R (o ← cp_get table id; v ← some_or o e; require (bool_decide (P v)) e;; f v)
          (o ← cp_get table id; v ← some_or o e; require (bool_decide (P v)) e;; f' v).
Proof.
  intros Hrows Hf.
  assert (forall v, table s !! id = Some v \/ table t !! id = Some v -> P v ->
    table s !! id = Some v /\ table t !! id = Some v) as Hboth.
  { intros v Hv HP. specialize (Hrows id v HP). tauto. }
  unfold agree, mbind, M_bind, cp_get, gets, some_or.
  destruct (table s !! id) as [v|] eqn:Es, (table t !! id) as [w|] eqn:Et; try done;
    unfold mret, M_ret, require, raise;
    repeat case_bool_decide; try done.
  all: try (destruct (Hboth v (or_introl eq_refl)) as [? ?]; [done|]; simplify_eq; first [done|by apply Hf]).
  all: try (destruct (Hboth w (or_intror eq_refl)) as [? ?]; [done|]; simplify_eq; first [done|by apply Hf]).
Qed.
End agree.

(** Queries over the rows of the organization. *)
Lemma select_agree {V} (P : V -> Prop) (Q Q' : V -> bool) (m m' : gmap uuid V) :
  same_rows P m m' -> (forall v, Q v = true -> P v) -> (forall v, P v -> Q v = Q' v) -> (forall v, Q' v = true -> P v) ->
  select Q m ≡ₚ select Q' m'.
Proof.
  intros Hrows HQ Hsame HQ'.
  apply NoDup_Permutation; [apply NoDup_fmap_1 with fst, NoDup_select..|]. intros [k v]. rewrite !elem_of_select. split.
  - intros [Hk Hv]. pose proof (HQ v Hv) as HP. rewrite <- (Hsame v HP). by rewrite <- (Hrows k v HP).
  - intros [Hk Hv]. pose proof (HQ' v Hv) as HP. rewrite (Hsame v HP). by rewrite (Hrows k v HP).
Qed.
Lemma select_agree_weaker {V} (P : V -> Prop) (Q : V -> bool) (m m' : gmap uuid V) :
  same_rows P m m' -> (forall v, Q v = true -> P v) -> select Q m ≡ₚ select Q m'.
Proof. intros Hrows HQ. by apply (select_agree P). Qed.
Lemma newest_first_agree {A} key (l l' : list (uuid * A)) : l ≡ₚ l' -> newest_first key l ≡ₚ newest_first key l'.
Proof. unfold newest_first. intros H. by rewrite !merge_sort_Permutation. Qed.
#[local] Hint Resolve newest_first_agree : core.

Lemma in_organization_agree o s t d :
  same_rows (fun p => pj_organization_id p = o) (projects s) (projects t) -> in_organization s o d = in_organization t o d.
Proof.
  intros Hp. unfold in_organization. destruct (projects s !! db_project_id d) as [p|] eqn:Es,
    (projects t !! db_project_id d) as [q|] eqn:Et; try done; repeat case_bool_decide; try done; subst.
  - apply (Hp _ p) in Es; [|done]. congruence.
  - apply (Hp _ q) in Et; [|done]. congruence.
  - apply (Hp _ p) in Es; [|done]. congruence.
  - apply (Hp _ q) in Et; [|done]. congruence.
Qed.

(** *** The endpoints *)

Section noninterference.
Context (created_at : uuid -> timestamp) (o : uuid) (s t : Cp) (View : same_view o s t).

Lemma agree_project {B} (R : B -> B -> Prop) project f f' :
  (forall p, projects s !! project = Some p -> pj_organization_id p = o -> agree s t R (f p) (f' p)) ->
  agree s t R (p ← get_project_or_404 o project; f p) (p ← get_project_or_404 o project; f' p).
Proof.
  intros Hf. apply (agree_bind _ _ (fun p q => p = q /\ projects s !! project = Some p /\ pj_organization_id p = o)).
  - apply (agree_owned s t _ (fun p => pj_organization_id p = o) projects); [apply View|]. intros p Hp Hs _. by apply agree_ret.
  - intros p ? (<- & Hs & Ho). by apply Hf.
Qed.

Lemma agree_database {B} (R : B -> B -> Prop) project database f f' :
  (forall d, databases s !! database = Some d -> owned_database o s database -> agree s t R (f d) (f' d)) ->
  agree s t R (d ← database_of_project o project database; f d) (d ← database_of_project o project database; f' d).
Proof.
  intros Hf.
  apply (agree_bind _ _ (fun d d' => d = d' /\ databases s !! database = Some d /\ owned_database o s database)).
  - apply agree_project. intros p Hp Ho.
    assert (forall d, db_project_id d = project -> in_organization s o d = true) as Hin.
    { intros d <-. by eapply in_organization_project. }
    apply (agree_owned s t _ (fun d => db_project_id d = project) databases).
    + intros k d Hd. apply (sv_databases _ _ _ View). by apply Hin.
    + intros d Hd Hs _. apply agree_ret. split_and!; [done..|]. unfold owned_database. rewrite Hs. by apply Hin.
  - intros d ? (<- & Hs & Ho). by apply Hf.
Qed.

Lemma agree_subscription :
  agree s t eq (get_subscription_or_404 o) (get_subscription_or_404 o).
Proof.
  apply (agree_bind _ _ (fun m m' => m = subscriptions s /\ m' = subscriptions t)); [by apply agree_gets|].
  intros ? ? [-> ->]. apply (agree_bind _ _ eq); [|intros x ? <-; apply agree_some_or].
  apply agree_one, (select_agree_weaker (fun x => su_organization_id x = o)); [apply View|].
  intros v Hv. by apply bool_decide_eq_true in Hv.
Qed.

Lemma agree_membership user : agree s t eq (get_membership o user) (get_membership o user).
Proof.
  apply (agree_bind _ _ (fun m m' => m = memberships s /\ m' = memberships t)); [by apply agree_gets|].
  intros ? ? [-> ->]. apply (agree_bind _ _ eq); [|intros x ? <-; apply agree_some_or].
  apply agree_one. unfold rows. f_equiv. apply (select_agree_weaker (fun m => ms_organization_id m = o)); [apply View|].
  intros v Hv. by apply andb_true_iff in Hv as [?%bool_decide_eq_true _].
Qed.

(** The last step of a list: the query, then the response. *)
Lemma agree_rows {V} (P : V -> Prop) (Q : V -> bool) (table : Cp -> gmap uuid V) (body : list (uuid * V) -> answer) :
  same_rows P (table s) (table t) -> (forall v, Q v = true -> P v) ->
  (forall l l', l ≡ₚ l' -> same_answer (body l) (body l')) ->
  agree s t same_answer (l ← gets (fun s => select Q (table s)); mret (body l))
                        (l ← gets (fun s => select Q (table s)); mret (body l)).
Proof.
  intros Hrows HQ HC. apply (agree_bind _ _ (≡ₚ)).
  - apply agree_gets. by apply (select_agree_weaker P).
  - intros l l' Hl. apply agree_ret. by apply HC.
Qed.

Lemma agree_ids :
  agree s t (fun l l' => l ≡ₚ l' /\ forall id, id ∈ l <-> owned_database o s id)
    (get_database_ids_for_organization o) (get_database_ids_for_organization o).
Proof.
  apply agree_gets. split.
  - f_equiv. apply (select_agree (fun d => in_organization s o d = true)); [apply View|done| |].
    + intros d _. apply in_organization_agree, View.
    + intros d. by rewrite (in_organization_agree o s t d) by apply View.
  - intros id. rewrite list_elem_of_fmap. unfold owned_database. split.
    + intros ([k d] & -> & [Hk Hd]%elem_of_select). cbn [fst]. by rewrite Hk.
    + destruct (databases s !! id) as [d|] eqn:E; [|done]. intros Hd. exists (id, d). by rewrite elem_of_select.
Qed.

Lemma used_in_owned (ids : list uuid) start stop (l : list UsageRecord) :
  (forall id, id ∈ ids <-> owned_database o s id) ->
  filter (fun u => used_in ids start stop u = true) l =
  filter (fun u => (start <=? us_period_start u) && (us_period_start u <? stop) = true)
    (filter (fun u => owned_database o s (us_database_id u)) l).
Proof.
  intros Hi. rewrite list_filter_filter. apply list_filter_iff. intros u. unfold used_in.
  rewrite <- andb_assoc, andb_true_iff, bool_decide_eq_true, Hi. tauto.
Qed.

Lemma agree_get_usage ms : agree s t same_answer (get_usage o ms) (get_usage o ms).
Proof.
  apply (agree_bind _ _ eq); [apply agree_permission|]. intros _ _ _.
  apply (agree_bind _ _ eq); [apply agree_subscription|]. intros x ? <-.
  eapply agree_bind; [apply agree_ids|]. intros l l' [Hl Hi]. cbv zeta.
  apply (agree_bind _ _ eq).
  { apply agree_gets. rewrite (used_in_owned l), (used_in_owned l'); [by rewrite (sv_usage _ _ _ View)| |done].
    intros id. by rewrite <- Hl. }
  intros rs ? <-. apply agree_ret. cbn [same_answer]. f_equal.
  case_bool_decide as Hn; case_bool_decide as Hn'; try done; subst.
  - by apply Permutation_nil_l in Hl.
  - by apply Permutation_nil_r in Hl.
Qed.

Lemma agree_invoice {B} (R : B -> B -> Prop) invoice f f' :
  (forall v, owned_invoice o s invoice -> agree s t R (f v) (f' v)) ->
  agree s t R (v ← invoice_or_404 o invoice; f v) (v ← invoice_or_404 o invoice; f' v).
Proof.
  intros Hf. apply (agree_bind _ _ (fun v v' => v = v' /\ owned_invoice o s invoice)).
  - apply (agree_owned s t _ (fun v => iv_organization_id v = o) invoices); [apply View|].
    intros v Hv Hs _. apply agree_ret. split; [done|]. by exists v.
  - intros v ? [<- Ho]. by apply Hf.
Qed.

Lemma agree_backup database backup (f : Backup -> answer) :
  owned_database o s database ->
  agree s t same_answer
    (b ← cp_get backups backup; b ← some_or b (HTTPException 404);
     require (bool_decide (bk_database_id b = database)) (HTTPException 404);; mret (f b))
    (b ← cp_get backups backup; b ← some_or b (HTTPException 404);
     require (bool_decide (bk_database_id b = database)) (HTTPException 404);; mret (f b)).
Proof.
  intros Hd. apply (agree_owned s t _ (fun b => bk_database_id b = database) backups).
  - intros k b <-. by apply (sv_backups _ _ _ View).
  - intros b _ _ _. apply agree_ret, same_answer_refl.
Qed.

#[local] Hint Resolve same_answer_refl agree_permission agree_subscription agree_get_usage : core.

Ltac perm_go := cbn [same_answer]; intros ? ? ?; unfold shown; apply fmap_Permutation; by try apply newest_first_agree.
Ltac guarded := apply (agree_bind _ _ eq); [by auto|intros ? ? <-].

(** What belongs to the organization itself. *)
Lemma agree_own_tables call ms :
  match call with
  | ListApiKeys | ListInvoices | ListMembers | ListProjects | ListWebhooks => True
  | _ => False
  end -> agree s t same_answer (read_endpoint created_at o call ms) (read_endpoint created_at o call ms).
Proof.
  destruct call; intros Hc; try done; cbn [read_endpoint]; guarded.
  - apply (agree_rows (fun k => ak_organization_id k = o)); [apply View| |perm_go].
    intros v Hv. by apply andb_true_iff in Hv as [?%bool_decide_eq_true _].
  - apply (agree_rows (fun k => iv_organization_id k = o)); [apply View|intros v Hv; by apply bool_decide_eq_true in Hv|perm_go].
  - apply (agree_rows (fun k => ms_organization_id k = o)); [apply View|intros v Hv; by apply bool_decide_eq_true in Hv|done].
  - apply (agree_rows (fun k => pj_organization_id k = o)); [apply View|intros v Hv; by apply bool_decide_eq_true in Hv|done].
  - apply (agree_rows (fun k => wh_organization_id k = o)); [apply View|intros v Hv; by apply bool_decide_eq_true in Hv|perm_go].
Qed.

(** What belongs to a database of the organization. *)
Lemma agree_database_tables call ms :
  match call with
  | ListBackups _ _ | GetBackup _ _ _ | GetBackupPolicy _ _ | ListRoles _ _ | GetHistory _ _ _ | ListSavedQueries _ _
  | GetDatabase _ _ => True
  | _ => False
  end -> agree s t same_answer (read_endpoint created_at o call ms) (read_endpoint created_at o call ms).
Proof.
  destruct call; intros Hc; try done; cbn [read_endpoint]; guarded; apply agree_database; intros d Hd Ho.
  - apply (agree_rows (fun b => owned_database o s (bk_database_id b))); [apply View| |perm_go].
    intros v Hv. by apply andb_true_iff in Hv as [->%bool_decide_eq_true _].
  - by apply (agree_backup _ _ (fun b => TheBackup (backup, backup_response b))).
  - by apply agree_ret.
  - apply (agree_rows (fun c => owned_database o s (cr_database_id c))); [apply View| |perm_go].
    intros v Hv. by apply bool_decide_eq_true in Hv as ->.
  - apply (agree_bind _ _ eq); [apply agree_require|intros _ _ _].
    apply (agree_bind _ _ eq); [apply agree_gets; f_equal; by apply View|intros l ? <-]. by apply agree_ret.
  - apply (agree_rows (fun q => owned_database o s (sq_database_id q))); [apply View| |perm_go].
    intros v Hv. by apply bool_decide_eq_true in Hv as ->.
  - by apply agree_ret.
Qed.

Lemma read_endpoint_agree call ms :
  agree s t same_answer (read_endpoint created_at o call ms) (read_endpoint created_at o call ms).
Proof.
  destruct call; first [by apply agree_own_tables|by apply agree_database_tables|cbn [read_endpoint]].
  - guarded. apply (agree_bind _ _ eq); [by auto|intros x ? <-]. by apply agree_ret.
  - apply agree_get_usage.
  - guarded. apply agree_invoice. intros v Hv.
    apply (agree_bind _ _ eq); [apply agree_gets; by apply View|intros l ? <-]. by apply agree_ret.
  - guarded. apply agree_invoice. intros v Hv.
    apply (agree_rows (fun p => owned_invoice o s (pa_invoice_id p))); [apply View| |perm_go].
    intros p Hp. by apply bool_decide_eq_true in Hp as ->.
  - guarded. apply agree_project. intros p Hp Ho.
    apply (agree_rows (fun d => in_organization s o d = true)); [apply View| |perm_go].
    intros d Hd. apply andb_true_iff in Hd as [<-%bool_decide_eq_true _]. by eapply in_organization_project.
  - apply (agree_bind _ _ eq); [apply agree_gets, View|intros x ? <-].
    apply (agree_bind _ _ eq); [apply agree_some_or|intros org ? <-]. by apply agree_ret.
  - guarded. apply agree_project. intros p Hp Ho. by apply agree_ret.
  - guarded. apply (agree_owned s t _ (fun w => wh_organization_id w = o) webhooks); [apply View|]. intros w Hw Hs _.
    apply (agree_rows (fun x => owned_webhook o s (wd_webhook_id x))); [apply View| |perm_go].
    intros x Hx. apply bool_decide_eq_true in Hx as ->. by exists w.
Qed.
End noninterference.

(** A job of an organization is shown to its members only; one of no organization, to anyone. *)
Lemma get_job_run user job s t x :
  get_job user job s = (t, Ret x) ->
  t = s /\ exists j, cp_jobs s !! job = Some j /\ x = (job, job_response j) /\
    forall o, jb_organization_id j = Some o ->
      exists k m, memberships s !! k = Some m /\ ms_organization_id m = o /\ ms_user_id m = user.
Proof.
  unfold get_job. intros H.
  apply bind_Ret in H as (? & ? & [-> ->]%cp_get_run & H).
  apply bind_Ret in H as (? & j & [Hj ->]%some_or_Ret & H).
  apply bind_Ret in H as (u & [] & Hg & [-> ->]%mret_Ret).
  destruct (jb_organization_id j) as [o|] eqn:Eo.
  - apply bind_Ret in Hg as (? & ? & [-> ->]%gets_Ret & Hg).
    apply bind_Ret in Hg as (? & found & [-> Hf]%scalar_one_or_none_Ret & [Hs%bool_decide_eq_true ->]%require_Ret).
    split; [done|]. exists j. split_and!; [done..|]. intros o' Ho. assert (o' = o) as -> by congruence. destruct Hs as [m ->].
    assert (m ∈ rows (fun m => bool_decide (ms_organization_id m = o) && bool_decide (ms_user_id m = user)) (memberships s))
      as (k & Hk & [?%bool_decide_eq_true ?%bool_decide_eq_true]%andb_true_iff)%elem_of_rows by (rewrite Hf; left).
    eauto.
  - apply mret_Ret in Hg as [-> _]. split; [done|]. exists j. split_and!; [done..|congruence].
Qed.
Lemma job_of_no_organization_is_shown user job s j :
  cp_jobs s !! job = Some j -> jb_organization_id j = None -> get_job user job s = (s, Ret (job, job_response j)).
Proof. intros Hj Ho. unfold get_job, mbind, M_bind, cp_get, gets, some_or. rewrite Hj. cbn. by rewrite Ho. Qed.

(** The hash of a node's secret is not shown, nor anything that depends on it. *)
Lemma node_secrets_are_not_shown now call (secret : Node -> string) s :
  (fleet_read now call (s <| nodes ::= fmap (fun n => n <| nd_node_secret_hash := secret n |>) |>)).2 = (fleet_read now call s).2.
Proof.
  set (hidden := fun n => n <| nd_node_secret_hash := secret n |>).
  destruct call as [|node|cluster]; cbn [fleet_read].
  - unfold list_nodes, gets, shown. cbn. rewrite map_to_list_fmap, <- list_fmap_compose. done.
  - unfold get_node, cp_get. rewrite !bind_gets. cbn. rewrite lookup_fmap. by destruct (nodes s !! node).
  - unfold get_cluster, cp_get. rewrite !bind_gets. cbn. by destruct (clusters s !! cluster).
Qed.

(** ** Properties *)

(** C27. Reading leaks nothing: if two states of the control plane hold the same rows for an
    organization (the organization, its memberships, API keys, subscription, projects,
    invoices, webhooks, and what belongs to its databases, invoices and webhooks), then whatever the rest of the two states holds, each of the twenty read
    endpoints answers a member of the organization (or refuses a stranger, or a row of another
    organization) in the same way in both, and changes neither. *)
Theorem reads_noninterference created_at o user call s t :
  same_view o s t ->
  (member_read created_at o user call s).1 = s /\ (member_read created_at o user call t).1 = t /\
  same_outcome same_answer (member_read created_at o user call s).2 (member_read created_at o user call t).2.
Proof.
  intros View. apply agree_transaction. apply (agree_bind _ _ eq); [by apply agree_membership|].
  intros ms ? <-. by apply read_endpoint_agree.
Qed.

(** A tenant beside another one: the second organization has a project, a database with a role, and a webhook. *)
Definition alone : Cp := empty_cp
  <| organizations := {[1%positive := mkOrganization "Kiosque" "kiosque"]} |>
  <| memberships := {[1%positive := mkMembership 7 1 READONLY]} |>
  <| projects := {[20%positive := mkProject 1 "shop" "shop"]} |>
  <| databases := {[30%positive := example_database]} |>
  <| credentials := {[40%positive := mkDatabaseCredential 30 "u_0123" None true "sealed" SCOPE_APP None]} |>.
Definition beside : Cp := alone
  <| projects ::= <[21%positive := mkProject 2 "bank" "bank"]> |>
  <| databases ::= <[31%positive := example_database <| db_project_id := 21%positive |>]> |>
  <| credentials ::= <[41%positive := mkDatabaseCredential 31 "u_4567" None true "sealed" SCOPE_APP None]> |>
  <| webhooks := {[50%positive := mkWebhook 2 "https://bank.example" "sealed" [] true]} |>.

Lemma same_rows_refl {V} (P : V -> Prop) m : same_rows P m m.
Proof. done. Qed.
Lemma same_rows_insert {V} (P : V -> Prop) (m : gmap uuid V) k v : m !! k = None -> ~ P v -> same_rows P m (<[k := v]> m).
Proof.
  intros Hk HP i w Hw. destruct (decide (i = k)) as [->|].
  - rewrite lookup_insert_eq, Hk. naive_solver.
  - by rewrite lookup_insert_ne.
Qed.

Lemma reads_noninterference_witness :
  same_view 1 alone beside /\
  (exists l, (member_read (fun _ => 0) 1 7 (ListRoles 20 30) alone).2 = Ret (Roles l)) /\
  same_outcome same_answer (member_read (fun _ => 0) 1 7 (ListRoles 20 30) alone).2
    (member_read (fun _ => 0) 1 7 (ListRoles 20 30) beside).2.
Proof.
  assert (same_view 1 alone beside) as View.
  { split; first [apply same_rows_refl|done|idtac].
    - by apply same_rows_insert.
    - by apply (same_rows_insert _ ∅).
    - apply same_rows_insert; [done|]. by vm_compute.
    - apply same_rows_insert; [done|]. by vm_compute. }
  split; [exact View|]. split; [eexists; by vm_compute|].
  exact (proj2 (proj2 (reads_noninterference (fun _ => 0) 1 7 (ListRoles 20 30) alone beside View))).
Defined.
