(* ===== verification/Api.v ===== *)
(** * The routes of the control plane: [backend/app/api/v1/router.py], the decorators of
    [endpoints/] and the request bodies of [schemas/] that the SDK sends

    The path of a request, below [/api/v1], is matched against the templates in the order
    in which the routers are included; the first route whose template and method match
    serves the request. *)

From Stdlib Require Import Ascii SpecFloat.
From S2P Require Import Prelude PyStd.

(** ** Model *)

(** *** JSON *)

Inductive json :=
| VNull | VBool (b : bool) | VNum (z : Z) | VFloat (x : spec_float) | VText (s : string) | VList (l : list json)
| VDict (d : list (string * json)).

(** *** Routes *)

(** A segment of a template: itself, or a parameter, which is any segment but the empty one. *)
Inductive seg := Lit (s : string) | Arg.
Record Route := mkRoute { rt_method : string; rt_path : list seg; rt_endpoint : string }.

(** [APIRouter(prefix=...)] in the file [module]. *)
Definition under (prefix : list seg) (module : string) (l : list (string * list seg * string)) : list Route :=
  (fun '(method, path, name) => mkRoute method (prefix ++ path) (module +:+ "." +:+ name)) <$> l.

Definition under_database : list seg := [Lit "organizations"; Arg; Lit "projects"; Arg; Lit "databases"; Arg].

Definition auth_routes : list Route := under [Lit "auth"] "auth" [
  ("POST", [Lit "register"], "register");
  ("POST", [Lit "login"], "login");
  ("GET", [Lit "oauth"; Arg; Lit "login"], "oauth_login");
  ("GET", [Lit "oauth"; Arg; Lit "callback"], "oauth_callback");
  ("GET", [Lit "me"], "me");
  ("POST", [Lit "sessions"; Lit "revoke-all"], "revoke_all_sessions");
  ("POST", [Lit "mfa"; Lit "enable"], "enable_mfa");
  ("POST", [Lit "mfa"; Lit "verify"], "verify_mfa")].
Definition organizations_routes : list Route := under [Lit "organizations"] "organizations" [
  ("POST", [], "create_organization");
  ("GET", [], "list_my_organizations");
  ("GET", [Arg], "get_organization");
  ("GET", [Arg; Lit "members"], "list_members");
  ("POST", [Arg; Lit "members"], "add_member");
  ("DELETE", [Arg; Lit "members"; Arg], "remove_member")].
Definition projects_routes : list Route := under [Lit "organizations"; Arg; Lit "projects"] "projects" [
  ("POST", [], "create_project");
  ("GET", [], "list_projects");
  ("GET", [Arg], "get_project");
  ("DELETE", [Arg], "delete_project")].
Definition api_keys_routes : list Route := under [Lit "organizations"; Arg; Lit "api-keys"] "api_keys" [
  ("POST", [], "create_api_key");
  ("GET", [], "list_api_keys");
  ("DELETE", [Arg], "revoke_api_key")].
Definition webhooks_routes : list Route := under [Lit "organizations"; Arg; Lit "webhooks"] "webhooks" [
  ("POST", [], "create_webhook");
  ("GET", [], "list_webhooks");
  ("DELETE", [Arg], "delete_webhook");
  ("GET", [Arg; Lit "deliveries"], "list_deliveries")].
Definition regions_routes : list Route := under [Lit "regions"] "regions" [
  ("GET", [], "list_regions");
  ("POST", [], "create_region")].
Definition nodes_routes : list Route := under [Lit "nodes"] "nodes" [
  ("POST", [Lit "register"], "register_node");
  ("POST", [Lit "registration-tokens"], "create_registration_token");
  ("GET", [], "list_nodes");
  ("GET", [Arg], "get_node");
  ("POST", [Arg; Lit "heartbeat"], "heartbeat");
  ("POST", [Arg; Lit "health-check"], "health_check")].
Definition clusters_routes : list Route := under [Lit "clusters"] "clusters" [
  ("GET", [Arg], "get_cluster");
  ("POST", [Arg; Lit "replicas"], "attach_replica");
  ("POST", [Arg; Lit "failover"], "trigger_failover")].
Definition databases_routes : list Route := under [Lit "organizations"; Arg; Lit "projects"; Arg; Lit "databases"] "databases" [
  ("POST", [], "create_database");
  ("GET", [], "list_databases");
  ("GET", [Arg], "get_database");
  ("DELETE", [Arg], "delete_database");
  ("POST", [Arg; Lit "suspend"], "suspend_database");
  ("POST", [Arg; Lit "resume"], "resume_database");
  ("POST", [Arg; Lit "resize"], "resize_database");
  ("GET", [Arg; Lit "connection"], "get_database_connection")].
Definition database_roles_routes : list Route := under (under_database ++ [Lit "roles"]) "database_roles" [
  ("POST", [], "create_role");
  ("GET", [], "list_roles");
  ("DELETE", [Arg], "delete_role");
  ("POST", [Arg; Lit "rotate"], "rotate_role")].
Definition database_sql_routes : list Route := under (under_database ++ [Lit "sql"]) "database_sql" [
  ("POST", [Lit "execute"], "execute_sql");
  ("GET", [Lit "history"], "get_history");
  ("POST", [Lit "saved-queries"], "create_saved_query");
  ("GET", [Lit "saved-queries"], "list_saved_queries");
  ("DELETE", [Lit "saved-queries"; Arg], "delete_saved_query")].
Definition database_ops_routes : list Route := under under_database "database_ops" [
  ("GET", [Lit "extensions"], "list_extensions");
  ("POST", [Lit "extensions"], "install_extension");
  ("DELETE", [Lit "extensions"; Arg], "drop_extension");
  ("GET", [Lit "metrics"], "get_metrics");
  ("GET", [Lit "tables"], "list_tables")].
Definition database_backups_routes : list Route := under under_database "database_backups" [
  ("POST", [Lit "backups"], "create_backup");
  ("GET", [Lit "backups"], "list_backups");
  ("GET", [Lit "backups"; Arg], "get_backup");
  ("POST", [Lit "backups"; Arg; Lit "restore"], "restore_backup");
  ("GET", [Lit "backup-policy"], "get_backup_policy");
  ("PUT", [Lit "backup-policy"], "set_backup_policy")].
Definition database_admin_routes : list Route := under [Lit "databases"] "database_admin" [
  ("POST", [Arg; Lit "migrate"], "migrate_database")].
Definition jobs_routes : list Route := under [Lit "jobs"] "jobs" [
  ("GET", [Arg], "get_job")].
Definition plans_routes : list Route := under [Lit "plans"] "billing" [
  ("POST", [], "create_plan");
  ("GET", [], "list_plans")].
Definition billing_routes : list Route := under [Lit "organizations"; Arg] "billing" [
  ("GET", [Lit "subscription"], "get_subscription");
  ("PATCH", [Lit "subscription"], "update_subscription");
  ("GET", [Lit "usage"], "get_usage");
  ("GET", [Lit "invoices"], "list_invoices");
  ("GET", [Lit "invoices"; Arg], "get_invoice");
  ("POST", [Lit "invoices"; Arg; Lit "pay"], "pay_invoice");
  ("POST", [Lit "invoices"; Arg; Lit "pay"; Lit "crypto"], "pay_invoice_with_crypto");
  ("POST", [Lit "invoices"; Arg; Lit "pay"; Lit "mobile-money"], "pay_invoice_with_mobile_money");
  ("GET", [Lit "invoices"; Arg; Lit "payments"], "list_invoice_payments")].
Definition payment_webhooks_routes : list Route := under [Lit "billing"; Lit "webhooks"] "payment_webhooks" [
  ("POST", [Lit "nowpayments"], "nowpayments_webhook");
  ("POST", [Lit "fedapay"], "fedapay_webhook")].
Definition notifications_routes : list Route := under [Lit "notifications"] "notifications" [
  ("GET", [], "list_notifications");
  ("POST", [Arg; Lit "read"], "mark_notification_read")].

(** The order of [include_router]. *)
Definition API_ROUTES : list Route :=
  auth_routes ++ organizations_routes ++ projects_routes ++ api_keys_routes ++ webhooks_routes ++ regions_routes
  ++ nodes_routes ++ clusters_routes ++ databases_routes ++ database_roles_routes ++ database_sql_routes
  ++ database_ops_routes ++ database_backups_routes ++ database_admin_routes ++ jobs_routes ++ plans_routes
  ++ billing_routes ++ payment_webhooks_routes ++ notifications_routes.

(** The parameters of a path that matches a template. *)
Fixpoint match_path (template : list seg) (path : list string) : option (list string) :=
  match template, path with
  | [], [] => Some []
  | Lit a :: template, b :: path => if String.eqb a b then match_path template path else None
  | Arg :: template, b :: path => if String.eqb b "" then None else cons b <$> match_path template path
  | _, _ => None
  end.
Fixpoint find_route (routes : list Route) (method : string) (path : list string) : option (string * list string) :=
  match routes with
  | [] => None
  | r :: routes =>
      if String.eqb (rt_method r) method then
        match match_path (rt_path r) path with
        | Some args => Some (rt_endpoint r, args)
        | None => find_route routes method path
        end
      else find_route routes method path
  end.
Definition api_route (method path : string) : option (string * list string) :=
  match segments path with
  | "" :: path => find_route API_ROUTES method path
  | _ => None
  end.

(** *** Request bodies *)

Inductive kind := TEXT | INT | TEXTS.
Record field := mkField { fd_name : string; fd_kind : kind; fd_required : bool }.

Definition UserRegister : list field := [mkField "email" TEXT true; mkField "password" TEXT true].
Definition UserLogin : list field := [mkField "email" TEXT true; mkField "password" TEXT true; mkField "otp_code" TEXT false].
Definition OrganizationCreate : list field := [mkField "name" TEXT true; mkField "slug" TEXT true].
Definition MembershipCreate : list field := [mkField "email" TEXT true; mkField "role" TEXT false].
Definition ProjectCreate : list field := [mkField "name" TEXT true; mkField "slug" TEXT true].
Definition WebhookCreate : list field := [mkField "url" TEXT true; mkField "event_types" TEXTS true].
Definition DatabaseCreate : list field :=
  [mkField "name" TEXT true; mkField "region_code" TEXT true; mkField "isolation_level" TEXT false;
   mkField "cpu_limit" INT false; mkField "ram_limit_mb" INT false; mkField "storage_limit_gb" INT false].
Definition DatabaseResize : list field :=
  [mkField "cpu_limit" INT true; mkField "ram_limit_mb" INT true; mkField "storage_limit_gb" INT true].
Definition SqlExecuteRequest : list field := [mkField "query" TEXT true; mkField "role_id" TEXT false].
Definition RestoreRequest : list field := [mkField "name" TEXT true].

(** The parameter [payload] of an endpoint the SDK calls, when it has one. *)
Definition payload_of (endpoint : string) : option (list field) :=
  dict_get [("auth.register", UserRegister); ("auth.login", UserLogin); ("organizations.create_organization", OrganizationCreate);
            ("organizations.add_member", MembershipCreate); ("projects.create_project", ProjectCreate);
            ("webhooks.create_webhook", WebhookCreate); ("databases.create_database", DatabaseCreate);
            ("databases.resize_database", DatabaseResize); ("database_sql.execute_sql", SqlExecuteRequest);
            ("database_backups.restore_backup", RestoreRequest)] endpoint.

Definition is_text (v : json) : bool := match v with VText _ => true | _ => false end.
Definition has_kind (k : kind) (v : json) : bool :=
  match k, v with
  | TEXT, VText _ | INT, VNum _ => true
  | TEXTS, VList l => forallb is_text l
  | _, _ => false
  end.
(** Every required field is there, and every field is one of the schema, of its kind. *)
Definition accepts (schema : option (list field)) (body : option json) : bool :=
  match schema, body with
  | None, None => true
  | Some fields, Some (VDict d) =>
      forallb (fun f => negb (fd_required f) || existsb (fun kv => String.eqb kv.1 (fd_name f)) d) fields
      && forallb (fun kv => existsb (fun f => String.eqb kv.1 (fd_name f) && has_kind (fd_kind f) kv.2) fields) d
  | _, _ => false
  end.

(** *** What a template says *)

(** The segments with the arguments in their places, and the path they make. *)
Fixpoint fill (template : list seg) (args : list string) : list string :=
  match template, args with
  | Lit a :: template, args => a :: fill template args
  | Arg :: template, a :: args => a :: fill template args
  | _, _ => []
  end.
Fixpoint arity (template : list seg) : nat :=
  match template with [] => O | Lit _ :: template => arity template | Arg :: template => S (arity template) end.
Fixpoint join (l : list string) : string := match l with [] => "" | a :: l => "/" +:+ a +:+ join l end.
Definition url (r : Route) (args : list string) : string := join (fill (rt_path r) args).

(** An argument that stays one segment. *)
Definition plain (a : string) : bool := negb (String.eqb a "") && no_slash a.

(** No path matches both templates. *)
Fixpoint disjoint_paths (t t' : list seg) : bool :=
  match t, t' with
  | [], [] => false
  | Lit a :: t, Lit b :: t' => negb (String.eqb a b) || disjoint_paths t t'
  | _ :: t, _ :: t' => disjoint_paths t t'
  | _, _ => true
  end.
Definition distinct_routes (r r' : Route) : bool :=
  negb (String.eqb (rt_method r) (rt_method r')) || disjoint_paths (rt_path r) (rt_path r').
Fixpoint pairwise {A} (p : A -> A -> bool) (l : list A) : bool :=
  match l with [] => true | x :: l => forallb (p x) l && pairwise p l end.
Definition plain_literals (r : Route) : bool :=
  forallb (fun s => match s with Lit a => plain a | Arg => true end) (rt_path r).

(** ** Lemmas *)

Lemma segments_app_join a l : no_slash a = true -> Forall (fun b => no_slash b = true) l -> segments (a +:+ join l) = a :: l.
Proof.
  intros Ha Hl. revert a Ha. induction Hl as [|b l Hb _ IH]; intros a Ha; cbn [join].
  - rewrite str_app_nil_r. by apply segments_last.
  - change (a +:+ "/" +:+ b +:+ join l) with (a +:+ String "/"%char (b +:+ join l)). rewrite segments_cons by done. by rewrite IH.
Qed.
Lemma segments_join l : l <> [] -> Forall (fun b => no_slash b = true) l -> segments (join l) = "" :: l.
Proof. destruct l as [|a l]; [done|]. intros _ [Ha Hl]%Forall_cons. exact (f_equal (cons "") (segments_app_join a l Ha Hl)). Qed.

Lemma plain_inv a : plain a = true -> a <> "" /\ no_slash a = true.
Proof. unfold plain. intros [Hn Hs]%andb_prop. split; [|done]. by destruct (String.eqb_spec a ""). Qed.

Lemma fill_plain template args :
  forallb (fun s => match s with Lit a => plain a | Arg => true end) template = true ->
  Forall (fun a => plain a = true) args -> Forall (fun b => no_slash b = true) (fill template args).
Proof.
  revert args. induction template as [|[a|] template IH]; intros args; cbn [forallb fill]; [constructor| |].
  - intros [Ha Ht]%andb_prop Hargs. constructor; [by apply plain_inv|by apply IH].
  - intros Ht Hargs. destruct Hargs as [|a args Ha Hargs]; constructor; [by apply plain_inv|by apply IH].
Qed.

Lemma match_fill template args :
  length args = arity template -> Forall (fun a => plain a = true) args -> match_path template (fill template args) = Some args.
Proof.
  revert args. induction template as [|[a|] template IH]; intros args Hl Hargs; cbn [arity fill match_path] in *.
  - by destruct args.
  - rewrite String.eqb_refl. by apply IH.
  - destruct Hargs as [|a args [Ha _]%plain_inv Hargs]; [done|]. cbn [fill match_path].
    destruct (String.eqb_spec a "") as [|_]; [done|]. cbn in Hl. rewrite IH; [done|lia|done].
Qed.

Lemma match_disjoint t t' path args :
  disjoint_paths t t' = true -> match_path t path = Some args -> match_path t' path = None.
Proof.
  revert t' path args. induction t as [|x t IH]; intros [|x' t'] path args Hd Hm; try done.
  - destruct path; [by destruct x'|done].
  - destruct path; by destruct x.
  - destruct path as [|b path]; [by destruct x|].
    assert (forall t' , disjoint_paths t t' = true -> match_path t path <> None -> match_path t' path = None) as IH'.
    { intros u Hu. destruct (match_path t path) eqn:E; [intros _; by eapply IH|done]. }
    destruct x as [a|], x' as [a'|]; cbn [disjoint_paths match_path] in *.
    + destruct (String.eqb_spec a b) as [->|]; [|done]. destruct (String.eqb_spec a' b) as [->|]; [|done].
      rewrite String.eqb_refl in Hd. apply IH'; [done|]. by rewrite Hm.
    + destruct (String.eqb a b); [|done]. destruct (String.eqb b ""); [done|]. rewrite IH'; [done..|]. by rewrite Hm.
    + destruct (String.eqb b ""); [done|]. destruct (String.eqb a' b); [|done]. apply IH'; [done|].
      by destruct (match_path t path).
    + destruct (String.eqb b ""); [done|]. rewrite IH'; [done..|]. by destruct (match_path t path).
Qed.

Lemma distinct_no_match r r' path args :
  distinct_routes r r' = true -> rt_method r = rt_method r' -> match_path (rt_path r') path = Some args ->
  match_path (rt_path r) path = None.
Proof.
  unfold distinct_routes. intros H E Hm. rewrite E, String.eqb_refl in H. cbn in H.
  destruct (match_path (rt_path r) path) eqn:Er; [|done]. pose proof (match_disjoint _ _ _ _ H Er). congruence.
Qed.

Lemma find_route_in routes r path args :
  pairwise distinct_routes routes = true -> r ∈ routes -> match_path (rt_path r) path = Some args ->
  find_route routes (rt_method r) path = Some (rt_endpoint r, args).
Proof.
  intros Hp Hr Hm. induction routes as [|x routes IH]; [by apply elem_of_nil in Hr|].
  cbn [pairwise find_route] in *. apply andb_prop in Hp as [Hx Hp]. apply elem_of_cons in Hr as [->|Hr].
  - by rewrite String.eqb_refl, Hm.
  - specialize (IH Hp Hr). destruct (String.eqb_spec (rt_method x) (rt_method r)) as [E|]; [|done].
    rewrite (distinct_no_match x r _ args); [done| |done|done].
    rewrite forallb_forall in Hx. by apply Hx, list_elem_of_In.
Qed.

Lemma api_routes_pairwise : pairwise distinct_routes API_ROUTES = true.
Proof. vm_compute. reflexivity. Qed.
Lemma api_routes_plain : forallb plain_literals API_ROUTES = true.
Proof. vm_compute. reflexivity. Qed.
Lemma api_routes_nonempty : forallb (fun r => negb (bool_decide (length (rt_path r) = 0%nat))) API_ROUTES = true.
Proof. vm_compute. reflexivity. Qed.

(** A path built from a template reaches its endpoint, with the arguments it was built from. *)
Lemma api_route_url r args :
  r ∈ API_ROUTES -> length args = arity (rt_path r) -> Forall (fun a => plain a = true) args ->
  api_route (rt_method r) (url r args) = Some (rt_endpoint r, args).
Proof.
  intros Hr Hl Hargs. unfold api_route, url. rewrite segments_join.
  - apply find_route_in; [apply api_routes_pairwise|done|by apply match_fill].
  - pose proof api_routes_nonempty as H. rewrite forallb_forall in H. apply list_elem_of_In in Hr. specialize (H r Hr).
    destruct (rt_path r) as [|[a|] t]; [done|done|]. by destruct args.
  - apply fill_plain; [|done]. pose proof api_routes_plain as H. rewrite forallb_forall in H. by apply H, list_elem_of_In.
Qed.

(** The route of an endpoint. *)
Definition route_named (endpoint : string) : option Route := find (fun r => String.eqb (rt_endpoint r) endpoint) API_ROUTES.
Lemma api_route_named endpoint r args method path :
  route_named endpoint = Some r -> method = rt_method r -> path = url r args -> length args = arity (rt_path r) ->
  Forall (fun a => plain a = true) args -> api_route method path = Some (endpoint, args).
Proof.
  intros Hr -> -> Hl Ha. apply find_some in Hr as [Hin He%String.eqb_eq]. rewrite api_route_url; [by rewrite He| |done..].
  by apply list_elem_of_In.
Qed.
