(* ===== verification/Sdk.v ===== *)
(** * The Python SDK: [sdk/eminidatabase_sdk/client.py]

    [PlatformClient] against a network: any function from requests to answers, with a clock.
    Each method sends one request, which the control plane serves at the endpoint it is
    meant for; the loop that waits for a job ends. *)

From Stdlib Require Import Ascii SpecFloat.
From S2P Require Import Prelude PyStd Api.

(** ** Model *)

(** *** Answers *)

(** [v[key]] for a text [key]. *)
Definition getitem (v : json) (key : string) : outcome json :=
  match v with
  | VDict d => match dict_get d key with Some x => Ret x | None => Exc KeyError end
  | _ => Exc TypeError
  end.
(** [for x in v] *)
Definition iterate (v : json) : outcome (list json) :=
  match v with
  | VList l => Ret l
  | VDict d => Ret (VText ∘ fst <$> d)
  | VText s => Ret ((fun c => VText (String c "")) <$> String.list_ascii_of_string s)
  | _ => Exc TypeError
  end.

Record Request := mkRequest {
  rq_base : string; rq_method : string; rq_path : string; rq_json : option json; rq_token : option string }.
(** [rs_json] is what the text decodes to, if it does. *)
Record Response := mkResponse { rs_status : Z; rs_text : string; rs_json : option json }.

(** The network and the servers behind it, a clock, and the text Python gives to what is
    not one. *)
Class Network (W : Type) := {
  serve : Request -> W -> W * option Response;
  sleep : Z -> W -> W;
  monotonic : W -> Z;
  repr : json -> string;
  serve_takes_time : forall r w, monotonic w <= monotonic (serve r w).1;
  sleep_takes_time : forall d w, 0 <= d -> monotonic w + d <= monotonic (sleep d w);
}.

(** The process of a client: what it keeps on disk, its environment, what it prints. *)
Record Session (W : Type) := mkSession {
  world : W;
  exchanges : list (Request * option Response);
  environ : gmap string string;
  files : gmap string (string * string * string);
  output : list json;
}.
Arguments mkSession {_} _ _ _ _ _.
Arguments world {_} _.
Arguments exchanges {_} _.
Arguments environ {_} _.
Arguments files {_} _.
Arguments output {_} _.
#[export] Instance Session_fields W : Fields (Session W) := fun x =>
  mkSession (world x) (exchanges x) (environ x) (files x) (output x).

(** *** The client *)

Record PlatformClient := mkClient { base_url : string; token : option string }.
Definition DEFAULT_BASE_URL : string := "http://127.0.0.1:8000/api/v1".
Definition TERMINAL_JOB_STATUSES : list string := ["succeeded"; "failed"].

Definition new_client (base_url : string) (token : option string) : PlatformClient :=
  mkClient (rstrip_of (Ascii.eqb "/"%char) base_url) token.
(** [if self.token] *)
Definition headers (c : PlatformClient) : option string :=
  match token c with Some t => if bool_decide (t = "") then None else Some t | None => None end.

Section client.
Context `{Net : Network W}.

(** [f"{v}"] *)
Definition text (v : json) : string := match v with VText s => s | v => repr v end.

Definition http (r : Request) : M (Session W) Response := fun s =>
  let '(w, a) := serve r (world s) in
  (s <| world := w |> <| exchanges ::= fun xs => xs ++ [(r, a)] |>,
   match a with Some x => Ret x | None => Exc TransportError end).

Definition request (c : PlatformClient) (method path : string) (body : option json) : M (Session W) json :=
  resp ← http (mkRequest (base_url c) method path body (headers c));
  if 400 <=? rs_status resp then
    match rs_json resp with
    | Some (VDict _) | None => mret tt
    | Some _ => raise AttributeError
    end;;
    raise (ApiError (rs_status resp))
  else if (rs_status resp =? 204) || bool_decide (rs_text resp = "") then mret VNull
  else some_or (rs_json resp) ValueError.

Definition VOpt (key : string) (x : option string) : list (string * json) :=
  match x with Some x => if bool_decide (x = "") then [] else [(key, VText x)] | None => [] end.

Definition register (c : PlatformClient) (email password : string) : M (Session W) json :=
  request c "POST" "/auth/register" (Some (VDict [("email", VText email); ("password", VText password)])).
Definition sign_in (c : PlatformClient) (email password : string) (otp_code : option string) : M (Session W) json :=
  request c "POST" "/auth/login" (Some (VDict ([("email", VText email); ("password", VText password)] ++ VOpt "otp_code" otp_code))).
(** [bool(v)]: a token that is not true is not sent. *)
Definition is_true (v : json) : bool :=
  match v with
  | VNull => false
  | VBool b => b
  | VNum z => negb (z =? 0)
  | VFloat x => match x with S754_zero _ => false | _ => true end
  | VText s => negb (bool_decide (s = ""))
  | VList l => match l with [] => false | _ => true end
  | VDict d => match d with [] => false | _ => true end
  end.
Definition login (c : PlatformClient) (email password : string) (otp_code : option string) : M (Session W) (PlatformClient * json) :=
  data ← sign_in c email password otp_code;
  t ← lift_outcome (getitem data "access_token");
  mret (mkClient (base_url c) (if is_true t then Some (text t) else None), t).
Definition me (c : PlatformClient) : M (Session W) json := request c "GET" "/auth/me" None.

Definition org_path (organization_id : string) : string := "/organizations/" +:+ organization_id.
Definition create_organization (c : PlatformClient) (name slug : string) : M (Session W) json :=
  request c "POST" "/organizations" (Some (VDict [("name", VText name); ("slug", VText slug)])).
Definition list_organizations (c : PlatformClient) : M (Session W) json := request c "GET" "/organizations" None.
Definition get_organization (c : PlatformClient) (organization_id : string) : M (Session W) json :=
  request c "GET" (org_path organization_id) None.
Definition add_member (c : PlatformClient) (organization_id email role : string) : M (Session W) json :=
  request c "POST" (org_path organization_id +:+ "/members") (Some (VDict [("email", VText email); ("role", VText role)])).

Definition projects_path (organization_id : string) : string := org_path organization_id +:+ "/projects".
Definition create_project (c : PlatformClient) (organization_id name slug : string) : M (Session W) json :=
  request c "POST" (projects_path organization_id) (Some (VDict [("name", VText name); ("slug", VText slug)])).
Definition list_projects (c : PlatformClient) (organization_id : string) : M (Session W) json :=
  request c "GET" (projects_path organization_id) None.
Definition get_project (c : PlatformClient) (organization_id project_id : string) : M (Session W) json :=
  request c "GET" (projects_path organization_id +:+ "/" +:+ project_id) None.

Definition list_regions (c : PlatformClient) : M (Session W) json := request c "GET" "/regions" None.

Definition db_path (organization_id project_id database_id : string) : string :=
  let base := projects_path organization_id +:+ "/" +:+ project_id +:+ "/databases" in
  if bool_decide (database_id = "") then base else base +:+ "/" +:+ database_id.

Definition create_database (c : PlatformClient) (organization_id project_id name region_code isolation_level : string)
    (cpu_limit ram_limit_mb storage_limit_gb : Z) : M (Session W) json :=
  request c "POST" (db_path organization_id project_id "")
    (Some (VDict [("name", VText name); ("region_code", VText region_code); ("isolation_level", VText isolation_level);
                  ("cpu_limit", VNum cpu_limit); ("ram_limit_mb", VNum ram_limit_mb); ("storage_limit_gb", VNum storage_limit_gb)])).
Definition list_databases (c : PlatformClient) (organization_id project_id : string) : M (Session W) json :=
  request c "GET" (db_path organization_id project_id "") None.
Definition get_database (c : PlatformClient) (organization_id project_id database_id : string) : M (Session W) json :=
  request c "GET" (db_path organization_id project_id database_id) None.
Definition delete_database (c : PlatformClient) (organization_id project_id database_id : string) : M (Session W) json :=
  request c "DELETE" (db_path organization_id project_id database_id) None.
Definition suspend_database (c : PlatformClient) (organization_id project_id database_id : string) : M (Session W) json :=
  request c "POST" (db_path organization_id project_id database_id +:+ "/suspend") None.
Definition resume_database (c : PlatformClient) (organization_id project_id database_id : string) : M (Session W) json :=
  request c "POST" (db_path organization_id project_id database_id +:+ "/resume") None.
Definition resize_database (c : PlatformClient) (organization_id project_id database_id : string)
    (cpu_limit ram_limit_mb storage_limit_gb : Z) : M (Session W) json :=
  request c "POST" (db_path organization_id project_id database_id +:+ "/resize")
    (Some (VDict [("cpu_limit", VNum cpu_limit); ("ram_limit_mb", VNum ram_limit_mb); ("storage_limit_gb", VNum storage_limit_gb)])).
Definition get_connection (c : PlatformClient) (organization_id project_id database_id : string) : M (Session W) json :=
  request c "GET" (db_path organization_id project_id database_id +:+ "/connection") None.
Definition execute_sql (c : PlatformClient) (organization_id project_id database_id query : string)
    (role_id : option string) : M (Session W) json :=
  request c "POST" (db_path organization_id project_id database_id +:+ "/sql/execute")
    (Some (VDict ([("query", VText query)] ++ VOpt "role_id" role_id))).

Definition create_backup (c : PlatformClient) (organization_id project_id database_id : string) : M (Session W) json :=
  request c "POST" (db_path organization_id project_id database_id +:+ "/backups") None.
Definition list_backups (c : PlatformClient) (organization_id project_id database_id : string) : M (Session W) json :=
  request c "GET" (db_path organization_id project_id database_id +:+ "/backups") None.
Definition get_backup (c : PlatformClient) (organization_id project_id database_id backup_id : string) : M (Session W) json :=
  request c "GET" (db_path organization_id project_id database_id +:+ "/backups/" +:+ backup_id) None.
Definition restore_backup (c : PlatformClient) (organization_id project_id database_id backup_id new_name : string) : M (Session W) json :=
  request c "POST" (db_path organization_id project_id database_id +:+ "/backups/" +:+ backup_id +:+ "/restore")
    (Some (VDict [("name", VText new_name)])).

Definition webhooks_path (organization_id : string) : string := org_path organization_id +:+ "/webhooks".
Definition create_webhook (c : PlatformClient) (organization_id url : string) (event_types : list string) : M (Session W) json :=
  request c "POST" (webhooks_path organization_id)
    (Some (VDict [("url", VText url); ("event_types", VList (VText <$> event_types))])).
Definition list_webhooks (c : PlatformClient) (organization_id : string) : M (Session W) json :=
  request c "GET" (webhooks_path organization_id) None.
Definition delete_webhook (c : PlatformClient) (organization_id webhook_id : string) : M (Session W) json :=
  request c "DELETE" (webhooks_path organization_id +:+ "/" +:+ webhook_id) None.
Definition list_webhook_deliveries (c : PlatformClient) (organization_id webhook_id : string) : M (Session W) json :=
  request c "GET" (webhooks_path organization_id +:+ "/" +:+ webhook_id +:+ "/deliveries") None.

Definition get_job (c : PlatformClient) (job_id : string) : M (Session W) json := request c "GET" ("/jobs/" +:+ job_id) None.

Definition clock : M (Session W) Z := gets (fun s => monotonic (world s)).
Definition asyncio_sleep (d : Z) : M (Session W) unit := modify (fun s => s <| world ::= sleep d |>).
(** [status in TERMINAL_JOB_STATUSES]: a list or a dictionary has no hash. *)
Definition is_terminal (status : json) : outcome bool :=
  match status with
  | VText x => Ret (bool_decide (x ∈ TERMINAL_JOB_STATUSES))
  | VList _ | VDict _ => Exc TypeError
  | _ => Ret false
  end.
(** [while True], at most [fuel] times. *)
Fixpoint poll_job (fuel : nat) (c : PlatformClient) (job_id : string) (interval timeout start : Z) : M (Session W) json :=
  match fuel with
  | O => raise OutOfFuel
  | S fuel =>
      job ← get_job c job_id;
      status ← lift_outcome (getitem job "status");
      finished ← lift_outcome (is_terminal status);
      if finished : bool then mret job
      else
        now ← clock;
        if timeout <? now - start then raise TimeoutError
        else asyncio_sleep interval;; poll_job fuel c job_id interval timeout start
  end.
Definition polls (interval timeout : Z) : nat := Z.to_nat (timeout / interval) + 2.
Definition wait_for_job (c : PlatformClient) (job_id : string) (interval timeout : Z) : M (Session W) json :=
  start ← clock;
  poll_job (polls interval timeout) c job_id interval timeout start.

(** The methods, but for [login], which also keeps the token, and [wait_for_job]. *)
Inductive client_call :=
| Register (email password : string) | SignIn (email password : string) (otp_code : option string) | Me
| CreateOrganization (name slug : string) | ListOrganizations | GetOrganization (o : string) | AddMember (o email role : string)
| CreateProject (o name slug : string) | ListProjects (o : string) | GetProject (o p : string) | ListRegions
| CreateDatabase (o p name region_code isolation_level : string) (cpu_limit ram_limit_mb storage_limit_gb : Z)
| ListDatabases (o p : string) | GetDatabase (o p d : string) | DeleteDatabase (o p d : string) | SuspendDatabase (o p d : string)
| ResumeDatabase (o p d : string) | ResizeDatabase (o p d : string) (cpu_limit ram_limit_mb storage_limit_gb : Z)
| GetConnection (o p d : string) | ExecuteSql (o p d query : string) (role_id : option string)
| CreateBackup (o p d : string) | ListBackups (o p d : string) | GetBackup (o p d b : string) | RestoreBackup (o p d b new_name : string)
| CreateWebhook (o url : string) (event_types : list string) | ListWebhooks (o : string) | DeleteWebhook (o w : string)
| ListWebhookDeliveries (o w : string) | GetJob (job : string).

Definition client_method (c : PlatformClient) (call : client_call) : M (Session W) json :=
  match call with
  | Register email password => register c email password
  | SignIn email password otp => sign_in c email password otp
  | Me => me c
  | CreateOrganization name slug => create_organization c name slug
  | ListOrganizations => list_organizations c
  | GetOrganization o => get_organization c o
  | AddMember o email role => add_member c o email role
  | CreateProject o name slug => create_project c o name slug
  | ListProjects o => list_projects c o
  | GetProject o p => get_project c o p
  | ListRegions => list_regions c
  | CreateDatabase o p name region isolation cpu ram storage => create_database c o p name region isolation cpu ram storage
  | ListDatabases o p => list_databases c o p
  | GetDatabase o p d => get_database c o p d
  | DeleteDatabase o p d => delete_database c o p d
  | SuspendDatabase o p d => suspend_database c o p d
  | ResumeDatabase o p d => resume_database c o p d
  | ResizeDatabase o p d cpu ram storage => resize_database c o p d cpu ram storage
  | GetConnection o p d => get_connection c o p d
  | ExecuteSql o p d query role => execute_sql c o p d query role
  | CreateBackup o p d => create_backup c o p d
  | ListBackups o p d => list_backups c o p d
  | GetBackup o p d b => get_backup c o p d b
  | RestoreBackup o p d b name => restore_backup c o p d b name
  | CreateWebhook o url events => create_webhook c o url events
  | ListWebhooks o => list_webhooks c o
  | DeleteWebhook o w => delete_webhook c o w
  | ListWebhookDeliveries o w => list_webhook_deliveries c o w
  | GetJob job => get_job c job
  end.

(** The endpoint a method is meant for, and the ids it names. *)
Definition meant_for (call : client_call) : string * list string :=
  match call with
  | Register _ _ => ("auth.register", []) | SignIn _ _ _ => ("auth.login", []) | Me => ("auth.me", [])
  | CreateOrganization _ _ => ("organizations.create_organization", [])
  | ListOrganizations => ("organizations.list_my_organizations", [])
  | GetOrganization o => ("organizations.get_organization", [o])
  | AddMember o _ _ => ("organizations.add_member", [o])
  | CreateProject o _ _ => ("projects.create_project", [o]) | ListProjects o => ("projects.list_projects", [o])
  | GetProject o p => ("projects.get_project", [o; p]) | ListRegions => ("regions.list_regions", [])
  | CreateDatabase o p _ _ _ _ _ _ => ("databases.create_database", [o; p])
  | ListDatabases o p => ("databases.list_databases", [o; p]) | GetDatabase o p d => ("databases.get_database", [o; p; d])
  | DeleteDatabase o p d => ("databases.delete_database", [o; p; d])
  | SuspendDatabase o p d => ("databases.suspend_database", [o; p; d])
  | ResumeDatabase o p d => ("databases.resume_database", [o; p; d])
  | ResizeDatabase o p d _ _ _ => ("databases.resize_database", [o; p; d])
  | GetConnection o p d => ("databases.get_database_connection", [o; p; d])
  | ExecuteSql o p d _ _ => ("database_sql.execute_sql", [o; p; d])
  | CreateBackup o p d => ("database_backups.create_backup", [o; p; d])
  | ListBackups o p d => ("database_backups.list_backups", [o; p; d])
  | GetBackup o p d b => ("database_backups.get_backup", [o; p; d; b])
  | RestoreBackup o p d b _ => ("database_backups.restore_backup", [o; p; d; b])
  | CreateWebhook o _ _ => ("webhooks.create_webhook", [o]) | ListWebhooks o => ("webhooks.list_webhooks", [o])
  | DeleteWebhook o w => ("webhooks.delete_webhook", [o; w])
  | ListWebhookDeliveries o w => ("webhooks.list_deliveries", [o; w])
  | GetJob job => ("jobs.get_job", [job])
  end.

(** What a caller gets for an answer. *)
Definition read_answer (a : option Response) : outcome json :=
  match a with
  | None => Exc TransportError
  | Some r =>
      if 400 <=? rs_status r then
        match rs_json r with
        | Some (VDict _) | None => Exc (ApiError (rs_status r))
        | Some _ => Exc AttributeError
        end
      else if (rs_status r =? 204) || bool_decide (rs_text r = "") then Ret VNull
      else match rs_json r with Some v => Ret v | None => Exc ValueError end
  end.

(** ** Lemmas *)

Lemma request_run c method path body s :
  let r := mkRequest (base_url c) method path body (headers c) in
  let '(w, a) := serve r (world s) in
  request c method path body s = (s <| world := w |> <| exchanges ::= fun xs => xs ++ [(r, a)] |>, read_answer a).
Proof.
  intros r. unfold request, http, read_answer, mbind, M_bind. fold r. destruct (serve r (world s)) as [w [x|]]; [|done].
  destruct (400 <=? rs_status x); [by destruct (rs_json x) as [[]|]|].
  destruct ((rs_status x =? 204) || bool_decide (rs_text x = "")); [done|]. by destruct (rs_json x).
Qed.

Lemma db_path_base o p : db_path o p "" = join ["organizations"; o; "projects"; p; "databases"].
Proof. unfold db_path, projects_path, org_path. cbn [join]. by rewrite bool_decide_eq_true_2, !str_app_assoc, ?str_app_nil_r. Qed.
Lemma db_path_database o p d : plain d = true -> db_path o p d = join ["organizations"; o; "projects"; p; "databases"; d].
Proof.
  intros [Hd _]%plain_inv. unfold db_path, projects_path, org_path. cbn [join].
  by rewrite bool_decide_eq_false_2, !str_app_assoc, ?str_app_nil_r.
Qed.

Ltac serves :=
  rewrite ?db_path_base, ?db_path_database by (repeat match goal with H : Forall _ (_ :: _) |- _ => inversion_clear H end; done);
  eapply api_route_named; [vm_compute; reflexivity|reflexivity| |reflexivity|assumption];
  unfold url, webhooks_path, projects_path, org_path; cbn [rt_path fill join]; by rewrite ?str_app_assoc, ?str_app_nil_r.

Lemma client_method_request c call :
  Forall (fun a => plain a = true) (meant_for call).2 ->
  exists method path body, client_method c call = request c method path body /\
    api_route method path = Some (meant_for call) /\ accepts (payload_of (meant_for call).1) body = true.
Proof.
  intros Hargs. destruct call; cbn [meant_for snd fst] in *; (eexists _, _, _; split; [reflexivity|split; [serves|]]).
  all: try (vm_compute; reflexivity).
  - unfold VOpt. destruct otp_code; [case_bool_decide|]; reflexivity.
  - unfold VOpt. destruct role_id; [case_bool_decide|]; reflexivity.
  - assert (forallb is_text (VText <$> event_types) = true) as E by (induction event_types; done).
    revert E. generalize (VText <$> event_types). intros l E.
    replace (payload_of "webhooks.create_webhook") with (Some WebhookCreate) by reflexivity. cbn -[is_text]. by rewrite E.
Qed.

(** *** Waiting *)

Definition now (s : Session W) : Z := monotonic (world s).

Lemma request_time c method path body s : now s <= now (request c method path body s).1.
Proof.
  pose proof (request_run c method path body s) as H. cbv zeta in H.
  pose proof (serve_takes_time (mkRequest (base_url c) method path body (headers c)) (world s)) as Ht.
  destruct (serve _ _) as [w a]. rewrite H. exact Ht.
Qed.

Lemma get_job_answer c job s :
  exists w a, get_job c job s = (s <| world := w |> <| exchanges ::= fun xs => xs ++ [a] |>, read_answer a.2) /\ now s <= monotonic w.
Proof.
  pose proof (request_run c "GET" ("/jobs/" +:+ job) None s) as H. cbv zeta in H.
  pose proof (serve_takes_time (mkRequest (base_url c) "GET" ("/jobs/" +:+ job) None (headers c)) (world s)) as Ht.
  destruct (serve _ _) as [w a]. eexists w, (_, a). split; [exact H|exact Ht].
Qed.

Lemma read_answer_exc a : read_answer a <> Exc OutOfFuel.
Proof. destruct a as [r|]; cbn; [|done]. repeat case_match; done. Qed.
Lemma getitem_exc v k : getitem v k <> Exc OutOfFuel.
Proof. destruct v; cbn; try done. by case_match. Qed.
Lemma is_terminal_exc v : is_terminal v <> Exc OutOfFuel.
Proof. by destruct v. Qed.

(** [n] more requests, and a job that is over if the loop returns one. *)
Definition waited (n : nat) (s : Session W) (r : Session W * outcome json) : Prop :=
  r.2 <> Exc OutOfFuel /\ (exists xs, exchanges r.1 = exchanges s ++ xs /\ (length xs <= n)%nat) /\
  (forall v, r.2 = Ret v -> exists x, getitem v "status" = Ret x /\ is_terminal x = Ret true).

Lemma poll_job_ends fuel c job interval timeout start s :
  0 < interval -> start <= now s -> (timeout - (now s - start)) / interval + 2 <= Z.of_nat fuel -> (0 < fuel)%nat ->
  waited fuel s (poll_job fuel c job interval timeout start s).
Proof.
  intros Hi. revert s. induction fuel as [|fuel IH]; intros s Hs Hf Hpos; [lia|]. clear Hpos. cbn [poll_job].
  unfold mbind at 1, M_bind at 1. destruct (get_job_answer c job s) as (w & a & -> & Ht).
  set (s1 := s <| world := w |> <| exchanges ::= _ |>).
  assert (exists xs, exchanges s1 = exchanges s ++ xs /\ (length xs <= S fuel)%nat) as Hx by (exists [a]; cbn; split; [done|lia]).
  destruct (read_answer a.2) as [job'|e] eqn:Ea; [|split_and!; cbn; [intros [= ->]; by eapply read_answer_exc|done..]].
  unfold mbind at 1, M_bind at 1, lift_outcome at 1.
  destruct (getitem job' "status") as [x|e] eqn:Ex; [|split_and!; cbn; [intros [= ->]; by eapply getitem_exc|done..]].
  unfold mbind at 1, M_bind at 1, lift_outcome at 1.
  destruct (is_terminal x) as [[]|e] eqn:Et; [split_and!; cbn; [done|done|intros ? [= <-]; by exists x]|
    |split_and!; cbn; [intros [= ->]; by eapply is_terminal_exc|done..]].
  unfold mbind at 1, M_bind at 1, clock at 1, gets at 1. change (monotonic (world s1)) with (monotonic w).
  destruct (Z.ltb_spec timeout (monotonic w - start)) as [|Hle]; [split_and!; done|].
  unfold mbind, M_bind, asyncio_sleep, modify.
  set (s2 := s1 <| world ::= sleep interval |>).
  assert (monotonic w + interval <= now s2) as Hw by (apply sleep_takes_time; lia).
  assert ((timeout - (now s2 - start)) / interval + 2 <= Z.of_nat fuel) as Hf'.
  { transitivity ((timeout - (now s - start) - 1 * interval) / interval + 2).
    - apply Z.add_le_mono_r, Z.div_le_mono; lia.
    - replace (timeout - (now s - start) - 1 * interval) with (timeout - (now s - start) + (-1) * interval) by lia.
      rewrite Z.div_add by lia. lia. }
  assert (0 < fuel)%nat as Hpos.
  { assert (0 <= (timeout - (now s - start)) / interval) by (apply Z.div_pos; lia). lia. }
  destruct (IH s2 ltac:(lia) Hf' Hpos) as (He & (xs & Hxs & Hl) & Hr). split_and!; [done| |done].
  exists (a :: xs). rewrite Hxs. cbn. split; [by rewrite <- app_assoc|lia].
Qed.

(** ** Properties *)


(** C31. Waiting for a job ends: whatever the server answers and however slow it is, the
    loop returns a job that is over or raises, after at most one request per interval of
    the timeout and two more. *)
Theorem wait_for_job_answers c job interval timeout s :
  0 < interval ->
  let '(t, r) := wait_for_job c job interval timeout s in
  r <> Exc OutOfFuel /\
  (exists xs, exchanges t = exchanges s ++ xs /\ (length xs <= Z.to_nat (timeout / interval) + 2)%nat) /\
  (forall v, r = Ret v -> exists x, getitem v "status" = Ret (VText x) /\ x ∈ TERMINAL_JOB_STATUSES).
Proof.
  intros Hi. unfold wait_for_job, clock, mbind, M_bind, gets. fold (now s).
  assert ((timeout - (now s - now s)) / interval + 2 <= Z.of_nat (polls interval timeout)) as Hp.
  { unfold polls. rewrite Z.sub_diag, Z.sub_0_r. lia. }
  destruct (poll_job_ends (polls interval timeout) c job interval timeout (now s) s Hi ltac:(lia) Hp) as (He & Hx & Hr);
    [unfold polls; lia|].
  destruct (poll_job _ _ _ _ _ _ _) as [t r]. split_and!; [done..|]. intros v Hv. destruct (Hr v Hv) as (x & Hg & Ht).
  destruct x; try done. eexists. split; [done|]. cbn in Ht. injection Ht as Ht. by apply bool_decide_eq_true in Ht.
Qed.
End client.

(** *** A control plane that answers at once, and whose jobs take three seconds *)

Definition example_answer (final : string) (r : Request) (now : Z) : json :=
  match api_route (rq_method r) (rq_path r) with
  | Some ("jobs.get_job", [id]) => VDict [("id", VText id); ("status", VText (if now <? seconds 3 then "running" else final))]
  | Some ("organizations.list_my_organizations", _) =>
      VList [VDict [("id", VText "o1"); ("slug", VText "globex")]; VDict [("id", VText "o2"); ("slug", VText "acme")]]
  | Some ("projects.list_projects", _) => VList [VDict [("id", VText "p1"); ("slug", VText "shop")]]
  | Some ("databases.list_databases", _) =>
      VList [VDict [("id", VText "d1"); ("name", VText "production")]; VDict [("id", VText "d2"); ("name", VText "staging")]]
  | Some (_, id :: _) => VDict [("id", VText id); ("job_id", VText "j1"); ("database", VDict [("id", VText "d9")])]
  | _ => VDict [("access_token", VText "t1")]
  end.
Program Definition network_of (final : string) : Network Z := {|
  serve := fun r now => (now + 1000, Some (mkResponse 200 "{...}" (Some (example_answer final r now))));
  sleep := fun d now => now + Z.max 0 d;
  monotonic := fun now => now;
  repr := fun _ => "?";
|}.
Next Obligation. cbn. lia. Qed.
Next Obligation. cbn. lia. Qed.
#[export] Instance example_network : Network Z := network_of "succeeded".

Definition example_session : Session Z := mkSession 0 [] ∅ ∅ [].


Lemma wait_for_job_answers_witness :
  let c := new_client DEFAULT_BASE_URL (Some "t1") in
  let r := wait_for_job c "j1" (seconds 1) (seconds 120) example_session in
  (exists v, r.2 = Ret v /\ getitem v "status" = Ret (VText "succeeded")) /\ length (exchanges r.1) = 4%nat /\ r.2 <> Exc OutOfFuel.
Proof.
  split; [eexists; vm_compute; split; reflexivity|]. split; [vm_compute; reflexivity|].
  pose proof (wait_for_job_answers (new_client DEFAULT_BASE_URL (Some "t1")) "j1" (seconds 1) (seconds 120) example_session) as H.
  destruct (wait_for_job _ _ _ _ _) as [t r]. apply H. reflexivity.
Defined.
