(* ===== verification/Cli.v ===== *)
(** * The command line: [sdk/eminidatabase_sdk/cli.py], [auth_store.py]

    A command resolves the names it was given to ids, with read requests, and then sends at
    most one request that is not a read. The parsing of the arguments is Typer's. *)

From S2P Require Import Prelude PyStd Api Sdk.

(** ** Model *)

Section cli.
Context `{Net : Network W}.
(** [Path.home()] *)
Context (home : string).

(** *** Credentials *)

Definition getenv (key : string) : M (Session W) (option string) := gets (fun s => environ s !! key).
Definition config_dir : M (Session W) string :=
  override ← getenv "EMINIDATABASE_CONFIG_DIR";
  mret (match override with
        | Some dir => if bool_decide (dir = "") then home +:+ "/.eminidatabase" else dir
        | None => home +:+ "/.eminidatabase"
        end).
Definition credentials_path : M (Session W) string := dir ← config_dir; mret (dir +:+ "/credentials.json").
Definition save_credentials (base_url email token : string) : M (Session W) unit :=
  path ← credentials_path; modify (fun s => s <| files ::= <[path := (base_url, email, token)]> |>).
Definition load_credentials : M (Session W) (option (string * string * string)) :=
  path ← credentials_path; gets (fun s => files s !! path).
Definition clear_credentials : M (Session W) unit :=
  path ← credentials_path; modify (fun s => s <| files ::= delete path |>).

(** *** What the commands share *)

Definition print (v : json) : M (Session W) unit := modify (fun s => s <| output ::= fun l => l ++ [v] |>).
(** [_run] *)
Definition run_ (m : M (Session W) unit) : M (Session W) unit :=
  try_except m (fun e => match e with ApiError _ => Some (raise (Exit 1)) | _ => None end).
Definition authenticated_client : M (Session W) PlatformClient :=
  found ← load_credentials;
  creds ← some_or found (Exit 1);
  env ← getenv "EMINIDATABASE_API_URL";
  mret (new_client (default creds.1.1 env) (Some creds.2)).

(** [for x in l: if x[key] == ref: return x] *)
Fixpoint first_match (key ref : string) (l : list json) : M (Session W) json :=
  match l with
  | [] => raise (Exit 1)
  | x :: l =>
      v ← lift_outcome (getitem x key);
      if match v with VText name => bool_decide (name = ref) | _ => false end then mret x else first_match key ref l
  end.
Definition resolve_organization (c : PlatformClient) (ref : string) : M (Session W) json :=
  if is_uuid ref then get_organization c ref
  else all ← list_organizations c; l ← lift_outcome (iterate all); first_match "slug" ref l.
Definition resolve_project (c : PlatformClient) (organization_id ref : string) : M (Session W) json :=
  if is_uuid ref then get_project c organization_id ref
  else all ← list_projects c organization_id; l ← lift_outcome (iterate all); first_match "slug" ref l.
Definition resolve_database (c : PlatformClient) (organization_id project_id ref : string) : M (Session W) json :=
  if is_uuid ref then get_database c organization_id project_id ref
  else all ← list_databases c organization_id project_id; l ← lift_outcome (iterate all); first_match "name" ref l.

(** [f"{v[key]}"] *)
Definition text_item (v : json) (key : string) : M (Session W) string := x ← lift_outcome (getitem v key); mret (text x).
(** [v[key] = x] *)
Definition setitem (v : json) (key : string) (x : json) : outcome json :=
  match v with
  | VDict d =>
      Ret (VDict (match dict_get d key with
                  | Some _ => (fun kv => (kv.1, if bool_decide (kv.1 = key) then x else kv.2)) <$> d
                  | None => d ++ [(key, x)]
                  end))
  | _ => Exc TypeError
  end.

(** The lines the commands on an organization, a project and a database begin with. *)
Definition on_organization (organization : string) (k : PlatformClient -> string -> M (Session W) unit) : M (Session W) unit :=
  c ← authenticated_client;
  org ← resolve_organization c organization;
  i ← text_item org "id";
  k c i.
Definition on_project (organization project : string) (k : PlatformClient -> string -> string -> M (Session W) unit) : M (Session W) unit :=
  on_organization organization (fun c i =>
    proj ← resolve_project c i project;
    j ← text_item proj "id";
    k c i j).
Definition on_database (organization project name : string)
    (k : PlatformClient -> string -> string -> json -> M (Session W) unit) : M (Session W) unit :=
  on_project organization project (fun c i j => database ← resolve_database c i j name; k c i j database).

(** *** The commands *)

(** The end of the commands with [--wait]. *)
Definition wait_then (c : PlatformClient) (wait : bool) (result : json) (key : string)
    (refresh : string -> M (Session W) json) : M (Session W) unit :=
  result ←
    (if wait then
       job ← text_item result "job_id";
       wait_for_job c job (seconds 1) (seconds 120);;
       x ← lift_outcome (getitem result key);
       id ← text_item x "id";
       fresh ← refresh id;
       lift_outcome (setitem result key fresh)
     else mret result);
  print result.

Definition login_command (email password api_url : string) (otp : option string) : M (Session W) unit :=
  r ← login (new_client api_url None) email password otp;
  save_credentials api_url email (text r.2).
Definition whoami : M (Session W) unit := c ← authenticated_client; r ← me c; print r.
Definition organizations_create (name slug : string) : M (Session W) unit :=
  c ← authenticated_client; r ← create_organization c name slug; print r.
Definition organizations_list : M (Session W) unit := c ← authenticated_client; r ← list_organizations c; print r.
Definition projects_create (organization name slug : string) : M (Session W) unit :=
  on_organization organization (fun c i => r ← create_project c i name slug; print r).
Definition projects_list (organization : string) : M (Session W) unit :=
  on_organization organization (fun c i => r ← list_projects c i; print r).
Definition db_create (organization project name region isolation : string) (cpu ram storage : Z) (wait : bool) : M (Session W) unit :=
  on_project organization project (fun c i j =>
    result ← create_database c i j name region isolation cpu ram storage;
    wait_then c wait result "database" (get_database c i j)).
Definition db_list (organization project : string) : M (Session W) unit :=
  on_project organization project (fun c i j => r ← list_databases c i j; print r).
Definition db_get (organization project name : string) : M (Session W) unit :=
  on_database organization project name (fun _ _ _ database => print database).
Definition db_connect (organization project name : string) : M (Session W) unit :=
  on_database organization project name (fun c i j database => d ← text_item database "id"; r ← get_connection c i j d; print r).
Definition db_delete (organization project name : string) : M (Session W) unit :=
  on_database organization project name (fun c i j database => d ← text_item database "id"; r ← delete_database c i j d; print r).
Definition db_suspend (organization project name : string) : M (Session W) unit :=
  on_database organization project name (fun c i j database => d ← text_item database "id"; r ← suspend_database c i j d; print r).
Definition db_resume (organization project name : string) : M (Session W) unit :=
  on_database organization project name (fun c i j database => d ← text_item database "id"; r ← resume_database c i j d; print r).
Definition db_resize (organization project name : string) (cpu ram storage : Z) : M (Session W) unit :=
  on_database organization project name (fun c i j database =>
    d ← text_item database "id"; r ← resize_database c i j d cpu ram storage; print r).
Definition db_sql (organization project name query : string) : M (Session W) unit :=
  on_database organization project name (fun c i j database =>
    d ← text_item database "id"; r ← execute_sql c i j d query None; print r).
Definition backup_create (organization project name : string) (wait : bool) : M (Session W) unit :=
  on_database organization project name (fun c i j database =>
    d ← text_item database "id";
    result ← create_backup c i j d;
    wait_then c wait result "backup" (get_backup c i j d)).
Definition backup_list (organization project name : string) : M (Session W) unit :=
  on_database organization project name (fun c i j database => d ← text_item database "id"; r ← list_backups c i j d; print r).
Definition db_restore (organization project name backup_id new_name : string) (wait : bool) : M (Session W) unit :=
  on_database organization project name (fun c i j database =>
    d ← text_item database "id";
    result ← restore_backup c i j d backup_id new_name;
    wait_then c wait result "database" (get_database c i j)).
Definition webhooks_create (organization url : string) (event_types : list string) : M (Session W) unit :=
  on_organization organization (fun c i => r ← create_webhook c i url event_types; print r).
Definition webhooks_list (organization : string) : M (Session W) unit :=
  on_organization organization (fun c i => r ← list_webhooks c i; print r).
Definition webhooks_delete (organization webhook_id : string) : M (Session W) unit :=
  on_organization organization (fun c i => r ← delete_webhook c i webhook_id; print r).
Definition webhooks_deliveries (organization webhook_id : string) : M (Session W) unit :=
  on_organization organization (fun c i => r ← list_webhook_deliveries c i webhook_id; print r).
Definition jobs_get (job_id : string) : M (Session W) unit := c ← authenticated_client; r ← get_job c job_id; print r.

Inductive command :=
| Login (email password api_url : string) (otp : option string) | Logout | Whoami
| OrganizationsCreate (name slug : string) | OrganizationsList
| ProjectsCreate (organization name slug : string) | ProjectsList (organization : string)
| DbCreate (organization project name region isolation : string) (cpu ram storage : Z) (wait : bool)
| DbList (organization project : string) | DbGet (organization project name : string) | DbConnect (organization project name : string)
| DbDelete (organization project name : string) | DbSuspend (organization project name : string)
| DbResume (organization project name : string) | DbResize (organization project name : string) (cpu ram storage : Z)
| DbSql (organization project name query : string) | BackupCreate (organization project name : string) (wait : bool)
| BackupList (organization project name : string) | DbRestore (organization project name backup_id new_name : string) (wait : bool)
| WebhooksCreate (organization url : string) (event_types : list string) | WebhooksList (organization : string)
| WebhooksDelete (organization webhook_id : string) | WebhooksDeliveries (organization webhook_id : string) | JobsGet (job_id : string).

Definition run_command (cmd : command) : M (Session W) unit :=
  match cmd with
  | Login email password api_url otp => run_ (login_command email password api_url otp)
  | Logout => clear_credentials
  | Whoami => run_ whoami
  | OrganizationsCreate name slug => run_ (organizations_create name slug)
  | OrganizationsList => run_ organizations_list
  | ProjectsCreate o name slug => run_ (projects_create o name slug)
  | ProjectsList o => run_ (projects_list o)
  | DbCreate o p name region isolation cpu ram storage wait => run_ (db_create o p name region isolation cpu ram storage wait)
  | DbList o p => run_ (db_list o p)
  | DbGet o p name => run_ (db_get o p name)
  | DbConnect o p name => run_ (db_connect o p name)
  | DbDelete o p name => run_ (db_delete o p name)
  | DbSuspend o p name => run_ (db_suspend o p name)
  | DbResume o p name => run_ (db_resume o p name)
  | DbResize o p name cpu ram storage => run_ (db_resize o p name cpu ram storage)
  | DbSql o p name query => run_ (db_sql o p name query)
  | BackupCreate o p name wait => run_ (backup_create o p name wait)
  | BackupList o p name => run_ (backup_list o p name)
  | DbRestore o p name b new_name wait => run_ (db_restore o p name b new_name wait)
  | WebhooksCreate o url events => run_ (webhooks_create o url events)
  | WebhooksList o => run_ (webhooks_list o)
  | WebhooksDelete o w => run_ (webhooks_delete o w)
  | WebhooksDeliveries o w => run_ (webhooks_deliveries o w)
  | JobsGet job => run_ (jobs_get job)
  end.

(** *** What a command is about *)

Definition exchange : Type := Request * option Response.
Definition reads_only (xs : list exchange) : Prop := Forall (fun x => rq_method x.1 = "GET") xs.

(** [v] is what [ref] names among the objects at [base]: the object of that id, or one of the
    list with that name, according to an answer in [xs]. *)
Definition resolved (base key ref : string) (v : json) (xs : list exchange) : Prop :=
  exists q a u, (q, a) ∈ xs /\ rq_method q = "GET" /\ read_answer a = Ret u /\
    if is_uuid ref then rq_path q = base +:+ "/" +:+ ref /\ v = u
    else rq_path q = base /\ exists l, iterate u = Ret l /\ v ∈ l /\ getitem v key = Ret (VText ref).

Inductive target := Anything | Organization (o : string) | Project (o p : string) | Database (o p name : string).

(** The ids of the targets, and the path of one, according to the answers in [xs]. *)
Definition organization_id (o i : string) (xs : list exchange) : Prop :=
  exists v x, resolved "/organizations" "slug" o v xs /\ getitem v "id" = Ret x /\ i = text x.
Definition project_id (o p i j : string) (xs : list exchange) : Prop :=
  organization_id o i xs /\ exists v x, resolved (projects_path i) "slug" p v xs /\ getitem v "id" = Ret x /\ j = text x.
Definition database_id (o p name i j d : string) (xs : list exchange) : Prop :=
  project_id o p i j xs /\ exists v x, resolved (db_path i j "") "name" name v xs /\ getitem v "id" = Ret x /\ d = text x.
Definition located (tg : target) (path : string) (xs : list exchange) : Prop :=
  match tg with
  | Anything => path = ""
  | Organization o => exists i, organization_id o i xs /\ path = org_path i
  | Project o p => exists i j, project_id o p i j xs /\ path = projects_path i +:+ "/" +:+ j
  | Database o p name => exists i j d, database_id o p name i j d xs /\ path = db_path i j d
  end.

(** The request a command is for: its target, method, the rest of the path and the body. *)
Definition intent (cmd : command) : option (target * (string * string * option json)) :=
  let body l := Some (VDict l) in
  match cmd with
  | Login email password _ otp => Some (Anything, ("POST", "/auth/login",
      body ([("email", VText email); ("password", VText password)] ++ VOpt "otp_code" otp)))
  | OrganizationsCreate name slug => Some (Anything, ("POST", "/organizations", body [("name", VText name); ("slug", VText slug)]))
  | ProjectsCreate o name slug => Some (Organization o, ("POST", "/projects", body [("name", VText name); ("slug", VText slug)]))
  | DbCreate o p name region isolation cpu ram storage _ => Some (Project o p, ("POST", "/databases",
      body [("name", VText name); ("region_code", VText region); ("isolation_level", VText isolation);
            ("cpu_limit", VNum cpu); ("ram_limit_mb", VNum ram); ("storage_limit_gb", VNum storage)]))
  | DbDelete o p name => Some (Database o p name, ("DELETE", "", None))
  | DbSuspend o p name => Some (Database o p name, ("POST", "/suspend", None))
  | DbResume o p name => Some (Database o p name, ("POST", "/resume", None))
  | DbResize o p name cpu ram storage => Some (Database o p name, ("POST", "/resize",
      body [("cpu_limit", VNum cpu); ("ram_limit_mb", VNum ram); ("storage_limit_gb", VNum storage)]))
  | DbSql o p name query => Some (Database o p name, ("POST", "/sql/execute", body [("query", VText query)]))
  | BackupCreate o p name _ => Some (Database o p name, ("POST", "/backups", None))
  | DbRestore o p name b new_name _ => Some (Database o p name, ("POST", "/backups/" +:+ b +:+ "/restore", body [("name", VText new_name)]))
  | WebhooksCreate o url events => Some (Organization o, ("POST", "/webhooks",
      body [("url", VText url); ("event_types", VList (VText <$> events))]))
  | WebhooksDelete o w => Some (Organization o, ("DELETE", "/webhooks/" +:+ w, None))
  | Logout | Whoami | OrganizationsList | ProjectsList _ | DbList _ _ | DbGet _ _ _ | DbConnect _ _ _ | BackupList _ _ _
  | WebhooksList _ | WebhooksDeliveries _ _ | JobsGet _ => None
  end.

(** [xs] is what a command with that intent may exchange, ending with [r]: reads that find
    the target, the request, and reads; or reads only, and then it has not returned. *)
Definition acts {A} (i : option (target * (string * string * option json))) (xs : list exchange) (r : outcome A) : Prop :=
  match i with
  | None => reads_only xs
  | Some (tg, (method, suffix, body)) =>
      (reads_only xs /\ forall u, r <> Ret u) \/
      exists gs q a gs' base, xs = gs ++ (q, a) :: gs' /\ reads_only gs /\ reads_only gs' /\ located tg base gs /\
        rq_method q = method /\ rq_path q = base +:+ suffix /\ rq_json q = body /\
        (forall u, r = Ret u -> exists v, read_answer a = Ret v)
  end.

(** ** Lemmas *)

(** [emits Q m]: what [m] exchanges, and how it ends, are in [Q]. *)
Definition emits {A} (Q : list exchange -> outcome A -> Prop) (m : M (Session W) A) : Prop :=
  forall s, exists xs, exchanges (m s).1 = exchanges s ++ xs /\ Q xs (m s).2.

Lemma emits_weaken {A} (P Q : list exchange -> outcome A -> Prop) m : emits P m -> (forall xs r, P xs r -> Q xs r) -> emits Q m.
Proof. intros H HPQ s. destruct (H s) as (xs & Hx & HP). exists xs. auto. Qed.

Lemma emits_bind {A B} (P : list exchange -> outcome A -> Prop) (Q : list exchange -> outcome B -> Prop) m f :
  emits P m -> (forall xs e, P xs (Exc e) -> Q xs (Exc e)) ->
  (forall xs a, P xs (Ret a) -> emits (fun ys => Q (xs ++ ys)) (f a)) -> emits Q (m ≫= f).
Proof.
  intros Hm He Hf s. unfold mbind, M_bind. destruct (Hm s) as (xs & Hx & HP). destruct (m s) as [t [a|e]]; cbn in *.
  - destruct (Hf xs a HP t) as (ys & Hy & HQ). exists (xs ++ ys). by rewrite Hy, Hx, <- app_assoc.
  - exists xs. auto.
Qed.

(** A step that exchanges nothing. *)
Definition silent {A} (m : M (Session W) A) : Prop := forall s, exchanges (m s).1 = exchanges s.
Lemma emits_silent {A} (m : M (Session W) A) : silent m -> emits (fun xs _ => xs = []) m.
Proof. intros H s. exists []. by rewrite H, app_nil_r. Qed.
Lemma emits_lift {A} (x : outcome A) : emits (fun xs r => xs = [] /\ r = x) (lift_outcome x).
Proof. intros s. exists []. by rewrite app_nil_r. Qed.
Lemma silent_bind {A B} (m : M (Session W) A) (f : A -> M (Session W) B) : silent m -> (forall a, silent (f a)) -> silent (m ≫= f).
Proof. intros Hm Hf s. unfold mbind, M_bind. specialize (Hm s). destruct (m s) as [t [a|e]]; [|done]. by rewrite (Hf a t). Qed.
Lemma silent_gets {A} (f : Session W -> A) : silent (gets f).
Proof. done. Qed.
Lemma silent_ret {A} (a : A) : silent (mret a).
Proof. done. Qed.
Lemma silent_some_or {A} (x : option A) e : silent (some_or x e).
Proof. by destruct x. Qed.
Lemma silent_path : silent credentials_path.
Proof. repeat (apply silent_bind; [done|intros ?]). done. Qed.
Lemma silent_client : silent authenticated_client.
Proof.
  repeat (apply silent_bind; [first [apply silent_path|apply silent_some_or|done|apply silent_bind; [apply silent_path|done]]|intros ?]).
  done.
Qed.
Lemma silent_print v : silent (print v).
Proof. done. Qed.

Lemma emits_request c method path body :
  emits (fun xs r => exists q a, xs = [(q, a)] /\ rq_method q = method /\ rq_path q = path /\ rq_json q = body /\ r = read_answer a)
    (request c method path body).
Proof.
  intros s. pose proof (request_run c method path body s) as H. cbv zeta in H. destruct (serve _ _) as [w a]. rewrite H.
  eexists [(_, a)]. split; [done|]. by eexists _, a.
Qed.

Lemma resolved_more base key ref v xs ys : resolved base key ref v xs -> resolved base key ref v (xs ++ ys).
Proof.
  intros (q & a & u & Hin & H). exists q, a, u. split; [|done]. apply elem_of_app. by left.
Qed.
Lemma reads_app xs ys : reads_only xs -> reads_only ys -> reads_only (xs ++ ys).
Proof. apply Forall_app_2. Qed.

Lemma emits_first_match key ref l :
  emits (fun xs r => xs = [] /\ forall v, r = Ret v -> v ∈ l /\ getitem v key = Ret (VText ref)) (first_match key ref l).
Proof.
  induction l as [|x l IH]; cbn [first_match]; [intros s; exists []; by rewrite app_nil_r|].
  eapply emits_bind; [apply emits_lift|intros xs e [-> _]; by split|]. intros xs y [-> Hy]. symmetry in Hy. cbn [app].
  assert (forall b : bool, (b = true -> y = VText ref) ->
    emits (fun xs r => xs = [] /\ forall v, r = Ret v -> v ∈ x :: l /\ getitem v key = Ret (VText ref))
      (if b then mret x else first_match key ref l)) as Hb.
  { intros [] Hb.
    - intros s. exists []. rewrite app_nil_r. split; [done|]. split; [done|]. intros v [= <-]. rewrite Hy, Hb by done. split; [left|done].
    - eapply emits_weaken; [apply IH|]. intros xs r [-> Hr]. split; [done|]. intros v Hv. destruct (Hr v Hv). split; [by right|done]. }
  apply Hb. destruct y; try done. intros H. by apply bool_decide_eq_true in H as ->.
Qed.

Lemma emits_resolve c base key ref :
  emits (fun xs r => reads_only xs /\ forall v, r = Ret v -> resolved base key ref v xs)
    (if is_uuid ref then request c "GET" (base +:+ "/" +:+ ref) None
     else all ← request c "GET" base None; l ← lift_outcome (iterate all); first_match key ref l).
Proof.
  unfold resolved. destruct (is_uuid ref).
  - eapply emits_weaken; [apply emits_request|]. intros xs r (q & a & -> & Hm & Hp & _ & ->). split; [by repeat constructor|].
    intros v Hv. exists q, a, v. split_and!; [by left|done..].
  - eapply emits_bind; [apply emits_request| |].
    { intros xs e (q & a & -> & Hm & _). split; [by repeat constructor|done]. }
    intros xs all (q & a & -> & Hm & Hp & _ & Ha).
    eapply emits_bind; [apply emits_lift| |].
    { intros ? e [-> _]. split; [by repeat constructor|done]. }
    intros ? l [-> Hl]. eapply emits_weaken; [apply emits_first_match|]. intros ? r [-> Hr]. split; [by repeat constructor|].
    intros v [Hv Hk]%Hr. exists q, a, all. split_and!; [by left|done..|]. by exists l.
Qed.

Lemma emits_organization c ref :
  emits (fun xs r => reads_only xs /\ forall v, r = Ret v -> resolved "/organizations" "slug" ref v xs) (resolve_organization c ref).
Proof. exact (emits_resolve c "/organizations" "slug" ref). Qed.
Lemma emits_project c i ref :
  emits (fun xs r => reads_only xs /\ forall v, r = Ret v -> resolved (projects_path i) "slug" ref v xs) (resolve_project c i ref).
Proof. exact (emits_resolve c (projects_path i) "slug" ref). Qed.
Lemma emits_database c i j ref :
  emits (fun xs r => reads_only xs /\ forall v, r = Ret v -> resolved (db_path i j "") "name" ref v xs) (resolve_database c i j ref).
Proof.
  assert (resolve_database c i j ref = if is_uuid ref then request c "GET" (db_path i j "" +:+ "/" +:+ ref) None
     else all ← request c "GET" (db_path i j "") None; l ← lift_outcome (iterate all); first_match "name" ref l) as ->.
  { unfold resolve_database, get_database, list_databases. destruct (is_uuid ref) eqn:E; [|done].
    unfold db_path. rewrite bool_decide_eq_false_2 by (by intros ->). done. }
  apply emits_resolve.
Qed.

Lemma emits_text_item v key :
  emits (fun xs r => xs = [] /\ forall t, r = Ret t -> exists x, getitem v key = Ret x /\ t = text x) (text_item v key).
Proof.
  eapply emits_bind; [apply emits_lift|intros ? e [-> _]; by split|]. intros ? x [-> Hx] s. exists []. rewrite app_nil_r.
  split; [done|]. split; [done|]. intros t [= <-]. by exists x.
Qed.

Lemma emits_assoc {A} (Q : list exchange -> outcome A -> Prop) gs hs m :
  emits (fun ys => Q ((gs ++ hs) ++ ys)) m -> emits (fun ys => Q (gs ++ hs ++ ys)) m.
Proof. intros H. eapply emits_weaken; [exact H|]. intros ys r. cbv beta; by rewrite <- app_assoc. Qed.

Section combinators.
Context (Q : list exchange -> outcome unit -> Prop) (Hexc : forall xs e, reads_only xs -> Q xs (Exc e)).

Lemma emits_client (f : PlatformClient -> M (Session W) unit) :
  (forall c, emits Q (f c)) -> emits Q (c ← authenticated_client; f c).
Proof.
  intros Hf. eapply emits_bind; [apply emits_silent, silent_client|intros ? e ->; apply Hexc; constructor|]. intros ? c ->. exact (Hf c).
Qed.

Lemma emits_on_organization o k :
  (forall c i gs, reads_only gs -> organization_id o i gs -> emits (fun ys => Q (gs ++ ys)) (k c i)) ->
  emits Q (on_organization o k).
Proof.
  intros Hk. apply emits_client. intros c. eapply emits_bind; [apply emits_organization|by intros xs e [Hr _]; apply Hexc|].
  intros gs v [Hgs Hv]. eapply emits_bind; [apply emits_text_item|intros ? e [-> _]; apply Hexc; by rewrite app_nil_r|].
  intros ? i [-> Hi]. apply Hk; [done|]. destruct (Hi i eq_refl) as (x & Hx & ->). exists v, x. auto.
Qed.
End combinators.

Lemma organization_id_more o i xs ys : organization_id o i xs -> organization_id o i (xs ++ ys).
Proof. intros (v & x & H & Hx). exists v, x. split; [by apply resolved_more|done]. Qed.
Lemma project_id_more o p i j xs ys : project_id o p i j xs -> project_id o p i j (xs ++ ys).
Proof.
  intros [Ho (v & x & H & Hx)]. split; [by apply organization_id_more|]. exists v, x. split; [by apply resolved_more|done].
Qed.

Lemma resolved_here base key ref v xs ys : resolved base key ref v ys -> resolved base key ref v (xs ++ ys).
Proof. intros (q & a & u & Hin & H). exists q, a, u. split; [|done]. apply elem_of_app. by right. Qed.

Section databases.
Context (Q : list exchange -> outcome unit -> Prop) (Hexc : forall xs e, reads_only xs -> Q xs (Exc e)).

Lemma emits_on_project o p k :
  (forall c i j gs, reads_only gs -> project_id o p i j gs -> emits (fun ys => Q (gs ++ ys)) (k c i j)) ->
  emits Q (on_project o p k).
Proof.
  intros Hk. apply emits_on_organization; [done|]. intros c i gs Hgs Ho.
  eapply emits_bind; [apply emits_project|intros xs e [Hr _]; by apply Hexc, reads_app|].
  intros hs v [Hhs Hv]. eapply emits_bind; [apply emits_text_item|intros ? e [-> _]; apply Hexc; rewrite app_nil_r; by apply reads_app|].
  intros ? j [-> Hj]. apply emits_assoc, Hk; [by apply reads_app|]. destruct (Hj j eq_refl) as (x & Hx & ->).
  split; [by apply organization_id_more|]. exists v, x. split; [|done]. by apply resolved_here, Hv.
Qed.

Lemma emits_on_database o p name k :
  (forall c i j v gs, reads_only gs -> project_id o p i j gs -> resolved (db_path i j "") "name" name v gs ->
     emits (fun ys => Q (gs ++ ys)) (k c i j v)) ->
  emits Q (on_database o p name k).
Proof.
  intros Hk. apply emits_on_project. intros c i j gs Hgs Hp.
  eapply emits_bind; [apply emits_database|intros xs e [Hr _]; by apply Hexc, reads_app|].
  intros hs v [Hhs Hv]. apply emits_assoc, Hk; [by apply reads_app|by apply project_id_more|by apply resolved_here, Hv].
Qed.

(** ... and when the id is read next. *)
Lemma emits_on_database_id o p name k :
  (forall c i j d gs, reads_only gs -> database_id o p name i j d gs -> emits (fun ys => Q (gs ++ ys)) (k c i j d)) ->
  emits Q (on_database o p name (fun c i j v => d ← text_item v "id"; k c i j d)).
Proof.
  intros Hk. apply emits_on_database. intros c i j v gs Hgs Hp Hv.
  eapply emits_bind; [apply emits_text_item|intros ? e [-> _]; apply Hexc; by rewrite app_nil_r|].
  intros ? d [-> Hd]. apply Hk; [done|]. destruct (Hd d eq_refl) as (x & Hx & ->). split; [done|]. exists v, x. auto.
Qed.
End databases.

(** *** Reading *)

Definition reading {A} (m : M (Session W) A) : Prop := emits (fun xs _ => reads_only xs) m.
Lemma reading_bind {A B} (m : M (Session W) A) (f : A -> M (Session W) B) : reading m -> (forall a, reading (f a)) -> reading (m ≫= f).
Proof.
  intros Hm Hf. eapply emits_bind; [exact Hm|done|]. intros xs a Hxs. eapply emits_weaken; [apply Hf|]. intros ys r Hys. by apply reads_app.
Qed.
Lemma reading_silent {A} (m : M (Session W) A) : silent m -> reading m.
Proof. intros H. eapply emits_weaken; [by apply emits_silent|]. intros ? ? ->. constructor. Qed.
Lemma reading_get c path body : reading (request c "GET" path body).
Proof. eapply emits_weaken; [apply emits_request|]. intros ? ? (q & a & -> & Hm & _). by repeat constructor. Qed.
Lemma reading_text_item v key : reading (text_item v key).
Proof. by apply reading_silent, silent_bind. Qed.
Lemma reading_print v : reading (print v).
Proof. by apply reading_silent. Qed.
Lemma reading_poll fuel c job interval timeout start : reading (poll_job fuel c job interval timeout start).
Proof.
  induction fuel as [|fuel IH]; cbn [poll_job]; [by apply reading_silent|].
  apply reading_bind; [apply reading_get|intros v]. apply reading_bind; [by apply reading_silent|intros x].
  apply reading_bind; [by apply reading_silent|intros b]. destruct b; [by apply reading_silent|].
  apply reading_bind; [by apply reading_silent|intros now]. destruct (timeout <? now - start); [by apply reading_silent|].
  apply reading_bind; [by apply reading_silent|done].
Qed.
Lemma reading_wait c job interval timeout : reading (wait_for_job c job interval timeout).
Proof. apply reading_bind; [by apply reading_silent|]. intros start. apply reading_poll. Qed.
Lemma reading_wait_then c wait result key refresh : (forall id, reading (refresh id)) -> reading (wait_then c wait result key refresh).
Proof.
  intros Hr. apply reading_bind; [|intros v; apply reading_print]. destruct wait; [|by apply reading_silent].
  apply reading_bind; [apply reading_text_item|intros job]. apply reading_bind; [apply reading_wait|intros _].
  apply reading_bind; [by apply reading_silent|intros x]. apply reading_bind; [apply reading_text_item|intros id].
  apply reading_bind; [apply Hr|intros fresh]. by apply reading_silent.
Qed.

(** *** Acting *)

Lemma acts_exc {A} i xs e : reads_only xs -> acts i xs (Exc e : outcome A).
Proof. destruct i as [[tg [[m x] b]]|]; [|done]. intros H. left. split; [done|]. intros u. discriminate. Qed.
Lemma acts_raise {A B} i xs e e' : acts i xs (Exc e : outcome A) -> acts i xs (Exc e' : outcome B).
Proof.
  destruct i as [[tg [[m x] b]]|]; [|done]. intros [[H _]|H]; [by apply acts_exc|].
  destruct H as (gs & q & a & gs' & base & H1 & H2 & H3 & H4 & H5 & H6 & H7 & _). right.
  exists gs, q, a, gs', base. by split_and!.
Qed.
Lemma acts_more {A B} i xs ys (a : A) (r : outcome B) : acts i xs (Ret a) -> reads_only ys -> acts i (xs ++ ys) r.
Proof.
  destruct i as [[tg [[m x] b]]|]; [|intros; by apply reads_app]. intros [[_ H]|H] Hys; [by destruct (H a)|]. right.
  destruct H as (gs & q & ans & gs' & base & -> & H2 & H3 & H4 & H5 & H6 & H7 & H8).
  exists gs, q, ans, (gs' ++ ys), base. split_and!; [by rewrite <- app_assoc|done|by apply reads_app|done..|]. intros _ _. by eapply H8.
Qed.
Lemma emits_acts_then {A B} i gs (m : M (Session W) A) (f : A -> M (Session W) B) :
  emits (fun ys => acts i (gs ++ ys)) m -> (forall a, reading (f a)) -> emits (fun ys => acts i (gs ++ ys)) (m ≫= f).
Proof.
  intros Hm Hf. eapply emits_bind; [exact Hm|intros xs e H; exact (acts_raise _ _ _ _ H)|]. intros xs a H.
  eapply emits_weaken; [apply Hf|]. intros ys r Hys. cbv beta. rewrite app_assoc. exact (acts_more _ _ _ _ _ H Hys).
Qed.
Lemma emits_act tg method suffix body base gs c path :
  reads_only gs -> located tg base gs -> path = base +:+ suffix ->
  emits (fun ys => acts (Some (tg, (method, suffix, body))) (gs ++ ys)) (request c method path body).
Proof.
  intros Hgs Hb ->. eapply emits_weaken; [apply emits_request|]. intros ? r (q & a & -> & Hm & Hp & Hj & ->). right.
  exists gs, q, a, [], base. split_and!; try done; [constructor|]. intros u Hu. by exists u.
Qed.
Lemma emits_read gs (m : M (Session W) unit) : reads_only gs -> reading m -> emits (fun ys => acts None (gs ++ ys)) m.
Proof. intros Hgs Hm. eapply emits_weaken; [exact Hm|]. intros ys r Hys. by apply reads_app. Qed.
Lemma emits_run i m : emits (acts i) m -> emits (acts i) (run_ m).
Proof.
  intros H s. destruct (H s) as (xs & Hx & Ha). exists xs. unfold run_, try_except. destruct (m s) as [t [u|e]]; [done|].
  destruct e; try done. cbn. split; [done|]. exact (acts_raise _ _ _ _ Ha).
Qed.

(** *** The commands *)

Lemma emits_reading i (m : M (Session W) unit) : i = None -> reading m -> emits (acts i) m.
Proof. by intros ->. Qed.

Ltac path_go := rewrite ?db_path_base; cbn [join]; unfold webhooks_path, projects_path, org_path; by rewrite ?str_app_assoc, ?str_app_nil_r.
Ltac act base := apply emits_acts_then; [apply (emits_act _ _ _ _ base); [done| |path_go]
  |intros; first [apply reading_print|apply reading_wait_then; intros; apply reading_get]].
Ltac reading_go :=
  repeat lazymatch goal with
  | |- reading (print _) => apply reading_print
  | |- reading (text_item _ _) => apply reading_text_item
  | |- reading (_ ≫= _) => apply reading_bind; [|intros]
  | |- reading _ => apply reading_get
  end.

Lemma acts_on_organization o m x b k :
  (forall c i gs, reads_only gs -> organization_id o i gs -> emits (fun ys => acts (Some (Organization o, (m, x, b))) (gs ++ ys)) (k c i)) ->
  emits (acts (Some (Organization o, (m, x, b)))) (run_ (on_organization o k)).
Proof. intros Hk. apply emits_run, emits_on_organization; [intros; by apply acts_exc|done]. Qed.
Lemma acts_on_database o p name m x b k :
  (forall c i j d gs, reads_only gs -> located (Database o p name) (db_path i j d) gs ->
     emits (fun ys => acts (Some (Database o p name, (m, x, b))) (gs ++ ys)) (k c i j d)) ->
  emits (acts (Some (Database o p name, (m, x, b)))) (run_ (on_database o p name (fun c i j v => d ← text_item v "id"; k c i j d))).
Proof.
  intros Hk. apply emits_run, emits_on_database_id; [intros; by apply acts_exc|]. intros c i j d gs Hgs Hd.
  apply Hk; [done|]. by exists i, j, d.
Qed.

Lemma reads_on_organization o k :
  (forall c i, reading (k c i)) -> emits (acts None) (run_ (on_organization o k)).
Proof.
  intros Hk. apply emits_run, emits_on_organization; [done|]. intros c i gs Hgs _. by apply emits_read.
Qed.
Lemma reads_on_database o p name k :
  (forall c i j v, reading (k c i j v)) -> emits (acts None) (run_ (on_database o p name k)).
Proof.
  intros Hk. apply emits_run, emits_on_database; [done|]. intros c i j v gs Hgs _ _. by apply emits_read.
Qed.

Lemma emits_top i (m : PlatformClient -> M (Session W) unit) :
  (forall c, emits (acts i) (m c)) -> emits (acts i) (run_ (c ← authenticated_client; m c)).
Proof. intros H. apply emits_run, emits_client; [intros; by apply acts_exc|done]. Qed.

Lemma login_acts email password api_url otp :
  emits (acts (intent (Login email password api_url otp))) (run_command (Login email password api_url otp)).
Proof.
  apply emits_run. unfold login_command, login. apply (emits_acts_then _ []).
  - apply (emits_acts_then _ []).
    + apply (emits_act _ _ _ _ ""); [constructor|done|done].
    + intros data. apply reading_silent, silent_bind; [done|]. done.
  - intros r. apply reading_silent, silent_bind; [apply silent_path|done].
Qed.

(** The commands that act on an organization or on a database. *)
Ltac acts_go :=
  lazymatch goal with
  | |- emits (acts (Some (Organization _, _))) _ => apply acts_on_organization; intros c i gs Hgs Ho; act (org_path i); by exists i
  | |- emits (acts (Some (Database _ _ _, _))) _ =>
      apply acts_on_database; intros c i j d gs Hgs Hd; act (db_path i j d); exact Hd
  end.
Ltac reads_top := apply emits_top; intros c; apply emits_reading; [done|]; reading_go.
Ltac reads_organization := apply reads_on_organization; intros c i; reading_go.
Ltac reads_database := apply reads_on_database; intros c i j v; reading_go.

Lemma command_acts cmd : emits (acts (intent cmd)) (run_command cmd).
Proof.
  destruct cmd; cbn [intent run_command];
    unfold projects_list, db_list, db_get, db_connect, backup_list, webhooks_list, webhooks_deliveries; try solve [acts_go].
  - by apply login_acts.
  - apply reading_silent, silent_bind; [apply silent_path|done].
  - reads_top.
  - apply emits_top. intros c. apply (emits_acts_then _ []); [|intros; apply reading_print].
    apply (emits_act _ _ _ _ ""); [constructor|done|done].
  - reads_top.
  - reads_organization.
  - apply emits_run, emits_on_project; [intros; by apply acts_exc|]. intros c i j gs Hgs Hp.
    act (projects_path i +:+ "/" +:+ j). by exists i, j.
  - apply emits_run, emits_on_project; [done|]. intros c i j gs Hgs _. apply emits_read; [done|]. reading_go.
  - reads_database.
  - reads_database.
  - reads_database.
  - reads_organization.
  - reads_organization.
  - reads_top.
Qed.

(** *** Credentials *)

Lemma credentials_path_run (s : Session W) : exists path, forall t, environ t = environ s -> credentials_path t = (t, Ret path).
Proof.
  unfold credentials_path, config_dir, getenv, mbind, M_bind, gets. destruct (environ s !! "EMINIDATABASE_CONFIG_DIR") as [dir|] eqn:E;
    (eexists; intros t Ht; rewrite Ht, E; reflexivity).
Qed.

(** After a login the client has the token the server gave, until a logout. *)
Lemma saved_credentials_are_loaded base_url email tok (s : Session W) :
  environ s !! "EMINIDATABASE_API_URL" = None ->
  let t := (save_credentials base_url email tok s).1 in
  (authenticated_client t).2 = Ret (new_client base_url (Some tok)) /\ (authenticated_client (clear_credentials t).1).2 = Exc (Exit 1).
Proof.
  intros He. destruct (credentials_path_run s) as [path Hp]. cbv zeta.
  assert ((save_credentials base_url email tok s).1 = s <| files ::= <[path := (base_url, email, tok)]> |>) as ->.
  { unfold save_credentials, mbind, M_bind. by rewrite (Hp s eq_refl). }
  set (t := s <| files ::= _ |>).
  assert ((clear_credentials t).1 = t <| files ::= delete path |>) as ->.
  { unfold clear_credentials, mbind, M_bind. by rewrite (Hp t eq_refl). }
  set (u := t <| files ::= _ |>).
  unfold authenticated_client, load_credentials, mbind, M_bind. rewrite (Hp t eq_refl), (Hp u eq_refl). unfold gets, getenv. split.
  - change (files t) with (<[path := (base_url, email, tok)]> (files s)). rewrite lookup_insert_eq. cbn [some_or].
    unfold mret, M_ret, gets. change (environ t) with (environ s). by rewrite He.
  - change (files u) with (delete path (files t)). by rewrite lookup_delete_eq.
Qed.

(** ** Properties *)

(** C29. A command changes at most what it names. Whatever the servers answer, it sends reads only,
    or reads, one request that is not one, and reads again (those of [--wait]); that request
    is the one the command is for, on the object that the answers to the reads before it
    give for the names on the command line. A command that is for a request and returns has
    sent it and got an answer that is not an error. *)
Theorem command_acts_on_what_it_names cmd s :
  exists xs, exchanges (run_command cmd s).1 = exchanges s ++ xs /\ acts (intent cmd) xs (run_command cmd s).2.
Proof. exact (command_acts cmd s). Qed.
End cli.

(** *** Examples *)

Definition signed_in : Session Z :=
  example_session <| files := {["/home/ada/.eminidatabase/credentials.json" := (DEFAULT_BASE_URL, "ada@example.com", "t1")]} |>.

Definition request_line (x : Request * option Response) : string * string := (rq_method x.1, rq_path x.1).
Example delete_staging :
  request_line <$> exchanges (run_command "/home/ada" (DbDelete "acme" "shop" "staging") signed_in).1 =
  [("GET", "/organizations"); ("GET", "/organizations/o2/projects"); ("GET", "/organizations/o2/projects/p1/databases");
   ("DELETE", "/organizations/o2/projects/p1/databases/d2")].
Proof. vm_compute. reflexivity. Qed.
Example delete_unknown :
  (run_command "/home/ada" (DbDelete "acme" "shop" "stagin") signed_in).2 = Exc (Exit 1) /\
  Forall (fun x => rq_method x.1 = "GET") (exchanges (run_command "/home/ada" (DbDelete "acme" "shop" "stagin") signed_in).1).
Proof. split; [vm_compute; reflexivity|]. vm_compute. repeat constructor. Qed.

(** A command that waits for a job that fails returns like one whose job succeeds. *)
Lemma failed_job_exits_zero :
  (run_command (Net := network_of "failed") "/home/ada" (DbCreate "acme" "shop" "staging" "eu" "shared" 1 1024 10 true) signed_in).2 = Ret tt.
Proof. vm_compute. reflexivity. Qed.

(** A slug that is also the text of a UUID is taken for an id. *)
Example slug_taken_for_an_id : is_uuid "abcdefab-cdef-abcd-efab-cdefabcdefab" = true.
Proof. vm_compute. reflexivity. Qed.
