(* ===== verification/MfPlatform.v ===== *)
(** * The microfinance service as a customer of the platform:
    [microfinance/mf_app/services/platform_client.py], [onboarding.py], [db/tenant_session.py]
    and [scripts/bootstrap_platform_account.py], over the Python SDK

    The onboarding of MfControl asks an interface, [PlatformApi], for a project and a
    database. Here it is the client of the SDK that asks the control plane, over any network,
    and the answers are decoded as the code decodes them. What succeeds is an onboarding of
    MfControl, for the interface that gives these answers. *)

From Stdlib Require Import Ascii.
From stdpp Require Import pretty.
From S2P Require Import Prelude PyStd Amortization Tenant Ledger Savings Loans Queue MfRbac MfControl Api Sdk.

(** ** Model *)

(** The control database with the databases of the institutions, and the process that talks to
    the platform. *)
Record Service (W : Type) := mkService { control : MfWorld; session : Session W }.
Arguments mkService {_} _ _.
Arguments control {_} _.
Arguments session {_} _.
#[export] Instance Service_fields W : Fields (Service W) := fun s => mkService (control s) (session s).

(** *** The answers, decoded *)

(** The value of a text of hexadecimal digits; what is not a digit is skipped. *)
Definition hex_digit (c : ascii) : Z :=
  let n := Z.of_nat (nat_of_ascii (lower_ascii c)) in if n <=? 57 then n - 48 else n - 87.
Fixpoint hex_value (acc : Z) (s : string) : Z :=
  match s with
  | EmptyString => acc
  | String c s => hex_value (if is_hex c then 16 * acc + hex_digit c else acc) s
  end.
(** [uuid.UUID(v)]. The null UUID, which no server draws, is not a key. *)
Definition py_uuid (v : json) : outcome uuid :=
  match v with
  | VText s =>
      if is_uuid s
      then match hex_value 0 (remove_all "uuid:" (remove_all "urn:" s)) with Zpos p => Ret p | _ => Exc ValueError end
      else Exc ValueError
  | VNull => Exc TypeError
  | _ => Exc AttributeError
  end.
(** A value that a nullable column of texts or of integers takes; the driver refuses another. *)
Definition text_column (v : json) : outcome (option string) :=
  match v with VText s => Ret (Some s) | VNull => Ret None | _ => Exc OperationalError end.
Definition int_column (v : json) : outcome (option Z) :=
  match v with VNum z => Ret (Some z) | VNull => Ret None | _ => Exc OperationalError end.
(** [v.encode()] *)
Definition encoded (v : json) : outcome string := match v with VText s => Ret s | _ => Exc AttributeError end.

Section service.
Context `{Net : Network W}.
Context (encrypt_secret : string -> string) (decrypt_secret : option string -> outcome string).
(** The exit status of the [alembic] subprocess. *)
Context (alembic_upgrade : string -> outcome unit).
(** [settings.platform_api_url] *)
Context (platform_api_url : string).

Definition on_control {A} (m : M MfWorld A) : M (Service W) A := fun s =>
  let '(w, r) := m (control s) in (s <| control := w |>, r).
Definition on_session {A} (m : M (Session W) A) : M (Service W) A := fun s =>
  let '(w, r) := m (session s) in (s <| session := w |>, r).
Definition field (v : json) (key : string) : M (Service W) json := lift_outcome (getitem v key).

(** *** [services/platform_client.py] *)

Definition authenticated_client (now : timestamp) : M (Service W) PlatformClient :=
  account ← on_control get_platform_account;
  let client := new_client platform_api_url None in
  if needs_login now account.2 then
    password ← lift_outcome (decrypt_secret (Some (encrypted_cp_password account.2)));
    r ← on_session (login client (cp_email account.2) password None);
    token ← lift_outcome (text_column r.2);
    on_control (cache_token now account.1 token);;
    mret r.1
  else mret (mkClient (base_url client) (cached_access_token account.2)).

(** *** [services/onboarding.py] *)

(** [institution.column = value] *)
Definition assign {A} (institution : uuid) (v : outcome A) (f : A -> MFInstitution -> MFInstitution) : M MfWorld unit :=
  x ← lift_outcome v; set_institution institution (f x).
Definition record_answers (institution : uuid) (project database connection : json) : M MfWorld unit :=
  assign institution (getitem project "id" ≫= py_uuid) (fun x i => i <| cp_project_id := Some x |>);;
  assign institution (getitem database "id" ≫= py_uuid) (fun x i => i <| cp_database_id := Some x |>);;
  assign institution (getitem connection "host" ≫= text_column) (fun x i => i <| db_host := x |>);;
  assign institution (getitem connection "port" ≫= int_column) (fun x i => i <| db_port := x |>);;
  assign institution (getitem connection "database" ≫= text_column) (fun x i => i <| db_name := x |>);;
  assign institution (getitem connection "username" ≫= text_column) (fun x i => i <| db_username := x |>);;
  assign institution (getitem connection "password" ≫= encoded)
    (fun x i => i <| encrypted_db_password := Some (encrypt_secret x) |>).

(** The three answers that the row keeps: the project, the database, and its connection. The
    job is waited for at most two minutes; how it ended is not looked at. *)
Definition ask_for_database (client : PlatformClient) (org name slug region_code : string) :
    M (Service W) (json * json * json) :=
  project ← on_session (create_project client org name slug);
  project_id ← field project "id";
  let p := text project_id in
  create_result ← on_session (create_database client org p "main" region_code "shared" 1 1024 10);
  job_id ← field create_result "job_id";
  on_session (wait_for_job client (text job_id) (seconds 1) (seconds 120));;
  created ← field create_result "database";
  created_id ← field created "id";
  database ← on_session (get_database client org p (text created_id));
  database_id ← field database "id";
  connection ← on_session (get_connection client org p (text database_id));
  mret (project, database, connection).

Definition onboard (now : timestamp) (profile cash income : uuid) (job : uuid) : M (Service W) (option payload) :=
  r ← on_control (onboarding_request job);
  let '(institution, i, region_code, currency) := r in
  client ← authenticated_client now;
  account ← on_control get_platform_account;
  answers ← ask_for_database client (str_uuid (cp_organization_id account.2)) (mi_name i) (mi_slug i) region_code;
  let '(project, database, connection) := answers in
  on_control (record_answers institution project database connection);;
  project ← lift_outcome (getitem project "id" ≫= py_uuid);
  on_control (open_institution decrypt_secret alembic_upgrade profile cash income institution currency project).

(** *** [scripts/bootstrap_platform_account.py] *)

(** [id] is the key drawn for the account. *)
Definition bootstrap (id : uuid) (email password org_name org_slug : string) : M (Service W) unit :=
  existing ← on_control (gets (fun w => map_to_list (platform_accounts w)));
  require (bool_decide (existing = [])) (Exit 1);;
  let client := new_client platform_api_url None in
  on_session (register client email password);;
  r ← on_session (login client email password None);
  org ← on_session (create_organization r.1 org_name org_slug);
  org_id ← lift_outcome (getitem org "id" ≫= py_uuid);
  on_control (modify (fun w => w <| platform_accounts ::=
    <[id := mkMFPlatformAccount org_id email (encrypt_secret password) None None]> |>)).

(** ** Lemmas *)

Lemma same_control (s : Service W) : s <| control := control s |> = s.
Proof. by destruct s. Qed.
Lemma on_control_Ret {A} (m : M MfWorld A) s t a :
  on_control m s = (t, Ret a) <-> exists w, m (control s) = (w, Ret a) /\ t = s <| control := w |>.
Proof.
  unfold on_control. destruct (m (control s)) as [w r]. split.
  - intros [= <- ->]. by exists w.
  - by intros (? & [= <- ->] & ->).
Qed.
Lemma on_session_Ret {A} (m : M (Session W) A) s t a :
  on_session m s = (t, Ret a) <-> exists w, m (session s) = (w, Ret a) /\ t = s <| session := w |>.
Proof.
  unfold on_session. destruct (m (session s)) as [w r]. split.
  - intros [= <- ->]. by exists w.
  - by intros (? & [= <- ->] & ->).
Qed.

(** *** What is sent *)

Definition sent_line (x : Request * option Response) : string * string := (rq_method x.1, rq_path x.1).

(** From [s] to [t], the client [c] sends requests with these methods and paths. *)
Definition asks (c : PlatformClient) (s t : Session W) (lines : list (string * string)) : Prop :=
  exists xs, exchanges t = exchanges s ++ xs /\ sent_line <$> xs = lines /\
    Forall (fun x => rq_base (fst x) = base_url c /\ rq_token (fst x) = headers c) xs.

Lemma asks_nil c s : asks c s s [].
Proof. exists []. by rewrite app_nil_r. Qed.
Lemma asks_app c s t u l l' : asks c s t l -> asks c t u l' -> asks c s u (l ++ l').
Proof.
  intros (xs & Hx & Hl & Hf) (ys & Hy & Hl' & Hf'). exists (xs ++ ys). split_and!.
  - by rewrite Hy, Hx, app_assoc.
  - by rewrite fmap_app, Hl, Hl'.
  - by apply Forall_app.
Qed.
Lemma asks_request c method path body s : asks c s (request c method path body s).1 [(method, path)].
Proof.
  pose proof (request_run c method path body s) as H. cbv zeta in H. destruct (serve _ _) as [w a]. rewrite H.
  eexists [_]. split; [reflexivity|]. split; [done|]. by repeat constructor.
Qed.
Lemma request_asks c method path body s t v :
  request c method path body s = (t, Ret v) -> asks c s t [(method, path)].
Proof. intros H. pose proof (asks_request c method path body s) as Ha. by rewrite H in Ha. Qed.

Lemma poll_job_asks fuel c job interval timeout start s t v :
  poll_job fuel c job interval timeout start s = (t, Ret v) ->
  exists n, (1 <= n <= fuel)%nat /\ asks c s t (replicate n ("GET", "/jobs/" +:+ job)).
Proof.
  revert s. induction fuel as [|fuel IH]; intros s; cbn [poll_job]; [discriminate|].
  intros (s1 & j & Hj%request_asks & H)%bind_Ret.
  apply bind_Ret in H as (s2 & st & [-> _]%lift_outcome_Ret & H).
  apply bind_Ret in H as (s2 & fin & [-> _]%lift_outcome_Ret & H).
  destruct fin; [apply mret_Ret in H as [-> _]; exists 1%nat; split; [lia|exact Hj]|].
  apply bind_Ret in H as (s2 & now & [-> _]%gets_Ret & H). destruct (timeout <? now - start); [discriminate H|].
  apply bind_Ret in H as (s3 & [] & ->%modify_Ret & (n & Hn & Hr)%IH). exists (S n). split; [lia|].
  apply (asks_app c s s1 t [_]); [exact Hj|]. destruct Hr as (xs & Hx & Hl). by exists xs.
Qed.
Lemma wait_for_job_asks c job interval timeout s t v :
  wait_for_job c job interval timeout s = (t, Ret v) ->
  exists n, (1 <= n <= polls interval timeout)%nat /\ asks c s t (replicate n ("GET", "/jobs/" +:+ job)).
Proof. unfold wait_for_job. intros (s1 & st & [-> _]%gets_Ret & H)%bind_Ret. by apply poll_job_asks in H. Qed.

(** The requests of an onboarding, once the client has its token: the project in the
    organization, its one database, the job of its creation until it is over, then the
    database and its connection. *)
Definition onboarding_lines (org p d d' j : string) (n : nat) : list (string * string) :=
  [("POST", projects_path org); ("POST", db_path org p "")] ++ replicate n ("GET", "/jobs/" +:+ j) ++
  [("GET", db_path org p d); ("GET", db_path org p d' +:+ "/connection")].

Lemma ask_for_database_run c org name slug region s t project database connection :
  ask_for_database c org name slug region s = (t, Ret (project, database, connection)) ->
  control t = control s /\ exists p d d' j n, getitem project "id" = Ret p /\ getitem database "id" = Ret d' /\
    (1 <= n <= 122)%nat /\ asks c (session s) (session t) (onboarding_lines org (text p) d (text d') j n).
Proof.
  unfold ask_for_database, field. intros (s1 & pr & (w1 & H1 & ->)%on_session_Ret & H)%bind_Ret.
  apply bind_Ret in H as (s2 & p & [-> Hp]%lift_outcome_Ret & H). cbv zeta in H.
  apply bind_Ret in H as (s2 & cr & (w2 & H2 & ->)%on_session_Ret & H).
  apply bind_Ret in H as (s3 & j & [-> _]%lift_outcome_Ret & H).
  apply bind_Ret in H as (s3 & jv & (w3 & H3 & ->)%on_session_Ret & H).
  apply bind_Ret in H as (s4 & x & [-> _]%lift_outcome_Ret & H).
  apply bind_Ret in H as (s4 & d & [-> _]%lift_outcome_Ret & H).
  apply bind_Ret in H as (s4 & db & (w4 & H4 & ->)%on_session_Ret & H).
  apply bind_Ret in H as (s5 & d' & [-> Hd']%lift_outcome_Ret & H).
  apply bind_Ret in H as (s5 & cn & (w5 & H5 & ->)%on_session_Ret & H).
  apply mret_Ret in H as [-> [= -> -> ->]]. split; [done|].
  apply request_asks in H1, H2, H4, H5. apply wait_for_job_asks in H3 as (n & Hn & H3).
  exists p, (text d), d', (text j), n. split_and!; [done..|lia|exact (proj2 Hn)|].
  refine (asks_app c _ w1 _ [_] _ H1 (asks_app c _ w2 _ [_] _ H2 (asks_app c _ w3 _ _ _ H3 (asks_app c _ w4 _ [_] [_] H4 H5)))).
Qed.

(** *** The rows *)

Lemma assign_Ret {A} inst (v : outcome A) f w t u :
  assign inst v f w = (t, Ret u) <-> exists x, v = Ret x /\ t = w <| institutions ::= alter (f x) inst |>.
Proof.
  unfold assign. rewrite bind_Ret. split.
  - intros (? & x & [-> ->]%lift_outcome_Ret & ->%modify_Ret). by exists x.
  - intros (x & -> & ->). exists w, x. split; [by apply lift_outcome_Ret|]. by apply modify_Ret.
Qed.

Lemma record_answers_run inst project database connection w t u :
  record_answers inst project database connection w = (t, Ret u) ->
  exists p d conn, getitem project "id" ≫= py_uuid = Ret p /\ getitem database "id" ≫= py_uuid = Ret d /\
    t = w <| institutions ::= alter (with_connection encrypt_secret p d conn) inst |>.
Proof.
  unfold record_answers. intros (w1 & [] & (p & Hp & ->)%assign_Ret & H)%bind_Ret.
  apply bind_Ret in H as (w2 & [] & (d & Hd & ->)%assign_Ret & H).
  apply bind_Ret in H as (w2 & [] & (h & _ & ->)%assign_Ret & H).
  apply bind_Ret in H as (w2 & [] & (po & _ & ->)%assign_Ret & H).
  apply bind_Ret in H as (w2 & [] & (n & _ & ->)%assign_Ret & H).
  apply bind_Ret in H as (w2 & [] & (us & _ & ->)%assign_Ret & H).
  apply assign_Ret in H as (pw & _ & ->).
  exists p, d, (mkConnection h po n us pw). split_and!; [done..|].
  cbn. f_equal. apply map_eq. intros k. destruct (decide (inst = k)) as [<-|].
  - rewrite !lookup_alter_eq. by destruct (institutions w !! inst).
  - by rewrite !lookup_alter_ne.
Qed.
(** *** The client *)

Lemma get_platform_account_run w t account :
  get_platform_account w = (t, Ret account) -> t = w /\ head (map_to_list (platform_accounts w)) = Some account.
Proof. unfold get_platform_account. intros (? & ? & [-> ->]%gets_Ret & [? ->]%some_or_Ret)%bind_Ret. done. Qed.

(** The client logs in when its token is about to expire, and is the one MfControl would have,
    had its platform given this token. *)
Lemma authenticated_client_run now s t c :
  authenticated_client now s = (t, Ret c) ->
  base_url c = base_url (new_client platform_api_url None) /\
  (exists token, forall api, api_login api = (fun _ _ => Ret token) ->
     exists x, get_authenticated_client decrypt_secret api now (control s) = (control t, Ret x)) /\
  exists account, head (map_to_list (platform_accounts (control s))) = Some account /\
    asks (new_client platform_api_url None) (session s) (session t)
      (if needs_login now account.2 then [("POST", "/auth/login")] else []).
Proof.
  unfold authenticated_client. intros (s1 & account & (w & Ha & ->)%on_control_Ret & H)%bind_Ret. cbv zeta in H.
  pose proof (get_platform_account_run _ _ _ Ha) as [-> Hh].
  destruct (needs_login now account.2) eqn:En.
  - apply bind_Ret in H as (s2 & pw & [-> Hpw]%lift_outcome_Ret & H).
    apply bind_Ret in H as (s3 & [c' tok] & (w' & Hl & ->)%on_session_Ret & H).
    apply bind_Ret in H as (s4 & token & [-> Htok]%lift_outcome_Ret & H).
    apply bind_Ret in H as (s5 & [] & (w'' & Hc & ->)%on_control_Ret & [-> ->]%mret_Ret).
    unfold login, sign_in in Hl. apply bind_Ret in Hl as (w3 & data & Hr%request_asks & Hl).
    apply bind_Ret in Hl as (w4 & x & [-> _]%lift_outcome_Ret & [-> [= -> ->]]%mret_Ret).
    split; [done|]. split; [|exists account; rewrite En; split; [done|exact Hr]].
    exists token. intros api Hapi. exists token. unfold get_authenticated_client.
    apply bind_Ret. exists (control s), account. split; [exact Ha|]. rewrite En.
    apply bind_Ret. exists (control s), pw. split; [by apply lift_outcome_Ret|].
    apply bind_Ret. exists (control s), token. split; [rewrite Hapi; by apply lift_outcome_Ret|].
    apply bind_Ret. eexists _, tt. split; [exact Hc|done].
  - apply mret_Ret in H as [-> ->]. split; [done|]. split; [|exists account; rewrite En; split; [done|apply asks_nil]].
    exists None. intros api _. eexists. unfold get_authenticated_client. apply bind_Ret. exists (control s), account.
    split; [exact Ha|]. by rewrite En.
Qed.
(** *** Onboardings that raise *)

(** Every institution is still there, with the status it had. *)
Definition same_statuses (w0 w : MfWorld) : Prop :=
  forall k, mi_status <$> institutions w !! k = mi_status <$> institutions w0 !! k.

Lemma same_statuses_frame w0 w w' : institutions w' = institutions w -> same_statuses w0 w -> same_statuses w0 w'.
Proof. intros E H k. rewrite E. apply H. Qed.
Lemma pres_on_control {A} (I : MfWorld -> Prop) (m : M MfWorld A) : pres I m -> pres (fun s => I (control s)) (on_control m).
Proof. intros Hm s Hs. specialize (Hm _ Hs). unfold on_control. by destruct (m (control s)). Qed.
Lemma pres_on_session {A} (I : MfWorld -> Prop) (m : M (Session W) A) : pres (fun s => I (control s)) (on_session m).
Proof. intros s Hs. unfold on_session. by destruct (m (session s)). Qed.
Lemma pres_statuses_frame {A} w0 (m : M MfWorld A) :
  (forall v, pres (fun w => institutions w = v) m) -> pres (same_statuses w0) m.
Proof. intros Hm w Hw. eapply same_statuses_frame; [exact (Hm _ w eq_refl)|done]. Qed.
Lemma pres_assign {A} w0 inst (v : outcome A) f :
  (forall x i, mi_status (f x i) = mi_status i) -> pres (same_statuses w0) (assign inst v f).
Proof.
  intros Hf. unfold assign. apply pres_bind; [apply pres_lift_outcome|]. intros x. apply pres_modify. intros w Hw k.
  rewrite <- (Hw k). cbn. destruct (decide (inst = k)) as [<-|]; [|by rewrite lookup_alter_ne].
  rewrite lookup_alter_eq. destruct (institutions w !! inst); cbn; by rewrite ?Hf.
Qed.
Lemma pres_record_answers w0 inst project database connection :
  pres (same_statuses w0) (record_answers inst project database connection).
Proof. unfold record_answers. repeat (apply pres_bind; [by apply pres_assign|intros _]). by apply pres_assign. Qed.
Lemma pres_onboarding_request w0 job : pres (same_statuses w0) (onboarding_request job).
Proof. apply pres_statuses_frame. intros v. unfold onboarding_request, job_object, item, as_uuid, payload_str. pres_go. Qed.
Lemma pres_authenticated_client w0 now : pres (fun s => same_statuses w0 (control s)) (authenticated_client now).
Proof.
  unfold authenticated_client. apply pres_bind; [apply pres_on_control, pres_statuses_frame; intros v; unfold get_platform_account; pres_go|].
  intros account. cbv zeta. destruct (needs_login now account.2); [|apply pres_ret].
  apply pres_bind; [apply pres_lift_outcome|intros pw]. apply pres_bind; [apply pres_on_session|intros r].
  apply pres_bind; [apply pres_lift_outcome|intros token]. apply pres_bind; [|intros _; apply pres_ret].
  by apply pres_on_control, pres_statuses_frame; intros v; apply pres_modify.
Qed.
Lemma pres_ask_for_database w0 c org name slug region :
  pres (fun s => same_statuses w0 (control s)) (ask_for_database c org name slug region).
Proof.
  unfold ask_for_database, field.
  repeat first [apply pres_ret | apply pres_on_session | apply pres_lift_outcome | apply pres_bind | intros ?; cbv zeta].
Qed.

Lemma bind_raises {A B} (I : Service W -> Prop) (m : M (Service W) A) (f : A -> M (Service W) B) s t e :
  pres I m -> I s -> (forall a u, m s = (u, Ret a) -> I u -> f a u = (t, Exc e) -> I t) -> (m ≫= f) s = (t, Exc e) -> I t.
Proof.
  intros Hm Hs Hf [H|(u & a & H & Hr)]%bind_Exc; specialize (Hm s Hs); rewrite H in Hm; [done|]. by eapply Hf.
Qed.

Lemma onboard_raises now profile cash income job s t e :
  onboard now profile cash income job s = (t, Exc e) -> same_statuses (control s) (control t).
Proof.
  set (I := fun u : Service W => same_statuses (control s) (control u)). unfold onboard. intros H.
  refine (bind_raises I _ _ _ _ _ _ _ _ H); [apply pres_on_control, pres_onboarding_request|done|]. clear H.
  intros [[[inst i] rc] cur] s1 _ I1 H. cbv zeta in H.
  refine (bind_raises I _ _ _ _ _ _ I1 _ H); [apply pres_authenticated_client|]. clear H. intros c s2 _ I2 H.
  refine (bind_raises I _ _ _ _ _ _ I2 _ H);
    [apply pres_on_control, pres_statuses_frame; intros v; unfold get_platform_account; pres_go|]. clear H. intros acc s3 _ I3 H.
  refine (bind_raises I _ _ _ _ _ _ I3 _ H); [apply pres_ask_for_database|]. clear H. intros [[pr db] cn] s4 _ I4 H. cbv zeta in H.
  refine (bind_raises I _ _ _ _ _ _ I4 _ H); [apply pres_on_control, pres_record_answers|]. clear H. intros [] s5 _ I5 H.
  refine (bind_raises I _ _ _ _ _ _ I5 _ H); [apply pres_lift_outcome|]. clear H. intros p s6 _ I6 H.
  unfold on_control in H. destruct (open_institution _ _ _ _ _ _ _ _ (control s6)) as [w r] eqn:E. injection H as <- ->.
  apply open_institution_raises in E. exact (same_statuses_frame _ _ _ E I6).
Qed.

(** *** Onboardings that return *)

(** The interface of MfControl, as this platform has answered it. *)
Definition answered (token : option string) (project database : uuid) (conn : connection) : PlatformApi := {|
  api_login := fun _ _ => Ret token;
  MfControl.create_project := fun _ _ _ => Ret project;
  MfControl.create_database := fun _ _ _ _ => Ret (project, database);
  MfControl.wait_for_job := fun _ => Ret tt;
  MfControl.get_database := fun _ _ _ => Ret database;
  MfControl.get_connection := fun _ _ _ => Ret conn;
|}.

(** *** The account of the service *)

(** The account is created once, and nothing is sent when there is one. *)
Lemma bootstrap_refuses id email password org_name org_slug s account :
  head (map_to_list (platform_accounts (control s))) = Some account ->
  bootstrap id email password org_name org_slug s = (s, Exc (Exit 1)).
Proof.
  intros Ha. unfold bootstrap. unfold mbind, M_bind, on_control, gets. rewrite same_control.
  by destruct (map_to_list _) as [|x l].
Qed.
Lemma bootstrap_creates id email password org_name org_slug s t u :
  bootstrap id email password org_name org_slug s = (t, Ret u) ->
  platform_accounts (control s) = ∅ /\
  (exists org, control t = control s <| platform_accounts := {[id := mkMFPlatformAccount org email (encrypt_secret password) None None]} |>) /\
  exists v c, asks (new_client platform_api_url None) (session s) v [("POST", "/auth/register"); ("POST", "/auth/login")] /\
    base_url c = base_url (new_client platform_api_url None) /\ asks c v (session t) [("POST", "/organizations")].
Proof.
  unfold bootstrap. intros (s1 & l & (w & [-> ->]%gets_Ret & ->)%on_control_Ret & H)%bind_Ret. rewrite same_control in H.
  apply bind_Ret in H as (s1 & [] & [He%bool_decide_eq_true ->]%require_Ret & H). apply map_to_list_empty_iff in He. cbv zeta in H.
  apply bind_Ret in H as (s2 & j & (w1 & H1%request_asks & ->)%on_session_Ret & H).
  apply bind_Ret in H as (s3 & [c x] & (w2 & H2 & ->)%on_session_Ret & H).
  unfold login, sign_in in H2. apply bind_Ret in H2 as (w3 & data & H2%request_asks & H3).
  apply bind_Ret in H3 as (w4 & y & [-> _]%lift_outcome_Ret & [-> [= -> ->]]%mret_Ret).
  apply bind_Ret in H as (s4 & org & (w5 & H5%request_asks & ->)%on_session_Ret & H).
  apply bind_Ret in H as (s5 & o & [-> _]%lift_outcome_Ret & (w6 & Hm%modify_Ret & ->)%on_control_Ret).
  split; [done|]. split.
  - exists o. rewrite Hm. cbn. by rewrite He.
  - exists w3, (mkClient (base_url (new_client platform_api_url None)) (if is_true y then Some (text y) else None)).
    split_and!; [exact (asks_app _ _ _ _ [_] [_] H1 H2)|done|exact H5].
Qed.

(** ** Properties *)

(** C10. An onboarding that returns is one of MfControl, for a platform that answered as this
    one did: it has logged in if its token was about to expire, asked for one project in the
    organization of the service and one database in it, polled the job, read the database and
    its connection, and sent nothing else. The institution is then active, keeps the project
    and the database that the platform named, and the database its URL leads to is ready. An
    onboarding that raises, wherever it does, activates nothing: every institution has the
    status it had. *)
Theorem onboarding_over_the_sdk now profile cash income job s :
  let '(t, r) := onboard now profile cash income job s in
  match r with
  | Exc _ => same_statuses (control s) (control t)
  | Ret r =>
      (exists token project database conn, execute_onboard_institution encrypt_secret decrypt_secret
         (answered token project database conn) alembic_upgrade now profile cash income job (control s) = (control t, Ret r)) /\
      exists institution i url, institutions (control t) !! institution = Some i /\ mi_status i = INST_ACTIVE /\
        tenant_database_url decrypt_secret i = Ret url /\
        (tenants (control s) !! url = None -> exists d, tenants (control t) !! url = Some d /\ tenant_ready d) /\
        (forall url', url' <> url -> tenants (control t) !! url' = tenants (control s) !! url') /\
      exists account owner c u p d d' j n,
        head (map_to_list (platform_accounts (control s))) = Some account /\
        head (map_to_list (platform_accounts (control t))) = Some owner /\
        asks (new_client platform_api_url None) (session s) u (if needs_login now account.2 then [("POST", "/auth/login")] else []) /\
        asks c u (session t) (onboarding_lines (str_uuid (cp_organization_id owner.2)) (text p) d (text d') j n) /\
        base_url c = base_url (new_client platform_api_url None) /\ (1 <= n <= 122)%nat /\
        (exists project, py_uuid p = Ret project /\ cp_project_id i = Some project) /\
        (exists database, py_uuid d' = Ret database /\ cp_database_id i = Some database)
  end.
Proof.
  destruct (onboard now profile cash income job s) as [t [r|e]] eqn:H; [|by eapply onboard_raises].
  unfold onboard in H. apply bind_Ret in H as (s1 & [[[inst i] rc] cur] & (w1 & Hreq & ->)%on_control_Ret & H). cbv zeta in H.
  pose proof (onboarding_request_run _ _ _ _ Hreq) as [-> Hi]. cbn [fst snd] in Hi.
  rewrite same_control in H.
  apply bind_Ret in H as (s2 & c & (Hb & [token Hapi] & account & Hacc & Hlogin)%authenticated_client_run & H).
  apply bind_Ret in H as (s3 & owner & (w3 & Hown & ->)%on_control_Ret & H).
  pose proof (get_platform_account_run _ _ _ Hown) as [-> Hown']. rewrite same_control in H.
  apply bind_Ret in H as (s3 & [[pr db] cn] & (Hc3 & p & d & d' & j & n & Hp & Hd' & Hn & Hask)%ask_for_database_run & H). cbv zeta in H.
  apply bind_Ret in H as (s4 & [] & (w4 & (pu & du & conn & Hpu & Hdu & ->)%record_answers_run & ->)%on_control_Ret & H).
  apply bind_Ret in H as (s5 & pu' & [-> Hpu']%lift_outcome_Ret & H). rewrite Hpu in Hpu'. injection Hpu' as <-.
  apply on_control_Ret in H as (w5 & Hopen & ->).
  change (open_institution decrypt_secret alembic_upgrade profile cash income inst cur pu
    (control s3 <| institutions ::= alter (with_connection encrypt_secret pu du conn) inst |>) = (w5, Ret r)) in Hopen.
  change (control (_ <| control := w5 |>)) with w5. change (session (_ <| control := w5 |>)) with (session s3).
  rewrite Hc3 in Hopen. destruct (Hapi (answered token pu du conn) eq_refl) as [x Hauth].
  pose proof (get_authenticated_client_tenants _ _ _ _ _ _ Hauth) as [Ht2 Hi2]. split.
  - exists token, pu, du, conn. unfold execute_onboard_institution.
    apply bind_Ret. eexists _, (inst, i, rc, cur). split; [exact Hreq|]. cbv beta iota.
    apply bind_Ret. eexists _, x. split; [exact Hauth|]. apply bind_Ret. eexists _, owner. split; [exact Hown|].
    cbv zeta. apply bind_Ret. eexists _, _. split; [reflexivity|]. apply bind_Ret. eexists _, _. split; [reflexivity|].
    apply bind_Ret. eexists _, _. split; [reflexivity|]. apply bind_Ret. eexists _, _. split; [reflexivity|].
    apply bind_Ret. eexists _, _. split; [reflexivity|]. apply bind_Ret. eexists _, _. split; [reflexivity|exact Hopen].
  - apply open_institution_run in Hopen as (i' & url & Hi' & Hurl & Ht & Hpa & _ & Hready & Hother).
    cbn in Hi', Hready, Hother. rewrite Ht2 in Hready, Hother.
    rewrite lookup_alter_eq, Hi2, Hi in Hi'. injection Hi' as <-.
    exists inst, (with_connection encrypt_secret pu du conn i <| mi_status := INST_ACTIVE |>), url.
    split_and!; [|done..|].
    + rewrite Ht. cbn. by rewrite !lookup_alter_eq, Hi2, Hi.
    + rewrite Hp in Hpu. rewrite Hd' in Hdu.
      exists account, owner, c, (session s2), p, d, d', j, n. split_and!; [done|by rewrite Hpa|done..|lia|lia|by exists pu|by exists du].
Qed.
End service.

(** *** The databases of the institutions: [db/tenant_session.py] *)

Section engines.
Context {Engine : Type} (create_async_engine : string -> Engine).

(** [_engine_cache] *)
Definition get_tenant_engine (url : string) : M (gmap string Engine) Engine :=
  cached ← gets (fun cache => cache !! url);
  match cached with
  | Some engine => mret engine
  | None =>
      let engine := create_async_engine url in
      modify <[url := engine]>;; mret engine
  end.

(** The cache never answers the engine of another database. *)
Definition cache_ok (cache : gmap string Engine) : Prop := map_Forall (fun url engine => engine = create_async_engine url) cache.
Lemma get_tenant_engine_run url cache :
  cache_ok cache -> cache_ok (get_tenant_engine url cache).1 /\ (get_tenant_engine url cache).2 = Ret (create_async_engine url).
Proof.
  intros Hc. unfold get_tenant_engine. rewrite bind_gets. destruct (cache !! url) as [e|] eqn:E.
  - split; [done|]. by rewrite (Hc _ _ E).
  - split; [|done]. by apply map_Forall_insert_2.
Qed.
End engines.

(** A URL names its parts: a user without a colon, a password without an at sign, a host without
    a colon, and a name without a slash can be read back from it. *)
Fixpoint no_char (c : ascii) (s : string) : bool :=
  match s with EmptyString => true | String a s => negb (Ascii.eqb a c) && no_char c s end.

Lemma cut_first c x y x' y' :
  no_char c x = true -> no_char c x' = true -> x +:+ String c y = x' +:+ String c y' -> x = x' /\ y = y'.
Proof.
  revert x'. induction x as [|a x IH]; intros [|a' x'] Hx Hx' E; cbn in *.
  - by injection E.
  - injection E as -> _. by rewrite Ascii.eqb_refl in Hx'.
  - injection E as -> _. by rewrite Ascii.eqb_refl in Hx.
  - injection E as -> E. apply andb_prop in Hx as [_ Hx], Hx' as [_ Hx']. by destruct (IH x' Hx Hx' E) as [-> ->].
Qed.
Lemma no_char_app c x y : no_char c (x +:+ String c y) = false.
Proof.
  induction x as [|a x IH]; [change (negb (Ascii.eqb c c) && no_char c y = false); by rewrite Ascii.eqb_refl|].
  change (negb (Ascii.eqb a c) && no_char c (x +:+ String c y) = false). by rewrite IH, andb_false_r.
Qed.
Lemma cut_last c x y x' y' :
  no_char c y = true -> no_char c y' = true -> x +:+ String c y = x' +:+ String c y' -> x = x' /\ y = y'.
Proof.
  revert x'. induction x as [|a x IH]; intros [|a' x'] Hy Hy' E; cbn in *.
  - by injection E.
  - injection E as _ ->. by rewrite no_char_app in Hy.
  - injection E as _ <-. by rewrite no_char_app in Hy'.
  - injection E as -> E. by destruct (IH x' Hy Hy' E) as [-> ->].
Qed.

Section urls.
Context (decrypt_secret : option string -> outcome string).

Record connected (i : MFInstitution) (user password host : string) (port : Z) (name : string) : Prop := {
  cn_user : db_username i = Some user /\ no_char ":" user = true;
  cn_password : decrypt_secret (encrypted_db_password i) = Ret password /\ no_char "@" password = true;
  cn_host : db_host i = Some host /\ no_char ":" host = true;
  cn_port : db_port i = Some port;
  cn_name : db_name i = Some name /\ no_char "/" name = true;
}.

(** Two institutions that share an engine share the whole of a connection. *)
Lemma tenant_urls_are_apart i i' url user user' pw pw' h h' port port' name name' :
  connected i user pw h port name -> connected i' user' pw' h' port' name' ->
  tenant_database_url decrypt_secret i = Ret url -> tenant_database_url decrypt_secret i' = Ret url ->
  user = user' /\ pw = pw' /\ h = h' /\ port = port' /\ name = name'.
Proof.
  intros [[Hu Nu] [Hp Np] [Hh Nh] Hpo [Hn Nn]] [[Hu' Nu'] [Hp' Np'] [Hh' Nh'] Hpo' [Hn' Nn']].
  unfold tenant_database_url. rewrite Hp, Hp', Hu, Hu', Hh, Hh', Hpo, Hpo', Hn, Hn'. intros [= <-] [= E].
  change (user' +:+ String ":" (pw' +:+ String "@" (h' +:+ String ":" (pretty port' +:+ String "/" name'))) =
          user +:+ String ":" (pw +:+ String "@" (h +:+ String ":" (pretty port +:+ String "/" name)))) in E. symmetry in E.
  apply (cut_first ":" user _ user' _) in E as [-> E]; [|done..].
  apply (cut_first "@" pw _ pw' _) in E as [-> E]; [|done..].
  apply (cut_first ":" h _ h' _) in E as [-> E]; [|done..].
  apply (cut_last "/" _ name _ name') in E as [Eport ->]; [|done..]. apply (inj pretty) in Eport. done.
Qed.
End urls.

(** *** A platform that serves the onboarding, and one whose jobs fail *)

Definition example_reply (connection : json) (r : Request) : json :=
  match api_route (rq_method r) (rq_path r) with
  | Some ("auth.login", _) => VDict [("access_token", VText "token")]
  | Some ("projects.create_project", _) => VDict [("id", VText "3f2504e0-4f89-41d3-9a0c-0305e82c3301")]
  | Some ("databases.create_database", _) =>
      VDict [("job_id", VText "j1"); ("database", VDict [("id", VText "{3F2504E0-4F89-41D3-9A0C-0305E82C3302}")])]
  | Some ("jobs.get_job", _) => VDict [("status", VText "succeeded")]
  | Some ("databases.get_database", _) => VDict [("id", VText "3f2504e0-4f89-41d3-9a0c-0305e82c3302")]
  | Some ("databases.get_database_connection", _) => connection
  | Some ("organizations.create_organization", _) => VDict [("id", VText "00000000-0000-0000-0000-000000000008")]
  | _ => VDict []
  end.
Program Definition platform_of (connection : json) : Network Z := {|
  serve := fun r now => (now + 1000, Some (mkResponse 200 "{...}" (Some (example_reply connection r))));
  sleep := fun d now => now + Z.max 0 d;
  monotonic := fun now => now;
  repr := fun _ => "?";
|}.
Next Obligation. cbn. lia. Qed.
Next Obligation. cbn. lia. Qed.
Definition example_connection : json :=
  VDict [("host", VText "10.0.0.9"); ("port", VNum 6432); ("database", VText "db_1"); ("username", VText "u_1");
         ("password", VText "secret")].
Definition example_service : Service Z := mkService example_world (mkSession 0 [] ∅ ∅ []).
Definition example_onboard (connection : json) : Service Z * outcome (option payload) :=
  onboard (Net := platform_of connection) example_encrypt example_decrypt example_upgrade DEFAULT_BASE_URL 0 60 61 62 3 example_service.

Lemma onboarding_over_the_sdk_witness :
  (exists institution i url d, institutions (control (example_onboard example_connection).1) !! institution = Some i /\
     mi_status i = INST_ACTIVE /\ tenants (control (example_onboard example_connection).1) !! url = Some d /\ tenant_ready d) /\
  map sent_line (exchanges (session (example_onboard example_connection).1)) =
    ("POST", "/auth/login") :: onboarding_lines "00000000-0000-0000-0000-000000000008" "3f2504e0-4f89-41d3-9a0c-0305e82c3301"
      "{3F2504E0-4F89-41D3-9A0C-0305E82C3302}" "3f2504e0-4f89-41d3-9a0c-0305e82c3302" "j1" 1 /\
  (example_onboard (VDict [("host", VText "10.0.0.9")])).2 = Exc KeyError /\
  same_statuses example_world (control (example_onboard (VDict [("host", VText "10.0.0.9")])).1).
Proof.
  split; [|split; [vm_compute; reflexivity|split; [vm_compute; reflexivity|]]].
  - pose proof (onboarding_over_the_sdk (Net := platform_of example_connection) example_encrypt example_decrypt example_upgrade
      DEFAULT_BASE_URL 0 60 61 62 3 example_service) as H.
    change (onboard _ _ _ _ _ _ _ _ _ _) with (example_onboard example_connection) in H.
    destruct (example_onboard example_connection) as [t [r|e]] eqn:E; [|apply (f_equal snd) in E; vm_compute in E; discriminate E].
    destruct H as (_ & inst & i & url & Hi & Hs & _ & Hready & _). destruct (Hready eq_refl) as (d & Hd & Hok).
    exists inst, i, url, d. split_and!; assumption.
  - pose proof (onboarding_over_the_sdk (Net := platform_of (VDict [("host", VText "10.0.0.9")])) example_encrypt example_decrypt
      example_upgrade DEFAULT_BASE_URL 0 60 61 62 3 example_service) as H.
    change (onboard _ _ _ _ _ _ _ _ _ _) with (example_onboard (VDict [("host", VText "10.0.0.9")])) in H.
    destruct (example_onboard (VDict [("host", VText "10.0.0.9")])) as [t [r|e]] eqn:E;
      [apply (f_equal snd) in E; vm_compute in E; discriminate E|exact H].
Defined.

(** The account that the script creates is the one that the onboardings use, after a login. *)
Example bootstrapped :
  let s := bootstrap (Net := platform_of example_connection) example_encrypt DEFAULT_BASE_URL 9 "mf@x" "pw" "MF" "mf"
    (mkService (mkMfWorld ∅ ∅ ∅ ∅ ∅) (mkSession 0 [] ∅ ∅ [])) in
  map_to_list (platform_accounts (control s.1)) = [(9%positive, mkMFPlatformAccount 8 "mf@x" "pw" None None)] /\
  length (exchanges (session s.1)) = 3%nat /\ needs_login 0 (mkMFPlatformAccount 8 "mf@x" "pw" None None) = true.
Proof. split_and!; vm_compute; reflexivity. Qed.
