(* ===== verification/Security.v ===== *)
(** * Tokens, hashes and second factors: [backend/app/core/security.py], the state tokens of
    [services/oauth_service.py], [microfinance/mf_app/core/security.py]

    [Primitives] is PyJWT, argon2, pyotp and Python's [secrets]. The instances at the end
    give [Verifier] and [Accounts], against which the control plane is proved, from them. *)

From Stdlib Require Import Ascii.
From S2P Require Import Prelude PyStd Queue MfRbac MfControl.
From S2P Require Import ControlPlane Placement Platform Access Organizations Orchestrator Databases Billing Accounts.

(** ** Model *)

(** A payload as it comes back: [exp] is then a number of seconds. *)
Definition stored (p : payload) : payload :=
  alter (fun v => match v with JTime t => JInt (t / seconds 1) | v => v end) "exp" p.
Definition expired (now : timestamp) (p : payload) : bool :=
  match p !! "exp" with Some (JInt e) => seconds e <=? now | _ => false end.

Class Primitives := {
  (** [jwt.encode] and [jwt.decode] with HS256: [None] is a [PyJWTError]. *)
  jwt_encode : payload -> string -> string;
  jwt_decode : timestamp -> string -> string -> option payload;
  jwt_decode_encode : forall now p key,
    jwt_decode now (jwt_encode p key) key = if expired now (stored p) then None else Some (stored p);
  (** The base64 of a JSON object. *)
  jwt_header : forall p key, String.prefix "eyJ" (jwt_encode p key) = true;
  (** [PasswordHasher]; [argon2_verify] of a mismatch is an exception that is caught. *)
  argon2_hash : Cp -> string -> string;
  argon2_verify : string -> string -> bool;
  argon2_verify_hash : forall s x, argon2_verify (argon2_hash s x) x = true;
  (** [pyotp.random_base32], and the code of a secret in a period of thirty seconds. *)
  random_base32 : Cp -> string;
  totp_at : string -> Z -> string;
  (** [secrets] *)
  token_hex : nat -> Cp -> string;
  token_urlsafe : nat -> Cp -> string;
  token_hex_digits : forall n s, String.length (token_hex n s) = (2 * n)%nat /\ all_chars is_hex (token_hex n s) = true;
  token_urlsafe_nonempty : forall n s, token_urlsafe (S n) s <> "";
}.

Section security.
Context `{Prim : Primitives}.
(** The settings [jwt_secret_key] and [access_token_expire_minutes]. *)
Context (jwt_secret_key : string) (access_token_expire_minutes : Z).

Definition minutes (n : Z) : timestamp := seconds (60 * n).

(** *** Passwords and keys *)

Definition hash_password (s : Cp) (plain_password : string) : string := argon2_hash s plain_password.
Definition verify_password (plain_password hash : string) : bool := argon2_verify hash plain_password.
Definition hash_api_key (s : Cp) (full_key : string) : string := argon2_hash s full_key.
Definition verify_api_key (full_key hash : string) : bool := argon2_verify hash full_key.
Definition api_key_parts (s : Cp) : string * string := (token_hex 4 s, token_urlsafe 32 s).
Definition generate_api_key (s : Cp) : string * string * string :=
  let '(prefix, secret_part) := api_key_parts s in
  let full_key := full_api_key prefix secret_part in
  (full_key, prefix, hash_api_key s full_key).
Definition generate_random_password (s : Cp) : string := token_urlsafe 24 s.
Definition generate_node_secret (s : Cp) : string * string := let secret := token_urlsafe 48 s in (secret, argon2_hash s secret).
Definition verify_node_secret (secret hash : string) : bool := argon2_verify hash secret.
Definition generate_bootstrap_token (s : Cp) : string * string := let token := token_urlsafe 32 s in (token, argon2_hash s token).
Definition verify_bootstrap_token (token hash : string) : bool := argon2_verify hash token.

(** *** Second factors *)

Definition generate_mfa_secret (s : Cp) : string := random_base32 s.
(** [TOTP(secret).verify(code, valid_window=1)] *)
Definition verify_totp_code (now : timestamp) (secret code : string) : bool :=
  existsb (fun k => String.eqb code (totp_at secret (now / seconds 30 + k))) [-1; 0; 1].

(** *** Tokens *)

Definition create_access_token (now : timestamp) (user_id : uuid) (token_version : Z) : string :=
  jwt_encode (<["sub" := JId user_id]> (<["ver" := JInt token_version]>
    {["exp" := JTime (now + minutes access_token_expire_minutes)]})) jwt_secret_key.

(** [uuid.UUID(v)] and [int(v)] of a claim. *)
Definition claim_uuid (v : jval) : outcome uuid := (as_uuid v tt).2.
Definition claim_int (v : jval) : outcome Z :=
  match v with
  | JInt z => Ret z
  | JBool b => Ret (if b then 1 else 0)
  | JStr x => py_int x
  | JId _ | JTime _ => Exc ValueError
  | JNull | JIds _ => Exc TypeError
  end.
(** [d.get(k)]: a null is as good as none. *)
Definition claim (p : payload) (key : string) : option jval :=
  match p !! key with Some JNull | None => None | Some v => Some v end.

Definition decode_access_token (now : timestamp) (token : string) : outcome (option (uuid * Z)) :=
  match jwt_decode now token jwt_secret_key with
  | None => Ret None
  | Some p =>
      match claim p "ver", claim p "sub" with
      | Some ver, Some sub =>
          match (u ← claim_uuid sub; v ← claim_int ver; Ret (u, v)) with
          | Ret x => Ret (Some x)
          | Exc ValueError | Exc TypeError => Ret None
          | Exc e => Exc e
          end
      | _, _ => Ret None
      end
  end.

(** *** The state of an OAuth login *)

Definition STATE_TTL_SECONDS : Z := 600.
Definition create_state (now : timestamp) (provider : string) : string :=
  jwt_encode (<["purpose" := JStr "oauth_state"]> (<["provider" := JStr provider]>
    {["exp" := JTime (now + seconds STATE_TTL_SECONDS)]})) jwt_secret_key.
(** [false] is [OAuthLoginError]. *)
Definition verify_state (now : timestamp) (provider state : string) : bool :=
  match jwt_decode now state jwt_secret_key with
  | None => false
  | Some p => bool_decide (p !! "purpose" = Some (JStr "oauth_state")) && bool_decide (p !! "provider" = Some (JStr provider))
  end.

(** *** The staff of an institution *)

Definition create_staff_access_token (now : timestamp) (staff_user_id institution_id : uuid) (role : string) : string :=
  jwt_encode (<["sub" := JId staff_user_id]> (<["institution_id" := JId institution_id]> (<["role" := JStr role]>
    {["exp" := JTime (now + minutes access_token_expire_minutes)]}))) jwt_secret_key.
(** [p[key]]; the role of a token is a text. *)
Definition key_of (p : payload) (key : string) : outcome jval := match p !! key with Some v => Ret v | None => Exc KeyError end.
Definition decode_staff_access_token (now : timestamp) (token : string) : outcome (option StaffTokenPayload) :=
  match jwt_decode now token jwt_secret_key with
  | None => Ret None
  | Some p =>
      match (sub ← key_of p "sub"; staff ← claim_uuid sub; i ← key_of p "institution_id"; institution ← claim_uuid i;
             role ← key_of p "role";
             Ret (mkStaffTokenPayload staff institution (match role with JStr x => x | _ => "" end))) with
      | Ret x => Ret (Some x)
      | Exc KeyError | Exc ValueError => Ret None
      | Exc e => Exc e
      end
  end.
(** [mf_operator_token_hash] is the setting, empty when there is no operator. *)
Definition verify_operator_token (mf_operator_token_hash token : string) : bool :=
  negb (String.eqb mf_operator_token_hash "") && argon2_verify mf_operator_token_hash token.
Definition generate_operator_token (s : Cp) : string * string := let token := token_urlsafe 32 s in (token, argon2_hash s token).

(** ** Lemmas *)

Definition expiry (p : payload) : option timestamp := match p !! "exp" with Some (JTime t) => Some t | _ => None end.

Lemma stored_other p key : key <> "exp" -> stored p !! key = p !! key.
Proof. intros H. unfold stored. by rewrite lookup_alter_ne. Qed.
Lemma stored_expired now p t : p !! "exp" = Some (JTime t) -> expired now (stored p) = (whole_seconds t <=? now).
Proof. intros H. unfold expired, stored. rewrite lookup_alter_eq, H. done. Qed.

(** What a signed token decodes to, until its time is over. *)
Lemma decode_signed now p t :
  p !! "exp" = Some (JTime t) ->
  jwt_decode now (jwt_encode p jwt_secret_key) jwt_secret_key = if now <? whole_seconds t then Some (stored p) else None.
Proof.
  intros H. rewrite jwt_decode_encode, (stored_expired now p t H). rewrite Z.ltb_antisym. by destruct (whole_seconds t <=? now).
Qed.

Ltac look := repeat first [rewrite stored_other by done|rewrite lookup_insert_eq|rewrite lookup_insert_ne by done
  |rewrite lookup_singleton_eq|rewrite lookup_singleton_ne by done].
Ltac until := match goal with |- context [?a <? whole_seconds ?t] => destruct (a <? whole_seconds t); [|reflexivity] end.

(** ** Properties *)

(** A session token is read back as the user and the version it was issued for, up to the
    second in which it expires, and refused from then on. *)
Theorem session_token_roundtrip now later user version :
  decode_access_token later (create_access_token now user version) =
    Ret (if later <? whole_seconds (now + minutes access_token_expire_minutes) then Some (user, version) else None).
Proof.
  unfold decode_access_token, create_access_token. erewrite decode_signed by (by look). until.
  unfold claim. by look.
Qed.

Lemma staff_token_roundtrip now later staff institution role :
  decode_staff_access_token later (create_staff_access_token now staff institution role) =
    Ret (if later <? whole_seconds (now + minutes access_token_expire_minutes)
         then Some (mkStaffTokenPayload staff institution role) else None).
Proof.
  unfold decode_staff_access_token, create_staff_access_token. erewrite decode_signed by (by look). until.
  unfold key_of. by look.
Qed.
Lemma state_roundtrip now later provider provider' :
  verify_state later provider' (create_state now provider) =
    (later <? whole_seconds (now + seconds STATE_TTL_SECONDS)) && bool_decide (provider = provider').
Proof.
  unfold verify_state, create_state. erewrite decode_signed by (by look). until. look.
  rewrite (bool_decide_eq_true_2 (Some (JStr "oauth_state") = _)) by done. cbn. apply bool_decide_ext. naive_solver.
Qed.

(** The three kinds of token may share a secret: none is taken for another. *)
Theorem tokens_do_not_mix now later user version provider staff institution role :
  decode_access_token later (create_state now provider) = Ret None /\
  decode_access_token later (create_staff_access_token now staff institution role) = Ret None /\
  verify_state later provider (create_access_token now user version) = false /\
  verify_state later provider (create_staff_access_token now staff institution role) = false /\
  decode_staff_access_token later (create_access_token now user version) = Ret None /\
  decode_staff_access_token later (create_state now provider) = Ret None.
Proof.
  unfold decode_access_token, verify_state, decode_staff_access_token, create_access_token, create_state, create_staff_access_token.
  split_and!; erewrite decode_signed by (by look); until; unfold claim, key_of; by look.
Qed.

(** A code is good in its period of thirty seconds and in the two next to it. *)
Lemma totp_window now secret counter :
  -1 <= counter - now / seconds 30 <= 1 -> verify_totp_code now secret (totp_at secret counter) = true.
Proof.
  intros H. unfold verify_totp_code. apply existsb_exists. exists (counter - now / seconds 30). split.
  - assert (counter - now / seconds 30 = -1 \/ counter - now / seconds 30 = 0 \/ counter - now / seconds 30 = 1)
      as [-> | [-> | ->]] by lia; simpl; tauto.
  - replace (now / seconds 30 + (counter - now / seconds 30)) with counter by lia. apply String.eqb_refl.
Qed.

(** *** The interfaces of the control plane *)

Definition security_verifier : Verifier := {|
  Access.decode_access_token := fun now token => match decode_access_token now token with Ret o => o | Exc _ => None end;
  Access.verify_api_key := verify_api_key;
|}.

Lemma jwt_is_no_key p key : extract_api_key_prefix (jwt_encode p key) = None.
Proof.
  pose proof (jwt_header p key) as H. destruct (jwt_encode p key) as [|a [|b r]]; [done|by destruct a as [[] [] [] [] [] [] [] []]|].
  unfold extract_api_key_prefix. cbn [String.prefix] in *.
  destruct (ascii_dec "e" a) as [<-|]; [|done]. destruct (ascii_dec "y" b) as [<-|]; [|done]. done.
Qed.

Lemma index_hex c h : is_hex c = false -> all_chars is_hex h = true -> String.index 0 (String c "") h = None.
Proof.
  intros Hc. induction h as [|a h IH]; [done|]. cbn [all_chars]. intros [Ha Hh]%andb_prop. cbn [String.index String.prefix].
  destruct (ascii_dec c a) as [->|]; [congruence|]. by rewrite (IH Hh).
Qed.

Program Definition security_accounts (oauth_user_info : Cp -> OAuthProviderName -> string -> outcome OAuthInfo) :
    @Accounts security_verifier := {|
  Accounts.hash_password := hash_password;
  Accounts.verify_password := verify_password;
  Accounts.generate_mfa_secret := generate_mfa_secret;
  Accounts.verify_totp_code := verify_totp_code;
  Accounts.create_access_token := create_access_token;
  Accounts.access_token_lifetime := minutes access_token_expire_minutes;
  Accounts.api_key_parts := api_key_parts;
  Accounts.hash_api_key := hash_api_key;
  Accounts.verify_oauth_state := verify_state;
  Accounts.oauth_user_info := oauth_user_info;
|}.
Next Obligation. intros _ s p. apply argon2_verify_hash. Qed.
Next Obligation.
  intros _ now later id version H. cbn. rewrite session_token_roundtrip. by apply Z.ltb_lt in H as ->.
Qed.
Next Obligation. intros _ now id version. apply jwt_is_no_key. Qed.
Next Obligation.
  intros _ s. cbn [api_key_parts fst snd]. pose proof (token_hex_digits 4 s) as [Hl Hh].
  split_and!; [exact Hl|by apply index_hex|apply token_urlsafe_nonempty].
Qed.
Next Obligation. intros _ s k. apply argon2_verify_hash. Qed.
End security.

(** *** An instance: a token is its own payload, with the key that signed it *)

Definition jval_code (v : jval) : unit + bool + Z + string + uuid + list uuid + timestamp :=
  match v with
  | JNull => inl (inl (inl (inl (inl (inl tt))))) | JBool b => inl (inl (inl (inl (inl (inr b)))))
  | JInt z => inl (inl (inl (inl (inr z)))) | JStr s => inl (inl (inl (inr s))) | JId u => inl (inl (inr u))
  | JIds us => inl (inr us) | JTime t => inr t
  end.
Definition jval_read (x : unit + bool + Z + string + uuid + list uuid + timestamp) : jval :=
  match x with
  | inl (inl (inl (inl (inl (inl _))))) => JNull | inl (inl (inl (inl (inl (inr b))))) => JBool b
  | inl (inl (inl (inl (inr z)))) => JInt z | inl (inl (inl (inr s))) => JStr s | inl (inl (inr u)) => JId u
  | inl (inr us) => JIds us | inr t => JTime t
  end.
#[export] Instance jval_countable : Countable jval.
Proof. apply (inj_countable' jval_code jval_read). by intros []. Defined.

Definition example_jwt (p : payload) (key : string) : string := "eyJ" +:+ bits (encode (p, key)).
Definition example_read (now : timestamp) (token key : string) : option payload :=
  x ← of_bits (removeprefix "eyJ" token) ≫= decode (A := payload * string);
  if bool_decide (x.2 = key) && negb (expired now (stored x.1)) then Some (stored x.1) else None.

Lemma removeprefix_eyJ x : removeprefix "eyJ" ("eyJ" +:+ x) = x.
Proof.
  unfold removeprefix. change ("eyJ" +:+ x) with (String "e" (String "y" (String "J" x))). cbn.
  replace (String.prefix "" x) with true by (by destruct x). rewrite Nat.sub_0_r.
  induction x as [|c x IH]; [done|]. cbn. by f_equal.
Qed.

#[refine] Definition example_primitives : Primitives := {|
  jwt_encode := example_jwt;
  jwt_decode := example_read;
  argon2_hash := fun _ x => x;
  argon2_verify := fun hash x => String.eqb hash x;
  random_base32 := fun _ => "JBSWY3DPEHPK3PXP";
  totp_at := fun secret counter => secret +:+ bits (Z.to_pos counter);
  token_hex := fun n _ => String.concat "" (replicate n "0f");
  token_urlsafe := fun _ _ => "s_3-cr3t";
|}.
Proof.
  - intros now p key. unfold example_read, example_jwt. rewrite removeprefix_eyJ, of_bits_bits. cbn [mbind option_bind].
    rewrite decode_encode. cbn [mbind option_bind fst snd]. rewrite bool_decide_eq_true_2 by done. by destruct (expired now (stored p)).
  - intros p key. unfold example_jwt. by destruct (bits _).
  - intros s x. apply String.eqb_refl.
  - intros n s. induction n as [|n [Hl Hh]]; [done|]. cbn [replicate].
    destruct (replicate n "0f") as [|x l] eqn:E; [by destruct n|].
    change (String.concat "" ("0f" :: x :: l)) with (String "0" (String "f" (String.concat "" (x :: l)))).
    cbn [all_chars String.length]. rewrite Hl, Hh. split; [lia|done].
  - done.
Defined.

Example session_of_a_month :
  let token := create_access_token (Prim := example_primitives) "secret" 43200 (seconds 5) 7 2 in
  decode_access_token (Prim := example_primitives) "secret" (days 30) token = Ret (Some (7%positive, 2)) /\
  decode_access_token (Prim := example_primitives) "secret" (days 30 + seconds 5) token = Ret None /\
  decode_access_token (Prim := example_primitives) "other" (days 30) token = Ret None.
Proof. cbv zeta. split_and!; vm_compute; reflexivity. Qed.
