(* ===== verification/Providers.v ===== *)
(** * The services the control plane calls: [backend/app/services/payment_providers/],
    [services/oauth_providers/], the redirection of [services/oauth_service.py],
    [services/email_service.py], [core/config.py]

    Over [Network], which is httpx and the two digests of [hmac], the clients are the
    [Gateways] of the payments and the [oauth_user_info] of the accounts. *)

From Stdlib Require Import Ascii SpecFloat.
From S2P Require Import Prelude PyStd Queue ControlPlane Placement Platform Orchestrator Access Organizations.
From S2P Require Import Databases Billing Payments Accounts MfRbac MfControl Security.
From S2P Require Import Json Documents.

(** ** Model *)

(** What the clients read of [Settings]; the window of a payment is in microseconds. *)
Record Settings := mkSettings {
  email_backend : string;
  email_from : string;
  resend_api_key : string;
  nowpayments_api_key : string;
  nowpayments_ipn_secret : string;
  nowpayments_sandbox : bool;
  nowpayments_public_api_url : string;
  nowpayments_default_pay_currency : string;
  nowpayments_payment_window_hours : Z;
  nowpayments_tolerance_usd : spec_float;
  fedapay_environment : string;
  fedapay_secret_key : string;
  fedapay_webhook_secret : string;
  oauth_redirect_base_url : string;
  frontend_oauth_redirect_url : string;
  google_client_id : string;
  google_client_secret : string;
  github_client_id : string;
  github_client_secret : string;
}.
Definition default_settings : Settings :=
  mkSettings "console" "no-reply@eminidatabase.dev" "" "" "" true "http://localhost:8000" "usdtbsc" (hours 3)
    (float_of_decimal false 5 (-1)) "sandbox" "" "" "http://localhost:8000" "http://localhost:3000" "" "" "" "".

(** *** Requests *)

Inductive RequestBody := NoBody | JsonBody (d : doc) | FormBody (fields : list (string * string)).
Record Request := mkRequest {
  rq_method : string;
  rq_url : string;
  rq_headers : list (string * string);
  rq_body : RequestBody;
}.
Record Response := mkResponse { rs_status_code : Z; rs_content : string }.

Class Network := {
  (** [None] is an [httpx.HTTPError]: no answer in fifteen seconds, or no connection. *)
  http : Cp -> Request -> option Response;
  (** [hmac.new(key, text, sha256 or sha512).hexdigest()] *)
  hmac_sha256 : string -> string -> string;
  hmac_sha512 : string -> string -> string;
  hmac_hex : forall key text, all_chars is_hex (hmac_sha512 key text) = true /\ all_chars is_hex (hmac_sha256 key text) = true;
  (** [str] of a list or of a dict. *)
  container_text : doc -> string;
}.

Section providers.
Context `{Net : Network} (settings : Settings).

(** [str(x)], and the text in an f-string. *)
Definition py_str (d : doc) : string :=
  match d with
  | DNull => "None"
  | DBool b => if b then "True" else "False"
  | DInt n => int_text n
  | DFloat x => float_repr x
  | DText s => s
  | DArray _ | DObject _ => container_text d
  end.
(** [Decimal(str(x))]: no list or dict prints as a number. *)
Definition py_decimal (d : doc) : outcome decimal :=
  match d with DArray _ | DObject _ => Exc InvalidOperation | d => decimal_of_text (py_str d) end.
(** A column of text refuses, when it is written, what is neither a text nor nothing. *)
Definition text_or_none (d : doc) : outcome (option string) :=
  match d with DNull => Ret None | DText s => Ret (Some s) | _ => Exc TypeError end.
Definition a_text (d : doc) : outcome string := match d with DText s => Ret s | _ => Exc TypeError end.

(** The answer, unless its status is an error: [FedaPayError], [NowPaymentsError],
    [GoogleOAuthError] and [GitHubOAuthError] are [ProviderError]. *)
Definition accepted (r : Response) : outcome string :=
  if 400 <=? rs_status_code r then Exc ProviderError else Ret (rs_content r).
Definition send (s : Cp) (rq : Request) : outcome Response :=
  match http s rq with Some r => Ret r | None => Exc TransportError end.
Definition call (s : Cp) (rq : Request) : outcome string := r ← send s rq; accepted r.
Definition call_json (s : Cp) (rq : Request) : outcome doc := b ← call s rq; json_loads b.

(** *** FedaPay *)

Definition fedapay_base_url : string :=
  if bool_decide (fedapay_environment settings = "sandbox") then "https://sandbox-api.fedapay.com/v1" else "https://api.fedapay.com/v1".
Definition fedapay_headers : list (string * string) := [("Authorization", "Bearer " +:+ fedapay_secret_key settings)].
(** [body.get("v1/transaction", body)] *)
Definition transaction_of (body : doc) : outcome doc :=
  match body with DObject d => Ret (default body (dict_get d "v1/transaction")) | _ => Exc AttributeError end.

Definition create_transaction (s : Cp) (amount : Z) (currency description customer_email : string) : outcome string :=
  body ← call_json s (mkRequest "POST" (fedapay_base_url +:+ "/transactions") fedapay_headers (JsonBody (DObject [
    ("description", DText description); ("amount", DInt amount);
    ("currency", DObject [("iso", DText currency)]); ("customer", DObject [("email", DText customer_email)])])));
  transaction ← transaction_of body;
  id ← doc_item "id" transaction;
  Ret (py_str id).
Definition get_transaction_status (s : Cp) (transaction_id : string) : outcome doc :=
  body ← call_json s (mkRequest "GET" (fedapay_base_url +:+ "/transactions/" +:+ transaction_id) fedapay_headers NoBody);
  transaction_of body.
Definition generate_token (s : Cp) (transaction_id : string) : outcome string :=
  body ← call_json s (mkRequest "POST" (fedapay_base_url +:+ "/transactions/" +:+ transaction_id +:+ "/token") fedapay_headers NoBody);
  token ← doc_item "token" body;
  a_text token.
(** [charge_mobile_money], once its operator is known. *)
Definition charge_request (token mode phone_number country : string) : Request :=
  mkRequest "POST" (fedapay_base_url +:+ "/" +:+ mode) fedapay_headers (JsonBody (DObject [
    ("token", DText token);
    ("phone_number", DObject [("number", DText phone_number); ("country", DText country)])])).
Definition collect (s : Cp) (token mode phone_number country : string) : outcome unit :=
  call s (charge_request token mode phone_number country);; Ret tt.
(** The text signed is that of the bytes of the body. *)
Definition fedapay_digest (stamp body : string) : outcome string :=
  text ← decode_text body;
  Ret (hmac_sha256 (fedapay_webhook_secret settings) (stamp +:+ "." +:+ text)).

(** *** NOWPayments *)

Definition nowpayments_base_url : string :=
  if nowpayments_sandbox settings then "https://api-sandbox.nowpayments.io/v1" else "https://api.nowpayments.io/v1".
Definition nowpayments_headers : list (string * string) :=
  [("x-api-key", nowpayments_api_key settings); ("Content-Type", "application/json")].
(** [float] of an amount in hundredths. *)
Definition float_of_money (m : money) : spec_float := float_of_decimal (m <? 0) (Z.abs m) (-2).

Definition create_payment (s : Cp) (price_amount : spec_float) (price_currency order_id order_description pay_currency : string) :
    outcome doc :=
  call_json s (mkRequest "POST" (nowpayments_base_url +:+ "/payment") nowpayments_headers (JsonBody (DObject [
    ("price_amount", DFloat price_amount); ("price_currency", DText price_currency); ("pay_currency", DText pay_currency);
    ("order_id", DText order_id); ("order_description", DText order_description);
    ("ipn_callback_url", DText (nowpayments_public_api_url settings +:+ "/api/v1/billing/webhooks/nowpayments"));
    ("is_fixed_rate", DBool false); ("is_fee_paid_by_user", DBool false)]))).
Definition get_payment_status (s : Cp) (payment_id : string) : outcome doc :=
  call_json s (mkRequest "GET" (nowpayments_base_url +:+ "/payment/" +:+ payment_id) nowpayments_headers NoBody).
(** What [initiate_crypto_payment] keeps of the answer. *)
Definition new_payment (s : Cp) (invoice : uuid) (amount : money) (currency : string) (pay_currency : option string) : outcome NowPayment :=
  let coin := match pay_currency with None | Some "" => nowpayments_default_pay_currency settings | Some c => c end in
  response ← create_payment s (float_of_money amount) currency (str_uuid invoice) ("eminidatabase invoice " +:+ str_uuid invoice) coin;
  raw ← doc_get "pay_amount" response;
  id ← doc_item "payment_id" response;
  st ← doc_get "payment_status" response;
  st ← text_or_none st;
  match raw with DNull => Ret tt | raw => py_decimal raw;; Ret tt end;;
  Ret (mkNowPayment (py_str id) st).

(** The digest of the body written again with sorted keys. *)
Definition ipn_hmac (body : string) : outcome string :=
  d ← json_loads body;
  text ← encode_text (dumps_sorted d);
  Ret (hmac_sha512 (nowpayments_ipn_secret settings) text).
(** [payload.get(k) or "0"] *)
Definition amount_of (payload : doc) (key : string) : outcome decimal :=
  v ← doc_get key payload;
  if truthy v then py_decimal v else Ret (Dec 0 0).
Definition ipn_of (payload : doc) : outcome Ipn :=
  id ← doc_get "payment_id" payload;
  st ← doc_get "payment_status" payload;
  actually_paid ← amount_of payload "actually_paid";
  price_amount ← amount_of payload "price_amount";
  st ← text_or_none st;
  Ret (mkIpn (py_str id) st actually_paid price_amount).
Definition fedapay_event_of (payload : doc) : outcome FedapayEvent :=
  entity ← doc_get "entity" payload;
  let entity := if truthy entity then entity else DObject [] in
  id ← doc_get "id" entity;
  st ← doc_get "status" entity;
  st ← text_or_none st;
  Ret (mkFedapayEvent (py_str id) st).

Definition tolerance : decimal := match decimal_of_text (float_repr (nowpayments_tolerance_usd settings)) with Ret d => d | Exc _ => Dec 0 0 end.

#[local] Instance network_gateways : Gateways := {
  nowpayments_create_payment := new_payment;
  fedapay_create_transaction := fun s invoice amount currency email =>
    create_transaction s amount currency ("eminidatabase invoice " +:+ str_uuid invoice) email;
  fedapay_generate_token := generate_token;
  fedapay_collect := collect;
  read_ipn := fun body => d ← json_loads body; ipn_of d;
  read_fedapay_event := fun body => d ← json_loads body; fedapay_event_of d;
  ipn_digest := ipn_hmac;
  fedapay_sign := fedapay_digest;
  nowpayments_tolerance := tolerance;
  nowpayments_window := nowpayments_payment_window_hours settings;
}.

(** *** OAuth *)

(** [urllib.parse.quote_plus] and [urlencode]. *)
Definition unreserved (c : ascii) : bool :=
  is_digit c || within 65 90 c || within 97 122 c || existsb (Ascii.eqb c) ["_"; "."; "-"; "~"]%char.
Definition upper_hex (n : Z) : ascii := byte_of (if n <? 10 then 48 + n else 55 + n).
Definition quote_char (c : ascii) : string :=
  if unreserved c then String c ""
  else if Ascii.eqb c " " then "+"
  else String "%" (String (upper_hex (code c / 16)) (String (upper_hex (code c mod 16)) "")).
Fixpoint quote_plus (s : string) : string :=
  match s with EmptyString => "" | String c s => quote_char c +:+ quote_plus s end.
Definition quote_pair (kv : string * string) : string := quote_plus kv.1 +:+ "=" +:+ quote_plus kv.2.
Fixpoint urlencode (params : list (string * string)) : string :=
  match params with
  | [] => ""
  | [kv] => quote_pair kv
  | kv :: params => quote_pair kv +:+ "&" +:+ urlencode params
  end.

Definition redirect_uri (provider : string) : string :=
  oauth_redirect_base_url settings +:+ "/api/v1/auth/oauth/" +:+ provider +:+ "/callback".
Definition authorize_params (p : OAuthProviderName) (state : string) : list (string * string) :=
  match p with
  | GOOGLE => [("client_id", google_client_id settings); ("redirect_uri", redirect_uri "google"); ("response_type", "code");
               ("scope", "openid email profile"); ("state", state); ("access_type", "online"); ("prompt", "select_account")]
  | GITHUB => [("client_id", github_client_id settings); ("redirect_uri", redirect_uri "github");
               ("scope", "read:user user:email"); ("state", state)]
  end.
Definition authorize_base (p : OAuthProviderName) : string :=
  match p with
  | GOOGLE => "https://accounts.google.com/o/oauth2/v2/auth"
  | GITHUB => "https://github.com/login/oauth/authorize"
  end.
Definition build_authorize_url (p : OAuthProviderName) (state : string) : string :=
  authorize_base p +:+ "?" +:+ urlencode (authorize_params p state).

Definition exchange_code (s : Cp) (p : OAuthProviderName) (auth_code : string) : outcome string :=
  match p with
  | GOOGLE =>
      body ← call_json s (mkRequest "POST" "https://oauth2.googleapis.com/token" [] (FormBody [
        ("client_id", google_client_id settings); ("client_secret", google_client_secret settings); ("code", auth_code);
        ("grant_type", "authorization_code"); ("redirect_uri", redirect_uri "google")]));
      token ← doc_item "access_token" body;
      Ret (py_str token)
  | GITHUB =>
      body ← call_json s (mkRequest "POST" "https://github.com/login/oauth/access_token" [("Accept", "application/json")] (FormBody [
        ("client_id", github_client_id settings); ("client_secret", github_client_secret settings); ("code", auth_code);
        ("redirect_uri", redirect_uri "github")]));
      match body with
      | DObject d => match dict_get d "error" with Some _ => Exc ProviderError | None => Ret tt end
      | _ => Exc TypeError
      end;;
      token ← doc_item "access_token" body;
      Ret (py_str token)
  end.

(** [next((e for e in emails if e.get("primary")), None)] *)
Fixpoint find_primary (emails : list doc) : outcome (option doc) :=
  match emails with
  | [] => Ret None
  | e :: emails => v ← doc_get "primary" e; if truthy v then Ret (Some e) else find_primary emails
  end.
Definition elements_of (d : doc) : outcome (list doc) :=
  match d with
  | DArray l => Ret l
  | DObject d => Ret (map (fun kv => DText kv.1) d)
  | DText s => Ret (map (fun c => DText (String c "")) (String.list_ascii_of_string s))
  | _ => Exc TypeError
  end.
Definition github_info (user emails : doc) : outcome OAuthInfo :=
  l ← elements_of emails;
  primary ← find_primary l;
  id ← doc_item "id" user;
  email ← match primary with Some e => doc_item "email" e | None => doc_get "email" user end;
  verified ← match primary with Some e => v ← doc_item "verified" e; Ret (truthy v) | None => Ret false end;
  email ← text_or_none email;
  Ret (mkOAuthInfo verified email (py_str id)).
Definition google_info (body : doc) : outcome OAuthInfo :=
  sub ← doc_item "sub" body;
  email ← doc_get "email" body;
  verified ← doc_get "email_verified" body;
  sub ← a_text sub;
  email ← text_or_none email;
  Ret (mkOAuthInfo (truthy verified) email sub).
Definition fetch_user_info (s : Cp) (p : OAuthProviderName) (access_token : string) : outcome OAuthInfo :=
  let bearer := ("Authorization", "Bearer " +:+ access_token) in
  match p with
  | GOOGLE =>
      body ← call_json s (mkRequest "GET" "https://openidconnect.googleapis.com/v1/userinfo" [bearer] NoBody);
      google_info body
  | GITHUB =>
      let headers := [bearer; ("Accept", "application/vnd.github+json")] in
      user_resp ← send s (mkRequest "GET" "https://api.github.com/user" headers NoBody);
      emails_resp ← send s (mkRequest "GET" "https://api.github.com/user/emails" headers NoBody);
      user ← accepted user_resp;
      emails ← accepted emails_resp;
      user ← json_loads user;
      emails ← json_loads emails;
      github_info user emails
  end.
Definition user_info (s : Cp) (p : OAuthProviderName) (auth_code : string) : outcome OAuthInfo :=
  access_token ← exchange_code s p auth_code;
  fetch_user_info s p access_token.

(** *** Mail *)

Definition email_request (to_ subject text : string) (html : option string) : outcome (option Request) :=
  if bool_decide (email_backend settings = "console") then Ret None
  else if bool_decide (email_backend settings = "resend") then
    Ret (Some (mkRequest "POST" "https://api.resend.com/emails" [("Authorization", "Bearer " +:+ resend_api_key settings)]
      (JsonBody (DObject ([("from", DText (email_from settings)); ("to", DArray [DText to_]); ("subject", DText subject);
        ("text", DText text)] ++ match html with None | Some "" => [] | Some h => [("html", DText h)] end)))))
  else Exc ValueError.
Definition send_email (s : Cp) (to_ subject text : string) (html : option string) : outcome unit :=
  rq ← email_request to_ subject text html;
  match rq with
  | None => Ret tt
  | Some rq =>
      r ← send s rq;
      if (200 <=? rs_status_code r) && (rs_status_code r <? 300) then Ret tt else Exc (HTTPStatusError (rs_status_code r))
  end.
(** A mail that fails is logged. *)
Definition send_email_safe (s : Cp) (to_ subject text html : string) : outcome unit :=
  match send_email s to_ subject text (Some html) with Exc _ => Ret tt | r => r end.
End providers.

(** *** The redirection to the provider *)

Section redirection.
Context `{Prim : Primitives} (settings : Settings) (jwt_secret_key : string).

Definition build_authorize_redirect (now : timestamp) (provider : string) : outcome string :=
  match oauth_provider provider with
  | None => Exc (HTTPException 404)
  | Some p => Ret (build_authorize_url settings p (create_state jwt_secret_key now provider))
  end.
End redirection.

(** ** Specifications *)

(** What a provider reads in the query of a URL. *)
Fixpoint unquote (s : string) : string :=
  match s with
  | EmptyString => ""
  | String c r =>
      if Ascii.eqb c "+" then String " " (unquote r)
      else if Ascii.eqb c "%" then
        match r with
        | String a (String b r') =>
            match hex_digit a, hex_digit b with
            | Some x, Some y => String (byte_of (16 * x + y)) (unquote r')
            | _, _ => String c (unquote r)
            end
        | _ => String c (unquote r)
        end
      else String c (unquote r)
  end.
Fixpoint cut (c : ascii) (s : string) : string * string :=
  match s with
  | EmptyString => ("", "")
  | String a s => if Ascii.eqb a c then ("", s) else let '(x, y) := cut c s in (String a x, y)
  end.
Definition parse_query (s : string) : list (string * string) :=
  map (fun piece => let '(k, v) := cut "=" piece in (unquote k, unquote v)) (split_char "&" s).

(** The provider itself says that the address is one it has verified: for GitHub, the
    primary address of the account. *)
Definition vouches `{Net : Network} (s : Cp) (p : OAuthProviderName) (access_token account email : string) : Prop :=
  let bearer := ("Authorization", "Bearer " +:+ access_token) in
  match p with
  | GOOGLE => exists d v,
      call_json s (mkRequest "GET" "https://openidconnect.googleapis.com/v1/userinfo" [bearer] NoBody) = Ret (DObject d) /\
      dict_get d "sub" = Some (DText account) /\ dict_get d "email" = Some (DText email) /\
      dict_get d "email_verified" = Some v /\ truthy v = true
  | GITHUB => exists user l e id primary verified,
      let headers := [bearer; ("Accept", "application/vnd.github+json")] in
      call_json s (mkRequest "GET" "https://api.github.com/user" headers NoBody) = Ret (DObject user) /\
      call_json s (mkRequest "GET" "https://api.github.com/user/emails" headers NoBody) = Ret (DArray l) /\
      dict_get user "id" = Some id /\ py_str id = account /\ DObject e ∈ l /\
      dict_get e "primary" = Some primary /\ truthy primary = true /\
      dict_get e "verified" = Some verified /\ truthy verified = true /\ dict_get e "email" = Some (DText email)
  end.

(** ** Lemmas *)

Lemma unquote_char c r : unquote (quote_char c +:+ r) = String c (unquote r).
Proof. destruct c as [[] [] [] [] [] [] [] []]; reflexivity. Qed.
Lemma unquote_quote s : unquote (quote_plus s) = s.
Proof. induction s as [|c s IH]; [done|]. cbn [quote_plus]. by rewrite unquote_char, IH. Qed.
Definition no_separator (s : string) : bool := all_chars (fun c => negb (Ascii.eqb c "&" || Ascii.eqb c "=")) s.
Lemma quote_no_separator s : no_separator (quote_plus s) = true.
Proof.
  unfold no_separator. induction s as [|c s IH]; [done|]. cbn [quote_plus]. rewrite all_chars_app, IH, andb_true_r.
  by destruct c as [[] [] [] [] [] [] [] []].
Qed.
Lemma cut_app k v : no_separator k = true -> cut "=" (k +:+ String "=" v) = (k, v).
Proof.
  unfold no_separator. induction k as [|c k IH]; [done|]. cbn [all_chars]. intros [[_ Hc]%negb_true_iff%orb_false_iff Hk]%andb_true_iff.
  change (String c k +:+ String "=" v) with (String c (k +:+ String "=" v)). cbn [cut]. by rewrite Hc, IH.
Qed.
Definition no_and (s : string) : bool := all_chars (fun c => negb (Ascii.eqb c "&")) s.
Lemma split_app a r : no_and a = true -> split_char "&" (a +:+ String "&" r) = a :: split_char "&" r.
Proof.
  unfold no_and. induction a as [|c a IH]; [done|]. cbn [all_chars]. intros [Hc%negb_true_iff Ha]%andb_true_iff.
  change (String c a +:+ String "&" r) with (String c (a +:+ String "&" r)). cbn [split_char]. by rewrite Hc, IH.
Qed.
Lemma split_last a : no_and a = true -> split_char "&" a = [a].
Proof.
  unfold no_and. induction a as [|c a IH]; [done|]. cbn [all_chars]. intros [Hc%negb_true_iff Ha]%andb_true_iff.
  cbn [split_char]. by rewrite Hc, IH.
Qed.
Lemma no_separator_and s : no_separator s = true -> no_and s = true.
Proof.
  unfold no_separator, no_and. induction s as [|c s IH]; [done|]. cbn [all_chars].
  intros [[Hc _]%negb_true_iff%orb_false_iff Hs]%andb_true_iff. by rewrite Hc, IH.
Qed.
Lemma quote_pair_no_and kv : no_and (quote_pair kv) = true.
Proof.
  unfold quote_pair. pose proof (no_separator_and _ (quote_no_separator kv.1)). pose proof (no_separator_and _ (quote_no_separator kv.2)).
  unfold no_and in *. rewrite !all_chars_app. rewrite H, H0. done.
Qed.
Lemma split_urlencode params : params <> [] -> split_char "&" (urlencode params) = map quote_pair params.
Proof.
  induction params as [|kv [|kv' params] IH]; [done|intros _; by apply split_last, quote_pair_no_and|intros _].
  change (urlencode (kv :: kv' :: params)) with (quote_pair kv +:+ String "&" (urlencode (kv' :: params))).
  rewrite split_app by apply quote_pair_no_and. by rewrite IH.
Qed.
(** The provider reads the parameters that were written, whatever they hold. *)
Lemma parse_urlencode params : params <> [] -> parse_query (urlencode params) = params.
Proof.
  intros H. unfold parse_query. rewrite split_urlencode by done. clear H.
  induction params as [|[k v] params IH]; [done|]. cbn [map]. f_equal; [|done].
  unfold quote_pair. cbn [fst snd]. change ("=" +:+ quote_plus v) with (String "=" (quote_plus v)).
  rewrite cut_app by apply quote_no_separator. by rewrite !unquote_quote.
Qed.

(** *** Notifications *)

(** A payment is named by a text or a number. *)
Definition scalar_id (payload : doc) : bool :=
  match doc_get "payment_id" payload with Ret (DArray _ | DObject _) => false | _ => true end.

Section notifications.
Context `{Net : Network} (settings : Settings).

Lemma py_decimal_sorted d : py_decimal (sorted d) = py_decimal d.
Proof. by destruct d. Qed.
Lemma text_or_none_sorted d : text_or_none (sorted d) = text_or_none d.
Proof. by destruct d. Qed.
Lemma amount_sorted d k : shaped d = true -> amount_of (sorted d) k = amount_of d k.
Proof.
  intros H. unfold amount_of. rewrite doc_get_sorted by done. destruct (doc_get k d) as [v|]; [|done]. cbn.
  by rewrite sorted_truthy, py_decimal_sorted.
Qed.
Lemma scalar_id_sorted d : shaped d = true -> scalar_id (sorted d) = scalar_id d.
Proof. intros H. unfold scalar_id. rewrite doc_get_sorted by done. by destruct (doc_get _ d) as [[]|]. Qed.
Lemma ipn_sorted d : shaped d = true -> scalar_id d = true -> ipn_of (sorted d) = ipn_of d.
Proof.
  intros H Hid. unfold ipn_of. rewrite !doc_get_sorted, !amount_sorted by done. unfold scalar_id in Hid.
  destruct (doc_get "payment_id" d) as [i|]; [|done]. destruct (doc_get "payment_status" d) as [st|]; [|done]. cbn.
  rewrite text_or_none_sorted. by destruct i.
Qed.
(** The digest and the notification of a body are those of its content. *)
Lemma same_content b b' d d' :
  json_loads b = Ret d -> json_loads b' = Ret d' -> scalar_id d = true -> sorted d = sorted d' ->
  ipn_hmac settings b = ipn_hmac settings b' /\ (d ← json_loads b; ipn_of d) = (d ← json_loads b'; ipn_of d).
Proof.
  intros Hb Hb' Hid E. pose proof (json_loads_total b) as Hd. pose proof (json_loads_total b') as Hd'.
  rewrite Hb in Hd. rewrite Hb' in Hd'.
  assert (Hid' : scalar_id d' = true) by (by rewrite <- scalar_id_sorted, <- E, scalar_id_sorted).
  unfold ipn_hmac. rewrite Hb, Hb'. split.
  - unfold mbind, outcome_bind, dumps_sorted. by rewrite E.
  - unfold mbind, outcome_bind. rewrite <- (ipn_sorted d), <- (ipn_sorted d') by done. by rewrite E.
Qed.
Lemma verified_digest b sig :
  nowpayments_verify_ipn_signature (Gates := network_gateways settings) b sig = Ret true -> ipn_hmac settings b = Ret (lower sig).
Proof.
  unfold nowpayments_verify_ipn_signature. intros (e & He & H)%obind_Ret. change (ipn_hmac settings b = Ret e) in He. rewrite He.
  unfold compare_digest in H. destruct (_ && _); [|done]. injection H as H. apply bool_decide_eq_true in H. by rewrite H.
Qed.
End notifications.

(** ** Properties *)

(** C16. A NOWPayments signature is one of the content of a notification: two bodies
    that list the same fields in another order, or with other white space, are accepted
    together and do the same, and when one signature fits two bodies their contents are
    the same, unless the digest collides on them. *)
Theorem ipn_signature_binds_content `{Env : Platform} `{Net : Network} settings b b' d d' :
  json_loads b = Ret d -> json_loads b' = Ret d' -> scalar_id d = true ->
  let Gates := network_gateways settings in
  (sorted d = sorted d' ->
   forall now signature s, handle_nowpayments_webhook now b signature s = handle_nowpayments_webhook now b' signature s) /\
  (floats_read d -> floats_read d' ->
   (let h := hmac_sha512 (nowpayments_ipn_secret settings) in
    h (dumps_sorted d) = h (dumps_sorted d') -> dumps_sorted d = dumps_sorted d') ->
   forall signature, nowpayments_verify_ipn_signature b signature = Ret true ->
     nowpayments_verify_ipn_signature b' signature = Ret true -> sorted d = sorted d').
Proof.
  intros Hb Hb' Hid Gates. split.
  - intros E now signature s. destruct (same_content settings b b' d d' Hb Hb' Hid E) as [Hh Hi].
    unfold handle_nowpayments_webhook, nowpayments_verify_ipn_signature. cbn [ipn_digest read_ipn Gates network_gateways].
    by rewrite Hh, Hi.
  - intros Hf Hf' Hcol signature H%verified_digest H'%verified_digest.
    pose proof (json_loads_total b) as Hd. pose proof (json_loads_total b') as Hd'. rewrite Hb in Hd. rewrite Hb' in Hd'.
    apply dumps_sorted_inj; [done..|]. apply Hcol. unfold ipn_hmac in *. rewrite Hb in H. rewrite Hb' in H'.
    cbn [mbind outcome_bind] in *. unfold encode_text in *. do 2 (destruct (has_surrogate _); [done|]). cbn in *. congruence.
Qed.

(** *** Logins *)

Lemma text_or_none_Some d x : text_or_none d = Ret (Some x) -> d = DText x.
Proof. destruct d; try done. by intros [= ->]. Qed.
Lemma doc_item_Ret k d v : doc_item k d = Ret v -> exists o, d = DObject o /\ dict_get o k = Some v.
Proof. destruct d as [| | | | | |o]; try done. cbn. destruct (dict_get o k) eqn:E; [|done]. intros [= <-]. by exists o. Qed.
Lemma doc_get_Ret k d v : doc_get k d = Ret v -> exists o, d = DObject o /\ default DNull (dict_get o k) = v.
Proof. destruct d as [| | | | | |o]; try done. intros [= <-]. by exists o. Qed.
Lemma default_truthy o v : default DNull o = v -> v <> DNull -> o = Some v.
Proof. destruct o; cbn; [by intros ->|done]. Qed.
Lemma find_primary_Some l e :
  find_primary l = Ret (Some e) -> e ∈ l /\ exists o v, e = DObject o /\ dict_get o "primary" = Some v /\ truthy v = true.
Proof.
  induction l as [|d l IH]; [done|]. cbn [find_primary]. intros (v & Hv & H)%obind_Ret. destruct (truthy v) eqn:Ht.
  - injection H as ->. split; [by left|]. apply doc_get_Ret in Hv as (o & -> & Hv). exists o, v. split_and!; [done| |done].
    apply default_truthy; [done|]. by intros ->.
  - destruct (IH H) as [Hin He]. split; [by right|done].
Qed.

Section logins.
Context `{Net : Network} (settings : Settings).

Lemma call_json_Ret s rq r b d :
  send s rq = Ret r -> accepted r = Ret b -> json_loads b = Ret d -> call_json s rq = Ret d.
Proof. intros Hr Hb Hd. unfold call_json, call. rewrite Hr. cbn. by rewrite Hb. Qed.
(** An address that passes the tests of [handle_callback] is one the provider vouches for. *)
Lemma fetched_is_vouched s p token info email :
  fetch_user_info s p token = Ret info -> oi_email_verified info = true -> oi_email info = Some email ->
  vouches s p token (oi_provider_account_id info) email.
Proof.
  destruct p; cbn [fetch_user_info vouches]; intros H Hv He.
  - apply obind_Ret in H as (body & Hbody & H). unfold google_info in H.
    apply obind_Ret in H as (sub & Hsub & H). apply obind_Ret in H as (em & Hem & H). apply obind_Ret in H as (v & Hver & H).
    apply obind_Ret in H as (sub' & Hsub' & H). apply obind_Ret in H as (em' & Hem' & [= <-]). cbn in *. subst em'.
    apply text_or_none_Some in Hem' as ->. apply doc_item_Ret in Hsub as (d & -> & Hsub).
    destruct sub as [| | | |x| |]; try done. injection Hsub' as ->.
    apply doc_get_Ret in Hem as (? & [= <-] & Hem). apply doc_get_Ret in Hver as (? & [= <-] & Hver).
    exists d, v. split_and!; [done|done|by apply default_truthy| |done]. apply default_truthy; [done|]. by intros ->.
  - apply obind_Ret in H as (ru & Hru & H). apply obind_Ret in H as (re & Hre & H).
    apply obind_Ret in H as (bu & Hbu & H). apply obind_Ret in H as (be & Hbe & H).
    apply obind_Ret in H as (user & Huser & H). apply obind_Ret in H as (emails & Hemails & H).
    pose proof (call_json_Ret _ _ _ _ _ Hru Hbu Huser) as Hcu. pose proof (call_json_Ret _ _ _ _ _ Hre Hbe Hemails) as Hce.
    unfold github_info in H. apply obind_Ret in H as (l & Hl & H). apply obind_Ret in H as (primary & Hp & H).
    apply obind_Ret in H as (id & Hid & H). apply obind_Ret in H as (em & Hem & H). apply obind_Ret in H as (v & Hver & H).
    apply obind_Ret in H as (em' & Hem' & [= <-]). cbn in *. subst em' v.
    destruct primary as [e|]; [|done]. apply find_primary_Some in Hp as (Hin & o & pv & -> & Hp & Ht).
    apply obind_Ret in Hver as (vv & Hvv & [= Hver]). apply text_or_none_Some in Hem' as ->.
    apply doc_item_Ret in Hid as (u & -> & Hid). apply doc_item_Ret in Hem as (? & [= <-] & Hem).
    apply doc_item_Ret in Hvv as (? & [= <-] & Hvv).
    assert (emails = DArray l) as ->.
    { destruct emails as [| | | |x|l'|d']; try done; [exfalso|by injection Hl as ->|exfalso]; injection Hl as <-;
        apply list_elem_of_In, in_map_iff in Hin as (? & [=] & _). }
    exists u, l, o, id, pv, vv. by split_and!.
Qed.
End logins.

(** The end of [handle_callback]: the account is linked, and nothing else of it changes. *)
Lemma link_run `{Env : Platform} id p account email (m : M Cp unit) s t id' u :
  (forall us, pres (fun x => users x = us) m) -> (forall os, pres (fun x => oauth_accounts x = os) m) ->
  (add_oauth_account (mkOAuthAccount id p account email);; m;; u ← obj users id; mret (id, u)) s = (t, Ret (id', u)) ->
  id' = id /\ users t = users s /\ users s !! id = Some u /\
  exists k, oauth_accounts t !! k = Some (mkOAuthAccount id p account email).
Proof.
  intros Hus Hos H. unfold add_oauth_account in H.
  apply bind_Ret in H as (s1 & ? & H1 & H). rewrite bind_gets in H1. apply modify_Ret in H1.
  apply bind_Ret in H as (s2 & ? & H2 & H). apply bind_Ret in H as (? & w & [-> Hw]%obj_run & H). apply mret_Ret in H as [-> [= -> ->]].
  pose proof (pres_run _ _ _ _ _ (Hus (users s1)) H2 eq_refl) as Eu. pose proof (pres_run _ _ _ _ _ (Hos (oauth_accounts s1)) H2 eq_refl) as Eo.
  cbn beta in Eu, Eo. rewrite Eu in *. subst s1. cbn in Eu, Hw |- *. split_and!; [done|done|done|].
  exists (uuid4 s). rewrite Eo. cbn. by rewrite lookup_insert_eq.
Qed.

Section oauth_properties.
Context `{Env : Platform} `{Prim : Primitives} `{Net : Network} (settings : Settings).
Context (jwt_secret_key : string) (access_token_expire_minutes : Z).

(** The provider reads in the redirection the parameters the code writes, whatever
    they hold: among them the address of its own callback, and a state that the callback
    accepts for ten minutes, for this provider only. *)
Theorem oauth_redirection_roundtrip now provider url :
  build_authorize_redirect settings jwt_secret_key now provider = Ret url ->
  exists p query state, oauth_provider provider = Some p /\ url = authorize_base p +:+ "?" +:+ query /\
    parse_query query = authorize_params settings p state /\
    dict_get (parse_query query) "redirect_uri" = Some (redirect_uri settings provider) /\
    dict_get (parse_query query) "state" = Some state /\
    forall later provider', verify_state jwt_secret_key later provider' state =
      (later <? whole_seconds (now + seconds STATE_TTL_SECONDS)) && bool_decide (provider = provider').
Proof.
  unfold build_authorize_redirect. destruct (oauth_provider provider) as [p|] eqn:Hp; [|done]. intros [= <-].
  set (state := create_state jwt_secret_key now provider). exists p, (urlencode (authorize_params settings p state)), state.
  assert (Hq : parse_query (urlencode (authorize_params settings p state)) = authorize_params settings p state)
    by (apply parse_urlencode; by destruct p).
  rewrite Hq. split_and!; [done|done|done| |by destruct p|intros; apply state_roundtrip].
  unfold oauth_provider in Hp. cbn [dict_get] in Hp. case_decide as E; [injection Hp as <-; by subst provider|].
  case_decide as E'; [injection Hp as <-; by subst provider|done].
Qed.

#[local] Instance signed_verifier : Verifier := security_verifier jwt_secret_key.
#[local] Instance network_accounts : Accounts :=
  security_accounts jwt_secret_key access_token_expire_minutes (user_info settings).

(** C36. A login with Google or GitHub opens the account of someone only when the state
    is ours, and the provider, asked with the code, vouches for the address: for GitHub the
    verified primary one. The account is the one linked before, or the one with that very
    address, and no other account changes. *)
Theorem oauth_login_is_vouched now provider auth_code state s t id u :
  handle_callback now provider auth_code state s = (t, Ret (id, u)) ->
  exists p token account email, oauth_provider provider = Some p /\
    verify_state jwt_secret_key now provider state = true /\
    exchange_code settings s p auth_code = Ret token /\ vouches s p token account email /\ email <> "" /\
    users t !! id = Some u /\
    (t = s /\ (exists k a, oauth_accounts s !! k = Some a /\ linked p account a = true /\ oa_user_id a = id) \/
     ur_email u = email /\ (exists k, oauth_accounts t !! k = Some (mkOAuthAccount id p account email))) /\
    (forall k v, users s !! k = Some v -> users t !! k = Some v).
Proof.
  unfold handle_callback. intros H.
  apply bind_Ret in H as (? & p & [Hp ->]%some_or_Ret & H).
  apply bind_Ret in H as (? & ? & [Hst ->]%require_Ret & H).
  rewrite bind_gets in H. cbn [oauth_user_info verify_oauth_state network_accounts security_accounts] in H, Hst.
  destruct (user_info settings s p auth_code) as [info|e] eqn:Hinfo;
    [|apply bind_Ret in H as (? & ? & H & _); discriminate H].
  apply bind_Ret in H as (? & i & [-> ->]%mret_Ret & H).
  apply bind_Ret in H as (? & ? & [[Hver Hem]%andb_true_iff ->]%require_Ret & H).
  destruct (oi_email info) as [email|] eqn:He; [|done]. cbn [default] in *.
  apply negb_true_iff, bool_decide_eq_false in Hem.
  apply obind_Ret in Hinfo as (token & Htok & Hinfo).
  pose proof (fetched_is_vouched _ _ _ _ _ Hinfo Hver He) as Hv.
  exists p, token, (oi_provider_account_id info), email. do 5 (split; [done|]).
  rewrite bind_gets in H. apply bind_Ret in H as (? & link & [-> Hlink]%scalar_one_or_none_Ret & H).
  destruct link as [a|].
  - apply bind_Ret in H as (? & o & [-> ->]%cp_get_run & H). apply bind_Ret in H as (? & w & [Hu ->]%some_or_Ret & H).
    apply mret_Ret in H as [-> [= -> ->]]. split; [done|]. split; [left|done]. split; [done|].
    assert (a ∈ rows (linked p (oi_provider_account_id info)) (oauth_accounts s)) as (k & Hk & Hl)%elem_of_rows
      by (rewrite Hlink; left). by exists k, a.
  - rewrite bind_gets in H. apply bind_Ret in H as (? & found & [-> Hfound]%scalar_one_or_none_Ret & H).
    destruct found as [[id0 w]|].
    + apply elem_of_singleton_select in Hfound as [Hw Hmail%bool_decide_eq_true]. cbn [fst snd] in Hw, Hmail.
      apply bind_Ret in H as (? & ? & [-> ->]%mret_Ret & H).
      apply link_run in H as (-> & Hus & Hu & Hk); [|intros; auto with pres..].
      rewrite Hus, Hw in *. injection Hu as <-. split; [done|]. split; [by right|]. intros k v Hkv. done.
    + apply bind_Ret in H as (s1 & id0 & Hadd & H). unfold add_user in Hadd. rewrite bind_gets in Hadd.
      apply bind_Ret in Hadd as (? & ? & ->%modify_Ret & [-> ->]%mret_Ret).
      apply link_run in H as (-> & Hus & Hu & Hk); [|intros; unfold record_audit, notify_welcome, notify; pres_go; by intros ? ?..].
      cbn in Hus, Hu. rewrite lookup_insert_eq in Hu. injection Hu as <-. rewrite Hus. split; [by rewrite lookup_insert_eq|].
      split; [by right|]. intros k v Hkv. rewrite lookup_insert_ne; [done|].
      intros <-. destruct (uuid4_not_used s) as (_&_&_&_&_&_&_&_&_&_&_&_&_&_&_&_&Hn&_). congruence.
Qed.
End oauth_properties.

Section mobile_money.
Context `{Env : Platform} `{Net : Network} (settings : Settings).
#[local] Instance mobile_gateways : Gateways := network_gateways settings.

Definition charge_accepted (s : Cp) (rq : Request) : bool :=
  match http s rq with Some r => rs_status_code r <? 400 | None => false end.

Lemma collect_outcome s token mode phone country :
  collect settings s token mode phone country =
    match http s (charge_request settings token mode phone country) with
    | Some r => if rs_status_code r <? 400 then Ret tt else Exc ProviderError
    | None => Exc TransportError
    end.
Proof.
  unfold collect, call, send, accepted. destruct (http _ _) as [r|]; [|done]. cbn [mbind outcome_bind].
  rewrite Z.ltb_antisym. by destruct (400 <=? rs_status_code r).
Qed.

Lemma add_payment_run p s t k :
  add_payment p s = (t, Ret k) ->
  payments s !! k = None /\ t = s <| payments ::= <[k := p]> |> /\
  forall k' q, payments s !! k' = Some q -> pa_provider q = pa_provider p -> pa_provider_payment_id q <> pa_provider_payment_id p.
Proof.
  unfold add_payment. rewrite bind_gets. intros H. apply bind_Ret in H as (? & ? & [Hn%bool_decide_eq_true ->]%require_Ret & H).
  rewrite bind_gets in H. apply bind_Ret in H as (? & ? & ->%modify_Ret & [-> ->]%mret_Ret). split_and!; [|done|].
  - destruct (uuid4_not_used s) as (_&_&_&_&_&_&_&Hp&_). done.
  - intros k' q Hq H1 H2. unfold rows in Hn; apply fmap_nil_inv in Hn; rewrite select_nil_iff in Hn. specialize (Hn _ _ Hq). cbn beta in Hn.
    by rewrite H1, H2, !bool_decide_eq_true_2 in Hn.
Qed.
(** The charge writes the error of a charge that was not accepted, and nothing else. *)
Lemma charge_payment_run k token mode phone country s :
  dict_get MOBILE_MONEY_OPERATORS mode = Some country ->
  transaction (charge_payment k token mode phone) s =
    (if charge_accepted s (charge_request settings token mode phone country) then s
     else s <| payments ::= alter (fun p => p <| pa_error := Some "the charge failed" |>) k |>, Ret tt).
Proof.
  intros Hop. unfold transaction, charge_payment, try_except, charge_mobile_money. rewrite Hop.
  assert (forall f : string -> M Cp unit, (x ← some_or (Some country) ProviderError; f x) s = f country s) as -> by done.
  rewrite bind_gets. change (fedapay_collect s token mode phone country) with (collect settings s token mode phone country).
  rewrite collect_outcome. unfold charge_accepted, lift_outcome.
  by destruct (http _ _) as [r|]; [destruct (rs_status_code r <? 400)|].
Qed.

(** C17. However FedaPay and the network answer the charge, and even when they do not,
    the payment that was started stays on record, pending, under the number FedaPay gave it,
    which no other payment has: a later notification finds it. The charge goes to the
    endpoint of the operator with the operator's own country, and nothing but the error is
    noted when it is not accepted. *)
Theorem mobile_money_survives_the_network o i mode phone user membership s s1 k token :
  pay_invoice_with_mobile_money o i mode phone user membership s = (s1, Ret (k, token)) ->
  exists country p transaction_id,
    dict_get MOBILE_MONEY_OPERATORS mode = Some country /\
    pa_status p = PAY_PENDING /\ pa_provider_payment_id p = Some transaction_id /\ pa_invoice_id p = i /\
    s1 = s <| payments ::= <[k := p]> |> /\ payments s !! k = None /\
    let p' := if charge_accepted s1 (charge_request settings token mode phone country) then p
              else p <| pa_error := Some "the charge failed" |> in
    let t := (transaction (charge_payment k token mode phone) s1).1 in
    transaction (charge_payment k token mode phone) s1 = (t, Ret tt) /\
    t = s <| payments ::= <[k := p']> |> /\ select (same_payment FEDAPAY transaction_id) (payments t) = [(k, p')].
Proof.
  unfold pay_invoice_with_mobile_money, initiate_mobile_money_payment. intros H.
  apply bind_Ret in H as (? & ? & [_ ->]%require_Ret & H).
  apply bind_Ret in H as (? & ? & [-> _]%require_permission_run & H).
  apply bind_Ret in H as (? & v & (-> & Hv & _ & _)%get_finalized_run & H).
  apply bind_Ret in H as (? & ? & [[country Hop]%bool_decide_eq_true ->]%require_Ret & H).
  apply bind_Ret in H as (? & w & [-> _]%obj_run & H). rewrite bind_gets in H.
  apply bind_Ret in H as (? & tx & [-> _]%lift_outcome_Ret & H). rewrite bind_gets in H.
  apply bind_Ret in H as (? & tok & [-> _]%lift_outcome_Ret & H).
  apply bind_Ret in H as (? & k' & Hadd & H). apply mret_Ret in H as [-> [= -> ->]].
  match type of Hadd with add_payment ?q _ = _ => exists country, q, tx end.
  apply add_payment_run in Hadd as (Hk & -> & Huniq). cbn [pa_provider pa_provider_payment_id] in Huniq.
  do 6 (split; [done|]). cbv zeta.
  rewrite (charge_payment_run _ _ _ _ country) by done. set (s1 := s <| payments ::= _ |>). split; [done|]. cbn [fst].
  set (ok := charge_accepted s1 _). clearbody ok.
  assert (forall q, pa_provider q = FEDAPAY -> pa_provider_payment_id q = Some tx ->
    select (same_payment FEDAPAY tx) (<[k' := q]> (payments s)) = [(k', q)]) as Hsel.
  { intros q H1 H2. apply select_singleton; [by rewrite lookup_insert_eq|by unfold same_payment; rewrite H1, H2, !bool_decide_eq_true_2|].
    intros j q' Hj [Hf%bool_decide_eq_true Ht%bool_decide_eq_true]%andb_true_iff.
    apply lookup_insert_Some in Hj as [[-> _]|[_ Hj]]; [done|]. by destruct (Huniq _ _ Hj). }
  destruct ok; [split; [done|by apply Hsel]|]. assert (payments (s1 <| payments ::= alter (fun p => p <| pa_error := Some "the charge failed" |>) k' |>)
    = <[k' := _]> (payments s)) as E by (subst s1; cbn; apply alter_insert_eq). 
  split; [|rewrite E; by apply Hsel]. subst s1. cbn in E |- *. unfold upd_field. cbn. f_equal. exact E.
Qed.
End mobile_money.

(** ** Examples *)

Definition hex_text (s : string) : string := String.concat "" (map (fun c => hex_of 2 (code c)) (String.list_ascii_of_string s)).
Lemma hex_text_all s : all_chars is_hex (hex_text s) = true.
Proof.
  unfold hex_text. induction (String.list_ascii_of_string s) as [|c l IH]; [done|]. cbn [map].
  assert (forall a, all_chars is_hex a = true -> String.concat "" (a :: map (fun c => hex_of 2 (code c)) l) =
    a +:+ String.concat "" (map (fun c => hex_of 2 (code c)) l)) as E.
  { intros a _. destruct (map (fun c => hex_of 2 (code c)) l); [by rewrite str_app_nil_r|done]. }
  assert (all_chars is_hex (hex_of 2 (code c)) = true) as Hc by (by apply hex_of_all). rewrite E by done. by rewrite all_chars_app, Hc, IH.
Qed.

(** FedaPay takes the transaction and does not answer the charge; GitHub gives a primary
    address that is verified, and another one. *)
Definition example_answer (url : string) : option Response :=
  let ok d := Some (mkResponse 200 (print d)) in
  if String.prefix "https://sandbox-api.fedapay.com/v1/transactions" url then
    ok (if bool_decide (url = "https://sandbox-api.fedapay.com/v1/transactions")
        then DObject [("v1/transaction", DObject [("id", DInt 77)])] else DObject [("token", DText "tok")])
  else if bool_decide (url = "https://github.com/login/oauth/access_token") then ok (DObject [("access_token", DText "gho")])
  else if bool_decide (url = "https://api.github.com/user") then ok (DObject [("id", DInt 42); ("email", DNull)])
  else if bool_decide (url = "https://api.github.com/user/emails") then
    ok (DArray [DObject [("email", DText "other@x"); ("primary", DBool false); ("verified", DBool false)];
                DObject [("email", DText "erin@x"); ("primary", DBool true); ("verified", DBool true)]])
  else None.
#[refine] Definition example_net : Network := {|
  http := fun _ rq => example_answer (rq_url rq);
  hmac_sha256 := fun _ t => hex_text t;
  hmac_sha512 := fun _ t => hex_text t;
  container_text := fun _ => "[]";
|}.
Proof. intros _ text. split; apply hex_text_all. Defined.
#[local] Existing Instance example_net.

Definition ipn_fields : list (string * doc) :=
  [("payment_id", DInt 5); ("payment_status", DText "finished"); ("price_amount", DFloat (float_of_decimal false 105 (-1)));
   ("actually_paid", DFloat (float_of_decimal false 1 (-2)))].
Definition ipn_body : string := print (DObject ipn_fields).
Definition ipn_body_reordered : string := " " +:+ print (DObject (rev ipn_fields)).

Lemma ipn_signature_binds_content_witness :
  let signature := hex_text (dumps_sorted (DObject ipn_fields)) in
  nowpayments_verify_ipn_signature (Gates := network_gateways default_settings) ipn_body_reordered signature = Ret true /\
  (forall now s, handle_nowpayments_webhook (Gates := network_gateways default_settings) now ipn_body signature s =
     handle_nowpayments_webhook (Gates := network_gateways default_settings) now ipn_body_reordered signature s) /\
  sorted (DObject ipn_fields) = sorted (DObject (rev ipn_fields)).
Proof.
  intros signature.
  destruct (ipn_signature_binds_content default_settings ipn_body ipn_body_reordered (DObject ipn_fields) (DObject (rev ipn_fields)))
    as [Hsame Hone]; [vm_compute; reflexivity|vm_compute; reflexivity|reflexivity|].
  split; [vm_compute; reflexivity|]. split.
  - intros now s. apply Hsame. vm_compute. reflexivity.
  - apply (Hone ltac:(vm_compute; tauto) ltac:(vm_compute; tauto) ltac:(intros h _; vm_compute; reflexivity) signature);
      vm_compute; reflexivity.
Defined.
Lemma oauth_redirection_roundtrip_witness :
  exists url, build_authorize_redirect (Prim := example_primitives) default_settings "key" 0 "google" = Ret url /\
    exists query state, url = "https://accounts.google.com/o/oauth2/v2/auth" +:+ "?" +:+ query /\
      dict_get (parse_query query) "redirect_uri" = Some "http://localhost:8000/api/v1/auth/oauth/google/callback" /\
      verify_state (Prim := example_primitives) "key" (seconds 599) "google" state = true /\
      verify_state (Prim := example_primitives) "key" (seconds 599) "github" state = false.
Proof.
  eexists. split; [reflexivity|].
  destruct (oauth_redirection_roundtrip (Prim := example_primitives) default_settings "key" 0 "google" _ eq_refl)
    as (p & query & state & Hp & Hurl & _ & Huri & _ & Hst).
  vm_compute in Hp. injection Hp as <-. exists query, state. split; [exact Hurl|]. split; [exact Huri|]. rewrite !Hst. split; reflexivity.
Defined.

(** A signature that is not ASCII is not refused: the comparison raises. *)
Example signature_out_of_ascii s :
  (handle_nowpayments_webhook (Gates := network_gateways default_settings) 0 ipn_body (text_of_codes [233]) s).2 = Exc TypeError.
Proof. vm_compute. reflexivity. Qed.

Definition erin_state : string := create_state (Prim := example_primitives) "key" 0 "github".
Definition erin_callback : Cp * outcome (uuid * User) :=
  handle_callback (Auth := security_verifier (Prim := example_primitives) "key")
    (Acc := security_accounts (Prim := example_primitives) "key" 60 (user_info default_settings)) 0 "github" "code" erin_state example_users.
Lemma oauth_login_is_vouched_witness :
  exists id u token account, erin_callback.2 = Ret (id, u) /\ vouches example_users GITHUB token account "erin@x" /\ ur_email u = "erin@x".
Proof.
  destruct erin_callback as [t [[id u]|e]] eqn:E.
  2: { assert (match erin_callback.2 with Ret _ => true | Exc _ => false end = true) as H by (vm_compute; reflexivity).
       rewrite E in H. discriminate H. }
  pose proof (oauth_login_is_vouched (Prim := example_primitives) default_settings "key" 60 0 "github" "code" erin_state example_users t id u E)
    as (p & token & account & email & Hp & _ & _ & Hv & _ & Hu & Hwho & _).
  vm_compute in Hp. injection Hp as <-.
  assert (match erin_callback.2 with Ret (_, u) => ur_email u | Exc _ => "" end = "erin@x") as Hmail by (vm_compute; reflexivity).
  rewrite E in Hmail. cbn [snd] in *. exists id, u, token, account. split; [reflexivity|].
  destruct Hwho as [[_ (k & a & Hk & _)]|[<- _]]; [vm_compute in Hk; discriminate Hk|].
  rewrite Hmail in Hv. split; [exact Hv|exact Hmail].
Defined.

(** FedaPay took the transaction of Alice's invoice, and did not answer the charge. *)
Definition example_charge : Cp * outcome (uuid * string) :=
  pay_invoice_with_mobile_money (Gates := network_gateways default_settings) acme (first_invoice example_suspended) "moov" "22997000000"
    (5%positive, mkUser "alice@x" None false None false None 0) (mkMembership 5 acme OWNER) example_suspended.
Lemma mobile_money_survives_the_network_witness :
  exists k p t, transaction (charge_payment (Gates := network_gateways default_settings) k "tok" "moov" "22997000000") example_charge.1 = (t, Ret tt) /\
    select (same_payment FEDAPAY "77") (payments t) = [(k, p)] /\ pa_status p = PAY_PENDING /\ pa_error p = Some "the charge failed".
Proof.
  destruct example_charge as [s1 [[k token]|e]] eqn:E.
  2: { assert (match example_charge.2 with Ret _ => true | Exc _ => false end = true) as H by (vm_compute; reflexivity).
       rewrite E in H. discriminate H. }
  pose proof (mobile_money_survives_the_network default_settings acme (first_invoice example_suspended) "moov" "22997000000"
    (5%positive, mkUser "alice@x" None false None false None 0) (mkMembership 5 acme OWNER) example_suspended s1 k token E)
    as (country & p & tx & Hop & Hst & Htx & _ & Hs1 & _ & Hcharge & Ht & Hsel).
  assert (match example_charge.2 with Ret (k, token) => (token, pa_provider_payment_id <$> payments example_charge.1 !! k) | Exc _ => ("", None) end
    = ("tok", Some (Some "77"))) as Hid by (vm_compute; reflexivity).
  rewrite E in Hid. cbn [fst snd] in Hid, Ht, Hsel |- *. rewrite Hs1 in Hid. cbn in Hid. rewrite lookup_insert_eq in Hid.
  cbn in Hid. rewrite Htx in Hid. injection Hid as -> ->.
  vm_compute in Hop. injection Hop as <-.
  exists k, (p <| pa_error := Some "the charge failed" |>). eexists. split; [exact Hcharge|]. split; [exact Hsel|]. split; [exact Hst|reflexivity].
Defined.
