(* ===== verification/Ca.v ===== *)
(** * The certificate authority: [backend/app/services/ca.py], [core/certs.py]

    [X509] is the package cryptography: RSA keys, signatures, certificates and requests. A
    key is opaque, an integer; the keys and the serial numbers that a process draws are its
    arguments. [trusts] is what a peer of a TLS connection checks (RFC 5280). *)

From Stdlib Require Import Ascii.
From S2P Require Import Prelude PyStd Files.

(** ** Addresses: [ipaddress.ip_address] *)

Inductive ip_addr := IPv4Address (n : Z) | IPv6Address (n : Z).
#[export] Instance ip_addr_eq_dec : EqDecision ip_addr.
Proof. solve_decision. Defined.

(** [int(s, base)] of digits. *)
Definition digit_value (c : ascii) : Z :=
  let n := Z.of_nat (nat_of_ascii c) in if n <=? 57 then n - 48 else if n <=? 70 then n - 55 else n - 87.
Definition int_of (base : Z) (s : string) : Z :=
  fold_left (fun acc c => acc * base + digit_value c) (String.list_ascii_of_string s) 0.

(** [IPv4Address._parse_octet] and [_ip_int_from_string] *)
Definition octet (s : string) : option Z :=
  if bool_decide (s = "") || negb (all_chars is_digit s) || bool_decide (3 < String.length s)%nat
     || (negb (bool_decide (s = "0")) && String.prefix "0" s) || (255 <? int_of 10 s)
  then None else Some (int_of 10 s).
Definition ipv4 (s : string) : option Z :=
  match split_char "." s with
  | [a; b; c; d] => a ← octet a; b ← octet b; c ← octet c; d ← octet d; Some (((a * 256 + b) * 256 + c) * 256 + d)
  | _ => None
  end.

(** [IPv6Address._parse_hextet] and [_ip_int_from_string] *)
Definition hextet (s : string) : option Z :=
  if bool_decide (s = "") || negb (all_chars is_hex s) || bool_decide (4 < String.length s)%nat then None else Some (int_of 16 s).
(** An IPv4 suffix is two hextets. *)
Definition expand_suffix (parts : list string) : option (list string) :=
  match last parts with
  | Some p =>
      match String.index 0 "." p with
      | Some _ => n ← ipv4 p; Some (removelast parts ++ [hex_of 4 (n / 65536); hex_of 4 (n mod 65536)])
      | None => Some parts
      end
  | None => None
  end.
Definition join_hextets (hs : list Z) : Z := fold_left (fun acc h => acc * 65536 + h) hs 0.
(** [parts[i]] *)
Definition is_empty (parts : list string) (i : nat) : bool := bool_decide (parts !! i = Some "").
Definition ipv6_parts (parts : list string) : option Z :=
  let n := length parts in
  if bool_decide (9 < n)%nat then None else
  match filter (fun i => is_empty parts i = true) (seq 1 (n - 2)) with
  | [] =>
      if bool_decide (n <> 8)%nat || is_empty parts 0 || is_empty parts 7 then None
      else hs ← mapM hextet parts; Some (join_hextets hs)
  | [skip] =>
      hi ← (if is_empty parts 0 then if bool_decide (skip = 1)%nat then Some 0%nat else None else Some skip);
      let lo := (n - skip - 1)%nat in
      lo ← (if is_empty parts (n - 1) then if bool_decide (lo = 1)%nat then Some 0%nat else None else Some lo);
      if bool_decide (8 <= hi + lo)%nat then None
      else
        his ← mapM hextet (take hi parts);
        los ← mapM hextet (drop (n - lo) parts);
        Some (join_hextets (his ++ repeat 0 (8 - (hi + lo)) ++ los))
  | _ => None
  end.
(** The scope of [fe80::1%eth0] is not part of the number. *)
Definition split_scope (s : string) : option string :=
  match partition_at "%" s with
  | None => Some s
  | Some (address, scope) => if bool_decide (scope = "") || negb (all_chars (fun c => negb (Ascii.eqb c "%")) scope) then None else Some address
  end.
Definition ipv6 (s : string) : option Z :=
  if negb (no_slash s) then None else
  address ← split_scope s;
  let parts := split_char ":" address in
  if bool_decide (length parts < 3)%nat then None else parts ← expand_suffix parts; ipv6_parts parts.

(** [None] is [ValueError]. *)
Definition ip_address (s : string) : option ip_addr :=
  match ipv4 s with Some n => Some (IPv4Address n) | None => IPv6Address <$> ipv6 s end.

Example ip_address_examples :
  map ip_address ["10.0.0.7"; "010.0.0.7"; "10.0.0"; "256.1.1.1"; "::1"; "fe80::1%eth0"; "::ffff:10.0.0.7"; "1::2::3"; "1:2:3:4:5:6:7:8"; "node-7"] =
  [Some (IPv4Address 167772167); None; None; None; Some (IPv6Address 1); Some (IPv6Address (65152 * 2 ^ 112 + 1));
   Some (IPv6Address (65535 * 2 ^ 32 + 167772167)); None; Some (IPv6Address 5192455318486707404433266433261576); None].
Proof. vm_compute. reflexivity. Qed.

(** ** Model *)

(** *** Certificates *)

(** A key, private or public, is opaque. *)
Abbreviation key := positive (only parsing).
(** [x509.Name] of one common name. *)
Record Name := mkName { common_name : string }.
Inductive GeneralName := DNSName (name : string) | IPAddress (a : ip_addr).
Inductive ExtendedKeyUsageOID := SERVER_AUTH | CLIENT_AUTH.
Record BasicConstraints := mkBasicConstraints { bc_ca : bool; bc_path_length : option Z }.
(** The nine flags of [x509.KeyUsage]. *)
Record KeyUsage := mkKeyUsage {
  digital_signature : bool; content_commitment : bool; key_encipherment : bool; data_encipherment : bool;
  key_agreement : bool; key_cert_sign : bool; crl_sign : bool; encipher_only : bool; decipher_only : bool;
}.
Record CertificateBuilder := mkCertificateBuilder {
  subject_name : Name;
  issuer_name : Name;
  cert_public_key : key;
  serial_number : Z;
  not_valid_before : timestamp;
  not_valid_after : timestamp;
  basic_constraints : BasicConstraints;
  key_usage : option KeyUsage;
  subject_alternative_name : list GeneralName;
  extended_key_usage : option (list ExtendedKeyUsageOID);
}.
(** A certificate: what is signed, and the signature. *)
Record Certificate := mkCertificate { tbs : CertificateBuilder; cert_signature : string }.
Record CertificateSigningRequest := mkCsr { csr_subject : Name; csr_public_key : key; is_signature_valid : bool }.

#[export] Instance Name_eq_dec : EqDecision Name.
Proof. solve_decision. Defined.
#[export] Instance GeneralName_eq_dec : EqDecision GeneralName.
Proof. solve_decision. Defined.
#[export] Instance ExtendedKeyUsageOID_eq_dec : EqDecision ExtendedKeyUsageOID.
Proof. solve_decision. Defined.

Class X509 := {
  public_key : key -> key;
  (** The PEM of a private key; [load_pem_private_key] of anything else is [ValueError]. *)
  private_bytes : key -> string;
  load_pem_private_key : string -> outcome key;
  load_private_bytes : forall k, load_pem_private_key (private_bytes k) = Ret k;
  (** RSA with SHA-256, PKCS #1 v1.5. *)
  sign_tbs : key -> CertificateBuilder -> string;
  verifies : key -> CertificateBuilder -> string -> bool;
  verifies_signed : forall k t, verifies (public_key k) t (sign_tbs k t) = true;
  (** The PEM of a certificate. *)
  public_bytes : Certificate -> string;
  load_pem_x509_certificate : string -> outcome Certificate;
  load_public_bytes : forall c, load_pem_x509_certificate (public_bytes c) = Ret c;
  (** The PEM of a request signed with a key. *)
  csr_bytes : key -> Name -> string;
  load_pem_x509_csr : string -> outcome CertificateSigningRequest;
  load_csr_bytes : forall k name, load_pem_x509_csr (csr_bytes k name) = Ret (mkCsr name (public_key k) true);
}.

(** [CertSettings] *)
Record CertSettings := mkCertSettings {
  ca_common_name : string;
  control_plane_common_name : string;
  cert_validity_days : Z;
}.
(** What a process draws: [_generate_private_key] and [random_serial_number], for the authority
    and for the certificate it issues. *)
Record Draws := mkDraws { drawn_ca_key : key; drawn_ca_serial : Z; drawn_key : key; drawn_serial : Z }.
Record IssuedCertificate := mkIssuedCertificate { certificate_pem : string; issued_serial_number : string }.

Definition default_cert_settings : CertSettings := mkCertSettings "eminidatabase Internal CA" "control-plane" 825.
Definition ONE_DAY : timestamp := days 1.

Section ca.
Context `{Lib : X509} (default_mode : Z) (settings : CertSettings).

(** [NameAttribute(COMMON_NAME, v)] takes from 1 to 64 characters, [DNSName] ASCII only. *)
Definition name_attribute (v : string) : outcome Name :=
  if bool_decide (1 <= String.length v <= 64)%nat then Ret (mkName v) else Exc ValueError.
Definition dns_name (v : string) : outcome GeneralName :=
  if all_chars (fun c => bool_decide (nat_of_ascii c < 128)%nat) v then Ret (DNSName v) else Exc ValueError.
(** [builder.sign(key, SHA256())]: the times are encoded in whole seconds, and the builder
    refuses an end before the beginning. *)
Definition sign_certificate (t : CertificateBuilder) (k : key) : outcome Certificate :=
  if not_valid_after t <? not_valid_before t then Exc ValueError
  else
    let t := mkCertificateBuilder (subject_name t) (issuer_name t) (cert_public_key t) (serial_number t)
               (whole_seconds (not_valid_before t)) (whole_seconds (not_valid_after t)) (basic_constraints t)
               (key_usage t) (subject_alternative_name t) (extended_key_usage t) in
    Ret (mkCertificate t (sign_tbs k t)).

Definition write_private (path : string) (k : key) : M Disk unit :=
  write_file default_mode path (private_bytes k);;
  chmod path 384 (* 0o600 *).

Definition ensure_ca (now : timestamp) (drawn : Draws) : M Disk (key * Certificate) :=
  has_key ← gets (exists_file "ca.key");
  has_cert ← gets (exists_file "ca.crt");
  if has_key && has_cert then
    key_bytes ← read_file "ca.key";
    ca_key ← lift_outcome (load_pem_private_key key_bytes);
    cert_bytes ← read_file "ca.crt";
    ca_cert ← lift_outcome (load_pem_x509_certificate cert_bytes);
    mret (ca_key, ca_cert)
  else
    let ca_key := drawn_ca_key drawn in
    subject ← lift_outcome (name_attribute (ca_common_name settings));
    ca_cert ← lift_outcome (sign_certificate
      (mkCertificateBuilder subject subject (public_key ca_key) (drawn_ca_serial drawn) (now - ONE_DAY) (now + days 3650)
         (mkBasicConstraints true (Some 0)) (Some (mkKeyUsage false false false false false true true false false)) [] None)
      ca_key);
    write_private "ca.key" ca_key;;
    write_file default_mode "ca.crt" (public_bytes ca_cert);;
    mret (ca_key, ca_cert).

Definition ca_certificate_pem (now : timestamp) (drawn : Draws) : M Disk string :=
  ca ← ensure_ca now drawn; mret (public_bytes ca.2).

(** The paths of the key, the certificate and the authority. *)
Definition ensure_control_plane_client_cert (now : timestamp) (drawn : Draws) : M Disk (string * string * string) :=
  let paths := ("control-plane.key", "control-plane.crt", "ca.crt") in
  ca ← ensure_ca now drawn;
  has_key ← gets (exists_file "control-plane.key");
  has_cert ← gets (exists_file "control-plane.crt");
  if has_key && has_cert then mret paths
  else
    let client_key := drawn_key drawn in
    subject ← lift_outcome (name_attribute (control_plane_common_name settings));
    cert ← lift_outcome (sign_certificate
      (mkCertificateBuilder subject (subject_name (tbs ca.2)) (public_key client_key) (drawn_serial drawn)
         (now - ONE_DAY) (now + days (cert_validity_days settings)) (mkBasicConstraints false None) None []
         (Some [CLIENT_AUTH])) ca.1);
    write_private "control-plane.key" client_key;;
    write_file default_mode "control-plane.crt" (public_bytes cert);;
    mret paths.

(** [format(serial, "x")] *)
Definition format_x (n : Z) : string := hex_of (Z.to_nat (Z.log2 n / 4 + 1)) n.

Definition sign_node_csr (now : timestamp) (drawn : Draws) (csr_pem common_name : string) (ip : option string) :
    M Disk IssuedCertificate :=
  ca ← ensure_ca now drawn;
  csr ← lift_outcome (load_pem_x509_csr csr_pem);
  require (is_signature_valid csr) ValueError;;
  dns ← lift_outcome (dns_name common_name);
  let san_entries := dns :: match ip with
                            | Some a => match ip_address a with Some a => [IPAddress a] | None => [] end
                            | None => []
                            end in
  subject ← lift_outcome (name_attribute common_name);
  cert ← lift_outcome (sign_certificate
    (mkCertificateBuilder subject (subject_name (tbs ca.2)) (csr_public_key csr) (drawn_serial drawn)
       (now - ONE_DAY) (now + days (cert_validity_days settings)) (mkBasicConstraints false None) None san_entries
       (Some [SERVER_AUTH])) ca.1);
  mret (mkIssuedCertificate (public_bytes cert) (format_x (serial_number (tbs cert)))).

End ca.

(** *** What a peer checks: RFC 5280, and RFC 6125 for the name *)

Section trust.
Context `{Lib : X509}.

Definition within (now : timestamp) (t : CertificateBuilder) : bool := (not_valid_before t <=? now) && (now <=? not_valid_after t).
Definition may_certify (t : CertificateBuilder) : bool :=
  bc_ca (basic_constraints t) && match key_usage t with Some u => key_cert_sign u | None => true end.
Definition good_for (purpose : ExtendedKeyUsageOID) (t : CertificateBuilder) : bool :=
  match extended_key_usage t with Some usages => bool_decide (purpose ∈ usages) | None => true end.
Definition trusts (anchor c : Certificate) (purpose : ExtendedKeyUsageOID) (now : timestamp) : bool :=
  may_certify (tbs anchor) && within now (tbs anchor) &&
  bool_decide (issuer_name (tbs c) = subject_name (tbs anchor)) &&
  verifies (cert_public_key (tbs anchor)) (tbs c) (cert_signature c) && within now (tbs c) && good_for purpose (tbs c).
Definition names (c : Certificate) (host : string) : bool :=
  bool_decide (match ip_address host with Some a => IPAddress a | None => DNSName host end ∈ subject_alternative_name (tbs c)).

(** *** The disks of the control plane, whatever kills it *)

(** [a] is a root with the key [k]. *)
Definition is_authority (k : key) (a : Certificate) : Prop :=
  may_certify (tbs a) = true /\ cert_public_key (tbs a) = public_key k /\ issuer_name (tbs a) = subject_name (tbs a) /\
  verifies (public_key k) (tbs a) (cert_signature a) = true.
(** [c] was issued under [a] for the key [k] and one purpose. *)
Definition issued_for (purpose : ExtendedKeyUsageOID) (a : Certificate) (k : key) (c : Certificate) : Prop :=
  issuer_name (tbs c) = subject_name (tbs a) /\ verifies (cert_public_key (tbs a)) (tbs c) (cert_signature c) = true /\
  cert_public_key (tbs c) = k /\ extended_key_usage (tbs c) = Some [purpose] /\ may_certify (tbs c) = false.

(** A key for its owner only, and its certificate. *)
Definition pair_at (d : Disk) (key_path cert_path : string) (k : key) (c : Certificate) : Prop :=
  dict_get d key_path = Some (mkFile (private_bytes k) 384) /\ content <$> dict_get d cert_path = Some (public_bytes c).
Definition ca_at (d : Disk) (k : key) (a : Certificate) : Prop := is_authority k a /\ pair_at d "ca.key" "ca.crt" k a.
Definition client_at (d : Disk) (a : Certificate) (k : key) (c : Certificate) : Prop :=
  issued_for CLIENT_AUTH a (public_key k) c /\ pair_at d "control-plane.key" "control-plane.crt" k c.
Definition ca_ok (d : Disk) : Prop :=
  (is_Some (dict_get d "ca.crt") -> exists k a, ca_at d k a) /\
  (is_Some (dict_get d "control-plane.crt") -> exists k a k' c, ca_at d k a /\ client_at d a k' c).

Inductive ca_op := EnsureCa | EnsureClient | SignNode (csr_pem common_name : string) (ip : option string).
Definition run_op (default_mode : Z) (settings : CertSettings) (now : timestamp) (drawn : Draws) (o : ca_op) (d : Disk) : Disk :=
  match o with
  | EnsureCa => (ensure_ca default_mode settings now drawn d).1
  | EnsureClient => (ensure_control_plane_client_cert default_mode settings now drawn d).1
  | SignNode csr_pem common_name ip => (sign_node_csr default_mode settings now drawn csr_pem common_name ip d).1
  end.
(** The disks that operations leave, each perhaps killed between two writes, with settings
    that may change from one to the next. *)
Inductive ca_reachable : Disk -> Prop :=
| ca_new : ca_reachable []
| ca_ran default_mode settings now drawn o d d' :
    ca_reachable d -> killed d (run_op default_mode settings now drawn o d) d' -> ca_reachable d'.

(** ** Lemmas *)

Lemma sign_certificate_Ret t k c :
  sign_certificate t k = Ret c ->
  not_valid_before t <= not_valid_after t /\ cert_signature c = sign_tbs k (tbs c) /\
  tbs c = mkCertificateBuilder (subject_name t) (issuer_name t) (cert_public_key t) (serial_number t)
               (whole_seconds (not_valid_before t)) (whole_seconds (not_valid_after t)) (basic_constraints t)
               (key_usage t) (subject_alternative_name t) (extended_key_usage t).
Proof. unfold sign_certificate. destruct (_ <? _) eqn:E; [done|]. apply Z.ltb_ge in E. by intros [= <-]. Qed.
Lemma name_attribute_Ret v n : name_attribute v = Ret n -> n = mkName v.
Proof. unfold name_attribute. case_bool_decide; congruence. Qed.
Lemma dns_name_Ret v n : dns_name v = Ret n -> n = DNSName v.
Proof. unfold dns_name. destruct (all_chars _ _); congruence. Qed.

(** A certificate issued for one purpose is trusted for it alone, while it and its root last. *)
Lemma trusts_issued k a purpose k' c purpose' now :
  is_authority k a -> issued_for purpose a k' c ->
  trusts a c purpose' now = within now (tbs a) && within now (tbs c) && bool_decide (purpose' = purpose).
Proof.
  intros (Ha & _) (Hi & Hv & _ & Hu & _). unfold trusts, good_for. rewrite Ha, Hv, Hu, Hi, bool_decide_eq_true_2 by done. cbn.
  rewrite (bool_decide_ext (purpose' ∈ [purpose]) (purpose' = purpose)) by apply list_elem_of_singleton. by rewrite !andb_true_r.
Qed.

(** *** The runs *)

Lemma pair_at_other d path f key_path cert_path k c :
  path <> key_path -> path <> cert_path -> pair_at ((path, f) :: d) key_path cert_path k c <-> pair_at d key_path cert_path k c.
Proof. intros H1 H2. unfold pair_at. by rewrite !dict_get_ne. Qed.
Lemma ca_at_other d path f k a : path <> "ca.key" -> path <> "ca.crt" -> ca_at ((path, f) :: d) k a <-> ca_at d k a.
Proof. intros H1 H2. unfold ca_at. by rewrite pair_at_other. Qed.
Lemma ca_at_fun d k k' a a' : ca_at d k a -> ca_at d k' a' -> k = k' /\ a = a'.
Proof.
  intros [_ [H1 H2]] [_ [H3 H4]]. rewrite H1 in H3. rewrite H2 in H4. injection H3 as Hk. injection H4 as Hc.
  pose proof (load_private_bytes k) as E. rewrite Hk, load_private_bytes in E.
  pose proof (load_public_bytes a) as F. rewrite Hc, load_public_bytes in F. split; congruence.
Qed.

Section runs.
Context (default_mode : Z) (settings : CertSettings) (now : timestamp) (drawn : Draws).

Lemma write_private_run path k d :
  exists m, write_private default_mode path k d =
    ((path, mkFile (private_bytes k) 384) :: (path, mkFile (private_bytes k) m) :: d, Ret tt).
Proof.
  unfold write_private, write_file, chmod, mbind, M_bind, modify, gets, some_or, mret, M_ret. rewrite dict_get_eq. cbn [content]. by eexists.
Qed.
(** A key and a certificate written one after the other. *)
Lemma write_pair_run {A} key_path cert_path k c (r : A) d :
  exists m m', (write_private default_mode key_path k;; write_file default_mode cert_path (public_bytes c);; mret r) d =
    ((cert_path, mkFile (public_bytes c) m') :: (key_path, mkFile (private_bytes k) 384) :: (key_path, mkFile (private_bytes k) m) :: d, Ret r).
Proof.
  destruct (write_private_run key_path k d) as [m E]. unfold mbind at 1, M_bind at 1. rewrite E. by eexists _, _.
Qed.

(** The authority of a disk that has one is the one it has. *)
Lemma ensure_ca_loads d k a : ca_at d k a -> ensure_ca default_mode settings now drawn d = (d, Ret (k, a)).
Proof.
  intros [_ [Hk Hc]]. destruct (dict_get d "ca.crt") as [f|] eqn:E; [|done]. injection Hc as Hc.
  unfold ensure_ca, mbind, M_bind, gets, lift_outcome, exists_file. rewrite Hk, E. cbn [andb].
  rewrite (read_file_run _ _ _ Hk), (read_file_run _ _ _ E). cbn [content]. by rewrite load_private_bytes, Hc, load_public_bytes.
Qed.

Lemma no_authority_ok d : dict_get d "ca.crt" = None -> dict_get d "control-plane.crt" = None -> ca_ok d.
Proof. intros H1 H2. unfold ca_ok. rewrite H1, H2. by split; intros []. Qed.
Lemma no_client_ok d k a : ca_at d k a -> dict_get d "control-plane.crt" = None -> ca_ok d.
Proof. intros H1 H2. unfold ca_ok. rewrite H2. split; [eauto|by intros []]. Qed.
Lemma client_ok d k a k' c : ca_at d k a -> client_at d a k' c -> ca_ok d.
Proof. intros H1 H2. split; intros _; eauto 6. Qed.

(** Where a process that writes a pair may be killed. *)
Lemma pair_killed key_path cert_path (f1 f2 f3 : File) (d d' : Disk) :
  killed d ((cert_path, f3) :: (key_path, f2) :: (key_path, f1) :: d) d' ->
  d' = (cert_path, f3) :: (key_path, f2) :: (key_path, f1) :: d \/
  d' = (key_path, f2) :: (key_path, f1) :: d \/ d' = (key_path, f1) :: d \/ d' = d.
Proof.
  intros [H | H]%killed_cons; [by left|right|by eexists [_; _]].
  apply killed_cons in H as [H | H]; [by left|right|by eexists [_]].
  apply killed_cons in H as [H | H]; [by left|right|done]. by apply killed_same.
Qed.

(** The run of [ensure_ca]: it loads the authority there is, or writes a new one. *)
Lemma ensure_ca_run d :
  ca_ok d ->
  (exists k a, ca_at d k a /\ ensure_ca default_mode settings now drawn d = (d, Ret (k, a))) \/
  dict_get d "ca.crt" = None /\ dict_get d "control-plane.crt" = None /\
    ((exists e, ensure_ca default_mode settings now drawn d = (d, Exc e)) \/
     exists m m' a, is_authority (drawn_ca_key drawn) a /\
       ensure_ca default_mode settings now drawn d =
         (("ca.crt", mkFile (public_bytes a) m') :: ("ca.key", mkFile (private_bytes (drawn_ca_key drawn)) 384)
          :: ("ca.key", mkFile (private_bytes (drawn_ca_key drawn)) m) :: d, Ret (drawn_ca_key drawn, a))).
Proof.
  intros [Hca Hcl]. destruct (dict_get d "ca.crt") as [f|] eqn:E.
  - left. destruct (Hca ltac:(done)) as (k & a & H). exists k, a. split; [done|by apply ensure_ca_loads].
  - right. split; [done|]. split.
    { destruct (dict_get d "control-plane.crt") eqn:F; [|done].
      destruct (Hcl ltac:(done)) as (k & a & k' & c & [_ [_ H]] & _). by rewrite E in H. }
    unfold ensure_ca. rewrite !bind_gets. unfold exists_file at 2 4. rewrite E, andb_false_r. cbv zeta.
    destruct (name_attribute _) as [n|e] eqn:Hn; [|by left; exists e]. rewrite !bind_lift.
    destruct (sign_certificate _ _) as [a|e] eqn:Ha; [|by left; exists e]. rewrite !bind_lift. right.
    destruct (write_pair_run "ca.key" "ca.crt" (drawn_ca_key drawn) a (drawn_ca_key drawn, a) d) as (m & m' & Hw).
    exists m, m', a. split; [|exact Hw].
    apply sign_certificate_Ret in Ha as (_ & Hs & Ht). unfold is_authority. rewrite Hs, Ht. split_and!; [done..|]. apply verifies_signed.
Qed.

Lemma ensure_ca_spec d d1 k a :
  ca_ok d -> ensure_ca default_mode settings now drawn d = (d1, Ret (k, a)) ->
  ca_at d1 k a /\ d `suffix_of` d1 /\ (forall d', killed d d1 d' -> ca_ok d') /\
  dict_get d1 "control-plane.key" = dict_get d "control-plane.key" /\ dict_get d1 "control-plane.crt" = dict_get d "control-plane.crt".
Proof.
  intros Hok H. destruct (ensure_ca_run d Hok) as [(k' & a' & Hat & E) | (E1 & E2 & [[e E] | (m & m' & a' & Ha & E)])];
    rewrite E in H; [| done |]; injection H as <- <- <-.
  - split_and!; [done..| |done|done]. by intros d' ->%killed_same.
  - assert (Hat : ca_at (("ca.crt", mkFile (public_bytes a') m') :: ("ca.key", mkFile (private_bytes (drawn_ca_key drawn)) 384)
          :: ("ca.key", mkFile (private_bytes (drawn_ca_key drawn)) m) :: d) (drawn_ca_key drawn) a') by done.
    split_and!; [done|by eexists [_; _; _]| |done|done].
    intros d' [-> | [-> | [-> | ->]]]%pair_killed; [|by apply no_authority_ok..]. by eapply no_client_ok.
Qed.
Lemma ensure_ca_refused d d1 e :
  ca_ok d -> ensure_ca default_mode settings now drawn d = (d1, Exc e) -> d1 = d.
Proof.
  intros Hok H. destruct (ensure_ca_run d Hok) as [(k' & a' & Hat & E) | (E1 & E2 & [[e' E] | (m & m' & a' & Ha & E)])];
    rewrite E in H; congruence.
Qed.

(** The run of [ensure_control_plane_client_cert] once there is an authority. *)
Lemma ensure_client_run d k a :
  ca_ok d -> ca_at d k a ->
  exists r, ensure_control_plane_client_cert default_mode settings now drawn d = r /\
    (r.1 = d /\ (forall p, r.2 = Ret p -> exists k' c, client_at d a k' c) \/
     dict_get d "control-plane.crt" = None /\
     exists m m' c, client_at r.1 a (drawn_key drawn) c /\ r.2 = Ret ("control-plane.key", "control-plane.crt", "ca.crt") /\
       r.1 = ("control-plane.crt", mkFile (public_bytes c) m') :: ("control-plane.key", mkFile (private_bytes (drawn_key drawn)) 384)
          :: ("control-plane.key", mkFile (private_bytes (drawn_key drawn)) m) :: d).
Proof.
  intros Hok Hat. eexists. split; [reflexivity|].
  assert (E : forall B (f : _ -> M Disk B), (ca ← ensure_ca default_mode settings now drawn; f ca) d = f (k, a) d).
  { intros B f. unfold mbind, M_bind. by rewrite (ensure_ca_loads d k a Hat). }
  unfold ensure_control_plane_client_cert. cbv zeta. rewrite E, !bind_gets. clear E.
  destruct (exists_file "control-plane.crt" d) eqn:Hc.
  - apply exists_file_true in Hc. destruct Hok as [_ Hok]. destruct (Hok Hc) as (k1 & a1 & k' & c & Hat1 & Hcl).
    destruct (ca_at_fun d k k1 a a1 Hat Hat1) as [<- <-]. pose proof Hcl as [_ [Hk _]].
    unfold exists_file. rewrite Hk. left. split; [done|]. by intros _ _; exists k', c.
  - apply exists_file_false in Hc. rewrite andb_false_r. cbv zeta.
    destruct (name_attribute _) as [n|e]; [|by left]. rewrite !bind_lift.
    destruct (sign_certificate _ _) as [c|e] eqn:Hs; [|by left]. rewrite !bind_lift. right. split; [done|].
    destruct (write_pair_run "control-plane.key" "control-plane.crt" (drawn_key drawn) c ("control-plane.key", "control-plane.crt", "ca.crt") d)
      as (m & m' & Hw). exists m, m', c. cbv zeta. cbn [fst snd] in Hs |- *. rewrite Hw. cbn [fst snd]. split; [|done]. split; [|done].
    apply sign_certificate_Ret in Hs as (_ & Hg & Ht). destruct Hat as [(_ & Hpk & _) _].
    unfold issued_for. rewrite Hg, Hpk, Ht. split_and!; [done| |done..]. apply verifies_signed.
Qed.

(** Only [ensure_ca] writes when a request of a node is signed. *)
Lemma sign_node_csr_disk csr_pem common_name ip d :
  (sign_node_csr default_mode settings now drawn csr_pem common_name ip d).1 = (ensure_ca default_mode settings now drawn d).1.
Proof.
  unfold sign_node_csr, mbind at 1, M_bind at 1. destruct (ensure_ca _ _ _ _ d) as [d1 [ca|e]]; [|done]. cbn [fst].
  unfold lift_outcome, require, mbind, M_bind, raise, mret, M_ret. repeat (case_match; simplify_eq); done.
Qed.

Lemma run_op_keeps o d d' : ca_ok d -> killed d (run_op default_mode settings now drawn o d) d' -> ca_ok d'.
Proof.
  intros Hok. assert (Hca : forall d', killed d (ensure_ca default_mode settings now drawn d).1 d' -> ca_ok d').
  { intros u Hu. destruct (ensure_ca _ _ _ _ d) as [d1 [[k a]|e]] eqn:E.
    - by eapply ensure_ca_spec in E as (_ & _ & H & _); [apply H|].
    - apply ensure_ca_refused in E as ->; [|done]. by apply killed_same in Hu as ->. }
  destruct o as [| |csr_pem common_name ip]; cbn [run_op]; [apply Hca| |rewrite sign_node_csr_disk; apply Hca].
  destruct (ensure_ca default_mode settings now drawn d) as [d1 [[k a]|e]] eqn:E; [|].
  2: { unfold ensure_control_plane_client_cert. cbv zeta. unfold mbind at 1, M_bind at 1. rewrite E. apply Hca. }
  pose proof (ensure_ca_spec _ _ _ _ Hok E) as (Hat & Hsuf & Hk1 & _). assert (Hok1 : ca_ok d1) by by apply Hk1.
  replace (ensure_control_plane_client_cert default_mode settings now drawn d)
    with (ensure_control_plane_client_cert default_mode settings now drawn d1).
  2: { assert (F : forall B (f : _ -> M Disk B), (ca ← ensure_ca default_mode settings now drawn; f ca) d1 =
                   (ca ← ensure_ca default_mode settings now drawn; f ca) d).
       { intros B f. unfold mbind, M_bind. by rewrite E, (ensure_ca_loads d1 k a Hat). }
       unfold ensure_control_plane_client_cert. cbv zeta. by rewrite F. }
  destruct (ensure_client_run d1 k a Hok1 Hat) as (r & -> & [[-> _] | (Hnone & m & m' & c & Hcl & _ & Hr)]); [apply Hca|].
  rewrite Hr in *. intros H. apply (killed_split d d1) in H as [H|H]; [by apply Hk1| |done|by eexists [_; _; _]].
  apply pair_killed in H as [-> | [-> | [-> | ->]]]; [|by eapply no_client_ok..].
  eapply client_ok; [|exact Hcl]. done.
Qed.
End runs.

(** ** Properties *)

Lemma ca_ok_reachable d : ca_reachable d -> ca_ok d.
Proof. induction 1; [by apply no_authority_ok|by eapply run_op_keeps]. Qed.

(** The certificate that [sign_node_csr] issues. *)
Lemma sign_node_csr_run default_mode settings now drawn csr_pem common_name ip d d' issued :
  ca_ok d ->
  sign_node_csr default_mode settings now drawn csr_pem common_name ip d = (d', Ret issued) ->
  exists csr k a c, load_pem_x509_csr csr_pem = Ret csr /\ is_signature_valid csr = true /\
    ensure_ca default_mode settings now drawn d = (d', Ret (k, a)) /\ ca_at d' k a /\
    load_pem_x509_certificate (certificate_pem issued) = Ret c /\ issued_for SERVER_AUTH a (csr_public_key csr) c /\
    subject_name (tbs c) = mkName common_name /\
    not_valid_before (tbs c) = whole_seconds (now - ONE_DAY) /\
    not_valid_after (tbs c) = whole_seconds (now + days (cert_validity_days settings)) /\
    (forall host, names c host = match ip_address host with
                                 | Some h => bool_decide (ip ≫= ip_address = Some h)
                                 | None => bool_decide (host = common_name)
                                 end).
Proof.
  intros Hok H. unfold sign_node_csr in H.
  apply bind_Ret in H as (d1 & [k a] & Hca & H). pose proof Hca as Hca'. apply ensure_ca_spec in Hca' as (Hat & _); [|done].
  apply bind_Ret in H as (? & csr & [-> Hcsr]%lift_outcome_Ret & H).
  apply bind_Ret in H as (? & ? & [Hv ->]%require_Ret & H).
  apply bind_Ret in H as (? & dns & [-> ->%dns_name_Ret]%lift_outcome_Ret & H). cbv zeta in H.
  apply bind_Ret in H as (? & subject & [-> ->%name_attribute_Ret]%lift_outcome_Ret & H).
  apply bind_Ret in H as (? & c & [-> Hc]%lift_outcome_Ret & [-> ->]%mret_Ret).
  exists csr, k, a, c. apply sign_certificate_Ret in Hc as (_ & Hs & Ht). cbn in Hs, Ht. pose proof Hat as [(_ & Hpk & _) _].
  split_and!; [done..|apply load_public_bytes| |by rewrite Ht|by rewrite Ht|by rewrite Ht|].
  - unfold issued_for. rewrite Hpk, Hs, Ht. split_and!; try done. apply verifies_signed.
  - intros host. unfold names. rewrite Ht. cbn [subject_alternative_name].
    destruct (ip_address host), ip as [x|]; cbn [mbind option_bind]; [destruct (ip_address x)| |destruct (ip_address x)|];
      apply bool_decide_ext; set_solver.
Qed.


(** C38. The certificate that a node gets names the identity that the control plane chose,
    whatever the request says, holds the key of the request, and is trusted as a server
    from the day before until it or the authority expires. It is never trusted as a client: a
    node cannot speak for the control plane. *)
Theorem node_certificate_is_confined default_mode settings now drawn csr_pem common_name ip d d' issued :
  ca_reachable d ->
  sign_node_csr default_mode settings now drawn csr_pem common_name ip d = (d', Ret issued) ->
  exists csr k a c, load_pem_x509_csr csr_pem = Ret csr /\ is_signature_valid csr = true /\
    ca_at d' k a /\ load_pem_x509_certificate (certificate_pem issued) = Ret c /\
    subject_name (tbs c) = mkName common_name /\ cert_public_key (tbs c) = csr_public_key csr /\
    (forall host, names c host = match ip_address host with
                                 | Some h => bool_decide (ip ≫= ip_address = Some h)
                                 | None => bool_decide (host = common_name)
                                 end) /\
    (forall later, trusts a c CLIENT_AUTH later = false) /\
    (forall later, trusts a c SERVER_AUTH later =
       within later (tbs a) && (whole_seconds (now - ONE_DAY) <=? later)
       && (later <=? whole_seconds (now + days (cert_validity_days settings)))).
Proof.
  intros Hok%ca_ok_reachable H. apply sign_node_csr_run in H as (csr & k & a & c & Hcsr & Hv & _ & Hat & Hl & Hi & Hs & Hb & Ha & Hn); [|done].
  exists csr, k, a, c. pose proof Hat as [Hk _]. split_and!; [done..|apply Hi|done| |]; intros later; rewrite (trusts_issued _ _ _ _ _ _ _ Hk Hi).
  - by rewrite andb_false_r.
  - unfold within at 2. rewrite Hb, Ha. cbn. by rewrite andb_true_r, andb_assoc.
Qed.

(** The certificate with which the control plane calls the agents, once issued. *)
Lemma control_plane_certificate default_mode settings now drawn d k a d' paths :
  ca_ok d -> ca_at d k a -> dict_get d "control-plane.crt" = None ->
  ensure_control_plane_client_cert default_mode settings now drawn d = (d', Ret paths) ->
  exists k' c, ca_at d' k a /\ client_at d' a k' c /\
    forall later purpose, trusts a c purpose later =
      within later (tbs a) && within later (tbs c) && bool_decide (purpose = CLIENT_AUTH).
Proof.
  intros Hok Hat Hnone H. destruct (ensure_client_run default_mode settings now drawn d k a Hok Hat) as (r & E & Hr).
  rewrite E in H. subst r. destruct Hr as [[Hd Hr] | (_ & m & m' & c & Hcl & _ & Hd)]; cbn [fst snd] in *.
  - destruct (Hr _ eq_refl) as (k' & c & [_ [_ Hc]]). rewrite Hnone in Hc. done.
  - exists (drawn_key drawn), c. subst d'. split; [done|]. split; [done|]. intros later purpose.
    by apply (trusts_issued k a CLIENT_AUTH _ c purpose later (proj1 Hat) (proj1 Hcl)).
Qed.

(** It is never renewed: when it has expired the files are still taken as they are, and no agent
    trusts them any more. *)
Lemma client_certificate_is_never_renewed default_mode settings later drawn d k a k' c :
  ca_ok d -> ca_at d k a -> client_at d a k' c -> not_valid_after (tbs c) < later ->
  ensure_control_plane_client_cert default_mode settings later drawn d = (d, Ret ("control-plane.key", "control-plane.crt", "ca.crt")) /\
  trusts a c CLIENT_AUTH later = false.
Proof.
  intros Hok Hat Hcl Hlt. split.
  - pose proof Hcl as [_ [Hk Hc]]. destruct (dict_get d "control-plane.crt") as [f|] eqn:E; [|done].
    unfold ensure_control_plane_client_cert. cbv zeta. unfold mbind at 1, M_bind at 1.
    rewrite (ensure_ca_loads default_mode settings later drawn d k a Hat), !bind_gets. unfold exists_file. by rewrite Hk, E.
  - rewrite (trusts_issued _ _ _ _ _ _ _ (proj1 Hat) (proj1 Hcl)). unfold within at 2.
    replace (later <=? not_valid_after (tbs c)) with false by (symmetry; by apply Z.leb_gt).
    by rewrite andb_false_r, andb_false_r.
Qed.

(** The address in the certificate, which is what the control plane verifies when it calls, is the
    one the node declares: two nodes may hold one address. *)
Lemma node_chooses_its_address default_mode settings now drawn csr_pem common_name ip h d d' issued :
  ip_address ip = Some h ->
  sign_node_csr default_mode settings now drawn csr_pem common_name (Some ip) d = (d', Ret issued) ->
  exists c, load_pem_x509_certificate (certificate_pem issued) = Ret c /\ names c ip = true.
Proof.
  intros Hip H. unfold sign_node_csr in H. minv. unfold lift_outcome in *. simplify_eq.
  match goal with Hc : sign_certificate _ _ = Ret ?c |- _ => exists c; apply sign_certificate_Ret in Hc as (_ & _ & Ht) end.
  split; [apply load_public_bytes|]. unfold names. rewrite Ht, Hip. cbn. apply bool_decide_eq_true. set_solver.
Qed.

(** A private key is on the disk with the permissions of any file before they are taken away. *)
Lemma private_key_is_readable_at_first default_mode path k d :
  dict_get d path = None ->
  exists d', killed d (write_private default_mode path k d).1 d' /\ dict_get d' path = Some (mkFile (private_bytes k) default_mode).
Proof.
  intros H. exists ((path, mkFile (private_bytes k) default_mode) :: d). split; [|apply dict_get_eq]. split; [by eexists [_]|].
  unfold write_private, write_file, chmod, mbind, M_bind, modify, gets, some_or, mret, M_ret. rewrite H, dict_get_eq. cbn [content]. by eexists [_].
Qed.
End trust.

(** ** An example: a key, a certificate and a request are their own text, a signature is that of the key and the
    serial number *)

#[export] Instance Name_countable : Countable Name.
Proof. apply (inj_countable' common_name mkName). by intros []. Defined.
#[export] Instance ip_addr_countable : Countable ip_addr.
Proof.
  apply (inj_countable' (fun a => match a with IPv4Address n => inl n | IPv6Address n => inr n end)
    (fun x => match x with inl n => IPv4Address n | inr n => IPv6Address n end)). by intros [].
Defined.
#[export] Instance GeneralName_countable : Countable GeneralName.
Proof.
  apply (inj_countable' (fun n => match n with DNSName s => inl s | IPAddress a => inr a end)
    (fun x => match x with inl s => DNSName s | inr a => IPAddress a end)). by intros [].
Defined.
#[export] Instance ExtendedKeyUsageOID_countable : Countable ExtendedKeyUsageOID.
Proof.
  apply (inj_countable' (fun u => match u with SERVER_AUTH => true | CLIENT_AUTH => false end)
    (fun b : bool => if b then SERVER_AUTH else CLIENT_AUTH)). by intros [].
Defined.
#[export] Instance BasicConstraints_eq_dec : EqDecision BasicConstraints.
Proof. solve_decision. Defined.
#[export] Instance BasicConstraints_countable : Countable BasicConstraints.
Proof. apply (inj_countable' (fun b => (bc_ca b, bc_path_length b)) (fun x => mkBasicConstraints x.1 x.2)). by intros []. Defined.
#[export] Instance KeyUsage_eq_dec : EqDecision KeyUsage.
Proof. solve_decision. Defined.
#[export] Instance KeyUsage_countable : Countable KeyUsage.
Proof.
  apply (inj_countable' (fun '(mkKeyUsage a b c d e f g h i) => (((a, b), (c, d)), ((e, f), (g, (h, i)))))
    (fun '(((a, b), (c, d)), ((e, f), (g, (h, i)))) => mkKeyUsage a b c d e f g h i)). by intros [].
Defined.
#[export] Instance CertificateBuilder_eq_dec : EqDecision CertificateBuilder.
Proof. solve_decision. Defined.
#[export] Instance CertificateBuilder_countable : Countable CertificateBuilder.
Proof.
  apply (inj_countable' (fun '(mkCertificateBuilder a b c d e f g h i j) => ((a, b), (i, (((c, d), (e, f)), ((g, h), j)))))
    (fun '((a, b), (i, (((c, d), (e, f)), ((g, h), j)))) => mkCertificateBuilder a b c d e f g h i j)). by intros [].
Defined.
#[export] Instance Certificate_eq_dec : EqDecision Certificate.
Proof. solve_decision. Defined.
#[export] Instance Certificate_countable : Countable Certificate.
Proof. apply (inj_countable' (fun c => (tbs c, cert_signature c)) (fun x => mkCertificate x.1 x.2)). by intros []. Defined.

Definition or_ValueError {A} (o : option A) : outcome A := match o with Some a => Ret a | None => Exc ValueError end.
#[export] Program Instance example_x509 : X509 := {
  public_key := Pos.succ;
  private_bytes := text_of (A := key);
  load_pem_private_key := fun s => or_ValueError (of_text (A := key) s);
  sign_tbs := fun k t => text_of (A := key * Z) (Pos.succ k, serial_number t);
  verifies := fun k t s => String.eqb s (text_of (A := key * Z) (k, serial_number t));
  public_bytes := text_of (A := Certificate);
  load_pem_x509_certificate := fun s => or_ValueError (of_text (A := Certificate) s);
  csr_bytes := fun k n => text_of (A := key * Name) (k, n);
  load_pem_x509_csr := fun s => x ← or_ValueError (of_text (A := key * Name) s); Ret (mkCsr x.2 (Pos.succ x.1) true);
}.
Next Obligation. intros k. cbv beta. by rewrite of_text_of. Qed.
Next Obligation. intros k t. apply String.eqb_refl. Qed.
Next Obligation. intros c. cbv beta. by rewrite of_text_of. Qed.
Next Obligation. intros k n. cbv beta. by rewrite of_text_of. Qed.

Definition example_draws : Draws := mkDraws 11 12 13 14.
(** A control plane that started a second after the epoch and was killed while it wrote the
    certificate of its authority; it starts again a minute later. *)
Definition example_killed : Disk := drop 1 (run_op 420 default_cert_settings (seconds 1) (mkDraws 7 8 9 10) EnsureCa []).
Definition example_disk : Disk := run_op 420 default_cert_settings (seconds 60) example_draws EnsureClient example_killed.

Lemma example_disk_reachable : ca_reachable example_disk.
Proof.
  eapply (ca_ran 420 default_cert_settings (seconds 60) example_draws EnsureClient example_killed); [|split; [|done]].
  - eapply (ca_ran 420 default_cert_settings (seconds 1) (mkDraws 7 8 9 10) EnsureCa []); [constructor|].
    split; [apply suffix_nil|apply suffix_drop].
  - exists (take (length example_disk - length example_killed) example_disk). vm_compute. reflexivity.
Qed.


Lemma node_certificate_is_confined_witness :
  exists issued, sign_node_csr 420 default_cert_settings (seconds 90) example_draws (csr_bytes 21 (mkName "control-plane")) "node-7"
      (Some "10.0.0.7") example_disk = (example_disk, Ret issued) /\
    exists a c, load_pem_x509_certificate (certificate_pem issued) = Ret c /\ subject_name (tbs c) = mkName "node-7" /\
      names c "10.0.0.7" = true /\ names c "control-plane" = false /\
      forall later, trusts a c CLIENT_AUTH later = false.
Proof.
  destruct (sign_node_csr 420 default_cert_settings (seconds 90) example_draws (csr_bytes 21 (mkName "control-plane")) "node-7"
      (Some "10.0.0.7") example_disk) as [d [issued|e]] eqn:E; [|apply (f_equal snd) in E; vm_compute in E; discriminate E].
  exists issued. split.
  - f_equal. apply (f_equal fst) in E. vm_compute in E. vm_compute. congruence.
  - destruct (node_certificate_is_confined 420 default_cert_settings (seconds 90) example_draws (csr_bytes 21 (mkName "control-plane"))
      "node-7" (Some "10.0.0.7") example_disk d issued example_disk_reachable E)
      as (csr & k & a & c & _ & _ & _ & Hc & Hs & _ & Hn & Hclient & _).
    exists a, c. rewrite !Hn. split_and!; [exact Hc|exact Hs|vm_compute; reflexivity|vm_compute; reflexivity|exact Hclient].
Defined.

(** Two nodes with one address, and a node whose address is a name: it has a certificate, but
    not for what the control plane will verify. *)
Example addresses_of_nodes :
  map (fun '(node, ip, host) =>
         match (sign_node_csr 420 default_cert_settings (seconds 90) example_draws (csr_bytes 21 (mkName "x")) node (Some ip) example_disk).2 with
         | Ret i => match load_pem_x509_certificate (certificate_pem i) with Ret c => names c host | Exc _ => false end
         | Exc _ => false
         end)
    [("node-7", "10.0.0.7", "10.0.0.7"); ("node-8", "10.0.0.7", "10.0.0.7"); ("node-9", "db.example.org", "db.example.org")] =
  [true; true; false].
Proof. vm_compute. reflexivity. Qed.

(** With the default settings a certificate lasts 826 days. *)
Example validity_of_a_certificate :
  match (sign_node_csr 420 default_cert_settings (seconds 90) example_draws (csr_bytes 21 (mkName "x")) "node-7" None example_disk).2 with
  | Ret i => match load_pem_x509_certificate (certificate_pem i) with
             | Ret c => not_valid_after (tbs c) - not_valid_before (tbs c) = days 826
             | Exc _ => False
             end
  | Exc _ => False
  end.
Proof. vm_compute. reflexivity. Qed.
