(* ===== verification/Bootstrap.v ===== *)
(** * A node joins: [agent/bootstrap.py], [agent/app/control_plane_client.py], [state.py],
    [crypto.py], [resources.py], with the control plane at the other end

    The process of an agent has a disk, the directory [STATE_DIR], and a network. The
    control plane serves it with [register_node] and [heartbeat] of Nodes, its secrets
    are those of Security and its certificates those of Ca. *)

From Stdlib Require Import Ascii SpecFloat.
From S2P Require Import Prelude PyStd Files Json Api Sdk Ca.
From S2P Require Import ControlPlane Placement Platform Access Accounts Nodes Security.

(** ** Model: the agent *)

(** The settings [AgentSettings] of a registration; [gethostname] is the name of the machine. *)
Record NodeSettings := mkNodeSettings {
  control_plane_url : string;
  bootstrap_token : option string;
  region_code : string;
  ns_hostname : string;
  ns_gethostname : string;
  ns_ip_address : option string;
  agent_port : Z;
  postgres_port : Z;
  agent_version : string;
}.
(** [NodeState] *)
Record NodeState := mkNodeState { node_id : string; node_secret : string; hostname : string; ns_region_code : string; registered_at : string }.
#[export] Instance NodeState_eq_dec : EqDecision NodeState.
Proof. solve_decision. Defined.
(** What psutil and [shutil.disk_usage] measure, in bytes, and the load of the processors in percent. *)
Record Measures := mkMeasures {
  cpu_count : option Z; cpu_percent : spec_float;
  memory_total : Z; memory_used : Z; disk_total : Z; disk_used : Z;
}.

Definition resolved_hostname (s : NodeSettings) : string :=
  if bool_decide (ns_hostname s = "") then ns_gethostname s else ns_hostname s.

(** [psutil.cpu_count(logical=True) or 1] *)
Definition processors (m : Measures) : Z := match cpu_count m with Some n => if n =? 0 then 1 else n | None => 1 end.
(** [round(n / 2 ** k)]: the quotient of a number below 2^53 is exact. *)
Definition rounded (n unit : Z) : Z := div_half_even n unit.
Definition collect_capacity (m : Measures) : list (string * json) :=
  [("cpu_total", VNum (processors m)); ("ram_total_mb", VNum (rounded (memory_total m) (1024 * 1024)));
   ("storage_total_gb", VNum (rounded (disk_total m) (1024 ^ 3)))].
Definition collect_usage (m : Measures) : list (string * json) :=
  [("cpu_used", VFloat (SFmul 53 1024 (SFdiv 53 1024 (cpu_percent m) (float_of_Z 100)) (float_of_Z (processors m))));
   ("ram_used_mb", VNum (rounded (memory_used m) (1024 * 1024))); ("storage_used_gb", VNum (rounded (disk_used m) (1024 ^ 3)))].

Record Host (W : Type) := mkHost { remote : W; disk : Disk }.
Arguments mkHost {_} _ _.
Arguments remote {_} _.
Arguments disk {_} _.

Definition state_fields : list string := ["node_id"; "node_secret"; "hostname"; "region_code"; "registered_at"].
(** [NodeState( **d)]: a key given twice has its last value. *)
Definition node_state_of (d : list (string * string)) : outcome NodeState :=
  if negb (forallb (fun kv => bool_decide (kv.1 ∈ state_fields)) d) then Exc TypeError
  else match dict_get (rev d) <$> state_fields with
       | [Some id; Some secret; Some host; Some region; Some at_] => Ret (mkNodeState id secret host region at_)
       | _ => Exc TypeError
       end.
Definition load_state : M Disk (option NodeState) :=
  there ← gets (exists_file "node_state.json");
  if there : bool then
    text ← read_file "node_state.json";
    d ← some_or (loads text) JSONDecodeError;
    s ← lift_outcome (node_state_of d);
    mret (Some s)
  else mret None.
Definition ensure_registered : M Disk NodeState := o ← load_state; some_or o RuntimeError.

Section agent.
Context `{Lib : X509} {W : Type}.
(** The network and what is behind it, and the permissions of new files. *)
Context (serve : Request -> W -> W * option Response) (default_mode : Z).

Definition on_disk {A} (m : M Disk A) : M (Host W) A := fun h => let '(d, o) := m (disk h) in (mkHost (remote h) d, o).
(** [client.post], [resp.raise_for_status()] *)
Definition post (r : Request) : M (Host W) Response := fun h =>
  let '(w, a) := serve r (remote h) in
  (mkHost w (disk h), match a with Some x => Ret x | None => Exc TransportError end).
Definition raise_for_status (r : Response) : M (Host W) unit :=
  require ((200 <=? rs_status r) && (rs_status r <? 300)) (HTTPStatusError (rs_status r)).

(** A field of the answer, which the control plane declares to be a text. *)
Definition text_field (body : json) (key : string) : outcome string :=
  v ← getitem body key; match v with VText s => Ret s | _ => Exc TypeError end.

Definition generate_csr_pem (k : positive) (common_name : string) : outcome string :=
  name ← name_attribute common_name; Ret (csr_bytes k name).
Definition save_private_key (k : positive) : M Disk unit := write_file default_mode "node.key" (private_bytes k).
Definition save_state (s : NodeState) : M Disk unit :=
  write_file default_mode "node_state.json"
    (dumps [("node_id", node_id s); ("node_secret", node_secret s); ("hostname", hostname s);
            ("region_code", ns_region_code s); ("registered_at", registered_at s)]).

Definition nullable (o : option string) : json := match o with Some s => VText s | None => VNull end.
Definition register_body (s : NodeSettings) (m : Measures) (csr_pem : string) : json :=
  VDict ([("hostname", VText (resolved_hostname s)); ("region_code", VText (region_code s)); ("csr_pem", VText csr_pem);
          ("ip_address", nullable (ns_ip_address s)); ("agent_version", VText (agent_version s));
          ("agent_port", VNum (agent_port s)); ("postgres_port", VNum (postgres_port s))] ++ collect_capacity m).

(** [private_key] is drawn, [today] the time as a text. *)
Definition register (s : NodeSettings) (m : Measures) (private_key : positive) (today : string) : M (Host W) NodeState :=
  token ← some_or (bootstrap_token s) RuntimeError;
  require (negb (bool_decide (token = ""))) RuntimeError;;
  csr_pem ← lift_outcome (generate_csr_pem private_key (resolved_hostname s));
  resp ← post (mkRequest (control_plane_url s) "POST" "/nodes/register" (Some (register_body s m csr_pem)) (Some token));
  raise_for_status resp;;
  body ← some_or (rs_json resp) JSONDecodeError;
  on_disk (save_private_key private_key);;
  certificate ← lift_outcome (text_field body "certificate_pem");
  on_disk (write_file default_mode "node.crt" certificate);;
  ca ← lift_outcome (text_field body "ca_certificate_pem");
  on_disk (write_file default_mode "ca.crt" ca);;
  id ← lift_outcome (text_field body "node_id");
  secret ← lift_outcome (text_field body "node_secret");
  let state := mkNodeState id secret (resolved_hostname s) (region_code s) today in
  on_disk (save_state state);;
  mret state.

Definition send_heartbeat (s : NodeSettings) (state : NodeState) (m : Measures) : M (Host W) unit :=
  resp ← post (mkRequest (control_plane_url s) "POST" ("/nodes/" +:+ node_id state +:+ "/heartbeat")
                 (Some (VDict (("agent_version", VText (agent_version s)) :: collect_usage m))) (Some (node_secret state)));
  raise_for_status resp.
(** One turn of [heartbeat_loop]: whatever goes wrong is logged. *)
Definition heartbeat_turn (s : NodeSettings) (state : NodeState) (m : Measures) : M (Host W) unit :=
  try_except (send_heartbeat s state m) (fun _ => Some (mret tt)).

(** [bootstrap.main] *)
Definition bootstrap_main (s : NodeSettings) (m : Measures) (private_key : positive) (today : string) : M (Host W) NodeState :=
  found ← on_disk load_state;
  require (bool_decide (found = None)) (Exit 1);;
  try_except (register s m private_key today)
    (fun e => match e with HTTPStatusError _ => Some (raise (Exit 1)) | _ => None end).
End agent.

(** ** Model: the control plane *)

(** Its database and its directory of certificates. *)
Record Plane := mkPlane { cp : Cp; certs : Disk }.

(** The fields of [NodeRegisterRequest]; numbers and texts sent as such. *)
Definition text_of_field (d : list (string * json)) (key : string) : option string :=
  match dict_get d key with Some (VText s) => Some s | _ => None end.
Definition num_of_field (d : list (string * json)) (key : string) (default : option Z) : option Z :=
  match dict_get d key with Some (VNum z) => Some z | Some _ => None | None => default end.
Definition null_of_field (d : list (string * json)) (key : string) : option (option string) :=
  match dict_get d key with Some (VText s) => Some (Some s) | Some VNull | None => Some None | _ => None end.
Definition long (lo hi : nat) (s : string) : bool := bool_decide (lo <= String.length s <= hi)%nat.
Definition parse_register (body : option json) : option NodeRegisterRequest :=
  match body with
  | Some (VDict d) =>
      host ← text_of_field d "hostname";
      region ← text_of_field d "region_code";
      csr ← text_of_field d "csr_pem";
      ip ← null_of_field d "ip_address";
      cpu ← num_of_field d "cpu_total" None;
      ram ← num_of_field d "ram_total_mb" None;
      storage ← num_of_field d "storage_total_gb" None;
      null_of_field d "agent_version";;
      port ← num_of_field d "agent_port" (Some 9443);
      postgres ← num_of_field d "postgres_port" (Some 5432);
      if long 2 255 host && long 2 50 region then Some (mkNodeRegisterRequest region csr ip cpu ram storage port postgres) else None
  | _ => None
  end.
(** [NodeHeartbeatRequest] *)
Definition is_measure (d : list (string * json)) (key : string) (int : bool) : bool :=
  match dict_get d key with Some (VNum _) | Some VNull | None => true | Some (VFloat _) => negb int | _ => false end.
Definition valid_heartbeat (body : option json) : bool :=
  match body with
  | Some (VDict d) =>
      is_measure d "cpu_used" false && is_measure d "ram_used_mb" true && is_measure d "storage_used_gb" true
      && match null_of_field d "agent_version" with Some _ => true | None => false end
  | _ => false
  end.

Section control_plane.
Context `{Env : Platform} `{Prim : Primitives} `{Lib : X509}.
Context (default_mode : Z) (settings : CertSettings).
(** The parsing of an identifier in a path. *)
Context (uuid_param : string -> option uuid).

(** The authority of Nodes, from [core/security.py] and [services/ca.py]. *)
Program Definition ca_authority (now : timestamp) (drawn : Draws) (d : Disk) : NodeAuthority := {|
  Nodes.generate_bootstrap_token := Security.generate_bootstrap_token;
  Nodes.verify_bootstrap_token := Security.verify_bootstrap_token;
  Nodes.generate_node_secret := Security.generate_node_secret;
  Nodes.verify_node_secret := Security.verify_node_secret;
  Nodes.sign_node_csr := fun csr_pem node ip =>
    match (Ca.sign_node_csr default_mode settings now drawn csr_pem (str_uuid node) ip d).2 with
    | Ret i => Ret (certificate_pem i)
    | Exc e => Exc e
    end;
|}.
Next Obligation. intros now drawn d s. apply argon2_verify_hash. Qed.

Definition register_answer (node : uuid) (secret certificate ca : string) : json :=
  VDict [("node_id", VText (str_uuid node)); ("node_secret", VText secret); ("certificate_pem", VText certificate);
         ("ca_certificate_pem", VText ca); ("heartbeat_interval_seconds", VNum 20)].
(** The certificates change when the authority is created, in the first signature. *)
Definition register_endpoint (now : timestamp) (drawn : Draws) (credentials : option string) (p : NodeRegisterRequest) : M Plane json :=
  fun w =>
  match register_node_request (Authority := ca_authority now drawn (certs w)) now credentials p (cp w) with
  | (s, Ret (node, secret, certificate)) =>
      let d := (ensure_ca default_mode settings now drawn (certs w)).1 in
      match ca_certificate_pem default_mode settings now drawn d with
      | (d, Ret ca) => (mkPlane s d, Ret (register_answer node secret certificate ca))
      | (d, Exc e) => (mkPlane s d, Exc e)
      end
  | (s, Exc e) =>
      (mkPlane s (if decide (e = HTTPException 400) then (ensure_ca default_mode settings now drawn (certs w)).1 else certs w), Exc e)
  end.
(** The secret is verified before the body is looked at. *)
Definition heartbeat_endpoint (now : timestamp) (drawn : Draws) (credentials : option string) (node : uuid) (body : option json) :
    M Plane json :=
  fun w =>
  let authority := ca_authority now drawn (certs w) in
  let '(s, o) := if valid_heartbeat body then heartbeat (Authority := authority) now credentials node (cp w)
                 else (cp w, ((get_authenticated_node (Authority := authority) credentials node;; raise (HTTPException 422)) (cp w)).2) in
  (mkPlane s (certs w), match o with Ret _ => Ret VNull | Exc e => Exc e end).

(** What the framework answers. *)
Definition answer (status : Z) (r : Plane * outcome json) : Plane * option Response :=
  (r.1, Some match r.2 with
             | Ret v => mkResponse status "" (if decide (status = 204) then None else Some v)
             | Exc (HTTPException s) => mkResponse s "" (Some (VDict []))
             | Exc _ => mkResponse 500 "" None
             end).
(** The two requests of an agent; [others] serves the rest. *)
Definition serve_plane (others : Request -> Plane -> Plane * option Response) (now : timestamp) (drawn : Draws) (r : Request)
    (w : Plane) : Plane * option Response :=
  match api_route (rq_method r) (rq_path r) with
  | Some ("nodes.register_node", _) =>
      match parse_register (rq_json r) with
      | Some p => answer 201 (register_endpoint now drawn (rq_token r) p w)
      | None => answer 422 (w, Exc (HTTPException 422))
      end
  | Some ("nodes.heartbeat", [id]) =>
      match uuid_param id with
      | Some node => answer 204 (heartbeat_endpoint now drawn (rq_token r) node (rq_json r) w)
      | None => answer 422 (w, Exc (HTTPException 422))
      end
  | _ => others r w
  end.
End control_plane.

(** ** Lemmas *)

(** *** Runs of the agent *)

Section agent_runs.
Context `{Lib : X509} {W : Type} (serve : Request -> W -> W * option Response) (default_mode : Z).

Lemma on_disk_Ret {A} (m : M Disk A) (h h' : Host W) a :
  on_disk m h = (h', Ret a) <-> exists d, m (disk h) = (d, Ret a) /\ h' = mkHost (remote h) d.
Proof. unfold on_disk. destruct (m (disk h)) as [d [x|e]]; naive_solver. Qed.
Lemma post_Ret r (h h' : Host W) x :
  post serve r h = (h', Ret x) <-> exists w, serve r (remote h) = (w, Some x) /\ h' = mkHost w (disk h).
Proof. unfold post. destruct (serve r (remote h)) as [w [y|]]; naive_solver. Qed.

(** An identity that was saved is the one that is loaded, and nothing registers again. *)
Lemma load_saved_state (st : NodeState) d :
  load_state (save_state default_mode st d).1 = ((save_state default_mode st d).1, Ret (Some st)).
Proof.
  set (text := dumps [("node_id", node_id st); ("node_secret", node_secret st); ("hostname", hostname st);
            ("region_code", ns_region_code st); ("registered_at", registered_at st)]).
  set (d' := (save_state default_mode st d).1).
  assert (H : exists m, dict_get d' "node_state.json" = Some (mkFile text m)).
  { unfold d', save_state, write_file, modify. cbn [fst]. rewrite dict_get_eq. by eexists. }
  destruct H as [m H]. unfold load_state. rewrite bind_gets. unfold exists_file. rewrite H.
  unfold mbind at 1, M_bind at 1. rewrite (read_file_run _ _ _ H). cbn [content]. unfold text. rewrite loads_dumps. by destruct st.
Qed.

Lemma load_state_disk d : (load_state d).1 = d.
Proof.
  unfold load_state, read_file, mbind, M_bind, gets, some_or, lift_outcome, mret, M_ret, raise.
  repeat (case_match; simplify_eq/=); done.
Qed.

(** What a registration leaves on the disk. *)
Definition registered_disk (private_key : positive) (certificate ca : string) (st : NodeState) (d : Disk) : Disk :=
  (save_state default_mode st (write_file default_mode "ca.crt" ca (write_file default_mode "node.crt" certificate
     (save_private_key default_mode private_key d).1).1).1).1.

Lemma registered_files private_key certificate ca st d :
  let d' := registered_disk private_key certificate ca st d in
  load_state d' = (d', Ret (Some st)) /\ content <$> dict_get d' "node.key" = Some (private_bytes private_key) /\
  content <$> dict_get d' "node.crt" = Some certificate /\ content <$> dict_get d' "ca.crt" = Some ca.
Proof.
  cbv zeta. unfold registered_disk. split; [apply load_saved_state|].
  unfold save_state, save_private_key, write_file, modify. cbn [fst]. by split_and!; rewrite !dict_get_ne, dict_get_eq by done.
Qed.
(** The key of a new node is left with the permissions of any new file. *)
Lemma node_key_keeps_the_default_mode private_key certificate ca st d :
  dict_get d "node.key" = None ->
  dict_get (registered_disk private_key certificate ca st d) "node.key" = Some (mkFile (private_bytes private_key) default_mode).
Proof.
  intros H. unfold registered_disk, save_state, save_private_key, write_file, modify. cbn [fst].
  rewrite !dict_get_ne by done. by rewrite dict_get_eq, H.
Qed.
Lemma bootstrap_again s m private_key today (h : Host W) st :
  load_state (disk h) = (disk h, Ret (Some st)) ->
  bootstrap_main serve default_mode s m private_key today h = (h, Exc (Exit 1)).
Proof. intros H. unfold bootstrap_main, on_disk, mbind, M_bind. rewrite H. by destruct h. Qed.
Lemma bootstrap_run s m private_key today (h h' : Host W) st :
  bootstrap_main serve default_mode s m private_key today h = (h', Ret st) ->
  register serve default_mode s m private_key today h = (h', Ret st).
Proof.
  unfold bootstrap_main. intros H.
  apply bind_Ret in H as (h0 & found & (d0 & Hd0 & ->)%on_disk_Ret & H).
  apply bind_Ret in H as (? & ? & [_ ->]%require_Ret & H).
  assert (d0 = disk h) as -> by (by rewrite <- (load_state_disk (disk h)), Hd0). destruct h as [w d]. cbn [remote disk] in *.
  unfold try_except in H. destruct (register _ _ _ _ _ _ _) as [h1 [x|e]]; [done|by destruct e].
Qed.

Lemma register_run s m private_key today (h h' : Host W) st :
  register serve default_mode s m private_key today h = (h', Ret st) ->
  exists token name w resp body certificate ca,
    bootstrap_token s = Some token /\ name_attribute (resolved_hostname s) = Ret name /\
    serve (mkRequest (control_plane_url s) "POST" "/nodes/register"
             (Some (register_body s m (csr_bytes private_key name))) (Some token)) (remote h) = (w, Some resp) /\
    200 <= rs_status resp < 300 /\ rs_json resp = Some body /\
    text_field body "certificate_pem" = Ret certificate /\ text_field body "ca_certificate_pem" = Ret ca /\
    text_field body "node_id" = Ret (node_id st) /\ text_field body "node_secret" = Ret (node_secret st) /\
    h' = mkHost w (registered_disk private_key certificate ca st (disk h)).
Proof.
  unfold register, raise_for_status. intros H.
  apply bind_Ret in H as (? & token & [Ht ->]%some_or_Ret & H).
  apply bind_Ret in H as (? & ? & [_ ->]%require_Ret & H).
  apply bind_Ret in H as (? & csr & [-> Hcsr]%lift_outcome_Ret & H).
  apply obind_Ret in Hcsr as (name & Hname & [= <-]).
  apply bind_Ret in H as (? & resp & (w & Hw & ->)%post_Ret & H).
  apply bind_Ret in H as (? & ? & [[H1%Z.leb_le H2%Z.ltb_lt]%andb_true_iff ->]%require_Ret & H).
  apply bind_Ret in H as (? & body & [Hb ->]%some_or_Ret & H).
  apply bind_Ret in H as (? & ? & (d1 & Hd1 & ->)%on_disk_Ret & H).
  apply bind_Ret in H as (? & certificate & [-> Hc]%lift_outcome_Ret & H).
  apply bind_Ret in H as (? & ? & (d2 & Hd2 & ->)%on_disk_Ret & H).
  apply bind_Ret in H as (? & ca & [-> Hca]%lift_outcome_Ret & H).
  apply bind_Ret in H as (? & ? & (d3 & Hd3 & ->)%on_disk_Ret & H).
  apply bind_Ret in H as (? & id & [-> Hid]%lift_outcome_Ret & H).
  apply bind_Ret in H as (? & secret & [-> Hsecret]%lift_outcome_Ret & H). cbv zeta in H.
  apply bind_Ret in H as (? & ? & (d4 & Hd4 & ->)%on_disk_Ret & [-> ->]%mret_Ret).
  exists token, name, w, resp, body, certificate, ca. split_and!; [done..|]. f_equal. unfold registered_disk. cbn [disk remote] in *.
  rewrite Hd1. cbn [fst]. rewrite Hd2. cbn [fst]. rewrite Hd3. cbn [fst]. by rewrite Hd4.
Qed.
End agent_runs.

(** *** Runs of the control plane *)

Section plane_runs.
Context `{Env : Platform} `{Prim : Primitives} `{Lib : X509}.
Context (default_mode : Z) (settings : CertSettings) (uuid_param : string -> option uuid).
Context (others : Request -> Plane -> Plane * option Response).

Definition register_request (s : NodeSettings) (m : Measures) (csr_pem : string) : NodeRegisterRequest :=
  mkNodeRegisterRequest (region_code s) csr_pem (ns_ip_address s) (processors m) (rounded (memory_total m) (1024 * 1024))
    (rounded (disk_total m) (1024 ^ 3)) (agent_port s) (postgres_port s).
(** The control plane understands what the agent sends. *)
Lemma parse_register_body s m csr_pem :
  parse_register (Some (register_body s m csr_pem)) =
    if long 2 255 (resolved_hostname s) && long 2 50 (region_code s) then Some (register_request s m csr_pem) else None.
Proof. unfold parse_register, register_body, nullable, register_request. by destruct (ns_ip_address s). Qed.
Lemma valid_heartbeat_body s m :
  valid_heartbeat (Some (VDict (("agent_version", VText (agent_version s)) :: collect_usage m))) = true.
Proof. done. Qed.

Lemma heartbeat_route u : api_route "POST" ("/nodes/" +:+ str_uuid u +:+ "/heartbeat") = Some ("nodes.heartbeat", [str_uuid u]).
Proof.
  eapply (api_route_named "nodes.heartbeat"); [reflexivity|reflexivity|reflexivity|reflexivity|]. apply Forall_singleton.
  unfold plain. rewrite no_slash_str_uuid, andb_true_r. apply negb_true_iff, String.eqb_neq. intros H.
  apply (f_equal String.length) in H. unfold str_uuid in H. cbv zeta in H. rewrite !length_str_app in H. cbn in H. lia.
Qed.

Lemma register_answer_fields node secret certificate ca :
  let body := register_answer node secret certificate ca in
  text_field body "node_id" = Ret (str_uuid node) /\ text_field body "node_secret" = Ret secret /\
  text_field body "certificate_pem" = Ret certificate /\ text_field body "ca_certificate_pem" = Ret ca.
Proof. done. Qed.

(** An answer to a registration that has a certificate is a registration. *)
Lemma serve_register_run now drawn base token s m csr_pem w w' resp body certificate :
  serve_plane default_mode settings uuid_param others now drawn
    (mkRequest base "POST" "/nodes/register" (Some (register_body s m csr_pem)) (Some token)) w = (w', Some resp) ->
  rs_json resp = Some body -> text_field body "certificate_pem" = Ret certificate ->
  exists node secret ca d,
    register_node (Authority := ca_authority default_mode settings now drawn (certs w)) now (Some token)
      (register_request s m csr_pem) (cp w) = (cp w', Ret (node, secret, certificate)) /\
    ca_certificate_pem default_mode settings now drawn (ensure_ca default_mode settings now drawn (certs w)).1 = (d, Ret ca) /\
    certs w' = d /\ body = register_answer node secret certificate ca.
Proof.
  unfold serve_plane. cbn [rq_method rq_path rq_json rq_token].
  change (api_route "POST" "/nodes/register") with (Some ("nodes.register_node", [] : list string)). cbv iota.
  rewrite parse_register_body. destruct (long _ _ _ && long _ _ _).
  2: { intros [= <- <-] [= <-]. discriminate. }
  unfold answer, register_endpoint, register_node_request, transaction. intros H Hbody Hcert.
  destruct (register_node now _ _ _) as [t [[[node secret] pem]|e]] eqn:E; cbn [fst snd] in H.
  2: { injection H as <- <-. destruct e; cbn in Hbody; simplify_eq; discriminate Hcert. }
  destruct (ca_certificate_pem _ _ _ _ _) as [d [ca|e]] eqn:F; cbn [fst snd] in H.
  2: { injection H as <- <-. destruct e; cbn in Hbody; simplify_eq; discriminate Hcert. }
  injection H as <- <-. cbn in Hbody. injection Hbody as <-.
  destruct (register_answer_fields node secret pem ca) as (_ & _ & Hpem & _). rewrite Hpem in Hcert. injection Hcert as <-. by exists node, secret, ca, d.
Qed.
End plane_runs.

(** ** Properties *)

Section joins.
Context `{Env : Platform} `{Prim : Primitives} `{Lib : X509}.
Context (default_mode : Z) (settings : CertSettings) (uuid_param : string -> option uuid).
Context (others : Request -> Plane -> Plane * option Response).
(** An identifier of 128 bits is read back from its text. *)
Context (uuid_param_text : forall u, Zpos u < 2 ^ 128 -> uuid_param (str_uuid u) = Some u).

Lemma heartbeat_run now drawn base s st m w u n :
  node_id st = str_uuid u -> Zpos u < 2 ^ 128 -> nodes (cp w) !! u = Some n ->
  argon2_verify (nd_node_secret_hash n) (node_secret st) = true ->
  serve_plane default_mode settings uuid_param others now drawn
    (mkRequest base "POST" ("/nodes/" +:+ node_id st +:+ "/heartbeat")
       (Some (VDict (("agent_version", VText (agent_version s)) :: collect_usage m))) (Some (node_secret st))) w =
  (mkPlane (cp w <| nodes ::= alter (fun n => n <| nd_last_heartbeat_at := Some now |>) u |>) (certs w), Some (mkResponse 204 "" None)).
Proof.
  intros Hid Hu Hn Hv. unfold serve_plane. cbn [rq_method rq_path rq_json rq_token]. rewrite Hid, heartbeat_route.
  rewrite (uuid_param_text u Hu). unfold heartbeat_endpoint. rewrite valid_heartbeat_body. cbv zeta.
  unfold heartbeat, transaction, get_authenticated_node, mbind, M_bind, some_or, mret, M_ret, cp_get, gets. rewrite Hn.
  cbn [Nodes.verify_node_secret ca_authority]. unfold Security.verify_node_secret. rewrite Hv. done.
Qed.

Lemma ca_certificate_loads now drawn d k a :
  ca_at d k a -> ca_certificate_pem default_mode settings now drawn d = (d, Ret (public_bytes a)).
Proof. intros H. unfold ca_certificate_pem, mbind, M_bind. by rewrite (ensure_ca_loads default_mode settings now drawn d k a H). Qed.

(** A registration with the authority of Ca, for a request made by [generate_csr_pem]. *)
Lemma registered_by_authority now drawn token s m private_key name w t node secret certificate :
  ca_ok (certs w) ->
  register_node (Authority := ca_authority default_mode settings now drawn (certs w)) now (Some token)
    (register_request s m (csr_bytes private_key name)) (cp w) = (t, Ret (node, secret, certificate)) ->
  nodes (cp w) !! node = None /\
  exists n, nd_status n = NODE_ACTIVE /\ nodes t !! node = Some n /\ argon2_verify (nd_node_secret_hash n) secret = true /\
  exists k a c d, ensure_ca default_mode settings now drawn (certs w) = (d, Ret (k, a)) /\ ca_at d k a /\
    load_pem_x509_certificate certificate = Ret c /\ issued_for SERVER_AUTH a (public_key private_key) c /\
    subject_name (tbs c) = mkName (str_uuid node) /\
    (forall ip address, ns_ip_address s = Some ip -> ip_address ip = Some address -> names c ip = true).
Proof.
  intros Hok H. apply register_node_run in H as (r & kt & tok & _ & _ & _ & _ & _ & _ & Hfresh & Hissued & hash & Hsec & Hnodes).
  split; [done|]. eexists. rewrite Hnodes, lookup_insert_eq. split_and!; [|done|exact Hsec|]; [done|].
  cbn [Nodes.sign_node_csr ca_authority register_request nr_csr_pem nr_ip_address] in Hissued.
  destruct (Ca.sign_node_csr _ _ _ _ _ _ _ _) as [d [i|e]] eqn:Hs; [|done]. cbn [snd] in Hissued. injection Hissued as <-.
  apply sign_node_csr_run in Hs as (csr & k & a & c & Hcsr & _ & Hens & Hat & Hload & Hi & Hsub & _ & _ & Hn); [|done].
  rewrite load_csr_bytes in Hcsr. injection Hcsr as <-. exists k, a, c, d. split_and!; [done..|].
  intros ip address Hip Hadd. rewrite Hn, Hip, Hadd. cbn [mbind option_bind]. rewrite Hadd. by apply bool_decide_eq_true.
Qed.

(** C37. When the bootstrap of a node succeeds, the node is new to the control plane and
    its identity is on the disk of the agent: what it loads from then on. The private key never left
    it, and its certificate, for that key, is trusted by the control plane as a server, for the
    address the node declared, and never as a client. The next heartbeat makes it eligible for
    databases, and a second bootstrap stops before it sends anything. *)
Theorem agent_joins_the_fleet now drawn s m private_key today h h' st :
  ca_reachable (certs (remote h)) ->
  bootstrap_main (serve_plane default_mode settings uuid_param others now drawn) default_mode s m private_key today h = (h', Ret st) ->
  exists node k a c, (node_id st = str_uuid node /\ nodes (cp (remote h)) !! node = None /\ is_Some (nodes (cp (remote h')) !! node)) /\
    (load_state (disk h') = (disk h', Ret (Some st)) /\
     content <$> dict_get (disk h') "node.key" = Some (private_bytes private_key) /\
     content <$> dict_get (disk h') "ca.crt" = Some (public_bytes a) /\
     (exists f, dict_get (disk h') "node.crt" = Some f /\ load_pem_x509_certificate (content f) = Ret c)) /\
    (ca_at (certs (remote h')) k a /\ cert_public_key (tbs c) = public_key private_key /\ subject_name (tbs c) = mkName (str_uuid node) /\
     (forall ip address, ns_ip_address s = Some ip -> ip_address ip = Some address -> names c ip = true) /\
     (forall later, trusts a c SERVER_AUTH later = within later (tbs a) && within later (tbs c)) /\
     (forall later, trusts a c CLIENT_AUTH later = false)) /\
    (Zpos node < 2 ^ 128 -> forall later drawn' m',
       exists w n, send_heartbeat (serve_plane default_mode settings uuid_param others later drawn') s st m' h' =
           (mkHost w (disk h'), Ret tt) /\
         nodes (cp w) !! node = Some n /\ is_eligible_for_placement later n = true) /\
    (forall serve m' private_key' today',
       bootstrap_main (W := Plane) serve default_mode s m' private_key' today' h' = (h', Exc (Exit 1))).
Proof.
  intros Hok%ca_ok_reachable H%bootstrap_run.
  apply register_run in H as (token & name & w' & resp & body & certificate & ca & Ht & Hname & Hs & _ & Hbody & Hcert & Hca & Hid & Hsecret & ->).
  destruct (serve_register_run _ _ _ _ _ _ _ _ _ _ _ _ _ _ _ _ Hs Hbody Hcert) as (node & secret & ca' & d' & Hn & Hpem & Hd' & ->).
  destruct (register_answer_fields node secret certificate ca') as (Hid' & Hsecret' & _ & Hca').
  rewrite Hid' in Hid. injection Hid as Hid. rewrite Hsecret' in Hsecret. injection Hsecret as Hsecret.
  rewrite Hca' in Hca. injection Hca as Hca. subst ca'.
  destruct (registered_by_authority _ _ _ _ _ _ _ _ _ _ _ _ Hok Hn) as (Hfresh & n & Hnode & Hn' & Hv & k & a & c & d1 & Hens & Hat & Hc).
  rewrite Hens in Hpem. cbn [fst] in Hpem. rewrite (ca_certificate_loads _ _ _ _ _ Hat) in Hpem. injection Hpem as <- <-.
  destruct Hc as (Hload & Hi & Hsub & Hnames). pose proof Hat as [Hauth _].
  destruct (registered_files default_mode private_key certificate (public_bytes a) st (disk h)) as (Hst & Hkey & Hcrt & Hcacrt).
  exists node, k, a, c. cbn [remote disk] in *. rewrite Hd'. split_and!; try done.
  - destruct (dict_get _ "node.crt") as [f|]; [|done]. injection Hcrt as Hf. exists f. by rewrite Hf.
  - apply Hi.
  - intros later. rewrite (trusts_issued _ _ _ _ _ _ _ Hauth Hi). by rewrite andb_true_r.
  - intros later. rewrite (trusts_issued _ _ _ _ _ _ _ Hauth Hi). by rewrite andb_false_r.
  - intros Hu later drawn' m'. unfold send_heartbeat, post, mbind at 1, M_bind at 1. cbn [remote disk].
    erewrite heartbeat_run; [|by symmetry|done|exact Hn'|by rewrite <- Hsecret]. eexists _, _. split; [done|]. cbn [cp]. split.
    + cbn. by rewrite lookup_alter_eq, Hn'.
    + unfold is_eligible_for_placement, effective_status. cbn. rewrite Hnode. cbn. by rewrite Z.sub_diag.
  - intros. by apply (bootstrap_again _ _ _ _ _ _ (mkHost w' _) st).
Qed.
End joins.

(** ** An example *)

Fixpoint without_dashes (s : string) : string :=
  match s with EmptyString => "" | String c s => if Ascii.eqb c "-" then without_dashes s else String c (without_dashes s) end.
Definition uuid_of_text (s : string) : option uuid := Some (Z.to_pos (int_of 16 (without_dashes s))).

Lemma without_dashes_app a b : without_dashes (a +:+ b) = without_dashes a +:+ without_dashes b.
Proof.
  induction a as [|c a IH]; [done|]. change (String c a +:+ b) with (String c (a +:+ b)). cbn [without_dashes]. rewrite IH.
  by destruct (Ascii.eqb c "-").
Qed.
Lemma without_dashes_id s : all_chars (fun c => negb (Ascii.eqb c "-")) s = true -> without_dashes s = s.
Proof.
  induction s as [|c s IH]; [done|]. cbn. intros [Hc%negb_true_iff Hs]%andb_prop. by rewrite Hc, IH.
Qed.
Lemma substring_join s i n m : String.substring i n s +:+ String.substring (i + n) m s = String.substring i (n + m) s.
Proof.
  revert i n. induction s as [|c s IH]; intros i n; [by destruct i, n, m|].
  destruct i as [|i]; [|apply (IH i n)]. destruct n as [|n]; [done|].
  transitivity (String c (String.substring 0 n s +:+ String.substring (0 + n) m s)); [done|]. by rewrite (IH O n).
Qed.
Lemma without_dashes_str_uuid u : without_dashes (str_uuid u) = uuid_hex u.
Proof.
  unfold str_uuid. cbv zeta. set (h := uuid_hex u). rewrite !without_dashes_app. cbn [without_dashes Ascii.eqb Bool.eqb].
  rewrite !without_dashes_id by by apply all_chars_substring, hex_of_all.
  transitivity (String.substring 0 8 h +:+ String.substring 8 4 h +:+ String.substring 12 4 h +:+ String.substring 16 4 h
                +:+ String.substring 20 12 h); [done|].
  pose proof (substring_join h 16 4 12) as E1. pose proof (substring_join h 12 4 16) as E2.
  pose proof (substring_join h 8 4 20) as E3. pose proof (substring_join h 0 8 24) as E4. cbn [Nat.add] in *. rewrite E1, E2, E3, E4.
  assert (Hl : String.length h = 32%nat) by (unfold h, uuid_hex; apply length_hex_of). rewrite <- Hl at 1. apply substring_all.
Qed.

Lemma int_of_snoc base s c : int_of base (s +:+ String c "") = int_of base s * base + digit_value c.
Proof.
  unfold int_of. assert (String.list_ascii_of_string (s +:+ String c "") = String.list_ascii_of_string s ++ [c]) as ->.
  { induction s as [|d s IH]; [done|]. change (String d s +:+ String c "") with (String d (s +:+ String c "")). cbn. by rewrite IH. }
  by rewrite fold_left_app.
Qed.
Lemma int_of_hex d n : int_of 16 (hex_of d n) = n mod 16 ^ Z.of_nat d.
Proof.
  revert n. induction d as [|d IH]; intros n; [by rewrite Z.mod_1_r|]. cbn [hex_of]. rewrite int_of_snoc, IH.
  assert (digit_value (hex_char (n mod 16)) = n mod 16) as ->.
  { pose proof (Z.mod_pos_bound n 16 ltac:(lia)) as Hb. generalize dependent (n mod 16). intros r Hr.
    assert (exists k, (k < 16)%nat /\ r = Z.of_nat k) as (k & Hk & ->) by (exists (Z.to_nat r); lia).
    do 16 (destruct k as [|k]; [done|]). lia. }
  rewrite Nat2Z.inj_succ, Z.pow_succ_r by lia. rewrite Z.rem_mul_r by lia. lia.
Qed.
Lemma uuid_of_str_uuid u : Zpos u < 2 ^ 128 -> uuid_of_text (str_uuid u) = Some u.
Proof.
  intros Hu. unfold uuid_of_text. rewrite without_dashes_str_uuid. unfold uuid_hex. rewrite int_of_hex. rewrite Z.mod_small; [done|].
  split; [lia|]. exact Hu.
Qed.

Definition example_node : NodeSettings :=
  mkNodeSettings "http://127.0.0.1:8000/api/v1" (Some "bootstrap") "eu" "" "node-7" (Some "10.0.0.7") 9443 5432 "0.1.0".
Definition example_measures : Measures :=
  mkMeasures (Some 4) (float_of_Z 25) (8 * 1024 ^ 3) (3 * 1024 ^ 3) (100 * 1024 ^ 3) (40 * 1024 ^ 3).
Definition example_plane : Plane := mkPlane example_tokens [].
Definition example_serve : timestamp -> Draws -> Request -> Plane -> Plane * option Response :=
  serve_plane (Env := example_platform) (Prim := example_primitives) 420 default_cert_settings uuid_of_text (fun _ w => (w, None)).

Example measures_sent :
  collect_capacity example_measures = [("cpu_total", VNum 4); ("ram_total_mb", VNum 8192); ("storage_total_gb", VNum 100)] /\
  dict_get (collect_usage example_measures) "cpu_used" = Some (VFloat (float_of_Z 1)).
Proof. split; vm_compute; reflexivity. Qed.

Lemma agent_joins_the_fleet_witness :
  exists h st, bootstrap_main (example_serve (seconds 1) (mkDraws 7 8 9 10)) 420 example_node example_measures 21 "today" (mkHost example_plane []) =
      (h, Ret st) /\
    load_state (disk h) = (disk h, Ret (Some st)) /\
    exists w, send_heartbeat (example_serve (seconds 20) (mkDraws 1 1 1 1)) example_node st example_measures h = (mkHost w (disk h), Ret tt).
Proof.
  destruct (bootstrap_main (example_serve (seconds 1) (mkDraws 7 8 9 10)) 420 example_node example_measures 21 "today" (mkHost example_plane []))
    as [h [st|e]] eqn:E; [|apply (f_equal snd) in E; vm_compute in E; discriminate E].
  exists h, st. split; [reflexivity|].
  destruct (agent_joins_the_fleet (Env := example_platform) (Prim := example_primitives) 420 default_cert_settings uuid_of_text
      (fun _ w => (w, None)) uuid_of_str_uuid (seconds 1) (mkDraws 7 8 9 10) example_node example_measures 21 "today"
      (mkHost example_plane []) h st ca_new E) as (node & k & a & c & (_ & _ & Hn) & (Hl & _) & _ & Hb & _).
  assert (Hall : forallb (fun kn => Zpos kn.1 <? 2 ^ 128) (map_to_list (nodes (cp (remote (bootstrap_main
    (example_serve (seconds 1) (mkDraws 7 8 9 10)) 420 example_node example_measures 21 "today" (mkHost example_plane [])).1)))) = true)
    by (vm_compute; reflexivity).
  rewrite E in Hall. destruct Hn as [n Hn]. rewrite forallb_forall in Hall.
  assert (Hu : Zpos node < 2 ^ 128) by (apply Z.ltb_lt, (Hall (node, n)), list_elem_of_In, elem_of_map_to_list, Hn). clear Hall.
  split; [exact Hl|]. destruct (Hb Hu (seconds 20) (mkDraws 1 1 1 1) example_measures) as (w & _ & Hw & _).
  exists w. exact Hw.
Defined.
