(* ===== verification/Schema.v ===== *)
(** * Schemas and the operations that change them: [alembic.op] on PostgreSQL, the metadata of
    SQLAlchemy

    A schema is what the server keeps: tables with their columns, keys and references, and
    indexes. The operations have the meaning that their documentation gives them: it is a
    specification, against which the revisions of the two services are run. One is refused
    when the server would refuse it, and a schema that operations make is well formed: every
    reference has a target of its own type. *)

From S2P Require Import Prelude.

(** ** Model *)

Inductive ColumnType :=
| GUID | VARCHAR (length : Z) | JSON | BOOLEAN | DATETIME | DATE | INTEGER | BIGINT | FLOAT
| NUMERIC (precision scale : Z)
(** [Enum(..., native_enum=False, length=n)]: a text that is one of the labels. *)
| ENUM (labels : list string) (length : Z).
Record Column := mkColumn { ct_type : ColumnType; ct_nullable : bool; ct_default : option string }.
(** Every reference of the two services has one column. *)
Record ForeignKey := mkForeignKey { fk_name : option string; fk_column : string; fk_table : string; fk_target : string }.
Inductive scalar := SText (s : string) | SNum (z : Z).
Inductive cell := CId | CText (s : string) | CBool (b : bool) | CJson (d : list (string * scalar)).
Record Table := mkTable {
  columns : gmap string Column;
  primary_key : list string;
  uniques : list (option string * list string);
  foreign_keys : list ForeignKey;
  (** The rows that migrations insert. *)
  seeds : list (list (string * cell));
}.
Record Index := mkIndex { ix_table : string; ix_columns : list string; ix_unique : bool }.
Record Schema := mkSchema { tables : gmap string Table; indexes : gmap string Index }.
Definition empty_schema : Schema := mkSchema ∅ ∅.

#[export] Instance ColumnType_eq_dec : EqDecision ColumnType.
Proof. solve_decision. Defined.
#[export] Instance Column_eq_dec : EqDecision Column.
Proof. solve_decision. Defined.
#[export] Instance ForeignKey_eq_dec : EqDecision ForeignKey.
Proof. solve_decision. Defined.
#[export] Instance scalar_eq_dec : EqDecision scalar.
Proof. solve_decision. Defined.
#[export] Instance cell_eq_dec : EqDecision cell.
Proof. solve_decision. Defined.
#[export] Instance Table_eq_dec : EqDecision Table.
Proof. solve_decision. Defined.
#[export] Instance Index_eq_dec : EqDecision Index.
Proof. solve_decision. Defined.
#[export] Instance Schema_eq_dec : EqDecision Schema.
Proof. solve_decision. Defined.

(** *** How a table is written down *)

Definition req (name : string) (ty : ColumnType) : string * Column := (name, mkColumn ty false None).
Definition opt (name : string) (ty : ColumnType) : string * Column := (name, mkColumn ty true None).
Definition id_column : string * Column := req "id" GUID.
Definition created_at : string * Column := ("created_at", mkColumn DATETIME false (Some "(CURRENT_TIMESTAMP)")).
Definition ref (column target : string) : ForeignKey := mkForeignKey None column target "id".
Definition table (cols : list (string * Column)) (uniques : list (option string * list string)) (fks : list ForeignKey) : Table :=
  mkTable (list_to_map cols) ["id"] uniques fks [].

(** *** What the server accepts *)

Definition has (t : Table) (c : string) : Prop := is_Some (columns t !! c).
(** A column or a set of columns that identifies a row. *)
Definition identifies (t : Table) (cols : list string) : Prop := primary_key t = cols \/ cols ∈ snd <$> uniques t.
Definition not_null (t : Table) (c : string) : Prop := match columns t !! c with Some col => ct_nullable col = false | None => False end.
Definition type_of (t : Table) (c : string) : option ColumnType := ct_type <$> columns t !! c.
Definition type_ok (ty : ColumnType) : Prop :=
  match ty with
  | VARCHAR n => 0 < n
  | NUMERIC p s => 0 <= s <= p /\ 0 < p
  | ENUM labels n => labels <> [] /\ Forall (fun l => Z.of_nat (String.length l) <= n) labels
  | _ => True
  end.
(** A reference has a target that identifies a row, of its own type. *)
Definition fk_ok (ts : gmap string Table) (t : Table) (f : ForeignKey) : Prop :=
  match ts !! fk_table f with
  | Some target => is_Some (type_of t (fk_column f)) /\ type_of t (fk_column f) = type_of target (fk_target f) /\ identifies target [fk_target f]
  | None => False
  end.
(** A row has columns of the table, and every column that must have a value. *)
Definition row_ok (t : Table) (row : list (string * cell)) : Prop :=
  Forall (has t) (fst <$> row) /\
  map_Forall (fun c col => ct_nullable col = true \/ is_Some (ct_default col) \/ c ∈ fst <$> row) (columns t).
Definition own_ok (t : Table) : Prop :=
  primary_key t <> [] /\ Forall (not_null t) (primary_key t) /\ Forall (fun u : option string * list string => Forall (has t) u.2) (uniques t) /\
  map_Forall (fun _ col => type_ok (ct_type col)) (columns t) /\ Forall (row_ok t) (seeds t).
Definition table_ok (ts : gmap string Table) (t : Table) : Prop := own_ok t /\ Forall (fk_ok ts t) (foreign_keys t).
Definition index_ok (ts : gmap string Table) (i : Index) : Prop :=
  match ts !! ix_table i with Some t => Forall (has t) (ix_columns i) | None => False end.
Definition well_formed (s : Schema) : Prop :=
  map_Forall (fun _ t => table_ok (tables s) t) (tables s) /\ map_Forall (fun _ i => index_ok (tables s) i) (indexes s).

#[export] Instance has_dec t c : Decision (has t c).
Proof. unfold has. apply _. Defined.
#[export] Instance identifies_dec t cols : Decision (identifies t cols).
Proof. unfold identifies. apply _. Defined.
#[export] Instance not_null_dec t c : Decision (not_null t c).
Proof. unfold not_null. destruct (columns t !! c); apply _. Defined.
#[export] Instance type_ok_dec ty : Decision (type_ok ty).
Proof. destruct ty; cbn; apply _. Defined.
#[export] Instance fk_ok_dec ts t f : Decision (fk_ok ts t f).
Proof. unfold fk_ok. destruct (ts !! fk_table f); apply _. Defined.
#[export] Instance row_ok_dec t row : Decision (row_ok t row).
Proof. unfold row_ok. apply _. Defined.
#[export] Instance own_ok_dec t : Decision (own_ok t).
Proof. unfold own_ok. apply _. Defined.
#[export] Instance table_ok_dec ts t : Decision (table_ok ts t).
Proof. unfold table_ok. apply _. Defined.
#[export] Instance index_ok_dec ts i : Decision (index_ok ts i).
Proof. unfold index_ok. destruct (ts !! ix_table i); apply _. Defined.

(** *** Operations *)

Inductive op :=
| CreateTable (name : string) (t : Table)
| DropTable (name : string)
| AddColumn (table column : string) (c : Column)
| DropColumn (table column : string)
| AlterNullable (table column : string) (nullable : bool)
| CreateIndex (name table : string) (cols : list string) (unique : bool)
| DropIndex (name table : string)
| CreateUnique (name table : string) (cols : list string)
| CreateForeignKey (name : option string) (table : string) (column target_table target : string)
(** A constraint is dropped by its name; Alembic does not compile a drop without one. *)
| DropConstraint (name : option string) (table : string)
| BulkInsert (table : string) (rows : list (list (string * cell))).

(** References to a column of a table, from any table but [but]. *)
Definition references (ts : gmap string Table) (but : option string) (p : ForeignKey -> bool) : bool :=
  existsb (fun nt => negb (bool_decide (Some nt.1 = but)) && existsb p (foreign_keys nt.2)) (map_to_list ts).
Definition refers_to (table : string) (f : ForeignKey) : bool := bool_decide (fk_table f = table).

Definition on_table (s : Schema) (name : string) (f : Table -> option Table) : option Schema :=
  t ← tables s !! name; t' ← f t; Some (mkSchema (<[name := t']> (tables s)) (indexes s)).
Definition without_column (c : string) (t : Table) : Table :=
  mkTable (delete c (columns t)) (primary_key t) (filter (fun u => c ∉ u.2) (uniques t))
    (filter (fun f => fk_column f <> c) (foreign_keys t)) ((fun row => filter (fun kv => kv.1 <> c) row) <$> seeds t).
Definition without_constraint (name : string) (t : Table) : Table :=
  mkTable (columns t) (primary_key t) (filter (fun u => u.1 <> Some name) (uniques t))
    (filter (fun f => fk_name f <> Some name) (foreign_keys t)) (seeds t).

Section run.
(** The tables that have rows already; what depends on the values in them is left out. *)
Context (populated : string -> bool).

Definition apply (o : op) (s : Schema) : option Schema :=
  match o with
  | CreateTable n t =>
      if decide (tables s !! n = None /\ table_ok (<[n := t]> (tables s)) t)
      then Some (mkSchema (<[n := t]> (tables s)) (indexes s)) else None
  | DropTable n =>
      if decide (is_Some (tables s !! n) /\ references (tables s) (Some n) (refers_to n) = false)
      then Some (mkSchema (delete n (tables s)) (filter (fun i => ix_table i.2 <> n) (indexes s))) else None
  | AddColumn n c col =>
      (** A column that must have a value needs a default when there are rows. *)
      on_table s n (fun t =>
        if decide (columns t !! c = None /\ type_ok (ct_type col) /\
                   (ct_nullable col = true \/ is_Some (ct_default col) \/ populated n = false /\ seeds t = []))
        then Some (mkTable (<[c := col]> (columns t)) (primary_key t) (uniques t) (foreign_keys t) (seeds t)) else None)
  | DropColumn n c =>
      s ← (on_table s n (fun t =>
        if decide (has t c /\ (c ∉ primary_key t) /\
                   references (tables s) None (fun f => refers_to n f && bool_decide (fk_target f = c)) = false)
        then Some (without_column c t) else None));
      Some (mkSchema (tables s) (filter (fun i => ~ (ix_table i.2 = n) \/ c ∉ ix_columns i.2) (indexes s)))
  | AlterNullable n c b =>
      on_table s n (fun t =>
        col ← columns t !! c;
        let t' := mkTable (<[c := mkColumn (ct_type col) b (ct_default col)]> (columns t)) (primary_key t) (uniques t)
                    (foreign_keys t) (seeds t) in
        if decide ((b = true -> c ∉ primary_key t) /\ Forall (row_ok t') (seeds t')) then Some t' else None)
  | CreateIndex i n cols u =>
      if decide (indexes s !! i = None /\ index_ok (tables s) (mkIndex n cols u))
      then Some (mkSchema (tables s) (<[i := mkIndex n cols u]> (indexes s))) else None
  | DropIndex i n =>
      if decide (ix_table <$> indexes s !! i = Some n) then Some (mkSchema (tables s) (delete i (indexes s))) else None
  | CreateUnique name n cols =>
      on_table s n (fun t =>
        if decide (Forall (has t) cols /\ Some name ∉ fst <$> uniques t)
        then Some (mkTable (columns t) (primary_key t) (uniques t ++ [(Some name, cols)]) (foreign_keys t) (seeds t)) else None)
  | CreateForeignKey name n c n' c' =>
      on_table s n (fun t =>
        let f := mkForeignKey name c n' c' in
        if decide (fk_ok (tables s) t f)
        then Some (mkTable (columns t) (primary_key t) (uniques t) (foreign_keys t ++ [f]) (seeds t)) else None)
  | DropConstraint None n => None
  | DropConstraint (Some name) n =>
      on_table s n (fun t =>
        let t' := without_constraint name t in
        if decide (t' <> t /\ references (tables s) None (fun f =>
                     refers_to n f && bool_decide (identifies t [fk_target f]) && negb (bool_decide (identifies t' [fk_target f]))) = false)
        then Some t' else None)
  | BulkInsert n rows =>
      on_table s n (fun t =>
        if decide (Forall (row_ok t) rows)
        then Some (mkTable (columns t) (primary_key t) (uniques t) (foreign_keys t) (seeds t ++ rows)) else None)
  end.
Fixpoint run (ops : list op) (s : Schema) : option Schema :=
  match ops with [] => Some s | o :: ops => s ← apply o s; run ops s end.
End run.

(** *** Revisions *)

Record Revision := mkRevision { revision : string; upgrade : list op; downgrade : list op }.
(** [alembic upgrade head] *)
Fixpoint upgrade_head (populated : string -> bool) (l : list Revision) (s : Schema) : option Schema :=
  match l with [] => Some s | r :: l => s ← run populated (upgrade r) s; upgrade_head populated l s end.

(** *** A schema against the models that use it *)

(** The same elements, in any order. *)
Definition same_set {A} `{EqDecision A} (l k : list A) : Prop :=
  length l = length k /\ Forall (fun x => x ∈ k) l /\ Forall (fun x => x ∈ l) k.
(** The column has the type of the model and is null when it says, and has a default where the
    model leaves one to the server. *)
Definition column_implements (db model : Column) : Prop :=
  ct_type db = ct_type model /\ ct_nullable db = ct_nullable model /\ (is_Some (ct_default model) -> is_Some (ct_default db)).
Definition fk_target_of (f : ForeignKey) : string * string * string := (fk_column f, fk_table f, fk_target f).
Definition table_implements (db model : Table) : Prop :=
  map_relation (fun _ => column_implements) (fun _ _ => False) (fun _ _ => False) (columns db) (columns model) /\
  primary_key db = primary_key model /\ same_set (snd <$> uniques db) (snd <$> uniques model) /\
  same_set (fk_target_of <$> foreign_keys db) (fk_target_of <$> foreign_keys model).
(** Names of constraints are for people. *)
Definition implements (db model : Schema) : Prop :=
  map_relation (fun _ => table_implements) (fun _ _ => False) (fun _ _ => False) (tables db) (tables model) /\
  indexes db = indexes model.

#[export] Instance column_implements_dec db model : Decision (column_implements db model).
Proof. unfold column_implements. apply _. Defined.
#[export] Instance table_implements_dec db model : Decision (table_implements db model).
Proof. unfold table_implements, same_set. apply _. Defined.
#[export] Instance implements_dec db model : Decision (implements db model).
Proof. unfold implements. apply _. Defined.

(** ** Lemmas *)

Lemma references_false ts but p m u f :
  references ts but p = false -> ts !! m = Some u -> Some m <> but -> f ∈ foreign_keys u -> p f = false.
Proof.
  intros H Hm Hne Hf. apply not_true_iff_false. intros Hp. apply not_true_iff_false in H. apply H.
  unfold references. apply existsb_exists. exists (m, u). split; [by apply list_elem_of_In, elem_of_map_to_list|].
  cbn. rewrite bool_decide_eq_false_2 by done. apply existsb_exists. exists f. split; [by apply list_elem_of_In|done].
Qed.

(** A column of a table that references may keep as their target. *)
Definition target_kept (t t' : Table) (c : string) : Prop :=
  is_Some (type_of t c) -> type_of t' c = type_of t c /\ (identifies t [c] -> identifies t' [c]).

Lemma fk_ok_update ts n t t' u f :
  ts !! n = Some t -> (fk_table f = n -> target_kept t t' (fk_target f)) -> fk_ok ts u f -> fk_ok (<[n := t']> ts) u f.
Proof.
  intros Hn Hkept H. unfold fk_ok in *. destruct (decide (fk_table f = n)) as [E|E].
  - rewrite E in *. rewrite Hn in H. rewrite lookup_insert_eq. destruct H as (H1 & H2 & H3).
    rewrite H2 in H1. destruct (Hkept eq_refl H1) as [Ht Hi]. split; [by rewrite H2|]. split; [by rewrite Ht|by apply Hi].
  - by rewrite lookup_insert_ne.
Qed.

(** One table changes. *)
Lemma update_well_formed s n t t' ixs :
  well_formed s -> tables s !! n = Some t -> own_ok t' -> Forall (fk_ok (tables s) t') (foreign_keys t') ->
  (forall m u f, <[n := t']> (tables s) !! m = Some u -> f ∈ foreign_keys u -> fk_table f = n -> target_kept t t' (fk_target f)) ->
  map_Forall (fun _ i => index_ok (<[n := t']> (tables s)) i) ixs ->
  well_formed (mkSchema (<[n := t']> (tables s)) ixs).
Proof.
  intros [Ht Hi] Hn Hown Hfk Hkept Hixs. split; [|done]. cbn [tables]. intros m u Hm. unfold table_ok.
  assert (Hu : own_ok u /\ Forall (fk_ok (tables s) u) (foreign_keys u)).
  { destruct (decide (m = n)) as [->|Hne]; [rewrite lookup_insert_eq in Hm; by injection Hm as <-|].
    rewrite lookup_insert_ne in Hm by done. apply (Ht m u Hm). }
  split; [apply Hu|]. apply Forall_forall. intros f Hf. apply (fk_ok_update _ _ t); [done|by apply (Hkept m u f)|].
  destruct Hu as [_ Hu]. rewrite Forall_forall in Hu. by apply Hu.
Qed.
(** Indexes on the table that still have their columns. *)
Lemma indexes_update s n t t' :
  well_formed s -> tables s !! n = Some t -> (forall c, has t c -> has t' c) ->
  map_Forall (fun _ i => index_ok (<[n := t']> (tables s)) i) (indexes s).
Proof.
  intros [_ Hi] Hn Hhas i ix Hix. specialize (Hi i ix Hix). unfold index_ok in *.
  destruct (decide (ix_table ix = n)) as [E|Hne]; [|by rewrite lookup_insert_ne].
  rewrite E, Hn in Hi. rewrite E, lookup_insert_eq. eapply Forall_impl; [exact Hi|done].
Qed.

(** A table that gains something keeps the targets of references. *)
Lemma grown_well_formed s n t t' :
  well_formed s -> tables s !! n = Some t -> own_ok t' -> Forall (fk_ok (tables s) t') (foreign_keys t') ->
  (forall c, is_Some (type_of t c) -> type_of t' c = type_of t c) ->
  primary_key t' = primary_key t -> (forall u, u ∈ uniques t -> u ∈ uniques t') ->
  well_formed (mkSchema (<[n := t']> (tables s)) (indexes s)).
Proof.
  intros Hwf Hn Hown Hfk Htype Hpk Hun. apply (update_well_formed s n t t'); try done.
  - intros m u f _ _ _ Hs. split; [by apply Htype|]. unfold identifies. rewrite Hpk.
    intros [H|(u' & -> & H)%list_elem_of_fmap]; [by left|right]. apply list_elem_of_fmap. eauto.
  - apply (indexes_update s n t t'); [done..|]. unfold has. intros c Hc.
    assert (Ht : is_Some (type_of t c)) by (unfold type_of; by apply fmap_is_Some).
    pose proof (Htype c Ht) as E. rewrite <- E in Ht. unfold type_of in Ht. by apply fmap_is_Some in Ht.
Qed.

Lemma on_table_Some s n f s' :
  on_table s n f = Some s' -> exists t t', tables s !! n = Some t /\ f t = Some t' /\ s' = mkSchema (<[n := t']> (tables s)) (indexes s).
Proof.
  unfold on_table. intros (t & Ht & H)%bind_Some. apply bind_Some in H as (t' & Hf & [= <-]). eauto.
Qed.
Lemma decide_Some {A} P `{Decision P} (x y : A) : (if decide P then Some x else None) = Some y -> P /\ y = x.
Proof. destruct (decide P); [|done]. by intros [= ->]. Qed.

Section apply.
Context (populated : string -> bool) (s : Schema) (Hwf : well_formed s).

Lemma create_table_ok n t s' : apply populated (CreateTable n t) s = Some s' -> well_formed s'.
Proof.
  intros [[Hn Ht] ->]%decide_Some. destruct Hwf as [Hts Hixs]. split; cbn [tables indexes].
  - apply map_Forall_insert_2; [done|]. intros m u Hm. destruct (Hts m u Hm) as [Hu Hf]. split; [done|].
    eapply Forall_impl; [exact Hf|]. intros f. unfold fk_ok. destruct (decide (fk_table f = n)) as [E|E]; [by rewrite E, Hn|].
    by rewrite lookup_insert_ne.
  - intros i ix Hix. specialize (Hixs i ix Hix). unfold index_ok in *.
    destruct (decide (ix_table ix = n)) as [E|E]; [by rewrite E, Hn in Hixs|by rewrite lookup_insert_ne].
Qed.
Lemma drop_table_ok n s' : apply populated (DropTable n) s = Some s' -> well_formed s'.
Proof.
  intros [[_ Hr] ->]%decide_Some. destruct Hwf as [Hts Hixs]. split; cbn [tables indexes].
  - intros m u [Hne Hm]%lookup_delete_Some. destruct (Hts m u Hm) as [Hu Hf]. split; [done|].
    apply Forall_forall. intros f Hin. rewrite Forall_forall in Hf. specialize (Hf f Hin). unfold fk_ok in *.
    assert (Hp : refers_to n f = false) by (eapply references_false; [exact Hr|exact Hm|congruence|exact Hin]).
    apply bool_decide_eq_false in Hp. by rewrite lookup_delete_ne.
  - intros i ix [Hix Hne]%map_lookup_filter_Some. specialize (Hixs i ix Hix). unfold index_ok in *. cbn in Hne.
    by rewrite lookup_delete_ne.
Qed.

Lemma table_of n t : tables s !! n = Some t -> own_ok t /\ Forall (fk_ok (tables s) t) (foreign_keys t).
Proof. intros H. apply (proj1 Hwf n t H). Qed.
(** The columns that a row needs, when a column comes or changes. *)
Lemma row_ok_insert t c col row :
  (ct_nullable col = true \/ is_Some (ct_default col)) -> row_ok t row ->
  row_ok (mkTable (<[c := col]> (columns t)) (primary_key t) (uniques t) (foreign_keys t) (seeds t)) row.
Proof.
  intros Hc [H1 H2]. split; cbn [columns].
  - eapply Forall_impl; [exact H1|]. intros k Hk. unfold has in *. cbn. destruct (decide (c = k)) as [->|Hne];
      [rewrite lookup_insert_eq; by eexists|by rewrite lookup_insert_ne].
  - intros k col' [[-> ->]|[Hne Hk]]%lookup_insert_Some; [tauto|by apply H2].
Qed.

Lemma add_column_ok n c col s' : apply populated (AddColumn n c col) s = Some s' -> well_formed s'.
Proof.
  intros (t & t' & Hn & [(Hc & Hty & Hnull) ->]%decide_Some & ->)%on_table_Some. destruct (table_of n t Hn) as [(Hpk & Hnn & Hu & Hcol & Hrow) Hf].
  assert (Hold : forall k, is_Some (columns t !! k) -> <[c := col]> (columns t) !! k = columns t !! k).
  { intros k [x Hk]. rewrite lookup_insert_ne; [done|congruence]. }
  apply (grown_well_formed s n t); try done.
  - split_and!; cbn [columns primary_key uniques seeds]; [done| | | |].
    + eapply Forall_impl; [exact Hnn|]. unfold not_null. cbn. intros k Hk. destruct (columns t !! k) as [x|] eqn:E; [|done].
      by rewrite Hold, E by (by rewrite E).
    + eapply Forall_impl; [exact Hu|]. intros u Hhas. eapply Forall_impl; [exact Hhas|]. unfold has. cbn. intros k Hk. by rewrite Hold.
    + by apply map_Forall_insert_2.
    + destruct Hnull as [H|[H|[_ ->]]]; [..|constructor]; (eapply Forall_impl; [exact Hrow|]); intros row; apply row_ok_insert; tauto.
  - eapply Forall_impl; [exact Hf|]. intros f. unfold fk_ok, type_of. cbn. destruct (tables s !! fk_table f); [|done].
    intros (H1 & H2 & H3). rewrite Hold; [done|by apply fmap_is_Some in H1].
  - intros k Hk. unfold type_of in *. cbn. rewrite Hold; [done|by apply fmap_is_Some in Hk].
Qed.
Lemma alter_nullable_ok n c b s' : apply populated (AlterNullable n c b) s = Some s' -> well_formed s'.
Proof.
  intros (t & t' & Hn & (col & Hc & [[Hb Hrow] ->]%decide_Some)%bind_Some & ->)%on_table_Some.
  destruct (table_of n t Hn) as [(Hpk & Hnn & Hu & Hcol & _) Hf].
  assert (Hty : forall k, ct_type <$> <[c := mkColumn (ct_type col) b (ct_default col)]> (columns t) !! k = ct_type <$> columns t !! k).
  { intros k. destruct (decide (c = k)) as [<-|Hne]; [by rewrite lookup_insert_eq, Hc|by rewrite lookup_insert_ne]. }
  apply (grown_well_formed s n t); try done.
  - split_and!; cbn [columns primary_key uniques seeds]; [done| | | |done].
    + apply Forall_forall. intros k Hk. rewrite Forall_forall in Hnn. specialize (Hnn k Hk). unfold not_null in *. cbn.
      destruct (decide (c = k)) as [<-|Hne]; [|by rewrite lookup_insert_ne]. rewrite lookup_insert_eq. destruct b; [by destruct Hb|done].
    + eapply Forall_impl; [exact Hu|]. intros u Hhas. eapply Forall_impl; [exact Hhas|]. unfold has. cbn. intros k Hk.
      specialize (Hty k). destruct (_ !! k) eqn:E in Hty |- *; [by eexists|]. by destruct (columns t !! k); [|destruct Hk].
    + apply map_Forall_insert_2; [apply (Hcol c col Hc)|done].
  - eapply Forall_impl; [exact Hf|]. intros f. unfold fk_ok, type_of. cbn. by rewrite Hty.
  - intros k _. apply Hty.
Qed.
Lemma create_unique_ok name n cols s' : apply populated (CreateUnique name n cols) s = Some s' -> well_formed s'.
Proof.
  intros (t & t' & Hn & [(Hc & _) ->]%decide_Some & ->)%on_table_Some. destruct (table_of n t Hn) as [(Hpk & Hnn & Hu & Hcol & Hrow) Hf].
  apply (grown_well_formed s n t); try done; [|by set_solver].
  split_and!; try done. cbn [uniques]. apply Forall_app. by split; [|apply Forall_singleton].
Qed.
Lemma create_foreign_key_ok name n c n' c' s' : apply populated (CreateForeignKey name n c n' c') s = Some s' -> well_formed s'.
Proof.
  intros (t & t' & Hn & [Hc ->]%decide_Some & ->)%on_table_Some. destruct (table_of n t Hn) as [Hown Hf].
  apply (grown_well_formed s n t); try done. cbn [foreign_keys]. apply Forall_app. by split; [|apply Forall_singleton].
Qed.
Lemma bulk_insert_ok n rows s' : apply populated (BulkInsert n rows) s = Some s' -> well_formed s'.
Proof.
  intros (t & t' & Hn & [Hc ->]%decide_Some & ->)%on_table_Some. destruct (table_of n t Hn) as [(Hpk & Hnn & Hu & Hcol & Hrow) Hf].
  apply (grown_well_formed s n t); try done. split_and!; try done. cbn [seeds]. by apply Forall_app.
Qed.
Lemma create_index_ok i n cols u s' : apply populated (CreateIndex i n cols u) s = Some s' -> well_formed s'.
Proof.
  intros [[_ Hi] ->]%decide_Some. destruct Hwf as [Hts Hixs]. split; [done|]. cbn [tables indexes]. by apply map_Forall_insert_2.
Qed.
Lemma drop_index_ok i n s' : apply populated (DropIndex i n) s = Some s' -> well_formed s'.
Proof. intros [_ ->]%decide_Some. destruct Hwf as [Hts Hixs]. split; [done|]. by apply map_Forall_delete. Qed.

Lemma without_column_own n t c : tables s !! n = Some t -> c ∉ primary_key t -> own_ok (without_column c t).
Proof.
  intros Hn Hc. destruct (table_of n t Hn) as [(Hpk & Hnn & Hu & Hcol & Hrow) Hf].
  assert (Hhas : forall k, k <> c -> has t k -> has (without_column c t) k).
  { intros k Hk. unfold has. cbn. by rewrite lookup_delete_ne. }
  split_and!; cbn [without_column columns primary_key uniques seeds]; [done| | |by apply map_Forall_delete|].
  - apply Forall_forall. intros k Hk. rewrite Forall_forall in Hnn. specialize (Hnn k Hk). unfold not_null in *. cbn.
    rewrite lookup_delete_ne; [done|]. by intros ->.
  - apply Forall_forall. intros u [Hcu Hin]%list_elem_of_filter. rewrite Forall_forall in Hu. specialize (Hu u Hin).
    apply Forall_forall. intros k Hk. rewrite Forall_forall in Hu. apply Hhas; [|by apply Hu]. by intros ->.
  - apply Forall_fmap. eapply Forall_impl; [exact Hrow|]. intros row [H1 H2]. split.
    + apply Forall_forall. intros k (kv & -> & [Hkv Hin]%list_elem_of_filter)%list_elem_of_fmap. apply Hhas; [done|].
      rewrite Forall_forall in H1. apply H1, list_elem_of_fmap. eauto.
    + intros k col Hk'. change (delete c (columns t) !! k = Some col) in Hk'. apply lookup_delete_Some in Hk' as [Hne Hk]. destruct (H2 k col Hk) as [H|[H|(kv & -> & Hin)%list_elem_of_fmap]]; [tauto|tauto|].
      right. right. apply list_elem_of_fmap. exists kv. split; [done|]. apply list_elem_of_filter. split; [|done]. congruence.
Qed.
Lemma drop_column_ok n c s' : apply populated (DropColumn n c) s = Some s' -> well_formed s'.
Proof.
  cbn. intros (s1 & (t & t' & Hn & [(Hc & Hpk & Hr) ->]%decide_Some & ->)%on_table_Some & [= <-])%bind_Some.
  destruct (table_of n t Hn) as [_ Hf].
  assert (Htype : forall k, k <> c -> type_of (without_column c t) k = type_of t k).
  { intros k Hk. unfold type_of. cbn. by rewrite lookup_delete_ne. }
  apply (update_well_formed s n t); [done|done|by apply without_column_own with n| | |]; cbn [tables indexes].
  - apply Forall_forall. intros f [Hfc Hin]%list_elem_of_filter. rewrite Forall_forall in Hf. specialize (Hf f Hin).
    unfold fk_ok in *. by rewrite Htype.
  - intros m u f Hm Hin E _.
    assert (Hfc : fk_target f <> c).
    { intros Efc. assert (Hex : exists m' u', tables s !! m' = Some u' /\ f ∈ foreign_keys u').
      { destruct (decide (m = n)) as [->|Hne]; [|rewrite lookup_insert_ne in Hm by done; eauto].
        rewrite lookup_insert_eq in Hm. injection Hm as <-. apply list_elem_of_filter in Hin as [_ Hin]. eauto. }
      destruct Hex as (m' & u' & Hm' & Hin'). pose proof (references_false _ _ _ _ _ _ Hr Hm' ltac:(done) Hin') as Hp. cbn in Hp.
      unfold refers_to in Hp. by rewrite E, Efc, !bool_decide_eq_true_2 in Hp. }
    split; [by apply Htype|]. unfold identifies. cbn. intros [H|(u' & Hu' & H)%list_elem_of_fmap]; [by left|right].
    apply list_elem_of_fmap. exists u'. split; [done|]. apply list_elem_of_filter. split; [|done]. rewrite <- Hu'. set_solver.
  - intros i ix [Hix Hix']%map_lookup_filter_Some. cbn in Hix'. pose proof (proj2 Hwf i ix Hix) as Hi. unfold index_ok in *.
    destruct (decide (ix_table ix = n)) as [E|E]; [|by rewrite lookup_insert_ne]. rewrite E, lookup_insert_eq. rewrite E, Hn in Hi.
    destruct Hix' as [H|H]; [done|]. apply Forall_forall. intros k Hk. rewrite Forall_forall in Hi. specialize (Hi k Hk).
    unfold has in *. cbn. rewrite lookup_delete_ne; [done|]. by intros ->.
Qed.
Lemma drop_constraint_ok name n s' : apply populated (DropConstraint name n) s = Some s' -> well_formed s'.
Proof.
  destruct name as [name|]; [|done]. cbn.
  intros (t & t' & Hn & [(_ & Hr) ->]%decide_Some & ->)%on_table_Some. destruct (table_of n t Hn) as [(Hpk & Hnn & Hu & Hcol & Hrow) Hf].
  assert (Hfk : forall f, f ∈ foreign_keys (without_constraint name t) -> f ∈ foreign_keys t).
  { intros f [_ H]%list_elem_of_filter. done. }
  apply (update_well_formed s n t); [done|done| | | |].
  - split_and!; try done. cbn [without_constraint uniques]. apply Forall_forall. intros u [_ Hin]%list_elem_of_filter.
    rewrite Forall_forall in Hu. by apply Hu.
  - apply Forall_forall. intros f Hin%Hfk. rewrite Forall_forall in Hf. by apply Hf.
  - intros m u f Hm Hin E _. split; [done|]. intros Hid.
    assert (Hex : exists m' u', tables s !! m' = Some u' /\ f ∈ foreign_keys u').
    { destruct (decide (m = n)) as [->|Hne]; [|rewrite lookup_insert_ne in Hm by done; eauto].
      rewrite lookup_insert_eq in Hm. injection Hm as <-. apply Hfk in Hin. eauto. }
    destruct Hex as (m' & u' & Hm' & Hin'). pose proof (references_false _ _ _ _ _ _ Hr Hm' ltac:(done) Hin') as Hp. cbn in Hp.
    unfold refers_to in Hp. rewrite E, (bool_decide_eq_true_2 (n = n)), (bool_decide_eq_true_2 (identifies t _)) in Hp by done.
    apply negb_false_iff in Hp. by apply bool_decide_eq_true in Hp.
  - by apply (indexes_update s n t).
Qed.

Lemma apply_well_formed o s' : apply populated o s = Some s' -> well_formed s'.
Proof.
  destruct o; eauto using create_table_ok, drop_table_ok, add_column_ok, drop_column_ok, alter_nullable_ok, create_index_ok,
    drop_index_ok, create_unique_ok, create_foreign_key_ok, drop_constraint_ok, bulk_insert_ok.
Qed.
End apply.

Lemma well_formed_empty : well_formed empty_schema.
Proof. split; apply map_Forall_empty. Qed.
(** Whatever operations run, in any order, the schema stays well formed. *)
Lemma run_well_formed populated ops s s' : well_formed s -> run populated ops s = Some s' -> well_formed s'.
Proof.
  revert s. induction ops as [|o ops IH]; intros s Hwf; [by intros [= <-]|]. cbn.
  intros (s1 & H1 & H2)%bind_Some. eapply IH; [|exact H2]. by eapply apply_well_formed.
Qed.
