(* ===== verification/Revisions.v ===== *)
(** * The revisions of the control plane's database: [backend/alembic/versions/], and the models
    they serve: [backend/app/models/]

    A revision is its two functions, as the operations they run. The models are the
    tables, columns, constraints and indexes that the declarations of SQLAlchemy make; the
    columns of the mixins come last. *)

From S2P Require Import Prelude Schema.

(** ** Model *)

(** *** The revisions *)

(** [a45b5b16976b_phase1_initial_schema.py] *)
Definition phase1_upgrade : list op := [
   CreateTable "organizations"
     (table [req "name" (VARCHAR 200); req "slug" (VARCHAR 200); req "settings" JSON; id_column; created_at]
       []
       []);
   CreateIndex "ix_organizations_slug" "organizations" ["slug"] true;
   CreateTable "users"
     (table [req "email" (VARCHAR 320); req "password_hash" (VARCHAR 255); req "mfa_enabled" BOOLEAN;
        opt "mfa_secret" (VARCHAR 64); opt "last_login_at" DATETIME; id_column; created_at]
       []
       []);
   CreateIndex "ix_users_email" "users" ["email"] true;
   CreateTable "api_keys"
     (table [req "organization_id" GUID; req "name" (VARCHAR 200); req "key_prefix" (VARCHAR 16);
        req "key_hash" (VARCHAR 255); req "scopes" JSON; opt "last_used_at" DATETIME; opt "revoked_at" DATETIME;
        id_column; created_at]
       []
       [ref "organization_id" "organizations"]);
   CreateIndex "ix_api_keys_key_prefix" "api_keys" ["key_prefix"] true;
   CreateTable "audit_logs"
     (table [opt "organization_id" GUID; opt "user_id" GUID; req "action" (VARCHAR 100); req "resource_type" (VARCHAR 100);
        opt "resource_id" GUID; opt "before" JSON; opt "after" JSON; opt "ip_address" (VARCHAR 64);
        req "result" (VARCHAR 20); id_column; created_at]
       []
       [ref "organization_id" "organizations"; ref "user_id" "users"]);
   CreateTable "memberships"
     (table [req "user_id" GUID; req "organization_id" GUID;
        req "role" (ENUM ["OWNER"; "ADMIN"; "DEVELOPER"; "BILLING"; "READONLY"] 20); id_column; created_at]
       [(Some "uq_membership_user_org", ["user_id"; "organization_id"])]
       [ref "organization_id" "organizations"; ref "user_id" "users"]);
   CreateTable "projects"
     (table [req "organization_id" GUID; req "name" (VARCHAR 200); req "slug" (VARCHAR 200); id_column; created_at]
       [(Some "uq_project_org_slug", ["organization_id"; "slug"])]
       [ref "organization_id" "organizations"])].
Definition phase1_downgrade : list op := [
   DropTable "projects";
   DropTable "memberships";
   DropTable "audit_logs";
   DropIndex "ix_api_keys_key_prefix" "api_keys";
   DropTable "api_keys";
   DropIndex "ix_users_email" "users";
   DropTable "users";
   DropIndex "ix_organizations_slug" "organizations";
   DropTable "organizations"].

(** [76b489b900f0_phase2_regions_nodes_bootstrap_tokens.py] *)
Definition phase2_upgrade : list op := [
   CreateTable "regions"
     (table [req "code" (VARCHAR 50); req "name" (VARCHAR 200); req "active" BOOLEAN; id_column; created_at]
       []
       []);
   CreateIndex "ix_regions_code" "regions" ["code"] true;
   CreateTable "node_registration_tokens"
     (table [req "region_id" GUID; req "token_hash" (VARCHAR 255); opt "note" (VARCHAR 255); req "expires_at" DATETIME;
        opt "used_at" DATETIME; id_column; created_at]
       []
       [ref "region_id" "regions"]);
   CreateTable "nodes"
     (table [req "region_id" GUID; req "hostname" (VARCHAR 255); opt "ip_address" (VARCHAR 64); req "cpu_total" INTEGER;
        req "ram_total_mb" INTEGER; req "storage_total_gb" INTEGER; opt "cpu_used" FLOAT; opt "ram_used_mb" INTEGER;
        opt "storage_used_gb" INTEGER; opt "agent_version" (VARCHAR 50); req "agent_port" INTEGER;
        req "status" (ENUM ["ACTIVE"; "MAINTENANCE"; "DRAINING"] 20); req "node_secret_hash" (VARCHAR 255);
        opt "certificate_serial" (VARCHAR 64); opt "last_heartbeat_at" DATETIME; id_column; created_at]
       []
       [ref "region_id" "regions"]);
   AddColumn "users" "is_platform_admin" (mkColumn BOOLEAN false None)].
Definition phase2_downgrade : list op := [
   DropColumn "users" "is_platform_admin";
   DropTable "nodes";
   DropTable "node_registration_tokens";
   DropIndex "ix_regions_code" "regions";
   DropTable "regions"].

(** [b3489595e8e2_phase3_orchestrator_clusters_databases_.py] *)
Definition phase3_upgrade : list op := [
   CreateTable "jobs"
     (table [req "type" (VARCHAR 50); req "status" (ENUM ["QUEUED"; "RUNNING"; "SUCCEEDED"; "FAILED"; "RETRYING"] 20);
        opt "idempotency_key" (VARCHAR 255); opt "organization_id" GUID; opt "resource_type" (VARCHAR 50);
        opt "resource_id" GUID; req "payload" JSON; opt "result" JSON; opt "error" (VARCHAR 2000);
        req "attempts" INTEGER; req "max_attempts" INTEGER;
        ("next_run_at", mkColumn DATETIME false (Some "(CURRENT_TIMESTAMP)")); opt "started_at" DATETIME;
        opt "completed_at" DATETIME; id_column; created_at]
       []
       []);
   CreateIndex "ix_jobs_idempotency_key" "jobs" ["idempotency_key"] true;
   CreateTable "clusters"
     (table [req "region_id" GUID; req "topology" (ENUM ["SINGLE"; "PRIMARY_REPLICA"] 20); req "shared" BOOLEAN;
        req "postgres_version" (VARCHAR 20); req "status" (ENUM ["PROVISIONING"; "ACTIVE"; "DEGRADED"; "DELETED"] 20);
        id_column; created_at]
       []
       [ref "region_id" "regions"]);
   CreateTable "cluster_members"
     (table [req "cluster_id" GUID; req "node_id" GUID; req "role" (ENUM ["PRIMARY"; "REPLICA"] 20);
        opt "replication_lag_bytes" INTEGER; opt "promoted_at" DATETIME; id_column; created_at]
       []
       [ref "cluster_id" "clusters"; ref "node_id" "nodes"]);
   CreateTable "databases"
     (table [req "project_id" GUID; req "region_id" GUID; opt "cluster_id" GUID; req "name" (VARCHAR 200);
        req "physical_name" (VARCHAR 63); req "isolation_level" (ENUM ["SHARED"; "DEDICATED"] 20);
        req "status" (ENUM ["CREATING"; "RUNNING"; "UPDATING"; "SUSPENDING"; "SUSPENDED"; "RESTORING"; "MIGRATING";
           "FAILING"; "FAILED"; "DELETING"; "DELETED"] 20);
        req "cpu_limit" INTEGER; req "ram_limit_mb" INTEGER; req "storage_limit_gb" INTEGER;
        opt "connection_host" (VARCHAR 255); opt "connection_port" INTEGER; req "backup_policy" JSON;
        opt "deleted_at" DATETIME; id_column; created_at]
       [(None, ["physical_name"]); (Some "uq_database_project_name", ["project_id"; "name"])]
       [ref "cluster_id" "clusters"; ref "project_id" "projects"; ref "region_id" "regions"]);
   CreateTable "database_credentials"
     (table [req "database_id" GUID; req "role_name" (VARCHAR 63); req "encrypted_password" (VARCHAR 500);
        req "scope" (ENUM ["APP"; "READONLY"; "ADMIN"] 20); opt "rotated_at" DATETIME; id_column; created_at]
       []
       [ref "database_id" "databases"]);
   CreateTable "database_events"
     (table [req "database_id" GUID; opt "job_id" GUID; req "event_type" (VARCHAR 100); opt "data" JSON; id_column;
        created_at]
       []
       [ref "database_id" "databases"; ref "job_id" "jobs"]);
   AddColumn "nodes" "postgres_port" (mkColumn INTEGER false None)].
Definition phase3_downgrade : list op := [
   DropColumn "nodes" "postgres_port";
   DropTable "database_events";
   DropTable "database_credentials";
   DropTable "databases";
   DropTable "cluster_members";
   DropTable "clusters";
   DropIndex "ix_jobs_idempotency_key" "jobs";
   DropTable "jobs"].

(** [02bf785abd33_phase4_roles_extensions_sql_editor.py] *)
Definition phase4_upgrade : list op := [
   CreateTable "query_executions"
     (table [req "database_id" GUID; req "user_id" GUID; req "query_text" (VARCHAR 10000); req "status" (VARCHAR 20);
        opt "row_count" INTEGER; opt "duration_ms" INTEGER; opt "error" (VARCHAR 2000); id_column; created_at]
       []
       [ref "database_id" "databases"; ref "user_id" "users"]);
   CreateTable "saved_queries"
     (table [req "database_id" GUID; req "user_id" GUID; req "name" (VARCHAR 200); req "query_text" (VARCHAR 10000);
        id_column; created_at]
       []
       [ref "database_id" "databases"; ref "user_id" "users"]);
   AddColumn "database_credentials" "display_name" (mkColumn (VARCHAR 100) true None);
   AddColumn "database_credentials" "is_primary" (mkColumn BOOLEAN false (Some "false"));
   CreateUnique "uq_database_credentials_role_name" "database_credentials" ["role_name"]].
Definition phase4_downgrade : list op := [
   DropConstraint (Some "uq_database_credentials_role_name") "database_credentials";
   DropColumn "database_credentials" "is_primary";
   DropColumn "database_credentials" "display_name";
   DropTable "saved_queries";
   DropTable "query_executions"].

(** [d3588dbb41a9_phase5_backups.py] *)
Definition phase5_upgrade : list op := [
   CreateTable "backups"
     (table [req "database_id" GUID; req "type" (ENUM ["AUTOMATIC"; "MANUAL"] 20);
        req "status" (ENUM ["PENDING"; "COMPLETED"; "FAILED"; "VERIFIED"; "VERIFICATION_FAILED"; "PURGED"] 20);
        req "storage_key" (VARCHAR 512); opt "size_bytes" BIGINT; opt "error" (VARCHAR 2000);
        opt "started_at" DATETIME; opt "completed_at" DATETIME; opt "verified_at" DATETIME;
        opt "verification_detail" (VARCHAR 2000); id_column; created_at]
       []
       [ref "database_id" "databases"])].
Definition phase5_downgrade : list op := [
   DropTable "backups"].

(** [dcb65b0f22af_phase6_high_availability.py] *)
Definition phase6_upgrade : list op := [
   CreateTable "cluster_events"
     (table [req "cluster_id" GUID; req "event_type" (VARCHAR 100); opt "data" JSON; id_column; created_at]
       []
       [ref "cluster_id" "clusters"])].
Definition phase6_downgrade : list op := [
   DropTable "cluster_events"].

(** [2d631f31d1dd_phase8_webhooks.py] *)
Definition phase8_upgrade : list op := [
   CreateTable "webhooks"
     (table [req "organization_id" GUID; req "url" (VARCHAR 2048); req "encrypted_secret" (VARCHAR 500);
        req "event_types" JSON; req "is_active" BOOLEAN; id_column; created_at]
       []
       [ref "organization_id" "organizations"]);
   CreateTable "webhook_deliveries"
     (table [req "webhook_id" GUID; req "event_type" (VARCHAR 100); req "payload" JSON;
        req "status" (ENUM ["PENDING"; "SUCCEEDED"; "FAILED"] 20); opt "response_code" INTEGER;
        opt "error" (VARCHAR 2000); opt "delivered_at" DATETIME; id_column; created_at]
       []
       [ref "webhook_id" "webhooks"])].
Definition phase8_downgrade : list op := [
   DropTable "webhook_deliveries";
   DropTable "webhooks"].

(** [3889e63a4a84_phase10_billing.py] *)
Definition phase10_upgrade : list op := [
   CreateTable "plans"
     (table [req "name" (VARCHAR 50); req "quotas" JSON; req "pricing" JSON; req "is_active" BOOLEAN; id_column; created_at]
       [(None, ["name"])]
       []);
   BulkInsert "plans" [
      [("id", CId); ("name", CText "free");
       ("quotas", CJson [("max_databases", SNum 1); ("max_storage_gb", SNum 20); ("max_cpu_total", SNum 1)]);
       ("pricing", CJson [("base_fee", SText "0")]); ("is_active", CBool true)];
      [("id", CId); ("name", CText "pro");
       ("quotas", CJson [("max_databases", SNum 10); ("max_storage_gb", SNum 200); ("max_cpu_total", SNum 16)]);
       ("pricing", CJson [("base_fee", SText "25.00"); ("cpu_hours", SText "0.02"); ("storage_gb_hours", SText "0.0005")]);
       ("is_active", CBool true)]];
   CreateTable "subscriptions"
     (table [req "organization_id" GUID; req "plan_id" GUID; req "status" (ENUM ["ACTIVE"; "PAST_DUE"; "CANCELED"] 20);
        req "current_period_start" DATETIME; req "current_period_end" DATETIME; id_column; created_at]
       [(None, ["organization_id"])]
       [ref "organization_id" "organizations"; ref "plan_id" "plans"]);
   CreateTable "invoices"
     (table [req "organization_id" GUID; req "subscription_id" GUID; req "period_start" DATETIME; req "period_end" DATETIME;
        req "status" (ENUM ["DRAFT"; "FINALIZED"; "PAID"; "VOID"] 20); req "total_amount" (NUMERIC 18 2);
        req "currency" (VARCHAR 3); opt "finalized_at" DATETIME; opt "paid_at" DATETIME;
        opt "payment_reference" (VARCHAR 255); id_column; created_at]
       []
       [ref "organization_id" "organizations"; ref "subscription_id" "subscriptions"]);
   CreateIndex "ix_invoices_organization_id" "invoices" ["organization_id"] false;
   CreateTable "invoice_line_items"
     (table [req "invoice_id" GUID; req "description" (VARCHAR 255); req "metric" (VARCHAR 30);
        req "quantity" (NUMERIC 18 6); req "unit_price" (NUMERIC 18 6); req "amount" (NUMERIC 18 2); id_column;
        created_at]
       []
       [ref "invoice_id" "invoices"]);
   CreateIndex "ix_invoice_line_items_invoice_id" "invoice_line_items" ["invoice_id"] false;
   CreateTable "usage_records"
     (table [req "database_id" GUID; req "metric" (ENUM ["CPU_HOURS"; "STORAGE_GB_HOURS"; "CONNECTIONS"; "EGRESS_GB"] 20);
        req "value" (NUMERIC 18 6); req "period_start" DATETIME; req "period_end" DATETIME; id_column; created_at]
       []
       [ref "database_id" "databases"]);
   CreateIndex "ix_usage_records_database_id" "usage_records" ["database_id"] false].
Definition phase10_downgrade : list op := [
   DropIndex "ix_usage_records_database_id" "usage_records";
   DropTable "usage_records";
   DropIndex "ix_invoice_line_items_invoice_id" "invoice_line_items";
   DropTable "invoice_line_items";
   DropIndex "ix_invoices_organization_id" "invoices";
   DropTable "invoices";
   DropTable "subscriptions";
   DropTable "plans"].

(** [28c5766275ca_phase12_payments_notifications.py] *)
Definition phase12_payments_upgrade : list op := [
   CreateTable "notifications"
     (table [req "user_id" GUID; req "type" (VARCHAR 50); req "title" (VARCHAR 255); req "body" (VARCHAR 2000);
        req "data" JSON; opt "read_at" DATETIME; id_column; created_at]
       []
       [ref "user_id" "users"]);
   CreateIndex "ix_notifications_user_id" "notifications" ["user_id"] false;
   CreateTable "payments"
     (table [req "invoice_id" GUID; req "organization_id" GUID;
        req "provider" (ENUM ["MANUAL"; "NOWPAYMENTS"; "FEDAPAY"] 20); opt "provider_payment_id" (VARCHAR 255);
        req "amount" (NUMERIC 18 2); req "currency" (VARCHAR 3);
        req "status" (ENUM ["PENDING"; "SUCCEEDED"; "FAILED"] 20); opt "provider_status" (VARCHAR 50);
        opt "pay_address" (VARCHAR 255); opt "pay_amount" (NUMERIC 20 8); opt "pay_currency" (VARCHAR 20);
        opt "payment_expires_at" DATETIME; opt "error" (VARCHAR 2000); id_column; created_at]
       [(Some "uq_payments_provider_payment_id", ["provider"; "provider_payment_id"])]
       [ref "invoice_id" "invoices"; ref "organization_id" "organizations"]);
   CreateIndex "ix_payments_invoice_id" "payments" ["invoice_id"] false;
   CreateIndex "ix_payments_organization_id" "payments" ["organization_id"] false].
Definition phase12_payments_downgrade : list op := [
   DropIndex "ix_payments_organization_id" "payments";
   DropIndex "ix_payments_invoice_id" "payments";
   DropTable "payments";
   DropIndex "ix_notifications_user_id" "notifications";
   DropTable "notifications"].

(** [faba0e0ea8ab_phase12_oauth_accounts.py] *)
Definition phase12_oauth_upgrade : list op := [
   CreateTable "oauth_accounts"
     (table [req "user_id" GUID; req "provider" (ENUM ["GOOGLE"; "GITHUB"] 20); req "provider_account_id" (VARCHAR 255);
        req "email" (VARCHAR 320); id_column; ("created_at", mkColumn DATETIME false (Some "now()"))]
       [(Some "uq_oauth_provider_account", ["provider"; "provider_account_id"])]
       [ref "user_id" "users"]);
   CreateIndex "ix_oauth_accounts_user_id" "oauth_accounts" ["user_id"] false;
   AlterNullable "users" "password_hash" true].
Definition phase12_oauth_downgrade : list op := [
   AlterNullable "users" "password_hash" false;
   DropIndex "ix_oauth_accounts_user_id" "oauth_accounts";
   DropTable "oauth_accounts"].

(** [3675a60c00be_phase13_api_key_auth.py] *)
Definition phase13_upgrade : list op := [
   AddColumn "api_keys" "user_id" (mkColumn GUID true None);
   CreateForeignKey None "api_keys" "user_id" "users" "id"].
Definition phase13_downgrade : list op := [
   DropConstraint None "api_keys";
   DropColumn "api_keys" "user_id"].

(** [9e7d7fcad4e3_phase14_token_version.py] *)
Definition phase14_upgrade : list op := [
   AddColumn "users" "token_version" (mkColumn INTEGER false (Some "0"))].
Definition phase14_downgrade : list op := [
   DropColumn "users" "token_version"].

(** *** The models *)

Definition ApiKey_table : string * Table := ("api_keys",
   (table [req "organization_id" GUID; opt "user_id" GUID; req "name" (VARCHAR 200); req "key_prefix" (VARCHAR 16);
      req "key_hash" (VARCHAR 255); req "scopes" JSON; opt "last_used_at" DATETIME; opt "revoked_at" DATETIME;
      id_column; created_at]
     []
     [ref "organization_id" "organizations"; ref "user_id" "users"])).
Definition AuditLog_table : string * Table := ("audit_logs",
   (table [opt "organization_id" GUID; opt "user_id" GUID; req "action" (VARCHAR 100); req "resource_type" (VARCHAR 100);
      opt "resource_id" GUID; opt "before" JSON; opt "after" JSON; opt "ip_address" (VARCHAR 64);
      req "result" (VARCHAR 20); id_column; created_at]
     []
     [ref "organization_id" "organizations"; ref "user_id" "users"])).
Definition Backup_table : string * Table := ("backups",
   (table [req "database_id" GUID; req "type" (ENUM ["AUTOMATIC"; "MANUAL"] 20);
      req "status" (ENUM ["PENDING"; "COMPLETED"; "FAILED"; "VERIFIED"; "VERIFICATION_FAILED"; "PURGED"] 20);
      req "storage_key" (VARCHAR 512); opt "size_bytes" BIGINT; opt "error" (VARCHAR 2000); opt "started_at" DATETIME;
      opt "completed_at" DATETIME; opt "verified_at" DATETIME; opt "verification_detail" (VARCHAR 2000); id_column;
      created_at]
     []
     [ref "database_id" "databases"])).
Definition Cluster_table : string * Table := ("clusters",
   (table [req "region_id" GUID; req "topology" (ENUM ["SINGLE"; "PRIMARY_REPLICA"] 20); req "shared" BOOLEAN;
      req "postgres_version" (VARCHAR 20); req "status" (ENUM ["PROVISIONING"; "ACTIVE"; "DEGRADED"; "DELETED"] 20);
      id_column; created_at]
     []
     [ref "region_id" "regions"])).
Definition ClusterEvent_table : string * Table := ("cluster_events",
   (table [req "cluster_id" GUID; req "event_type" (VARCHAR 100); opt "data" JSON; id_column; created_at]
     []
     [ref "cluster_id" "clusters"])).
Definition ClusterMember_table : string * Table := ("cluster_members",
   (table [req "cluster_id" GUID; req "node_id" GUID; req "role" (ENUM ["PRIMARY"; "REPLICA"] 20);
      opt "replication_lag_bytes" INTEGER; opt "promoted_at" DATETIME; id_column; created_at]
     []
     [ref "cluster_id" "clusters"; ref "node_id" "nodes"])).
Definition Database_table : string * Table := ("databases",
   (table [req "project_id" GUID; req "region_id" GUID; opt "cluster_id" GUID; req "name" (VARCHAR 200);
      req "physical_name" (VARCHAR 63); req "isolation_level" (ENUM ["SHARED"; "DEDICATED"] 20);
      req "status" (ENUM ["CREATING"; "RUNNING"; "UPDATING"; "SUSPENDING"; "SUSPENDED"; "RESTORING"; "MIGRATING";
           "FAILING"; "FAILED"; "DELETING"; "DELETED"] 20);
      req "cpu_limit" INTEGER; req "ram_limit_mb" INTEGER; req "storage_limit_gb" INTEGER;
      opt "connection_host" (VARCHAR 255); opt "connection_port" INTEGER; req "backup_policy" JSON;
      opt "deleted_at" DATETIME; id_column; created_at]
     [(Some "uq_database_project_name", ["project_id"; "name"]); (None, ["physical_name"])]
     [ref "project_id" "projects"; ref "region_id" "regions"; ref "cluster_id" "clusters"])).
Definition DatabaseCredential_table : string * Table := ("database_credentials",
   (table [req "database_id" GUID; req "role_name" (VARCHAR 63); opt "display_name" (VARCHAR 100); req "is_primary" BOOLEAN;
      req "encrypted_password" (VARCHAR 500); req "scope" (ENUM ["APP"; "READONLY"; "ADMIN"] 20);
      opt "rotated_at" DATETIME; id_column; created_at]
     [(None, ["role_name"])]
     [ref "database_id" "databases"])).
Definition DatabaseEvent_table : string * Table := ("database_events",
   (table [req "database_id" GUID; opt "job_id" GUID; req "event_type" (VARCHAR 100); opt "data" JSON; id_column;
      created_at]
     []
     [ref "database_id" "databases"; ref "job_id" "jobs"])).
Definition Invoice_table : string * Table := ("invoices",
   (table [req "organization_id" GUID; req "subscription_id" GUID; req "period_start" DATETIME; req "period_end" DATETIME;
      req "status" (ENUM ["DRAFT"; "FINALIZED"; "PAID"; "VOID"] 20); req "total_amount" (NUMERIC 18 2);
      req "currency" (VARCHAR 3); opt "finalized_at" DATETIME; opt "paid_at" DATETIME;
      opt "payment_reference" (VARCHAR 255); id_column; created_at]
     []
     [ref "organization_id" "organizations"; ref "subscription_id" "subscriptions"])).
Definition InvoiceLineItem_table : string * Table := ("invoice_line_items",
   (table [req "invoice_id" GUID; req "description" (VARCHAR 255); req "metric" (VARCHAR 30); req "quantity" (NUMERIC 18 6);
      req "unit_price" (NUMERIC 18 6); req "amount" (NUMERIC 18 2); id_column; created_at]
     []
     [ref "invoice_id" "invoices"])).
Definition Job_table : string * Table := ("jobs",
   (table [req "type" (VARCHAR 50); req "status" (ENUM ["QUEUED"; "RUNNING"; "SUCCEEDED"; "FAILED"; "RETRYING"] 20);
      opt "idempotency_key" (VARCHAR 255); opt "organization_id" GUID; opt "resource_type" (VARCHAR 50);
      opt "resource_id" GUID; req "payload" JSON; opt "result" JSON; opt "error" (VARCHAR 2000);
      req "attempts" INTEGER; req "max_attempts" INTEGER; ("next_run_at", mkColumn DATETIME false (Some "now()"));
      opt "started_at" DATETIME; opt "completed_at" DATETIME; id_column; created_at]
     []
     [])).
Definition Membership_table : string * Table := ("memberships",
   (table [req "user_id" GUID; req "organization_id" GUID;
      req "role" (ENUM ["OWNER"; "ADMIN"; "DEVELOPER"; "BILLING"; "READONLY"] 20); id_column; created_at]
     [(Some "uq_membership_user_org", ["user_id"; "organization_id"])]
     [ref "user_id" "users"; ref "organization_id" "organizations"])).
Definition Node_table : string * Table := ("nodes",
   (table [req "region_id" GUID; req "hostname" (VARCHAR 255); opt "ip_address" (VARCHAR 64); req "cpu_total" INTEGER;
      req "ram_total_mb" INTEGER; req "storage_total_gb" INTEGER; opt "cpu_used" FLOAT; opt "ram_used_mb" INTEGER;
      opt "storage_used_gb" INTEGER; opt "agent_version" (VARCHAR 50); req "agent_port" INTEGER;
      req "postgres_port" INTEGER; req "status" (ENUM ["ACTIVE"; "MAINTENANCE"; "DRAINING"] 20);
      req "node_secret_hash" (VARCHAR 255); opt "certificate_serial" (VARCHAR 64); opt "last_heartbeat_at" DATETIME;
      id_column; created_at]
     []
     [ref "region_id" "regions"])).
Definition NodeRegistrationToken_table : string * Table := ("node_registration_tokens",
   (table [req "region_id" GUID; req "token_hash" (VARCHAR 255); opt "note" (VARCHAR 255); req "expires_at" DATETIME;
      opt "used_at" DATETIME; id_column; created_at]
     []
     [ref "region_id" "regions"])).
Definition Notification_table : string * Table := ("notifications",
   (table [req "user_id" GUID; req "type" (VARCHAR 50); req "title" (VARCHAR 255); req "body" (VARCHAR 2000);
      req "data" JSON; opt "read_at" DATETIME; id_column; created_at]
     []
     [ref "user_id" "users"])).
Definition OAuthAccount_table : string * Table := ("oauth_accounts",
   (table [req "user_id" GUID; req "provider" (ENUM ["GOOGLE"; "GITHUB"] 20); req "provider_account_id" (VARCHAR 255);
      req "email" (VARCHAR 320); id_column; created_at]
     [(Some "uq_oauth_provider_account", ["provider"; "provider_account_id"])]
     [ref "user_id" "users"])).
Definition Organization_table : string * Table := ("organizations",
   (table [req "name" (VARCHAR 200); req "slug" (VARCHAR 200); req "settings" JSON; id_column; created_at]
     []
     [])).
Definition Payment_table : string * Table := ("payments",
   (table [req "invoice_id" GUID; req "organization_id" GUID; req "provider" (ENUM ["MANUAL"; "NOWPAYMENTS"; "FEDAPAY"] 20);
      opt "provider_payment_id" (VARCHAR 255); req "amount" (NUMERIC 18 2); req "currency" (VARCHAR 3);
      req "status" (ENUM ["PENDING"; "SUCCEEDED"; "FAILED"] 20); opt "provider_status" (VARCHAR 50);
      opt "pay_address" (VARCHAR 255); opt "pay_amount" (NUMERIC 20 8); opt "pay_currency" (VARCHAR 20);
      opt "payment_expires_at" DATETIME; opt "error" (VARCHAR 2000); id_column; created_at]
     [(Some "uq_payments_provider_payment_id", ["provider"; "provider_payment_id"])]
     [ref "invoice_id" "invoices"; ref "organization_id" "organizations"])).
Definition Plan_table : string * Table := ("plans",
   (table [req "name" (VARCHAR 50); req "quotas" JSON; req "pricing" JSON; req "is_active" BOOLEAN; id_column; created_at]
     [(None, ["name"])]
     [])).
Definition Project_table : string * Table := ("projects",
   (table [req "organization_id" GUID; req "name" (VARCHAR 200); req "slug" (VARCHAR 200); id_column; created_at]
     [(Some "uq_project_org_slug", ["organization_id"; "slug"])]
     [ref "organization_id" "organizations"])).
Definition QueryExecution_table : string * Table := ("query_executions",
   (table [req "database_id" GUID; req "user_id" GUID; req "query_text" (VARCHAR 10000); req "status" (VARCHAR 20);
      opt "row_count" INTEGER; opt "duration_ms" INTEGER; opt "error" (VARCHAR 2000); id_column; created_at]
     []
     [ref "database_id" "databases"; ref "user_id" "users"])).
Definition Region_table : string * Table := ("regions",
   (table [req "code" (VARCHAR 50); req "name" (VARCHAR 200); req "active" BOOLEAN; id_column; created_at]
     []
     [])).
Definition SavedQuery_table : string * Table := ("saved_queries",
   (table [req "database_id" GUID; req "user_id" GUID; req "name" (VARCHAR 200); req "query_text" (VARCHAR 10000);
      id_column; created_at]
     []
     [ref "database_id" "databases"; ref "user_id" "users"])).
Definition Subscription_table : string * Table := ("subscriptions",
   (table [req "organization_id" GUID; req "plan_id" GUID; req "status" (ENUM ["ACTIVE"; "PAST_DUE"; "CANCELED"] 20);
      req "current_period_start" DATETIME; req "current_period_end" DATETIME; id_column; created_at]
     [(None, ["organization_id"])]
     [ref "organization_id" "organizations"; ref "plan_id" "plans"])).
Definition UsageRecord_table : string * Table := ("usage_records",
   (table [req "database_id" GUID; req "metric" (ENUM ["CPU_HOURS"; "STORAGE_GB_HOURS"; "CONNECTIONS"; "EGRESS_GB"] 20);
      req "value" (NUMERIC 18 6); req "period_start" DATETIME; req "period_end" DATETIME; id_column; created_at]
     []
     [ref "database_id" "databases"])).
Definition User_table : string * Table := ("users",
   (table [req "email" (VARCHAR 320); opt "password_hash" (VARCHAR 255); req "mfa_enabled" BOOLEAN;
      opt "mfa_secret" (VARCHAR 64); req "is_platform_admin" BOOLEAN; opt "last_login_at" DATETIME;
      req "token_version" INTEGER; id_column; created_at]
     []
     [])).
Definition Webhook_table : string * Table := ("webhooks",
   (table [req "organization_id" GUID; req "url" (VARCHAR 2048); req "encrypted_secret" (VARCHAR 500);
      req "event_types" JSON; req "is_active" BOOLEAN; id_column; created_at]
     []
     [ref "organization_id" "organizations"])).
Definition WebhookDelivery_table : string * Table := ("webhook_deliveries",
   (table [req "webhook_id" GUID; req "event_type" (VARCHAR 100); req "payload" JSON;
      req "status" (ENUM ["PENDING"; "SUCCEEDED"; "FAILED"] 20); opt "response_code" INTEGER;
      opt "error" (VARCHAR 2000); opt "delivered_at" DATETIME; id_column; created_at]
     []
     [ref "webhook_id" "webhooks"])).

Definition metadata : Schema := mkSchema
  (list_to_map [ApiKey_table; AuditLog_table; Backup_table; Cluster_table; ClusterEvent_table; ClusterMember_table; Database_table;
    DatabaseCredential_table; DatabaseEvent_table; Invoice_table; InvoiceLineItem_table; Job_table; Membership_table;
    Node_table; NodeRegistrationToken_table; Notification_table; OAuthAccount_table; Organization_table; Payment_table;
    Plan_table; Project_table; QueryExecution_table; Region_table; SavedQuery_table; Subscription_table;
    UsageRecord_table; User_table; Webhook_table; WebhookDelivery_table])
  (list_to_map [
    ("ix_api_keys_key_prefix", mkIndex "api_keys" ["key_prefix"] true);
    ("ix_invoices_organization_id", mkIndex "invoices" ["organization_id"] false);
    ("ix_invoice_line_items_invoice_id", mkIndex "invoice_line_items" ["invoice_id"] false);
    ("ix_jobs_idempotency_key", mkIndex "jobs" ["idempotency_key"] true);
    ("ix_notifications_user_id", mkIndex "notifications" ["user_id"] false);
    ("ix_oauth_accounts_user_id", mkIndex "oauth_accounts" ["user_id"] false);
    ("ix_organizations_slug", mkIndex "organizations" ["slug"] true);
    ("ix_payments_invoice_id", mkIndex "payments" ["invoice_id"] false);
    ("ix_payments_organization_id", mkIndex "payments" ["organization_id"] false);
    ("ix_regions_code", mkIndex "regions" ["code"] true);
    ("ix_usage_records_database_id", mkIndex "usage_records" ["database_id"] false);
    ("ix_users_email", mkIndex "users" ["email"] true)]).

(** The revisions in the order of [down_revision]. *)
Definition revisions : list Revision := [
  mkRevision "a45b5b16976b" phase1_upgrade phase1_downgrade; mkRevision "76b489b900f0" phase2_upgrade phase2_downgrade;
  mkRevision "b3489595e8e2" phase3_upgrade phase3_downgrade; mkRevision "02bf785abd33" phase4_upgrade phase4_downgrade;
  mkRevision "d3588dbb41a9" phase5_upgrade phase5_downgrade; mkRevision "dcb65b0f22af" phase6_upgrade phase6_downgrade;
  mkRevision "2d631f31d1dd" phase8_upgrade phase8_downgrade; mkRevision "3889e63a4a84" phase10_upgrade phase10_downgrade;
  mkRevision "28c5766275ca" phase12_payments_upgrade phase12_payments_downgrade;
  mkRevision "faba0e0ea8ab" phase12_oauth_upgrade phase12_oauth_downgrade; mkRevision "3675a60c00be" phase13_upgrade phase13_downgrade;
  mkRevision "9e7d7fcad4e3" phase14_upgrade phase14_downgrade].
