(* ===== verification/MfRevisions.v ===== *)
(** * The revisions of the two databases of the microfinance service:
    [microfinance/alembic_control/versions/] and [alembic_tenant/versions/], and their models

    The tenant revisions run on the database of every institution when it is onboarded. *)

From S2P Require Import Prelude Schema.

(** ** Model *)

(** *** The revisions *)

(** [1e455bfadcce_initial_control_schema.py] *)
Definition control_initial_upgrade : list op := [
   CreateTable "mf_institutions"
     (table [req "name" (VARCHAR 200); req "slug" (VARCHAR 63);
        req "status" (ENUM ["PROVISIONING"; "ACTIVE"; "FAILED"; "SUSPENDED"] 20); opt "cp_project_id" GUID;
        opt "cp_database_id" GUID; opt "db_host" (VARCHAR 255); opt "db_port" INTEGER; opt "db_name" (VARCHAR 100);
        opt "db_username" (VARCHAR 100); opt "encrypted_db_password" (VARCHAR 500);
        opt "failure_reason" (VARCHAR 2000); id_column; created_at]
       []
       []);
   CreateIndex "ix_mf_institutions_slug" "mf_institutions" ["slug"] true;
   CreateTable "mf_jobs"
     (table [req "type" (VARCHAR 50); req "status" (ENUM ["QUEUED"; "RUNNING"; "SUCCEEDED"; "FAILED"; "RETRYING"] 20);
        opt "institution_id" GUID; req "payload" JSON; opt "result" JSON; opt "error" (VARCHAR 2000);
        req "attempts" INTEGER; req "max_attempts" INTEGER;
        ("next_run_at", mkColumn DATETIME false (Some "(CURRENT_TIMESTAMP)")); opt "started_at" DATETIME;
        opt "completed_at" DATETIME; id_column; created_at]
       []
       []);
   CreateTable "mf_platform_accounts"
     (table [req "cp_organization_id" GUID; req "cp_email" (VARCHAR 255); req "encrypted_cp_password" (VARCHAR 500);
        opt "cached_access_token" (VARCHAR 2000); opt "token_expires_at" DATETIME; id_column; created_at]
       []
       []);
   CreateTable "mf_staff_users"
     (table [req "institution_id" GUID; req "email" (VARCHAR 255); req "password_hash" (VARCHAR 500);
        req "role" (ENUM ["INSTITUTION_ADMIN"; "BRANCH_MANAGER"; "LOAN_OFFICER"; "TELLER"] 30);
        opt "tenant_agent_id" GUID; req "is_active" BOOLEAN; id_column; created_at]
       [(Some "uq_mf_staff_institution_email", ["institution_id"; "email"])]
       [ref "institution_id" "mf_institutions"]);
   CreateIndex "ix_mf_staff_users_institution_id" "mf_staff_users" ["institution_id"] false].
Definition control_initial_downgrade : list op := [
   DropIndex "ix_mf_staff_users_institution_id" "mf_staff_users";
   DropTable "mf_staff_users";
   DropTable "mf_platform_accounts";
   DropTable "mf_jobs";
   DropIndex "ix_mf_institutions_slug" "mf_institutions";
   DropTable "mf_institutions"].

(** [c9149e0d2f40_initial_tenant_schema.py] *)
Definition tenant_initial_upgrade : list op := [
   CreateTable "branches"
     (table [req "name" (VARCHAR 200); req "code" (VARCHAR 20); id_column; created_at]
       [(None, ["code"])]
       []);
   CreateTable "institution_profile"
     (table [req "name" (VARCHAR 200); req "currency" (VARCHAR 3); id_column; created_at]
       []
       []);
   CreateTable "agents"
     (table [opt "branch_id" GUID; req "full_name" (VARCHAR 200);
        req "role" (ENUM ["INSTITUTION_ADMIN"; "BRANCH_MANAGER"; "LOAN_OFFICER"; "TELLER"] 30); id_column; created_at]
       []
       [ref "branch_id" "branches"])].
Definition tenant_initial_downgrade : list op := [
   DropTable "agents";
   DropTable "institution_profile";
   DropTable "branches"].

(** [ce24430a9cab_phase_9_2_ledger_and_savings.py] *)
Definition tenant_ledger_upgrade : list op := [
   CreateTable "internal_accounts"
     (table [req "name" (VARCHAR 50); req "normal_balance_side" (VARCHAR 10); req "balance_cached" (NUMERIC 18 2);
        id_column; created_at]
       [(None, ["name"])]
       []);
   CreateTable "savings_products"
     (table [req "name" (VARCHAR 200); req "code" (VARCHAR 30); req "annual_interest_rate" (NUMERIC 6 4);
        req "min_opening_balance" (NUMERIC 18 2); id_column; created_at]
       [(None, ["code"])]
       []);
   CreateTable "transactions"
     (table [req "type" (VARCHAR 50); req "amount" (NUMERIC 18 2); opt "description" (VARCHAR 500);
        req "idempotency_key" (VARCHAR 255); id_column; created_at]
       [(None, ["idempotency_key"])]
       []);
   CreateTable "customers"
     (table [req "branch_id" GUID; req "full_name" (VARCHAR 200); opt "phone" (VARCHAR 30);
        req "kyc_status" (ENUM ["PENDING"; "VERIFIED"; "REJECTED"] 20); req "identity_documents" JSON; id_column;
        created_at]
       []
       [ref "branch_id" "branches"]);
   CreateTable "ledger_entries"
     (table [req "transaction_id" GUID; req "account_type" (VARCHAR 30); req "account_id" GUID;
        req "direction" (ENUM ["DEBIT"; "CREDIT"] 10); req "amount" (NUMERIC 18 2); id_column; created_at]
       []
       [ref "transaction_id" "transactions"]);
   CreateIndex "ix_ledger_entries_account_id" "ledger_entries" ["account_id"] false;
   CreateIndex "ix_ledger_entries_transaction_id" "ledger_entries" ["transaction_id"] false;
   CreateTable "savings_accounts"
     (table [req "customer_id" GUID; req "product_id" GUID; req "account_number" (VARCHAR 30);
        req "status" (ENUM ["ACTIVE"; "CLOSED"] 20); req "balance_cached" (NUMERIC 18 2); id_column; created_at]
       [(None, ["account_number"])]
       [ref "customer_id" "customers"; ref "product_id" "savings_products"])].
Definition tenant_ledger_downgrade : list op := [
   DropTable "savings_accounts";
   DropIndex "ix_ledger_entries_transaction_id" "ledger_entries";
   DropIndex "ix_ledger_entries_account_id" "ledger_entries";
   DropTable "ledger_entries";
   DropTable "customers";
   DropTable "transactions";
   DropTable "savings_products";
   DropTable "internal_accounts"].

(** [0f356ef160e1_phase_9_3_loans.py] *)
Definition tenant_loans_upgrade : list op := [
   CreateTable "loan_products"
     (table [req "name" (VARCHAR 200); req "code" (VARCHAR 30);
        req "amortization_method" (ENUM ["DECLINING_BALANCE"; "FLAT"] 20); req "periodic_interest_rate" (NUMERIC 8 6);
        req "min_principal" (NUMERIC 18 2); req "max_principal" (NUMERIC 18 2); req "min_term_months" INTEGER;
        req "max_term_months" INTEGER; id_column; created_at]
       [(None, ["code"])]
       []);
   CreateTable "loans"
     (table [req "customer_id" GUID; req "product_id" GUID; req "principal" (NUMERIC 18 2); req "term_months" INTEGER;
        req "status" (ENUM ["DRAFT"; "PENDING_APPROVAL"; "APPROVED"; "REJECTED"; "ACTIVE"; "CLOSED"; "DEFAULTED"] 20);
        opt "approved_by_staff_id" GUID; opt "approved_at" DATETIME; opt "disbursed_at" DATETIME;
        opt "closed_at" DATETIME; opt "rejection_reason" (VARCHAR 500); req "outstanding_principal" (NUMERIC 18 2);
        id_column; created_at]
       []
       [ref "customer_id" "customers"; ref "product_id" "loan_products"]);
   CreateTable "repayment_schedules"
     (table [req "loan_id" GUID; req "version" INTEGER; req "is_active" BOOLEAN; id_column; created_at]
       []
       [ref "loan_id" "loans"]);
   CreateTable "repayment_schedule_lines"
     (table [req "schedule_id" GUID; req "installment_number" INTEGER; req "due_date" DATE;
        req "principal_due" (NUMERIC 18 2); req "interest_due" (NUMERIC 18 2); req "penalty_due" (NUMERIC 18 2);
        req "principal_paid" (NUMERIC 18 2); req "interest_paid" (NUMERIC 18 2);
        req "status" (ENUM ["PENDING"; "PAID"] 20); id_column; created_at]
       []
       [ref "schedule_id" "repayment_schedules"])].
Definition tenant_loans_downgrade : list op := [
   DropTable "repayment_schedule_lines";
   DropTable "repayment_schedules";
   DropTable "loans";
   DropTable "loan_products"].

(** *** The models *)

Definition MFInstitution_table : string * Table := ("mf_institutions",
   (table [req "name" (VARCHAR 200); req "slug" (VARCHAR 63);
      req "status" (ENUM ["PROVISIONING"; "ACTIVE"; "FAILED"; "SUSPENDED"] 20); opt "cp_project_id" GUID;
      opt "cp_database_id" GUID; opt "db_host" (VARCHAR 255); opt "db_port" INTEGER; opt "db_name" (VARCHAR 100);
      opt "db_username" (VARCHAR 100); opt "encrypted_db_password" (VARCHAR 500); opt "failure_reason" (VARCHAR 2000);
      id_column; created_at]
     []
     [])).
Definition MFJob_table : string * Table := ("mf_jobs",
   (table [req "type" (VARCHAR 50); req "status" (ENUM ["QUEUED"; "RUNNING"; "SUCCEEDED"; "FAILED"; "RETRYING"] 20);
      opt "institution_id" GUID; req "payload" JSON; opt "result" JSON; opt "error" (VARCHAR 2000);
      req "attempts" INTEGER; req "max_attempts" INTEGER; ("next_run_at", mkColumn DATETIME false (Some "now()"));
      opt "started_at" DATETIME; opt "completed_at" DATETIME; id_column; created_at]
     []
     [])).
Definition MFPlatformAccount_table : string * Table := ("mf_platform_accounts",
   (table [req "cp_organization_id" GUID; req "cp_email" (VARCHAR 255); req "encrypted_cp_password" (VARCHAR 500);
      opt "cached_access_token" (VARCHAR 2000); opt "token_expires_at" DATETIME; id_column; created_at]
     []
     [])).
Definition MFStaffUser_table : string * Table := ("mf_staff_users",
   (table [req "institution_id" GUID; req "email" (VARCHAR 255); req "password_hash" (VARCHAR 500);
      req "role" (ENUM ["INSTITUTION_ADMIN"; "BRANCH_MANAGER"; "LOAN_OFFICER"; "TELLER"] 30);
      opt "tenant_agent_id" GUID; req "is_active" BOOLEAN; id_column; created_at]
     [(Some "uq_mf_staff_institution_email", ["institution_id"; "email"])]
     [ref "institution_id" "mf_institutions"])).
Definition Agent_table : string * Table := ("agents",
   (table [opt "branch_id" GUID; req "full_name" (VARCHAR 200);
      req "role" (ENUM ["INSTITUTION_ADMIN"; "BRANCH_MANAGER"; "LOAN_OFFICER"; "TELLER"] 30); id_column; created_at]
     []
     [ref "branch_id" "branches"])).
Definition Branch_table : string * Table := ("branches",
   (table [req "name" (VARCHAR 200); req "code" (VARCHAR 20); id_column; created_at]
     [(None, ["code"])]
     [])).
Definition Customer_table : string * Table := ("customers",
   (table [req "branch_id" GUID; req "full_name" (VARCHAR 200); opt "phone" (VARCHAR 30);
      req "kyc_status" (ENUM ["PENDING"; "VERIFIED"; "REJECTED"] 20); req "identity_documents" JSON; id_column;
      created_at]
     []
     [ref "branch_id" "branches"])).
Definition InstitutionProfile_table : string * Table := ("institution_profile",
   (table [req "name" (VARCHAR 200); req "currency" (VARCHAR 3); id_column; created_at]
     []
     [])).
Definition InternalAccount_table : string * Table := ("internal_accounts",
   (table [req "name" (VARCHAR 50); req "normal_balance_side" (VARCHAR 10); req "balance_cached" (NUMERIC 18 2); id_column;
      created_at]
     [(None, ["name"])]
     [])).
Definition LedgerEntry_table : string * Table := ("ledger_entries",
   (table [req "transaction_id" GUID; req "account_type" (VARCHAR 30); req "account_id" GUID;
      req "direction" (ENUM ["DEBIT"; "CREDIT"] 10); req "amount" (NUMERIC 18 2); id_column; created_at]
     []
     [ref "transaction_id" "transactions"])).
Definition Loan_table : string * Table := ("loans",
   (table [req "customer_id" GUID; req "product_id" GUID; req "principal" (NUMERIC 18 2); req "term_months" INTEGER;
      req "status" (ENUM ["DRAFT"; "PENDING_APPROVAL"; "APPROVED"; "REJECTED"; "ACTIVE"; "CLOSED"; "DEFAULTED"] 20);
      opt "approved_by_staff_id" GUID; opt "approved_at" DATETIME; opt "disbursed_at" DATETIME;
      opt "closed_at" DATETIME; opt "rejection_reason" (VARCHAR 500); req "outstanding_principal" (NUMERIC 18 2);
      id_column; created_at]
     []
     [ref "customer_id" "customers"; ref "product_id" "loan_products"])).
Definition LoanProduct_table : string * Table := ("loan_products",
   (table [req "name" (VARCHAR 200); req "code" (VARCHAR 30);
      req "amortization_method" (ENUM ["DECLINING_BALANCE"; "FLAT"] 20); req "periodic_interest_rate" (NUMERIC 8 6);
      req "min_principal" (NUMERIC 18 2); req "max_principal" (NUMERIC 18 2); req "min_term_months" INTEGER;
      req "max_term_months" INTEGER; id_column; created_at]
     [(None, ["code"])]
     [])).
Definition RepaymentSchedule_table : string * Table := ("repayment_schedules",
   (table [req "loan_id" GUID; req "version" INTEGER; req "is_active" BOOLEAN; id_column; created_at]
     []
     [ref "loan_id" "loans"])).
Definition RepaymentScheduleLine_table : string * Table := ("repayment_schedule_lines",
   (table [req "schedule_id" GUID; req "installment_number" INTEGER; req "due_date" DATE;
      req "principal_due" (NUMERIC 18 2); req "interest_due" (NUMERIC 18 2); req "penalty_due" (NUMERIC 18 2);
      req "principal_paid" (NUMERIC 18 2); req "interest_paid" (NUMERIC 18 2);
      req "status" (ENUM ["PENDING"; "PAID"] 20); id_column; created_at]
     []
     [ref "schedule_id" "repayment_schedules"])).
Definition SavingsAccount_table : string * Table := ("savings_accounts",
   (table [req "customer_id" GUID; req "product_id" GUID; req "account_number" (VARCHAR 30);
      req "status" (ENUM ["ACTIVE"; "CLOSED"] 20); req "balance_cached" (NUMERIC 18 2); id_column; created_at]
     [(None, ["account_number"])]
     [ref "customer_id" "customers"; ref "product_id" "savings_products"])).
Definition SavingsProduct_table : string * Table := ("savings_products",
   (table [req "name" (VARCHAR 200); req "code" (VARCHAR 30); req "annual_interest_rate" (NUMERIC 6 4);
      req "min_opening_balance" (NUMERIC 18 2); id_column; created_at]
     [(None, ["code"])]
     [])).
Definition Transaction_table : string * Table := ("transactions",
   (table [req "type" (VARCHAR 50); req "amount" (NUMERIC 18 2); opt "description" (VARCHAR 500);
      req "idempotency_key" (VARCHAR 255); id_column; created_at]
     [(None, ["idempotency_key"])]
     [])).

Definition control_metadata : Schema := mkSchema
  (list_to_map [MFInstitution_table; MFJob_table; MFPlatformAccount_table; MFStaffUser_table])
  (list_to_map [
    ("ix_mf_institutions_slug", mkIndex "mf_institutions" ["slug"] true);
    ("ix_mf_staff_users_institution_id", mkIndex "mf_staff_users" ["institution_id"] false)]).
Definition tenant_metadata : Schema := mkSchema
  (list_to_map [Agent_table; Branch_table; Customer_table; InstitutionProfile_table; InternalAccount_table; LedgerEntry_table;
    Loan_table; LoanProduct_table; RepaymentSchedule_table; RepaymentScheduleLine_table; SavingsAccount_table;
    SavingsProduct_table; Transaction_table])
  (list_to_map [
    ("ix_ledger_entries_transaction_id", mkIndex "ledger_entries" ["transaction_id"] false);
    ("ix_ledger_entries_account_id", mkIndex "ledger_entries" ["account_id"] false)]).

Definition control_revisions : list Revision := [mkRevision "1e455bfadcce" control_initial_upgrade control_initial_downgrade].
Definition tenant_revisions : list Revision := [
  mkRevision "c9149e0d2f40" tenant_initial_upgrade tenant_initial_downgrade;
  mkRevision "ce24430a9cab" tenant_ledger_upgrade tenant_ledger_downgrade;
  mkRevision "0f356ef160e1" tenant_loans_upgrade tenant_loans_downgrade].
