(* ===== verification/Migrations.v ===== *)
(** * What the revisions make of the three databases

    The database of the control plane, the one of the microfinance service and the one of each
    institution, from nothing to the last revision: what [alembic upgrade head] makes is what
    the models declare, downgrades undo it, and the rows that the services look up one by
    one are unique. *)

From S2P Require Import Prelude Schema Revisions MfRevisions.
From S2P Require Import ControlPlane Organizations.

(** ** Model *)

(** A deployment: the tables are new, and empty. *)
Definition fresh (table : string) : bool := false.
(** The revisions of each database, and the models that use it. *)
Definition databases : list (list Revision * Schema) :=
  [(revisions, metadata); (control_revisions, control_metadata); (tenant_revisions, tenant_metadata)].

(** The states that revisions leave, up and down, one after the other, in any order, with rows in
    any tables. *)
Inductive migrated : Schema -> Prop :=
| migrated_new : migrated empty_schema
| migrated_up populated db r s t : db ∈ databases -> r ∈ db.1 -> migrated s -> run populated (upgrade r) s = Some t -> migrated t
| migrated_down populated db r s t : db ∈ databases -> r ∈ db.1 -> migrated s -> run populated (downgrade r) s = Some t -> migrated t.

(** The revisions with the schema each finds. *)
Fixpoint history (l : list Revision) (s : Schema) : list (Revision * Schema) :=
  match l with
  | [] => []
  | r :: l => (r, s) :: match run fresh (upgrade r) s with Some t => history l t | None => [] end
  end.

(** At most one row has these values. *)
Definition unique_in (s : Schema) (table : string) (cols : list string) : bool :=
  match tables s !! table with
  | Some t => bool_decide (identifies t cols)
  | None => false
  end || existsb (fun i => bool_decide (i.2 = mkIndex table cols true)) (map_to_list (indexes s)).

(** The lookups that raise when there is more than one row ([scalar_one_or_none]), by the columns they
    compare. *)
Definition control_plane_lookups : list (string * list string) := [
  ("users", ["email"]); ("api_keys", ["key_prefix"]); ("organizations", ["slug"]);
  ("memberships", ["user_id"; "organization_id"]); ("projects", ["organization_id"; "slug"]); ("regions", ["code"]);
  ("databases", ["project_id"; "name"]); ("jobs", ["idempotency_key"]); ("plans", ["name"]);
  ("subscriptions", ["organization_id"]); ("payments", ["provider"; "provider_payment_id"]);
  ("oauth_accounts", ["provider"; "provider_account_id"])].
Definition microfinance_lookups : list (string * list string) := [
  ("mf_institutions", ["slug"]); ("mf_staff_users", ["institution_id"; "email"])].
Definition tenant_lookups : list (string * list string) := [
  ("transactions", ["idempotency_key"]); ("savings_products", ["code"]); ("loan_products", ["code"]);
  ("internal_accounts", ["name"])].
Definition lookups : list (list Revision * list (string * list string)) :=
  [(revisions, control_plane_lookups); (control_revisions, microfinance_lookups); (tenant_revisions, tenant_lookups)].

(** The schema at the last revision has each lookup unique; a refused revision has none. *)
Definition head_is_unique (l : list Revision) (tc : string * list string) : bool :=
  match upgrade_head fresh l empty_schema with Some head => unique_in head tc.1 tc.2 | None => false end.
Definition head_implements (l : list Revision) (models : Schema) : bool :=
  match upgrade_head fresh l empty_schema with Some head => bool_decide (implements head models) | None => false end.
Definition restores (populated : string -> bool) (rs : Revision * Schema) : bool :=
  match run fresh (upgrade rs.1) rs.2 with
  | Some t => bool_decide (run populated (downgrade rs.1) t = Some rs.2)
  | None => false
  end.
(** [3675a60c00be] drops a constraint that it did not name. *)
Definition reversible (r : Revision) : bool := negb (bool_decide (revision r = "3675a60c00be")).

(** The rows of [bulk_insert]. *)
Definition default_plans : list (list (string * cell)) :=
  match phase10_upgrade !! 1%nat with Some (BulkInsert _ rows) => rows | _ => [] end.

(** ** Lemmas *)

Lemma head_implements_run l models :
  head_implements l models = true -> exists head, upgrade_head fresh l empty_schema = Some head /\ implements head models.
Proof.
  unfold head_implements. destruct (upgrade_head _ _ _) as [head|]; [|done]. intros H%bool_decide_eq_true. by exists head.
Qed.
(** ** Properties *)


(** Upgraded and downgraded in any order, with rows in any tables, a database has no
    dangling reference: each one has a target in an existing table, of its own type, that
    identifies a row; keys are never null, and the labels of an enumeration fit in their column. *)
Theorem migrated_well_formed s : migrated s -> well_formed s.
Proof. induction 1; [apply well_formed_empty|by eapply run_well_formed..]. Qed.

Lemma migrated_well_formed_witness :
  exists s, migrated s /\ well_formed s /\ size (tables s) = 6%nat.
Proof.
  destruct (run fresh phase1_upgrade empty_schema) as [s|] eqn:E; [|exfalso; vm_compute in E; discriminate E].
  assert (H : migrated s).
  { apply (migrated_up fresh (revisions, metadata) (mkRevision "a45b5b16976b" phase1_upgrade phase1_downgrade) empty_schema s);
      [left|left|constructor|exact E]. }
  exists s. split; [exact H|]. split; [apply (migrated_well_formed s H)|].
  change (size (tables s)) with (default O ((fun s => size (tables s)) <$> Some s)). rewrite <- E. vm_compute. reflexivity.
Defined.

(** Downgrading a revision right after it, whatever rows came in between, gives the
    schema it found, for every revision but one. *)
Theorem downgrades_restore populated :
  Forall (fun db => forall r s, (r, s) ∈ history db.1 empty_schema -> reversible r = true ->
    exists t, run fresh (upgrade r) s = Some t /\ run populated (downgrade r) t = Some s) databases.
Proof.
  assert (H : forallb (fun db => forallb (restores populated) (List.filter (fun rs => reversible rs.1) (history db.1 empty_schema)))
    databases = true) by (vm_compute; reflexivity).
  apply Forall_forall. intros db Hdb r s Hin Hr. rewrite forallb_forall in H. apply list_elem_of_In, H in Hdb.
  rewrite forallb_forall in Hdb. specialize (Hdb (r, s)). unfold restores in Hdb. cbn [fst snd] in Hdb.
  destruct (run fresh (upgrade r) s) as [t|].
  - exists t. split; [done|]. eapply bool_decide_eq_true_1, Hdb, filter_In. split; [by apply list_elem_of_In|done].
  - enough (false = true) by done. apply Hdb, filter_In. split; [by apply list_elem_of_In|done].
Qed.

(** The rows that the services look for one by one are unique in the database. *)
Lemma lookups_are_unique : Forall (fun l => Forall (fun tc => head_is_unique l.1 tc = true) l.2) lookups.
Proof. repeat constructor; vm_compute; reflexivity. Qed.

(** The plan of a new organization is inserted by the revisions. *)
Lemma default_plan_is_seeded :
  match upgrade_head fresh revisions empty_schema with
  | Some head => exists t row, tables head !! "plans" = Some t /\ row ∈ seeds t /\
      ("name", CText DEFAULT_PLAN_NAME) ∈ row /\ ("is_active", CBool true) ∈ row
  | None => False
  end.
Proof.
  pose (plan := upgrade_head fresh revisions empty_schema ≫= fun head => seeds <$> tables head !! "plans").
  assert (H : plan = Some default_plans) by (vm_compute; reflexivity). unfold plan in H.
  destruct (upgrade_head fresh revisions empty_schema) as [head|]; [|discriminate H]. cbn [mbind option_bind] in H.
  destruct (tables head !! "plans") as [t|]; [|discriminate H]. injection H as H. exists t. rewrite H.
  eexists. split; [reflexivity|]. split; [left|]. split; [right; left|do 4 right; left].
Qed.

(** ** Findings *)

(** The column [is_platform_admin] must have a value and has no default: the second revision fails on a
    database with a user. *)
Example phase2_needs_an_empty_table :
  match run fresh phase1_upgrade empty_schema with
  | Some s => run fresh phase2_upgrade s <> None /\ run (fun n => bool_decide (n = "users")) phase2_upgrade s = None
  | None => False
  end.
Proof. vm_compute. split; [discriminate|reflexivity]. Qed.
(** The reference that [3675a60c00be] adds has no name, and its downgrade drops a constraint without one: it
    never runs, and no database goes below this revision. *)
Lemma phase13_cannot_be_downgraded populated s : run populated phase13_downgrade s = None.
Proof. done. Qed.
